(* ===== verification/_CoqProject ===== *)
-Q . S2P
Prelude.v
GoStrings.v
GoTrim.v
GoHeap.v
GoHash.v
GoPath.v
GoJson.v
JsonText.v
GoFlag.v
GoHttp.v
Api.v
DeepCopy.v
Samples.v
Render.v
WorkerConfig.v
WorkerScript.v
WorkerHost.v
WorkerApply.v
WorkerSim.v
WorkerMain.v
K8s.v
ApiServer.v
Rollout.v
SysctlController.v
ScriptController.v
Snapshot.v
ReportServer.v
ReportDecode.v
Metrics.v
ReportHttp.v
ReportRefine.v
Profile.v
KindRefine.v
SysctlRefine.v
ScriptRefine.v
BothKinds.v
ReportStore.v
ClusterSim.v
ControllerSim.v
StatusInPlace.v
SnapshotSim.v
Concurrent.v
HandlerSends.v
System.v
Convergence.v
NodeEvents.v
Termination.v
Manager.v
Scheme.v
ManagerSim.v
SystemSim.v
Interleaving.v
EndToEnd.v
InterleavingSim.v
