(* ===== verification/Prelude.v ===== *)
(** * A verification of sysctl-operator

    sysctl-operator is a Kubernetes operator. A user writes a SysctlProfile (kernel
    parameters for a set of nodes) or a ScriptProfile (scripts for a set of nodes).
    A controller renders the profile into a ConfigMap and starts a privileged
    DaemonSet whose pods, the workers, apply the config on each node and POST a
    report to the operator's report API, which records it in the profile's status.
    When every selected node has reported success for the current config's hash,
    the controller deletes the DaemonSet; a node that joins, or a changed config,
    starts it again. This library models the operator's Go code and proves that the
    parts do this, and where they do not.

    ** The parts and the files that model them

    - Data. [Api]: the types of api/v1alpha1 and the Kubernetes metadata they embed,
      as records. [Samples]: the sample manifests as values. [DeepCopy]: the types as
      they are in memory and the generated deep copies, on the heap of [GoHeap].
    - Go's standard library, as far as the code uses it. [GoStrings] and [GoTrim]:
      package strings on byte strings; [GoHash]: crypto/sha256 and hex, executable,
      checked on test vectors; [GoPath]: path/filepath; [GoJson]: JSON values, UTF-8
      and key matching of encoding/json; [JsonText]: its encoder and its decoder on
      bytes; [GoFlag]: package flag; [GoHttp]: request targets and the routing of
      http.ServeMux; [GoHeap]: slices, pointers and copies in a heap.
    - Rendering. [Render]: renderSysctlConf, renderScripts, hashContent, the names
      and labels of the owned objects (internal/controller).
    - The worker (internal/worker, cmd/worker). [WorkerConfig]: config.go;
      [WorkerScript]: script.go; [WorkerHost]: the node as an interface (read a
      file, list a directory, run a program, send a request), without laws;
      [WorkerApply]: apply.go, and the commands of a run as a relation ([applies]);
      [WorkerMain]: report.go and cmd/worker/main.go; [WorkerSim]: a simulated node.
    - The cluster. [K8s]: what a handler asks of the world, as a type of calls with
      their responses; handlers are programs ([prog]) over these calls, executed
      against any step relation ([exec]) or by a server that is a function ([run]);
      the helper packages of controller-runtime are the operations of [K8sLib] with
      the laws [K8sLibLaws]. [ApiServer]: the API server as a store, by laws.
      [ClusterSim]: a simulated server and helper packages that satisfy all laws.
    - The controllers (internal/controller). [Rollout]: the gate both share;
      [SysctlController], [ScriptController]: every operation and the Reconcile
      functions as programs; [SysctlRefine], [ScriptRefine]: their specification on
      the store and the refinement; [NodeEvents]: node_predicate.go and the two
      profilesForNode; [Snapshot]: the status update in place, next to the copy it is
      compared with; [ControllerSim], [SnapshotSim]: witnesses.
    - The report API (internal/server, internal/metrics). [ReportServer]: the
      decoder, the status updates and handleReport; [ReportDecode]: what the decoder
      accepts, as a whole; [StatusInPlace]: the status update through pointers and
      append, on the heap; [ReportHttp]: the routes and the life of the HTTP server;
      [Metrics]: the counter and what its increments add up to; [ReportRefine]: its
      answers, its failures, its agreement with the worker; [ReportStore]: the effect of
      a report on the store.
    - Both kinds as one. [Profile]: an object of either kind, the interface
      [ProfileKind] through which a kind is handled, and the proof that the handlers of
      the two kinds are one program over it. [KindRefine]: the interface
      [KindStoreLaws] to the store, and the reconcile and the recording of a report
      proved against it; [SysctlRefine] and [ScriptRefine] discharge it; [BothKinds]:
      the results for a profile of either kind.
    - The main program (cmd/main.go). [Manager]: flags, options, the set-up of the
      manager, the registrations of the controllers, the RBAC markers; [Scheme]: the
      registration of the types; [ManagerSim]: witnesses.
    - The whole. [System]: the pods run the worker, the worker's report reaches the
      status, the status ends or restarts the rollout; [Convergence]: histories of
      reports and reconciles of a profile, of either kind, and how they end;
      [SystemSim]: witnesses.
      [Concurrent]: any number of reconciles of both kinds and report handlers at
      once, next to users, stale reads and failures, with every call one step;
      [HandlerSends]: what the handlers may send, proved once for both kinds;
      [Interleaving]: the invariant and the theorems; [EndToEnd]: the same with the
      workers' runs as the source of the reports; [InterleavingSim]: runs of both
      kinds, and witnesses. [Termination]: every handler ends, after a bounded number
      of requests.

    A Go function has the same name here. Where two packages or methods share one
    (Reconcile, workerImage, profilesForNode), the ScriptProfile's has the prefix
    script_. A Go error is [K8s.error] in the operator and a string in the worker;
    state that the code mutates through a pointer is returned as a new value. The
    places where the code relies on what shares memory with what, the status that a
    reconcile compares with a deep copy of itself and the entry that a report changes
    through a pointer, are modelled on a heap as well ([Snapshot], [StatusInPlace]),
    where the values of the pure model are what is read.

    ** What the theorems show

    - Controllers: a reconcile that succeeds leaves exactly the specified cluster
      (C1, C28), quiesces (C7), creates nothing without the finalizer (C19, and
      [SysctlController.finalizer_before_resources]), cleans up completely and in order
      (C6, C20), and fails only if a call failed (C34); the gate is what it says (C23);
      no relevant node event is missed unless the profiles cannot be listed (C37);
      what it compares the status with is the
      status it read (C16); C6 and C7 are about both kinds, the rest has its counterpart
      in [ScriptController] and [ScriptRefine].
    - Reports: responses (C35), what a body must be to be accepted (C27), the per-node
      statuses (C24) and that the update in place is this one (C17), exact counters
      below 2^31 entries (C36), exactly-once counting of recorded failures under
      retries (C14), recording (C15), agreement of the two ends on bytes, up to invalid
      UTF-8 (C26), and on the address (C30); and that the server's Start does not wait
      for its shutdown ([ReportHttp]).
    - Worker: the config round trip (C22) and what it depends on
      ([WorkerConfig.parse_render_normalises], [WorkerConfig.value_newline_injects]),
      the same for scripts (C29, [WorkerScript.script_truncated_at_footer]), paths
      (C38, C39, [WorkerApply.expand_keys]), which commands an apply runs and how it
      reports them (C25), the drift check ([WorkerApply.check_ok_iff]), scripts
      ([WorkerApply.run_scripts_all]), the hash check (C9) and what a success report
      says about the commands of its run (C5).
    - The whole: the pods' protocols (C10, C31), from a report to the status, for both
      kinds (C8), from the reports of a rollout to its end (C2), from a new node to a
      rollout ([System.joined_node_rolls_out]); and that the drift check cannot work: no
      mode ([System.drift_checker_never_returns]), no config (C40).
    - Concurrency, for profiles of both kinds: with any number of handlers interleaved
      call by call, no teardown before all selected nodes reported success for this
      config (C4) and, if reports come from the pods, before these have run every
      command or script of this config without an error (C3), no report overwritten by a handler that read an older status (C11), every
      stored status well-formed (C12), no field of the user's touched (C13), nothing
      created without the finalizer or under another profile's name (C19).
    - The main program: the calls that set it up, and that it stops at the first that
      fails (C33), its servers are hardened ([Manager.servers_hardened]), the permissions suffice (C32), what is
      owned is watched ([Manager.owned_kinds_watched]), the image of the pods
      ([Manager.worker_image_chain]), the types are registered
      ([Scheme.kinds_registered]).
    - Memory: a deep copy reads as the original and is independent of it (C21).

    ** Bounds and termination

    Every function is total without fuel: parsers recurse on lists of lines or on
    the bytes, programs are well-founded trees. A handler ends whatever the server
    answers, after at most nine requests to it, ten for the report handler (C18).
    RetryOnConflict is a library function; its laws say that its result is that of
    the last of its attempts, and that these are at most five. Go's int32 counters
    wrap ([inc32], [wrap32]); C36 gives the bound below which they are exact.

    ** Assumptions

    Nothing is assumed of the node: of [sysctl], the interpreters and the kernel the
    theorems use only how the commands end, and they claim nothing about values that
    the worker does not read back. Laws of [K8s.K8sLibLaws] (documented behaviour of the helper packages) and
    [ApiServer.ApiServerLaws] (a store with one client at a time and a cache in
    step with it). The theorems on traces of calls (C14, C18, C20, C34, C35) need
    no assumption on the server at all, and those of [Interleaving] only optimistic
    locking: a write takes effect at the stored version alone and gives a new one,
    while a read may be as old as it likes.
    Laws of [DeepCopy.LibCopyLaws] and [Snapshot.InPlaceLaws]: the copies of library
    structs, and what SetStatusCondition writes to. Laws of [Scheme.SchemeLaws]: the
    libraries' share of the scheme.

    ** Not modelled

    Logging; how Prometheus serves the metric; sockets, headers and
    timeouts of HTTP; the manager, its caches and its work queues, which are a
    library; the flags that libraries define. The
    fields of Kubernetes objects that the code neither reads nor writes. The store
    theorems are about one handler at a time; of interleaved handlers, [Concurrent]
    follows the profiles and leaves every other object open. *)
From Stdlib Require Import ZArith Lia.
From stdpp Require Export base tactics list strings gmap option.

#[global] Open Scope Z_scope.
#[global] Open Scope stdpp_scope.

(** ** Machine integers *)

(** A Go [int32]: the two's complement representative of a mathematical
    integer in [-2^31, 2^31). *)
Definition wrap32 (z : Z) : Z := (z + 2^31) mod 2^32 - 2^31.

(** The increment [x++] on an [int32]. *)
Definition inc32 (z : Z) : Z := wrap32 (z + 1).

Definition int32_range (z : Z) : Prop := -2^31 <= z < 2^31.

(** ** Tactics *)

(** Case analysis on the scrutinee of the first [match] of the goal. *)
Ltac case_goal :=
  match goal with
  | |- context [match ?x with _ => _ end] => destruct x eqn:?
  end.

(** Case analysis on the scrutinee of a [match] of a hypothesis. *)
Ltac case_hyp :=
  match goal with
  | H : context [match ?x with _ => _ end] |- _ => destruct x eqn:?
  end.

Create HintDb sysctl discriminated.

(** ** Generic lemmas *)

Lemma wrap32_id (z : Z) : int32_range z -> wrap32 z = z.
Proof. unfold int32_range, wrap32. intros. rewrite Z.mod_small; lia. Qed.

Lemma wrap32_range (z : Z) : int32_range (wrap32 z).
Proof. unfold int32_range, wrap32. pose proof (Z.mod_pos_bound (z + 2^31) (2^32)). lia. Qed.

Lemma inc32_range (z : Z) : int32_range (inc32 z).
Proof. apply wrap32_range. Qed.

Lemma inc32_small (z : Z) : int32_range z -> z <> 2^31 - 1 -> inc32 z = z + 1.
Proof. unfold inc32. intros ??. apply wrap32_id. unfold int32_range in *. lia. Qed.

#[export] Hint Resolve wrap32_range inc32_range : sysctl.

Lemma cons_eq_inv {A : Type} (a b : A) (l m : list A) : a :: l = b :: m -> a = b /\ l = m.
Proof. by intros [= -> ->]. Qed.
