(* ===== verification/GoStrings.v ===== *)
(** * The parts of Go's [strings] package the program uses.

    A Go string is a sequence of bytes: [string], a list of 8-bit [ascii].
    The functions that look at Unicode white space ([TrimSpace], [Fields])
    recognise the UTF-8 encodings of the runes [unicode.IsSpace] accepts; an
    encoding is recognised at a byte offset exactly when its bytes are there,
    because no byte of a longer encoding can start another. *)
From Stdlib Require Import Ascii.
From S2P Require Import Prelude.

(** ** Definitions *)

Definition byte (n : nat) : ascii := ascii_of_nat n.

Definition nl : ascii := byte 10.
Definition eq_sign : ascii := "="%char.
Definition nl_string : string := String nl "".

Fixpoint str_take (n : nat) (s : string) : string :=
  match n, s with
  | S n', String a s' => String a (str_take n' s')
  | _, _ => ""
  end.

Fixpoint str_drop (n : nat) (s : string) : string :=
  match n, s with
  | S n', String _ s' => str_drop n' s'
  | _, _ => s
  end.

(** The remainder of [s] after the prefix [p]. *)
Fixpoint strip_prefix (p s : string) : option string :=
  match p, s with
  | "", _ => Some s
  | String a p', String b s' => if Ascii.eqb a b then strip_prefix p' s' else None
  | String _ _, "" => None
  end.

Definition HasPrefix (s prefix : string) : bool :=
  match strip_prefix prefix s with Some _ => true | None => false end.

Definition TrimPrefix (s prefix : string) : string := default s (strip_prefix prefix s).

Fixpoint HasSuffix (s suffix : string) : bool :=
  String.eqb s suffix || match s with "" => false | String _ s' => HasSuffix s' suffix end.

(** The offset of the first occurrence of [sub]. *)
Fixpoint index_nat (s sub : string) : option nat :=
  if HasPrefix s sub then Some 0%nat
  else match s with
       | "" => None
       | String _ s' => S <$> index_nat s' sub
       end.

(** [strings.Index]: -1 when [sub] is absent. *)
Definition Index (s sub : string) : Z :=
  match index_nat s sub with Some n => Z.of_nat n | None => -1 end.

(** [strings.Cut]: around the first occurrence of [sep]. *)
Definition Cut (s sep : string) : string * string * bool :=
  match index_nat s sep with
  | Some i => (str_take i s, str_drop (i + String.length sep) s, true)
  | None => (s, "", false)
  end.

(** [strings.Split] at a one-byte separator. *)
Fixpoint Split (s : string) (sep : ascii) : list string :=
  match s with
  | "" => [""]
  | String a s' =>
      if Ascii.eqb a sep then "" :: Split s' sep
      else match Split s' sep with
           | [] => [String a ""]
           | l :: ls => String a l :: ls
           end
  end.

Fixpoint Join (elems : list string) (sep : string) : string :=
  match elems with
  | [] => ""
  | [x] => x
  | x :: xs => x +:+ sep +:+ Join xs sep
  end.

(** [strings.ReplaceAll] of one byte by another. *)
Fixpoint ReplaceAll (s : string) (old new : ascii) : string :=
  match s with
  | "" => ""
  | String a s' => String (if Ascii.eqb a old then new else a) (ReplaceAll s' old new)
  end.

(** [strings.TrimLeft] and [strings.TrimRight] with a one-byte cutset. *)
Fixpoint TrimLeft (s : string) (cut : ascii) : string :=
  match s with
  | "" => ""
  | String a s' => if Ascii.eqb a cut then TrimLeft s' cut else s
  end.

Fixpoint TrimRight (s : string) (cut : ascii) : string :=
  match s with
  | "" => ""
  | String a s' =>
      match TrimRight s' cut with
      | "" => if Ascii.eqb a cut then "" else String a ""
      | r => String a r
      end
  end.

(** *** White space, as [unicode.IsSpace] has it *)

(** One byte: '\t', '\n', '\v', '\f', '\r' and ' '. *)
Definition space1 (a : ascii) : bool :=
  let n := nat_of_ascii a in ((9 <=? n) && (n <=? 13))%nat || (n =? 32)%nat.

(** Two bytes: U+0085 and U+00A0. *)
Definition space2 (a b : ascii) : bool :=
  let m := nat_of_ascii a in let n := nat_of_ascii b in
  (m =? 194)%nat && ((n =? 133) || (n =? 160))%nat.

(** Three bytes: U+1680, U+2000..U+200A, U+2028, U+2029, U+202F, U+205F and
    U+3000. *)
Definition space3 (a b c : ascii) : bool :=
  let m := nat_of_ascii a in let n := nat_of_ascii b in let k := nat_of_ascii c in
  ((m =? 225) && (n =? 154) && (k =? 128)
   || (m =? 226) && (n =? 128) &&
      ((128 <=? k) && (k <=? 138) || (k =? 168) || (k =? 169) || (k =? 175))
   || (m =? 226) && (n =? 129) && (k =? 159)
   || (m =? 227) && (n =? 128) && (k =? 128))%nat.

(** The remainder of [s] after a leading white-space rune. *)
Definition space_prefix (s : string) : option string :=
  match s with
  | "" => None
  | String a r1 =>
      if space1 a then Some r1
      else match r1 with
           | "" => None
           | String b r2 =>
               if space2 a b then Some r2
               else match r2 with
                    | "" => None
                    | String c r3 => if space3 a b c then Some r3 else None
                    end
           end
  end.

(** [strings.TrimLeftFunc] with [unicode.IsSpace]. *)
Fixpoint trim_left (s : string) : string :=
  match s with
  | "" => ""
  | String a r1 =>
      if space1 a then trim_left r1
      else match r1 with
           | "" => s
           | String b r2 =>
               if space2 a b then trim_left r2
               else match r2 with
                    | "" => s
                    | String c r3 => if space3 a b c then trim_left r3 else s
                    end
           end
  end.

Definition all_space (s : string) : bool := String.eqb (trim_left s) "".

(** [strings.TrimRightFunc] with [unicode.IsSpace]: drop the longest suffix
    made of white-space runes. *)
Fixpoint trim_right (s : string) : string :=
  match s with
  | "" => ""
  | String a r => if all_space s then "" else String a (trim_right r)
  end.

(** [strings.TrimSpace]. *)
Definition TrimSpace (s : string) : string := trim_right (trim_left s).

(** [strings.Fields]: the maximal runs of bytes between white-space runes.
    [cur] is the field being read; a field is never empty. *)
Definition push_field (cur : string) (fields : list string) : list string :=
  match cur with "" => fields | _ => cur :: fields end.

Fixpoint fields_go (cur s : string) : list string :=
  match s with
  | "" => push_field cur []
  | String a r1 =>
      if space1 a then push_field cur (fields_go "" r1)
      else match r1 with
           | "" => push_field (cur +:+ String a "") []
           | String b r2 =>
               if space2 a b then push_field cur (fields_go "" r2)
               else match r2 with
                    | "" => fields_go (cur +:+ String a "") r1
                    | String c r3 =>
                        if space3 a b c then push_field cur (fields_go "" r3)
                        else fields_go (cur +:+ String a "") r1
                    end
           end
  end.

Definition Fields (s : string) : list string := fields_go "" s.

(** Does the byte [c] occur in [s]? *)
Fixpoint has_byte (c : ascii) (s : string) : bool :=
  match s with
  | "" => false
  | String a s' => Ascii.eqb a c || has_byte c s'
  end.

(** Does a white-space rune occur in [s]? *)
Fixpoint has_space (s : string) : bool :=
  match space_prefix s with
  | Some _ => true
  | None => match s with "" => false | String _ s' => has_space s' end
  end.

Definition sconcat (l : list string) : string := foldr (fun x acc => x +:+ acc) "" l.

(** ** Concatenation *)

Lemma sapp_nil_l (s : string) : "" +:+ s = s.
Proof. reflexivity. Qed.

Lemma sapp_cons (a : ascii) (s t : string) : String a s +:+ t = String a (s +:+ t).
Proof. reflexivity. Qed.

Lemma sapp_nil_r (s : string) : s +:+ "" = s.
Proof. induction s as [|a s IH]; [done|]. by rewrite sapp_cons, IH. Qed.

Lemma sapp_assoc (s t u : string) : (s +:+ t) +:+ u = s +:+ t +:+ u.
Proof. induction s as [|a s IH]; [done|]. by rewrite !sapp_cons, IH. Qed.

Lemma length_sapp (s t : string) :
  String.length (s +:+ t) = (String.length s + String.length t)%nat.
Proof. induction s as [|a s IH]; [done|]. rewrite sapp_cons. simpl. by rewrite IH. Qed.

Lemma sapp_inj_r (s t u : string) : s +:+ u = t +:+ u -> s = t.
Proof.
  revert t. induction s as [|a s IH]; intros [|b t] H; [done| | |].
  - apply (f_equal String.length) in H. rewrite sapp_cons, sapp_nil_l in H. simpl in H.
    rewrite length_sapp in H. lia.
  - apply (f_equal String.length) in H. rewrite sapp_cons, sapp_nil_l in H. simpl in H.
    rewrite length_sapp in H. lia.
  - rewrite !sapp_cons in H. injection H as -> H. by rewrite (IH _ H).
Qed.

Lemma sapp_inj_l (s t u : string) : u +:+ s = u +:+ t -> s = t.
Proof. apply (inj (String.app u)). Qed.

Lemma sapp_eq_nil (s t : string) : s +:+ t = "" -> s = "" /\ t = "".
Proof. destruct s; [done|]. rewrite sapp_cons. discriminate. Qed.

(** Normalise concatenations: right-nested, constructors out. *)
Ltac str_norm := repeat progress (rewrite ?sapp_assoc, ?sapp_cons, ?sapp_nil_l, ?sapp_nil_r).

(** ** Bytes of a concatenation *)

Lemma has_byte_app (c : ascii) (s t : string) :
  has_byte c (s +:+ t) = has_byte c s || has_byte c t.
Proof.
  induction s as [|a s IH]; [done|]. rewrite sapp_cons. simpl. rewrite IH.
  by destruct (Ascii.eqb a c), (has_byte c s).
Qed.

Lemma has_byte_cons_false (c a : ascii) (s : string) :
  has_byte c (String a s) = false <-> a <> c /\ has_byte c s = false.
Proof.
  simpl. rewrite orb_false_iff. destruct (Ascii.eqb_spec a c); split; intros []; auto; congruence.
Qed.

(** ** Prefixes *)

Lemma strip_prefix_app (p s : string) : strip_prefix p (p +:+ s) = Some s.
Proof. induction p as [|a p IH]; [by destruct s|]. rewrite sapp_cons. simpl. by rewrite Ascii.eqb_refl. Qed.

Lemma strip_prefix_Some (p s r : string) : strip_prefix p s = Some r <-> s = p +:+ r.
Proof.
  split; [|intros ->; apply strip_prefix_app].
  revert s. induction p as [|a p IH]; intros [|b s] H; simpl in H; simplify_eq/=; try done.
  destruct (Ascii.eqb_spec a b) as [->|]; [|done]. by rewrite sapp_cons, (IH _ H).
Qed.

Lemma HasPrefix_spec (s p : string) : HasPrefix s p = true <-> exists r, s = p +:+ r.
Proof.
  unfold HasPrefix. split.
  - destruct (strip_prefix p s) as [r|] eqn:E; [|done]. exists r. by apply strip_prefix_Some.
  - intros [r ->]. by rewrite strip_prefix_app.
Qed.

Lemma HasPrefix_app (p s : string) : HasPrefix (p +:+ s) p = true.
Proof. apply HasPrefix_spec. eauto. Qed.

Lemma HasPrefix_nil (s : string) : HasPrefix s "" = true.
Proof. by destruct s. Qed.

Lemma TrimPrefix_app (p s : string) : TrimPrefix (p +:+ s) p = s.
Proof. unfold TrimPrefix. by rewrite strip_prefix_app. Qed.

Lemma HasPrefix_first (a b : ascii) (s : string) :
  HasPrefix (String a s) (String b "") = Ascii.eqb b a.
Proof. unfold HasPrefix. cbn [strip_prefix]. by destruct (Ascii.eqb b a), s. Qed.

Lemma HasPrefix_app_first (a : ascii) (p s t : string) :
  s <> "" -> HasPrefix (s +:+ t) (String a "") = HasPrefix s (String a "").
Proof. destruct s; [done|]. intros _. by rewrite sapp_cons, !HasPrefix_first. Qed.

Lemma HasSuffix_spec (s u : string) : HasSuffix s u = true <-> exists p, s = p +:+ u.
Proof.
  induction s as [|a s IH]; cbn [HasSuffix].
  - rewrite orb_false_r, String.eqb_eq. split.
    + intros <-. by exists "".
    + intros [p H]. symmetry in H. by apply sapp_eq_nil in H as [_ ->].
  - rewrite orb_true_iff, String.eqb_eq, IH. split.
    + intros [<-|[p ->]]; [by exists ""|]. by exists (String a p).
    + intros [[|b p] H]; [by left|]. rewrite sapp_cons in H. injection H as -> ->. eauto.
Qed.

(** ** Taking and dropping *)

Lemma str_take_app (s t : string) : str_take (String.length s) (s +:+ t) = s.
Proof. induction s as [|a s IH]; [by destruct t|]. rewrite sapp_cons. simpl. by rewrite IH. Qed.

Lemma str_drop_app (s t : string) : str_drop (String.length s) (s +:+ t) = t.
Proof. induction s as [|a s IH]; [done|]. by rewrite sapp_cons. Qed.

Lemma str_drop_app_add (n : nat) (s t : string) :
  str_drop (String.length s + n) (s +:+ t) = str_drop n t.
Proof. induction s as [|a s IH]; [done|]. rewrite sapp_cons. simpl. done. Qed.

(** ** Index and Cut *)

Lemma index_nat_Some (s sub : string) (n : nat) :
  index_nat s sub = Some n ->
  exists r, s = str_take n s +:+ sub +:+ r /\ String.length (str_take n s) = n.
Proof.
  revert n. induction s as [|a s IH]; intros n H; cbn [index_nat] in H.
  - destruct (HasPrefix "" sub) eqn:E; simplify_eq.
    apply HasPrefix_spec in E as [r E]. exists r. done.
  - destruct (HasPrefix (String a s) sub) eqn:E; simplify_eq.
    + apply HasPrefix_spec in E as [r E]. exists r. done.
    + destruct (index_nat s sub) as [m|] eqn:Em; simplify_eq/=.
      destruct (IH m eq_refl) as (r & Hr & Hl). exists r. rewrite sapp_cons, <- Hr. auto.
Qed.

Lemma index_nat_byte_app (c : ascii) (s t : string) :
  has_byte c s = false ->
  index_nat (s +:+ String c t) (String c "") = Some (String.length s).
Proof.
  induction s as [|a s IH]; intros H; [|rewrite sapp_cons; apply has_byte_cons_false in H as [? ?]].
  - simpl. unfold HasPrefix. simpl. by rewrite Ascii.eqb_refl.
  - cbn [index_nat]. unfold HasPrefix. cbn [strip_prefix].
    destruct (Ascii.eqb_spec c a); [congruence|]. by rewrite IH.
Qed.

Lemma index_nat_byte_None (c : ascii) (s : string) :
  has_byte c s = false -> index_nat s (String c "") = None.
Proof.
  induction s as [|a s IH]; intros H; [done|]. apply has_byte_cons_false in H as [? ?].
  cbn [index_nat]. unfold HasPrefix. cbn [strip_prefix].
  destruct (Ascii.eqb_spec c a); [congruence|]. by rewrite IH.
Qed.

Lemma Cut_byte_app (c : ascii) (s t : string) :
  has_byte c s = false -> Cut (s +:+ String c t) (String c "") = (s, t, true).
Proof.
  intros H. unfold Cut. rewrite index_nat_byte_app by done.
  rewrite str_take_app, str_drop_app_add. simpl. by destruct t.
Qed.

Lemma Cut_byte_None (c : ascii) (s : string) :
  has_byte c s = false -> Cut s (String c "") = (s, "", false).
Proof. intros H. unfold Cut. by rewrite index_nat_byte_None. Qed.

(** ** Split and Join *)

Lemma Split_no_sep (s : string) (c : ascii) : has_byte c s = false -> Split s c = [s].
Proof.
  induction s as [|a s IH]; intros H; [done|]. apply has_byte_cons_false in H as [? ?].
  simpl. destruct (Ascii.eqb_spec a c); [done|]. by rewrite IH.
Qed.

Lemma Split_app_sep (s t : string) (c : ascii) :
  has_byte c s = false -> Split (s +:+ String c t) c = s :: Split t c.
Proof.
  induction s as [|a s IH]; intros H; [|apply has_byte_cons_false in H as [? ?]; rewrite sapp_cons].
  - simpl. by rewrite Ascii.eqb_refl.
  - simpl. destruct (Ascii.eqb_spec a c); [done|]. by rewrite IH.
Qed.

Lemma Split_not_nil (s : string) (c : ascii) : Split s c <> [].
Proof. destruct s; simpl; repeat case_match; done. Qed.

Lemma Split_app (s t : string) (c : ascii) :
  Split (s +:+ String c t) c = Split s c ++ Split t c.
Proof.
  induction s as [|a s IH]; [simpl; by rewrite Ascii.eqb_refl|].
  rewrite sapp_cons. cbn [Split]. rewrite IH. destruct (Ascii.eqb a c); [done|].
  pose proof (Split_not_nil s c). by destruct (Split s c).
Qed.

Lemma Split_no_byte (s : string) (c : ascii) : Forall (fun l => has_byte c l = false) (Split s c).
Proof.
  induction s as [|a s IH]; simpl; [by constructor|].
  destruct (Ascii.eqb_spec a c) as [->|Ha]; [by constructor|].
  destruct (Split s c) as [|l ls]; inversion IH; subst; constructor; auto;
    apply has_byte_cons_false; done.
Qed.

Lemma Join_cons (x : string) (xs : list string) (sep : string) :
  xs <> [] -> Join (x :: xs) sep = x +:+ sep +:+ Join xs sep.
Proof. by destruct xs. Qed.

Lemma Join_Split (s : string) (c : ascii) : Join (Split s c) (String c "") = s.
Proof.
  induction s as [|a s IH]; [done|]. simpl.
  pose proof (Split_not_nil s c). destruct (Ascii.eqb_spec a c) as [->|].
  - by rewrite Join_cons, IH.
  - destruct (Split s c) as [|l [|l' ls]]; [done| |]; simpl in *; rewrite <- IH; by rewrite ?sapp_cons.
Qed.

Lemma Split_Join (ls : list string) (c : ascii) :
  ls <> [] -> Forall (fun l => has_byte c l = false) ls -> Split (Join ls (String c "")) c = ls.
Proof.
  intros Hne H. induction H as [|l ls Hl Hls IH]; [done|]. destruct ls as [|l' ls].
  - by apply Split_no_sep.
  - rewrite Join_cons by done. rewrite sapp_cons, sapp_nil_l.
    rewrite Split_app_sep by done. by rewrite IH.
Qed.
