(* ===== verification/GoTrim.v ===== *)
(** * White-space trimming and field splitting: the lemmas.

    The equations of [TrimSpace] and [Fields] around a plain byte, the
    idempotence and the commutation of the two trims, for byte strings that may
    hold any UTF-8 or invalid sequence. *)
From Stdlib Require Import Ascii.
From S2P Require Import Prelude GoStrings.

(** A byte below [utf8.RuneSelf]. *)
Definition ascii7 (a : ascii) : bool := (nat_of_ascii a <? 128)%nat.

(** An ASCII byte that is not white space: it ends no run of white space. *)
Definition plain (a : ascii) : bool := ascii7 a && negb (space1 a).

(** Split boolean hypotheses about byte classes into arithmetic. *)
Ltac byte_cases :=
  unfold plain, ascii7, space1, space2, space3 in *;
  repeat match goal with
         | H : _ && _ = true |- _ => apply andb_true_iff in H; destruct H
         | H : _ || _ = true |- _ => apply orb_true_iff in H; destruct H
         | H : (_ <=? _)%nat = true |- _ => apply Nat.leb_le in H
         | H : (_ <? _)%nat = true |- _ => apply Nat.ltb_lt in H
         | H : (_ =? _)%nat = true |- _ => apply Nat.eqb_eq in H
         end.

(** ** Byte classes *)

Lemma ascii7_not_space2_second (a b : ascii) : ascii7 b = true -> space2 a b = false.
Proof. intros H. apply not_true_iff_false. intros Hs. byte_cases; lia. Qed.

Lemma ascii7_not_space3_second (a b c : ascii) : ascii7 b = true -> space3 a b c = false.
Proof. intros H. apply not_true_iff_false. intros Hs. byte_cases; lia. Qed.

Lemma ascii7_not_space3_third (a b c : ascii) : ascii7 c = true -> space3 a b c = false.
Proof. intros H. apply not_true_iff_false. intros Hs. byte_cases; lia. Qed.

Lemma ascii7_not_space2_first (a b : ascii) : ascii7 a = true -> space2 a b = false.
Proof. intros H. apply not_true_iff_false. intros Hs. byte_cases; lia. Qed.

Lemma ascii7_not_space3_first (a b c : ascii) : ascii7 a = true -> space3 a b c = false.
Proof. intros H. apply not_true_iff_false. intros Hs. byte_cases; lia. Qed.

(** A continuation byte starts no white-space rune. *)
Lemma continuation_not_space (b : ascii) (s : string) :
  (128 <= nat_of_ascii b < 192)%nat -> space_prefix (String b s) = None.
Proof.
  intros H.
  assert (space1 b = false) as H1 by (apply not_true_iff_false; intros Hs; byte_cases; lia).
  assert (forall c, space2 b c = false) as H2
    by (intros c; apply not_true_iff_false; intros Hs; byte_cases; lia).
  assert (forall c d, space3 b c d = false) as H3
    by (intros c d; apply not_true_iff_false; intros Hs; byte_cases; lia).
  destruct s as [|c [|d s]]; simpl; by rewrite ?H1, ?H2, ?H3.
Qed.

Lemma space2_continuation (a b : ascii) : space2 a b = true -> (128 <= nat_of_ascii b < 192)%nat.
Proof. intros. byte_cases; lia. Qed.

Lemma space3_continuation (a b c : ascii) :
  space3 a b c = true ->
  (128 <= nat_of_ascii b < 192)%nat /\ (128 <= nat_of_ascii c < 192)%nat.
Proof. intros. byte_cases; lia. Qed.

(** ** Leading white space *)

Lemma trim_left_eq (s : string) :
  trim_left s = match space_prefix s with Some r => trim_left r | None => s end.
Proof.
  destruct s as [|a s]; [done|]. cbn [trim_left space_prefix]. destruct (space1 a); [done|].
  destruct s as [|b s]; [done|]. destruct (space2 a b); [done|].
  destruct s as [|c s]; [done|]. by destruct (space3 a b c).
Qed.

Lemma space_prefix_split (s r : string) :
  space_prefix s = Some r -> exists w, s = w +:+ r /\ space_prefix w = Some "" /\ w <> "".
Proof.
  intros H. destruct s as [|a s]; [done|]. cbn [space_prefix] in H.
  destruct (space1 a) eqn:E1; simplify_eq.
  { exists (String a ""). cbn [space_prefix]. by rewrite E1. }
  destruct s as [|b s]; [done|]. destruct (space2 a b) eqn:E2; simplify_eq.
  { exists (String a (String b "")). cbn [space_prefix]. by rewrite E1, E2. }
  destruct s as [|c s]; [done|]. destruct (space3 a b c) eqn:E3; simplify_eq.
  exists (String a (String b (String c ""))). cbn [space_prefix]. by rewrite E1, E2, E3.
Qed.

Lemma space_prefix_app (s r t : string) :
  space_prefix s = Some r -> space_prefix (s +:+ t) = Some (r +:+ t).
Proof.
  intros H. destruct s as [|a s]; [done|]. rewrite sapp_cons. cbn [space_prefix] in *.
  destruct (space1 a); [by simplify_eq|].
  destruct s as [|b s]; [done|]. rewrite sapp_cons. destruct (space2 a b); [by simplify_eq|].
  destruct s as [|c s]; [done|]. rewrite sapp_cons. destruct (space3 a b c); by simplify_eq.
Qed.

Lemma space_prefix_app_None (s t : string) : space_prefix (s +:+ t) = None -> space_prefix s = None.
Proof. intros H. destruct (space_prefix s) eqn:E; [|done]. apply (space_prefix_app _ _ t) in E. congruence. Qed.

Lemma space_prefix_app_ascii (s t : string) (c : ascii) :
  s <> "" -> space_prefix s = None -> ascii7 c = true -> space_prefix (s +:+ String c t) = None.
Proof.
  intros Hne H Hc. destruct s as [|a [|b [|d s]]]; [done|..]; str_norm; cbn [space_prefix] in *.
  - destruct (space1 a); [done|]. rewrite ascii7_not_space2_second by done.
    destruct t; [done|]. by rewrite ascii7_not_space3_second.
  - destruct (space1 a); [done|]. destruct (space2 a b); [done|]. by rewrite ascii7_not_space3_third.
  - destruct (space1 a), (space2 a b), (space3 a b d); done.
Qed.

Lemma space_prefix_plain (c : ascii) (t : string) : plain c = true -> space_prefix (String c t) = None.
Proof.
  intros [H1 H2]%andb_true_iff. apply negb_true_iff in H2.
  destruct t as [|b [|d t]]; cbn [space_prefix]; rewrite H2; [done|..];
    rewrite ascii7_not_space2_first by done; [done|]. by rewrite ascii7_not_space3_first.
Qed.

(** Induction along the leading white-space runes. *)
Lemma trim_ind (P : string -> Prop) :
  (forall s, space_prefix s = None -> P s) ->
  (forall w r, w <> "" -> space_prefix w = Some "" -> P r -> P (w +:+ r)) ->
  forall s, P s.
Proof.
  intros Hnone Hsome s. remember (String.length s) as n eqn:Hn. revert s Hn.
  induction (lt_wf n) as [n _ IH]; intros s ->.
  destruct (space_prefix s) as [r|] eqn:E; [|by apply Hnone].
  apply space_prefix_split in E as (w & -> & Hw & Hne). apply Hsome; [done..|].
  eapply IH; [|done]. rewrite length_sapp. destruct w; [done|]. simpl. lia.
Qed.

Lemma trim_left_rune (w r : string) : space_prefix w = Some "" -> trim_left (w +:+ r) = trim_left r.
Proof. intros H. rewrite trim_left_eq. by rewrite (space_prefix_app _ _ _ H). Qed.

Lemma trim_left_None (s : string) : space_prefix s = None -> trim_left s = s.
Proof. intros H. by rewrite trim_left_eq, H. Qed.

Lemma space_prefix_trim_left (s : string) : space_prefix (trim_left s) = None.
Proof.
  induction s as [s H|w r _ Hw IH] using trim_ind.
  - by rewrite trim_left_None.
  - by rewrite trim_left_rune.
Qed.

Lemma trim_left_idemp (s : string) : trim_left (trim_left s) = trim_left s.
Proof. apply trim_left_None, space_prefix_trim_left. Qed.

Lemma trim_left_suffix (s : string) : exists w, s = w +:+ trim_left s.
Proof.
  induction s as [s H|w r _ Hw [w' IH]] using trim_ind.
  - exists "". by rewrite trim_left_None.
  - exists (w +:+ w'). rewrite trim_left_rune by done. rewrite sapp_assoc. congruence.
Qed.

Lemma trim_left_app_plain (s t : string) (c : ascii) :
  plain c = true -> trim_left (s +:+ String c t) = trim_left s +:+ String c t.
Proof.
  intros Hc. induction s as [s H|w r _ Hw IH] using trim_ind.
  - rewrite (trim_left_None s), trim_left_None; [done| |done]. destruct (decide (s = "")) as [->|].
    + by apply space_prefix_plain.
    + apply andb_true_iff in Hc as []. by apply space_prefix_app_ascii.
  - by rewrite sapp_assoc, !(trim_left_rune w).
Qed.

(** ** Trailing white space *)

Lemma all_space_true (s : string) : all_space s = true <-> trim_left s = "".
Proof. apply String.eqb_eq. Qed.

Lemma all_space_rune (w r : string) : space_prefix w = Some "" -> all_space (w +:+ r) = all_space r.
Proof. intros H. unfold all_space. by rewrite trim_left_rune. Qed.

Lemma all_space_None (s : string) : s <> "" -> space_prefix s = None -> all_space s = false.
Proof.
  intros Hne H. apply not_true_iff_false. rewrite all_space_true, trim_left_None; done.
Qed.

Lemma all_space_app (s t : string) :
  all_space s = true -> all_space t = true -> all_space (s +:+ t) = true.
Proof.
  intros Hs Ht. induction s as [s H|w r _ Hw IH] using trim_ind.
  - rewrite all_space_true, trim_left_None in Hs by done. by subst.
  - rewrite all_space_rune in Hs by done. rewrite sapp_assoc, all_space_rune by done. auto.
Qed.

Lemma all_space_app_plain (s t : string) (c : ascii) :
  plain c = true -> all_space (s +:+ String c t) = false.
Proof.
  intros Hc. apply not_true_iff_false. rewrite all_space_true, trim_left_app_plain by done.
  intros H. by apply sapp_eq_nil in H as [_ H].
Qed.

Lemma trim_right_cons (a : ascii) (s : string) :
  trim_right (String a s) = if all_space (String a s) then "" else String a (trim_right s).
Proof. reflexivity. Qed.

Lemma trim_right_app_plain (s t : string) (c : ascii) :
  plain c = true -> trim_right (s +:+ String c t) = s +:+ String c (trim_right t).
Proof.
  intros Hc. induction s as [|a s IH]; rewrite ?sapp_nil_l, ?sapp_cons, trim_right_cons.
  - pose proof (all_space_app_plain "" t c Hc) as H. rewrite sapp_nil_l in H. by rewrite H.
  - pose proof (all_space_app_plain (String a s) t c Hc) as H. rewrite sapp_cons in H.
    by rewrite H, IH.
Qed.

Lemma trim_right_suffix (s : string) : exists w, s = trim_right s +:+ w /\ all_space w = true.
Proof.
  induction s as [|a s (w & Hw & Hsp)]; [by exists ""|]. rewrite trim_right_cons.
  destruct (all_space (String a s)) eqn:E; [by exists (String a s)|].
  exists w. split; [|done]. rewrite sapp_cons. congruence.
Qed.

Lemma trim_right_all_space (s : string) : all_space s = true -> trim_right s = "".
Proof. destruct s; [done|]. rewrite trim_right_cons. by intros ->. Qed.

Lemma trim_right_idemp (s : string) : trim_right (trim_right s) = trim_right s.
Proof.
  induction s as [|a s IH]; [done|]. rewrite trim_right_cons.
  destruct (all_space (String a s)) eqn:E; [done|]. rewrite trim_right_cons, IH.
  destruct (all_space (String a (trim_right s))) eqn:E'; [|done].
  destruct (trim_right_suffix s) as (w & Hw & Hsp).
  pose proof (all_space_app _ _ E' Hsp) as H. rewrite sapp_cons, <- Hw in H. congruence.
Qed.

Lemma trim_right_rune (w r : string) :
  space_prefix w = Some "" -> all_space r = false -> trim_right (w +:+ r) = w +:+ trim_right r.
Proof.
  intros Hw Hr. pose proof (all_space_rune w r Hw) as Ha. rewrite Hr in Ha.
  destruct w as [|a [|b [|c w]]]; [done|..]; cbn [space_prefix] in Hw;
    repeat case_hyp; simplify_eq; rewrite !sapp_cons, !sapp_nil_l in *;
    rewrite trim_right_cons, Ha; [done|..].
  - rewrite trim_right_cons, all_space_None; [done..|].
    by apply continuation_not_space, (space2_continuation a).
  - edestruct space3_continuation as [Hb Hc]; [done|].
    rewrite !trim_right_cons, !all_space_None; [done..| |done|];
      by apply continuation_not_space.
Qed.

Lemma trim_left_right_comm (s : string) : trim_left (trim_right s) = trim_right (trim_left s).
Proof.
  induction s as [s H|w r _ Hw IH] using trim_ind.
  - rewrite (trim_left_None s H). apply trim_left_None.
    destruct (trim_right_suffix s) as (w & Hw & _). rewrite Hw in H.
    by eapply space_prefix_app_None.
  - rewrite (trim_left_rune _ r Hw). destruct (all_space r) eqn:E.
    + rewrite trim_right_all_space by (by rewrite all_space_rune).
      apply all_space_true in E. by rewrite E.
    + by rewrite trim_right_rune, trim_left_rune.
Qed.

(** ** TrimSpace *)

Lemma TrimSpace_trim_left (s : string) : TrimSpace (trim_left s) = TrimSpace s.
Proof. unfold TrimSpace. by rewrite trim_left_idemp. Qed.

Lemma TrimSpace_trim_right (s : string) : TrimSpace (trim_right s) = TrimSpace s.
Proof. unfold TrimSpace. by rewrite trim_left_right_comm, trim_right_idemp. Qed.

Lemma TrimSpace_idemp (s : string) : TrimSpace (TrimSpace s) = TrimSpace s.
Proof. unfold TrimSpace at 2. by rewrite TrimSpace_trim_right, TrimSpace_trim_left. Qed.

Lemma TrimSpace_app_plain (s t : string) (c : ascii) :
  plain c = true -> TrimSpace (s +:+ String c t) = trim_left s +:+ String c (trim_right t).
Proof. intros Hc. unfold TrimSpace. by rewrite trim_left_app_plain, trim_right_app_plain. Qed.

Lemma TrimSpace_cons_space (s : string) (c : ascii) :
  space1 c = true -> TrimSpace (String c s) = TrimSpace s.
Proof.
  intros Hc. unfold TrimSpace. f_equal. rewrite trim_left_eq. simpl. by rewrite Hc.
Qed.

Lemma all_space_snoc (s : string) (c : ascii) :
  ascii7 c = true -> space1 c = true -> all_space (s +:+ String c "") = all_space s.
Proof.
  intros H7 Hc. induction s as [s H|w r _ Hw IH] using trim_ind.
  - destruct (decide (s = "")) as [->|Hne].
    + unfold all_space. simpl. by rewrite Hc.
    + rewrite (all_space_None s), all_space_None; [done| |by apply space_prefix_app_ascii|done..].
      by intros [? _]%sapp_eq_nil.
  - by rewrite sapp_assoc, !(all_space_rune w).
Qed.

Lemma trim_right_snoc (s : string) (c : ascii) :
  ascii7 c = true -> space1 c = true -> trim_right (s +:+ String c "") = trim_right s.
Proof.
  intros H7 Hc. induction s as [|a s IH].
  - rewrite sapp_nil_l, trim_right_cons. unfold all_space. simpl. by rewrite Hc.
  - rewrite sapp_cons, !trim_right_cons, IH. by rewrite <- sapp_cons, all_space_snoc.
Qed.

Lemma TrimSpace_snoc_space (s : string) (c : ascii) :
  ascii7 c = true -> space1 c = true -> TrimSpace (s +:+ String c "") = TrimSpace s.
Proof.
  intros H7 Hc. rewrite <- TrimSpace_trim_right, trim_right_snoc by done.
  apply TrimSpace_trim_right.
Qed.

Lemma has_byte_trim_left (c : ascii) (s : string) : has_byte c s = false -> has_byte c (trim_left s) = false.
Proof.
  destruct (trim_left_suffix s) as [w Hw]. rewrite Hw at 1. rewrite has_byte_app.
  by intros []%orb_false_iff.
Qed.

(** ** Fields *)

Lemma fields_go_None (cur s : string) (a : ascii) :
  space_prefix (String a s) = None -> fields_go cur (String a s) = fields_go (cur +:+ String a "") s.
Proof.
  destruct s as [|b [|c s]]; cbn [space_prefix fields_go]; intros H; by repeat case_match.
Qed.

Lemma fields_go_no_space (cur s : string) :
  has_space s = false -> fields_go cur s = push_field (cur +:+ s) [].
Proof.
  revert cur. induction s as [|a s IH]; intros cur H; [by rewrite sapp_nil_r|].
  cbn [has_space] in H. destruct (space_prefix (String a s)) eqn:E; [done|].
  rewrite fields_go_None, IH by done. by str_norm.
Qed.

Lemma fields_go_app_space (cur s t : string) (c : ascii) :
  has_space s = false -> ascii7 c = true -> space1 c = true ->
  fields_go cur (s +:+ String c t) = push_field (cur +:+ s) (fields_go "" t).
Proof.
  intros H H7 Hc. revert cur H. induction s as [|a s IH]; intros cur H.
  - rewrite sapp_nil_l, sapp_nil_r. cbn [fields_go]. by rewrite Hc.
  - cbn [has_space] in H. destruct (space_prefix (String a s)) eqn:E; [done|].
    rewrite sapp_cons, fields_go_None, IH; [by str_norm|done|].
    by rewrite <- sapp_cons; apply space_prefix_app_ascii.
Qed.

Lemma has_space_plain_cons (c : ascii) (s : string) :
  plain c = true -> has_space (String c s) = has_space s.
Proof. intros Hc. cbn [has_space]. by rewrite space_prefix_plain. Qed.
