(* ===== verification/GoHeap.v ===== *)
(** * Go memory: slices, pointers and copies.

    A heap of cells, each the backing array of a slice or the target of a pointer (an
    array of one). A struct is a value whose slice and pointer fields refer to
    cells, so that two structs may share them. [Deep] relates a struct in memory to
    the value it stands for, and gives its deep copy; [DeepLaws] is what a deep copy
    promises: the copy can be read in the cells that are new, alone. *)
From S2P Require Import Prelude.

Abbreviation loc := positive (only parsing).

(** A nil slice, or some elements of an array; a nil pointer, or the target. *)
Inductive slice (E : Type) := SNil | SArr (l : loc) (offset len : nat).
Arguments SNil {E}.
Arguments SArr {E} l offset len.

Inductive pointer (E : Type) := PNil | PLoc (l : loc).
Arguments PNil {E}.
Arguments PLoc {E} l.

Section Heap.

Context {cell : Type}.

Abbreviation heap := (gmap positive cell).

(** A computation that allocates and writes. *)
Definition Mem (A : Type) : Type := heap -> A * heap.

Definition mem_ret {A : Type} (a : A) : Mem A := fun h => (a, h).
Definition mem_bind {A B : Type} (m : Mem A) (f : A -> Mem B) : Mem B :=
  fun h => let '(a, h1) := m h in f a h1.

(** Which cells are arrays of [E], and the zero value of [E]. *)
Class ArrayCell (E : Type) := {
  to_cell : list E -> cell;
  of_cell : cell -> option (list E);
  of_to_cell a : of_cell (to_cell a) = Some a;
  zero : E
}.

Definition array_at {E : Type} {arr : ArrayCell E} (h : heap) (l : loc) : option (list E) :=
  match h !! l with Some c => of_cell c | None => None end.

(** A new cell. *)
Definition alloc (c : cell) : Mem loc := fun h =>
  let l := fresh (dom h : gset positive) in (l, <[l := c]> h).

(** The elements a slice refers to; an index out of range has no value. *)
Definition slice_elems {E : Type} {arr : ArrayCell E} (h : heap) (s : slice E) : option (list E) :=
  match s with
  | SNil => Some []
  | SArr l offset len =>
      match array_at h l with
      | Some a => if (offset + len <=? length a)%nat then Some (take len (drop offset a)) else None
      | None => None
      end
  end.

(** [*p] *)
Definition deref {E : Type} {arr : ArrayCell E} (h : heap) (l : loc) : option E :=
  match array_at h l with Some [x] => Some x | _ => None end.

(** [a[i] = x] *)
Definition store_elem {E : Type} {arr : ArrayCell E} (l : loc) (i : nat) (x : E) : Mem unit := fun h =>
  match array_at h l with
  | Some a => (tt, <[l := to_cell (<[i := x]> a)]> h)
  | None => (tt, h)
  end.

(** A memory type [M] that stands for values [T]. *)
Class Deep (M T : Type) := {
  read : heap -> M -> option T;
  copy_into : M -> Mem M
}.

Class DeepLaws (M T : Type) `{Deep M T} := {
  read_mono (h h' : heap) (m : M) (v : T) : h ⊆ h' -> read h m = Some v -> read h' m = Some v;
  copy_law (h h' : heap) (m m' : M) (v : T) :
    read h m = Some v -> copy_into m h = (m', h') -> h ⊆ h' /\ read (h' ∖ h) m' = Some v
}.

(** The loop of [DeepCopyInto]s over the elements, from index [i] on. *)
Fixpoint copy_loop {E T : Type} {arr : ArrayCell E} {deep : Deep E T} (out : loc) (i : nat) (elems : list E) : Mem unit :=
  match elems with
  | [] => mem_ret tt
  | x :: rest =>
      mem_bind (copy_into x) (fun y =>
      mem_bind (store_elem out i y) (fun _ => copy_loop out (S i) rest))
  end.

(** The copy of a slice of structs: nil stays nil; otherwise [make], then the loop. *)
Definition copy_slice {E T : Type} {arr : ArrayCell E} {deep : Deep E T} (s : slice E) : Mem (slice E) := fun h =>
  match s with
  | SNil => (SNil, h)
  | SArr _ _ len =>
      let elems := default [] (slice_elems h s) in
      mem_bind (alloc (to_cell (replicate len zero))) (fun out =>
      mem_bind (copy_loop out 0 elems) (fun _ => mem_ret (SArr out 0 len))) h
  end.

(** The copy of a slice without pointers in its elements: [make] and [copy]. *)
Definition copy_flat {E : Type} {arr : ArrayCell E} (s : slice E) : Mem (slice E) := fun h =>
  match s with
  | SNil => (SNil, h)
  | SArr _ _ len =>
      mem_bind (alloc (to_cell (default [] (slice_elems h s)))) (fun out => mem_ret (SArr out 0 len)) h
  end.

(** [new], and [DeepCopyInto] the new struct. *)
Definition new_copy {E T : Type} {arr : ArrayCell E} {deep : Deep E T} (x : E) : Mem (pointer E) :=
  mem_bind (alloc (to_cell [zero])) (fun out =>
  mem_bind (copy_loop out 0 [x]) (fun _ => mem_ret (PLoc out))).

(** [DeepCopy]: nil for nil; otherwise a copy in a new struct. *)
Definition deep_copy {E T : Type} {arr : ArrayCell E} {deep : Deep E T} (p : pointer E) : Mem (pointer E) := fun h =>
  match p with
  | PNil => (PNil, h)
  | PLoc l => match deref h l with Some x => new_copy x h | None => (PNil, h) end
  end.

Definition read_slice {E T : Type} {arr : ArrayCell E} {deep : Deep E T} (h : heap) (s : slice E) : option (list T) :=
  match slice_elems h s with Some l => mapM (read h) l | None => None end.

Definition read_pointer {E T : Type} {arr : ArrayCell E} {deep : Deep E T} (h : heap) (p : pointer E) : option (option T) :=
  match p with
  | PNil => Some None
  | PLoc l => match deref h l with Some x => Some <$> read h x | None => None end
  end.

End Heap.

Arguments Mem : clear implicits.
Arguments ArrayCell : clear implicits.
Arguments Deep : clear implicits.
Arguments DeepLaws cell M T {_}.

Declare Scope mem_scope.
Delimit Scope mem_scope with mem.
Notation "'let!' x ':=' m 'in' k" := (mem_bind m (fun x => k))
  (at level 10, x name, m at level 100, k at level 200) : mem_scope.

(** ** Lemmas *)

Section HeapLemmas.

Context {cell : Type}.
Abbreviation heap := (gmap positive cell).

Lemma alloc_spec (c : cell) (h : heap) (l : loc) h' :
  alloc c h = (l, h') -> h !! l = None /\ h' = <[l := c]> h.
Proof.
  unfold alloc. intros [= <- <-]. split; [|done].
  apply (not_elem_of_dom_1 (D := gset positive)). apply is_fresh.
Qed.

Lemma array_at_mono {E} {arr : ArrayCell cell E} (h h' : heap) l a :
  h ⊆ h' -> array_at h l = Some a -> array_at h' l = Some a.
Proof.
  unfold array_at. intros Hs. destruct (h !! l) as [c|] eqn:El; [|done].
  by rewrite (lookup_weaken _ _ _ _ El Hs).
Qed.

Lemma slice_elems_mono {E} {arr : ArrayCell cell E} (h h' : heap) (s : slice E) l :
  h ⊆ h' -> slice_elems h s = Some l -> slice_elems h' s = Some l.
Proof.
  intros Hs. destruct s as [|l0 off len]; [done|]. simpl.
  destruct (array_at h l0) as [a|] eqn:Ea; [|done]. by rewrite (array_at_mono _ _ _ _ Hs Ea).
Qed.

Lemma slice_elems_length {E} {arr : ArrayCell cell E} (h : heap) l off len (elems : list E) :
  slice_elems h (SArr l off len) = Some elems -> length elems = len.
Proof.
  cbn [slice_elems]. destruct (array_at h l) as [a|]; [|done].
  destruct (off + len <=? length a)%nat eqn:Hle; [|done]. apply Nat.leb_le in Hle.
  intros [= <-]. rewrite length_take, length_drop. lia.
Qed.

Lemma deref_mono {E} {arr : ArrayCell cell E} (h h' : heap) l (x : E) :
  h ⊆ h' -> deref h l = Some x -> deref h' l = Some x.
Proof.
  unfold deref. intros Hs. destruct (array_at h l) as [a|] eqn:Ea; [|done].
  by rewrite (array_at_mono _ _ _ _ Hs Ea).
Qed.

(** What two copies in a row leave new. *)
Lemma difference_l (h h1 h2 : heap) : h1 ⊆ h2 -> h1 ∖ h ⊆ h2 ∖ h.
Proof.
  intros Hs. apply map_subseteq_spec. intros l c. rewrite !lookup_difference_Some.
  intros [Hl Hn]. split; [by eapply lookup_weaken|done].
Qed.

Lemma difference_r (h h1 h2 : heap) : h ⊆ h1 -> h2 ∖ h1 ⊆ h2 ∖ h.
Proof.
  intros Hs. apply map_subseteq_spec. intros l c. rewrite !lookup_difference_Some.
  intros [Hl Hn]. split; [done|by eapply lookup_weaken_None].
Qed.

Section Laws.

Context {E T : Type} {arr : ArrayCell cell E} {deep : Deep cell E T} {laws : DeepLaws cell E T}.

Lemma mapM_read_mono (h h' : heap) (l : list E) vs :
  h ⊆ h' -> mapM (read h) l = Some vs -> mapM (read h') l = Some vs.
Proof.
  intros Hs. rewrite !mapM_Some. apply Forall2_impl. intros x v. by apply read_mono.
Qed.

Lemma read_slice_mono (h h' : heap) (s : slice E) vs :
  h ⊆ h' -> read_slice h s = Some vs -> read_slice h' s = Some vs.
Proof.
  unfold read_slice. intros Hs. destruct (slice_elems h s) as [l|] eqn:El; [|done].
  rewrite (slice_elems_mono _ _ _ _ Hs El). by apply mapM_read_mono.
Qed.

Lemma read_pointer_mono (h h' : heap) (p : pointer E) v :
  h ⊆ h' -> read_pointer h p = Some v -> read_pointer h' p = Some v.
Proof.
  intros Hs. destruct p as [|l]; [done|]. simpl. destruct (deref h l) as [x|] eqn:El; [|done].
  rewrite (deref_mono _ _ _ _ Hs El). destruct (read h x) as [w|] eqn:Er; [|done].
  by rewrite (read_mono _ _ _ _ Hs Er).
Qed.

(** The copy of one element, seen from a heap below. *)
Lemma copy_new (base h h' : heap) (m m' : E) (v : T) :
  base ⊆ h -> read base m = Some v -> copy_into m h = (m', h') ->
  h ⊆ h' /\ read (h' ∖ h) m' = Some v.
Proof. intros Hb Hr Hc. eapply copy_law; [|exact Hc]. by eapply read_mono. Qed.

(** The loop fills the new array with copies that live in new cells. *)
Lemma copy_loop_spec (base : heap) (out : loc) (elems : list E) (vs : list T) :
  base !! out = None -> mapM (read base) elems = Some vs ->
  forall (h h' : heap) (copied : list E) (ds : list T),
  base ⊆ h -> h !! out = Some (to_cell (copied ++ replicate (length elems) zero)) ->
  mapM (read (delete out h ∖ base)) copied = Some ds ->
  copy_loop out (length copied) elems h = (tt, h') ->
  base ⊆ h' /\ exists new, length new = length elems /\ h' !! out = Some (to_cell (copied ++ new)) /\
    mapM (read (delete out h' ∖ base)) (copied ++ new) = Some (ds ++ vs).
Proof.
  intros Hout. revert vs. induction elems as [|x elems IH]; intros vs Hvs h h' copied ds Hb Ho Hd H.
  - injection Hvs as <-. injection H as <-. split; [done|]. exists []. by rewrite !app_nil_r in *.
  - apply mapM_Some, Forall2_cons_inv_l in Hvs as (v & vs' & Hv & Hvs%mapM_Some & ->).
    cbn [copy_loop] in H. unfold mem_bind in H.
    destruct (copy_into x h) as [y h1] eqn:Ec. destruct (copy_new _ _ _ _ _ _ Hb Hv Ec) as [Hs Hy].
    assert (Ho1 : h1 !! out = Some (to_cell (copied ++ replicate (S (length elems)) zero)))
      by by eapply lookup_weaken.
    unfold store_elem, array_at in H. rewrite Ho1, of_to_cell in H.
    assert (Ea : <[length copied := y]> (copied ++ replicate (S (length elems)) zero) =
      (copied ++ [y]) ++ replicate (length elems) zero).
    { rewrite insert_app_r_alt by lia. rewrite Nat.sub_diag. by rewrite <- app_assoc. }
    rewrite Ea in H. set (h2 := <[out := _]> h1) in H.
    assert (Hb2 : base ⊆ h2).
    { apply insert_subseteq_r; [done|]. by transitivity h. }
    assert (Hnew : mapM (read (delete out h2 ∖ base)) (copied ++ [y]) = Some (ds ++ [v])).
    { assert (Hdel : delete out h2 = delete out h1) by apply delete_insert_eq. rewrite Hdel.
      apply mapM_Some. apply Forall2_app.
      - apply mapM_Some. eapply mapM_read_mono; [|exact Hd]. by apply difference_l, delete_mono.
      - constructor; [|constructor]. eapply read_mono; [|exact Hy].
        apply map_subseteq_spec. intros l c. rewrite !lookup_difference_Some. intros [Hl Hn].
        assert (l <> out) by (intros ->; by rewrite Ho in Hn).
        rewrite lookup_delete_ne by done. split; [done|]. by eapply lookup_weaken_None. }
    replace (S (length copied)) with (length (copied ++ [y])) in H by (rewrite length_app; simpl; lia).
    destruct (IH vs' Hvs h2 h' (copied ++ [y]) (ds ++ [v]) Hb2 (lookup_insert_eq _ _ _) Hnew H)
      as (Hbf & new & Hlen & Hf & Hr).
    split; [done|]. exists (y :: new). rewrite <- !app_assoc in *. simpl in *. by rewrite Hlen.
Qed.

(** A new array, and the loop over it. *)
Lemma copy_array_spec (h h' : heap) (out : loc) (elems : list E) (vs : list T) h1 :
  mapM (read h) elems = Some vs ->
  alloc (to_cell (replicate (length elems) zero)) h = (out, h1) -> copy_loop out 0 elems h1 = (tt, h') ->
  h ⊆ h' /\ exists new, length new = length elems /\ (h' ∖ h) !! out = Some (to_cell new) /\
    mapM (read (h' ∖ h)) new = Some vs.
Proof.
  intros Hvs [Hout ->]%alloc_spec H.
  destruct (copy_loop_spec h out elems vs Hout Hvs (<[out := to_cell (replicate (length elems) zero)]> h) h' [] [])
    as (Hb & new & Hlen & Ho & Hr); [|apply lookup_insert_eq|done|done|].
  { by apply insert_subseteq. }
  split; [done|]. exists new. split; [done|]. split.
  - apply lookup_difference_Some. by split.
  - eapply mapM_read_mono; [|exact Hr]. apply difference_l, delete_subseteq.
Qed.

(** The copy of a slice, element by element. *)
Lemma copy_slice_law (h h' : heap) (s s' : slice E) vs :
  read_slice h s = Some vs -> copy_slice s h = (s', h') ->
  h ⊆ h' /\ read_slice (h' ∖ h) s' = Some vs.
Proof.
  intros Hr Hc. destruct s as [|l off len]; simpl in Hc.
  - injection Hc as <- <-. split; [done|]. simpl in Hr. by injection Hr as <-.
  - unfold read_slice in Hr. destruct (slice_elems h (SArr l off len)) as [elems|] eqn:El; [|done].
    pose proof (slice_elems_length _ _ _ _ _ El) as Hlen.
    cbn [slice_elems] in El. rewrite El in Hc. cbn [default id] in Hc.
    unfold mem_bind in Hc. destruct (alloc _ h) as [out h1] eqn:Ea. subst len.
    destruct (copy_loop out 0 elems h1) as [[] h2] eqn:Ell. injection Hc as <- <-.
    destruct (copy_array_spec _ _ _ _ _ _ Hr Ea Ell) as (Hs & new & Hnew & Ho & Hn). split; [done|].
    unfold read_slice. cbn [slice_elems]. unfold array_at. rewrite Ho, of_to_cell, <- Hnew.
    rewrite Nat.leb_refl. cbn [drop]. by rewrite firstn_all.
Qed.

(** The copy of a struct in a new cell. *)
Lemma new_copy_law (h h' : heap) (x : E) p' v :
  read h x = Some v -> new_copy x h = (p', h') -> h ⊆ h' /\ read_pointer (h' ∖ h) p' = Some (Some v).
Proof.
  intros Hr Hc. unfold new_copy, mem_bind at 1 2 in Hc. destruct (alloc _ h) as [out h1] eqn:Ea.
  destruct (copy_loop out 0 [x] h1) as [[] h2] eqn:Ell. injection Hc as <- <-.
  assert (Hx : mapM (read h) [x] = Some [v]) by (apply mapM_Some; by repeat constructor).
  destruct (copy_array_spec h _ out [x] [v] h1 Hx Ea Ell) as (Hs & new & Hlen & Ho & Hn). split; [done|].
  destruct new as [|y [|]]; [done| |done]. simpl. unfold deref, array_at. rewrite Ho, of_to_cell.
  cbn [mapM] in Hn. destruct (read _ y) as [w|]; [|done]. by injection Hn as ->.
Qed.

(** The copy behind a pointer. *)
Lemma deep_copy_law (h h' : heap) (p p' : pointer E) v :
  read_pointer h p = Some v -> deep_copy p h = (p', h') ->
  h ⊆ h' /\ read_pointer (h' ∖ h) p' = Some v.
Proof.
  intros Hr Hc. destruct p as [|l]; simpl in Hc, Hr.
  - injection Hc as <- <-. by split.
  - destruct (deref h l) as [x|]; [|done]. destruct (read h x) as [w|] eqn:Ex; [|done].
    injection Hr as <-. by eapply new_copy_law.
Qed.

(** Only nil copies to nil. *)
Lemma deep_copy_nil (h h' : heap) (p p' : pointer E) v :
  read_pointer h p = Some v -> deep_copy p h = (p', h') -> (p' = PNil <-> p = PNil).
Proof.
  intros Hr Hc. destruct p as [|l]; simpl in Hc, Hr; [by injection Hc as <- <-|].
  destruct (deref h l) as [x|]; [|done]. unfold new_copy, mem_bind in Hc.
  destruct (alloc _ h) as [out h1]. destruct (copy_loop _ _ _ _) as [[] h2]. by injection Hc as <- <-.
Qed.

End Laws.

(** Elements without pointers. *)
Lemma copy_flat_law {E} {arr : ArrayCell cell E} (h h' : heap) (s s' : slice E) vs :
  slice_elems h s = Some vs -> copy_flat s h = (s', h') ->
  h ⊆ h' /\ slice_elems (h' ∖ h) s' = Some vs.
Proof.
  intros Hr Hc. destruct s as [|l off len]; simpl in Hc.
  - injection Hc as <- <-. split; [done|]. by simpl in *.
  - pose proof (slice_elems_length _ _ _ _ _ Hr) as Hlen.
    cbn [slice_elems] in Hr. rewrite Hr in Hc. cbn [default id] in Hc.
    unfold mem_bind in Hc. destruct (alloc _ h) as [out h1] eqn:Ea. injection Hc as <- <-.
    apply alloc_spec in Ea as [Hout ->]. split; [by apply insert_subseteq|].
    cbn [slice_elems]. unfold array_at.
    rewrite (proj2 (lookup_difference_Some _ _ _ _) (conj (lookup_insert_eq _ _ _) Hout)), of_to_cell.
    subst len. rewrite Nat.leb_refl. cbn [drop]. by rewrite firstn_all.
Qed.

(** ** Structs *)

(** A way of reading and a way of copying that fit, for the fields of structs. *)
Class ReadMono {M T} (rd : heap -> M -> option T) : Prop :=
  read_grows h h' m v : h ⊆ h' -> rd h m = Some v -> rd h' m = Some v.

Class CopyOk {M T} (rd : heap -> M -> option T) (cp : M -> Mem cell M) : Prop := {
  #[global] ok_mono :: ReadMono rd;
  ok_copy h h' m m' v : rd h m = Some v -> cp m h = (m', h') -> h ⊆ h' /\ rd (h' ∖ h) m' = Some v
}.

#[export] Instance deep_ok {M T} {deep : Deep cell M T} {laws : DeepLaws cell M T} : CopyOk read copy_into.
Proof. split; [intros h h' m v; apply read_mono|intros h h' m m' v; apply copy_law]. Qed.

#[export] Instance slice_ok {E T} {arr : ArrayCell cell E} {deep : Deep cell E T} {laws : DeepLaws cell E T} :
  CopyOk (read_slice (E := E)) copy_slice.
Proof. split; [intros h h' m v; apply read_slice_mono|intros h h' m m' v; apply copy_slice_law]. Qed.

#[export] Instance pointer_ok {E T} {arr : ArrayCell cell E} {deep : Deep cell E T} {laws : DeepLaws cell E T} :
  CopyOk (read_pointer (E := E)) deep_copy.
Proof. split; [intros h h' m v; apply read_pointer_mono|intros h h' m m' v; apply deep_copy_law]. Qed.

#[export] Instance flat_ok {E} {arr : ArrayCell cell E} : CopyOk (slice_elems (E := E)) copy_flat.
Proof. split; [intros h h' m v; apply slice_elems_mono|intros h h' m m' v; apply copy_flat_law]. Qed.

(** A struct without pointers, copied as it is. *)
Lemma flat_laws {M} {deep : Deep cell M M} :
  (forall h m, read h m = Some m) -> (forall h m, copy_into m h = (m, h)) -> DeepLaws cell M M.
Proof.
  intros Hr Hc. split; [intros h h' m v _; by rewrite !Hr|]. intros h h' m m' v.
  rewrite Hc, Hr. intros [= <-] [= <- <-]. split; [done|apply Hr].
Qed.

(** The copy of one field among several: it starts from a heap that has grown, and
    what comes after does not disturb it. *)
Lemma copy_field {M T} (rd : heap -> M -> option T) (cp : M -> Mem cell M) {ok : CopyOk rd cp}
    (h h1 h2 : heap) (m m' : M) (v : T) :
  rd h m = Some v -> cp m h1 = (m', h2) -> h ⊆ h1 ->
  h ⊆ h2 /\ h1 ⊆ h2 /\ forall h3, h2 ⊆ h3 -> rd (h3 ∖ h) m' = Some v.
Proof.
  intros Hr Hc Hs. destruct (ok_copy h1 h2 m m' v) as [Hs' Hr']; [by eapply read_grows|done|].
  split_and!; [by transitivity h1|done|]. intros h3 H3. eapply read_grows; [|exact Hr'].
  transitivity (h2 ∖ h); [by apply difference_r|by apply difference_l].
Qed.

End HeapLemmas.

(** The laws of a struct whose fields are read and copied one after the other: the
    reads move to the larger heap; the copies are chained from heap to heap. *)
Ltac read_fields H := repeat (apply bind_Some in H as (? & ? & H)); injection H as <-.

Ltac reads := repeat (erewrite read_grows; [|eassumption|eassumption]; cbn [mbind option_bind]).

Tactic Notation "struct_mono" reference(deep) reference(rd) :=
  let h := fresh "h" in let h' := fresh "h'" in
  intros h h' m v Hs H; cbn [read deep] in *; unfold rd in *; read_fields H; reads; reflexivity.

Ltac split_copies Hc :=
  repeat lazymatch type of Hc with
  | (match ?c ?m ?h with _ => _ end) = _ =>
      let E := fresh "E" in let h1 := fresh "h" in destruct (c m h) as [? h1] eqn:E
  end; injection Hc as <- <-.

(** [Hs : h ⊆ hi] for the last heap [hi] reached; one step per copy. *)
Ltac chain_copies h Hs :=
  try match type of Hs with
  | h ⊆ ?hi =>
      match goal with
      | E : ?cp ?m hi = (?m', ?hj), R : ?rd h ?m = Some ?v |- _ =>
          let Hs' := fresh "Hs" in let Hij := fresh "Hij" in let K := fresh "K" in
          destruct (copy_field rd cp h hi hj m m' v R E Hs) as (Hs' & Hij & K);
          clear E; chain_copies h Hs'
      end
  end.

Ltac below := repeat first [reflexivity | eassumption | etransitivity; [eassumption|]].

Tactic Notation "struct_copy" reference(deep) reference(rd) reference(cp) :=
  let h := fresh "h" in let h' := fresh "h'" in
  intros h h' m m' v H Hc; cbn [read copy_into deep] in *; unfold rd in *;
  unfold cp, mem_bind, mem_ret in Hc; read_fields H; split_copies Hc;
  let Hh := fresh "Hh" in assert (Hh : h ⊆ h) by reflexivity; chain_copies h Hh;
  split; [below|];
  repeat match goal with
  | K : forall h3, _ -> ?rd' _ ?m' = Some _ |- _ => erewrite K by below; clear K; cbn [mbind option_bind]
  end; reflexivity.
