(* ===== verification/GoHash.v ===== *)
(** * [crypto/sha256] and [encoding/hex], as the program uses them.

    SHA-256 (FIPS 180-4) on byte strings, with 32-bit words as integers in
    [0, 2^32) and the wrap-around written out, and the lower-case hexadecimal
    encoding of the digest. *)
From Stdlib Require Import Ascii ZArith.
From S2P Require Import Prelude GoStrings.

(** ** 32-bit words *)

Definition w32 (x : Z) : Z := x mod 2^32.
Definition add32 (x y : Z) : Z := w32 (x + y).
Definition rotr (n x : Z) : Z := Z.lor (Z.shiftr x n) (w32 (Z.shiftl x (32 - n))).
Definition ch (x y z : Z) : Z := Z.lxor (Z.land x y) (Z.land (Z.lxor x (2^32 - 1)) z).
Definition maj (x y z : Z) : Z := Z.lxor (Z.lxor (Z.land x y) (Z.land x z)) (Z.land y z).
Definition bsig0 (x : Z) : Z := Z.lxor (Z.lxor (rotr 2 x) (rotr 13 x)) (rotr 22 x).
Definition bsig1 (x : Z) : Z := Z.lxor (Z.lxor (rotr 6 x) (rotr 11 x)) (rotr 25 x).
Definition ssig0 (x : Z) : Z := Z.lxor (Z.lxor (rotr 7 x) (rotr 18 x)) (Z.shiftr x 3).
Definition ssig1 (x : Z) : Z := Z.lxor (Z.lxor (rotr 17 x) (rotr 19 x)) (Z.shiftr x 10).

(** The primes below 312, by trial division. *)
Definition is_prime (n : Z) : bool :=
  forallb (fun d => negb (n mod (Z.of_nat d) =? 0)) (List.seq 2 (Z.to_nat (n - 2))).

Definition primes : list Z := List.filter is_prime (map Z.of_nat (List.seq 2 310)).

(** The integer cube root, bit by bit from [2^k]. *)
Fixpoint cube_root (k : nat) (r n : Z) : Z :=
  let r' := r + 2 ^ Z.of_nat k in
  let r := if r' ^ 3 <=? n then r' else r in
  match k with O => r | S k' => cube_root k' r n end.

(** The first 32 bits of the fractional parts of the cube roots of the first 64
    primes, and of the square roots of the first eight. *)
Definition round_constants : list Z :=
  Eval vm_compute in map (fun p => cube_root 35 0 (p * 2 ^ 96) mod 2 ^ 32) primes.

Definition initial_words : list Z :=
  Eval vm_compute in map (fun p => Z.sqrt (p * 2 ^ 64) mod 2 ^ 32) (take 8 primes).

(** The eight chaining words. *)
Record digest := Digest { h0 : Z; h1 : Z; h2 : Z; h3 : Z; h4 : Z; h5 : Z; h6 : Z; h7 : Z }.

Definition initial_digest : digest :=
  let w i := nth i initial_words 0 in Digest (w 0%nat) (w 1%nat) (w 2%nat) (w 3%nat) (w 4%nat) (w 5%nat) (w 6%nat) (w 7%nat).

(** ** Compression *)

(** The message schedule, latest word first: [n] words are added to [ws]. *)
Fixpoint schedule (n : nat) (ws : list Z) : list Z :=
  match n with
  | O => ws
  | S n' =>
      let w i := nth i ws 0 in
      schedule n' (add32 (add32 (ssig1 (w 1%nat)) (w 6%nat)) (add32 (ssig0 (w 14%nat)) (w 15%nat)) :: ws)
  end.

Definition sha_round (s : digest) (kw : Z * Z) : digest :=
  let '(Digest a b c d e f g h) := s in
  let t1 := add32 (add32 (add32 h (bsig1 e)) (add32 (ch e f g) (fst kw))) (snd kw) in
  let t2 := add32 (bsig0 a) (maj a b c) in
  Digest (add32 t1 t2) a b c (add32 d t1) e f g.

Definition add_digest (s t : digest) : digest :=
  Digest (add32 (h0 s) (h0 t)) (add32 (h1 s) (h1 t)) (add32 (h2 s) (h2 t)) (add32 (h3 s) (h3 t))
         (add32 (h4 s) (h4 t)) (add32 (h5 s) (h5 t)) (add32 (h6 s) (h6 t)) (add32 (h7 s) (h7 t)).

(** One block of sixteen words. *)
Definition compress (s : digest) (block : list Z) : digest :=
  add_digest s (fold_left sha_round (combine round_constants (rev (schedule 48 (rev block)))) s).

(** ** Padding and blocks *)

Definition bytes_of_string (s : string) : list Z :=
  map (fun a => Z.of_nat (nat_of_ascii a)) (String.list_ascii_of_string s).

(** [k] big-endian bytes of [x]. *)
Fixpoint be_bytes (k : nat) (x : Z) : list Z :=
  match k with
  | O => []
  | S k' => be_bytes k' (Z.shiftr x 8) ++ [x mod 256]
  end.

Definition pad (m : list Z) : list Z :=
  let len := Z.of_nat (length m) in
  m ++ [0x80] ++ repeat 0 (Z.to_nat ((55 - len) mod 64)) ++ be_bytes 8 (8 * len mod 2^64).

Fixpoint words_of_bytes (l : list Z) : list Z :=
  match l with
  | a :: b :: c :: d :: l' => (a * 2^24 + b * 2^16 + c * 2^8 + d) :: words_of_bytes l'
  | _ => []
  end.

(** Fold the compression over the blocks; a padded message of [n] words has
    [n / 16] of them, so [length ws] is fuel enough. *)
Fixpoint sha_blocks (fuel : nat) (s : digest) (ws : list Z) : digest :=
  match fuel, ws with
  | S fuel', _ :: _ => sha_blocks fuel' (compress s (take 16 ws)) (drop 16 ws)
  | _, _ => s
  end.

Definition digest_bytes (s : digest) : list Z :=
  be_bytes 4 (h0 s) ++ be_bytes 4 (h1 s) ++ be_bytes 4 (h2 s) ++ be_bytes 4 (h3 s) ++
  be_bytes 4 (h4 s) ++ be_bytes 4 (h5 s) ++ be_bytes 4 (h6 s) ++ be_bytes 4 (h7 s).

(** [sha256.Sum256]. *)
Definition Sum256 (data : string) : list Z :=
  let ws := words_of_bytes (pad (bytes_of_string data)) in
  digest_bytes (sha_blocks (length ws) initial_digest ws).

(** ** [hex.EncodeToString] *)

Definition hex_digit (n : Z) : ascii :=
  ascii_of_nat (Z.to_nat (if n <? 10 then 48 + n else 87 + n)).

Fixpoint EncodeToString (l : list Z) : string :=
  match l with
  | [] => ""
  | b :: l' => String (hex_digit (b / 16)) (String (hex_digit (b mod 16)) (EncodeToString l'))
  end.

(** A lower-case hexadecimal digit. *)
Definition is_hex (a : ascii) : bool :=
  let n := nat_of_ascii a in ((48 <=? n) && (n <=? 57) || (97 <=? n) && (n <=? 102))%nat.

Fixpoint all_hex (s : string) : bool :=
  match s with "" => true | String a s' => is_hex a && all_hex s' end.

(** ** Lemmas *)

Lemma length_be_bytes (k : nat) (x : Z) : length (be_bytes k x) = k.
Proof. revert x. induction k as [|k IH]; intros x; [done|]. simpl. rewrite length_app, IH. simpl. lia. Qed.

Lemma be_bytes_range (k : nat) (x : Z) : Forall (fun b => 0 <= b < 256) (be_bytes k x).
Proof.
  revert x. induction k as [|k IH]; intros x; [constructor|]. simpl.
  apply Forall_app. split; [apply IH|]. constructor; [|constructor].
  apply Z.mod_pos_bound. lia.
Qed.

Lemma length_Sum256 (s : string) : length (Sum256 s) = 32%nat.
Proof. unfold Sum256, digest_bytes. by rewrite !length_app, !length_be_bytes. Qed.

Lemma Sum256_range (s : string) : Forall (fun b => 0 <= b < 256) (Sum256 s).
Proof. unfold Sum256, digest_bytes. rewrite !Forall_app. split_and!; apply be_bytes_range. Qed.

Lemma is_hex_digit (n : Z) : 0 <= n < 16 -> is_hex (hex_digit n) = true.
Proof.
  intros H. assert (n = Z.of_nat (Z.to_nat n)) as Hn by lia.
  assert (Z.to_nat n < 16)%nat as Hlt by lia. rewrite Hn. clear Hn H.
  revert Hlt. generalize (Z.to_nat n) as m. intros m Hm.
  do 16 (destruct m as [|m]; [reflexivity|]). lia.
Qed.

Lemma length_EncodeToString (l : list Z) : String.length (EncodeToString l) = (2 * length l)%nat.
Proof. induction l as [|b l IH]; [done|]. simpl. rewrite IH. lia. Qed.

Lemma all_hex_EncodeToString (l : list Z) :
  Forall (fun b => 0 <= b < 256) l -> all_hex (EncodeToString l) = true.
Proof.
  induction 1 as [|b l Hb _ IH]; [done|]. cbn [EncodeToString all_hex].
  rewrite !is_hex_digit, IH; [done| |].
  - apply Z.mod_pos_bound. lia.
  - split; [apply Z.div_pos; lia|]. apply Z.div_lt_upper_bound; lia.
Qed.

Lemma all_hex_take (n : nat) (s : string) : all_hex s = true -> all_hex (str_take n s) = true.
Proof.
  revert n. induction s as [|a s IH]; intros [|n] H; try done. simpl in *.
  apply andb_true_iff in H as [-> H]. by rewrite IH.
Qed.

Lemma length_str_take (n : nat) (s : string) :
  (n <= String.length s)%nat -> String.length (str_take n s) = n.
Proof.
  revert n. induction s as [|a s IH]; intros [|n] H; simpl in *; try lia. rewrite IH; lia.
Qed.

(** The FIPS 180-4 test vectors. *)
Example sha256_empty :
  EncodeToString (Sum256 "") = "e3b0c44298fc1c149afbf4c8996fb92427ae41e4649b934ca495991b7852b855".
Proof. vm_compute. reflexivity. Qed.

Example sha256_abc :
  EncodeToString (Sum256 "abc") = "ba7816bf8f01cfea414140de5dae2223b00361a396177a9cb410ff61f20015ad".
Proof. vm_compute. reflexivity. Qed.

Example sha256_two_blocks :
  EncodeToString (Sum256 "abcdbcdecdefdefgefghfghighijhijkijkljklmklmnlmnomnopnopq")
  = "248d6a61d20638b8e5c026930c3e6039a33ce45964ff2167f6ecedd419db06c1".
Proof. vm_compute. reflexivity. Qed.

Example round_constants_64 : length round_constants = 64%nat.
Proof. reflexivity. Qed.
