(* ===== verification/GoPath.v ===== *)
(** * [path/filepath] on Unix: [Clean] and [Join].

    [Clean] works on the components of the path: empty and "." components are
    dropped, ".." removes the component before it where there is one. *)
From Stdlib Require Import Ascii.
From S2P Require Import Prelude GoStrings.

(** ** Definitions *)

Definition slash : ascii := "/"%char.
Definition slash_string : string := String slash "".

(** One component, on the stack of the components kept so far (last first). *)
Definition clean_step (rooted : bool) (stack : list string) (comp : string) : list string :=
  if String.eqb comp "" || String.eqb comp "." then stack
  else if String.eqb comp ".." then
    match stack with
    | [] => if rooted then [] else [".."]
    | top :: rest => if String.eqb top ".." then ".." :: stack else rest
    end
  else comp :: stack.

Definition rooted (path : string) : bool := HasPrefix path slash_string.

(** The components [Clean] keeps, last first. *)
Definition clean_stack (r : bool) (path : string) : list string :=
  fold_left (clean_step r) (Split path slash) [].

Definition render_path (r : bool) (comps : list string) : string :=
  if r then slash_string +:+ Join comps slash_string
  else match comps with [] => "." | _ => Join comps slash_string end.

Definition Clean (path : string) : string :=
  if String.eqb path "" then "."
  else render_path (rooted path) (rev (clean_stack (rooted path) path)).

(** [filepath.Join]: from the first non-empty element on. *)
Fixpoint path_Join (elems : list string) : string :=
  match elems with
  | [] => ""
  | e :: rest => if String.eqb e "" then path_Join rest else Clean (Join elems slash_string)
  end.

(** The non-empty components of a path. *)
Definition components (path : string) : list string :=
  List.filter (fun c => negb (String.eqb c "")) (Split path slash).

(** A component that [Clean] always keeps. *)
Definition safe_component (c : string) : Prop :=
  c <> "" /\ has_byte slash c = false /\ has_byte "." c = false.

(** ** Lemmas *)

Lemma no_dot_not_special (c : string) :
  has_byte "." c = false -> String.eqb c "." = false /\ String.eqb c ".." = false.
Proof.
  intros H. split; apply not_true_iff_false; intros E%String.eqb_eq; by subst.
Qed.

Lemma clean_fold_no_dots (r : bool) (stack comps : list string) :
  Forall (fun c => has_byte "." c = false) comps ->
  fold_left (clean_step r) comps stack =
    rev (List.filter (fun c => negb (String.eqb c "")) comps) ++ stack.
Proof.
  intros H. revert stack. induction H as [|c cs Hc _ IH]; intros stack; [done|].
  cbn [fold_left List.filter]. destruct (no_dot_not_special c Hc) as [H1 H2].
  unfold clean_step at 2. rewrite H1, H2, orb_false_r.
  destruct (String.eqb c ""); simpl; rewrite IH; [done|]. by rewrite <- app_assoc.
Qed.

Lemma has_byte_ReplaceAll (s : string) (old new : ascii) :
  old <> new -> has_byte old (ReplaceAll s old new) = false.
Proof.
  intros Hne. induction s as [|a s IH]; [done|]. simpl. rewrite IH, orb_false_r.
  destruct (Ascii.eqb_spec a old) as [->|]; apply Ascii.eqb_neq; congruence.
Qed.

Lemma ReplaceAll_app (s t : string) (old new : ascii) :
  ReplaceAll (s +:+ t) old new = ReplaceAll s old new +:+ ReplaceAll t old new.
Proof. induction s as [|a s IH]; [done|]. rewrite !sapp_cons. simpl. by rewrite IH. Qed.

Lemma ReplaceAll_id (s : string) (old new : ascii) : has_byte old s = false -> ReplaceAll s old new = s.
Proof.
  induction s as [|a s IH]; intros H; [done|]. apply has_byte_cons_false in H as [Ha Hs].
  simpl. destruct (Ascii.eqb_spec a old); [done|]. by rewrite IH.
Qed.

Lemma Split_has_byte (s : string) (c d : ascii) :
  has_byte d s = false -> Forall (fun l => has_byte d l = false) (Split s c).
Proof.
  induction s as [|a s IH]; intros H; [by repeat constructor|].
  apply has_byte_cons_false in H as [Ha Hs]. specialize (IH Hs). simpl.
  destruct (Ascii.eqb a c); [by constructor|].
  destruct (Split s c) as [|l ls]; inversion IH; subst; constructor; auto;
    by apply has_byte_cons_false.
Qed.

Lemma components_app (s t : string) :
  components (s +:+ String slash t) = components s ++ components t.
Proof. unfold components. rewrite Split_app. apply List.filter_app. Qed.

Lemma components_safe (s : string) :
  has_byte "." s = false -> Forall safe_component (components s).
Proof.
  intros H. pose proof (Split_no_byte s slash) as H1. pose proof (Split_has_byte s slash "." H) as H2.
  rewrite List.Forall_forall in *. intros c [Hin Hne]%filter_In. split_and!; auto.
  by apply negb_true_iff, String.eqb_neq in Hne.
Qed.

Lemma components_Join (cs : list string) :
  Forall safe_component cs -> components (Join cs slash_string) = cs.
Proof.
  intros H. destruct cs as [|c cs]; [done|]. unfold components, slash_string.
  rewrite Split_Join; [|done|]. 2: { eapply Forall_impl; [|exact H]. by intros ? (? & ? & ?). }
  induction H as [|d ds (Hd & _) _ IH]; [done|]. simpl.
  destruct (String.eqb_spec d ""); [done|]. simpl. by rewrite IH.
Qed.

(** Cleaning a path without dots only drops its empty components. *)
Lemma Clean_no_dots (s : string) :
  s <> "" -> has_byte "." s = false -> Clean s = render_path (rooted s) (components s).
Proof.
  intros Hne H. unfold Clean. apply String.eqb_neq in Hne. rewrite Hne.
  unfold clean_stack. rewrite clean_fold_no_dots by (by apply Split_has_byte).
  by rewrite app_nil_r, rev_involutive.
Qed.

(** What [Clean] of a dot-free string adds to the stack of another path. *)
Lemma clean_stack_Clean (r : bool) (stack : list string) (s : string) :
  has_byte "." s = false ->
  fold_left (clean_step r) (Split (Clean s) slash) stack = rev (components s) ++ stack.
Proof.
  intros H. destruct (decide (s = "")) as [->|Hne]; [done|].
  rewrite Clean_no_dots by done. pose proof (components_safe s H) as Hs.
  assert (has_byte "." (Join (components s) slash_string) = false) as Hj.
  { clear -Hs. induction Hs as [|c cs (_ & _ & Hc) Hcs IH]; [done|].
    destruct cs; [done|]. rewrite Join_cons by done. by rewrite !has_byte_app, Hc. }
  unfold render_path. destruct (rooted s).
  - change (slash_string +:+ ?x) with ("" +:+ String slash x).
    rewrite Split_app. cbn [Split app fold_left].
    rewrite clean_fold_no_dots by (by apply Split_has_byte).
    fold (components (Join (components s) slash_string)). by rewrite components_Join.
  - destruct (components s) as [|c cs] eqn:E; [done|].
    rewrite clean_fold_no_dots by (by apply Split_has_byte).
    fold (components (Join (c :: cs) slash_string)). by rewrite components_Join.
Qed.

Lemma rooted_app (s t : string) : s <> "" -> rooted (s +:+ t) = rooted s.
Proof. intros H. unfold rooted, slash_string. by apply HasPrefix_app_first. Qed.

(** Joining a non-empty directory and a cleaned dot-free path. *)
Lemma path_Join_Clean (dir s : string) :
  dir <> "" -> has_byte "." s = false ->
  path_Join [dir; Clean s] =
    render_path (rooted dir) (rev (clean_stack (rooted dir) dir) ++ components s).
Proof.
  intros Hne H. cbn [path_Join]. pose proof Hne as Hne'. apply String.eqb_neq in Hne'.
  rewrite Hne'. cbn [Join]. unfold Clean at 1.
  assert (String.eqb (dir +:+ slash_string +:+ Clean s) "" = false) as ->.
  { apply String.eqb_neq. by intros [? _]%sapp_eq_nil. }
  rewrite rooted_app by done. f_equal. unfold clean_stack.
  change (slash_string +:+ Clean s) with (String slash (Clean s)).
  rewrite Split_app, fold_left_app, clean_stack_Clean by done.
  by rewrite rev_app_distr, rev_involutive.
Qed.

(** ** Lemmas: a cleaned path is clean *)

(** The stacks that [Clean] reaches: walking over the components again gives the
    same stack. *)
Definition kept (r : bool) (stack : list string) : Prop :=
  fold_left (clean_step r) (rev stack) [] = stack /\
  Forall (fun c => c <> "" /\ c <> "." /\ has_byte slash c = false) stack.

Lemma clean_step_kept (r : bool) (stack : list string) (comp : string) :
  has_byte slash comp = false -> kept r stack -> kept r (clean_step r stack comp).
Proof.
  intros Hs [Hf Ha]. unfold clean_step at 1.
  destruct (String.eqb_spec comp ""), (String.eqb_spec comp "."); [done..|]. cbn [orb].
  destruct (String.eqb_spec comp "..") as [->|Hup].
  - destruct stack as [|top rest]; [destruct r; by repeat constructor|].
    inversion_clear Ha as [|?? (T1 & T2 & T3) Hr]. destruct (String.eqb_spec top "..") as [->|Ht].
    + split; [|by repeat constructor]. change (rev (".." :: ?l)) with (rev l ++ [".."]) at 1.
      rewrite fold_left_app, Hf. done.
    + split; [|done]. cbn [rev] in Hf. rewrite fold_left_app in Hf. cbn [fold_left] in Hf.
      unfold clean_step at 1 in Hf. apply String.eqb_neq in T1, T2, Ht. rewrite T1, T2, Ht in Hf.
      by injection Hf.
  - split; [|by constructor]. cbn [rev]. rewrite fold_left_app, Hf. cbn [fold_left]. unfold clean_step.
    apply String.eqb_neq in n, n0, Hup. by rewrite n, n0, Hup.
Qed.

Lemma clean_fold_kept (r : bool) (comps stack : list string) :
  Forall (fun c => has_byte slash c = false) comps -> kept r stack ->
  kept r (fold_left (clean_step r) comps stack).
Proof.
  intros H. revert stack. induction H as [|c cs Hc _ IH]; intros stack Hk; [done|].
  by apply IH, clean_step_kept.
Qed.

Lemma clean_stack_kept (r : bool) (path : string) : kept r (clean_stack r path).
Proof. apply clean_fold_kept; [apply Split_no_byte|by repeat constructor]. Qed.

Lemma clean_stack_render (r : bool) (stack : list string) : kept r stack ->
  rooted (render_path r (rev stack)) = r /\ clean_stack r (render_path r (rev stack)) = stack.
Proof.
  intros [Hf Ha]. apply Forall_rev in Ha. revert Hf Ha. generalize (rev stack) as l. intros l Hf Ha.
  assert (Hns : Forall (fun c => has_byte slash c = false) l) by (eapply Forall_impl; [|exact Ha]; by intros ? (_ & _ & ?)).
  unfold clean_stack, render_path. destruct r.
  - split; [done|]. change (slash_string +:+ ?x) with ("" +:+ String slash x). rewrite Split_app.
    cbn [Split app fold_left]. destruct l as [|c l]; [done|]. unfold slash_string. by rewrite Split_Join.
  - destruct l as [|c l]; [done|]. split; [|unfold slash_string; by rewrite Split_Join].
    inversion_clear Ha as [|?? (Hne & _ & Hc) _].
    assert (rooted c = false) as Hr.
    { apply not_true_iff_false. by intros [t ->]%HasPrefix_spec. }
    destruct l; [done|]. rewrite Join_cons by done. by rewrite rooted_app.
Qed.

(** [Clean] is idempotent on the stack of components. *)
Lemma Clean_stack (path : string) : path <> "" ->
  rooted (Clean path) = rooted path /\
  clean_stack (rooted path) (Clean path) = clean_stack (rooted path) path.
Proof.
  intros Hne%String.eqb_neq. unfold Clean at 1 2. rewrite Hne. by apply clean_stack_render, clean_stack_kept.
Qed.

Lemma Clean_not_empty (path : string) : Clean path <> "".
Proof.
  unfold Clean. destruct (String.eqb_spec path ""); [done|]. pose proof (clean_stack_kept (rooted path) path) as [_ H].
  unfold render_path. destruct (rooted path); [done|]. apply Forall_rev in H.
  destruct H as [|c cs (Hc & _) _]; [done|]. destruct cs; cbn [Join]; [done|]. by intros [? _]%sapp_eq_nil.
Qed.

(** Two paths that [Clean] sends to the same one have the same components left. *)
Lemma Clean_inj (p q : string) : p <> "" -> q <> "" -> rooted p = rooted q ->
  Clean p = Clean q <-> clean_stack (rooted p) p = clean_stack (rooted p) q.
Proof.
  intros Hp Hq Hr. destruct (Clean_stack p Hp) as [_ Ep], (Clean_stack q Hq) as [_ Eq].
  rewrite <- Hr in Eq. split; intros E; [by rewrite <- Ep, <- Eq, E|].
  unfold Clean. apply String.eqb_neq in Hp, Hq. by rewrite Hp, Hq, <- Hr, E.
Qed.
