(* ===== verification/GoJson.v ===== *)
(** * JSON values, as [encoding/json] writes and reads them.

    A document is a tree: [json]. [Marshal] of a Go string replaces every byte
    that is not part of a valid UTF-8 encoding by U+FFFD ([to_valid]); decoding
    into a struct looks a key up by its exact name first and by its case fold
    otherwise. The text of a document is in [JsonText]. *)
From Stdlib Require Import Ascii.
From S2P Require Import Prelude GoStrings GoTrim.

(** ** Values *)

Inductive json :=
| JNull
| JBool (b : bool)
| JNumber (literal : string)
| JString (s : string)
| JArray (elems : list json)
| JObject (fields : list (string * json)).

(** ** UTF-8 *)

Definition in_range (lo hi : nat) (a : ascii) : bool :=
  ((lo <=? nat_of_ascii a) && (nat_of_ascii a <=? hi))%nat.

Definition cont (a : ascii) : bool := in_range 128 191 a.

(** Valid encodings of two, three and four bytes. *)
Definition utf8_2 (a b : ascii) : bool := in_range 194 223 a && cont b.

Definition utf8_3 (a b c : ascii) : bool :=
  (in_range 224 224 a && in_range 160 191 b
   || in_range 225 236 a && cont b
   || in_range 237 237 a && in_range 128 159 b
   || in_range 238 239 a && cont b) && cont c.

Definition utf8_4 (a b c d : ascii) : bool :=
  (in_range 240 240 a && in_range 144 191 b
   || in_range 241 243 a && cont b
   || in_range 244 244 a && in_range 128 143 b) && cont c && cont d.

(** U+FFFD. *)
Definition replacement (s : string) : string :=
  String (byte 239) (String (byte 191) (String (byte 189) s)).

(** Every byte outside a valid encoding becomes U+FFFD. *)
Fixpoint to_valid (s : string) : string :=
  match s with
  | "" => ""
  | String a r1 =>
      if ascii7 a then String a (to_valid r1)
      else match r1 with
      | "" => replacement (to_valid r1)
      | String b r2 =>
          if utf8_2 a b then String a (String b (to_valid r2))
          else match r2 with
          | "" => replacement (to_valid r1)
          | String c r3 =>
              if utf8_3 a b c then String a (String b (String c (to_valid r3)))
              else match r3 with
              | "" => replacement (to_valid r1)
              | String d r4 =>
                  if utf8_4 a b c d then String a (String b (String c (String d (to_valid r4))))
                  else replacement (to_valid r1)
              end
          end
      end
  end.

Fixpoint valid_utf8 (s : string) : bool :=
  match s with
  | "" => true
  | String a r1 =>
      if ascii7 a then valid_utf8 r1
      else match r1 with
      | "" => false
      | String b r2 =>
          if utf8_2 a b then valid_utf8 r2
          else match r2 with
          | "" => false
          | String c r3 =>
              if utf8_3 a b c then valid_utf8 r3
              else match r3 with
              | "" => false
              | String d r4 => if utf8_4 a b c d then valid_utf8 r4 else false
              end
          end
      end
  end.

(** ** Key folding *)

Definition upper (a : ascii) : ascii :=
  if in_range 97 122 a then ascii_of_nat (nat_of_ascii a - 32) else a.

(** [foldName]: letters to upper case; U+212A (the Kelvin sign) folds to K and
    U+017F (the long s) to S. *)
Fixpoint fold_name (s : string) : string :=
  match s with
  | "" => ""
  | String a r1 =>
      match r1 with
      | String b r2 =>
          if in_range 197 197 a && in_range 191 191 b then String "S" (fold_name r2)
          else match r2 with
          | String c r3 =>
              if in_range 226 226 a && in_range 132 132 b && in_range 170 170 c
              then String "K" (fold_name r3)
              else String (upper a) (fold_name r1)
          | "" => String (upper a) (fold_name r1)
          end
      | "" => String (upper a) ""
      end
  end.

(** The struct field, among [names], an object key stands for. *)
Definition find_field (names : list string) (key : string) : option string :=
  if existsb (String.eqb key) names then Some key
  else List.find (fun n => String.eqb (fold_name n) (fold_name key)) names.

(** ** Lemmas *)

Lemma to_valid_id (s : string) : valid_utf8 s = true -> to_valid s = s.
Proof.
  remember (String.length s) as n eqn:Hn. revert s Hn.
  induction (lt_wf n) as [n _ IH]; intros s -> Hv.
  destruct s as [|a s]; [done|]. cbn [valid_utf8 to_valid] in *.
  destruct (ascii7 a); [f_equal; eapply IH; [|done|done]; simpl; lia|].
  destruct s as [|b s]; [done|]. destruct (utf8_2 a b).
  { do 2 f_equal. eapply IH; [|done|done]. simpl. lia. }
  destruct s as [|c s]; [done|]. destruct (utf8_3 a b c).
  { do 3 f_equal. eapply IH; [|done|done]. simpl. lia. }
  destruct s as [|d s]; [done|]. destruct (utf8_4 a b c d); [|done].
  do 4 f_equal. eapply IH; [|done|done]. simpl. lia.
Qed.

Lemma to_valid_nil (s : string) : String.eqb (to_valid s) "" = String.eqb s "".
Proof.
  destruct s as [|a s]; [done|]. cbn [to_valid].
  destruct (ascii7 a); [done|]. destruct s as [|b s]; [done|].
  destruct (utf8_2 a b); [done|]. destruct s as [|c s]; [done|].
  destruct (utf8_3 a b c); [done|]. destruct s as [|d s]; [done|].
  by destruct (utf8_4 a b c d).
Qed.
