(* ===== verification/JsonText.v ===== *)
(** * The text of JSON documents, as [encoding/json] writes and reads it.

    [encode] is the writer behind [json.Marshal], with its escapes. The reader is
    the scanner of the package: one step per byte, over a stack of the containers
    that are open, with no look-ahead and no fuel. [parse_first] is what
    [json.Decoder] takes from a body: the first value; what follows is not read. *)
From Stdlib Require Import Ascii.
From S2P Require Import Prelude GoStrings GoTrim GoJson.

(** ** The writer *)

Definition quote_mark : ascii := byte 34.
Definition backslash : ascii := byte 92.

Definition hex_digit (n : nat) : ascii := byte (if (n <? 10)%nat then 48 + n else 87 + n).

(** [htmlSafeSet]: printable, and not one of the quote, the backslash, <, > and &;
    the byte 127 is in the set. *)
Definition html_safe (a : ascii) : bool :=
  in_range 32 127 a &&
  negb (existsb (Ascii.eqb a) [quote_mark; backslash; byte 38; byte 60; byte 62]).

(** [\u00XX] *)
Definition escape_u (a : ascii) (s : string) : string :=
  let n := nat_of_ascii a in
  String backslash (String "u" (String "0" (String "0"
    (String (hex_digit (n / 16)) (String (hex_digit (n mod 16)) s))))).

Definition escape_byte (a : ascii) (s : string) : string :=
  let letter c := String backslash (String c s) in
  if Ascii.eqb a quote_mark || Ascii.eqb a backslash then letter a
  else if Ascii.eqb a (byte 8) then letter "b"%char
  else if Ascii.eqb a (byte 12) then letter "f"%char
  else if Ascii.eqb a (byte 10) then letter "n"%char
  else if Ascii.eqb a (byte 13) then letter "r"%char
  else if Ascii.eqb a (byte 9) then letter "t"%char
  else escape_u a s.

(** [\ufffd] *)
Definition escape_replacement (s : string) : string :=
  String backslash (String "u" (String "f" (String "f" (String "f" (String "d" s))))).

(** U+2028 and U+2029 are written as escapes. *)
Definition line_separator (a b c : ascii) : bool :=
  Ascii.eqb a (byte 226) && Ascii.eqb b (byte 128) && (Ascii.eqb c (byte 168) || Ascii.eqb c (byte 169)).
Definition escape_separator (c : ascii) (s : string) : string :=
  String backslash (String "u" (String "2" (String "0" (String "2"
    (String (if Ascii.eqb c (byte 168) then "8" else "9")%char s))))).

(** [appendString], between the quotes. *)
Fixpoint quote_body (s : string) : string :=
  match s with
  | "" => ""
  | String a r1 =>
      if ascii7 a then if html_safe a then String a (quote_body r1) else escape_byte a (quote_body r1)
      else match r1 with
      | "" => escape_replacement (quote_body r1)
      | String b r2 =>
          if utf8_2 a b then String a (String b (quote_body r2))
          else match r2 with
          | "" => escape_replacement (quote_body r1)
          | String c r3 =>
              if utf8_3 a b c then
                if line_separator a b c then escape_separator c (quote_body r3)
                else String a (String b (String c (quote_body r3)))
              else match r3 with
              | "" => escape_replacement (quote_body r1)
              | String d r4 =>
                  if utf8_4 a b c d then String a (String b (String c (String d (quote_body r4))))
                  else escape_replacement (quote_body r1)
              end
          end
      end
  end.

Definition quote (s : string) : string := String quote_mark (quote_body s +:+ String quote_mark "").

Definition bracket (l r : ascii) (items : list string) : string :=
  String l (Join items "," +:+ String r "").

Fixpoint encode (v : json) : string :=
  match v with
  | JNull => "null"
  | JBool b => if b then "true" else "false"
  | JNumber literal => literal
  | JString s => quote s
  | JArray l => bracket "[" "]" (map encode l)
  | JObject l => bracket "{" "}" (map (fun kv => quote (fst kv) +:+ ":" +:+ encode (snd kv)) l)
  end.

(** ** The reader: strings *)

Definition hex_value (a : ascii) : option N :=
  let n := N_of_ascii a in
  (if in_range 48 57 a then Some (n - 48)
   else if in_range 97 102 a then Some (n - 87)
   else if in_range 65 70 a then Some (n - 55)
   else None)%N.

Definition is_hex (a : ascii) : bool := match hex_value a with Some _ => true | None => false end.

(** [getu4], of the four digits *)
Definition hex4 (a b c d : ascii) : option N :=
  match hex_value a, hex_value b, hex_value c, hex_value d with
  | Some w, Some x, Some y, Some z => Some (((w * 16 + x) * 16 + y) * 16 + z)%N
  | _, _, _, _ => None
  end.

(** [utf8.AppendRune]; a surrogate becomes U+FFFD. *)
Definition put_rune (n : N) (s : string) : string :=
  let put m t := String (ascii_of_N m) t in
  (if n <? 128 then put n s
   else if n <? 2048 then put (192 + n / 64) (put (128 + n mod 64) s)
   else if (55296 <=? n) && (n <? 57344) then replacement s
   else if n <? 65536 then
     put (224 + n / 4096) (put (128 + n / 64 mod 64) (put (128 + n mod 64) s))
   else put (240 + n / 262144) (put (128 + n / 4096 mod 64)
     (put (128 + n / 64 mod 64) (put (128 + n mod 64) s))))%N.

Definition high_surrogate (n : N) : bool := ((55296 <=? n) && (n <? 56320))%N.
Definition low_surrogate (n : N) : bool := ((56320 <=? n) && (n <? 57344))%N.

(** What the letter of a two-byte escape stands for. *)
Definition unescape_letter (a : ascii) : ascii :=
  if Ascii.eqb a "b" then byte 8
  else if Ascii.eqb a "f" then byte 12
  else if Ascii.eqb a "n" then byte 10
  else if Ascii.eqb a "r" then byte 13
  else if Ascii.eqb a "t" then byte 9
  else a.

(** The escapes of a string that the scanner has accepted. *)
Fixpoint unescape (s : string) : string :=
  match s with
  | "" => ""
  | String a r =>
      if negb (Ascii.eqb a backslash) then String a (unescape r)
      else match r with
      | String "u" (String h1 (String h2 (String h3 (String h4 r6)))) =>
          match hex4 h1 h2 h3 h4 with
          | None => unescape r6
          | Some n =>
              match r6 with
              | String b1 (String b2 (String k1 (String k2 (String k3 (String k4 r12))))) =>
                  match hex4 k1 k2 k3 k4 with
                  | Some m =>
                      if Ascii.eqb b1 backslash && Ascii.eqb b2 "u" && high_surrogate n && low_surrogate m
                      then put_rune (65536 + (n - 55296) * 1024 + (m - 56320))%N (unescape r12)
                      else put_rune n (unescape r6)
                  | None => put_rune n (unescape r6)
                  end
              | _ => put_rune n (unescape r6)
              end
          end
      | String c r2 => String (unescape_letter c) (unescape r2)
      | "" => ""
      end
  end.

(** [unquote]: the escapes, and U+FFFD for what is not UTF-8. *)
Definition unquote (s : string) : string := to_valid (unescape s).

(** ** The reader: the scanner *)

(** After a backslash, or within the digits of [\u]. *)
Inductive escape := NoEscape | Escaped | EscapedU (digits : nat).

Inductive number := NNeg | NZero | NDigits | NDot | NFraction | NE | NESign | NExponent.

(** An open container: the elements before, last first; of an object also the key
    of the value that is being read. *)
Inductive frame :=
| FArray (elems : list json)
| FObject (fields : list (string * json)) (key : string).

(** What is being read, inside the innermost container. The bytes of a string or
    a number are kept last first; [into] has the fields before a key. *)
Inductive mode :=
| MValue (may_close : bool)
| MAfter (v : json)
| MKey (fields : list (string * json)) (may_close : bool)
| MColon (fields : list (string * json)) (key : string)
| MString (into : option (list (string * json))) (bytes : list ascii) (e : escape)
| MNumber (bytes : list ascii) (n : number)
| MLiteral (rest : string) (v : json).

Inductive state :=
| Scanning (stack : list frame) (m : mode)
| Complete (v : json)
| Invalid.

Definition json_space (c : ascii) : bool := existsb (Ascii.eqb c) [byte 32; byte 9; byte 13; byte 10].
Definition digit (c : ascii) : bool := in_range 48 57 c.

(** [maxNestingDepth] *)
Definition maxNestingDepth : Z := 10000.

(** [pushParseState]: one more container, if the nesting allows. *)
Definition open_container (stack : list frame) (m : list frame -> state) : state :=
  if Z.of_nat (length stack) <? maxNestingDepth then m stack else Invalid.

(** A value is complete: at the top the document is. *)
Definition complete (stack : list frame) (v : json) : state :=
  match stack with [] => Complete v | _ => Scanning stack (MAfter v) end.

(** [stateEndValue] *)
Definition end_value (stack : list frame) (v : json) (c : ascii) : state :=
  if json_space c then Scanning stack (MAfter v)
  else match stack with
  | [] => Complete v
  | FArray elems :: st =>
      if Ascii.eqb c "," then Scanning (FArray (v :: elems) :: st) (MValue false)
      else if Ascii.eqb c "]" then complete st (JArray (rev (v :: elems)))
      else Invalid
  | FObject fields key :: st =>
      if Ascii.eqb c "," then Scanning st (MKey ((key, v) :: fields) false)
      else if Ascii.eqb c "}" then complete st (JObject (rev ((key, v) :: fields)))
      else Invalid
  end.

(** [stateBeginValue], and [stateBeginValueOrEmpty] where [may_close]. *)
Definition begin_value (stack : list frame) (may_close : bool) (c : ascii) : state :=
  if json_space c then Scanning stack (MValue may_close)
  else if Ascii.eqb c "{" then open_container stack (fun st => Scanning st (MKey [] true))
  else if Ascii.eqb c "[" then open_container stack (fun st => Scanning (FArray [] :: st) (MValue true))
  else if Ascii.eqb c "]" then
    match stack with
    | FArray elems :: st => if may_close then complete st (JArray (rev elems)) else Invalid
    | _ => Invalid
    end
  else if Ascii.eqb c quote_mark then Scanning stack (MString None [] NoEscape)
  else if Ascii.eqb c "-" then Scanning stack (MNumber [c] NNeg)
  else if Ascii.eqb c "0" then Scanning stack (MNumber [c] NZero)
  else if digit c then Scanning stack (MNumber [c] NDigits)
  else if Ascii.eqb c "t" then Scanning stack (MLiteral "rue" (JBool true))
  else if Ascii.eqb c "f" then Scanning stack (MLiteral "alse" (JBool false))
  else if Ascii.eqb c "n" then Scanning stack (MLiteral "ull" JNull)
  else Invalid.

(** [stateBeginString], and [stateBeginStringOrEmpty] where [may_close]. *)
Definition begin_key (stack : list frame) (fields : list (string * json)) (may_close : bool) (c : ascii) :
    state :=
  if json_space c then Scanning stack (MKey fields may_close)
  else if Ascii.eqb c "}" then if may_close then complete stack (JObject (rev fields)) else Invalid
  else if Ascii.eqb c quote_mark then Scanning stack (MString (Some fields) [] NoEscape)
  else Invalid.

(** [stateInString] and the states of its escapes; the closing quote makes the
    string a key or a value. *)
Definition in_string (stack : list frame) (into : option (list (string * json))) (bytes : list ascii)
    (e : escape) (c : ascii) : state :=
  let next e := Scanning stack (MString into (c :: bytes) e) in
  match e with
  | NoEscape =>
      if Ascii.eqb c quote_mark then
        let s := unquote (String.string_of_list_ascii (rev bytes)) in
        match into with
        | Some fields => Scanning stack (MColon fields s)
        | None => complete stack (JString s)
        end
      else if Ascii.eqb c backslash then next Escaped
      else if (nat_of_ascii c <? 32)%nat then Invalid
      else next NoEscape
  | Escaped =>
      if Ascii.eqb c "u" then next (EscapedU 3)
      else if existsb (Ascii.eqb c) ["b"%char; "f"%char; "n"%char; "r"%char; "t"%char; backslash; "/"%char; quote_mark]
      then next NoEscape
      else Invalid
  | EscapedU n =>
      if is_hex c then next (match n with O => NoEscape | S n => EscapedU n end) else Invalid
  end.

(** The states of a number; [None] where the byte does not belong to it. *)
Definition number_step (n : number) (c : ascii) : option number :=
  let e := Ascii.eqb c "e" || Ascii.eqb c "E" in
  match n with
  | NNeg => if Ascii.eqb c "0" then Some NZero else if digit c then Some NDigits else None
  | NZero => if Ascii.eqb c "." then Some NDot else if e then Some NE else None
  | NDigits =>
      if digit c then Some NDigits else if Ascii.eqb c "." then Some NDot else if e then Some NE else None
  | NDot => if digit c then Some NFraction else None
  | NFraction => if digit c then Some NFraction else if e then Some NE else None
  | NE => if Ascii.eqb c "+" || Ascii.eqb c "-" then Some NESign else if digit c then Some NExponent else None
  | NESign => if digit c then Some NExponent else None
  | NExponent => if digit c then Some NExponent else None
  end.

Definition number_ends (n : number) : bool :=
  match n with NZero | NDigits | NFraction | NExponent => true | _ => false end.

Definition number_value (bytes : list ascii) : json := JNumber (String.string_of_list_ascii (rev bytes)).

(** One byte. *)
Definition scan_step (st : state) (c : ascii) : state :=
  match st with
  | Scanning stack m =>
      match m with
      | MValue may_close => begin_value stack may_close c
      | MAfter v => end_value stack v c
      | MKey fields may_close => begin_key stack fields may_close c
      | MColon fields key =>
          if json_space c then st
          else if Ascii.eqb c ":" then Scanning (FObject fields key :: stack) (MValue false)
          else Invalid
      | MString into bytes e => in_string stack into bytes e c
      | MNumber bytes n =>
          match number_step n c with
          | Some n' => Scanning stack (MNumber (c :: bytes) n')
          | None => if number_ends n then end_value stack (number_value bytes) c else Invalid
          end
      | MLiteral rest v =>
          match rest with
          | String x rest' =>
              if Ascii.eqb c x then
                match rest' with "" => complete stack v | _ => Scanning stack (MLiteral rest' v) end
              else Invalid
          | "" => Invalid
          end
      end
  | _ => st
  end.

Fixpoint scan (st : state) (s : string) : state :=
  match s with "" => st | String c r => scan (scan_step st c) r end.

(** The document when the bytes end. *)
Definition scanned (st : state) : option json :=
  match st with
  | Complete v => Some v
  | Scanning [] (MNumber bytes n) => if number_ends n then Some (number_value bytes) else None
  | _ => None
  end.

Definition begin_document : state := Scanning [] (MValue false).

Definition parse_first (s : string) : option json := scanned (scan begin_document s).

(** [http.MaxBytesReader]: the bytes up to the limit, then an error. *)
Fixpoint limit_bytes (n : Z) (s : string) : string :=
  match s with
  | "" => ""
  | String c r => if n <=? 0 then "" else String c (limit_bytes (n - 1) r)
  end.

(** Every string of a document as the reader gives it back. *)
Fixpoint valid_json (v : json) : json :=
  match v with
  | JString s => JString (to_valid s)
  | JArray l => JArray (map valid_json l)
  | JObject l => JObject (map (fun kv => (to_valid (fst kv), valid_json (snd kv))) l)
  | _ => v
  end.

Example parse_small :
  parse_first (encode (JObject [("a<", JArray [JString (String nl "x"); JBool true; JNull; JArray []]); ("b", JObject [])]) +:+ "rest") =
  Some (JObject [("a<", JArray [JString (String nl "x"); JBool true; JNull; JArray []]); ("b", JObject [])]).
Proof. vm_compute. reflexivity. Qed.

(** ** Lemmas: strings *)

(** A string by its encoded characters; a byte that belongs to none stands alone. *)
Inductive utf8_view : string -> Prop :=
| view_nil : utf8_view ""
| view_ascii a r : ascii7 a = true -> utf8_view r -> utf8_view (String a r)
| view_2 a b r : ascii7 a = false -> utf8_2 a b = true -> utf8_view r -> utf8_view (String a (String b r))
| view_3 a b c r :
    ascii7 a = false -> utf8_2 a b = false -> utf8_3 a b c = true -> utf8_view r ->
    utf8_view (String a (String b (String c r)))
| view_4 a b c d r :
    ascii7 a = false -> utf8_2 a b = false -> utf8_3 a b c = false -> utf8_4 a b c d = true ->
    utf8_view r -> utf8_view (String a (String b (String c (String d r))))
| view_bad a r :
    to_valid (String a r) = replacement (to_valid r) ->
    quote_body (String a r) = escape_replacement (quote_body r) ->
    utf8_view r -> utf8_view (String a r).

Lemma utf8_view_all (s : string) : utf8_view s.
Proof.
  remember (String.length s) as n eqn:Hn. revert s Hn.
  induction (lt_wf n) as [n _ IH]; intros s ->.
  assert (IH' : forall r, (String.length r < String.length s)%nat -> utf8_view r)
    by (intros r Hr; by eapply IH). clear IH.
  destruct s as [|a s]; [constructor|]. destruct (ascii7 a) eqn:Ea; [apply view_ascii, IH'; [done|simpl; lia]|].
  assert (Hbad : to_valid (String a s) = replacement (to_valid s) ->
    quote_body (String a s) = escape_replacement (quote_body s) -> utf8_view (String a s))
    by (intros; apply view_bad; [done..|apply IH'; simpl; lia]).
  destruct s as [|b s]; [apply Hbad; cbn [to_valid quote_body]; by rewrite Ea|].
  destruct (utf8_2 a b) eqn:E2; [apply view_2, IH'; [done..|simpl; lia]|].
  destruct s as [|c s]; [apply Hbad; cbn [to_valid quote_body]; by rewrite Ea, E2|].
  destruct (utf8_3 a b c) eqn:E3; [apply view_3, IH'; [done..|simpl; lia]|].
  destruct s as [|d s]; [apply Hbad; cbn [to_valid quote_body]; by rewrite Ea, E2, E3|].
  destruct (utf8_4 a b c d) eqn:E4; [apply view_4, IH'; [done..|simpl; lia]|].
  apply Hbad; cbn [to_valid quote_body]; by rewrite Ea, E2, E3, E4.
Qed.

Lemma to_valid_2 a b r : ascii7 a = false -> utf8_2 a b = true ->
  to_valid (String a (String b r)) = String a (String b (to_valid r)).
Proof. intros Ha Hb. cbn [to_valid]. by rewrite Ha, Hb. Qed.

Lemma to_valid_3 a b c r : ascii7 a = false -> utf8_2 a b = false -> utf8_3 a b c = true ->
  to_valid (String a (String b (String c r))) = String a (String b (String c (to_valid r))).
Proof. intros Ha Hb Hc. cbn [to_valid]. by rewrite Ha, Hb, Hc. Qed.

Lemma to_valid_4 a b c d r :
  ascii7 a = false -> utf8_2 a b = false -> utf8_3 a b c = false -> utf8_4 a b c d = true ->
  to_valid (String a (String b (String c (String d r)))) =
    String a (String b (String c (String d (to_valid r)))).
Proof. intros Ha Hb Hc Hd. cbn [to_valid]. by rewrite Ha, Hb, Hc, Hd. Qed.

Lemma to_valid_valid (s : string) : valid_utf8 (to_valid s) = true.
Proof.
  induction (utf8_view_all s) as [|a r Ha _ IH|a b r Ha Hb _ IH|a b c r Ha Hb Hc _ IH
    |a b c d r Ha Hb Hc Hd _ IH|a r Ev _ _ IH]; [done|..].
  - cbn [to_valid]. rewrite Ha. cbn [valid_utf8]. by rewrite Ha.
  - rewrite to_valid_2 by done. cbn [valid_utf8]. by rewrite Ha, Hb.
  - rewrite to_valid_3 by done. cbn [valid_utf8]. by rewrite Ha, Hb, Hc.
  - rewrite to_valid_4 by done. cbn [valid_utf8]. by rewrite Ha, Hb, Hc, Hd.
  - rewrite Ev. exact IH.
Qed.

Lemma to_valid_idem (s : string) : to_valid (to_valid s) = to_valid s.
Proof. apply to_valid_id, to_valid_valid. Qed.

(** ** Lemmas: quoting and unquoting *)

(** A statement about one byte, by computation on all of them. *)
Ltac every_byte a := destruct a as [[] [] [] [] [] [] [] []].

Lemma not_backslash a r : Ascii.eqb a backslash = false -> unescape (String a r) = String a (unescape r).
Proof. intros Ha. cbn [unescape]. by rewrite Ha. Qed.

Lemma high_byte_plain a : ascii7 a = false -> Ascii.eqb a backslash = false.
Proof. every_byte a; vm_compute; congruence. Qed.

Lemma safe_plain a : html_safe a = true -> Ascii.eqb a backslash = false.
Proof. every_byte a; vm_compute; congruence. Qed.

Lemma cont_plain a : cont a = true -> Ascii.eqb a backslash = false.
Proof. every_byte a; vm_compute; congruence. Qed.

(** An escape [\u] that is not the first half of a pair. *)
Lemma unescape_u h1 h2 h3 h4 n r :
  hex4 h1 h2 h3 h4 = Some n -> high_surrogate n = false ->
  unescape (String backslash (String "u" (String h1 (String h2 (String h3 (String h4 r)))))) =
    put_rune n (unescape r).
Proof.
  intros Hn Hs. cbn [unescape]. change (negb (Ascii.eqb backslash backslash)) with false. cbn iota.
  rewrite Hn. destruct r as [|b1 [|b2 [|k1 [|k2 [|k3 [|k4 r]]]]]]; try done.
  destruct (hex4 k1 k2 k3 k4); [|done]. by rewrite Hs, andb_false_r.
Qed.

Lemma hex_of_byte a : ascii7 a = true ->
  hex4 "0" "0" (hex_digit (nat_of_ascii a / 16)) (hex_digit (nat_of_ascii a mod 16)) = Some (N_of_ascii a) /\
  high_surrogate (N_of_ascii a) = false /\ forall s, put_rune (N_of_ascii a) s = String a s.
Proof. every_byte a; try discriminate; repeat split. Qed.

Lemma unescape_byte a r : ascii7 a = true -> unescape (escape_byte a r) = String a (unescape r).
Proof.
  intros Ha. unfold escape_byte.
  repeat match goal with
  | |- context [if Ascii.eqb ?x ?y then _ else _] => destruct (Ascii.eqb_spec x y) as [->|]; [reflexivity|]
  end.
  destruct (_ || _) eqn:E.
  - apply orb_true_iff in E as [->%Ascii.eqb_eq| ->%Ascii.eqb_eq]; reflexivity.
  - destruct (hex_of_byte a Ha) as (Hh & Hs & Hp). unfold escape_u.
    by rewrite (unescape_u _ _ _ _ _ _ Hh Hs), Hp.
Qed.

Lemma utf8_2_cont a b : utf8_2 a b = true -> cont b = true.
Proof. by intros [_ H]%andb_true_iff. Qed.

Lemma cont_of_range lo hi b : in_range lo hi b = true -> (128 <= lo)%nat -> (hi <= 191)%nat -> cont b = true.
Proof. unfold cont, in_range. rewrite !andb_true_iff, !Nat.leb_le. lia. Qed.

Lemma utf8_3_cont a b c : utf8_3 a b c = true -> cont b = true /\ cont c = true.
Proof.
  unfold utf8_3. rewrite !andb_true_iff, !orb_true_iff, !andb_true_iff. intros [H Hc]. split; [|done].
  destruct H as [[[[_ H]|[_ H]]|[_ H]]|[_ H]]; try done; eapply cont_of_range; try exact H; lia.
Qed.

Lemma utf8_4_cont a b c d : utf8_4 a b c d = true -> cont b = true /\ cont c = true /\ cont d = true.
Proof.
  unfold utf8_4. rewrite !andb_true_iff, !orb_true_iff, !andb_true_iff. intros [[H Hc] Hd]. split; [|done].
  destruct H as [[[_ H]|[_ H]]|[_ H]]; try done; eapply cont_of_range; try exact H; lia.
Qed.

Lemma unescape_separator a b c r : line_separator a b c = true ->
  unescape (escape_separator c r) = String a (String b (String c (unescape r))).
Proof.
  unfold line_separator. rewrite !andb_true_iff, orb_true_iff, !Ascii.eqb_eq.
  intros [[-> ->] [-> | ->]]; unfold escape_separator; cbn [Ascii.eqb Bool.eqb byte ascii_of_nat].
  - change (Ascii.eqb (byte 168) (byte 168)) with true. cbn iota.
    by rewrite (unescape_u _ _ _ _ 8232%N).
  - change (Ascii.eqb (byte 169) (byte 168)) with false. cbn iota.
    by rewrite (unescape_u _ _ _ _ 8233%N).
Qed.

Lemma unescape_replacement r : unescape (escape_replacement r) = replacement (unescape r).
Proof. unfold escape_replacement. by rewrite (unescape_u _ _ _ _ 65533%N). Qed.

Lemma unescape_quote (s : string) : unescape (quote_body s) = to_valid s.
Proof.
  induction (utf8_view_all s) as [|a r Ha _ IH|a b r Ha Hb _ IH|a b c r Ha Hb Hc _ IH
    |a b c d r Ha Hb Hc Hd _ IH|a r Ev Eq _ IH]; [done|..].
  - cbn [to_valid quote_body]. rewrite Ha. destruct (html_safe a) eqn:Es.
    + by rewrite not_backslash, IH by by apply safe_plain.
    + by rewrite unescape_byte, IH.
  - rewrite to_valid_2 by done. cbn [quote_body]. rewrite Ha, Hb.
    rewrite !not_backslash by (first [by apply high_byte_plain|by eapply cont_plain, utf8_2_cont]).
    by rewrite IH.
  - rewrite to_valid_3 by done. cbn [quote_body]. rewrite Ha, Hb, Hc.
    destruct (line_separator a b c) eqn:El; [by rewrite (unescape_separator a b), IH|].
    apply utf8_3_cont in Hc as [Hb' Hc'].
    by rewrite !not_backslash, IH by (first [by apply high_byte_plain|by apply cont_plain]).
  - rewrite to_valid_4 by done. cbn [quote_body]. rewrite Ha, Hb, Hc, Hd.
    apply utf8_4_cont in Hd as (Hb' & Hc' & Hd').
    by rewrite !not_backslash, IH by (first [by apply high_byte_plain|by apply cont_plain]).
  - by rewrite Ev, Eq, unescape_replacement, IH.
Qed.

Lemma unquote_quote (s : string) : unquote (quote_body s) = to_valid s.
Proof. unfold unquote. by rewrite unescape_quote, to_valid_idem. Qed.

(** ** Lemmas: scanning what was written *)

Lemma scan_app st (a b : string) : scan st (a +:+ b) = scan (scan st a) b.
Proof. revert st. induction a as [|c a IH]; intros st; [done|]. apply IH. Qed.

Lemma scan_complete v s : scan (Complete v) s = Complete v.
Proof. by induction s. Qed.

Lemma scan_invalid s : scan Invalid s = Invalid.
Proof. by induction s. Qed.

Definition bytes_of (s : string) : list ascii := String.list_ascii_of_string s.

(** The scanner stays inside a string over these bytes. *)
Definition in_quotes (s : string) : Prop := forall stack into bytes,
  scan (Scanning stack (MString into bytes NoEscape)) s =
    Scanning stack (MString into (rev (bytes_of s) ++ bytes) NoEscape).

Lemma bytes_of_app (a b : string) : bytes_of (a +:+ b) = bytes_of a ++ bytes_of b.
Proof. unfold bytes_of. induction a as [|c a IH]; [done|]. simpl. by rewrite IH. Qed.

Lemma in_quotes_app a b : in_quotes a -> in_quotes b -> in_quotes (a +:+ b).
Proof.
  intros Ha Hb stack into bytes. rewrite scan_app, Ha, Hb, bytes_of_app, rev_app_distr.
  by rewrite <- app_assoc.
Qed.

Lemma in_quotes_nil : in_quotes "".
Proof. done. Qed.

(** A byte that neither ends the string nor begins an escape. *)
Lemma in_quotes_plain a :
  Ascii.eqb a quote_mark || Ascii.eqb a backslash || (nat_of_ascii a <? 32)%nat = false ->
  in_quotes (String a "").
Proof.
  intros [[H1 H2]%orb_false_iff H3]%orb_false_iff stack into bytes.
  cbn [scan scan_step in_string]. by rewrite H1, H2, H3.
Qed.

Lemma in_quotes_safe a : html_safe a = true -> in_quotes (String a "").
Proof. intros H. apply in_quotes_plain. revert H. every_byte a; vm_compute; congruence. Qed.

Lemma in_quotes_high a : ascii7 a = false -> in_quotes (String a "").
Proof. intros H. apply in_quotes_plain. revert H. every_byte a; vm_compute; congruence. Qed.

Lemma cont_high a : cont a = true -> ascii7 a = false.
Proof. every_byte a; vm_compute; congruence. Qed.

(** The two kinds of escapes. *)
Lemma scan_backslash stack into bytes s :
  scan (Scanning stack (MString into bytes NoEscape)) (String backslash s) =
    scan (Scanning stack (MString into (backslash :: bytes) Escaped)) s.
Proof. reflexivity. Qed.

Lemma in_quotes_letter c :
  Ascii.eqb c "u" = false ->
  existsb (Ascii.eqb c) ["b"%char; "f"%char; "n"%char; "r"%char; "t"%char; backslash; "/"%char; quote_mark] = true ->
  in_quotes (String backslash (String c "")).
Proof.
  intros H1 H2 stack into bytes. rewrite scan_backslash. cbn [scan scan_step in_string]. by rewrite H1, H2.
Qed.

Lemma in_quotes_u h1 h2 h3 h4 : is_hex h1 && is_hex h2 && is_hex h3 && is_hex h4 = true ->
  in_quotes (String backslash (String "u" (String h1 (String h2 (String h3 (String h4 "")))))).
Proof.
  intros [[[H1 H2]%andb_true_iff H3]%andb_true_iff H4]%andb_true_iff stack into bytes.
  rewrite scan_backslash. cbn [scan scan_step in_string].
  change (Ascii.eqb "u" "u") with true.
  do 4 (cbn [scan_step in_string]; first [rewrite H1|rewrite H2|rewrite H3|rewrite H4]). done.
Qed.

Lemma hex_digits_hex a : ascii7 a = true ->
  is_hex (hex_digit (nat_of_ascii a / 16)) && is_hex (hex_digit (nat_of_ascii a mod 16)) = true.
Proof. every_byte a; vm_compute; congruence. Qed.

Lemma in_quotes_escape a : ascii7 a = true -> in_quotes (escape_byte a "").
Proof.
  intros Ha. unfold escape_byte.
  destruct (Ascii.eqb_spec a quote_mark) as [->|]; [by apply in_quotes_letter|].
  destruct (Ascii.eqb_spec a backslash) as [->|]; [by apply in_quotes_letter|]. cbn [orb].
  do 5 (destruct (Ascii.eqb a _); [by apply in_quotes_letter|]).
  unfold escape_u. apply in_quotes_u. pose proof (hex_digits_hex a Ha) as [H1 H2]%andb_true_iff.
  by rewrite H1, H2.
Qed.

Lemma escape_byte_app a r : escape_byte a r = escape_byte a "" +:+ r.
Proof. unfold escape_byte. repeat case_match; reflexivity. Qed.

Lemma escape_separator_app c r : escape_separator c r = escape_separator c "" +:+ r.
Proof. reflexivity. Qed.

Lemma in_quotes_separator c : in_quotes (escape_separator c "").
Proof. unfold escape_separator. by destruct (Ascii.eqb c (byte 168)); apply in_quotes_u. Qed.

Lemma in_quotes_replacement : in_quotes (escape_replacement "").
Proof. by apply in_quotes_u. Qed.

Lemma in_quotes_cons a r : in_quotes (String a "") -> in_quotes r -> in_quotes (String a r).
Proof. apply (in_quotes_app (String a "")). Qed.

Lemma quote_in_quotes (s : string) : in_quotes (quote_body s).
Proof.
  induction (utf8_view_all s) as [|a r Ha _ IH|a b r Ha Hb _ IH|a b c r Ha Hb Hc _ IH
    |a b c d r Ha Hb Hc Hd _ IH|a r _ Eq _ IH]; [done|..].
  - cbn [quote_body]. rewrite Ha. destruct (html_safe a) eqn:Es.
    + by apply in_quotes_cons; [apply in_quotes_safe|].
    + rewrite escape_byte_app. by apply in_quotes_app; [apply in_quotes_escape|].
  - cbn [quote_body]. rewrite Ha, Hb. apply utf8_2_cont, cont_high in Hb.
    by repeat (apply in_quotes_cons; [by apply in_quotes_high|]).
  - cbn [quote_body]. rewrite Ha, Hb, Hc. apply utf8_3_cont in Hc as [Hb' Hc'].
    destruct (line_separator a b c).
    + rewrite escape_separator_app. by apply in_quotes_app; [apply in_quotes_separator|].
    + by repeat (apply in_quotes_cons; [by apply in_quotes_high; first [done|apply cont_high]|]).
  - cbn [quote_body]. rewrite Ha, Hb, Hc, Hd. apply utf8_4_cont in Hd as (Hb' & Hc' & Hd').
    by repeat (apply in_quotes_cons; [by apply in_quotes_high; first [done|apply cont_high]|]).
  - rewrite Eq. by apply (in_quotes_app (escape_replacement "")); [apply in_quotes_replacement|].
Qed.

Lemma bytes_of_string (s : string) : String.string_of_list_ascii (rev (rev (bytes_of s) ++ [])) = s.
Proof. rewrite app_nil_r, rev_involutive. apply String.string_of_list_ascii_of_string. Qed.

(** A quoted string is read as a value or as a key. *)
Lemma scan_quoted_value stack may_close (s : string) :
  scan (Scanning stack (MValue may_close)) (quote s) = complete stack (JString (to_valid s)).
Proof.
  unfold quote. cbn [scan]. change (scan_step _ quote_mark) with (Scanning stack (MString None [] NoEscape)).
  rewrite scan_app, quote_in_quotes. cbn [scan scan_step in_string].
  change (Ascii.eqb quote_mark quote_mark) with true. cbn iota zeta.
  by rewrite bytes_of_string, unquote_quote.
Qed.

Lemma scan_quoted_key stack fields may_close (s : string) :
  scan (Scanning stack (MKey fields may_close)) (quote s) = Scanning stack (MColon fields (to_valid s)).
Proof.
  unfold quote. cbn [scan].
  change (scan_step _ quote_mark) with (Scanning stack (MString (Some fields) [] NoEscape)).
  rewrite scan_app, quote_in_quotes. cbn [scan scan_step in_string].
  change (Ascii.eqb quote_mark quote_mark) with true. cbn iota zeta.
  by rewrite bytes_of_string, unquote_quote.
Qed.

(** ** Lemmas: documents *)

(** Induction on documents, through arrays and objects. *)
Section JsonInd.

Variable P : json -> Prop.
Hypothesis P_null : P JNull.
Hypothesis P_bool : forall b, P (JBool b).
Hypothesis P_number : forall l, P (JNumber l).
Hypothesis P_string : forall s, P (JString s).
Hypothesis P_array : forall l, Forall P l -> P (JArray l).
Hypothesis P_object : forall l, Forall (fun kv => P (snd kv)) l -> P (JObject l).

Fixpoint json_nested_ind (v : json) : P v :=
  match v with
  | JNull => P_null
  | JBool b => P_bool b
  | JNumber l => P_number l
  | JString s => P_string s
  | JArray l => P_array l
      ((fix go l : Forall P l :=
        match l with [] => List.Forall_nil _ | x :: r => List.Forall_cons _ _ _ (json_nested_ind x) (go r) end) l)
  | JObject l => P_object l
      ((fix go l : Forall (fun kv => P (snd kv)) l :=
        match l with
        | [] => List.Forall_nil _
        | x :: r => List.Forall_cons _ _ _ (json_nested_ind (snd x)) (go r)
        end) l)
  end.

End JsonInd.

(** Documents without numbers, nested at most [n] deep. *)
Fixpoint plain_json (n : nat) (v : json) : bool :=
  match v with
  | JNumber _ => false
  | JArray l => match n with O => false | S n => forallb (plain_json n) l end
  | JObject l => match n with O => false | S n => forallb (fun kv => plain_json n (snd kv)) l end
  | _ => true
  end.

(** [encode v] is read as [valid_json v], under any stack that leaves room. *)
Definition reads (v : json) : Prop := forall n stack may_close,
  plain_json n v = true -> Z.of_nat (length stack + n) <= maxNestingDepth ->
  scan (Scanning stack (MValue may_close)) (encode v) = complete stack (valid_json v).

Lemma open_container_ok stack m n :
  Z.of_nat (length stack + S n) <= maxNestingDepth -> open_container stack m = m stack.
Proof. intros H. unfold open_container. destruct (Z.ltb_spec (Z.of_nat (length stack)) maxNestingDepth); [done|lia]. Qed.

Lemma scan_comma elems stack v s :
  scan (Scanning (FArray elems :: stack) (MAfter v)) ("," +:+ s) =
    scan (Scanning (FArray (v :: elems) :: stack) (MValue false)) s.
Proof. reflexivity. Qed.

Lemma scan_field_comma fields key stack v s :
  scan (Scanning (FObject fields key :: stack) (MAfter v)) ("," +:+ s) =
    scan (Scanning stack (MKey ((key, v) :: fields) false)) s.
Proof. reflexivity. Qed.

Lemma scan_colon fields key stack s :
  scan (Scanning stack (MColon fields key)) (":" +:+ s) =
    scan (Scanning (FObject fields key :: stack) (MValue false)) s.
Proof. reflexivity. Qed.

(** The elements before the closing bracket. *)
Lemma scan_elements n (l : list json) : Forall reads l -> forallb (plain_json n) l = true ->
  forall stack elems, Z.of_nat (length stack + S n) <= maxNestingDepth -> l <> [] -> forall may_close,
  exists elems' v', rev (v' :: elems') = rev elems ++ map valid_json l /\
    scan (Scanning (FArray elems :: stack) (MValue may_close)) (Join (map encode l) ",") =
      Scanning (FArray elems' :: stack) (MAfter v').
Proof.
  induction 1 as [|v l Hv Hl IH]; intros Hp stack elems Hd Hne may_close; [done|].
  cbn [forallb] in Hp. apply andb_true_iff in Hp as [Hp1 Hp2].
  assert (Hd' : Z.of_nat (length (FArray elems :: stack) + n) <= maxNestingDepth) by (simpl; lia).
  destruct l as [|w l].
  - exists elems, (valid_json v). split; [done|]. cbn [map Join]. by rewrite (Hv n).
  - destruct (IH Hp2 stack (valid_json v :: elems) Hd ltac:(done) false) as (elems' & v' & E & H).
    exists elems', v'. split; [rewrite E; cbn [rev map]; by rewrite <- app_assoc|].
    change (Join (map encode (v :: w :: l)) ",") with (encode v +:+ ("," +:+ Join (map encode (w :: l)) ",")).
    by rewrite scan_app, (Hv n) by done.
Qed.

Definition encode_field (kv : string * json) : string := quote (fst kv) +:+ ":" +:+ encode (snd kv).
Definition valid_field (kv : string * json) : string * json := (to_valid (fst kv), valid_json (snd kv)).

(** The fields before the closing brace. *)
Lemma scan_fields n (l : list (string * json)) : Forall (fun kv => reads (snd kv)) l ->
  forallb (fun kv => plain_json n (snd kv)) l = true ->
  forall stack fields, Z.of_nat (length stack + S n) <= maxNestingDepth -> l <> [] -> forall may_close,
  exists fields' key' v', rev ((key', v') :: fields') = rev fields ++ map valid_field l /\
    scan (Scanning stack (MKey fields may_close)) (Join (map encode_field l) ",") =
      Scanning (FObject fields' key' :: stack) (MAfter v').
Proof.
  induction 1 as [|[k v] l Hv Hl IH]; intros Hp stack fields Hd Hne may_close; [done|].
  cbn [forallb snd] in Hp. apply andb_true_iff in Hp as [Hp1 Hp2]. cbn [snd] in Hv.
  assert (Hd' : Z.of_nat (length (FObject fields (to_valid k) :: stack) + n) <= maxNestingDepth) by (simpl; lia).
  assert (Hfield : scan (Scanning stack (MKey fields may_close)) (encode_field (k, v)) =
    Scanning (FObject fields (to_valid k) :: stack) (MAfter (valid_json v))).
  { unfold encode_field. cbn [fst snd]. by rewrite scan_app, scan_quoted_key, scan_colon, (Hv n). }
  destruct l as [|w l].
  - exists fields, (to_valid k), (valid_json v). by split.
  - destruct (IH Hp2 stack ((to_valid k, valid_json v) :: fields) Hd ltac:(done) false)
      as (fields' & key' & v' & E & H).
    exists fields', key', v'. split; [rewrite E; cbn [rev map]; by rewrite <- app_assoc|].
    change (Join (map encode_field ((k, v) :: w :: l)) ",")
      with (encode_field (k, v) +:+ ("," +:+ Join (map encode_field (w :: l)) ",")).
    by rewrite scan_app, Hfield.
Qed.

Lemma scan_open_array stack may_close n s : Z.of_nat (length stack + S n) <= maxNestingDepth ->
  scan (Scanning stack (MValue may_close)) (String "[" s) = scan (Scanning (FArray [] :: stack) (MValue true)) s.
Proof.
  intros Hd. cbn [scan scan_step].
  change (begin_value stack may_close "[")
    with (open_container stack (fun st => Scanning (FArray [] :: st) (MValue true))).
  by rewrite (open_container_ok _ _ n).
Qed.

Lemma scan_open_object stack may_close n s : Z.of_nat (length stack + S n) <= maxNestingDepth ->
  scan (Scanning stack (MValue may_close)) (String "{" s) = scan (Scanning stack (MKey [] true)) s.
Proof.
  intros Hd. cbn [scan scan_step].
  change (begin_value stack may_close "{")
    with (open_container stack (fun st => Scanning st (MKey [] true))).
  by rewrite (open_container_ok _ _ n).
Qed.

Lemma scan_encode (v : json) : reads v.
Proof.
  induction v as [|b|l|s|l IH|l IH] using json_nested_ind; intros n stack may_close Hp Hd.
  - reflexivity.
  - by destruct b.
  - by destruct n.
  - apply scan_quoted_value.
  - destruct n as [|n]; [done|]. cbn [encode]. unfold bracket. rewrite (scan_open_array _ _ n) by done.
    destruct l as [|v l]; [reflexivity|].
    destruct (scan_elements n _ IH Hp stack [] Hd ltac:(done) true) as (elems & v' & E & H).
    rewrite scan_app, H. cbn [valid_json]. change (map valid_json (v :: l)) with (rev (A := json) [] ++ map valid_json (v :: l)).
    by rewrite <- E.
  - destruct n as [|n]; [done|]. cbn [encode]. unfold bracket. rewrite (scan_open_object _ _ n) by done.
    destruct l as [|v l]; [reflexivity|].
    change (map (fun kv => quote (fst kv) +:+ ":" +:+ encode (snd kv)) (v :: l)) with (map encode_field (v :: l)).
    destruct (scan_fields n _ IH Hp stack [] Hd ltac:(done) true) as (fields & key & v' & E & H).
    rewrite scan_app, H. cbn [valid_json].
    change (map (fun kv => (to_valid (fst kv), valid_json (snd kv))) (v :: l)) with (rev [] ++ map valid_field (v :: l)).
    by rewrite <- E.
Qed.

(** What follows a document is not read. *)
Lemma parse_encode (v : json) (rest : string) (n : nat) :
  plain_json n v = true -> Z.of_nat n <= maxNestingDepth -> parse_first (encode v +:+ rest) = Some (valid_json v).
Proof.
  intros Hp Hd. unfold parse_first, begin_document. rewrite scan_app, (scan_encode v n) by done.
  cbn [complete]. by rewrite scan_complete.
Qed.

(** ** Lemmas: truncated documents *)

Lemma limit_bytes_all n s : Z.of_nat (String.length s) <= n -> limit_bytes n s = s.
Proof.
  revert n. induction s as [|c s IH]; intros n H; [done|]. cbn [limit_bytes String.length] in *.
  destruct (Z.leb_spec n 0); [lia|]. rewrite IH by lia. done.
Qed.

Lemma limit_bytes_prefix n s :
  0 <= n < Z.of_nat (String.length s) ->
  exists c rest, s = limit_bytes n s +:+ String c rest.
Proof.
  revert n. induction s as [|c s IH]; intros n H; [simpl in H; lia|].
  cbn [limit_bytes String.length] in *. destruct (Z.leb_spec n 0) as [Hz|Hz].
  - by exists c, s.
  - destruct (IH (n - 1)) as (d & rest & E); [lia|]. exists d, rest. exact (f_equal (String c) E).
Qed.

(** A number at the top is all the document there is. *)
Definition top_number (st : state) : bool :=
  match st with
  | Scanning [] (MNumber _ _) | Scanning [] (MAfter (JNumber _)) | Complete (JNumber _) | Invalid => true
  | _ => false
  end.

Lemma top_number_scan s st : top_number st = true -> top_number (scan st s) = true.
Proof.
  revert st. induction s as [|c s IH]; intros st H; [done|]. apply IH.
  destruct st as [[|fr stack] m|v|]; try done. destruct m as [| v| | | |bytes n|]; try done.
  - destruct v; try done. unfold scan_step, end_value. by destruct (json_space c).
  - unfold scan_step, end_value. destruct (number_step n c); [done|].
    destruct (number_ends n); [|done]. by destruct (json_space c).
Qed.

Lemma before_last (body pre rest : string) (b c : ascii) :
  pre +:+ String c rest = body +:+ String b "" -> exists mid, body = pre +:+ mid.
Proof.
  revert body. induction pre as [|a pre IH]; intros body E; [by exists body|].
  destruct body as [|x body]; [by destruct pre|]. injection E as -> E.
  destruct (IH _ E) as [mid ->]. by exists mid.
Qed.

(** A written object, cut off anywhere before its end, is not read. *)
Lemma truncated_object (l : list (string * json)) (n : nat) (pre rest : string) (c : ascii) :
  plain_json n (JObject l) = true -> Z.of_nat n <= maxNestingDepth ->
  encode (JObject l) = pre +:+ String c rest -> parse_first pre = None.
Proof.
  intros Hp Hd E. unfold parse_first.
  assert (Hfull : scan (scan begin_document pre) (String c rest) = Complete (valid_json (JObject l))).
  { rewrite <- scan_app, <- E. unfold begin_document. by rewrite (scan_encode (JObject l) n). }
  assert (Hlast : exists body st, encode (JObject l) = body +:+ "}" /\ scan begin_document body = st /\
    forall v, st <> Complete v).
  { destruct n as [|n]; [done|]. cbn [encode]. unfold bracket, begin_document.
    eexists (String "{" (Join _ ",")), _. split; [reflexivity|]. split; [reflexivity|].
    intros v. rewrite (scan_open_object _ _ n) by done. destruct l as [|kv l]; [done|].
    destruct (scan_fields n (kv :: l) ltac:(apply List.Forall_forall; intros; apply scan_encode) Hp [] [] Hd ltac:(done) true)
      as (fields & key & v' & _ & H).
    change (map _ (kv :: l)) with (map encode_field (kv :: l)). by rewrite H. }
  destruct (scan begin_document pre) as [stack m|v|] eqn:Est; [|exfalso|done].
  - destruct stack as [|fr stack]; [|done]. destruct m; try done. exfalso.
    assert (H : top_number (scan (Scanning [] (MNumber bytes n0)) (String c rest)) = true)
      by by apply top_number_scan.
    by rewrite Hfull in H.
  - destruct Hlast as (body & st & Eb & Hst & Hno). rewrite E in Eb.
    apply before_last in Eb as [mid ->]. apply (Hno v). rewrite <- Hst, scan_app, Est. apply scan_complete.
Qed.
