(* ===== verification/GoFlag.v ===== *)
(** * What the program uses of [flag] and [strconv]: the command line.

    [parse] is [FlagSet.Parse] on the flags given by a lookup function; the result
    lists the assignments in their order, and a flag has the value assigned last. *)
From Stdlib Require Import Ascii.
From S2P Require Import Prelude GoStrings.

(** A defined flag: whether it is boolean, and which values its [Set] accepts. *)
Record FlagDef := MkFlagDef { fl_bool : bool; fl_accepts : string -> bool }.

(** [strconv.ParseBool] *)
Definition ParseBool (s : string) : option bool :=
  if existsb (String.eqb s) ["1"; "t"; "T"; "true"; "TRUE"; "True"] then Some true
  else if existsb (String.eqb s) ["0"; "f"; "F"; "false"; "FALSE"; "False"] then Some false
  else None.

Definition string_flag : FlagDef := MkFlagDef false (fun _ => true).
Definition bool_flag : FlagDef :=
  MkFlagDef true (fun s => match ParseBool s with Some _ => true | None => false end).

(** The assignments, or one of the two ways [flag.ExitOnError] ends the process. *)
Inductive FlagResult :=
| Parsed (sets : list (string * string))
| HelpRequested
| FlagError.

Definition assign (name value : string) (r : FlagResult) : FlagResult :=
  match r with Parsed sets => Parsed ((name, value) :: sets) | _ => r end.

Definition minus : string := "-".

(** What follows the dashes, if the argument is a flag. *)
Definition flag_text (arg : string) : option string :=
  match strip_prefix minus arg with
  | None | Some "" => None
  | Some r => match strip_prefix minus r with None => Some r | Some "" => None | Some r' => Some r' end
  end.

Fixpoint parse (lookup : string -> option FlagDef) (args : list string) : FlagResult :=
  match args with
  | [] => Parsed []
  | arg :: rest =>
      match flag_text arg with
      | None => Parsed []
      | Some text =>
          if HasPrefix text minus || HasPrefix text "=" then FlagError
          else
            let '(name, value, has_value) := Cut text "=" in
            match lookup name with
            | None => if String.eqb name "help" || String.eqb name "h" then HelpRequested else FlagError
            | Some f =>
                if fl_bool f then
                  let v := if has_value then value else "true" in
                  if fl_accepts f v then assign name v (parse lookup rest) else FlagError
                else if has_value then
                  if fl_accepts f value then assign name value (parse lookup rest) else FlagError
                else match rest with
                | v :: rest' => if fl_accepts f v then assign name v (parse lookup rest') else FlagError
                | [] => FlagError
                end
            end
      end
  end.

(** The value of a flag after the assignments. *)
Definition flag_value (sets : list (string * string)) (name def : string) : string :=
  fold_left (fun v kv => if String.eqb (fst kv) name then snd kv else v) sets def.

Definition bool_value (sets : list (string * string)) (name : string) (def : bool) : bool :=
  fold_left (fun v kv => if String.eqb (fst kv) name then default v (ParseBool (snd kv)) else v) sets def.

(** ** Lemmas *)

Lemma flag_value_default sets name def :
  ~ In name (map fst sets) -> flag_value sets name def = def.
Proof.
  unfold flag_value. induction sets as [|[n v] sets IH] in def |- *; intros H; [done|]. simpl in *.
  destruct (String.eqb_spec n name) as [->|]; [by destruct H; left|]. apply IH. by intros Hin; apply H; right.
Qed.

Lemma bool_value_default sets name def :
  ~ In name (map fst sets) -> bool_value sets name def = def.
Proof.
  unfold bool_value. induction sets as [|[n v] sets IH] in def |- *; intros H; [done|]. simpl in *.
  destruct (String.eqb_spec n name) as [->|]; [by destruct H; left|]. apply IH. by intros Hin; apply H; right.
Qed.

Lemma assign_parsed name value r sets :
  assign name value r = Parsed sets -> exists sets', r = Parsed sets' /\ sets = (name, value) :: sets'.
Proof. destruct r; [|done..]. intros [= <-]. eauto. Qed.

(** Only defined flags are assigned, with values they accept. *)
Lemma parse_sets lookup args sets :
  parse lookup args = Parsed sets ->
  Forall (fun kv => exists f, lookup (fst kv) = Some f /\ fl_accepts f (snd kv) = true) sets.
Proof.
  remember (length args) as n eqn:Hn. revert args sets Hn.
  induction (lt_wf n) as [n _ IH]; intros args sets -> H.
  destruct args as [|arg rest]; [injection H as <-; constructor|]. cbn [parse] in H.
  destruct (flag_text arg) as [text|]; [|injection H as <-; constructor].
  destruct (_ || _); [done|]. destruct (Cut text "=") as [[name value] has_value].
  destruct (lookup name) as [f|] eqn:El; [|by destruct (_ || _)].
  assert (Hcons : forall v args', (length args' < S (length rest))%nat -> fl_accepts f v = true ->
    assign name v (parse lookup args') = Parsed sets ->
    Forall (fun kv => exists f, lookup (fst kv) = Some f /\ fl_accepts f (snd kv) = true) sets).
  { intros v args' Hlt Hv (sets' & Hp & ->)%assign_parsed. constructor; [by exists f|]. by eapply IH; [|done|]. }
  destruct (fl_bool f).
  - destruct (fl_accepts f _) eqn:Ea; [|done]. eapply Hcons; [|exact Ea|exact H]. lia.
  - destruct has_value.
    + destruct (fl_accepts f _) eqn:Ea; [|done]. eapply Hcons; [|exact Ea|exact H]. lia.
    + destruct rest as [|v rest]; [done|]. destruct (fl_accepts f v) eqn:Ea; [|done].
      eapply Hcons; [|exact Ea|exact H]. simpl. lia.
Qed.
