(* ===== verification/GoHttp.v ===== *)
(** * What the program uses of [net/http] and [net/url]: routing.

    [ServeMux] with patterns that are literal paths without a trailing slash (the
    only ones the program registers), and the target of a plain [http] URL. *)
From Stdlib Require Import Ascii.
From S2P Require Import Prelude GoStrings GoPath JsonText.

(** ** Requests and responses *)

(** A request as a handler sees it: the path is [URL.EscapedPath], or the star of
    [OPTIONS *]. *)
Record HttpReq := MkHttpReq { hr_Method : string; hr_Path : string; hr_Body : string }.

(** The status code of a response, or a redirect. *)
Inductive Response := Code (status : Z) | Redirected (path : string).

(** ** [ServeMux] *)

(** [cleanPath]: the canonical path, with the trailing slash the path had. *)
Definition cleanPath (p : string) : string :=
  if String.eqb p "" then slash_string
  else
    let p := if HasPrefix p slash_string then p else slash_string +:+ p in
    let np := Clean p in
    if HasSuffix p slash_string && negb (String.eqb np slash_string) then np +:+ slash_string else np.

Definition percent : ascii := byte 37.

(** [url.PathUnescape]; [None] is its error. *)
Fixpoint PathUnescape (s : string) : option string :=
  match s with
  | "" => Some ""
  | String a r =>
      if Ascii.eqb a percent then
        match r with
        | String h1 (String h2 r') =>
            match hex_value h1, hex_value h2, PathUnescape r' with
            | Some x, Some y, Some t => Some (String (ascii_of_N (x * 16 + y)) t)
            | _, _, _ => None
            end
        | _ => None
        end
      else match PathUnescape r with Some t => Some (String a t) | None => None end
  end.

(** [pathUnescape]: a segment that cannot be decoded stays as it is. *)
Definition segment (s : string) : string := default s (PathUnescape s).

Definition segments (path : string) : list string := map segment (Split path slash).

Section Mux.

Context {A : Type}.

(** A mux is the list of its patterns with their handlers. *)
Definition Mux : Type := list (string * A).

Definition mux_match (mux : Mux) (path : string) : option A :=
  match List.find (fun ph => bool_decide (Split (fst ph) slash = segments path)) mux with
  | Some (_, h) => Some h
  | None => None
  end.

(** [ServeMux.ServeHTTP]: a handler, or the mux's own response. *)
Definition mux_route (mux : Mux) (method path : string) : Response + A :=
  let matched p := match mux_match mux p with Some h => inr h | None => inl (Code 404) end in
  if String.eqb path "*" then
    inl (Code (if String.eqb method "OPTIONS" then 200 else 400))
  else if String.eqb method "CONNECT" then matched path
  else
    let cleaned := cleanPath path in
    if negb (String.eqb cleaned path) then inl (Redirected cleaned) else matched cleaned.

End Mux.
Arguments Mux A : clear implicits.

(** ** Addresses *)

(** The host, the port and the path a client contacts for an [http] URL without
    user, query and fragment. *)
Definition http_target (url : string) : option (string * string * string) :=
  match strip_prefix "http://" url with
  | None => None
  | Some rest =>
      if has_byte "@" rest || has_byte "?" rest || has_byte "#" rest then None
      else
        let '(authority, tail, found) := Cut rest slash_string in
        let '(host, port, has_port) := Cut authority ":" in
        Some (host, if has_port then port else "80",
              if found then slash_string +:+ tail else slash_string)
  end.

(** The port of a listen address such as ":9090". *)
Definition listen_port (addr : string) : string := snd (fst (Cut addr ":")).
