(* ===== verification/Api.v ===== *)
(** * The API types: [api/v1alpha1] and the Kubernetes metadata they embed.

    Strings are byte strings, [int32]/[int64] fields integers (the code that
    changes one writes the wrap-around out), slices lists (nil and empty are the
    same list), maps [gmap]s, pointers [option]s. Of the Kubernetes types only
    the fields the program reads or writes are here. *)
From S2P Require Import Prelude GoStrings.

(** ** [metav1] and [corev1] data the program handles *)

(** [metav1.Time]: an instant; 0 is the zero time. *)
Abbreviation Time := Z (only parsing).

Record NamespacedName := MkKey { nn_Namespace : string; nn_Name : string }.

Record OwnerReference := MkOwnerReference {
  or_Kind : string;
  or_Name : string;
  or_UID : string;
  or_Controller : bool
}.

Record ObjectMeta := MkObjectMeta {
  om_Name : string;
  om_Namespace : string;
  om_UID : string;
  om_ResourceVersion : string;
  om_Generation : Z;
  om_Labels : gmap string string;
  om_Finalizers : list string;
  om_DeletionTimestamp : option Time;
  om_OwnerReferences : list OwnerReference
}.

Record LabelSelectorRequirement := MkRequirement {
  req_Key : string;
  req_Operator : string;
  req_Values : list string
}.

Record LabelSelector := MkLabelSelector {
  ls_MatchLabels : gmap string string;
  ls_MatchExpressions : list LabelSelectorRequirement
}.

Record Toleration := MkToleration {
  tol_Key : string;
  tol_Operator : string;
  tol_Value : string;
  tol_Effect : string;
  tol_TolerationSeconds : option Z
}.

Record Condition := MkCondition {
  cond_Type : string;
  cond_Status : string;
  cond_ObservedGeneration : Z;
  cond_LastTransitionTime : Time;
  cond_Reason : string;
  cond_Message : string
}.

Record Node := MkNode { node_Name : string; node_Labels : option (gmap string string) }.

(** ** [sysctlprofile_types.go] *)

Abbreviation StrategyType := string (only parsing).
Definition StrategyAudit : StrategyType := "Audit".
Definition StrategyOnce : StrategyType := "Once".
Definition StrategyEnforce : StrategyType := "Enforce".

Record InterfaceSelector := MkInterfaceSelector {
  is_Prefixes : list string;
  is_Exclude : list string
}.

Record Sysctl := MkSysctl {
  sysctl_Name : string;
  sysctl_Value : string;
  sysctl_Persistent : bool;
  sysctl_InterfaceSelector : option InterfaceSelector
}.

Record RolloutSpec := MkRolloutSpec {
  BatchSize : Z;
  BatchInterval : Z;
  FailureThreshold : Z;
  PauseOnFailure : bool
}.

Record ScheduleSpec := MkScheduleSpec { DriftCheck : string; sched_Reconcile : string }.

Record StrategySpec := MkStrategySpec { strategy_Type : StrategyType }.

Record SysctlProfileSpec := MkSysctlProfileSpec {
  spec_NodeSelector : LabelSelector;
  spec_Tolerations : list Toleration;
  spec_Rollout : RolloutSpec;
  spec_Schedule : ScheduleSpec;
  spec_Strategy : StrategySpec;
  spec_Sysctls : list Sysctl;
  spec_RestoreOnDelete : bool
}.

Abbreviation NodePhase := string (only parsing).
Definition NodePhasePending : NodePhase := "Pending".
Definition NodePhaseApplied : NodePhase := "Applied".
Definition NodePhaseFailed : NodePhase := "Failed".
Definition NodePhaseDrifted : NodePhase := "Drifted".
Definition NodePhaseAudited : NodePhase := "Audited".

Record NodeStatus := MkNodeStatus {
  ns_NodeName : string;
  ns_Phase : NodePhase;
  ns_AppliedHash : string;
  ns_FailCount : Z;
  ns_Message : string;
  ns_LastTransitionTime : Time
}.

Record SysctlProfileStatus := MkSysctlProfileStatus {
  st_ObservedHash : string;
  st_TeardownHash : string;
  st_DesiredNodes : Z;
  st_AppliedNodes : Z;
  st_FailedNodes : Z;
  st_DriftedNodes : Z;
  st_ErroredPods : Z;
  st_LastRolloutTime : option Time;
  st_NodeStatuses : list NodeStatus;
  st_Conditions : list Condition
}.

Record SysctlProfile := MkSysctlProfile {
  sp_Meta : ObjectMeta;
  sp_Spec : SysctlProfileSpec;
  sp_Status : SysctlProfileStatus
}.

(** ** [scriptprofile_types.go] *)

Record Script := MkScript {
  script_Name : string;
  script_Content : string;
  script_Interpreter : string
}.

Record ScriptProfileSpec := MkScriptProfileSpec {
  sspec_NodeSelector : LabelSelector;
  sspec_Tolerations : list Toleration;
  sspec_Scripts : list Script
}.

Record ScriptProfileStatus := MkScriptProfileStatus {
  sst_ObservedHash : string;
  sst_TeardownHash : string;
  sst_DesiredNodes : Z;
  sst_AppliedNodes : Z;
  sst_FailedNodes : Z;
  sst_NodeStatuses : list NodeStatus;
  sst_Conditions : list Condition
}.

Record ScriptProfile := MkScriptProfile {
  scp_Meta : ObjectMeta;
  scp_Spec : ScriptProfileSpec;
  scp_Status : ScriptProfileStatus
}.

(** ** Decidable equality *)

#[export] Instance NamespacedName_eq : EqDecision NamespacedName.
Proof. solve_decision. Defined.
#[export] Instance OwnerReference_eq : EqDecision OwnerReference.
Proof. solve_decision. Defined.
#[export] Instance ObjectMeta_eq : EqDecision ObjectMeta.
Proof. solve_decision. Defined.
#[export] Instance Requirement_eq : EqDecision LabelSelectorRequirement.
Proof. solve_decision. Defined.
#[export] Instance LabelSelector_eq : EqDecision LabelSelector.
Proof. solve_decision. Defined.
#[export] Instance Toleration_eq : EqDecision Toleration.
Proof. solve_decision. Defined.
#[export] Instance Condition_eq : EqDecision Condition.
Proof. solve_decision. Defined.
#[export] Instance NodeStatus_eq : EqDecision NodeStatus.
Proof. solve_decision. Defined.
#[export] Instance SysctlProfileStatus_eq : EqDecision SysctlProfileStatus.
Proof. solve_decision. Defined.
#[export] Instance ScriptProfileStatus_eq : EqDecision ScriptProfileStatus.
Proof. solve_decision. Defined.

#[export] Instance NamespacedName_countable : Countable NamespacedName.
Proof.
  apply (inj_countable' (fun k => (nn_Namespace k, nn_Name k)) (fun p => MkKey p.1 p.2)).
  by intros [].
Defined.

(** ** Keys and setters *)

Definition meta_key (m : ObjectMeta) : NamespacedName := MkKey (om_Namespace m) (om_Name m).

(** [metav1.Time.IsZero] on a pointer: a nil pointer or the zero time. *)
Definition IsZero (t : option Time) : bool :=
  match t with None => true | Some t => t =? 0 end.

Definition set_Finalizers (fs : list string) (m : ObjectMeta) : ObjectMeta :=
  MkObjectMeta (om_Name m) (om_Namespace m) (om_UID m) (om_ResourceVersion m) (om_Generation m)
    (om_Labels m) fs (om_DeletionTimestamp m) (om_OwnerReferences m).

Definition set_Labels (l : gmap string string) (m : ObjectMeta) : ObjectMeta :=
  MkObjectMeta (om_Name m) (om_Namespace m) (om_UID m) (om_ResourceVersion m) (om_Generation m)
    l (om_Finalizers m) (om_DeletionTimestamp m) (om_OwnerReferences m).

Definition set_OwnerReferences (o : list OwnerReference) (m : ObjectMeta) : ObjectMeta :=
  MkObjectMeta (om_Name m) (om_Namespace m) (om_UID m) (om_ResourceVersion m) (om_Generation m)
    (om_Labels m) (om_Finalizers m) (om_DeletionTimestamp m) o.

(** The metadata of an object literal that names only its key. *)
Definition new_meta (name namespace : string) : ObjectMeta :=
  MkObjectMeta name namespace "" "" 0 ∅ [] None [].

Definition sp_set_Meta (m : ObjectMeta) (p : SysctlProfile) : SysctlProfile :=
  MkSysctlProfile m (sp_Spec p) (sp_Status p).
Definition sp_set_Status (s : SysctlProfileStatus) (p : SysctlProfile) : SysctlProfile :=
  MkSysctlProfile (sp_Meta p) (sp_Spec p) s.
Definition scp_set_Meta (m : ObjectMeta) (p : ScriptProfile) : ScriptProfile :=
  MkScriptProfile m (scp_Spec p) (scp_Status p).
Definition scp_set_Status (s : ScriptProfileStatus) (p : ScriptProfile) : ScriptProfile :=
  MkScriptProfile (scp_Meta p) (scp_Spec p) s.

(** Writes to the status fields the controllers and the report API change. *)
Definition st_set_NodeStatuses (l : list NodeStatus) (s : SysctlProfileStatus) : SysctlProfileStatus :=
  MkSysctlProfileStatus (st_ObservedHash s) (st_TeardownHash s) (st_DesiredNodes s) (st_AppliedNodes s)
    (st_FailedNodes s) (st_DriftedNodes s) (st_ErroredPods s) (st_LastRolloutTime s) l (st_Conditions s).
Definition st_set_ErroredPods (n : Z) (s : SysctlProfileStatus) : SysctlProfileStatus :=
  MkSysctlProfileStatus (st_ObservedHash s) (st_TeardownHash s) (st_DesiredNodes s) (st_AppliedNodes s)
    (st_FailedNodes s) (st_DriftedNodes s) n (st_LastRolloutTime s) (st_NodeStatuses s) (st_Conditions s).
Definition st_set_Counts (applied failed : Z) (s : SysctlProfileStatus) : SysctlProfileStatus :=
  MkSysctlProfileStatus (st_ObservedHash s) (st_TeardownHash s) (st_DesiredNodes s) applied
    failed (st_DriftedNodes s) (st_ErroredPods s) (st_LastRolloutTime s) (st_NodeStatuses s) (st_Conditions s).
Definition st_set_Teardown (h : string) (s : SysctlProfileStatus) : SysctlProfileStatus :=
  MkSysctlProfileStatus (st_ObservedHash s) h (st_DesiredNodes s) (st_AppliedNodes s)
    (st_FailedNodes s) (st_DriftedNodes s) (st_ErroredPods s) (st_LastRolloutTime s) (st_NodeStatuses s) (st_Conditions s).
Definition st_set_Conditions (c : list Condition) (s : SysctlProfileStatus) : SysctlProfileStatus :=
  MkSysctlProfileStatus (st_ObservedHash s) (st_TeardownHash s) (st_DesiredNodes s) (st_AppliedNodes s)
    (st_FailedNodes s) (st_DriftedNodes s) (st_ErroredPods s) (st_LastRolloutTime s) (st_NodeStatuses s) c.
Definition st_set_Observed (h : string) (desired : Z) (s : SysctlProfileStatus) : SysctlProfileStatus :=
  MkSysctlProfileStatus h (st_TeardownHash s) desired (st_AppliedNodes s)
    (st_FailedNodes s) (st_DriftedNodes s) (st_ErroredPods s) (st_LastRolloutTime s) (st_NodeStatuses s) (st_Conditions s).

Definition sst_set_NodeStatuses (l : list NodeStatus) (s : ScriptProfileStatus) : ScriptProfileStatus :=
  MkScriptProfileStatus (sst_ObservedHash s) (sst_TeardownHash s) (sst_DesiredNodes s) (sst_AppliedNodes s)
    (sst_FailedNodes s) l (sst_Conditions s).
Definition sst_set_Counts (applied failed : Z) (s : ScriptProfileStatus) : ScriptProfileStatus :=
  MkScriptProfileStatus (sst_ObservedHash s) (sst_TeardownHash s) (sst_DesiredNodes s) applied
    failed (sst_NodeStatuses s) (sst_Conditions s).
Definition sst_set_Teardown (h : string) (s : ScriptProfileStatus) : ScriptProfileStatus :=
  MkScriptProfileStatus (sst_ObservedHash s) h (sst_DesiredNodes s) (sst_AppliedNodes s)
    (sst_FailedNodes s) (sst_NodeStatuses s) (sst_Conditions s).
Definition sst_set_Conditions (c : list Condition) (s : ScriptProfileStatus) : ScriptProfileStatus :=
  MkScriptProfileStatus (sst_ObservedHash s) (sst_TeardownHash s) (sst_DesiredNodes s) (sst_AppliedNodes s)
    (sst_FailedNodes s) (sst_NodeStatuses s) c.
Definition sst_set_Observed (h : string) (desired : Z) (s : ScriptProfileStatus) : ScriptProfileStatus :=
  MkScriptProfileStatus h (sst_TeardownHash s) desired (sst_AppliedNodes s)
    (sst_FailedNodes s) (sst_NodeStatuses s) (sst_Conditions s).

(** Shorthands for the fields the code reaches through the embedded metadata. *)
Abbreviation sp_Name p := (om_Name (sp_Meta p)) (only parsing).
Abbreviation sp_Namespace p := (om_Namespace (sp_Meta p)) (only parsing).
Abbreviation scp_Name p := (om_Name (scp_Meta p)) (only parsing).
Abbreviation scp_Namespace p := (om_Namespace (scp_Meta p)) (only parsing).
