(* ===== verification/DeepCopy.v ===== *)
(** * The generated deep copies ([api/v1alpha1/zz_generated.deepcopy.go]).

    The API types as they are in memory, with slices and pointers into a heap, and
    the [DeepCopyInto], [DeepCopy] and [DeepCopyObject] of each. The types of the
    Kubernetes libraries and their copies are parameters. The theorem: a copy reads
    as the original and shares nothing with it ([Snapshot] uses it for the status
    that a reconcile keeps aside). *)
From S2P Require Import Prelude GoStrings Api GoHeap.

#[local] Open Scope mem_scope.

(** ** The types in memory *)

(** The structs of the libraries, each with its zero value, and the cells that
    only they use. *)
Class LibTypes := {
  m_ObjectMeta : Type;
  m_ListMeta : Type;
  ListMeta : Type;
  m_LabelSelector : Type;
  m_Toleration : Type;
  m_Condition : Type;
  lib_cell : Type;
  zero_ObjectMeta : m_ObjectMeta;
  zero_ListMeta : m_ListMeta;
  zero_LabelSelector : m_LabelSelector;
  zero_Toleration : m_Toleration;
  zero_Condition : m_Condition
}.

Record TypeMeta := MkTypeMeta { tm_Kind : string; tm_APIVersion : string }.

Section Types.

Context {libt : LibTypes}.

Record m_InterfaceSelector := Mk_m_InterfaceSelector {
  m_is_Prefixes : slice string;
  m_is_Exclude : slice string
}.

Record m_Sysctl := Mk_m_Sysctl {
  m_sysctl_Name : string;
  m_sysctl_Value : string;
  m_sysctl_Persistent : bool;
  m_sysctl_InterfaceSelector : pointer m_InterfaceSelector
}.

Record m_SysctlProfileSpec := Mk_m_SysctlProfileSpec {
  m_spec_NodeSelector : m_LabelSelector;
  m_spec_Tolerations : slice m_Toleration;
  m_spec_Rollout : RolloutSpec;
  m_spec_Schedule : ScheduleSpec;
  m_spec_Strategy : StrategySpec;
  m_spec_Sysctls : slice m_Sysctl;
  m_spec_RestoreOnDelete : bool
}.

Record m_SysctlProfileStatus := Mk_m_SysctlProfileStatus {
  m_st_ObservedHash : string;
  m_st_TeardownHash : string;
  m_st_DesiredNodes : Z;
  m_st_AppliedNodes : Z;
  m_st_FailedNodes : Z;
  m_st_DriftedNodes : Z;
  m_st_ErroredPods : Z;
  m_st_LastRolloutTime : pointer Z;
  m_st_NodeStatuses : slice NodeStatus;
  m_st_Conditions : slice m_Condition
}.

Record m_SysctlProfile := Mk_m_SysctlProfile {
  m_sp_Type : TypeMeta;
  m_sp_Meta : m_ObjectMeta;
  m_sp_Spec : m_SysctlProfileSpec;
  m_sp_Status : m_SysctlProfileStatus
}.

Record m_SysctlProfileList := Mk_m_SysctlProfileList {
  m_spl_Type : TypeMeta;
  m_spl_Meta : m_ListMeta;
  m_spl_Items : slice m_SysctlProfile
}.

Record m_ScriptProfileSpec := Mk_m_ScriptProfileSpec {
  m_sspec_NodeSelector : m_LabelSelector;
  m_sspec_Tolerations : slice m_Toleration;
  m_sspec_Scripts : slice Script
}.

Record m_ScriptProfileStatus := Mk_m_ScriptProfileStatus {
  m_sst_ObservedHash : string;
  m_sst_TeardownHash : string;
  m_sst_DesiredNodes : Z;
  m_sst_AppliedNodes : Z;
  m_sst_FailedNodes : Z;
  m_sst_NodeStatuses : slice NodeStatus;
  m_sst_Conditions : slice m_Condition
}.

Record m_ScriptProfile := Mk_m_ScriptProfile {
  m_scp_Type : TypeMeta;
  m_scp_Meta : m_ObjectMeta;
  m_scp_Spec : m_ScriptProfileSpec;
  m_scp_Status : m_ScriptProfileStatus
}.

Record m_ScriptProfileList := Mk_m_ScriptProfileList {
  m_scpl_Type : TypeMeta;
  m_scpl_Meta : m_ListMeta;
  m_scpl_Items : slice m_ScriptProfile
}.

(** The values the lists stand for; the profiles with their [TypeMeta]. *)
Record SysctlProfileList := MkSysctlProfileList {
  spl_Type : TypeMeta; spl_Meta : ListMeta; spl_Items : list (TypeMeta * SysctlProfile) }.
Record ScriptProfileList := MkScriptProfileList {
  scpl_Type : TypeMeta; scpl_Meta : ListMeta; scpl_Items : list (TypeMeta * ScriptProfile) }.

(** A cell is an array of one of the types, or belongs to a library. *)
Inductive cell :=
| CString (a : list string)
| CTime (a : list Z)
| CInterfaceSelector (a : list m_InterfaceSelector)
| CNodeStatus (a : list NodeStatus)
| CRolloutSpec (a : list RolloutSpec)
| CScheduleSpec (a : list ScheduleSpec)
| CStrategySpec (a : list StrategySpec)
| CScript (a : list Script)
| CToleration (a : list m_Toleration)
| CCondition (a : list m_Condition)
| CSysctl (a : list m_Sysctl)
| CSysctlProfileSpec (a : list m_SysctlProfileSpec)
| CSysctlProfileStatus (a : list m_SysctlProfileStatus)
| CSysctlProfile (a : list m_SysctlProfile)
| CSysctlProfileList (a : list m_SysctlProfileList)
| CScriptProfileSpec (a : list m_ScriptProfileSpec)
| CScriptProfileStatus (a : list m_ScriptProfileStatus)
| CScriptProfile (a : list m_ScriptProfile)
| CScriptProfileList (a : list m_ScriptProfileList)
| CLib (c : lib_cell).

Definition zero_SysctlProfileSpec : m_SysctlProfileSpec :=
  Mk_m_SysctlProfileSpec zero_LabelSelector SNil (MkRolloutSpec 0 0 0 false) (MkScheduleSpec "" "")
    (MkStrategySpec "") SNil false.
Definition zero_SysctlProfileStatus : m_SysctlProfileStatus :=
  Mk_m_SysctlProfileStatus "" "" 0 0 0 0 0 PNil SNil SNil.
Definition zero_SysctlProfile : m_SysctlProfile :=
  Mk_m_SysctlProfile (MkTypeMeta "" "") zero_ObjectMeta zero_SysctlProfileSpec zero_SysctlProfileStatus.
Definition zero_ScriptProfileSpec : m_ScriptProfileSpec := Mk_m_ScriptProfileSpec zero_LabelSelector SNil SNil.
Definition zero_ScriptProfileStatus : m_ScriptProfileStatus := Mk_m_ScriptProfileStatus "" "" 0 0 0 SNil SNil.
Definition zero_ScriptProfile : m_ScriptProfile :=
  Mk_m_ScriptProfile (MkTypeMeta "" "") zero_ObjectMeta zero_ScriptProfileSpec zero_ScriptProfileStatus.

#[export] Instance String_cell : ArrayCell cell string.
Proof. by refine {| to_cell := CString; of_cell c := match c with CString a => Some a | _ => None end; zero := "" |}. Defined.
#[export] Instance Time_cell : ArrayCell cell Z.
Proof. by refine {| to_cell := CTime; of_cell c := match c with CTime a => Some a | _ => None end; zero := 0 |}. Defined.
#[export] Instance InterfaceSelector_cell : ArrayCell cell m_InterfaceSelector.
Proof. by refine {| to_cell := CInterfaceSelector; of_cell c := match c with CInterfaceSelector a => Some a | _ => None end; zero := (Mk_m_InterfaceSelector SNil SNil) |}. Defined.
#[export] Instance NodeStatus_cell : ArrayCell cell NodeStatus.
Proof. by refine {| to_cell := CNodeStatus; of_cell c := match c with CNodeStatus a => Some a | _ => None end; zero := (MkNodeStatus "" "" "" 0 "" 0) |}. Defined.
#[export] Instance RolloutSpec_cell : ArrayCell cell RolloutSpec.
Proof. by refine {| to_cell := CRolloutSpec; of_cell c := match c with CRolloutSpec a => Some a | _ => None end; zero := (MkRolloutSpec 0 0 0 false) |}. Defined.
#[export] Instance ScheduleSpec_cell : ArrayCell cell ScheduleSpec.
Proof. by refine {| to_cell := CScheduleSpec; of_cell c := match c with CScheduleSpec a => Some a | _ => None end; zero := (MkScheduleSpec "" "") |}. Defined.
#[export] Instance StrategySpec_cell : ArrayCell cell StrategySpec.
Proof. by refine {| to_cell := CStrategySpec; of_cell c := match c with CStrategySpec a => Some a | _ => None end; zero := (MkStrategySpec "") |}. Defined.
#[export] Instance Script_cell : ArrayCell cell Script.
Proof. by refine {| to_cell := CScript; of_cell c := match c with CScript a => Some a | _ => None end; zero := (MkScript "" "" "") |}. Defined.
#[export] Instance Toleration_cell : ArrayCell cell m_Toleration.
Proof. by refine {| to_cell := CToleration; of_cell c := match c with CToleration a => Some a | _ => None end; zero := zero_Toleration |}. Defined.
#[export] Instance Condition_cell : ArrayCell cell m_Condition.
Proof. by refine {| to_cell := CCondition; of_cell c := match c with CCondition a => Some a | _ => None end; zero := zero_Condition |}. Defined.
#[export] Instance Sysctl_cell : ArrayCell cell m_Sysctl.
Proof. by refine {| to_cell := CSysctl; of_cell c := match c with CSysctl a => Some a | _ => None end; zero := (Mk_m_Sysctl "" "" false PNil) |}. Defined.
#[export] Instance SysctlProfileSpec_cell : ArrayCell cell m_SysctlProfileSpec.
Proof. by refine {| to_cell := CSysctlProfileSpec; of_cell c := match c with CSysctlProfileSpec a => Some a | _ => None end; zero := zero_SysctlProfileSpec |}. Defined.
#[export] Instance SysctlProfileStatus_cell : ArrayCell cell m_SysctlProfileStatus.
Proof. by refine {| to_cell := CSysctlProfileStatus; of_cell c := match c with CSysctlProfileStatus a => Some a | _ => None end; zero := zero_SysctlProfileStatus |}. Defined.
#[export] Instance SysctlProfile_cell : ArrayCell cell m_SysctlProfile.
Proof. by refine {| to_cell := CSysctlProfile; of_cell c := match c with CSysctlProfile a => Some a | _ => None end; zero := zero_SysctlProfile |}. Defined.
#[export] Instance SysctlProfileList_cell : ArrayCell cell m_SysctlProfileList.
Proof. by refine {| to_cell := CSysctlProfileList; of_cell c := match c with CSysctlProfileList a => Some a | _ => None end; zero := (Mk_m_SysctlProfileList (MkTypeMeta "" "") zero_ListMeta SNil) |}. Defined.
#[export] Instance ScriptProfileSpec_cell : ArrayCell cell m_ScriptProfileSpec.
Proof. by refine {| to_cell := CScriptProfileSpec; of_cell c := match c with CScriptProfileSpec a => Some a | _ => None end; zero := zero_ScriptProfileSpec |}. Defined.
#[export] Instance ScriptProfileStatus_cell : ArrayCell cell m_ScriptProfileStatus.
Proof. by refine {| to_cell := CScriptProfileStatus; of_cell c := match c with CScriptProfileStatus a => Some a | _ => None end; zero := zero_ScriptProfileStatus |}. Defined.
#[export] Instance ScriptProfile_cell : ArrayCell cell m_ScriptProfile.
Proof. by refine {| to_cell := CScriptProfile; of_cell c := match c with CScriptProfile a => Some a | _ => None end; zero := zero_ScriptProfile |}. Defined.
#[export] Instance ScriptProfileList_cell : ArrayCell cell m_ScriptProfileList.
Proof. by refine {| to_cell := CScriptProfileList; of_cell c := match c with CScriptProfileList a => Some a | _ => None end; zero := (Mk_m_ScriptProfileList (MkTypeMeta "" "") zero_ListMeta SNil) |}. Defined.

End Types.

(** The deep copies of the libraries' structs. *)
Class LibCopies {libt : LibTypes} := {
  #[global] deep_ObjectMeta :: Deep cell m_ObjectMeta ObjectMeta;
  #[global] deep_ListMeta :: Deep cell m_ListMeta ListMeta;
  #[global] deep_LabelSelector :: Deep cell m_LabelSelector LabelSelector;
  #[global] deep_Toleration :: Deep cell m_Toleration Toleration;
  #[global] deep_Condition :: Deep cell m_Condition Condition
}.

Class LibCopyLaws {libt : LibTypes} {libc : LibCopies} := {
  #[global] laws_ObjectMeta :: DeepLaws cell m_ObjectMeta ObjectMeta;
  #[global] laws_ListMeta :: DeepLaws cell m_ListMeta ListMeta;
  #[global] laws_LabelSelector :: DeepLaws cell m_LabelSelector LabelSelector;
  #[global] laws_Toleration :: DeepLaws cell m_Toleration Toleration;
  #[global] laws_Condition :: DeepLaws cell m_Condition Condition
}.

(** ** The copies *)

Section Copies.

Context {libt : LibTypes} {libc : LibCopies}.

Abbreviation heap := (gmap positive cell).
Abbreviation Mem := (Mem cell).

(** Structs without pointers are copied by the assignment of the struct. *)
Definition RolloutSpec_DeepCopyInto (x : RolloutSpec) : Mem RolloutSpec := mem_ret x.
Definition ScheduleSpec_DeepCopyInto (x : ScheduleSpec) : Mem ScheduleSpec := mem_ret x.
Definition StrategySpec_DeepCopyInto (x : StrategySpec) : Mem StrategySpec := mem_ret x.
Definition Script_DeepCopyInto (x : Script) : Mem Script := mem_ret x.

(** [metav1.Time.DeepCopyInto]: an instant is a value. *)
Definition Time_DeepCopyInto (t : Z) : Mem Z := mem_ret t.

Definition NodeStatus_DeepCopyInto (x : NodeStatus) : Mem NodeStatus :=
  let! t := Time_DeepCopyInto (ns_LastTransitionTime x) in
  mem_ret (MkNodeStatus (ns_NodeName x) (ns_Phase x) (ns_AppliedHash x) (ns_FailCount x) (ns_Message x) t).

#[export] Instance deep_RolloutSpec : Deep cell RolloutSpec RolloutSpec :=
  {| read h x := Some x; copy_into := RolloutSpec_DeepCopyInto |}.
#[export] Instance deep_ScheduleSpec : Deep cell ScheduleSpec ScheduleSpec :=
  {| read h x := Some x; copy_into := ScheduleSpec_DeepCopyInto |}.
#[export] Instance deep_StrategySpec : Deep cell StrategySpec StrategySpec :=
  {| read h x := Some x; copy_into := StrategySpec_DeepCopyInto |}.
#[export] Instance deep_Script : Deep cell Script Script :=
  {| read h x := Some x; copy_into := Script_DeepCopyInto |}.
#[export] Instance deep_Time : Deep cell Z Z :=
  {| read h x := Some x; copy_into := Time_DeepCopyInto |}.
#[export] Instance deep_NodeStatus : Deep cell NodeStatus NodeStatus :=
  {| read h x := Some x; copy_into := NodeStatus_DeepCopyInto |}.

Definition InterfaceSelector_DeepCopyInto (x : m_InterfaceSelector) : Mem m_InterfaceSelector :=
  let! prefixes := copy_flat (m_is_Prefixes x) in
  let! exclude := copy_flat (m_is_Exclude x) in
  mem_ret (Mk_m_InterfaceSelector prefixes exclude).

Definition read_InterfaceSelector (h : heap) (x : m_InterfaceSelector) : option InterfaceSelector :=
  prefixes ← slice_elems h (m_is_Prefixes x);
  exclude ← slice_elems h (m_is_Exclude x);
  Some (MkInterfaceSelector prefixes exclude).

#[export] Instance deep_InterfaceSelector : Deep cell m_InterfaceSelector InterfaceSelector :=
  {| read := read_InterfaceSelector; copy_into := InterfaceSelector_DeepCopyInto |}.

Definition Sysctl_DeepCopyInto (x : m_Sysctl) : Mem m_Sysctl :=
  let! sel := deep_copy (m_sysctl_InterfaceSelector x) in
  mem_ret (Mk_m_Sysctl (m_sysctl_Name x) (m_sysctl_Value x) (m_sysctl_Persistent x) sel).

Definition read_Sysctl (h : heap) (x : m_Sysctl) : option Sysctl :=
  sel ← read_pointer h (m_sysctl_InterfaceSelector x);
  Some (MkSysctl (m_sysctl_Name x) (m_sysctl_Value x) (m_sysctl_Persistent x) sel).

#[export] Instance deep_Sysctl : Deep cell m_Sysctl Sysctl :=
  {| read := read_Sysctl; copy_into := Sysctl_DeepCopyInto |}.

Definition SysctlProfileSpec_DeepCopyInto (x : m_SysctlProfileSpec) : Mem m_SysctlProfileSpec :=
  let! selector := copy_into (m_spec_NodeSelector x) in
  let! tolerations := copy_slice (m_spec_Tolerations x) in
  let! sysctls := copy_slice (m_spec_Sysctls x) in
  mem_ret (Mk_m_SysctlProfileSpec selector tolerations (m_spec_Rollout x) (m_spec_Schedule x)
    (m_spec_Strategy x) sysctls (m_spec_RestoreOnDelete x)).

Definition read_SysctlProfileSpec (h : heap) (x : m_SysctlProfileSpec) : option SysctlProfileSpec :=
  selector ← read h (m_spec_NodeSelector x);
  tolerations ← read_slice h (m_spec_Tolerations x);
  sysctls ← read_slice h (m_spec_Sysctls x);
  Some (MkSysctlProfileSpec selector tolerations (m_spec_Rollout x) (m_spec_Schedule x)
    (m_spec_Strategy x) sysctls (m_spec_RestoreOnDelete x)).

#[export] Instance deep_SysctlProfileSpec : Deep cell m_SysctlProfileSpec SysctlProfileSpec :=
  {| read := read_SysctlProfileSpec; copy_into := SysctlProfileSpec_DeepCopyInto |}.

Definition SysctlProfileStatus_DeepCopyInto (x : m_SysctlProfileStatus) : Mem m_SysctlProfileStatus :=
  let! t := deep_copy (m_st_LastRolloutTime x) in
  let! statuses := copy_slice (m_st_NodeStatuses x) in
  let! conditions := copy_slice (m_st_Conditions x) in
  mem_ret (Mk_m_SysctlProfileStatus (m_st_ObservedHash x) (m_st_TeardownHash x) (m_st_DesiredNodes x)
    (m_st_AppliedNodes x) (m_st_FailedNodes x) (m_st_DriftedNodes x) (m_st_ErroredPods x) t statuses conditions).

Definition read_SysctlProfileStatus (h : heap) (x : m_SysctlProfileStatus) : option SysctlProfileStatus :=
  t ← read_pointer h (m_st_LastRolloutTime x);
  statuses ← read_slice h (m_st_NodeStatuses x);
  conditions ← read_slice h (m_st_Conditions x);
  Some (MkSysctlProfileStatus (m_st_ObservedHash x) (m_st_TeardownHash x) (m_st_DesiredNodes x)
    (m_st_AppliedNodes x) (m_st_FailedNodes x) (m_st_DriftedNodes x) (m_st_ErroredPods x) t statuses conditions).

#[export] Instance deep_SysctlProfileStatus : Deep cell m_SysctlProfileStatus SysctlProfileStatus :=
  {| read := read_SysctlProfileStatus; copy_into := SysctlProfileStatus_DeepCopyInto |}.

Definition SysctlProfile_DeepCopyInto (x : m_SysctlProfile) : Mem m_SysctlProfile :=
  let! meta := copy_into (m_sp_Meta x) in
  let! spec := copy_into (m_sp_Spec x) in
  let! status := copy_into (m_sp_Status x) in
  mem_ret (Mk_m_SysctlProfile (m_sp_Type x) meta spec status).

Definition read_SysctlProfile (h : heap) (x : m_SysctlProfile) : option (TypeMeta * SysctlProfile) :=
  meta ← read h (m_sp_Meta x);
  spec ← read h (m_sp_Spec x);
  status ← read h (m_sp_Status x);
  Some (m_sp_Type x, MkSysctlProfile meta spec status).

#[export] Instance deep_SysctlProfile : Deep cell m_SysctlProfile (TypeMeta * SysctlProfile) :=
  {| read := read_SysctlProfile; copy_into := SysctlProfile_DeepCopyInto |}.

Definition SysctlProfileList_DeepCopyInto (x : m_SysctlProfileList) : Mem m_SysctlProfileList :=
  let! meta := copy_into (m_spl_Meta x) in
  let! items := copy_slice (m_spl_Items x) in
  mem_ret (Mk_m_SysctlProfileList (m_spl_Type x) meta items).

Definition read_SysctlProfileList (h : heap) (x : m_SysctlProfileList) : option SysctlProfileList :=
  meta ← read h (m_spl_Meta x);
  items ← read_slice h (m_spl_Items x);
  Some (MkSysctlProfileList (m_spl_Type x) meta items).

#[export] Instance deep_SysctlProfileList : Deep cell m_SysctlProfileList SysctlProfileList :=
  {| read := read_SysctlProfileList; copy_into := SysctlProfileList_DeepCopyInto |}.

Definition ScriptProfileSpec_DeepCopyInto (x : m_ScriptProfileSpec) : Mem m_ScriptProfileSpec :=
  let! selector := copy_into (m_sspec_NodeSelector x) in
  let! tolerations := copy_slice (m_sspec_Tolerations x) in
  let! scripts := copy_flat (m_sspec_Scripts x) in
  mem_ret (Mk_m_ScriptProfileSpec selector tolerations scripts).

Definition read_ScriptProfileSpec (h : heap) (x : m_ScriptProfileSpec) : option ScriptProfileSpec :=
  selector ← read h (m_sspec_NodeSelector x);
  tolerations ← read_slice h (m_sspec_Tolerations x);
  scripts ← slice_elems h (m_sspec_Scripts x);
  Some (MkScriptProfileSpec selector tolerations scripts).

#[export] Instance deep_ScriptProfileSpec : Deep cell m_ScriptProfileSpec ScriptProfileSpec :=
  {| read := read_ScriptProfileSpec; copy_into := ScriptProfileSpec_DeepCopyInto |}.

Definition ScriptProfileStatus_DeepCopyInto (x : m_ScriptProfileStatus) : Mem m_ScriptProfileStatus :=
  let! statuses := copy_slice (m_sst_NodeStatuses x) in
  let! conditions := copy_slice (m_sst_Conditions x) in
  mem_ret (Mk_m_ScriptProfileStatus (m_sst_ObservedHash x) (m_sst_TeardownHash x) (m_sst_DesiredNodes x)
    (m_sst_AppliedNodes x) (m_sst_FailedNodes x) statuses conditions).

Definition read_ScriptProfileStatus (h : heap) (x : m_ScriptProfileStatus) : option ScriptProfileStatus :=
  statuses ← read_slice h (m_sst_NodeStatuses x);
  conditions ← read_slice h (m_sst_Conditions x);
  Some (MkScriptProfileStatus (m_sst_ObservedHash x) (m_sst_TeardownHash x) (m_sst_DesiredNodes x)
    (m_sst_AppliedNodes x) (m_sst_FailedNodes x) statuses conditions).

#[export] Instance deep_ScriptProfileStatus : Deep cell m_ScriptProfileStatus ScriptProfileStatus :=
  {| read := read_ScriptProfileStatus; copy_into := ScriptProfileStatus_DeepCopyInto |}.

Definition ScriptProfile_DeepCopyInto (x : m_ScriptProfile) : Mem m_ScriptProfile :=
  let! meta := copy_into (m_scp_Meta x) in
  let! spec := copy_into (m_scp_Spec x) in
  let! status := copy_into (m_scp_Status x) in
  mem_ret (Mk_m_ScriptProfile (m_scp_Type x) meta spec status).

Definition read_ScriptProfile (h : heap) (x : m_ScriptProfile) : option (TypeMeta * ScriptProfile) :=
  meta ← read h (m_scp_Meta x);
  spec ← read h (m_scp_Spec x);
  status ← read h (m_scp_Status x);
  Some (m_scp_Type x, MkScriptProfile meta spec status).

#[export] Instance deep_ScriptProfile : Deep cell m_ScriptProfile (TypeMeta * ScriptProfile) :=
  {| read := read_ScriptProfile; copy_into := ScriptProfile_DeepCopyInto |}.

Definition ScriptProfileList_DeepCopyInto (x : m_ScriptProfileList) : Mem m_ScriptProfileList :=
  let! meta := copy_into (m_scpl_Meta x) in
  let! items := copy_slice (m_scpl_Items x) in
  mem_ret (Mk_m_ScriptProfileList (m_scpl_Type x) meta items).

Definition read_ScriptProfileList (h : heap) (x : m_ScriptProfileList) : option ScriptProfileList :=
  meta ← read h (m_scpl_Meta x);
  items ← read_slice h (m_scpl_Items x);
  Some (MkScriptProfileList (m_scpl_Type x) meta items).

#[export] Instance deep_ScriptProfileList : Deep cell m_ScriptProfileList ScriptProfileList :=
  {| read := read_ScriptProfileList; copy_into := ScriptProfileList_DeepCopyInto |}.

(** The [DeepCopy] of each type: a nil pointer for a nil one, else a new struct. *)
Definition InterfaceSelector_DeepCopy : pointer m_InterfaceSelector -> Mem (pointer m_InterfaceSelector) := deep_copy.
Definition NodeStatus_DeepCopy : pointer NodeStatus -> Mem (pointer NodeStatus) := deep_copy.
Definition RolloutSpec_DeepCopy : pointer RolloutSpec -> Mem (pointer RolloutSpec) := deep_copy.
Definition ScheduleSpec_DeepCopy : pointer ScheduleSpec -> Mem (pointer ScheduleSpec) := deep_copy.
Definition Script_DeepCopy : pointer Script -> Mem (pointer Script) := deep_copy.
Definition ScriptProfile_DeepCopy : pointer m_ScriptProfile -> Mem (pointer m_ScriptProfile) := deep_copy.
Definition ScriptProfileList_DeepCopy : pointer m_ScriptProfileList -> Mem (pointer m_ScriptProfileList) := deep_copy.
Definition ScriptProfileSpec_DeepCopy : pointer m_ScriptProfileSpec -> Mem (pointer m_ScriptProfileSpec) := deep_copy.
Definition ScriptProfileStatus_DeepCopy : pointer m_ScriptProfileStatus -> Mem (pointer m_ScriptProfileStatus) := deep_copy.
Definition StrategySpec_DeepCopy : pointer StrategySpec -> Mem (pointer StrategySpec) := deep_copy.
Definition Sysctl_DeepCopy : pointer m_Sysctl -> Mem (pointer m_Sysctl) := deep_copy.
Definition SysctlProfile_DeepCopy : pointer m_SysctlProfile -> Mem (pointer m_SysctlProfile) := deep_copy.
Definition SysctlProfileList_DeepCopy : pointer m_SysctlProfileList -> Mem (pointer m_SysctlProfileList) := deep_copy.
Definition SysctlProfileSpec_DeepCopy : pointer m_SysctlProfileSpec -> Mem (pointer m_SysctlProfileSpec) := deep_copy.
Definition SysctlProfileStatus_DeepCopy : pointer m_SysctlProfileStatus -> Mem (pointer m_SysctlProfileStatus) := deep_copy.

(** A [runtime.Object]: a nil interface, or a pointer to one of the four objects. *)
Inductive Object :=
| ObjectNil
| ObjSysctlProfile (p : pointer m_SysctlProfile)
| ObjSysctlProfileList (p : pointer m_SysctlProfileList)
| ObjScriptProfile (p : pointer m_ScriptProfile)
| ObjScriptProfileList (p : pointer m_ScriptProfileList).

(** [if c := in.DeepCopy(); c != nil { return c }; return nil] *)
Definition as_object {E : Type} (inj : pointer E -> Object) (c : pointer E) : Object :=
  match c with PNil => ObjectNil | PLoc _ => inj c end.

Definition SysctlProfile_DeepCopyObject (p : pointer m_SysctlProfile) : Mem Object :=
  let! c := SysctlProfile_DeepCopy p in mem_ret (as_object ObjSysctlProfile c).
Definition SysctlProfileList_DeepCopyObject (p : pointer m_SysctlProfileList) : Mem Object :=
  let! c := SysctlProfileList_DeepCopy p in mem_ret (as_object ObjSysctlProfileList c).
Definition ScriptProfile_DeepCopyObject (p : pointer m_ScriptProfile) : Mem Object :=
  let! c := ScriptProfile_DeepCopy p in mem_ret (as_object ObjScriptProfile c).
Definition ScriptProfileList_DeepCopyObject (p : pointer m_ScriptProfileList) : Mem Object :=
  let! c := ScriptProfileList_DeepCopy p in mem_ret (as_object ObjScriptProfileList c).

(** The method of the object behind an interface value; a call through a nil
    interface panics, and has no result. *)
Definition DeepCopyObject (o : Object) : option (Mem Object) :=
  match o with
  | ObjectNil => None
  | ObjSysctlProfile p => Some (SysctlProfile_DeepCopyObject p)
  | ObjSysctlProfileList p => Some (SysctlProfileList_DeepCopyObject p)
  | ObjScriptProfile p => Some (ScriptProfile_DeepCopyObject p)
  | ObjScriptProfileList p => Some (ScriptProfileList_DeepCopyObject p)
  end.

(** What an object stands for; nothing for nil, be it the pointer or the
    interface. *)
Inductive ObjectValue :=
| ValSysctlProfile (v : TypeMeta * SysctlProfile)
| ValSysctlProfileList (v : SysctlProfileList)
| ValScriptProfile (v : TypeMeta * ScriptProfile)
| ValScriptProfileList (v : ScriptProfileList).

Definition read_object (h : heap) (o : Object) : option (option ObjectValue) :=
  match o with
  | ObjectNil => Some None
  | ObjSysctlProfile p => option_map ValSysctlProfile <$> read_pointer h p
  | ObjSysctlProfileList p => option_map ValSysctlProfileList <$> read_pointer h p
  | ObjScriptProfile p => option_map ValScriptProfile <$> read_pointer h p
  | ObjScriptProfileList p => option_map ValScriptProfileList <$> read_pointer h p
  end.

End Copies.

(** ** The laws *)

Section Laws.

Context {libt : LibTypes} {libc : LibCopies} {libl : LibCopyLaws}.

#[export] Instance laws_RolloutSpec : DeepLaws cell RolloutSpec RolloutSpec.
Proof. apply flat_laws; [done|]. by intros. Qed.
#[export] Instance laws_ScheduleSpec : DeepLaws cell ScheduleSpec ScheduleSpec.
Proof. apply flat_laws; [done|]. by intros. Qed.
#[export] Instance laws_StrategySpec : DeepLaws cell StrategySpec StrategySpec.
Proof. apply flat_laws; [done|]. by intros. Qed.
#[export] Instance laws_Script : DeepLaws cell Script Script.
Proof. apply flat_laws; [done|]. by intros. Qed.
#[export] Instance laws_Time : DeepLaws cell Z Z.
Proof. apply flat_laws; [done|]. by intros. Qed.
#[export] Instance laws_NodeStatus : DeepLaws cell NodeStatus NodeStatus.
Proof. apply flat_laws; [done|]. by intros h []. Qed.
#[export] Instance laws_InterfaceSelector : DeepLaws cell m_InterfaceSelector InterfaceSelector.
Proof. split; [struct_mono deep_InterfaceSelector read_InterfaceSelector|struct_copy deep_InterfaceSelector read_InterfaceSelector InterfaceSelector_DeepCopyInto]. Qed.
#[export] Instance laws_Sysctl : DeepLaws cell m_Sysctl Sysctl.
Proof. split; [struct_mono deep_Sysctl read_Sysctl|struct_copy deep_Sysctl read_Sysctl Sysctl_DeepCopyInto]. Qed.
#[export] Instance laws_SysctlProfileSpec : DeepLaws cell m_SysctlProfileSpec SysctlProfileSpec.
Proof. split; [struct_mono deep_SysctlProfileSpec read_SysctlProfileSpec|struct_copy deep_SysctlProfileSpec read_SysctlProfileSpec SysctlProfileSpec_DeepCopyInto]. Qed.
#[export] Instance laws_SysctlProfileStatus : DeepLaws cell m_SysctlProfileStatus SysctlProfileStatus.
Proof. split; [struct_mono deep_SysctlProfileStatus read_SysctlProfileStatus|struct_copy deep_SysctlProfileStatus read_SysctlProfileStatus SysctlProfileStatus_DeepCopyInto]. Qed.
#[export] Instance laws_SysctlProfile : DeepLaws cell m_SysctlProfile (TypeMeta * SysctlProfile).
Proof. split; [struct_mono deep_SysctlProfile read_SysctlProfile|struct_copy deep_SysctlProfile read_SysctlProfile SysctlProfile_DeepCopyInto]. Qed.
#[export] Instance laws_SysctlProfileList : DeepLaws cell m_SysctlProfileList SysctlProfileList.
Proof. split; [struct_mono deep_SysctlProfileList read_SysctlProfileList|struct_copy deep_SysctlProfileList read_SysctlProfileList SysctlProfileList_DeepCopyInto]. Qed.
#[export] Instance laws_ScriptProfileSpec : DeepLaws cell m_ScriptProfileSpec ScriptProfileSpec.
Proof. split; [struct_mono deep_ScriptProfileSpec read_ScriptProfileSpec|struct_copy deep_ScriptProfileSpec read_ScriptProfileSpec ScriptProfileSpec_DeepCopyInto]. Qed.
#[export] Instance laws_ScriptProfileStatus : DeepLaws cell m_ScriptProfileStatus ScriptProfileStatus.
Proof. split; [struct_mono deep_ScriptProfileStatus read_ScriptProfileStatus|struct_copy deep_ScriptProfileStatus read_ScriptProfileStatus ScriptProfileStatus_DeepCopyInto]. Qed.
#[export] Instance laws_ScriptProfile : DeepLaws cell m_ScriptProfile (TypeMeta * ScriptProfile).
Proof. split; [struct_mono deep_ScriptProfile read_ScriptProfile|struct_copy deep_ScriptProfile read_ScriptProfile ScriptProfile_DeepCopyInto]. Qed.
#[export] Instance laws_ScriptProfileList : DeepLaws cell m_ScriptProfileList ScriptProfileList.
Proof. split; [struct_mono deep_ScriptProfileList read_ScriptProfileList|struct_copy deep_ScriptProfileList read_ScriptProfileList ScriptProfileList_DeepCopyInto]. Qed.

(** ** Theorems *)

Lemma read_object_mono (h h' : gmap positive cell) o v :
  h ⊆ h' -> read_object h o = Some v -> read_object h' o = Some v.
Proof.
  intros Hs. destruct o as [|p|p|p|p]; [done|..]; simpl;
    (destruct (read_pointer h p) as [w|] eqn:E; [|done]); by rewrite (read_grows _ _ _ _ Hs E).
Qed.

Lemma copy_as_object {E T} {arr : ArrayCell cell E} {deep : Deep cell E T} {laws : DeepLaws cell E T}
    (inj : pointer E -> Object) (val : T -> ObjectValue) (p : pointer E) (h h' : gmap positive cell) o' v :
  (forall h p, read_object h (inj p) = option_map val <$> read_pointer h p) ->
  read_object h (inj p) = Some v ->
  mem_bind (deep_copy p) (fun c => mem_ret (as_object inj c)) h = (o', h') ->
  h ⊆ h' /\ read_object (h' ∖ h) o' = Some v.
Proof.
  intros Hinj Hr Hc. rewrite Hinj in Hr. destruct (read_pointer h p) as [w|] eqn:Er; [|done].
  injection Hr as <-. unfold mem_bind, mem_ret in Hc. destruct (deep_copy p h) as [c h1] eqn:Ec.
  injection Hc as <- <-. destruct (deep_copy_law _ _ _ _ _ Er Ec) as [Hs Hc]. split; [done|].
  destruct c as [|l]; simpl as_object; [by injection Hc as <-|]. by rewrite Hinj, Hc.
Qed.

(** C21. The deep copy of an API object is independent of it. The copy reads as the
    object, and it reads so in every memory that keeps the cells the copy made,
    whatever is written to the cells that were there before; the object reads as
    it did in every memory that keeps those, whatever is written to the copy; the
    copying itself keeps them. *)
Theorem DeepCopyObject_independent o m h o' h' v :
  DeepCopyObject o = Some m -> read_object h o = Some v -> m h = (o', h') ->
  h ⊆ h' /\
  (forall h2, h' ∖ h ⊆ h2 -> read_object h2 o' = Some v) /\
  (forall h2, h ⊆ h2 -> read_object h2 o = Some v).
Proof.
  intros Hm Hr Hc. assert (Hcopy : h ⊆ h' /\ read_object (h' ∖ h) o' = Some v).
  { destruct o as [|p|p|p|p]; [done|..]; injection Hm as <-.
    - by apply (copy_as_object ObjSysctlProfile ValSysctlProfile p).
    - by apply (copy_as_object ObjSysctlProfileList ValSysctlProfileList p).
    - by apply (copy_as_object ObjScriptProfile ValScriptProfile p).
    - by apply (copy_as_object ObjScriptProfileList ValScriptProfileList p). }
  destruct Hcopy as [Hs Hnew]. split_and!; [done|intros h2 H2; by eapply read_object_mono..].
Qed.

End Laws.
