(* ===== verification/Samples.v ===== *)
(** * The sample manifests ([config/samples]) as values, for the witnesses. *)
From S2P Require Import Prelude GoStrings Api.

Definition tuned_selector : LabelSelector := MkLabelSelector {["sysctlstack" := "tuned"]} [].

Definition plain_sysctl (name value : string) : Sysctl := MkSysctl name value true None.

(** config/samples/sysctl_v1alpha1_sysctlprofile.yaml; the double-quoted value of
    net.core.wmem_max folds its line break into a space. *)
Definition aks_sysctls : list Sysctl := [
  plain_sysctl "net.core.rmem_max" "16777218";
  plain_sysctl "net.core.wmem_max" "16777219 ";
  plain_sysctl "net.core.somaxconn" "6544535";
  plain_sysctl "net.ipv4.tcp_congestion_control" "bbr";
  plain_sysctl "fs.file-max" "1000000";
  MkSysctl "net.ipv4.conf.{iface}.rp_filter" "0" true
    (Some (MkInterfaceSelector ["eth"; "ens"; "azure"] ["lo"; "cilium_host"; "cilium_net"])) ].

Definition sysctl_meta (name : string) : ObjectMeta :=
  MkObjectMeta name "kube-system" "uid-1" "100" 1 ∅ [] None [].

Definition sysctl_spec (ss : list Sysctl) : SysctlProfileSpec :=
  MkSysctlProfileSpec tuned_selector [] (MkRolloutSpec 10 30000000000 2 true)
    (MkScheduleSpec "*/5 * * * *" "0 * * * *") (MkStrategySpec StrategyEnforce) ss true.

Definition empty_status : SysctlProfileStatus :=
  MkSysctlProfileStatus "" "" 0 0 0 0 0 None [] [].

Definition sysctl_profile (name : string) (ss : list Sysctl) : SysctlProfile :=
  MkSysctlProfile (sysctl_meta name) (sysctl_spec ss) empty_status.

Definition aks_profile : SysctlProfile := sysctl_profile "aks-network-optimized" aks_sysctls.

(** A smaller profile whose sysctls are canonical. *)
Definition small_sysctls : list Sysctl := [
  plain_sysctl "net.core.somaxconn" "65535";
  plain_sysctl "net.ipv4.tcp_congestion_control" "bbr" ].

Definition small_profile : SysctlProfile := sysctl_profile "small" small_sysctls.

(** config/samples/sysctl_v1alpha1_scriptprofile.yaml, its first two lines. *)
Definition thp_script : Script :=
  MkScript "disable-thp"
    ("echo always > /sys/kernel/mm/transparent_hugepage/enabled" +:+ nl_string +:+
     "echo always > /sys/kernel/mm/transparent_hugepage/defrag" +:+ nl_string) "/bin/sh".

Definition script_profile (name : string) (ss : list Script) : ScriptProfile :=
  MkScriptProfile (sysctl_meta name) (MkScriptProfileSpec tuned_selector [] ss)
    (MkScriptProfileStatus "" "" 0 0 0 [] []).

Definition bootstrap_profile : ScriptProfile := script_profile "node-bootstrap" [thp_script].
