(* ===== verification/Render.v ===== *)
(** * Rendering: what the controllers put into the ConfigMaps.

    The drop-in file and the scripts file, the config hash, and the names and
    labels of the owned resources ([internal/controller]). *)
From Stdlib Require Import Ascii.
From S2P Require Import Prelude GoStrings GoHash Api.

(** ** Constants *)

Definition configVolumeName : string := "sysctl-config".
Definition imagePullPolicy : string := "Always".
Definition configMountPath : string := "/etc/sysctl.d".
Definition configFileName : string := "99-sysctl-operator.conf".
Definition hostSystemdVolumeName : string := "host-systemd".
Definition hostDbusVolumeName : string := "host-dbus".
Definition hostSystemdPath : string := "/run/systemd".
Definition hostDbusPath : string := "/run/dbus".
Definition DefaultWorkerImage : string := "emirozbir/sysctl-operator-worker:v10-amd64".
Definition reportURL : string :=
  "http://sysctl-operator-report.sysctl-operator-system:9090/api/v1/reports".
Definition labelProfile : string := "sysctl.k8s.io/profile".
Definition configHashAnn : string := "sysctl.k8s.io/config-hash".
Definition finalizer : string := "sysctl.k8s.io/finalizer".

Definition scriptConfigMountPath : string := "/etc/sysctl-operator/scripts".
Definition scriptConfigFileName : string := "scripts.txt".
Definition scriptReportURL : string :=
  "http://sysctl-operator-report.sysctl-operator-system:9090/api/v1/reports".
Definition labelScriptProfile : string := "sysctl.k8s.io/script-profile".

(** ** The sysctl drop-in *)

(** [fmt.Fprintf(&b, "%s = %s\n", s.Name, s.Value)] *)
Definition render_line (s : Sysctl) : string :=
  sysctl_Name s +:+ " = " +:+ sysctl_Value s +:+ nl_string.

(** The loop writes the lines to the builder in order. *)
Definition renderSysctlConf (p : SysctlProfile) : string :=
  fold_left (fun b s => b +:+ render_line s) (spec_Sysctls (sp_Spec p)) "".

Definition hashContent (s : string) : string := str_take 16 (EncodeToString (Sum256 s)).

Definition resourceName (p : SysctlProfile) : string := sp_Name p +:+ "-sysctl".
Definition cronJobName (p : SysctlProfile) : string := sp_Name p +:+ "-drift".

Definition labelsFor (p : SysctlProfile) : gmap string string :=
  <[labelProfile := sp_Name p]>
  (<["app.kubernetes.io/managed-by" := "sysctl-operator"]>
  {["app.kubernetes.io/name" := "sysctl-operator"]}).

(** ** The scripts file *)

Definition render_script (s : Script) : string :=
  let interp := if String.eqb (script_Interpreter s) "" then "/bin/sh" else script_Interpreter s in
  "#!script name=" +:+ script_Name s +:+ " interpreter=" +:+ interp +:+ nl_string +:+
  script_Content s +:+
  (if HasSuffix (script_Content s) nl_string then "" else nl_string) +:+
  "#!endscript" +:+ nl_string.

Definition renderScripts (p : ScriptProfile) : string :=
  fold_left (fun b s => b +:+ render_script s) (sspec_Scripts (scp_Spec p)) "".

Definition scriptResourceName (p : ScriptProfile) : string := scp_Name p +:+ "-script".

Definition scriptLabelsFor (p : ScriptProfile) : gmap string string :=
  <[labelScriptProfile := scp_Name p]>
  (<["app.kubernetes.io/managed-by" := "sysctl-operator"]>
  {["app.kubernetes.io/name" := "sysctl-operator"]}).

(** ** Lemmas *)

(** A builder loop writes the concatenation of its pieces. *)
Lemma fold_left_builder {A : Type} (f : A -> string) (l : list A) (b : string) :
  fold_left (fun b x => b +:+ f x) l b = b +:+ sconcat (map f l).
Proof.
  revert b. induction l as [|x l IH]; intros b; simpl; [by rewrite sapp_nil_r|].
  by rewrite IH, sapp_assoc.
Qed.

Lemma renderSysctlConf_concat (p : SysctlProfile) :
  renderSysctlConf p = sconcat (map render_line (spec_Sysctls (sp_Spec p))).
Proof. unfold renderSysctlConf. by rewrite fold_left_builder. Qed.

Lemma renderScripts_concat (p : ScriptProfile) :
  renderScripts p = sconcat (map render_script (sspec_Scripts (scp_Spec p))).
Proof. unfold renderScripts. by rewrite fold_left_builder. Qed.

Lemma length_hashContent (s : string) : String.length (hashContent s) = 16%nat.
Proof.
  unfold hashContent. apply length_str_take. rewrite length_EncodeToString, length_Sum256. lia.
Qed.

Lemma hashContent_hex (s : string) : all_hex (hashContent s) = true.
Proof. apply all_hex_take, all_hex_EncodeToString, Sum256_range. Qed.

Lemma hashContent_not_empty (s : string) : hashContent s <> "".
Proof. intros H. pose proof (length_hashContent s) as Hl. by rewrite H in Hl. Qed.

#[export] Hint Resolve hashContent_not_empty : sysctl.

(** A profile's ConfigMap and DaemonSet never have its CronJob's name. *)
Lemma resource_not_cron (p : SysctlProfile) : resourceName p <> cronJobName p.
Proof.
  unfold resourceName, cronJobName. intros E. apply (f_equal String.length) in E.
  rewrite !length_sapp in E. simpl in E. lia.
Qed.
