(* ===== verification/WorkerConfig.v ===== *)
(** * Worker: the drop-in parser ([internal/worker/config.go]).

    [Parse] and the hash of the raw bytes, and the round trip with the
    controller's [renderSysctlConf]: what a node applies is what the profile
    lists, for every profile whose names and values fit on a drop-in line. *)
From Stdlib Require Import Ascii.
From S2P Require Import Prelude GoStrings GoTrim GoHash Api Samples Render.

(** ** Definitions *)

Record Entry := MkEntry { entry_Name : string; entry_Value : string }.

Record Config := MkConfig {
  cfg_Raw : string;
  cfg_Hash : string;
  cfg_Entries : list Entry
}.

#[export] Instance Entry_eq : EqDecision Entry.
Proof. solve_decision. Defined.

Definition HashBytes (data : string) : string := str_take 16 (EncodeToString (Sum256 data)).

(** One iteration of the loop over the lines: [c.Entries] after the line. *)
Definition parse_line (entries : list Entry) (line : string) : list Entry :=
  let line := TrimSpace line in
  if String.eqb line "" || HasPrefix line "#" || HasPrefix line ";" then entries
  else
    let '(key, val, ok) := Cut line "=" in
    if negb ok then entries
    else entries ++ [MkEntry (TrimSpace key) (TrimSpace val)].

Definition Parse (data : string) : Config :=
  MkConfig data (HashBytes data) (fold_left parse_line (Split data nl) []).

(** *** What a profile's sysctl means to the worker *)

(** The line of [s] stays one line, and its first [=] is the separator. *)
Definition line_safe (s : Sysctl) : bool :=
  negb (has_byte nl (sysctl_Name s)) && negb (has_byte nl (sysctl_Value s)) &&
  negb (has_byte eq_sign (sysctl_Name s)).

(** The name would make the line a comment. *)
Definition comment_name (name : string) : bool := HasPrefix name "#" || HasPrefix name ";".

(** The entry the worker reads back for [s], if any. *)
Definition sysctl_entry (s : Sysctl) : option Entry :=
  if comment_name (TrimSpace (sysctl_Name s)) then None
  else Some (MkEntry (TrimSpace (sysctl_Name s)) (TrimSpace (sysctl_Value s))).

(** Names and values already trimmed, and no comment. *)
Definition canonical (s : Sysctl) : bool :=
  line_safe s &&
  String.eqb (TrimSpace (sysctl_Name s)) (sysctl_Name s) &&
  String.eqb (TrimSpace (sysctl_Value s)) (sysctl_Value s) &&
  negb (comment_name (sysctl_Name s)).

(** ** Lemmas *)

(** A line adds at most one entry, at the end. *)
Definition line_entry (line : string) : option Entry :=
  let line := TrimSpace line in
  if String.eqb line "" || HasPrefix line "#" || HasPrefix line ";" then None
  else
    let '(key, val, ok) := Cut line "=" in
    if negb ok then None else Some (MkEntry (TrimSpace key) (TrimSpace val)).

Lemma parse_line_entry (entries : list Entry) (line : string) :
  parse_line entries line = entries ++ option_list (line_entry line).
Proof.
  unfold parse_line, line_entry. destruct (_ || _); [by rewrite app_nil_r|].
  destruct (Cut _ _) as [[key val] []]; simpl; [done|]. by rewrite app_nil_r.
Qed.

Lemma fold_parse_line (entries : list Entry) (lines : list string) :
  fold_left parse_line lines entries = entries ++ omap line_entry lines.
Proof.
  revert entries. induction lines as [|l ls IH]; intros entries; simpl; [by rewrite app_nil_r|].
  rewrite IH, parse_line_entry, <- app_assoc. by destruct (line_entry l).
Qed.

Lemma Parse_entries (data : string) : cfg_Entries (Parse data) = omap line_entry (Split data nl).
Proof. unfold Parse. simpl. by rewrite fold_parse_line. Qed.

(** A text of newline-terminated lines splits into its lines and a last empty
    one. *)
Lemma Split_lines (lines : list string) :
  Forall (fun l => has_byte nl l = false) lines ->
  Split (sconcat (map (fun l => l +:+ nl_string) lines)) nl = lines ++ [""].
Proof.
  induction 1 as [|l ls Hl _ IH]; [done|]. cbn [map sconcat foldr].
  unfold nl_string at 1. rewrite sapp_assoc, sapp_cons, sapp_nil_l, Split_app_sep by done.
  by rewrite <- app_comm_cons, <- IH.
Qed.

Lemma eq_sign_plain : plain eq_sign = true.
Proof. reflexivity. Qed.

(** The trimmed line, cut at its first [=]. *)
Lemma line_entry_app (key val : string) :
  has_byte eq_sign key = false ->
  line_entry (key +:+ String eq_sign val) =
    if comment_name (trim_left key) then None
    else Some (MkEntry (TrimSpace key) (TrimSpace val)).
Proof.
  intros Hk. unfold line_entry, comment_name.
  rewrite TrimSpace_app_plain by done.
  set (k := trim_left key). set (v := trim_right val).
  assert (String.eqb (k +:+ String eq_sign v) "" = false) as -> by by destruct k.
  assert (forall a, a <> eq_sign ->
    HasPrefix (k +:+ String eq_sign v) (String a "") = HasPrefix k (String a "")) as Hp.
  { intros a Ha. destruct k; [|by apply HasPrefix_app_first].
    rewrite sapp_nil_l, HasPrefix_first.
    by destruct (Ascii.eqb_spec a eq_sign). }
  rewrite !Hp by done. rewrite orb_false_l. destruct (_ || _); [done|].
  rewrite Cut_byte_app by (by apply has_byte_trim_left). simpl. unfold k, v.
  by rewrite TrimSpace_trim_left, TrimSpace_trim_right.
Qed.

Lemma comment_name_trim_left (s : string) :
  comment_name (trim_left s) = comment_name (TrimSpace s).
Proof.
  unfold TrimSpace. generalize (space_prefix_trim_left s).
  generalize (trim_left s) as t. intros t Ht. unfold comment_name. destruct t as [|a t]; [done|].
  by rewrite trim_right_cons, all_space_None, !HasPrefix_first.
Qed.

Lemma line_entry_render (s : Sysctl) :
  line_safe s = true ->
  line_entry (sysctl_Name s +:+ " = " +:+ sysctl_Value s) = sysctl_entry s.
Proof.
  unfold line_safe. rewrite !andb_true_iff, !negb_true_iff. intros [[_ _] Heq].
  replace (sysctl_Name s +:+ " = " +:+ sysctl_Value s)
    with ((sysctl_Name s +:+ " ") +:+ String eq_sign (String " " (sysctl_Value s)))
    by by rewrite sapp_assoc.
  rewrite line_entry_app by (by rewrite has_byte_app, Heq).
  rewrite comment_name_trim_left, TrimSpace_snoc_space, TrimSpace_cons_space by done.
  reflexivity.
Qed.

Lemma render_line_no_nl (s : Sysctl) :
  line_safe s = true -> has_byte nl (sysctl_Name s +:+ " = " +:+ sysctl_Value s) = false.
Proof.
  unfold line_safe. rewrite !andb_true_iff, !negb_true_iff. intros [[Hn Hv] _].
  by rewrite !has_byte_app, Hn, Hv.
Qed.

Lemma omap_map_forall {A B C : Type} (f : A -> B) (g : B -> option C) (h : A -> option C) (l : list A) :
  Forall (fun x => g (f x) = h x) l -> omap g (map f l) = omap h l.
Proof. induction 1 as [|x l Hx _ IH]; csimpl; [done|]. by rewrite Hx, IH. Qed.

(** The entries of a rendered profile. *)
Lemma Parse_render_entries (p : SysctlProfile) :
  Forall (fun s => line_safe s = true) (spec_Sysctls (sp_Spec p)) ->
  cfg_Entries (Parse (renderSysctlConf p)) = omap sysctl_entry (spec_Sysctls (sp_Spec p)).
Proof.
  intros H. rewrite Parse_entries, renderSysctlConf_concat.
  set (body s := sysctl_Name s +:+ " = " +:+ sysctl_Value s).
  replace (map render_line (spec_Sysctls (sp_Spec p)))
    with (map (fun l => l +:+ nl_string) (map body (spec_Sysctls (sp_Spec p)))).
  2: { rewrite map_map. apply map_ext. intros s. unfold body, render_line. by rewrite !sapp_assoc. }
  rewrite Split_lines.
  - rewrite omap_app. simpl. rewrite app_nil_r. apply omap_map_forall.
    eapply Forall_impl; [|exact H]. apply line_entry_render.
  - apply Forall_map. eapply Forall_impl; [|exact H]. apply render_line_no_nl.
Qed.

Lemma canonical_entry (s : Sysctl) :
  canonical s = true ->
  line_safe s = true /\ sysctl_entry s = Some (MkEntry (sysctl_Name s) (sysctl_Value s)).
Proof.
  unfold canonical, sysctl_entry. rewrite !andb_true_iff, negb_true_iff, !String.eqb_eq.
  intros [[[H1 H2] H3] H4]. split; [done|]. by rewrite H2, H3, H4.
Qed.

Lemma omap_all_Some {A B : Type} (f : A -> option B) (g : A -> B) (l : list A) :
  Forall (fun x => f x = Some (g x)) l -> omap f l = map g l.
Proof. induction 1 as [|x l Hx _ IH]; csimpl; [done|]. by rewrite Hx, IH. Qed.

Lemma canonical_entries (p : SysctlProfile) :
  Forall (fun s => canonical s = true) (spec_Sysctls (sp_Spec p)) ->
  cfg_Entries (Parse (renderSysctlConf p)) =
    map (fun s => MkEntry (sysctl_Name s) (sysctl_Value s)) (spec_Sysctls (sp_Spec p)).
Proof.
  intros H. rewrite Parse_render_entries.
  - apply omap_all_Some. eapply Forall_impl; [|exact H]. intros s. apply canonical_entry.
  - eapply Forall_impl; [|exact H]. intros s Hs. by apply canonical_entry.
Qed.

(** ** Properties *)

(** C22. Round trip. For a profile whose sysctls are canonical (one line each,
    no [=] in the name, no surrounding white space, no comment mark) the worker
    reads back exactly the profile's names and values, in order. *)
Theorem parse_render_roundtrip (p : SysctlProfile) :
  Forall (fun s => canonical s = true) (spec_Sysctls (sp_Spec p)) ->
  cfg_Entries (Parse (renderSysctlConf p)) =
    map (fun s => MkEntry (sysctl_Name s) (sysctl_Value s)) (spec_Sysctls (sp_Spec p)).
Proof. apply canonical_entries. Qed.

Lemma parse_render_roundtrip_witness :
  cfg_Entries (Parse (renderSysctlConf small_profile)) =
    [MkEntry "net.core.somaxconn" "65535"; MkEntry "net.ipv4.tcp_congestion_control" "bbr"].
Proof. exact (parse_render_roundtrip small_profile ltac:(repeat constructor)). Defined.

(** The general reading. For any profile whose lines stay single lines, the
    worker's entries are the profile's sysctls trimmed, minus those whose
    trimmed name starts with a comment mark, which are dropped silently. *)
Theorem parse_render_normalises (p : SysctlProfile) :
  Forall (fun s => line_safe s = true) (spec_Sysctls (sp_Spec p)) ->
  cfg_Entries (Parse (renderSysctlConf p)) = omap sysctl_entry (spec_Sysctls (sp_Spec p)).
Proof. apply Parse_render_entries. Qed.

Lemma parse_render_normalises_witness :
  cfg_Entries (Parse (renderSysctlConf aks_profile)) = omap sysctl_entry aks_sysctls /\
  In (MkEntry "net.core.wmem_max" "16777219") (omap sysctl_entry aks_sysctls).
Proof.
  split; [exact (parse_render_normalises aks_profile ltac:(repeat constructor))|].
  vm_compute. right. left. reflexivity.
Defined.

(** The rendered text identifies the configuration: two profiles with
    canonical sysctls that render alike list the same names and values. *)
Theorem render_injective (p q : SysctlProfile) :
  Forall (fun s => canonical s = true) (spec_Sysctls (sp_Spec p)) ->
  Forall (fun s => canonical s = true) (spec_Sysctls (sp_Spec q)) ->
  renderSysctlConf p = renderSysctlConf q ->
  map (fun s => (sysctl_Name s, sysctl_Value s)) (spec_Sysctls (sp_Spec p)) =
  map (fun s => (sysctl_Name s, sysctl_Value s)) (spec_Sysctls (sp_Spec q)).
Proof.
  intros Hp Hq E. apply canonical_entries in Hp, Hq. rewrite E, Hq in Hp.
  apply (f_equal (map (fun e => (entry_Name e, entry_Value e)))) in Hp.
  by rewrite !map_map in Hp.
Qed.

Lemma render_injective_witness :
  renderSysctlConf small_profile <> renderSysctlConf (sysctl_profile "other" [plain_sysctl "a" "1"]).
Proof.
  intros E.
  discriminate (render_injective small_profile (sysctl_profile "other" [plain_sysctl "a" "1"])
    ltac:(repeat constructor) ltac:(repeat constructor) E).
Defined.

(** A newline in a value injects a sysctl: a profile that lists the single
    key [name] makes the worker apply [key2] as well. *)
Theorem value_newline_injects (name v1 key2 v2 : string) (rest : SysctlProfile) :
  let injected := MkSysctl name (v1 +:+ nl_string +:+ key2 +:+ String eq_sign v2) false None in
  let first := MkSysctl name v1 false None in
  let second := MkSysctl key2 v2 false None in
  spec_Sysctls (sp_Spec rest) = [injected] ->
  line_safe first = true -> line_safe second = true ->
  cfg_Entries (Parse (renderSysctlConf rest)) =
    option_list (sysctl_entry first) ++ option_list (sysctl_entry second).
Proof.
  intros injected first second Hs Hf Hk. rewrite Parse_entries, renderSysctlConf_concat, Hs.
  replace (sconcat (map render_line [injected])) with
    (sconcat (map (fun l => l +:+ nl_string)
       [name +:+ " = " +:+ v1; key2 +:+ String eq_sign v2])).
  2: { cbn. unfold render_line. cbn. by str_norm. }
  pose proof (render_line_no_nl _ Hf) as Hn1. pose proof (render_line_no_nl _ Hk) as Hn2.
  pose proof Hk as [[_ _]%andb_true_iff Heq%negb_true_iff]%andb_true_iff.
  rewrite Split_lines.
  - csimpl. pose proof (line_entry_render _ Hf) as E1. cbn [first sysctl_Name sysctl_Value] in E1.
    assert (line_entry (key2 +:+ String eq_sign v2) = sysctl_entry second) as E2
      by by rewrite line_entry_app, comment_name_trim_left.
    rewrite E1, E2. by destruct (sysctl_entry first), (sysctl_entry second).
  - repeat constructor; [done|]. rewrite has_byte_app, orb_false_iff in Hn2 |- *.
    exact Hn2.
Qed.

Definition newline_profile : SysctlProfile := sysctl_profile "p"
  [MkSysctl "net.core.somaxconn" ("1" +:+ nl_string +:+ "kernel.panic" +:+ String eq_sign "0") false None].

Lemma value_newline_injects_witness :
  cfg_Entries (Parse (renderSysctlConf newline_profile)) =
  [MkEntry "net.core.somaxconn" "1"; MkEntry "kernel.panic" "0"].
Proof.
  exact (value_newline_injects "net.core.somaxconn" "1" "kernel.panic" "0" newline_profile
    eq_refl eq_refl eq_refl).
Defined.
