(* ===== verification/WorkerScript.v ===== *)
(** * Worker: the scripts file parser ([internal/worker/script.go]).

    [ParseScripts] as a fold over the lines with its three variables as state,
    and the round trip with the controller's [renderScripts]. *)
From Stdlib Require Import Ascii.
From S2P Require Import Prelude GoStrings GoTrim GoHash Api Samples Render WorkerConfig.

(** ** Definitions *)

Definition scriptHeaderPrefix : string := "#!script ".
Definition scriptFooter : string := "#!endscript".

Record ScriptEntry := MkScriptEntry {
  se_Name : string;
  se_Interpreter : string;
  se_Content : string
}.

Record ScriptConfig := MkScriptConfig {
  scfg_Raw : string;
  scfg_Hash : string;
  scfg_Scripts : list ScriptEntry
}.

(** One field of the header: the name and the interpreter after it. *)
Definition header_field (acc : string * string) (field : string) : string * string :=
  let '(name, interpreter) := acc in
  let '(key, val, ok) := Cut field "=" in
  if negb ok then acc
  else if String.eqb key "name" then (val, interpreter)
  else if String.eqb key "interpreter" then (name, val)
  else acc.

Definition parseScriptHeader (line : string) : string * string :=
  fold_left header_field (Fields (TrimPrefix line scriptHeaderPrefix)) ("", "/bin/sh").

(** The variables of the loop: [cur], [content] and [c.Scripts]. *)
Record ParseState := MkParseState {
  ps_cur : option ScriptEntry;
  ps_content : list string;
  ps_scripts : list ScriptEntry
}.

Definition script_line (st : ParseState) (line : string) : ParseState :=
  if HasPrefix line scriptHeaderPrefix then
    let '(name, interp) := parseScriptHeader line in
    MkParseState (Some (MkScriptEntry name interp "")) [] (ps_scripts st)
  else if String.eqb line scriptFooter then
    match ps_cur st with
    | Some cur =>
        MkParseState None (ps_content st)
          (ps_scripts st ++ [MkScriptEntry (se_Name cur) (se_Interpreter cur)
                               (Join (ps_content st) nl_string)])
    | None => st
    end
  else
    match ps_cur st with
    | Some _ => MkParseState (ps_cur st) (ps_content st ++ [line]) (ps_scripts st)
    | None => st
    end.

Definition ParseScripts (data : string) : ScriptConfig :=
  MkScriptConfig data (HashBytes data)
    (ps_scripts (fold_left script_line (Split data nl) (MkParseState None [] []))).

(** *** What a profile's script means to the worker *)

(** A content line the parser does not take for a header or a footer. *)
Definition content_line (line : string) : bool :=
  negb (HasPrefix line scriptHeaderPrefix) && negb (String.eqb line scriptFooter).

(** The content without one trailing newline. *)
Fixpoint chomp (s : string) : string :=
  match s with
  | "" => ""
  | String a s' => if String.eqb s nl_string then "" else String a (chomp s')
  end.

Definition script_interpreter (s : Script) : string :=
  if String.eqb (script_Interpreter s) "" then "/bin/sh" else script_Interpreter s.

(** No white space in the header's fields, no delimiter among the lines. *)
Definition script_safe (s : Script) : bool :=
  negb (has_space (script_Name s)) && negb (has_space (script_Interpreter s)) &&
  forallb content_line (Split (chomp (script_Content s)) nl).

Definition script_entry (s : Script) : ScriptEntry :=
  MkScriptEntry (script_Name s) (script_interpreter s) (chomp (script_Content s)).

(** ** Lemmas *)

Lemma chomp_suffix (s : string) :
  s +:+ (if HasSuffix s nl_string then "" else nl_string) = chomp s +:+ nl_string.
Proof.
  induction s as [|a s IH]; [done|]. cbn [HasSuffix chomp].
  destruct (String.eqb_spec (String a s) nl_string) as [->|Hne]; [done|].
  rewrite orb_false_l, !sapp_cons. by rewrite IH.
Qed.

Lemma chomp_app (s : string) : chomp (s +:+ nl_string) = s.
Proof.
  apply (sapp_inj_r _ _ nl_string). rewrite <- chomp_suffix.
  assert (HasSuffix (s +:+ nl_string) nl_string = true) as -> by (apply HasSuffix_spec; eauto).
  by rewrite sapp_nil_r.
Qed.

Lemma space_byte_has_space (c : ascii) (s : string) :
  space1 c = true -> has_space s = false -> has_byte c s = false.
Proof.
  intros Hc. induction s as [|a s IH]; intros H; [done|]. cbn [has_space] in H.
  destruct (space_prefix (String a s)) eqn:E; [done|].
  apply has_byte_cons_false. split; [|auto].
  intros ->. cbn [space_prefix] in E. by rewrite Hc in E.
Qed.

Lemma has_space_cons_plain_list (p s : string) :
  Forall (fun a => plain a = true) (String.list_ascii_of_string p) ->
  has_space (p +:+ s) = has_space s.
Proof.
  induction p as [|a p IH]; intros H; [done|]. simpl in H. inversion H; subst.
  rewrite sapp_cons, has_space_plain_cons by done. auto.
Qed.

Definition header_line (name interp : string) : string :=
  "#!script name=" +:+ name +:+ " interpreter=" +:+ interp.

Lemma header_Fields (name interp : string) :
  has_space name = false -> has_space interp = false ->
  Fields (TrimPrefix (header_line name interp) scriptHeaderPrefix) =
    ["name=" +:+ name; "interpreter=" +:+ interp].
Proof.
  intros Hn Hi. unfold header_line.
  change ("#!script name=" +:+ ?x) with (scriptHeaderPrefix +:+ "name=" +:+ x).
  rewrite TrimPrefix_app. unfold Fields.
  change (" interpreter=" +:+ interp) with (String " " ("interpreter=" +:+ interp)).
  rewrite <- sapp_assoc, fields_go_app_space.
  - cbn [push_field]. rewrite fields_go_no_space; [done|].
    rewrite has_space_cons_plain_list; [done|]. by repeat constructor.
  - rewrite has_space_cons_plain_list; [done|]. by repeat constructor.
  - done.
  - done.
Qed.

Lemma parseScriptHeader_header (name interp : string) :
  has_space name = false -> has_space interp = false ->
  parseScriptHeader (header_line name interp) = (name, interp).
Proof.
  intros Hn Hi. unfold parseScriptHeader. rewrite header_Fields by done. cbn [fold_left].
  unfold header_field at 2.
  change ("name=" +:+ name) with ("name" +:+ String "=" name).
  rewrite Cut_byte_app by done. cbn -[String.eqb Cut].
  unfold header_field.
  change ("interpreter=" +:+ interp) with ("interpreter" +:+ String "=" interp).
  by rewrite Cut_byte_app.
Qed.

Lemma HasPrefix_header (name interp : string) :
  HasPrefix (header_line name interp) scriptHeaderPrefix = true.
Proof.
  unfold header_line.
  change ("#!script name=" +:+ ?x) with (scriptHeaderPrefix +:+ "name=" +:+ x).
  apply HasPrefix_app.
Qed.

Lemma script_line_header (st : ParseState) (name interp : string) :
  has_space name = false -> has_space interp = false ->
  script_line st (header_line name interp) =
    MkParseState (Some (MkScriptEntry name interp "")) [] (ps_scripts st).
Proof.
  intros Hn Hi. unfold script_line. by rewrite HasPrefix_header, parseScriptHeader_header.
Qed.

(** Content lines inside a block accumulate. *)
Lemma script_line_content (st : ParseState) (cur : ScriptEntry) (lines : list string) :
  ps_cur st = Some cur -> Forall (fun l => content_line l = true) lines ->
  fold_left script_line lines st =
    MkParseState (Some cur) (ps_content st ++ lines) (ps_scripts st).
Proof.
  intros Hc H. revert st Hc. induction H as [|l ls Hl _ IH]; intros st Hc.
  - simpl. rewrite app_nil_r. destruct st. by simpl in Hc; subst.
  - simpl. apply andb_true_iff in Hl as [H1%negb_true_iff H2%negb_true_iff].
    unfold script_line at 2. rewrite H1, H2, Hc. rewrite IH by done. simpl.
    by rewrite <- app_assoc.
Qed.

(** Lines outside every block are skipped. *)
Lemma script_line_skip (st : ParseState) (lines : list string) :
  ps_cur st = None -> Forall (fun l => HasPrefix l scriptHeaderPrefix = false) lines ->
  fold_left script_line lines st = st.
Proof.
  intros Hc H. induction H as [|l ls Hl _ IH]; [done|]. simpl.
  unfold script_line at 2. rewrite Hl, Hc. by destruct (String.eqb _ _).
Qed.

Lemma script_line_footer (st : ParseState) (cur : ScriptEntry) :
  ps_cur st = Some cur ->
  script_line st scriptFooter =
    MkParseState None (ps_content st)
      (ps_scripts st ++ [MkScriptEntry (se_Name cur) (se_Interpreter cur)
                           (Join (ps_content st) nl_string)]).
Proof. intros Hc. unfold script_line. simpl. by rewrite Hc. Qed.

(** The lines of a rendered script. *)
Lemma Split_render_script (s : Script) (rest : string) :
  has_byte nl (header_line (script_Name s) (script_interpreter s)) = false ->
  Split (render_script s +:+ rest) nl =
    header_line (script_Name s) (script_interpreter s)
      :: Split (chomp (script_Content s)) nl ++ scriptFooter :: Split rest nl.
Proof.
  intros H.
  assert (render_script s +:+ rest =
    header_line (script_Name s) (script_interpreter s) +:+ String nl
       (chomp (script_Content s) +:+ String nl (scriptFooter +:+ String nl rest))) as ->.
  { change (String nl (scriptFooter +:+ String nl rest))
      with (nl_string +:+ scriptFooter +:+ nl_string +:+ rest).
    rewrite <- (sapp_assoc (chomp _)), <- chomp_suffix.
    unfold render_script, header_line, script_interpreter. by str_norm. }
  by rewrite Split_app_sep, Split_app, Split_app_sep.
Qed.

Lemma header_no_nl (s : Script) :
  has_space (script_Name s) = false -> has_space (script_interpreter s) = false ->
  has_byte nl (header_line (script_Name s) (script_interpreter s)) = false.
Proof.
  intros Hn Hi. unfold header_line. rewrite !has_byte_app.
  by rewrite (space_byte_has_space nl _ eq_refl Hn), (space_byte_has_space nl _ eq_refl Hi).
Qed.

Lemma script_safe_fields (s : Script) :
  script_safe s = true ->
  has_space (script_Name s) = false /\ has_space (script_interpreter s) = false /\
  Forall (fun l => content_line l = true) (Split (chomp (script_Content s)) nl).
Proof.
  unfold script_safe, script_interpreter. rewrite !andb_true_iff, !negb_true_iff, forallb_forall.
  intros [[Hn Hi] Hc]. split; [done|]. split; [destruct (String.eqb (script_Interpreter s) ""); done|].
  apply Forall_forall. intros l Hl. by apply Hc.
Qed.

(** Reading one rendered script and going on. *)
Lemma fold_render_script (s : Script) (rest : string) (st : ParseState) :
  script_safe s = true -> ps_cur st = None ->
  exists st',
    fold_left script_line (Split (render_script s +:+ rest) nl) st =
      fold_left script_line (Split rest nl) st' /\
    ps_cur st' = None /\ ps_scripts st' = ps_scripts st ++ [script_entry s].
Proof.
  intros (Hn & Hi & Hc)%script_safe_fields Hst.
  rewrite Split_render_script by (by apply header_no_nl). cbn [fold_left].
  rewrite script_line_header by done. rewrite fold_left_app.
  erewrite (script_line_content _ _ (Split (chomp _) nl)); [|reflexivity|exact Hc]. cbn [fold_left].
  erewrite script_line_footer; [|reflexivity]. eexists. split; [reflexivity|]. simpl.
  by rewrite (Join_Split _ nl).
Qed.

Lemma fold_render_scripts (ss : list Script) (st : ParseState) :
  Forall (fun s => script_safe s = true) ss -> ps_cur st = None ->
  ps_scripts (fold_left script_line (Split (sconcat (map render_script ss)) nl) st) =
    ps_scripts st ++ map script_entry ss.
Proof.
  intros H. revert st. induction H as [|s ss Hs _ IH]; intros st Hst.
  - simpl. unfold script_line. simpl. by rewrite Hst, app_nil_r.
  - change (sconcat (map render_script (s :: ss))) with (render_script s +:+ sconcat (map render_script ss)).
    destruct (fold_render_script s (sconcat (map render_script ss)) st Hs Hst)
      as (st' & -> & Hc & Hl).
    rewrite IH by done. rewrite Hl, <- app_assoc. done.
Qed.

Lemma parse_scripts_entries (p : ScriptProfile) :
  Forall (fun s => script_safe s = true) (sspec_Scripts (scp_Spec p)) ->
  scfg_Scripts (ParseScripts (renderScripts p)) = map script_entry (sspec_Scripts (scp_Spec p)).
Proof.
  intros H. unfold ParseScripts. cbn [scfg_Scripts].
  rewrite renderScripts_concat. by rewrite fold_render_scripts.
Qed.

(** ** Properties *)

(** C29. Round trip of the scripts file. For scripts whose name and interpreter
    hold no white space and whose content holds no delimiter line, the worker
    reads back every script in order, with the defaulted interpreter and the
    content without its last newline. *)
Theorem parse_scripts_roundtrip (p : ScriptProfile) :
  Forall (fun s => script_safe s = true) (sspec_Scripts (scp_Spec p)) ->
  scfg_Scripts (ParseScripts (renderScripts p)) = map script_entry (sspec_Scripts (scp_Spec p)).
Proof. apply parse_scripts_entries. Qed.

Lemma parse_scripts_roundtrip_witness :
  scfg_Scripts (ParseScripts (renderScripts bootstrap_profile)) =
    [MkScriptEntry "disable-thp" "/bin/sh"
       ("echo always > /sys/kernel/mm/transparent_hugepage/enabled" +:+ nl_string +:+
        "echo always > /sys/kernel/mm/transparent_hugepage/defrag")].
Proof. exact (parse_scripts_roundtrip bootstrap_profile ltac:(repeat constructor)). Defined.

(** A footer line inside a script's content ends the script there: the
    worker runs only the lines before it, and the lines after it are lost
    without an error. *)
Theorem script_truncated_at_footer (p : ScriptProfile) (s : Script) (before after : string) :
  sspec_Scripts (scp_Spec p) = [s] ->
  script_Content s = before +:+ nl_string +:+ scriptFooter +:+ nl_string +:+ after +:+ nl_string ->
  has_space (script_Name s) = false -> has_space (script_Interpreter s) = false ->
  Forall (fun l => content_line l = true) (Split before nl) ->
  Forall (fun l => HasPrefix l scriptHeaderPrefix = false) (Split after nl) ->
  scfg_Scripts (ParseScripts (renderScripts p)) =
    [MkScriptEntry (script_Name s) (script_interpreter s) before].
Proof.
  intros Hs Hcont Hn Hi Hb Ha. unfold ParseScripts. cbn [scfg_Scripts].
  rewrite renderScripts_concat, Hs.
  assert (has_space (script_interpreter s) = false) as Hi'
    by (unfold script_interpreter; by destruct (String.eqb (script_Interpreter s) "")).
  change (sconcat (map render_script [s])) with (render_script s +:+ "").
  rewrite Split_render_script by (by apply header_no_nl). rewrite Hcont.
  replace (before +:+ nl_string +:+ scriptFooter +:+ nl_string +:+ after +:+ nl_string)
    with ((before +:+ String nl (scriptFooter +:+ String nl after)) +:+ nl_string) by by str_norm.
  rewrite chomp_app, Split_app, Split_app_sep by done. cbn [fold_left].
  rewrite script_line_header, fold_left_app by done. rewrite fold_left_app.
  erewrite (script_line_content _ _ (Split before nl)); [|reflexivity|done]. cbn [fold_left].
  erewrite (script_line_footer (MkParseState (Some _) _ _)) by reflexivity.
  rewrite (script_line_skip _ (Split after nl)) by done.
  rewrite (script_line_skip _ (Split "" nl)) by (done || by repeat constructor).
  unfold script_line. cbn [ps_content ps_scripts ps_cur app se_Name se_Interpreter].
  by rewrite (Join_Split before nl : Join _ nl_string = _).
Qed.

Definition footer_script : Script :=
  MkScript "s" ("one" +:+ nl_string +:+ scriptFooter +:+ nl_string +:+ "two" +:+ nl_string) "".

Lemma script_truncated_at_footer_witness :
  scfg_Scripts (ParseScripts (renderScripts (script_profile "p" [footer_script]))) =
  [MkScriptEntry "s" "/bin/sh" "one"].
Proof.
  exact (script_truncated_at_footer (script_profile "p" [footer_script]) footer_script "one" "two"
    eq_refl eq_refl eq_refl eq_refl ltac:(repeat constructor) ltac:(repeat constructor)).
Defined.
