(* ===== verification/WorkerHost.v ===== *)
(** * The node a worker runs on, as an interface.

    The worker reads files and directories, runs other programs and talks HTTP.
    The file system, the kernel behind [/proc/sys], the [sysctl] binary, the
    interpreters and the operator's endpoint are not code of the repository:
    [Host] gives them as operations on an abstract state, without any law: the
    worker's theorems say which programs are run, on what, and how they end, and
    nothing of what they do to the node. Errors are their texts. *)
From Stdlib Require Import Ascii.
From S2P Require Import Prelude GoStrings GoTrim GoJson.

(** An error value, as the text its [Error] method gives. *)
Abbreviation gerror := string (only parsing).

Class Host (H : Type) := {
  (** [os.ReadFile] *)
  host_ReadFile : H -> string -> gerror + string;
  (** [os.ReadDir]: the names of the entries *)
  host_ReadDir : H -> string -> gerror + list string;
  (** [exec.Command(bin, args...)] with the standard input given, run to its
      end by [CombinedOutput]: the new state, the output and the error *)
  host_Exec : H -> string -> list string -> string -> H * (string * option gerror);
}.

(** An HTTP request with its body, and the client that performs it:
    [http.Client.Do] gives a transport error (a malformed URL, a refused
    connection, a timeout) or the status code of the response. *)
Record HttpRequest := MkHttpRequest {
  http_Method : string;
  http_URL : string;
  http_ContentType : string;
  http_Body : string
}.

Class HttpClient (H : Type) := {
  http_Do : H -> HttpRequest -> H * (gerror + Z);
}.
