(* ===== verification/WorkerApply.v ===== *)
(** * Worker: applying and checking sysctls, running scripts
    ([internal/worker/apply.go] and [RunScripts] of [script.go]).

    The loops thread the host's state; [Check] only reads it. *)
From Stdlib Require Import Ascii.
From S2P Require Import Prelude GoStrings GoTrim GoPath WorkerConfig WorkerScript WorkerHost.

(** ** Definitions *)

Definition ifacePlaceholder : string := "{iface}".

Record Result := MkResult {
  res_Applied : list string;
  res_Failed : list string;
  res_Drifted : list string
}.

Definition empty_result : Result := MkResult [] [] [].

Definition add_Applied (s : string) (r : Result) : Result :=
  MkResult (res_Applied r ++ [s]) (res_Failed r) (res_Drifted r).
Definition add_Failed (s : string) (r : Result) : Result :=
  MkResult (res_Applied r) (res_Failed r ++ [s]) (res_Drifted r).
Definition add_Drifted (s : string) (r : Result) : Result :=
  MkResult (res_Applied r) (res_Failed r) (res_Drifted r ++ [s]).

Definition OK (r : Result) : bool :=
  Nat.eqb (length (res_Failed r)) 0 && Nat.eqb (length (res_Drifted r)) 0.

Definition keyToPath (root key : string) : string :=
  path_Join [root; Clean (ReplaceAll key "." slash)].

(** [os.Getenv], for the variables the worker reads. *)
Definition sysctlBinary (env : string -> string) : string :=
  let b := env "SYSCTL_BIN" in if negb (String.eqb b "") then b else "sysctl".

(** The interfaces [expand] leaves out. *)
Definition skip_iface (iface : string) : bool :=
  String.eqb iface "all" || String.eqb iface "default" || String.eqb iface "lo".

Section Worker.

Context {H : Type} {host : Host H}.
Variable env : string -> string.

Definition writeSysctl (h : H) (key value : string) : H * option gerror :=
  let '(h', (out, err)) := host_Exec h (sysctlBinary env) ["-w"; key +:+ "=" +:+ value] "" in
  match err with
  | Some e => (h', Some ("sysctl -w " +:+ key +:+ "=" +:+ value +:+ ": " +:+ e +:+ ": " +:+ TrimSpace out))
  | None => (h', None)
  end.

Definition readSysctl (h : H) (root key : string) : gerror + string :=
  match host_ReadFile h (keyToPath root key) with
  | inl err => inl err
  | inr data => inr (TrimSpace data)
  end.

Definition expand (h : H) (root name : string) : list string :=
  let idx := Index name ifacePlaceholder in
  if idx <? 0 then [name]
  else
    let prefix := TrimRight (str_take (Z.to_nat idx) name) "." in
    let suffix := TrimLeft (str_drop (Z.to_nat idx + String.length ifacePlaceholder) name) "." in
    match host_ReadDir h (keyToPath root prefix) with
    | inl _ => []
    | inr entries =>
        fold_left (fun keys iface =>
            if skip_iface iface then keys
            else keys ++ [prefix +:+ "." +:+ iface +:+ "." +:+ suffix])
          entries []
    end.

(** The body of [Apply]'s inner loop. *)
Definition apply_key (value : string) (st : Result * H) (key : string) : Result * H :=
  let '(res, h) := st in
  let '(h', err) := writeSysctl h key value in
  match err with
  | Some e => (add_Failed (key +:+ ": " +:+ e) res, h')
  | None => (add_Applied key res, h')
  end.

Definition Apply (h : H) (root : string) (entries : list Entry) : Result * H :=
  fold_left (fun st e =>
      fold_left (apply_key (entry_Value e)) (expand (snd st) root (entry_Name e)) st)
    entries (empty_result, h).

(** The body of [Check]'s inner loop. *)
Definition check_key (h : H) (root value : string) (res : Result) (key : string) : Result :=
  match readSysctl h root key with
  | inl err => add_Failed (key +:+ ": " +:+ err) res
  | inr cur =>
      if negb (String.eqb cur value) then
        add_Drifted (key +:+ "=" +:+ cur +:+ " want=" +:+ value) res
      else add_Applied key res
  end.

Definition Check (h : H) (root : string) (entries : list Entry) : Result :=
  fold_left (fun res e =>
      fold_left (check_key h root (entry_Value e)) (expand h root (entry_Name e)) res)
    entries empty_result.

(** The body of [RunScripts]'s loop. *)
Definition run_script (st : Result * H) (s : ScriptEntry) : Result * H :=
  let '(res, h) := st in
  let interp := if String.eqb (se_Interpreter s) "" then "/bin/sh" else se_Interpreter s in
  let '(h', (out, err)) := host_Exec h interp [] (se_Content s) in
  match err with
  | Some e => (add_Failed (se_Name s +:+ ": " +:+ e +:+ ": " +:+ TrimSpace out) res, h')
  | None => (add_Applied (se_Name s) res, h')
  end.

Definition RunScripts (h : H) (scripts : list ScriptEntry) : Result * H :=
  fold_left run_script scripts (empty_result, h).

(** *** The concrete keys of a list of entries *)

Definition targets (h : H) (root : string) (entries : list Entry) : list (string * string) :=
  concat (map (fun e => map (fun key => (key, entry_Value e)) (expand h root (entry_Name e))) entries).

(** *** The commands of a run *)

(** One "sysctl -w" that was run to its end: the key, the value, what it printed
    and the error of the command, if any. *)
Record Write := MkWrite {
  wr_Key : string;
  wr_Value : string;
  wr_Output : string;
  wr_Error : option gerror
}.

Definition succeeded (e : option gerror) : bool := match e with None => true | Some _ => false end.

Definition write_ok (w : Write) : bool := succeeded (wr_Error w).

(** How a failed command is listed. *)
Definition write_failure (w : Write) : string :=
  wr_Key w +:+ ": sysctl -w " +:+ wr_Key w +:+ "=" +:+ wr_Value w +:+ ": " +:+
  default "" (wr_Error w) +:+ ": " +:+ TrimSpace (wr_Output w).

Variable bin : string.

(** One command per key, in order, each on the node that the one before left. *)
Inductive writes (value : string) : H -> list string -> list Write -> H -> Prop :=
| writes_done h : writes value h [] [] h
| writes_key h key keys out err h1 log h' :
    host_Exec h bin ["-w"; key +:+ "=" +:+ value] "" = (h1, (out, err)) ->
    writes value h1 keys log h' ->
    writes value h (key :: keys) (MkWrite key value out err :: log) h'.

(** The entries in order, each with the keys that its name expands to on the node
    as it is when the entry's turn comes. *)
Inductive applies (root : string) : H -> list Entry -> list Write -> H -> Prop :=
| applies_done h : applies root h [] [] h
| applies_entry h e es log1 h1 log2 h' :
    writes (entry_Value e) h (expand h root (entry_Name e)) log1 h1 ->
    applies root h1 es log2 h' ->
    applies root h (e :: es) (log1 ++ log2) h'.

End Worker.

(** ** Lemmas: results *)

Lemma OK_true (r : Result) : OK r = true <-> res_Failed r = [] /\ res_Drifted r = [].
Proof.
  unfold OK. rewrite andb_true_iff, !Nat.eqb_eq.
  by destruct (res_Failed r), (res_Drifted r); split; intros [].
Qed.

Lemma OK_add_Applied (r : Result) (s : string) : OK (add_Applied s r) = OK r.
Proof. reflexivity. Qed.

Lemma OK_add_Failed (r : Result) (s : string) : OK (add_Failed s r) = false.
Proof.
  apply not_true_iff_false. rewrite OK_true. simpl. intros [[_ ?]%app_eq_nil _]. done.
Qed.

Lemma OK_add_Drifted (r : Result) (s : string) : OK (add_Drifted s r) = false.
Proof.
  apply not_true_iff_false. rewrite OK_true. simpl. intros [_ [_ ?]%app_eq_nil]. done.
Qed.

(** ** Lemmas: expansion *)

Section WorkerLemmas.

Context {H : Type} {host : Host H}.
Variable env : string -> string.

Lemma expand_no_placeholder (h : H) (root name : string) :
  index_nat name ifacePlaceholder = None -> expand h root name = [name].
Proof. intros E. unfold expand, Index. by rewrite E. Qed.

Lemma fold_expand (prefix suffix : string) (entries keys : list string) :
  fold_left (fun keys iface =>
      if skip_iface iface then keys else keys ++ [prefix +:+ "." +:+ iface +:+ "." +:+ suffix])
    entries keys =
  keys ++ map (fun iface => prefix +:+ "." +:+ iface +:+ "." +:+ suffix)
            (List.filter (fun iface => negb (skip_iface iface)) entries).
Proof.
  revert keys. induction entries as [|i ifs IH]; intros keys; simpl; [by rewrite app_nil_r|].
  destruct (skip_iface i); rewrite IH; [done|]. simpl. by rewrite <- app_assoc.
Qed.

(** The keys of a name. Without the placeholder, the name itself; with it,
    one key for every directory entry but those it skips, in
    directory order, and none at all when the directory cannot be read. *)
Lemma expand_keys (h : H) (root name : string) :
  expand h root name =
    match index_nat name ifacePlaceholder with
    | None => [name]
    | Some i =>
        let prefix := TrimRight (str_take i name) "." in
        let suffix := TrimLeft (str_drop (i + 7) name) "." in
        match host_ReadDir h (keyToPath root prefix) with
        | inl _ => []
        | inr entries =>
            map (fun iface => prefix +:+ "." +:+ iface +:+ "." +:+ suffix)
              (List.filter (fun iface => negb (skip_iface iface)) entries)
        end
    end.
Proof.
  unfold expand, Index. destruct (index_nat name ifacePlaceholder) as [i|]; [|done].
  rewrite (proj2 (Z.ltb_ge _ _)) by lia. rewrite Nat2Z.id. cbn zeta.
  change (String.length ifacePlaceholder) with 7%nat.
  destruct (host_ReadDir h _); [done|]. by rewrite fold_expand.
Qed.

Lemma targets_cons (h : H) (root : string) (e : Entry) (es : list Entry) :
  targets h root (e :: es) =
    map (fun key => (key, entry_Value e)) (expand h root (entry_Name e)) ++ targets h root es.
Proof. reflexivity. Qed.

(** ** Lemmas: Check *)

Lemma check_fold (h : H) (root : string) (entries : list Entry) (res : Result) :
  fold_left (fun res e =>
      fold_left (check_key h root (entry_Value e)) (expand h root (entry_Name e)) res) entries res =
  fold_left (fun res t => check_key h root (snd t) res (fst t)) (targets h root entries) res.
Proof.
  revert res. induction entries as [|e es IH]; intros res; [done|].
  rewrite targets_cons, fold_left_app. cbn [fold_left]. rewrite IH. f_equal.
  generalize (expand h root (entry_Name e)) as keys. intros keys. clear IH. revert res.
  induction keys as [|k ks IHk]; intros res; [done|]. cbn [fold_left map]. apply IHk.
Qed.

Lemma check_key_OK (h : H) (root value key : string) (res : Result) :
  OK (check_key h root value res key) = true <-> OK res = true /\ readSysctl h root key = inr value.
Proof.
  unfold check_key. destruct (readSysctl h root key) as [err|cur].
  - rewrite OK_add_Failed. split; [done|]. by intros [_ ?].
  - destruct (String.eqb_spec cur value) as [->|Hne]; simpl.
    + rewrite OK_add_Applied. split; [by intros|by intros []].
    + rewrite OK_add_Drifted. split; [done|]. by intros [_ [= ->]].
Qed.

Lemma check_fold_not_OK (h : H) (root : string) (ts : list (string * string)) (res : Result) :
  OK res = false ->
  OK (fold_left (fun res t => check_key h root (snd t) res (fst t)) ts res) = false.
Proof.
  revert res. induction ts as [|t ts IH]; intros res Hr; [done|]. cbn [fold_left]. apply IH.
  apply not_true_iff_false. rewrite check_key_OK. intros [? _]. congruence.
Qed.

Lemma Check_targets_OK (h : H) (root : string) (entries : list Entry) :
  OK (Check h root entries) = true <->
  Forall (fun t => readSysctl h root (fst t) = inr (snd t)) (targets h root entries).
Proof.
  unfold Check. rewrite check_fold. assert (OK empty_result = true) as H0 by done. revert H0.
  generalize empty_result as res. induction (targets h root entries) as [|t ts IH]; intros res H0.
  - by split; [constructor|].
  - cbn [fold_left]. rewrite List.Forall_cons_iff. split.
    + intros E. destruct (OK (check_key h root (snd t) res (fst t))) eqn:Et.
      * split; [|exact (proj1 (IH _ Et) E)]. by apply check_key_OK in Et as [].
      * by rewrite check_fold_not_OK in E.
    + intros [Et Ets]. apply IH; [|done]. by apply check_key_OK.
Qed.

(** ** Lemmas: Apply *)

(** A result with the outcomes of some commands added. *)
Definition add_log (res : Result) (log : list Write) : Result :=
  MkResult (res_Applied res ++ map wr_Key (List.filter write_ok log))
    (res_Failed res ++ map write_failure (List.filter (fun w => negb (write_ok w)) log))
    (res_Drifted res).

Lemma add_log_app (res : Result) (log1 log2 : list Write) :
  add_log res (log1 ++ log2) = add_log (add_log res log1) log2.
Proof. unfold add_log. cbn [res_Applied res_Failed res_Drifted]. by rewrite !List.filter_app, !map_app, !app_assoc. Qed.

Lemma add_log_nil (res : Result) : add_log res [] = res.
Proof. destruct res. unfold add_log. simpl. by rewrite !app_nil_r. Qed.

Lemma apply_key_log (value key : string) (res : Result) (h h1 : H) out err :
  host_Exec h (sysctlBinary env) ["-w"; key +:+ "=" +:+ value] "" = (h1, (out, err)) ->
  apply_key env value (res, h) key = (add_log res [MkWrite key value out err], h1).
Proof.
  intros E. unfold apply_key, writeSysctl. rewrite E.
  by destruct err as [e|], res; unfold add_log, add_Applied, add_Failed; simpl; rewrite app_nil_r.
Qed.

Lemma apply_keys_log (value : string) (keys : list string) (res : Result) (h : H) :
  exists log h', writes (sysctlBinary env) value h keys log h' /\
    fold_left (apply_key env value) keys (res, h) = (add_log res log, h').
Proof.
  revert res h. induction keys as [|key keys IH]; intros res h.
  - exists [], h. split; [constructor|]. by rewrite add_log_nil.
  - destruct (host_Exec h (sysctlBinary env) ["-w"; key +:+ "=" +:+ value] "") as [h1 [out err]] eqn:E.
    cbn [fold_left]. rewrite (apply_key_log _ _ _ _ _ _ _ E).
    destruct (IH (add_log res [MkWrite key value out err]) h1) as (log & h' & Hw & ->).
    exists (MkWrite key value out err :: log), h'. split; [by econstructor|].
    by rewrite <- add_log_app.
Qed.

(** The loops of [Apply] run the commands and list their outcomes. *)
Lemma Apply_log (root : string) (h : H) (entries : list Entry) :
  exists log h', applies (sysctlBinary env) root h entries log h' /\
    Apply env h root entries = (add_log empty_result log, h').
Proof.
  unfold Apply. generalize empty_result as res. revert h.
  induction entries as [|e es IH]; intros h res.
  - exists [], h. split; [constructor|]. by rewrite add_log_nil.
  - cbn [fold_left snd].
    destruct (apply_keys_log (entry_Value e) (expand h root (entry_Name e)) res h) as (log1 & h1 & H1 & ->).
    destruct (IH h1 (add_log res log1)) as (log2 & h' & H2 & ->).
    exists (log1 ++ log2), h'. split; [by econstructor|]. by rewrite add_log_app.
Qed.

Lemma filter_not_ok_nil (log : list Write) :
  List.filter (fun w => negb (write_ok w)) log = [] <-> Forall (fun w => wr_Error w = None) log.
Proof.
  induction log as [|w log IH]; [done|]. rewrite List.Forall_cons_iff, <- IH. cbn [List.filter].
  unfold write_ok at 1. destruct (wr_Error w); cbn; [|by intuition]. split; [done|by intros []].
Qed.

Lemma OK_add_log (log : list Write) :
  OK (add_log empty_result log) = true <-> Forall (fun w => wr_Error w = None) log.
Proof.
  rewrite OK_true, <- filter_not_ok_nil. cbn [add_log empty_result res_Failed res_Drifted app].
  split; [by intros [?%map_eq_nil _]|]. by intros ->.
Qed.

(** The run is determined by the node it starts on. *)
Lemma writes_functional (value bin : string) (h : H) keys log1 h1 log2 h2 :
  writes bin value h keys log1 h1 -> writes bin value h keys log2 h2 -> log1 = log2 /\ h1 = h2.
Proof.
  intros H1. revert log2 h2. induction H1 as [h|h key keys out err h' log h1 E _ IH]; intros log2 h2 H2;
    inversion H2 as [|???????? E2 H2']; subst; [done|].
  rewrite E in E2. injection E2 as <- <- <-. by destruct (IH _ _ H2') as [-> ->].
Qed.

Lemma applies_functional (root bin : string) (h : H) entries log1 h1 log2 h2 :
  applies bin root h entries log1 h1 -> applies bin root h entries log2 h2 -> log1 = log2 /\ h1 = h2.
Proof.
  intros H1. revert log2 h2. induction H1 as [h|h e es l1 h' l2 h1 Hw _ IH]; intros log2 h2 H2;
    inversion H2 as [|??????? Hw2 H2']; subst; [done|].
  destruct (writes_functional _ _ _ _ _ _ _ _ Hw Hw2) as [-> ->]. by destruct (IH _ _ H2') as [-> ->].
Qed.

(** A key that some entry expands to all the way through has its command in the log. *)
Lemma writes_keys (value bin : string) (h h' : H) keys log :
  writes bin value h keys log h' -> map (fun w => (wr_Key w, wr_Value w)) log = map (fun k => (k, value)) keys.
Proof. induction 1 as [|???????? _ _ IH]; [done|]. cbn [map wr_Key wr_Value]. by rewrite IH. Qed.

(** An entry whose name is a plain key has its command in the log. *)
Lemma applies_plain (root bin : string) (h h' : H) entries log e :
  applies bin root h entries log h' -> In e entries -> index_nat (entry_Name e) ifacePlaceholder = None ->
  In (entry_Name e, entry_Value e) (map (fun w => (wr_Key w, wr_Value w)) log).
Proof.
  intros Ha Hin Hp. induction Ha as [|h e' es l1 h1 l2 h' Hw _ IH]; [done|].
  rewrite map_app, in_app_iff. destruct Hin as [->|Hin]; [left|right; by apply IH].
  rewrite (writes_keys _ _ _ _ _ _ Hw), expand_no_placeholder by done. by left.
Qed.

End WorkerLemmas.

(** ** Lemmas: scripts *)

Section Scripts.

Context {H : Type} {host : Host H}.

Definition exec_script (h : H) (s : ScriptEntry) : H * (string * option gerror) :=
  host_Exec h (if String.eqb (se_Interpreter s) "" then "/bin/sh" else se_Interpreter s) [] (se_Content s).

(** The error each script ends with, run one after the other from [h]. *)
Fixpoint script_errors (h : H) (scripts : list ScriptEntry) : list (option gerror) :=
  match scripts with
  | [] => []
  | s :: ss => snd (snd (exec_script h s)) :: script_errors (fst (exec_script h s)) ss
  end.

Lemma run_script_step (res : Result) (h : H) (s : ScriptEntry) :
  run_script (res, h) s =
    (match snd (snd (exec_script h s)) with
     | Some e => add_Failed (se_Name s +:+ ": " +:+ e +:+ ": " +:+ TrimSpace (fst (snd (exec_script h s)))) res
     | None => add_Applied (se_Name s) res
     end, fst (exec_script h s)).
Proof. unfold run_script, exec_script. by destruct (host_Exec _ _ _ _) as [h' [out []]]. Qed.

Lemma run_scripts_from (h : H) (scripts : list ScriptEntry) (res : Result) :
  let r := fold_left run_script scripts (res, h) in
  let outcomes := combine scripts (script_errors h scripts) in
  snd r = fold_left (fun h s => fst (exec_script h s)) scripts h /\
  res_Applied (fst r) =
    res_Applied res ++ map (fun o => se_Name (fst o)) (List.filter (fun o => succeeded (snd o)) outcomes) /\
  length (res_Failed (fst r)) =
    (length (res_Failed res) + length (List.filter (fun o => negb (succeeded (snd o))) outcomes))%nat /\
  (OK (fst r) = true <-> OK res = true /\ Forall (fun e => e = None) (script_errors h scripts)).
Proof.
  revert h res. induction scripts as [|s ss IH]; intros h res; cbn zeta.
  - simpl. rewrite app_nil_r. split_and!; [done..|lia|]. split; [by split|by intros []].
  - cbn [fold_left script_errors combine List.filter]. rewrite run_script_step.
    specialize (IH (fst (exec_script h s))). destruct (snd (snd (exec_script h s))) as [e|] eqn:E.
    + destruct (IH (add_Failed (se_Name s +:+ ": " +:+ e +:+ ": " +:+ TrimSpace (fst (snd (exec_script h s)))) res))
        as (H1 & H2 & H3 & H4). rewrite H1, H2, H3, H4, OK_add_Failed, List.Forall_cons_iff.
      simpl. rewrite length_app. simpl. split_and!; [done..|lia|]. split; [by intros []|by intros (? & ? & ?)].
    + destruct (IH (add_Applied (se_Name s) res)) as (H1 & H2 & H3 & H4).
      rewrite H1, H2, H3, H4, OK_add_Applied, List.Forall_cons_iff. simpl. rewrite <- app_assoc.
      split_and!; [done..|]. split; intros; intuition.
Qed.

End Scripts.

(** ** Lemmas: paths *)

(** The path components that a dotted key names: a notion of the statements, not of the
    code. *)
Definition key_components (key : string) : list string := components (ReplaceAll key "." slash).

Lemma slash_not_dot : "."%char <> slash.
Proof. done. Qed.

Lemma key_components_app (s t : string) :
  key_components (s +:+ String "." t) = key_components s ++ key_components t.
Proof. unfold key_components. rewrite ReplaceAll_app. apply components_app. Qed.

Lemma components_single (s : string) :
  s <> "" -> has_byte slash s = false -> components s = [s].
Proof.
  intros Hne Hs. unfold components. rewrite Split_no_sep by done. simpl.
  by destruct (String.eqb_spec s "").
Qed.

Lemma keyToPath_components (root key : string) :
  root <> "" ->
  keyToPath root key =
    render_path (rooted root) (rev (clean_stack (rooted root) root) ++ key_components key).
Proof. intros Hr. apply path_Join_Clean; [done|]. by apply has_byte_ReplaceAll. Qed.

Lemma keyToPath_Clean (root key : string) : root <> "" ->
  keyToPath root key = Clean (root +:+ String slash (Clean (ReplaceAll key "." slash))).
Proof. intros Hr%String.eqb_neq. unfold keyToPath. cbn [path_Join]. by rewrite Hr. Qed.

Lemma key_stack (root key : string) :
  clean_stack (rooted root) (root +:+ String slash (Clean (ReplaceAll key "." slash))) =
    rev (key_components key) ++ clean_stack (rooted root) root.
Proof.
  unfold clean_stack at 1. rewrite Split_app, fold_left_app.
  apply clean_stack_Clean. by apply has_byte_ReplaceAll.
Qed.

Lemma joined_not_empty (s t : string) : s +:+ String slash t <> "".
Proof. by intros [_ ?]%sapp_eq_nil. Qed.

(** Only an interface without dots is one component of a key. *)
Lemma key_components_single (iface : string) : iface <> "" -> has_byte slash iface = false ->
  key_components iface = [iface] <-> has_byte "." iface = false.
Proof.
  intros Hne Hs. split.
  - intros E. assert (In iface (key_components iface)) as Hin by (rewrite E; by left).
    pose proof (components_safe _ (has_byte_ReplaceAll iface "." slash slash_not_dot)) as Hall.
    rewrite List.Forall_forall in Hall. by apply Hall.
  - intros Hdot. unfold key_components. rewrite (ReplaceAll_id iface) by done. by apply components_single.
Qed.

(** The file of a key, and the path of a suffix under an entry of the directory of a
    prefix, compared. *)
Lemma interface_path_iff (root prefix iface suffix : string) :
  root <> "" -> ~ In iface [""; "."; ".."] -> has_byte slash iface = false ->
  keyToPath root (prefix +:+ String "." (iface +:+ String "." suffix)) =
    path_Join [keyToPath root prefix; iface; ReplaceAll suffix "." slash] <->
  has_byte "." iface = false.
Proof.
  intros Hr Hd Hs. set (dir := keyToPath root prefix). pose proof joined_not_empty as Hne.
  destruct (Clean_stack (root +:+ String slash (Clean (ReplaceAll prefix "." slash))) (Hne _ _)) as [Hdr Hds].
  rewrite rooted_app in Hdr, Hds by done. rewrite <- keyToPath_Clean in Hdr, Hds by done.
  fold dir in Hdr, Hds. rewrite key_stack in Hds.
  assert (Hdne : dir <> "") by (unfold dir; rewrite keyToPath_Clean by done; apply Clean_not_empty).
  rewrite keyToPath_Clean by done.
  assert (path_Join [dir; iface; ReplaceAll suffix "." slash] =
    Clean (dir +:+ String slash (iface +:+ String slash (ReplaceAll suffix "." slash)))) as ->.
  { cbn [path_Join]. apply String.eqb_neq in Hdne. by rewrite Hdne. }
  rewrite Clean_inj by (rewrite ?rooted_app by done; done). rewrite rooted_app, key_stack by done.
  unfold clean_stack at 2. rewrite Split_app, fold_left_app. fold (clean_stack (rooted root) dir).
  rewrite Hds, Split_app, fold_left_app, (Split_no_sep iface) by done. cbn [fold_left].
  rewrite (clean_fold_no_dots _ _ (Split (ReplaceAll suffix "." slash) slash))
    by (apply Split_has_byte; by apply has_byte_ReplaceAll).
  fold (components (ReplaceAll suffix "." slash)). fold (key_components suffix).
  unfold clean_step. cbn [In] in Hd.
  destruct (String.eqb_spec iface ""), (String.eqb_spec iface "."), (String.eqb_spec iface "..");
    try (exfalso; apply Hd; by subst; auto).
  cbn [orb]. rewrite !key_components_app, !rev_app_distr, <- !app_assoc.
  rewrite <- (key_components_single iface) by done. split.
  - intros E%app_inv_head. change (iface :: ?l) with ([iface] ++ l) in E. apply app_inv_tail in E.
    by rewrite <- (rev_involutive (key_components iface)), E.
  - by intros ->.
Qed.

(** ** Properties *)

(** C38. No escape from the proc root. Whatever bytes a key holds, its file is
    the cleaned root followed by components that are non-empty and hold neither
    a slash nor a dot: no "..", no absolute path, leaves the sysctl tree. *)
Theorem keyToPath_confined (root key : string) (H : root <> "") :
  keyToPath root key =
    render_path (rooted root) (rev (clean_stack (rooted root) root) ++ key_components key) /\
  Forall safe_component (key_components key).
Proof.
  split; [by apply keyToPath_components|].
  by apply components_safe, has_byte_ReplaceAll.
Qed.

(** C39. An expanded key addresses the interface's own entry of the directory that
    was read exactly when the interface's name holds no dot. For every entry that
    [expand] does not skip (a directory entry's name is not empty, holds no slash and
    is neither "." nor ".."), the key it makes of it is sent by [keyToPath] to the
    path of the suffix under that entry if the name has no dot, and to another path
    if it has one: a VLAN interface such as "eth0.100" is split into two components. *)
Theorem expand_key_path_iff {H : Type} {host : Host H} (h : H) (root name iface : string) i entries
    (Hroot : root <> "")
    (Hname : index_nat name ifacePlaceholder = Some i) :
  let prefix := TrimRight (str_take i name) "." in
  let suffix := TrimLeft (str_drop (i + 7) name) "." in
  host_ReadDir h (keyToPath root prefix) = inr entries ->
  In iface entries -> ~ In iface ["all"; "default"; "lo"] ->
  ~ In iface [""; "."; ".."] -> has_byte slash iface = false ->
  exists key, In key (expand h root name) /\ key = prefix +:+ "." +:+ iface +:+ "." +:+ suffix /\
    (keyToPath root key = path_Join [keyToPath root prefix; iface; ReplaceAll suffix "." slash] <->
     has_byte "." iface = false).
Proof.
  intros prefix suffix Hdir Hin Hskip Hdots Hslash.
  exists (prefix +:+ "." +:+ iface +:+ "." +:+ suffix). split; [|split; [done|]].
  - rewrite expand_keys, Hname. fold prefix suffix. cbn zeta. rewrite Hdir.
    apply (in_map (fun iface => prefix +:+ "." +:+ iface +:+ "." +:+ suffix)), filter_In. split; [done|].
    apply negb_true_iff. unfold skip_iface. rewrite !orb_false_iff, !String.eqb_neq.
    simpl in Hskip. repeat split; intros ->; tauto.
  - change (prefix +:+ "." +:+ iface +:+ "." +:+ suffix) with
      (prefix +:+ String "." (iface +:+ String "." suffix)).
    by apply interface_path_iff.
Qed.

(** The drift check succeeds exactly when every concrete key reads back,
    trimmed, as its desired value; a failed read or a different value fails it. *)
Theorem check_ok_iff {H : Type} {host : Host H} (h : H) (root : string) (entries : list Entry) :
  OK (Check h root entries) = true <->
  (forall e key, In e entries -> In key (expand h root (entry_Name e)) ->
     readSysctl h root key = inr (entry_Value e)).
Proof.
  rewrite Check_targets_OK, List.Forall_forall. unfold targets. split.
  - intros Hall e key He Hk. apply (Hall (key, entry_Value e)). apply in_concat.
    exists (map (fun k => (k, entry_Value e)) (expand h root (entry_Name e))). split.
    + by apply (in_map (fun e => map (fun k => (k, entry_Value e)) (expand h root (entry_Name e)))).
    + by apply (in_map (fun k => (k, entry_Value e))).
  - intros Hall t (l & (e & <- & He)%in_map_iff & (k & <- & Hk)%in_map_iff)%in_concat.
    by apply Hall.
Qed.

(** C25. [Apply] runs every command and reports each one truly. For the entries in
    order, and for each the keys that its name expands to when its turn comes, it
    runs one "sysctl -w key=value" per key, on the node that the one before left,
    whatever fails; it lists exactly the keys whose command ended without an error as
    applied, the others with the error and the output as failed, in order, and is OK
    exactly if no command failed. What the command does to the kernel is not assumed:
    [Apply] reads nothing back. *)
Theorem apply_runs_all {H : Type} {host : Host H} (env : string -> string) (h : H) (root : string)
    (entries : list Entry) :
  let res := fst (Apply env h root entries) in
  exists log, applies (sysctlBinary env) root h entries log (snd (Apply env h root entries)) /\
    res_Applied res = map wr_Key (List.filter (fun w => succeeded (wr_Error w)) log) /\
    res_Failed res = map write_failure (List.filter (fun w => negb (succeeded (wr_Error w))) log) /\
    res_Drifted res = [] /\
    (OK res = true <-> Forall (fun w => wr_Error w = None) log).
Proof.
  destruct (Apply_log env root h entries) as (log & h' & Ha & ->). exists log. split; [done|].
  do 3 (split; [done|]). apply OK_add_log.
Qed.

(** An entry with the placeholder whose directory cannot be read is skipped without
    a trace: no command is run for it, and the run is OK. *)
Theorem unreadable_interfaces_skipped {H : Type} {host : Host H} (env : string -> string) (h : H)
    (root name value : string) i err :
  index_nat name ifacePlaceholder = Some i ->
  host_ReadDir h (keyToPath root (TrimRight (str_take i name) ".")) = inl err ->
  Apply env h root [MkEntry name value] = (empty_result, h).
Proof.
  intros Hi Hd. unfold Apply. cbn [fold_left snd entry_Name]. rewrite expand_keys, Hi. cbn zeta. by rewrite Hd.
Qed.

(** Scripts run to the end of the list. Every script is run, in order, in
    the state the one before left, whatever fails; the names recorded as applied
    are those of the scripts that succeeded, every other script is recorded as
    failed, and the run is OK exactly when all succeeded. *)
Theorem run_scripts_all {H : Type} {host : Host H} (h : H) (scripts : list ScriptEntry) :
  let r := RunScripts h scripts in
  let outcomes := combine scripts (script_errors h scripts) in
  snd r = fold_left (fun h s => fst (exec_script h s)) scripts h /\
  res_Applied (fst r) = map (fun o => se_Name (fst o)) (List.filter (fun o => succeeded (snd o)) outcomes) /\
  length (res_Failed (fst r)) = length (List.filter (fun o => negb (succeeded (snd o))) outcomes) /\
  (OK (fst r) = true <-> Forall (fun e => e = None) (script_errors h scripts)).
Proof.
  cbn zeta. pose proof (run_scripts_from h scripts empty_result) as (H1 & H2 & H3 & H4).
  unfold RunScripts. rewrite H1, H2, H3, H4. split_and!; try done. by split; [intros []|].
Qed.
