(* ===== verification/WorkerSim.v ===== *)
(** * A simulated node, for the witnesses.

    Files and directories are maps; "-w key=value" writes the file the key names
    when it exists; any other command fails when its input is "exit 1". Posts
    are recorded and answered with 200. *)
From Stdlib Require Import Ascii.
From S2P Require Import Prelude GoStrings GoTrim GoPath GoJson WorkerConfig WorkerHost WorkerApply.

Record Mem := MkMem {
  mem_files : gmap string string;
  mem_dirs : gmap string (list string);
  mem_posts : list HttpRequest
}.

Definition mem_ReadFile (h : Mem) (path : string) : gerror + string :=
  match mem_files h !! path with Some d => inr d | None => inl ("open " +:+ path +:+ ": no such file") end.

Definition mem_ReadDir (h : Mem) (path : string) : gerror + list string :=
  match mem_dirs h !! path with Some d => inr d | None => inl ("open " +:+ path +:+ ": no such directory") end.

Definition mem_write (root : string) (h : Mem) (arg : string) : Mem * (string * option gerror) :=
  let '(key, value, ok) := Cut arg "=" in
  match mem_files h !! keyToPath root key with
  | Some _ =>
      (MkMem (<[keyToPath root key := value +:+ nl_string]> (mem_files h)) (mem_dirs h) (mem_posts h),
       (arg, None))
  | None => (h, ("sysctl: cannot stat", Some "exit status 255"))
  end.

Definition mem_Exec (root : string) (h : Mem) (bin : string) (args : list string) (stdin : string) :
    Mem * (string * option gerror) :=
  match args with
  | [_; arg] => mem_write root h arg
  | _ => if String.eqb stdin "exit 1" then (h, ("", Some "exit status 1")) else (h, ("done", None))
  end.

Definition mem_Do (h : Mem) (req : HttpRequest) : Mem * (gerror + Z) :=
  (MkMem (mem_files h) (mem_dirs h) (mem_posts h ++ [req]), inr 200).

Section Sim.

Variable root : string.

#[export] Instance MemHost : Host Mem := {|
  host_ReadFile := mem_ReadFile;
  host_ReadDir := mem_ReadDir;
  host_Exec := mem_Exec root
|}.

End Sim.

#[export] Instance MemClient : HttpClient Mem := {| http_Do := mem_Do |}.

(** ** A node with two plain keys and one interface *)

Definition mem_node : Mem := MkMem
  {["/proc/sys/net/core/somaxconn" := "128" +:+ nl_string;
    "/proc/sys/net/ipv4/tcp_congestion_control" := "cubic" +:+ nl_string;
    "/proc/sys/net/ipv4/conf/eth0/rp_filter" := "2" +:+ nl_string]}
  {["/proc/sys/net/ipv4/conf" := ["all"; "default"; "eth0"; "lo"]]} [].

Definition mem_entries : list Entry := [
  MkEntry "net.core.somaxconn" "65535";
  MkEntry "net.ipv4.tcp_congestion_control" "bbr";
  MkEntry "net.ipv4.conf.{iface}.rp_filter" "0" ].

Definition no_env : string -> string := fun _ => "".

(** ** Witnesses *)

Lemma keyToPath_confined_witness :
  "/proc/sys" <> "" /\
  keyToPath "/proc/sys" "../../etc/passwd" = "/proc/sys/etc/passwd" /\
  Forall safe_component (key_components "../../etc/passwd").
Proof.
  split; [discriminate|].
  destruct (keyToPath_confined "/proc/sys" "../../etc/passwd" ltac:(discriminate)) as [E1 E2].
  split; [|exact E2]. rewrite E1. reflexivity.
Defined.

(** A node with a VLAN interface: the key that is made for it names another file. *)
Definition vlan_node : Mem := MkMem ∅ {["/proc/sys/net/ipv4/conf" := ["all"; "eth0"; "eth0.100"]]} [].

Lemma expand_key_path_iff_witness :
  let host := MemHost "/proc/sys" in
  In "net.ipv4.conf.eth0.100.rp_filter" (expand vlan_node "/proc/sys" "net.ipv4.conf.{iface}.rp_filter") /\
  keyToPath "/proc/sys" "net.ipv4.conf.eth0.100.rp_filter" <>
    path_Join ["/proc/sys/net/ipv4/conf"; "eth0.100"; "rp_filter"].
Proof.
  intros host.
  destruct (expand_key_path_iff vlan_node "/proc/sys" "net.ipv4.conf.{iface}.rp_filter" "eth0.100" 14
    ["all"; "eth0"; "eth0.100"]) as (key & Hin & -> & Hiff).
  - discriminate.
  - reflexivity.
  - vm_compute. reflexivity.
  - right. right. left. reflexivity.
  - intros [H|[H|[H|[]]]]; discriminate H.
  - intros [H|[H|[H|[]]]]; discriminate H.
  - reflexivity.
  - split; [exact Hin|]. intros E. apply (proj1 Hiff) in E. discriminate E.
Defined.

(** A key that this node does not have is listed as failed, and the rest is applied. *)
Example apply_lists :
  let host := MemHost "/proc/sys" in
  let res := fst (Apply no_env mem_node "/proc/sys" (MkEntry "net.no.such" "1" :: mem_entries)) in
  (res_Applied res, res_Failed res, OK res) =
  (["net.core.somaxconn"; "net.ipv4.tcp_congestion_control"; "net.ipv4.conf.eth0.rp_filter"],
   ["net.no.such: sysctl -w net.no.such=1: exit status 255: sysctl: cannot stat"], false).
Proof. vm_compute. reflexivity. Qed.
