(* ===== verification/WorkerMain.v ===== *)
(** * Worker: reporting and the main program
    ([internal/worker/report.go] and [cmd/worker/main.go]).

    [main] as a function of the environment, the command-line flags and the
    host: how it ends, and the host's state then. *)
From Stdlib Require Import Ascii.
From stdpp Require Import pretty.
From S2P Require Import Prelude GoStrings GoTrim GoHash GoJson JsonText Api Samples Render.
From S2P Require Import WorkerConfig WorkerScript WorkerHost WorkerApply WorkerSim.

(** ** Reports *)

Record Report := MkReport {
  rep_Profile : string;
  rep_Namespace : string;
  rep_Kind : string;
  rep_Node : string;
  rep_Pod : string;
  rep_Hash : string;
  rep_Success : bool;
  rep_Applied : list string;
  rep_Failed : list string;
  rep_Message : string
}.

(** A struct field with [omitempty] is left out when it is the zero value. *)
Definition string_field (name value : string) : list (string * json) :=
  [(name, JString value)].
Definition string_omitempty (name value : string) : list (string * json) :=
  if String.eqb value "" then [] else string_field name value.
Definition strings_omitempty (name : string) (l : list string) : list (string * json) :=
  match l with [] => [] | _ => [(name, JArray (map JString l))] end.

(** The document of a report, by the struct's tags and in its order. *)
Definition report_json (rep : Report) : json :=
  JObject (
    string_field "profile" (rep_Profile rep) ++
    string_field "namespace" (rep_Namespace rep) ++
    string_omitempty "kind" (rep_Kind rep) ++
    string_field "node" (rep_Node rep) ++
    string_omitempty "pod" (rep_Pod rep) ++
    string_omitempty "hash" (rep_Hash rep) ++
    [("success", JBool (rep_Success rep))] ++
    strings_omitempty "applied" (rep_Applied rep) ++
    strings_omitempty "failed" (rep_Failed rep) ++
    string_omitempty "message" (rep_Message rep)).

(** [json.Marshal(rep)] *)
Definition Marshal (rep : Report) : string := encode (report_json rep).

Record Reporter := MkReporter { reporter_URL : string }.

Definition NewReporter (url : string) : Reporter := MkReporter url.

(** The request [Send] makes. *)
Definition report_request (r : Reporter) (rep : Report) : HttpRequest :=
  MkHttpRequest "POST" (reporter_URL r) "application/json" (Marshal rep).

(** ** The main program *)

Definition modeApply : string := "apply".
Definition modeCheck : string := "check".
Definition modeScript : string := "script".

(** The calls of [log.Fatalf], each with what its message holds. *)
Inductive FatalReason :=
| LoadFailed (path : string) (err : gerror)
| LoadScriptsFailed (path : string) (err : gerror)
| HashMismatch (mounted expected : string)
| UnknownMode (mode : string).

(** How the process ends: [log.Fatalf], a return from [main], or blocked until
    SIGINT or SIGTERM arrives. *)
Inductive Exit :=
| Fatal (reason : FatalReason)
| Returned
| AwaitSignal.

(** The values given on the command line, if any. *)
Record Flags := MkFlags {
  flag_mode : option string;
  flag_config : option string;
  flag_proc_root : option string
}.

Definition no_flags : Flags := MkFlags None None None.

Definition getenv (env : string -> string) (key def : string) : string :=
  let v := env key in if negb (String.eqb v "") then v else def.

Definition summarize (verb : string) (res : Result) : string :=
  verb +:+ " " +:+ pretty (N.of_nat (length (res_Applied res))) +:+ " ok, " +:+
  pretty (N.of_nat (length (res_Failed res))) +:+ " failed, " +:+
  pretty (N.of_nat (length (res_Drifted res))) +:+ " drifted".

(** [verifyHash]: the fatal error, if it stops the process. *)
Definition verifyHash (got expected : string) : option FatalReason :=
  if negb (String.eqb expected "") && negb (String.eqb got expected) then Some (HashMismatch got expected)
  else None.

Section Main.

Context {H : Type} {host : Host H} {client : HttpClient H}.

Definition Load (h : H) (path : string) : gerror + Config :=
  match host_ReadFile h path with inl err => inl err | inr data => inr (Parse data) end.

Definition LoadScripts (h : H) (path : string) : gerror + ScriptConfig :=
  match host_ReadFile h path with inl err => inl err | inr data => inr (ParseScripts data) end.

(** The error of [Send], if any. *)
Definition Send (h : H) (r : Reporter) (rep : Report) : H * option gerror :=
  let '(h', resp) := http_Do h (report_request r rep) in
  match resp with
  | inl err => (h', Some err)
  | inr status =>
      if negb (status =? 200) then (h', Some ("report rejected: status " +:+ pretty status))
      else (h', None)
  end.

Definition sendReport (h : H) (url : string) (rep : Report) : H :=
  if String.eqb url "" then h else fst (Send h (NewReporter url) rep).

(** [rep] with the outcome of a run. *)
Definition outcome (rep : Report) (kind hash : string) (success : bool) (applied failed : list string)
    (message : string) : Report :=
  MkReport (rep_Profile rep) (rep_Namespace rep) kind (rep_Node rep) (rep_Pod rep) hash success
    applied failed message.

(** The [switch] on the mode: a fatal error, or the report to send. *)
Definition run_mode (env : string -> string) (h : H) (mode configPath procRoot : string) (rep : Report) :
    FatalReason + Report * H :=
  let expected := env "CONFIG_HASH" in
  if String.eqb mode modeApply || String.eqb mode modeCheck then
    match Load h configPath with
    | inl err => inl (LoadFailed configPath err)
    | inr cfg =>
        match verifyHash (cfg_Hash cfg) expected with
        | Some reason => inl reason
        | None =>
            if String.eqb mode modeApply then
              let '(res, h') := Apply env h procRoot (cfg_Entries cfg) in
              inr (outcome rep "" (cfg_Hash cfg) (OK res) (res_Applied res) (res_Failed res)
                     (summarize "applied" res), h')
            else
              let res := Check h procRoot (cfg_Entries cfg) in
              inr (outcome rep "" (cfg_Hash cfg) (OK res) (res_Applied res)
                     (res_Failed res ++ res_Drifted res) (summarize "checked" res), h)
        end
    end
  else if String.eqb mode modeScript then
    match LoadScripts h configPath with
    | inl err => inl (LoadScriptsFailed configPath err)
    | inr scfg =>
        match verifyHash (scfg_Hash scfg) expected with
        | Some reason => inl reason
        | None =>
            let '(res, h') := RunScripts h (scfg_Scripts scfg) in
            inr (outcome rep "ScriptProfile" (scfg_Hash scfg) (OK res) (res_Applied res) (res_Failed res)
                   (summarize "ran" res), h')
        end
    end
  else inl (UnknownMode mode).

(** The identity part of the report. *)
Definition base_report (env : string -> string) : Report :=
  MkReport (env "PROFILE") (env "NAMESPACE") "" (env "NODE_NAME") (env "POD_NAME") "" false [] [] "".

Definition main (env : string -> string) (flags : Flags) (h : H) : Exit * H :=
  let mode := default (getenv env "MODE" modeApply) (flag_mode flags) in
  let configPath :=
    default (getenv env "CONFIG_PATH" "/etc/sysctl.d/99-sysctl-operator.conf") (flag_config flags) in
  let procRoot := default (getenv env "PROC_ROOT" "/proc/sys") (flag_proc_root flags) in
  match run_mode env h mode configPath procRoot (base_report env) with
  | inl reason => (Fatal reason, h)
  | inr (rep, h') =>
      let h'' := sendReport h' (env "REPORT_URL") rep in
      if String.eqb mode modeApply || String.eqb mode modeScript then (AwaitSignal, h'')
      else (Returned, h'')
  end.

End Main.

(** ** Lemmas *)

Lemma verifyHash_ok (got : string) : verifyHash got got = None.
Proof. unfold verifyHash. by rewrite String.eqb_refl, andb_false_r. Qed.

Lemma verifyHash_unset (got : string) : verifyHash got "" = None.
Proof. reflexivity. Qed.

Lemma verifyHash_mismatch (got expected : string) :
  expected <> "" -> got <> expected -> verifyHash got expected = Some (HashMismatch got expected).
Proof.
  intros H1%String.eqb_neq H2%String.eqb_neq. unfold verifyHash. by rewrite H1, H2.
Qed.

(** The mounted file the process reads. *)
Definition config_path (env : string -> string) (flags : Flags) : string :=
  default (getenv env "CONFIG_PATH" "/etc/sysctl.d/99-sysctl-operator.conf") (flag_config flags).

Section MainLemmas.

Context {H : Type} {host : Host H} {client : HttpClient H}.
Variable env : string -> string.

Lemma run_mode_mismatch (h : H) (mode path root data : string) (rep : Report) :
  host_ReadFile h path = inr data -> env "CONFIG_HASH" <> "" -> HashBytes data <> env "CONFIG_HASH" ->
  exists reason, run_mode env h mode path root rep = inl reason.
Proof.
  intros Hd He Hh. unfold run_mode, Load, LoadScripts. rewrite Hd. simpl.
  rewrite verifyHash_mismatch by done. repeat case_match; eauto; congruence.
Qed.

(** The apply mode on a readable, verified drop-in. *)
Lemma run_mode_apply (h : H) (path root data : string) (rep : Report) :
  host_ReadFile h path = inr data -> verifyHash (HashBytes data) (env "CONFIG_HASH") = None ->
  exists rep', run_mode env h modeApply path root rep =
      inr (rep', snd (Apply env h root (cfg_Entries (Parse data)))) /\
    rep_Hash rep' = HashBytes data /\ rep_Kind rep' = "" /\
    rep_Success rep' = OK (fst (Apply env h root (cfg_Entries (Parse data)))).
Proof.
  intros Hd Hv. unfold run_mode, Load. rewrite Hd. cbn [String.eqb modeApply orb Ascii.eqb Bool.eqb].
  cbn [cfg_Hash Parse]. rewrite Hv. destruct (Apply _ _ _ _) as [res h']. eexists. split; [reflexivity|done].
Qed.

(** A profile's sysctls as entries. *)
Definition wanted_entries (p : SysctlProfile) : list Entry :=
  map (fun s => MkEntry (sysctl_Name s) (sysctl_Value s)) (spec_Sysctls (sp_Spec p)).

(** A run of the apply mode on the config rendered from canonical sysctls has passed
    the hash check, and is the run of the profile's entries. *)
Lemma run_mode_applied (h h' : H) (root path : string) (p : SysctlProfile) (base rep : Report) :
  host_ReadFile h path = inr (renderSysctlConf p) ->
  Forall (fun s => canonical s = true) (spec_Sysctls (sp_Spec p)) ->
  run_mode env h modeApply path root base = inr (rep, h') ->
  verifyHash (hashContent (renderSysctlConf p)) (env "CONFIG_HASH") = None /\
  rep_Hash rep = hashContent (renderSysctlConf p) /\
  exists log, applies (sysctlBinary env) root h (wanted_entries p) log h' /\
    rep_Applied rep = map wr_Key (List.filter write_ok log) /\
    rep_Failed rep = map write_failure (List.filter (fun w => negb (write_ok w)) log) /\
    (rep_Success rep = true <-> Forall (fun w => wr_Error w = None) log).
Proof.
  intros Hfile Hcanon Hrun. unfold run_mode, Load in Hrun. rewrite Hfile in Hrun.
  cbn [String.eqb modeApply orb Ascii.eqb Bool.eqb cfg_Hash Parse] in Hrun.
  change (HashBytes ?d) with (hashContent d) in Hrun.
  destruct (verifyHash _ _); [done|]. split; [done|]. rewrite canonical_entries in Hrun by done.
  destruct (Apply_log env root h (wanted_entries p)) as (log & h1 & Ha & E).
  fold (wanted_entries p) in Hrun. rewrite E in Hrun. injection Hrun as <- <-. split; [done|].
  exists log. do 3 (split; [done|]). apply OK_add_log.
Qed.

End MainLemmas.

(** ** Properties *)

(** C9. A stale ConfigMap has no effect. When the operator injected a hash and
    the mounted file hashes to another, the process dies in every mode before
    it writes a sysctl, runs a script or sends a report. *)
Theorem stale_config_no_effect {H : Type} {host : Host H} {client : HttpClient H}
    (env : string -> string) (flags : Flags) (h : H) (data : string)
    (Hfile : host_ReadFile h (config_path env flags) = inr data)
    (Hset : env "CONFIG_HASH" <> "")
    (Hstale : HashBytes data <> env "CONFIG_HASH") :
  exists reason, main env flags h = (Fatal reason, h).
Proof.
  unfold main. fold (config_path env flags).
  edestruct run_mode_mismatch as [reason E]; [exact Hfile|done..|]. rewrite E. by exists reason.
Qed.

Lemma stale_config_no_effect_witness :
  let host := MemHost "/proc/sys" in
  let h := MkMem {["/etc/sysctl.d/99-sysctl-operator.conf" := "net.core.somaxconn = 1" +:+ nl_string]} ∅ [] in
  exists reason,
    main (fun k => if String.eqb k "CONFIG_HASH" then "0000000000000000" else "") no_flags h = (Fatal reason, h).
Proof.
  intros host h.
  apply (stale_config_no_effect _ no_flags h ("net.core.somaxconn = 1" +:+ nl_string)).
  - vm_compute. reflexivity.
  - discriminate.
  - vm_compute. discriminate.
Defined.

(** C5. A success report is true to the run. Take a run of the apply mode that gets as
    far as a report, on a mounted file that is what the controller rendered from a
    profile whose sysctls the rendering keeps ([canonical]). Then the hash check has
    passed (the operator injected the hash of this config, or none), the report names
    this hash, and the run has been the profile's: for its sysctls in order, one
    "sysctl -w key=value" per key, each on the node that the one before left. The
    report lists exactly the keys whose command ended without an error as applied; it
    says success exactly if no command failed, and then, for each sysctl that names a
    concrete key, the command that sets it has been run and has ended without an
    error. That the kernel keeps the value is not claimed: the worker does not read
    it back. *)
Theorem success_report_sound {H : Type} {host : Host H} {client : HttpClient H}
    (env : string -> string) (h h' : H) (root path : string) (p : SysctlProfile) (base rep : Report)
    (Hfile : host_ReadFile h path = inr (renderSysctlConf p))
    (Hcanon : Forall (fun s => canonical s = true) (spec_Sysctls (sp_Spec p)))
    (Hrun : run_mode env h modeApply path root base = inr (rep, h')) :
  rep_Hash rep = hashContent (renderSysctlConf p) /\
  (env "CONFIG_HASH" = "" \/ env "CONFIG_HASH" = rep_Hash rep) /\
  exists log, applies (sysctlBinary env) root h (wanted_entries p) log h' /\
    rep_Applied rep = map wr_Key (List.filter (fun w => succeeded (wr_Error w)) log) /\
    rep_Failed rep = map write_failure (List.filter (fun w => negb (succeeded (wr_Error w))) log) /\
    (rep_Success rep = true <-> Forall (fun w => wr_Error w = None) log) /\
    (rep_Success rep = true ->
     forall s, In s (spec_Sysctls (sp_Spec p)) -> index_nat (sysctl_Name s) ifacePlaceholder = None ->
       exists w, In w log /\ wr_Key w = sysctl_Name s /\ wr_Value w = sysctl_Value s /\ wr_Error w = None).
Proof.
  destruct (run_mode_applied env h h' root path p base rep Hfile Hcanon Hrun) as (Hv & Hh & log & Ha & H1 & H2 & Hok).
  split; [done|]. split.
  { rewrite Hh. destruct (decide (env "CONFIG_HASH" = "")); [by left|right].
    destruct (decide (hashContent (renderSysctlConf p) = env "CONFIG_HASH")); [done|].
    by rewrite verifyHash_mismatch in Hv. }
  exists log. do 4 (split; [done|]). intros Hs%Hok s Hin Hp.
  pose proof (applies_plain root _ h h' _ log (MkEntry (sysctl_Name s) (sysctl_Value s)) Ha) as Hlog.
  unfold wanted_entries in Hlog. cbn [entry_Name entry_Value] in Hlog.
  specialize (Hlog ltac:(by apply (in_map (fun s => MkEntry (sysctl_Name s) (sysctl_Value s)))) Hp).
  apply in_map_iff in Hlog as (w & [= Ek Ev] & Hw). exists w. rewrite List.Forall_forall in Hs. by auto.
Qed.

(** A node that mounts the small profile's ConfigMap. *)
Definition mounted_node : Mem := MkMem
  (<["/etc/sysctl.d/99-sysctl-operator.conf" := renderSysctlConf small_profile]> (mem_files mem_node))
  (mem_dirs mem_node) [].

Definition mounted_env (key : string) : string :=
  if String.eqb key "CONFIG_HASH" then hashContent (renderSysctlConf small_profile) else "".

(** The run on this node reports success, so a command has set net.core.somaxconn. *)
Lemma success_report_sound_witness :
  let host := MemHost "/proc/sys" in
  exists rep h' log,
    run_mode mounted_env mounted_node modeApply "/etc/sysctl.d/99-sysctl-operator.conf" "/proc/sys"
      (base_report mounted_env) = inr (rep, h') /\
    rep_Success rep = true /\
    applies "sysctl" "/proc/sys" mounted_node (wanted_entries small_profile) log h' /\
    exists w, In w log /\ wr_Key w = "net.core.somaxconn" /\ wr_Value w = "65535" /\ wr_Error w = None.
Proof.
  intros host.
  destruct (run_mode mounted_env mounted_node modeApply "/etc/sysctl.d/99-sysctl-operator.conf" "/proc/sys"
              (base_report mounted_env)) as [reason|[rep h']] eqn:E; [vm_compute in E; discriminate E|].
  assert (rep_Success rep = true) as Hs.
  { pose proof (f_equal (fun r => match r with inr (rep, _) => rep_Success rep | inl _ => false end) E) as Hs.
    cbv beta iota in Hs. rewrite <- Hs. vm_compute. reflexivity. }
  assert (Hfile : host_ReadFile mounted_node "/etc/sysctl.d/99-sysctl-operator.conf" =
    inr (renderSysctlConf small_profile)) by (vm_compute; reflexivity).
  assert (Hcanon : Forall (fun s => canonical s = true) (spec_Sysctls (sp_Spec small_profile)))
    by repeat constructor.
  destruct (success_report_sound mounted_env mounted_node h' "/proc/sys"
    "/etc/sysctl.d/99-sysctl-operator.conf" small_profile (base_report mounted_env) rep Hfile Hcanon E)
    as (_ & _ & log & Ha & _ & _ & _ & Hw).
  exists rep, h', log. split; [reflexivity|]. split; [exact Hs|]. split; [exact Ha|].
  apply (Hw Hs (plain_sysctl "net.core.somaxconn" "65535")); [left; reflexivity|reflexivity].
Defined.
