(* ===== verification/K8s.v ===== *)
(** * The operator's world: Kubernetes as an interface.

    The API server, the client and the helper packages (client-go,
    controller-runtime, apimachinery) are not code of the repository. What the
    operator sends is here as data ([call], with the type [resp] of its
    response), a handler is a program that makes calls ([prog]), and the helper
    functions are the operations of the class [K8sLib]; what the theorems rely
    on is in [K8sLibLaws] and [ApiServerLaws], each law a documented behaviour. *)
From S2P Require Import Prelude GoStrings Api.

(** ** Errors *)

(** A Go [error]: an API status error by its reason, any other error, and
    [fmt.Errorf("...: %w", err)]. *)
Inductive error :=
| ErrNotFound (what : string)
| ErrConflict (what : string)
| ErrOther (text : string)
| Errorf (prefix : string) (inner : error).

Fixpoint cause (e : error) : error :=
  match e with Errorf _ inner => cause inner | _ => e end.

Definition IsNotFound (e : error) : bool := match cause e with ErrNotFound _ => true | _ => false end.
Definition IsConflict (e : error) : bool := match cause e with ErrConflict _ => true | _ => false end.

(** [fmt.Errorf("...: %w", err)], of a nil error too. *)
Definition Errorf_w (prefix : string) (err : option error) : error :=
  match err with
  | Some e => Errorf prefix e
  | None => ErrOther (prefix +:+ ": %!w(<nil>)")
  end.

(** ** Owned objects *)

Inductive VolumeSource :=
| FromConfigMap (name : string)
| FromHostPath (path : string).

Record Volume := MkVolume { vol_Name : string; vol_Source : VolumeSource }.

Record VolumeMount := MkVolumeMount { vm_Name : string; vm_MountPath : string; vm_ReadOnly : bool }.

Inductive EnvValue :=
| Literal (value : string)
| FieldRef (path : string).

Record EnvVar := MkEnvVar { env_Name : string; env_Value : EnvValue }.

(** The [Privileged] pointer of the security context. *)
Record SecurityContext := MkSecurityContext { sc_Privileged : option bool }.

Record Container := MkContainer {
  ctr_Name : string;
  ctr_Image : string;
  ctr_ImagePullPolicy : string;
  ctr_SecurityContext : SecurityContext;
  ctr_VolumeMounts : list VolumeMount;
  ctr_Env : list EnvVar
}.

Record PodSpec := MkPodSpec {
  pod_NodeSelector : gmap string string;
  pod_Tolerations : list Toleration;
  pod_HostNetwork : bool;
  pod_HostPID : bool;
  pod_HostIPC : bool;
  pod_DNSPolicy : string;
  pod_RestartPolicy : string;
  pod_Volumes : list Volume;
  pod_Containers : list Container
}.

Record PodTemplate := MkPodTemplate {
  tpl_Labels : gmap string string;
  tpl_Annotations : gmap string string;
  tpl_Spec : PodSpec
}.

Record ConfigMap := MkConfigMap { cm_Meta : ObjectMeta; cm_Data : gmap string string }.

Record DaemonSet := MkDaemonSet {
  ds_Meta : ObjectMeta;
  ds_Selector : option LabelSelector;
  ds_Template : PodTemplate
}.

Record CronJob := MkCronJob {
  cj_Meta : ObjectMeta;
  cj_Schedule : string;
  cj_ConcurrencyPolicy : string;
  cj_SuccessfulJobsHistoryLimit : option Z;
  cj_FailedJobsHistoryLimit : option Z;
  cj_Template : PodTemplate
}.

(** The object literals the controllers start from: a key and nothing else. *)
Definition empty_pod : PodSpec := MkPodSpec ∅ [] false false false "" "" [] [].
Definition empty_template : PodTemplate := MkPodTemplate ∅ ∅ empty_pod.
Definition new_ConfigMap (k : NamespacedName) : ConfigMap :=
  MkConfigMap (new_meta (nn_Name k) (nn_Namespace k)) ∅.
Definition new_DaemonSet (k : NamespacedName) : DaemonSet :=
  MkDaemonSet (new_meta (nn_Name k) (nn_Namespace k)) None empty_template.
Definition new_CronJob (k : NamespacedName) : CronJob :=
  MkCronJob (new_meta (nn_Name k) (nn_Namespace k)) "" "" None None empty_template.

(** ** Calls *)

(** A [labels.Selector], by what it matches. *)
Definition Selector : Type := gmap string string -> bool.

(** What [controllerutil.CreateOrUpdate] reports to have done. *)
Inductive OperationResult := OpNone | OpCreated | OpUpdated.

(** Everything a handler asks of the world. [CreateOrUpdate] carries the mutate
    function. *)
Inductive call :=
| GetSysctlProfile (key : NamespacedName)
| UpdateSysctlProfile (p : SysctlProfile)
| StatusUpdateSysctlProfile (p : SysctlProfile)
| ListSysctlProfiles
| GetScriptProfile (key : NamespacedName)
| UpdateScriptProfile (p : ScriptProfile)
| StatusUpdateScriptProfile (p : ScriptProfile)
| ListScriptProfiles
| CreateOrUpdateConfigMap (key : NamespacedName) (mutate : ConfigMap -> error + ConfigMap)
| CreateOrUpdateDaemonSet (key : NamespacedName) (mutate : DaemonSet -> error + DaemonSet)
| CreateOrUpdateCronJob (key : NamespacedName) (mutate : CronJob -> error + CronJob)
| DeleteConfigMap (key : NamespacedName)
| DeleteDaemonSet (key : NamespacedName)
| DeleteCronJob (key : NamespacedName)
| ListNodes (sel : Selector)
| Now
| CounterInc (profile namespace node : string).

(** The type of the response. [Update] and [Status().Update] answer with an
    error or nil. *)
Definition resp (c : call) : Type :=
  match c with
  | GetSysctlProfile _ => error + SysctlProfile
  | ListSysctlProfiles => error + list SysctlProfile
  | GetScriptProfile _ => error + ScriptProfile
  | ListScriptProfiles => error + list ScriptProfile
  | CreateOrUpdateConfigMap _ _ | CreateOrUpdateDaemonSet _ _ | CreateOrUpdateCronJob _ _ =>
      error + OperationResult
  | ListNodes _ => error + list Node
  | Now => Time
  | CounterInc _ _ _ => unit
  | _ => option error
  end.

(** ** Programs *)

Inductive prog (A : Type) : Type :=
| Ret (a : A)
| Vis (c : call) (k : resp c -> prog A).
Arguments Ret {A} a.
Arguments Vis {A} c k.

Fixpoint bind {A B : Type} (m : prog A) (f : A -> prog B) : prog B :=
  match m with
  | Ret a => f a
  | Vis c k => Vis c (fun r => bind (k r) f)
  end.

Definition do_call (c : call) : prog (resp c) := Vis c (fun r => Ret r).

Declare Scope prog_scope.
Delimit Scope prog_scope with prog.
Notation "'let*' x ':=' m 'in' k" := (bind m (fun x => k))
  (at level 10, x name, m at level 100, k at level 200) : prog_scope.
#[global] Open Scope prog_scope.

(** [if err != nil { return err }] after a call that answers with an error. *)
Definition on_ok {A : Type} (err : option error) (ret : error -> A) (k : prog A) : prog A :=
  match err with Some e => Ret (ret e) | None => k end.

(** ** Executions *)

(** A call and its response. *)
Record event := Ev { ev_call : call; ev_resp : resp ev_call }.

(** The answer in an event, for the calls whose answer theorems name. *)
Definition got_sysctl (ev : event) : error + SysctlProfile :=
  match ev with Ev c r =>
    match c return resp c -> error + SysctlProfile with
    | GetSysctlProfile _ => fun r => r
    | _ => fun _ => inl (ErrOther "")
    end r end.
Definition got_script (ev : event) : error + ScriptProfile :=
  match ev with Ev c r =>
    match c return resp c -> error + ScriptProfile with
    | GetScriptProfile _ => fun r => r
    | _ => fun _ => inl (ErrOther "")
    end r end.
Definition write_error (ev : event) : option error :=
  match ev with Ev c r =>
    match c return resp c -> option error with
    | UpdateSysctlProfile _ | StatusUpdateSysctlProfile _
    | UpdateScriptProfile _ | StatusUpdateScriptProfile _
    | DeleteConfigMap _ | DeleteDaemonSet _ | DeleteCronJob _ => fun r => r
    | _ => fun _ => None
    end r end.

(** The call succeeded: it was not answered with an error; to delete what is
    not there counts. *)
Definition succeeded (ev : event) : Prop :=
  match ev with Ev c r =>
    match c return resp c -> Prop with
    | GetSysctlProfile _ => fun r => exists p, r = inr p
    | GetScriptProfile _ => fun r => exists p, r = inr p
    | ListSysctlProfiles => fun r => exists ps, r = inr ps
    | ListScriptProfiles => fun r => exists ps, r = inr ps
    | ListNodes _ => fun r => exists ns, r = inr ns
    | CreateOrUpdateConfigMap _ _ => fun r => exists op, r = inr op
    | CreateOrUpdateDaemonSet _ _ => fun r => exists op, r = inr op
    | CreateOrUpdateCronJob _ _ => fun r => exists op, r = inr op
    | UpdateSysctlProfile _ | StatusUpdateSysctlProfile _
    | UpdateScriptProfile _ | StatusUpdateScriptProfile _ => fun r => r = None
    | DeleteConfigMap _ | DeleteDaemonSet _ | DeleteCronJob _ =>
        fun r => r = None \/ exists e, r = Some e /\ IsNotFound e = true
    | Now => fun _ => True
    | CounterInc _ _ _ => fun _ => True
    end r end.

(** A world is a type of states with a step relation: which responses a state
    may give to a call, and the state after. [exec m w t w' a]: from [w] the
    program [m] may see the events [t], in order, and end in [w'] with [a]. *)
Section Exec.

Context {W : Type}.
Variable step : W -> event -> W -> Prop.

Fixpoint exec {A : Type} (m : prog A) (w : W) (t : list event) (w' : W) (a : A) : Prop :=
  match m with
  | Ret b => t = [] /\ w' = w /\ a = b
  | Vis c k => exists r w1 t', t = Ev c r :: t' /\ step w (Ev c r) w1 /\ exec (k r) w1 t' w' a
  end.

(** The attempts [retry.RetryOnConflict] makes: another one after a conflict;
    the last attempt's result is the result. *)
Inductive attempts (fn : prog (option error)) : W -> list event -> W -> option error -> Prop :=
| attempts_last w t w' r : exec fn w t w' r -> attempts fn w t w' r
| attempts_again w t1 w1 e t2 w' r :
    exec fn w t1 w1 (Some e) -> IsConflict e = true -> attempts fn w1 t2 w' r ->
    attempts fn w (t1 ++ t2) w' r.

End Exec.

(** Every call a program can make, whatever the responses, satisfies [P]. *)
Fixpoint calls_ok {A : Type} (P : call -> Prop) (m : prog A) : Prop :=
  match m with
  | Ret _ => True
  | Vis c k => P c /\ forall r, calls_ok P (k r)
  end.

(** How many requests a call sends to the API server: [CreateOrUpdate] gets the
    object first; the clock and the metric are local. *)
Definition api_requests (c : call) : nat :=
  match c with
  | CreateOrUpdateConfigMap _ _ | CreateOrUpdateDaemonSet _ _ | CreateOrUpdateCronJob _ _ => 2
  | Now | CounterInc _ _ _ => 0
  | _ => 1
  end.

(** At most [n] requests, whatever the responses. *)
Fixpoint requests_within {A : Type} (n : nat) (m : prog A) : Prop :=
  match m with
  | Ret _ => True
  | Vis c k => (api_requests c <= n)%nat /\ forall r, requests_within (n - api_requests c) (k r)
  end.

(** Every response is possible: the executions of a program against a world
    about which nothing is known. *)
Definition any_step (w : unit) (ev : event) (w' : unit) : Prop := True.

(** ** Running against a server that is a function *)

Class Server (W : Type) := serve : forall c : call, W -> resp c * W.

Fixpoint run {W A : Type} `{Server W} (m : prog A) (w : W) : A * W * list event :=
  match m with
  | Ret a => (a, w, [])
  | Vis c k =>
      let '(r, w1) := serve c w in
      let '(a, w', t) := run (k r) w1 in
      (a, w', Ev c r :: t)
  end.

Definition server_step {W : Type} `{Server W} (w : W) (ev : event) (w' : W) : Prop :=
  serve (ev_call ev) w = (ev_resp ev, w').

(** ** Helper packages *)

(** The reference [SetControllerReference] adds for an owner. *)
Definition controller_ref (kind : string) (owner : ObjectMeta) : OwnerReference :=
  MkOwnerReference kind (om_Name owner) (om_UID owner) true.

Class K8sLib := {
  (** [client.IgnoreNotFound] *)
  IgnoreNotFound : option error -> option error;
  (** [controllerutil], on the object's finalizers *)
  ContainsFinalizer : list string -> string -> bool;
  AddFinalizer : list string -> string -> list string;
  RemoveFinalizer : list string -> string -> list string;
  (** the owner's kind and metadata, and the object's metadata *)
  SetControllerReference : string -> ObjectMeta -> ObjectMeta -> error + ObjectMeta;
  (** [meta.SetStatusCondition], at the time given *)
  SetStatusCondition : list Condition -> Condition -> Time -> list Condition;
  (** [apiequality.Semantic.DeepEqual] at the two status types *)
  SysctlStatusDeepEqual : SysctlProfileStatus -> SysctlProfileStatus -> bool;
  ScriptStatusDeepEqual : ScriptProfileStatus -> ScriptProfileStatus -> bool;
  (** [metav1.LabelSelectorAsSelector] *)
  LabelSelectorAsSelector : LabelSelector -> error + Selector;
  (** [retry.RetryOnConflict] with [retry.DefaultRetry] *)
  RetryOnConflict : prog (option error) -> prog (option error);
}.

Class K8sLibLaws `{K8sLib} := {
  IgnoreNotFound_law (e : option error) :
    IgnoreNotFound e =
      match e with Some e => if IsNotFound e then None else Some e | None => None end;
  ContainsFinalizer_law (fs : list string) (f : string) : ContainsFinalizer fs f = true <-> In f fs;
  AddFinalizer_law (fs : list string) (f g : string) : In g (AddFinalizer fs f) <-> g = f \/ In g fs;
  RemoveFinalizer_law (fs : list string) (f g : string) : In g (RemoveFinalizer fs f) <-> g <> f /\ In g fs;
  (** On success only the owner references change, and the owner is among them. *)
  SetControllerReference_law (kind : string) (owner obj obj' : ObjectMeta) :
    SetControllerReference kind owner obj = inr obj' ->
    exists refs, obj' = set_OwnerReferences refs obj /\ In (controller_ref kind owner) refs;
  (** The condition of that type is then the one given, but for its time. *)
  SetStatusCondition_law (cs : list Condition) (c : Condition) (now : Time) :
    exists t, In (MkCondition (cond_Type c) (cond_Status c) (cond_ObservedGeneration c) t
                    (cond_Reason c) (cond_Message c)) (SetStatusCondition cs c now);
  (** Setting a condition again changes nothing. *)
  SetStatusCondition_again (cs : list Condition) (c : Condition) (now now' : Time) :
    SetStatusCondition (SetStatusCondition cs c now) c now' = SetStatusCondition cs c now;
  SysctlStatusDeepEqual_law (a b : SysctlProfileStatus) : SysctlStatusDeepEqual a b = true <-> a = b;
  ScriptStatusDeepEqual_law (a b : ScriptProfileStatus) : ScriptStatusDeepEqual a b = true <-> a = b;
  (** A selector's match labels are all required, and nothing else is when it
      has no expressions. *)
  LabelSelector_law (ls : LabelSelector) (sel : Selector) (l : gmap string string) :
    LabelSelectorAsSelector ls = inr sel -> sel l = true -> ls_MatchLabels ls ⊆ l;
  LabelSelector_plain (ls : LabelSelector) (sel : Selector) (l : gmap string string) :
    LabelSelectorAsSelector ls = inr sel -> ls_MatchExpressions ls = [] -> ls_MatchLabels ls ⊆ l ->
    sel l = true;
  RetryOnConflict_law {W : Type} (step : W -> event -> W -> Prop) (fn : prog (option error))
      (w w' : W) (t : list event) (r : option error) :
    exec step (RetryOnConflict fn) w t w' r -> attempts step fn w t w' r;
  (** [DefaultRetry] has five steps. *)
  RetryOnConflict_steps (fn : prog (option error)) (n : nat) :
    requests_within n fn -> requests_within (5 * n) (RetryOnConflict fn);
}.

(** ** Lemmas: executions *)

Section ExecLemmas.

Context {W : Type} (step : W -> event -> W -> Prop).

Lemma exec_bind {A B : Type} (m : prog A) (f : A -> prog B) (w w' : W) (t : list event) (b : B) :
  exec step (bind m f) w t w' b <->
  exists t1 w1 a t2, t = t1 ++ t2 /\ exec step m w t1 w1 a /\ exec step (f a) w1 t2 w' b.
Proof.
  revert w t. induction m as [a|c k IH]; intros w t; simpl.
  - split; [intros H; by exists [], w, a, t|]. by intros (t1 & w1 & a' & t2 & -> & (-> & -> & ->) & H).
  - split.
    + intros (r & w1 & t' & -> & Hs & (t1 & w2 & a & t2 & -> & H1 & H2)%IH).
      exists (Ev c r :: t1), w2, a, t2. split; [done|]. eauto 10.
    + intros (t1 & w1 & a & t2 & -> & (r & w2 & t' & -> & Hs & H1) & H2).
      exists r, w2, (t' ++ t2). split_and!; [done..|]. apply IH. eauto 10.
Qed.

Lemma exec_do_call (c : call) (w w' : W) (t : list event) (r : resp c) :
  exec step (do_call c) w t w' r <-> t = [Ev c r] /\ step w (Ev c r) w'.
Proof.
  simpl. split.
  - by intros (r' & w1 & t' & -> & Hs & -> & -> & ->).
  - intros [-> Hs]. by exists r, w', [].
Qed.

Lemma exec_call_bind {B : Type} (c : call) (f : resp c -> prog B) (w w' : W) (t : list event) (b : B) :
  exec step (bind (do_call c) f) w t w' b <->
  exists r w1 t', t = Ev c r :: t' /\ step w (Ev c r) w1 /\ exec step (f r) w1 t' w' b.
Proof. reflexivity. Qed.

End ExecLemmas.

Lemma calls_ok_bind {A B : Type} (P : call -> Prop) (m : prog A) (f : A -> prog B) :
  calls_ok P m -> (forall a, calls_ok P (f a)) -> calls_ok P (bind m f).
Proof. induction m as [a|c k IH]; simpl; [by auto|]. intros [Hc Hk] Hf. split; auto. Qed.

(** Walks through a program and leaves the statements about its calls. *)
Ltac each_call :=
  repeat (cbn [calls_ok bind do_call on_ok];
    match goal with
    | |- _ /\ _ => split
    | |- forall _, _ => intro
    | |- True => exact I
    | |- calls_ok _ (on_ok ?x _ _) => destruct x
    | |- calls_ok _ (if ?x then _ else _) => destruct x
    | |- calls_ok _ (match ?x with _ => _ end) => destruct x
    | |- calls_ok _ (bind _ _) => apply calls_ok_bind
    end).

Lemma exec_calls {W A : Type} (step : W -> event -> W -> Prop) (P : call -> Prop) (m : prog A)
    (w w' : W) (t : list event) (a : A) :
  calls_ok P m -> exec step m w t w' a -> Forall (fun ev => P (ev_call ev)) t.
Proof.
  revert w t. induction m as [b|c k IH]; intros w t Hm H; simpl in *.
  - destruct H as (-> & _). constructor.
  - destruct Hm as [Hc Hk], H as (r & w1 & t' & -> & _ & H). constructor; [done|]. by eapply IH.
Qed.

(** A call that a program never makes is not in its trace. *)
Lemma exec_never {W A : Type} (step : W -> event -> W -> Prop) (Q : call -> Prop) (m : prog A)
    (w w' : W) (t : list event) (a : A) (ev : event) :
  calls_ok (fun c => ~ Q c) m -> exec step m w t w' a -> In ev t -> ~ Q (ev_call ev).
Proof.
  intros Hm H Hin. eapply exec_calls in H; [|exact Hm]. rewrite List.Forall_forall in H. by apply (H ev Hin).
Qed.

Lemma requests_within_more {A : Type} (m : prog A) (n n' : nat) :
  (n <= n')%nat -> requests_within n m -> requests_within n' m.
Proof.
  revert n n'. induction m as [a|c k IH]; intros n n' Hn; simpl; [done|]. intros [Hc Hk].
  split; [lia|]. intros r. eapply IH; [|apply Hk]. lia.
Qed.

Lemma requests_within_bind {A B : Type} (m : prog A) (f : A -> prog B) (n n' : nat) :
  requests_within n m -> (forall a, requests_within n' (f a)) -> requests_within (n + n') (bind m f).
Proof.
  revert n. induction m as [a|c k IH]; intros n; simpl.
  - intros _ Hf. eapply requests_within_more; [|apply Hf]. lia.
  - intros [Hc Hk] Hf. split; [lia|]. intros r.
    replace (n + n' - api_requests c)%nat with (n - api_requests c + n')%nat by lia. by apply IH.
Qed.

(** What a program ends with when every call succeeds. *)
Fixpoint succeeds {A : Type} (Q : A -> Prop) (m : prog A) : Prop :=
  match m with
  | Ret a => Q a
  | Vis c k => forall r, succeeded (Ev c r) -> succeeds Q (k r)
  end.

Lemma succeeds_bind {A B : Type} (Q : B -> Prop) (R : A -> Prop) (m : prog A) (f : A -> prog B) :
  succeeds R m -> (forall a, R a -> succeeds Q (f a)) -> succeeds Q (bind m f).
Proof. induction m as [a|c k IH]; simpl; [by auto|]. intros Hk Hf r Hr. eauto. Qed.

Lemma exec_succeeds {W A : Type} (step : W -> event -> W -> Prop) (Q : A -> Prop) (m : prog A)
    (w w' : W) (t : list event) (a : A) :
  succeeds Q m -> exec step m w t w' a -> Forall succeeded t -> Q a.
Proof.
  revert w t. induction m as [b|c k IH]; intros w t Hm H Ht; simpl in *.
  - by destruct H as (_ & _ & ->).
  - destruct H as (r & w1 & t' & -> & _ & H). inversion_clear Ht. eauto.
Qed.

(** Whatever the server answers, a program ends. *)
Lemma exec_total {W A : Type} (step : W -> event -> W -> Prop) (m : prog A) (w : W) :
  (forall w c, exists r w', step w (Ev c r) w') -> exists t w' a, exec step m w t w' a.
Proof.
  intros Hs. revert w. induction m as [b|c k IH]; intros w; simpl; [by exists [], w, b|].
  destruct (Hs w c) as (r & w1 & Hr). destruct (IH r w1) as (t & w' & a & H).
  exists (Ev c r :: t), w', a. eauto 10.
Qed.

Lemma run_exec {W A : Type} `{Server W} (m : prog A) (w w' : W) (t : list event) (a : A) :
  run m w = (a, w', t) -> exec server_step m w t w' a.
Proof.
  revert w t. induction m as [b|c k IH]; intros w t E; simpl in *; [by simplify_eq|].
  destruct (serve c w) as [r w1] eqn:Es. destruct (run (k r) w1) as [[a' w2] t'] eqn:Er.
  simplify_eq. exists r, w1, t'. split_and!; [done..|]. by apply IH.
Qed.

(** A property of traces that holds in the unconstrained world holds in every
    world. *)
Lemma exec_any {W A : Type} (step : W -> event -> W -> Prop) (m : prog A) (w w' : W)
    (t : list event) (a : A) :
  exec step m w t w' a -> exec any_step m tt t tt a.
Proof.
  revert w t. induction m as [b|c k IH]; intros w t H; simpl in *.
  - by destruct H as (-> & _ & ->).
  - destruct H as (r & w1 & t' & -> & _ & H). eexists r, tt, t'. split_and!; [done..|]. eauto.
Qed.
