(* ===== verification/ApiServer.v ===== *)
(** * The API server as a store.

    What the theorems about whole reconciles rely on: a cluster is a store of
    objects, and a call that succeeds has read or changed it in the documented
    way. The laws describe a server with one client at a time whose cache is in
    step with the store; nothing is assumed of a call that fails, except that
    "not found" tells the truth and a rejected write changes nothing. *)
From Stdlib Require Import Permutation.
From S2P Require Import Prelude GoStrings Api K8s.

(** ** The store *)

(** The objects, by kind; an owned object that is being deleted counts as
    gone. *)
Record Cluster := MkCluster {
  cl_SysctlProfiles : gmap NamespacedName SysctlProfile;
  cl_ScriptProfiles : gmap NamespacedName ScriptProfile;
  cl_ConfigMaps : gmap NamespacedName ConfigMap;
  cl_DaemonSets : gmap NamespacedName DaemonSet;
  cl_CronJobs : gmap NamespacedName CronJob;
  cl_Nodes : list Node
}.

Definition with_SysctlProfiles f c := MkCluster (f (cl_SysctlProfiles c)) (cl_ScriptProfiles c)
  (cl_ConfigMaps c) (cl_DaemonSets c) (cl_CronJobs c) (cl_Nodes c).
Definition with_ScriptProfiles f c := MkCluster (cl_SysctlProfiles c) (f (cl_ScriptProfiles c))
  (cl_ConfigMaps c) (cl_DaemonSets c) (cl_CronJobs c) (cl_Nodes c).
Definition with_ConfigMaps f c := MkCluster (cl_SysctlProfiles c) (cl_ScriptProfiles c)
  (f (cl_ConfigMaps c)) (cl_DaemonSets c) (cl_CronJobs c) (cl_Nodes c).
Definition with_DaemonSets f c := MkCluster (cl_SysctlProfiles c) (cl_ScriptProfiles c)
  (cl_ConfigMaps c) (f (cl_DaemonSets c)) (cl_CronJobs c) (cl_Nodes c).
Definition with_CronJobs f c := MkCluster (cl_SysctlProfiles c) (cl_ScriptProfiles c)
  (cl_ConfigMaps c) (cl_DaemonSets c) (f (cl_CronJobs c)) (cl_Nodes c).

(** ** What the server keeps of an object it is sent *)

(** Identity, version and generation are the server's to set. *)
Definition stored_meta (sent kept : ObjectMeta) : Prop :=
  om_Name kept = om_Name sent /\ om_Namespace kept = om_Namespace sent /\
  om_Labels kept = om_Labels sent /\ om_Finalizers kept = om_Finalizers sent /\
  om_DeletionTimestamp kept = om_DeletionTimestamp sent /\
  om_OwnerReferences kept = om_OwnerReferences sent.

(** An empty restart policy is defaulted. *)
Definition stored_pod (sent kept : PodSpec) : Prop :=
  exists policy, (pod_RestartPolicy sent <> "" -> policy = pod_RestartPolicy sent) /\
    kept = MkPodSpec (pod_NodeSelector sent) (pod_Tolerations sent) (pod_HostNetwork sent)
      (pod_HostPID sent) (pod_HostIPC sent) (pod_DNSPolicy sent) policy (pod_Volumes sent)
      (pod_Containers sent).

Definition stored_template (sent kept : PodTemplate) : Prop :=
  tpl_Labels kept = tpl_Labels sent /\ tpl_Annotations kept = tpl_Annotations sent /\
  stored_pod (tpl_Spec sent) (tpl_Spec kept).

Definition stored_ConfigMap (sent kept : ConfigMap) : Prop :=
  stored_meta (cm_Meta sent) (cm_Meta kept) /\ cm_Data kept = cm_Data sent.

Definition stored_DaemonSet (sent kept : DaemonSet) : Prop :=
  stored_meta (ds_Meta sent) (ds_Meta kept) /\ ds_Selector kept = ds_Selector sent /\
  stored_template (ds_Template sent) (ds_Template kept).

Definition stored_CronJob (sent kept : CronJob) : Prop :=
  stored_meta (cj_Meta sent) (cj_Meta kept) /\ cj_Schedule kept = cj_Schedule sent /\
  cj_ConcurrencyPolicy kept = cj_ConcurrencyPolicy sent /\
  cj_SuccessfulJobsHistoryLimit kept = cj_SuccessfulJobsHistoryLimit sent /\
  cj_FailedJobsHistoryLimit kept = cj_FailedJobsHistoryLimit sent /\
  stored_template (cj_Template sent) (cj_Template kept).

(** A status write changes the version and the status only. *)
Definition stored_status_meta (old kept : ObjectMeta) : Prop :=
  exists v, kept = MkObjectMeta (om_Name old) (om_Namespace old) (om_UID old) v (om_Generation old)
    (om_Labels old) (om_Finalizers old) (om_DeletionTimestamp old) (om_OwnerReferences old).

(** ** The laws *)

Definition read_only (c : call) : bool :=
  match c with
  | GetSysctlProfile _ | ListSysctlProfiles | GetScriptProfile _ | ListScriptProfiles
  | ListNodes _ | Now | CounterInc _ _ _ => true
  | _ => false
  end.

Class ApiServer (W : Type) := {
  api_step : W -> event -> W -> Prop;
  api_view : W -> Cluster
}.

Class ApiServerLaws (W : Type) `{ApiServer W} := {
  read_law w ev w' : api_step w ev w' -> read_only (ev_call ev) = true -> api_view w' = api_view w;
  get_sysctl_law w k p w' : api_step w (Ev (GetSysctlProfile k) (inr p)) w' ->
    cl_SysctlProfiles (api_view w) !! k = Some p /\ meta_key (sp_Meta p) = k;
  get_script_law w k p w' : api_step w (Ev (GetScriptProfile k) (inr p)) w' ->
    cl_ScriptProfiles (api_view w) !! k = Some p /\ meta_key (scp_Meta p) = k;
  get_sysctl_missing w k e w' : api_step w (Ev (GetSysctlProfile k) (inl e)) w' -> IsNotFound e = true ->
    cl_SysctlProfiles (api_view w) !! k = None;
  get_script_missing w k e w' : api_step w (Ev (GetScriptProfile k) (inl e)) w' -> IsNotFound e = true ->
    cl_ScriptProfiles (api_view w) !! k = None;
  list_nodes_law w sel ns w' : api_step w (Ev (ListNodes sel) (inr ns)) w' ->
    Permutation ns (List.filter (fun n => sel (default ∅ (node_Labels n))) (cl_Nodes (api_view w)));
  list_sysctl_law w ps w' : api_step w (Ev ListSysctlProfiles (inr ps)) w' ->
    Permutation ps (map snd (map_to_list (cl_SysctlProfiles (api_view w))));
  list_script_law w ps w' : api_step w (Ev ListScriptProfiles (inr ps)) w' ->
    Permutation ps (map snd (map_to_list (cl_ScriptProfiles (api_view w))));
  (** writes of the owned objects *)
  put_ConfigMap_law w k mut op w' : api_step w (Ev (CreateOrUpdateConfigMap k mut) (inr op)) w' ->
    exists sent kept, mut (default (new_ConfigMap k) (cl_ConfigMaps (api_view w) !! k)) = inr sent /\
      stored_ConfigMap sent kept /\ api_view w' = with_ConfigMaps (<[k := kept]>) (api_view w);
  put_DaemonSet_law w k mut op w' : api_step w (Ev (CreateOrUpdateDaemonSet k mut) (inr op)) w' ->
    exists sent kept, mut (default (new_DaemonSet k) (cl_DaemonSets (api_view w) !! k)) = inr sent /\
      stored_DaemonSet sent kept /\ api_view w' = with_DaemonSets (<[k := kept]>) (api_view w);
  put_CronJob_law w k mut op w' : api_step w (Ev (CreateOrUpdateCronJob k mut) (inr op)) w' ->
    exists sent kept, mut (default (new_CronJob k) (cl_CronJobs (api_view w) !! k)) = inr sent /\
      stored_CronJob sent kept /\ api_view w' = with_CronJobs (<[k := kept]>) (api_view w);
  (** deletions: gone, or not there in the first place *)
  delete_ConfigMap_law w k w' r : api_step w (Ev (DeleteConfigMap k) r) w' ->
    (r = None \/ exists e, r = Some e /\ IsNotFound e = true) ->
    api_view w' = with_ConfigMaps (delete k) (api_view w);
  delete_DaemonSet_law w k w' r : api_step w (Ev (DeleteDaemonSet k) r) w' ->
    (r = None \/ exists e, r = Some e /\ IsNotFound e = true) ->
    api_view w' = with_DaemonSets (delete k) (api_view w);
  delete_CronJob_law w k w' r : api_step w (Ev (DeleteCronJob k) r) w' ->
    (r = None \/ exists e, r = Some e /\ IsNotFound e = true) ->
    api_view w' = with_CronJobs (delete k) (api_view w);
  (** writes of a profile: the status is a subresource, so [Update] keeps the
      stored one and [Status().Update] keeps all the rest; an object being
      deleted goes with its last finalizer *)
  update_sysctl_law w p w' : api_step w (Ev (UpdateSysctlProfile p) None) w' ->
    exists old m, cl_SysctlProfiles (api_view w) !! meta_key (sp_Meta p) = Some old /\
      stored_meta (sp_Meta p) m /\
      api_view w' = with_SysctlProfiles (fun ps =>
        if negb (IsZero (om_DeletionTimestamp (sp_Meta p))) && bool_decide (om_Finalizers (sp_Meta p) = [])
        then delete (meta_key (sp_Meta p)) ps
        else <[meta_key (sp_Meta p) := MkSysctlProfile m (sp_Spec p) (sp_Status old)]> ps) (api_view w);
  update_script_law w p w' : api_step w (Ev (UpdateScriptProfile p) None) w' ->
    exists old m, cl_ScriptProfiles (api_view w) !! meta_key (scp_Meta p) = Some old /\
      stored_meta (scp_Meta p) m /\
      api_view w' = with_ScriptProfiles (fun ps =>
        if negb (IsZero (om_DeletionTimestamp (scp_Meta p))) && bool_decide (om_Finalizers (scp_Meta p) = [])
        then delete (meta_key (scp_Meta p)) ps
        else <[meta_key (scp_Meta p) := MkScriptProfile m (scp_Spec p) (scp_Status old)]> ps) (api_view w);
  status_sysctl_law w p w' : api_step w (Ev (StatusUpdateSysctlProfile p) None) w' ->
    exists old m, cl_SysctlProfiles (api_view w) !! meta_key (sp_Meta p) = Some old /\
      stored_status_meta (sp_Meta old) m /\
      api_view w' = with_SysctlProfiles
        (<[meta_key (sp_Meta p) := MkSysctlProfile m (sp_Spec old) (sp_Status p)]>) (api_view w);
  status_script_law w p w' : api_step w (Ev (StatusUpdateScriptProfile p) None) w' ->
    exists old m, cl_ScriptProfiles (api_view w) !! meta_key (scp_Meta p) = Some old /\
      stored_status_meta (scp_Meta old) m /\
      api_view w' = with_ScriptProfiles
        (<[meta_key (scp_Meta p) := MkScriptProfile m (scp_Spec old) (scp_Status p)]>) (api_view w);
  (** a write the server rejects with a conflict or as not found changes nothing *)
  rejected_law w w' p e : IsNotFound e = true \/ IsConflict e = true ->
    api_step w (Ev (StatusUpdateSysctlProfile p) (Some e)) w' -> api_view w' = api_view w;
  rejected_script_law w w' p e : IsNotFound e = true \/ IsConflict e = true ->
    api_step w (Ev (StatusUpdateScriptProfile p) (Some e)) w' -> api_view w' = api_view w;
  status_sysctl_missing w w' p e : IsNotFound e = true ->
    api_step w (Ev (StatusUpdateSysctlProfile p) (Some e)) w' ->
    cl_SysctlProfiles (api_view w) !! meta_key (sp_Meta p) = None;
  status_script_missing w w' p e : IsNotFound e = true ->
    api_step w (Ev (StatusUpdateScriptProfile p) (Some e)) w' ->
    cl_ScriptProfiles (api_view w) !! meta_key (scp_Meta p) = None
}.

(** ** Lemmas *)

Lemma stored_meta_refl (m : ObjectMeta) : stored_meta m m.
Proof. by repeat split. Qed.

Lemma stored_status_meta_key (a b : ObjectMeta) :
  stored_status_meta a b -> meta_key b = meta_key a.
Proof. by intros [v ->]. Qed.

#[export] Hint Resolve stored_meta_refl : sysctl.
