(* ===== verification/Rollout.v ===== *)
(** * What the two controllers share.

    The rollout gate (have all selected nodes applied the current hash?) is
    written twice in the code, once per profile kind; its loop and the lemma
    about it are here, with the lemmas on executions of single calls. *)
From Stdlib Require Import Permutation.
From S2P Require Import Prelude GoStrings Api K8s ApiServer.

(** ** Definitions *)

(** The map [applied] that the loop over the statuses builds. *)
Definition applied_map (statuses : list NodeStatus) (hash : string) : gmap string bool :=
  fold_left (fun applied ns =>
      if String.eqb (ns_Phase ns) NodePhaseApplied && String.eqb (ns_AppliedHash ns) hash
      then <[ns_NodeName ns := true]> applied else applied)
    statuses ∅.

(** A node's last report says that it applied this hash. *)
Definition applied_at (statuses : list NodeStatus) (node hash : string) : Prop :=
  exists ns, In ns statuses /\ ns_NodeName ns = node /\ ns_Phase ns = NodePhaseApplied /\
    ns_AppliedHash ns = hash.

(** The nodes a selector picks in a cluster. *)
Definition selects (sel : Selector) (c : Cluster) (n : Node) : Prop :=
  In n (cl_Nodes c) /\ sel (default ∅ (node_Labels n)) = true.

(** A variable of a container's environment. *)
Definition env_lookup (name : string) (c : Container) : option EnvValue :=
  env_Value <$> List.find (fun e => String.eqb (env_Name e) name) (ctr_Env c).

(** A response to a delete after which the object is not there. *)
Definition gone (r : option error) : Prop := r = None \/ exists e, r = Some e /\ IsNotFound e = true.

(** The body of both gates. *)
Definition gate (statuses : list NodeStatus) (hash : string) (selected : list string) : bool :=
  if Nat.eqb (length selected) 0 then false
  else forallb (fun n => default false (applied_map statuses hash !! n)) selected.

(** ** Lemmas: the gate *)

Lemma applied_map_true (statuses : list NodeStatus) (hash node : string) :
  default false (applied_map statuses hash !! node) = true <-> applied_at statuses node hash.
Proof.
  unfold applied_map, applied_at.
  set (f := fun (applied : gmap string bool) (ns : NodeStatus) =>
    if String.eqb (ns_Phase ns) NodePhaseApplied && String.eqb (ns_AppliedHash ns) hash
    then <[ns_NodeName ns := true]> applied else applied).
  assert (G : forall acc : gmap string bool,
    default false (fold_left f statuses acc !! node) = true <->
    default false (acc !! node) = true \/ exists ns, In ns statuses /\ ns_NodeName ns = node /\
      ns_Phase ns = NodePhaseApplied /\ ns_AppliedHash ns = hash).
  { induction statuses as [|ns l IH]; intros acc; simpl.
    - split; [by left|]. by intros [H|(ns & [] & _)].
    - rewrite IH. clear IH. subst f. simpl.
      assert (Hf : default false ((if String.eqb (ns_Phase ns) NodePhaseApplied &&
                     String.eqb (ns_AppliedHash ns) hash
                   then <[ns_NodeName ns := true]> acc else acc) !! node) = true <->
          default false (acc !! node) = true \/
          (ns_NodeName ns = node /\ ns_Phase ns = NodePhaseApplied /\ ns_AppliedHash ns = hash)).
      { destruct (String.eqb_spec (ns_Phase ns) NodePhaseApplied) as [Hp|Hp],
          (String.eqb_spec (ns_AppliedHash ns) hash) as [Hh|Hh]; simpl; [|tauto..].
        destruct (decide (ns_NodeName ns = node)) as [<-|Hn].
        - rewrite lookup_insert_eq. simpl. tauto.
        - rewrite lookup_insert_ne by done. tauto. }
      rewrite Hf. split.
      + intros [[H|H]|(x & Hx & H)]; [by left|right; exists ns; tauto|right; exists x; tauto].
      + intros [H|(x & [->|Hx] & H)]; [tauto|tauto|]. right. by exists x. }
  rewrite G, lookup_empty. simpl. split; [by intros [H|H]|by right].
Qed.

Lemma gate_iff (statuses : list NodeStatus) (selected : list string) (hash : string) :
  gate statuses hash selected = true <->
  selected <> [] /\ forall n, In n selected -> applied_at statuses n hash.
Proof.
  unfold gate. destruct selected as [|n0 l]; [by split; [|intros [[] _]]|]. cbn [length Nat.eqb].
  rewrite forallb_forall. setoid_rewrite applied_map_true.
  split; [by intros H|by intros [_ H]].
Qed.

(** It does not depend on the order of the nodes. *)
#[export] Instance gate_proper (statuses : list NodeStatus) (hash : string) :
  Proper (Permutation ==> eq) (gate statuses hash).
Proof.
  intros l l' Hp. apply eq_true_iff_eq. rewrite !gate_iff.
  assert (Hn : l = [] <-> l' = [])
    by (split; intros ->; [by apply Permutation_nil|by apply Permutation_nil, Permutation_sym]).
  rewrite Hn. by setoid_rewrite Hp.
Qed.

(** On the nodes of a cluster. *)
Lemma gate_selected (statuses : list NodeStatus) (sel : Selector) (c : Cluster) (nodes : list Node)
    (hash : string) :
  Permutation nodes (List.filter (fun n => sel (default ∅ (node_Labels n))) (cl_Nodes c)) ->
  gate statuses hash (map node_Name nodes) = true <->
  (exists n, selects sel c n) /\ forall n, selects sel c n -> applied_at statuses (node_Name n) hash.
Proof.
  intros Hperm. rewrite gate_iff.
  assert (Hin : forall n, In n nodes <-> selects sel c n).
  { intros n. unfold selects.
    by rewrite <- (filter_In (fun n => sel (default ∅ (node_Labels n))) n (cl_Nodes c)), <- Hperm. }
  setoid_rewrite <- Hin. setoid_rewrite in_map_iff. split.
  - intros [Hne Hall]. split.
    + destruct nodes as [|n ns]; [done|]. by exists n; left.
    + intros n Hn. apply Hall. by exists n.
  - intros [[n Hn] Hall]. split.
    + by destruct nodes.
    + intros x (m & <- & Hm). by apply Hall.
Qed.

(** ** Lemmas: single calls *)

Section Calls.

Context {W : Type} (step : W -> event -> W -> Prop).

Lemma exec_ret {A : Type} (a b : A) (w w' : W) (t : list event) :
  exec step (Ret a) w t w' b -> t = [] /\ w' = w /\ b = a.
Proof. done. Qed.

(** A program that ends without an error has passed its checks. *)
Lemma exec_on_ok (err : option error) (f : error -> error) (k : prog (option error)) (w w' : W)
    (t : list event) (r : option error) :
  exec step (on_ok err (fun e => Some (f e)) k) w t w' r -> r = None ->
  err = None /\ exec step k w t w' r.
Proof. destruct err as [e|]; simpl; [|done]. intros (_ & _ & ->). done. Qed.

Lemma IgnoreNotFound_gone `{K8sLibLaws} (r : option error) : IgnoreNotFound r = None <-> gone r.
Proof.
  rewrite IgnoreNotFound_law. unfold gone. destruct r as [e|]; [|by split; [left|]].
  destruct (IsNotFound e) eqn:E; split; try done; [by right; exists e|].
  intros [|(e' & [= <-] & H')]; congruence.
Qed.

Lemma IgnoreNotFound_kept `{K8sLibLaws} (r : option error) (e : error) :
  IgnoreNotFound r = Some e -> r = Some e /\ IsNotFound e = false.
Proof.
  rewrite IgnoreNotFound_law. destruct r as [e'|]; [|done].
  destruct (IsNotFound e') eqn:E; [done|]. by intros [= <-].
Qed.

End Calls.

Lemma gone_ignored `{K8sLibLaws} (r : option error) : gone r -> IgnoreNotFound r = None.
Proof. by rewrite IgnoreNotFound_gone. Qed.
