(* ===== verification/SysctlController.v ===== *)
(** * The SysctlProfile controller
    ([internal/controller/sysctlprofile_controller.go]).

    [Reconcile] and the operations it is made of, as programs over the calls of
    [K8s]; every branch and every early return of the code is a branch here.
    Logging is left out. *)
From Stdlib Require Import Ascii.
From S2P Require Import Prelude GoStrings Api Render K8s Rollout.

(** ** Definitions *)

Section SysctlController.

Context `{lib : K8sLib}.

(** The reconciler's [WorkerImage] field. *)
Variable WorkerImage : string.

Definition workerImage : string :=
  if negb (String.eqb WorkerImage "") then WorkerImage else DefaultWorkerImage.

Definition privilegedSecurityContext : SecurityContext := MkSecurityContext (Some true).

(** The volumes of the applier and of the drift checker; [name] is the
    ConfigMap's. *)
Definition worker_volumes (name : string) : list Volume := [
  MkVolume configVolumeName (FromConfigMap name);
  MkVolume hostSystemdVolumeName (FromHostPath hostSystemdPath);
  MkVolume hostDbusVolumeName (FromHostPath hostDbusPath) ].

Definition worker_env (p : SysctlProfile) (hash : string) : list EnvVar := [
  MkEnvVar "PROFILE" (Literal (sp_Name p));
  MkEnvVar "NAMESPACE" (Literal (sp_Namespace p));
  MkEnvVar "CONFIG_HASH" (Literal hash);
  MkEnvVar "REPORT_URL" (Literal reportURL);
  MkEnvVar "NODE_NAME" (FieldRef "spec.nodeName") ].

(** The mutate function of the ConfigMap. *)
Definition mutate_ConfigMap (p : SysctlProfile) (content : string) (labels : gmap string string)
    (cm : ConfigMap) : error + ConfigMap :=
  match SetControllerReference "SysctlProfile" (sp_Meta p) (set_Labels labels (cm_Meta cm)) with
  | inl e => inl e
  | inr m => inr (MkConfigMap m {[configFileName := content]})
  end.

(** The mutate function of the DaemonSet: fields it does not name keep their
    values. *)
Definition mutate_DaemonSet (p : SysctlProfile) (name hash : string) (labels : gmap string string)
    (ds : DaemonSet) : error + DaemonSet :=
  let template := MkPodTemplate labels
    (<[configHashAnn := hash]> (tpl_Annotations (ds_Template ds)))
    (MkPodSpec
       (ls_MatchLabels (spec_NodeSelector (sp_Spec p)))
       (spec_Tolerations (sp_Spec p))
       true true true "ClusterFirstWithHostNet"
       (pod_RestartPolicy (tpl_Spec (ds_Template ds)))
       (worker_volumes name)
       [MkContainer "applier" workerImage imagePullPolicy privilegedSecurityContext
          [MkVolumeMount configVolumeName configMountPath true]
          (worker_env p hash)]) in
  match SetControllerReference "SysctlProfile" (sp_Meta p) (set_Labels labels (ds_Meta ds)) with
  | inl e => inl e
  | inr m => inr (MkDaemonSet m (Some (MkLabelSelector {[labelProfile := sp_Name p]} [])) template)
  end.

Definition ensureDaemonSet (p : SysctlProfile) (name hash : string) (labels : gmap string string) :
    prog (option error) :=
  let* r := do_call (CreateOrUpdateDaemonSet (MkKey (sp_Namespace p) name)
                       (mutate_DaemonSet p name hash labels)) in
  match r with inl err => Ret (Some err) | inr _ => Ret None end.

Definition deleteDaemonSet (p : SysctlProfile) : prog (option error) :=
  let* err := do_call (DeleteDaemonSet (MkKey (sp_Namespace p) (resourceName p))) in
  Ret (IgnoreNotFound err).

(** The mutate function of the CronJob; the volume names the CronJob's own name
    as the ConfigMap. *)
Definition mutate_CronJob (p : SysctlProfile) (name hash : string) (labels : gmap string string)
    (cj : CronJob) : error + CronJob :=
  let template := MkPodTemplate labels (tpl_Annotations (cj_Template cj))
    (MkPodSpec
       (ls_MatchLabels (spec_NodeSelector (sp_Spec p)))
       (spec_Tolerations (sp_Spec p))
       true true true "ClusterFirstWithHostNet" "OnFailure"
       (worker_volumes name)
       [MkContainer "drift-checker" workerImage imagePullPolicy privilegedSecurityContext
          [MkVolumeMount configVolumeName configMountPath true]
          (worker_env p hash)]) in
  match SetControllerReference "SysctlProfile" (sp_Meta p) (set_Labels labels (cj_Meta cj)) with
  | inl e => inl e
  | inr m => inr (MkCronJob m (DriftCheck (spec_Schedule (sp_Spec p))) "Forbid" (Some 3) (Some 1) template)
  end.

Definition ensureCronJob (p : SysctlProfile) (hash : string) (labels : gmap string string) :
    prog (option error) :=
  let name := cronJobName p in
  let* r := do_call (CreateOrUpdateCronJob (MkKey (sp_Namespace p) name)
                       (mutate_CronJob p name hash labels)) in
  match r with inl err => Ret (Some err) | inr _ => Ret None end.

Definition ensureNoCronJob (p : SysctlProfile) : prog (option error) :=
  let* err := do_call (DeleteCronJob (MkKey (sp_Namespace p) (cronJobName p))) in
  Ret (IgnoreNotFound err).

Definition selectedNodeNames (p : SysctlProfile) : prog (error + list string) :=
  match LabelSelectorAsSelector (spec_NodeSelector (sp_Spec p)) with
  | inl err => Ret (inl err)
  | inr sel =>
      let* r := do_call (ListNodes sel) in
      match r with
      | inl err => Ret (inl err)
      | inr nodes => Ret (inr (map node_Name nodes))
      end
  end.

Definition allNodesApplied (p : SysctlProfile) (selected : list string) (hash : string) : bool :=
  if Nat.eqb (length selected) 0 then false
  else
    let applied := applied_map (st_NodeStatuses (sp_Status p)) hash in
    forallb (fun n => default false (applied !! n)) selected.

Definition cleanup (p : SysctlProfile) : prog (option error) :=
  let name := resourceName p in
  let* err := do_call (DeleteDaemonSet (MkKey (sp_Namespace p) name)) in
  on_ok (IgnoreNotFound err) (fun _ => Some (Errorf_w ("deleting DaemonSet " +:+ name) err)) (
  let* err := do_call (DeleteCronJob (MkKey (sp_Namespace p) (cronJobName p))) in
  on_ok (IgnoreNotFound err) (fun _ => Some (Errorf_w ("deleting CronJob " +:+ cronJobName p) err)) (
  let* err := do_call (DeleteConfigMap (MkKey (sp_Namespace p) name)) in
  on_ok (IgnoreNotFound err) (fun _ => Some (Errorf_w ("deleting ConfigMap " +:+ name) err)) (
  Ret None))).

(** The [Ready] condition of the two branches. *)
Definition ready_condition (p : SysctlProfile) (reason message : string) : Condition :=
  MkCondition "Ready" "True" (om_Generation (sp_Meta p)) 0 reason message.

(** The status the reconcile arrives at: the condition of the branch taken, the
    hash, and the node count. *)
Definition next_status (p : SysctlProfile) (selected : list string) (hash : string)
    (rolloutComplete : bool) (now : Time) : SysctlProfileStatus :=
  let status := if rolloutComplete then st_set_Teardown hash (sp_Status p) else sp_Status p in
  let condition :=
    if rolloutComplete
    then ready_condition p "RolloutComplete" "all selected nodes applied; applier DaemonSet torn down"
    else ready_condition p "RollingOut" "applier DaemonSet active" in
  let status := st_set_Conditions (SetStatusCondition (st_Conditions status) condition now) status in
  st_set_Observed hash (wrap32 (Z.of_nat (length selected))) status.

(** Steps 4 and 5 of [Reconcile]: roll out or tear down, then the status. *)
Definition finish (p : SysctlProfile) (name hash : string) (labels : gmap string string)
    (selected : list string) : prog (option error) :=
  let rolloutComplete := allNodesApplied p selected hash in
  let* err := (if rolloutComplete then deleteDaemonSet p else ensureDaemonSet p name hash labels) in
  on_ok err Some (
  let* now := do_call Now in
  let status := next_status p selected hash rolloutComplete now in
  if negb (SysctlStatusDeepEqual (sp_Status p) status) then
    do_call (StatusUpdateSysctlProfile (sp_set_Status status p))
  else Ret None).

(** Step 2: the CronJob is there while the profile has a drift-check schedule. *)
Definition reconcile_CronJob (p : SysctlProfile) (hash : string) (labels : gmap string string) :
    prog (option error) :=
  if negb (String.eqb (DriftCheck (spec_Schedule (sp_Spec p))) "")
  then ensureCronJob p hash labels else ensureNoCronJob p.

(** The reconcile of a live profile that has its finalizer. *)
Definition reconcile_live (p : SysctlProfile) : prog (option error) :=
  let content := renderSysctlConf p in
  let hash := hashContent content in
  let name := resourceName p in
  let labels := labelsFor p in
  let* r := do_call (CreateOrUpdateConfigMap (MkKey (sp_Namespace p) name)
                       (mutate_ConfigMap p content labels)) in
  match r with
  | inl err => Ret (Some err)
  | inr _ =>
      let* err := reconcile_CronJob p hash labels in
      on_ok err Some (
      let* sel := selectedNodeNames p in
      match sel with
      | inl err => Ret (Some err)
      | inr selected => finish p name hash labels selected
      end)
  end.

(** [Reconcile]; the [ctrl.Result] is always empty, so the error is the
    result. *)
Definition Reconcile (req : NamespacedName) : prog (option error) :=
  let* r := do_call (GetSysctlProfile req) in
  match r with
  | inl err => Ret (IgnoreNotFound (Some err))
  | inr profile =>
      let fs := om_Finalizers (sp_Meta profile) in
      if negb (IsZero (om_DeletionTimestamp (sp_Meta profile))) then
        if ContainsFinalizer fs finalizer then
          let* err := cleanup profile in
          on_ok err Some (
          do_call (UpdateSysctlProfile
            (sp_set_Meta (set_Finalizers (RemoveFinalizer fs finalizer) (sp_Meta profile)) profile)))
        else Ret None
      else if negb (ContainsFinalizer fs finalizer) then
        do_call (UpdateSysctlProfile
          (sp_set_Meta (set_Finalizers (AddFinalizer fs finalizer) (sp_Meta profile)) profile))
      else reconcile_live profile
  end.

(** [profilesForNode]; the watch passes it nodes only. *)
Definition profilesForNode (node : Node) : prog (list NamespacedName) :=
  let* r := do_call ListSysctlProfiles in
  match r with
  | inl _ => Ret []
  | inr items =>
      Ret (fold_left (fun reqs p =>
          match LabelSelectorAsSelector (spec_NodeSelector (sp_Spec p)) with
          | inl _ => reqs
          | inr sel =>
              if sel (default ∅ (node_Labels node)) then reqs ++ [meta_key (sp_Meta p)] else reqs
          end) items [])
  end.

End SysctlController.

(** ** Theorems *)

(** The calls a reconcile of [p] may make: it reads, and it writes to the
    profile itself and to the three objects it owns. *)
Definition own_call (p : SysctlProfile) (c : call) : Prop :=
  match c with
  | UpdateSysctlProfile q | StatusUpdateSysctlProfile q => meta_key (sp_Meta q) = meta_key (sp_Meta p)
  | CreateOrUpdateConfigMap k _ | DeleteConfigMap k
  | CreateOrUpdateDaemonSet k _ | DeleteDaemonSet k => k = MkKey (sp_Namespace p) (resourceName p)
  | CreateOrUpdateCronJob k _ | DeleteCronJob k => k = MkKey (sp_Namespace p) (cronJobName p)
  | GetSysctlProfile _ | ListNodes _ | Now => True
  | _ => False
  end.

(** Calls that bring an owned object into being. *)
Definition creates (c : call) : Prop :=
  match c with
  | CreateOrUpdateConfigMap _ _ | CreateOrUpdateDaemonSet _ _ | CreateOrUpdateCronJob _ _ => True
  | _ => False
  end.

Section SysctlTheorems.

Context {lib : K8sLib} {laws : K8sLibLaws}.
Variable image : string.
Context {W : Type} (step : W -> event -> W -> Prop).

Lemma exec_ensureDaemonSet p name hash labels w t w' r :
  exec step (ensureDaemonSet image p name hash labels) w t w' r ->
  exists x, t = [Ev (CreateOrUpdateDaemonSet (MkKey (sp_Namespace p) name)
                       (mutate_DaemonSet image p name hash labels)) x] /\
    step w (Ev (CreateOrUpdateDaemonSet (MkKey (sp_Namespace p) name)
                  (mutate_DaemonSet image p name hash labels)) x) w' /\
    (r = None -> exists op, x = inr op).
Proof.
  intros (x & w1 & t' & -> & Hs & H). exists x.
  destruct x as [err|op]; destruct H as (-> & -> & ->); split_and!; eauto; done.
Qed.

Lemma exec_ensureCronJob p hash labels w t w' r :
  exec step (ensureCronJob image p hash labels) w t w' r ->
  exists x, t = [Ev (CreateOrUpdateCronJob (MkKey (sp_Namespace p) (cronJobName p))
                       (mutate_CronJob image p (cronJobName p) hash labels)) x] /\
    step w (Ev (CreateOrUpdateCronJob (MkKey (sp_Namespace p) (cronJobName p))
                  (mutate_CronJob image p (cronJobName p) hash labels)) x) w' /\
    (r = None -> exists op, x = inr op).
Proof.
  intros (x & w1 & t' & -> & Hs & H). exists x.
  destruct x as [err|op]; destruct H as (-> & -> & ->); split_and!; eauto; done.
Qed.

Lemma exec_deleteDaemonSet p w t w' r :
  exec step (deleteDaemonSet p) w t w' r ->
  exists x, t = [Ev (DeleteDaemonSet (MkKey (sp_Namespace p) (resourceName p))) x] /\
    step w (Ev (DeleteDaemonSet (MkKey (sp_Namespace p) (resourceName p))) x) w' /\
    (r = None -> gone x).
Proof.
  intros (x & w1 & t' & -> & Hs & -> & -> & ->). exists x.
  split_and!; [done..|]. by apply IgnoreNotFound_gone.
Qed.

Lemma exec_ensureNoCronJob p w t w' r :
  exec step (ensureNoCronJob p) w t w' r ->
  exists x, t = [Ev (DeleteCronJob (MkKey (sp_Namespace p) (cronJobName p))) x] /\
    step w (Ev (DeleteCronJob (MkKey (sp_Namespace p) (cronJobName p))) x) w' /\
    (r = None -> gone x).
Proof.
  intros (x & w1 & t' & -> & Hs & -> & -> & ->). exists x.
  split_and!; [done..|]. by apply IgnoreNotFound_gone.
Qed.

Lemma exec_selectedNodeNames p w t w' names :
  exec step (selectedNodeNames p) w t w' (inr names) ->
  exists sel nodes, LabelSelectorAsSelector (spec_NodeSelector (sp_Spec p)) = inr sel /\
    t = [Ev (ListNodes sel) (inr nodes)] /\ step w (Ev (ListNodes sel) (inr nodes)) w' /\
    names = map node_Name nodes.
Proof.
  unfold selectedNodeNames. destruct (LabelSelectorAsSelector _) as [err|sel] eqn:E.
  - by intros (_ & _ & ?).
  - intros (x & w1 & t' & -> & Hs & H). destruct x as [err|nodes]; destruct H as (-> & -> & H).
    + done.
    + injection H as ->. by exists sel, nodes.
Qed.

Lemma exec_cleanup p w t w' r :
  exec step (cleanup p) w t w' r -> r = None ->
  exists r1 r2 r3 w1 w2,
    t = [Ev (DeleteDaemonSet (MkKey (sp_Namespace p) (resourceName p))) r1;
         Ev (DeleteCronJob (MkKey (sp_Namespace p) (cronJobName p))) r2;
         Ev (DeleteConfigMap (MkKey (sp_Namespace p) (resourceName p))) r3] /\
    gone r1 /\ gone r2 /\ gone r3 /\
    step w (Ev (DeleteDaemonSet (MkKey (sp_Namespace p) (resourceName p))) r1) w1 /\
    step w1 (Ev (DeleteCronJob (MkKey (sp_Namespace p) (cronJobName p))) r2) w2 /\
    step w2 (Ev (DeleteConfigMap (MkKey (sp_Namespace p) (resourceName p))) r3) w'.
Proof.
  intros (r1 & w1 & t1 & -> & S1 & H) ->. apply exec_on_ok in H as [G1 H]; [|done].
  destruct H as (r2 & w2 & t2 & -> & S2 & H). apply exec_on_ok in H as [G2 H]; [|done].
  destruct H as (r3 & w3 & t3 & -> & S3 & H). apply exec_on_ok in H as [G3 H]; [|done].
  destruct H as (-> & -> & _). apply IgnoreNotFound_gone in G1, G2, G3.
  by exists r1, r2, r3, w1, w2.
Qed.

Lemma exec_reconcile_CronJob p hash labels w t w' r :
  exec step (reconcile_CronJob image p hash labels) w t w' r ->
  if String.eqb (DriftCheck (spec_Schedule (sp_Spec p))) ""
  then exec step (ensureNoCronJob p) w t w' r
  else exec step (ensureCronJob image p hash labels) w t w' r.
Proof. unfold reconcile_CronJob. by destruct (String.eqb _ ""). Qed.

(** What [Reconcile] does with the profile it read. *)
Lemma exec_Reconcile k w t w' r :
  exec step (Reconcile image k) w t w' r ->
  exists x w1 t1, t = Ev (GetSysctlProfile k) x :: t1 /\ step w (Ev (GetSysctlProfile k) x) w1 /\
    match x with
    | inl err => t1 = [] /\ w' = w1 /\ r = IgnoreNotFound (Some err)
    | inr p =>
        let fs := om_Finalizers (sp_Meta p) in
        if negb (IsZero (om_DeletionTimestamp (sp_Meta p))) then
          if ContainsFinalizer fs finalizer then
            exec step (let* err := cleanup p in on_ok err Some (do_call (UpdateSysctlProfile
              (sp_set_Meta (set_Finalizers (RemoveFinalizer fs finalizer) (sp_Meta p)) p)))) w1 t1 w' r
          else t1 = [] /\ w' = w1 /\ r = None
        else if negb (ContainsFinalizer fs finalizer) then
          exec step (do_call (UpdateSysctlProfile
              (sp_set_Meta (set_Finalizers (AddFinalizer fs finalizer) (sp_Meta p)) p))) w1 t1 w' r
        else exec step (reconcile_live image p) w1 t1 w' r
    end.
Proof.
  intros (x & w1 & t1 & -> & S1 & H). exists x, w1, t1. split_and!; [done..|].
  destruct x as [err|p]; [done|]. cbn [bind] in H. cbn zeta in *.
  by destruct (IsZero _), (ContainsFinalizer _ _).
Qed.

(** C23. The rollout gate: it opens exactly when some node is selected and every
    selected node has a status that says it applied this very hash. *)
Theorem allNodesApplied_iff p selected hash :
  allNodesApplied p selected hash = true <->
  selected <> [] /\ forall n, In n selected -> applied_at (st_NodeStatuses (sp_Status p)) n hash.
Proof. apply gate_iff. Qed.

(** Nothing is created for a profile before its finalizer is in place, nor
    once it is being deleted: if a reconcile tries to create or update an owned
    object, then the profile it read has the finalizer and no deletion time. *)
Theorem finalizer_before_resources k w t w' r ev :
  exec step (Reconcile image k) w t w' r -> In ev t -> creates (ev_call ev) ->
  exists p t', t = Ev (GetSysctlProfile k) (inr p) :: t' /\
    IsZero (om_DeletionTimestamp (sp_Meta p)) = true /\ In finalizer (om_Finalizers (sp_Meta p)).
Proof.
  intros H Hin Hc. apply exec_Reconcile in H as (x & w1 & t1 & -> & _ & H).
  destruct Hin as [<-|Hin]; [done|].
  destruct x as [err|p]; [by destruct H as (-> & _)|]. cbn zeta in H.
  destruct (IsZero _) eqn:EZ; destruct (ContainsFinalizer _ _) eqn:EF; cbn [negb] in H.
  - exists p, t1. split_and!; [done..|]. by apply ContainsFinalizer_law.
  - exfalso. eapply exec_never, Hc; [|exact H|exact Hin]. each_call; try done; by intros [].
  - exfalso. eapply exec_never, Hc; [|exact H|exact Hin]. unfold cleanup. each_call; try done; by intros [].
  - by destruct H as (-> & _).
Qed.

(** A reconcile stays with its profile: every call it makes reads, or writes
    to the profile it was asked about, or to the ConfigMap, the DaemonSet or the
    CronJob of that profile. *)
Theorem reconcile_own_calls k p t w w' r :
  exec step (Reconcile image k) w (Ev (GetSysctlProfile k) (inr p) :: t) w' r ->
  Forall (fun ev => own_call p (ev_call ev)) t.
Proof.
  intros H. apply exec_Reconcile in H as (x & w1 & t1 & Et & _ & H).
  apply cons_eq_inv in Et as [Ex <-]. apply (f_equal got_sysctl) in Ex. cbn in Ex. subst x. cbn zeta in H.
  destruct (IsZero _) eqn:EZ; destruct (ContainsFinalizer _ _) eqn:EF; cbn [negb] in H.
  - eapply exec_calls, H. unfold reconcile_live, reconcile_CronJob, ensureCronJob, ensureNoCronJob,
      selectedNodeNames, finish, ensureDaemonSet, deleteDaemonSet. by each_call.
  - eapply exec_calls, H. by each_call.
  - eapply exec_calls, H. unfold cleanup. by each_call.
  - destruct H as (-> & _). constructor.
Qed.

(** C20. Deletion is ordered: a profile that is being deleted loses the finalizer
    only after the DaemonSet, the CronJob and the ConfigMap have been deleted, in
    this order, each deleted or already gone; and the update takes exactly this
    finalizer away. *)
Theorem deletion_order k p t w w' r q x :
  exec step (Reconcile image k) w (Ev (GetSysctlProfile k) (inr p) :: t) w' r ->
  IsZero (om_DeletionTimestamp (sp_Meta p)) = false ->
  In (Ev (UpdateSysctlProfile q) x) t ->
  exists r1 r2 r3,
    t = [Ev (DeleteDaemonSet (MkKey (sp_Namespace p) (resourceName p))) r1;
         Ev (DeleteCronJob (MkKey (sp_Namespace p) (cronJobName p))) r2;
         Ev (DeleteConfigMap (MkKey (sp_Namespace p) (resourceName p))) r3;
         Ev (UpdateSysctlProfile q) x] /\
    gone r1 /\ gone r2 /\ gone r3 /\ r = x /\
    forall f, In f (om_Finalizers (sp_Meta q)) <-> f <> finalizer /\ In f (om_Finalizers (sp_Meta p)).
Proof.
  intros H EZ Hin. apply exec_Reconcile in H as (y & w1 & t0 & Et & _ & H).
  apply cons_eq_inv in Et as [Ey <-]. apply (f_equal got_sysctl) in Ey. cbn in Ey. subst y. cbn zeta in H. rewrite EZ in H. cbn [negb] in H.
  destruct (ContainsFinalizer _ _) eqn:EF; [|by destruct H as (-> & _)].
  apply exec_bind in H as (t1 & w2 & err & t2 & -> & H1 & H2).
  apply in_app_iff in Hin as [Hin|Hin].
  - exfalso. eapply (exec_never step (fun c => exists q, c = UpdateSysctlProfile q)); [|exact H1|exact Hin|by exists q].
    unfold cleanup. each_call; by intros [].
  - destruct err as [e|]; [by destruct H2 as (-> & _)|].
    apply exec_cleanup in H1 as (r1 & r2 & r3 & v1 & v2 & -> & G1 & G2 & G3 & _); [|done].
    destruct H2 as (z & v3 & t3 & -> & _ & -> & -> & ->). destruct Hin as [Hin|[]].
    pose proof (f_equal write_error Hin) as Hz. cbn in Hz. subst z.
    apply (f_equal (fun ev => match ev_call ev with UpdateSysctlProfile q => Some q | _ => None end)) in Hin.
    cbn in Hin. injection Hin as <-.
    exists r1, r2, r3. split_and!; try done. intros f. apply RemoveFinalizer_law.
Qed.

End SysctlTheorems.
