(* ===== verification/ScriptController.v ===== *)
(** * The ScriptProfile controller
    ([internal/controller/scriptprofile_controller.go]).

    The counterpart of the SysctlProfile controller for scripts; the code repeats
    its structure, without a CronJob and with another runner pod. *)
From Stdlib Require Import Ascii.
From S2P Require Import Prelude GoStrings Api Render K8s Rollout SysctlController.

(** ** Definitions *)

Section ScriptController.

Context {lib : K8sLib}.

(** The reconciler's [WorkerImage] field. *)
Variable WorkerImage : string.

(** [(r *ScriptProfileReconciler) workerImage] *)
Definition script_workerImage : string :=
  if negb (String.eqb WorkerImage "") then WorkerImage else DefaultWorkerImage.

Definition runner_volumes (name : string) : list Volume := [
  MkVolume configVolumeName (FromConfigMap name);
  MkVolume hostSystemdVolumeName (FromHostPath hostSystemdPath);
  MkVolume hostDbusVolumeName (FromHostPath hostDbusPath);
  MkVolume "cgroup-path" (FromHostPath "/sys/fs/cgroup") ].

Definition runner_mounts : list VolumeMount := [
  MkVolumeMount configVolumeName scriptConfigMountPath true;
  MkVolumeMount hostSystemdVolumeName hostSystemdPath true;
  MkVolumeMount hostDbusVolumeName hostDbusPath true;
  MkVolumeMount "cgroup-path" "/sys/fs/cgroup" true ].

Definition runner_env (p : ScriptProfile) (hash : string) : list EnvVar := [
  MkEnvVar "MODE" (Literal "script");
  MkEnvVar "CONFIG_PATH" (Literal (scriptConfigMountPath +:+ "/" +:+ scriptConfigFileName));
  MkEnvVar "PROFILE" (Literal (scp_Name p));
  MkEnvVar "NAMESPACE" (Literal (scp_Namespace p));
  MkEnvVar "CONFIG_HASH" (Literal hash);
  MkEnvVar "REPORT_URL" (Literal scriptReportURL);
  MkEnvVar "NODE_NAME" (FieldRef "spec.nodeName") ].

(** The mutate function of the ConfigMap. *)
Definition mutate_ScriptConfigMap (p : ScriptProfile) (content : string) (labels : gmap string string)
    (cm : ConfigMap) : error + ConfigMap :=
  match SetControllerReference "ScriptProfile" (scp_Meta p) (set_Labels labels (cm_Meta cm)) with
  | inl e => inl e
  | inr m => inr (MkConfigMap m {[scriptConfigFileName := content]})
  end.

(** The mutate function of the DaemonSet: fields it does not name keep their
    values. *)
Definition mutate_ScriptDaemonSet (p : ScriptProfile) (name hash : string) (labels : gmap string string)
    (ds : DaemonSet) : error + DaemonSet :=
  let template := MkPodTemplate labels
    (<[configHashAnn := hash]> (tpl_Annotations (ds_Template ds)))
    (MkPodSpec
       (ls_MatchLabels (sspec_NodeSelector (scp_Spec p)))
       (sspec_Tolerations (scp_Spec p))
       true true true "ClusterFirstWithHostNet"
       (pod_RestartPolicy (tpl_Spec (ds_Template ds)))
       (runner_volumes name)
       [MkContainer "runner" script_workerImage imagePullPolicy privilegedSecurityContext
          runner_mounts (runner_env p hash)]) in
  match SetControllerReference "ScriptProfile" (scp_Meta p) (set_Labels labels (ds_Meta ds)) with
  | inl e => inl e
  | inr m => inr (MkDaemonSet m (Some (MkLabelSelector {[labelScriptProfile := scp_Name p]} [])) template)
  end.

Definition ensureScriptDaemonSet (p : ScriptProfile) (name hash : string) (labels : gmap string string) :
    prog (option error) :=
  let* r := do_call (CreateOrUpdateDaemonSet (MkKey (scp_Namespace p) name)
                       (mutate_ScriptDaemonSet p name hash labels)) in
  match r with inl err => Ret (Some err) | inr _ => Ret None end.

Definition deleteScriptDaemonSet (p : ScriptProfile) : prog (option error) :=
  let* err := do_call (DeleteDaemonSet (MkKey (scp_Namespace p) (scriptResourceName p))) in
  Ret (IgnoreNotFound err).

Definition scriptSelectedNodeNames (p : ScriptProfile) : prog (error + list string) :=
  match LabelSelectorAsSelector (sspec_NodeSelector (scp_Spec p)) with
  | inl err => Ret (inl err)
  | inr sel =>
      let* r := do_call (ListNodes sel) in
      match r with
      | inl err => Ret (inl err)
      | inr nodes => Ret (inr (map node_Name nodes))
      end
  end.

Definition scriptAllNodesApplied (p : ScriptProfile) (selected : list string) (hash : string) : bool :=
  if Nat.eqb (length selected) 0 then false
  else
    let applied := applied_map (sst_NodeStatuses (scp_Status p)) hash in
    forallb (fun n => default false (applied !! n)) selected.

Definition cleanupScript (p : ScriptProfile) : prog (option error) :=
  let name := scriptResourceName p in
  let* err := do_call (DeleteDaemonSet (MkKey (scp_Namespace p) name)) in
  on_ok (IgnoreNotFound err) (fun _ => Some (Errorf_w ("deleting DaemonSet " +:+ name) err)) (
  let* err := do_call (DeleteConfigMap (MkKey (scp_Namespace p) name)) in
  on_ok (IgnoreNotFound err) (fun _ => Some (Errorf_w ("deleting ConfigMap " +:+ name) err)) (
  Ret None)).

(** The [Ready] condition of the two branches. *)
Definition script_ready_condition (p : ScriptProfile) (reason message : string) : Condition :=
  MkCondition "Ready" "True" (om_Generation (scp_Meta p)) 0 reason message.

(** The status the reconcile arrives at. *)
Definition script_next_status (p : ScriptProfile) (selected : list string) (hash : string)
    (rolloutComplete : bool) (now : Time) : ScriptProfileStatus :=
  let status := if rolloutComplete then sst_set_Teardown hash (scp_Status p) else scp_Status p in
  let condition :=
    if rolloutComplete
    then script_ready_condition p "RolloutComplete" "all selected nodes ran the scripts; runner DaemonSet torn down"
    else script_ready_condition p "RollingOut" "runner DaemonSet active" in
  let status := sst_set_Conditions (SetStatusCondition (sst_Conditions status) condition now) status in
  sst_set_Observed hash (wrap32 (Z.of_nat (length selected))) status.

(** Steps 3 and 4 of [Reconcile]. *)
Definition script_finish (p : ScriptProfile) (name hash : string) (labels : gmap string string)
    (selected : list string) : prog (option error) :=
  let rolloutComplete := scriptAllNodesApplied p selected hash in
  let* err := (if rolloutComplete then deleteScriptDaemonSet p
               else ensureScriptDaemonSet p name hash labels) in
  on_ok err Some (
  let* now := do_call Now in
  let status := script_next_status p selected hash rolloutComplete now in
  if negb (ScriptStatusDeepEqual (scp_Status p) status) then
    do_call (StatusUpdateScriptProfile (scp_set_Status status p))
  else Ret None).

(** The reconcile of a live profile that has its finalizer. *)
Definition script_reconcile_live (p : ScriptProfile) : prog (option error) :=
  let content := renderScripts p in
  let hash := hashContent content in
  let name := scriptResourceName p in
  let labels := scriptLabelsFor p in
  let* r := do_call (CreateOrUpdateConfigMap (MkKey (scp_Namespace p) name)
                       (mutate_ScriptConfigMap p content labels)) in
  match r with
  | inl err => Ret (Some err)
  | inr _ =>
      let* sel := scriptSelectedNodeNames p in
      match sel with
      | inl err => Ret (Some err)
      | inr selected => script_finish p name hash labels selected
      end
  end.

(** [(r *ScriptProfileReconciler) Reconcile] *)
Definition script_Reconcile (req : NamespacedName) : prog (option error) :=
  let* r := do_call (GetScriptProfile req) in
  match r with
  | inl err => Ret (IgnoreNotFound (Some err))
  | inr profile =>
      let fs := om_Finalizers (scp_Meta profile) in
      if negb (IsZero (om_DeletionTimestamp (scp_Meta profile))) then
        if ContainsFinalizer fs finalizer then
          let* err := cleanupScript profile in
          on_ok err Some (
          do_call (UpdateScriptProfile
            (scp_set_Meta (set_Finalizers (RemoveFinalizer fs finalizer) (scp_Meta profile)) profile)))
        else Ret None
      else if negb (ContainsFinalizer fs finalizer) then
        do_call (UpdateScriptProfile
          (scp_set_Meta (set_Finalizers (AddFinalizer fs finalizer) (scp_Meta profile)) profile))
      else script_reconcile_live profile
  end.

(** [(r *ScriptProfileReconciler) profilesForNode]; the watch passes it nodes
    only. *)
Definition script_profilesForNode (node : Node) : prog (list NamespacedName) :=
  let* r := do_call ListScriptProfiles in
  match r with
  | inl _ => Ret []
  | inr items =>
      Ret (fold_left (fun reqs p =>
          match LabelSelectorAsSelector (sspec_NodeSelector (scp_Spec p)) with
          | inl _ => reqs
          | inr sel =>
              if sel (default ∅ (node_Labels node)) then reqs ++ [meta_key (scp_Meta p)] else reqs
          end) items [])
  end.

End ScriptController.

(** ** Theorems *)

(** The calls a reconcile of [p] may make: it reads, and it writes to the
    profile itself and to the two objects it owns. *)
Definition script_own_call (p : ScriptProfile) (c : call) : Prop :=
  match c with
  | UpdateScriptProfile q | StatusUpdateScriptProfile q => meta_key (scp_Meta q) = meta_key (scp_Meta p)
  | CreateOrUpdateConfigMap k _ | DeleteConfigMap k
  | CreateOrUpdateDaemonSet k _ | DeleteDaemonSet k => k = MkKey (scp_Namespace p) (scriptResourceName p)
  | GetScriptProfile _ | ListNodes _ | Now => True
  | _ => False
  end.

Section ScriptTheorems.

Context {lib : K8sLib} {laws : K8sLibLaws}.
Variable image : string.
Context {W : Type} (step : W -> event -> W -> Prop).

Lemma exec_ensureScriptDaemonSet p name hash labels w t w' r :
  exec step (ensureScriptDaemonSet image p name hash labels) w t w' r ->
  exists x, t = [Ev (CreateOrUpdateDaemonSet (MkKey (scp_Namespace p) name)
                       (mutate_ScriptDaemonSet image p name hash labels)) x] /\
    step w (Ev (CreateOrUpdateDaemonSet (MkKey (scp_Namespace p) name)
                  (mutate_ScriptDaemonSet image p name hash labels)) x) w' /\
    (r = None -> exists op, x = inr op).
Proof.
  intros (x & w1 & t' & -> & Hs & H). exists x.
  destruct x as [err|op]; destruct H as (-> & -> & ->); split_and!; eauto; done.
Qed.

Lemma exec_deleteScriptDaemonSet p w t w' r :
  exec step (deleteScriptDaemonSet p) w t w' r ->
  exists x, t = [Ev (DeleteDaemonSet (MkKey (scp_Namespace p) (scriptResourceName p))) x] /\
    step w (Ev (DeleteDaemonSet (MkKey (scp_Namespace p) (scriptResourceName p))) x) w' /\
    (r = None -> gone x).
Proof.
  intros (x & w1 & t' & -> & Hs & -> & -> & ->). exists x.
  split_and!; [done..|]. by apply IgnoreNotFound_gone.
Qed.

Lemma exec_scriptSelectedNodeNames p w t w' names :
  exec step (scriptSelectedNodeNames p) w t w' (inr names) ->
  exists sel nodes, LabelSelectorAsSelector (sspec_NodeSelector (scp_Spec p)) = inr sel /\
    t = [Ev (ListNodes sel) (inr nodes)] /\ step w (Ev (ListNodes sel) (inr nodes)) w' /\
    names = map node_Name nodes.
Proof.
  unfold scriptSelectedNodeNames. destruct (LabelSelectorAsSelector _) as [err|sel] eqn:E.
  - by intros (_ & _ & ?).
  - intros (x & w1 & t' & -> & Hs & H). destruct x as [err|nodes]; destruct H as (-> & -> & H).
    + done.
    + injection H as ->. by exists sel, nodes.
Qed.

Lemma exec_script_cleanup p w t w' r :
  exec step (cleanupScript p) w t w' r -> r = None ->
  exists r1 r2 w1,
    t = [Ev (DeleteDaemonSet (MkKey (scp_Namespace p) (scriptResourceName p))) r1;
         Ev (DeleteConfigMap (MkKey (scp_Namespace p) (scriptResourceName p))) r2] /\
    gone r1 /\ gone r2 /\
    step w (Ev (DeleteDaemonSet (MkKey (scp_Namespace p) (scriptResourceName p))) r1) w1 /\
    step w1 (Ev (DeleteConfigMap (MkKey (scp_Namespace p) (scriptResourceName p))) r2) w'.
Proof.
  intros (r1 & w1 & t1 & -> & S1 & H) ->. apply exec_on_ok in H as [G1 H]; [|done].
  destruct H as (r2 & w2 & t2 & -> & S2 & H). apply exec_on_ok in H as [G2 H]; [|done].
  destruct H as (-> & -> & _). apply IgnoreNotFound_gone in G1, G2.
  by exists r1, r2, w1.
Qed.

(** What [script_Reconcile] does with the profile it read. *)
Lemma exec_script_Reconcile k w t w' r :
  exec step (script_Reconcile image k) w t w' r ->
  exists x w1 t1, t = Ev (GetScriptProfile k) x :: t1 /\ step w (Ev (GetScriptProfile k) x) w1 /\
    match x with
    | inl err => t1 = [] /\ w' = w1 /\ r = IgnoreNotFound (Some err)
    | inr p =>
        let fs := om_Finalizers (scp_Meta p) in
        if negb (IsZero (om_DeletionTimestamp (scp_Meta p))) then
          if ContainsFinalizer fs finalizer then
            exec step (let* err := cleanupScript p in on_ok err Some (do_call (UpdateScriptProfile
              (scp_set_Meta (set_Finalizers (RemoveFinalizer fs finalizer) (scp_Meta p)) p)))) w1 t1 w' r
          else t1 = [] /\ w' = w1 /\ r = None
        else if negb (ContainsFinalizer fs finalizer) then
          exec step (do_call (UpdateScriptProfile
              (scp_set_Meta (set_Finalizers (AddFinalizer fs finalizer) (scp_Meta p)) p))) w1 t1 w' r
        else exec step (script_reconcile_live image p) w1 t1 w' r
    end.
Proof.
  intros (x & w1 & t1 & -> & S1 & H). exists x, w1, t1. split_and!; [done..|].
  destruct x as [err|p]; [done|]. cbn [bind] in H. cbn zeta in *.
  by destruct (IsZero _), (ContainsFinalizer _ _).
Qed.

(** The rollout gate of scripts: it opens exactly when some node is selected and every
    selected node has a status that says it ran the scripts of this very hash. *)
Theorem scriptAllNodesApplied_iff p selected hash :
  scriptAllNodesApplied p selected hash = true <->
  selected <> [] /\ forall n, In n selected -> applied_at (sst_NodeStatuses (scp_Status p)) n hash.
Proof. apply gate_iff. Qed.

(** Nothing is created for a ScriptProfile before its finalizer is in place, nor
    once it is being deleted: if a reconcile tries to create or update an owned
    object, then the profile it read has the finalizer and no deletion time. *)
Theorem script_finalizer_before_resources k w t w' r ev :
  exec step (script_Reconcile image k) w t w' r -> In ev t -> creates (ev_call ev) ->
  exists p t', t = Ev (GetScriptProfile k) (inr p) :: t' /\
    IsZero (om_DeletionTimestamp (scp_Meta p)) = true /\ In finalizer (om_Finalizers (scp_Meta p)).
Proof.
  intros H Hin Hc. apply exec_script_Reconcile in H as (x & w1 & t1 & -> & _ & H).
  destruct Hin as [<-|Hin]; [done|].
  destruct x as [err|p]; [by destruct H as (-> & _)|]. cbn zeta in H.
  destruct (IsZero _) eqn:EZ; destruct (ContainsFinalizer _ _) eqn:EF; cbn [negb] in H.
  - exists p, t1. split_and!; [done..|]. by apply ContainsFinalizer_law.
  - exfalso. eapply exec_never, Hc; [|exact H|exact Hin]. each_call; try done; by intros [].
  - exfalso. eapply exec_never, Hc; [|exact H|exact Hin]. unfold cleanupScript. each_call; try done; by intros [].
  - by destruct H as (-> & _).
Qed.

(** A reconcile of a ScriptProfile stays with it: every call it makes reads,
    or writes to the profile it was asked about, or to the ConfigMap or the
    DaemonSet of that profile. *)
Theorem script_reconcile_own_calls k p t w w' r :
  exec step (script_Reconcile image k) w (Ev (GetScriptProfile k) (inr p) :: t) w' r ->
  Forall (fun ev => script_own_call p (ev_call ev)) t.
Proof.
  intros H. apply exec_script_Reconcile in H as (x & w1 & t1 & Et & _ & H).
  apply cons_eq_inv in Et as [Ex <-]. apply (f_equal got_script) in Ex. cbn in Ex. subst x. cbn zeta in H.
  destruct (IsZero _) eqn:EZ; destruct (ContainsFinalizer _ _) eqn:EF; cbn [negb] in H.
  - eapply exec_calls, H. unfold script_reconcile_live, scriptSelectedNodeNames, script_finish, ensureScriptDaemonSet, deleteScriptDaemonSet. by each_call.
  - eapply exec_calls, H. by each_call.
  - eapply exec_calls, H. unfold cleanupScript. by each_call.
  - destruct H as (-> & _). constructor.
Qed.

(** Deletion is ordered: a ScriptProfile that is being deleted loses the finalizer
    only after the DaemonSet and the ConfigMap have been deleted, in
    this order, each deleted or already gone; and the update takes exactly this
    finalizer away. *)
Theorem script_deletion_order k p t w w' r q x :
  exec step (script_Reconcile image k) w (Ev (GetScriptProfile k) (inr p) :: t) w' r ->
  IsZero (om_DeletionTimestamp (scp_Meta p)) = false ->
  In (Ev (UpdateScriptProfile q) x) t ->
  exists r1 r2,
    t = [Ev (DeleteDaemonSet (MkKey (scp_Namespace p) (scriptResourceName p))) r1;
         Ev (DeleteConfigMap (MkKey (scp_Namespace p) (scriptResourceName p))) r2;
         Ev (UpdateScriptProfile q) x] /\
    gone r1 /\ gone r2 /\ r = x /\
    forall f, In f (om_Finalizers (scp_Meta q)) <-> f <> finalizer /\ In f (om_Finalizers (scp_Meta p)).
Proof.
  intros H EZ Hin. apply exec_script_Reconcile in H as (y & w1 & t0 & Et & _ & H).
  apply cons_eq_inv in Et as [Ey <-]. apply (f_equal got_script) in Ey. cbn in Ey. subst y. cbn zeta in H. rewrite EZ in H. cbn [negb] in H.
  destruct (ContainsFinalizer _ _) eqn:EF; [|by destruct H as (-> & _)].
  apply exec_bind in H as (t1 & w2 & err & t2 & -> & H1 & H2).
  apply in_app_iff in Hin as [Hin|Hin].
  - exfalso. eapply (exec_never step (fun c => exists q, c = UpdateScriptProfile q)); [|exact H1|exact Hin|by exists q].
    unfold cleanupScript. each_call; by intros [].
  - destruct err as [e|]; [by destruct H2 as (-> & _)|].
    apply exec_script_cleanup in H1 as (r1 & r2 & v1 & -> & G1 & G2 & _); [|done].
    destruct H2 as (z & v3 & t3 & -> & _ & -> & -> & ->). destruct Hin as [Hin|[]].
    pose proof (f_equal write_error Hin) as Hz. cbn in Hz. subst z.
    apply (f_equal (fun ev => match ev_call ev with UpdateScriptProfile q => Some q | _ => None end)) in Hin.
    cbn in Hin. injection Hin as <-.
    exists r1, r2. split_and!; try done. intros f. apply RemoveFinalizer_law.
Qed.

End ScriptTheorems.
