(* ===== verification/Snapshot.v ===== *)
(** * The status update in place, and the snapshot it is compared with.

    A reconcile keeps [profile.Status.DeepCopy()] aside, then changes
    [profile.Status] field by field, the conditions through a pointer to their
    slice, and at the end compares the two. Here both are structs in memory. The
    theorems: the snapshot still reads as the status before, and [profile.Status] as
    [next_status]; so the pure comparison of [finish] and [script_finish] is what
    the code computes. *)
From S2P Require Import Prelude GoStrings Api GoHeap DeepCopy K8s SysctlController ScriptController.

#[local] Open Scope mem_scope.

(** [meta.SetStatusCondition] on a slice in memory: it may write to the elements
    of the slice's array, and may allocate a larger one. *)
Class InPlaceConditions {libt : LibTypes} := {
  m_SetStatusCondition : slice m_Condition -> Condition -> Time -> Mem cell (slice m_Condition)
}.

Definition unchanged_but {libt : LibTypes} (s : slice m_Condition) (h h' : gmap positive cell) : Prop :=
  forall l c, h !! l = Some c -> (forall offset len, s <> SArr l offset len) -> h' !! l = Some c.

Class InPlaceLaws {libt : LibTypes} {libc : LibCopies} {lib : K8sLib} {inp : InPlaceConditions} := {
  m_SetStatusCondition_law h s cs c now s' h' :
    read_slice h s = Some cs -> m_SetStatusCondition s c now h = (s', h') ->
    read_slice h' s' = Some (SetStatusCondition cs c now) /\ unchanged_but s h h';
  (** A condition holds no pointers. *)
  Condition_no_pointers (h h' : gmap positive cell) (c : m_Condition) :
    read h c = (read h' c : option Condition)
}.

Section InPlace.

Context {libt : LibTypes} {libc : LibCopies} {lib : K8sLib} {inp : InPlaceConditions}.

Abbreviation heap := (gmap positive cell).
Abbreviation Mem := (Mem cell).

(** An assignment to the variable at [l], or to some of its fields. *)
Definition assign {E : Type} {arr : ArrayCell cell E} (l : loc) (f : E -> E) : Mem unit := fun h =>
  match deref h l with Some x => store_elem l 0 (f x) h | None => (tt, h) end.

(** The fields of a profile that a reconcile assigns. *)
Class StatusFields (E : Type) := {
  m_conditions : E -> slice m_Condition;
  set_conditions : slice m_Condition -> E -> E;
  set_teardown : string -> E -> E;
  set_observed : string -> Z -> E -> E
}.

Definition m_set_Status (f : m_SysctlProfileStatus -> m_SysctlProfileStatus) (x : m_SysctlProfile) : m_SysctlProfile :=
  Mk_m_SysctlProfile (m_sp_Type x) (m_sp_Meta x) (m_sp_Spec x) (f (m_sp_Status x)).

#[export] Instance SysctlProfile_fields : StatusFields m_SysctlProfile := {|
  m_conditions x := m_st_Conditions (m_sp_Status x);
  set_conditions cs := m_set_Status (fun s =>
    Mk_m_SysctlProfileStatus (m_st_ObservedHash s) (m_st_TeardownHash s) (m_st_DesiredNodes s)
      (m_st_AppliedNodes s) (m_st_FailedNodes s) (m_st_DriftedNodes s) (m_st_ErroredPods s)
      (m_st_LastRolloutTime s) (m_st_NodeStatuses s) cs);
  set_teardown hash := m_set_Status (fun s =>
    Mk_m_SysctlProfileStatus (m_st_ObservedHash s) hash (m_st_DesiredNodes s)
      (m_st_AppliedNodes s) (m_st_FailedNodes s) (m_st_DriftedNodes s) (m_st_ErroredPods s)
      (m_st_LastRolloutTime s) (m_st_NodeStatuses s) (m_st_Conditions s));
  set_observed hash desired := m_set_Status (fun s =>
    Mk_m_SysctlProfileStatus hash (m_st_TeardownHash s) desired
      (m_st_AppliedNodes s) (m_st_FailedNodes s) (m_st_DriftedNodes s) (m_st_ErroredPods s)
      (m_st_LastRolloutTime s) (m_st_NodeStatuses s) (m_st_Conditions s))
|}.

Definition m_set_ScriptStatus (f : m_ScriptProfileStatus -> m_ScriptProfileStatus) (x : m_ScriptProfile) : m_ScriptProfile :=
  Mk_m_ScriptProfile (m_scp_Type x) (m_scp_Meta x) (m_scp_Spec x) (f (m_scp_Status x)).

#[export] Instance ScriptProfile_fields : StatusFields m_ScriptProfile := {|
  m_conditions x := m_sst_Conditions (m_scp_Status x);
  set_conditions cs := m_set_ScriptStatus (fun s =>
    Mk_m_ScriptProfileStatus (m_sst_ObservedHash s) (m_sst_TeardownHash s) (m_sst_DesiredNodes s)
      (m_sst_AppliedNodes s) (m_sst_FailedNodes s) (m_sst_NodeStatuses s) cs);
  set_teardown hash := m_set_ScriptStatus (fun s =>
    Mk_m_ScriptProfileStatus (m_sst_ObservedHash s) hash (m_sst_DesiredNodes s)
      (m_sst_AppliedNodes s) (m_sst_FailedNodes s) (m_sst_NodeStatuses s) (m_sst_Conditions s));
  set_observed hash desired := m_set_ScriptStatus (fun s =>
    Mk_m_ScriptProfileStatus hash (m_sst_TeardownHash s) desired
      (m_sst_AppliedNodes s) (m_sst_FailedNodes s) (m_sst_NodeStatuses s) (m_sst_Conditions s))
|}.

(** [meta.SetStatusCondition(&profile.Status.Conditions, c)] *)
Definition set_condition {E : Type} {arr : ArrayCell cell E} {fields : StatusFields E}
    (profile : loc) (c : Condition) (now : Time) : Mem unit := fun h =>
  match deref h profile with
  | None => (tt, h)
  | Some x =>
      (let! cs := m_SetStatusCondition (m_conditions x) c now in assign profile (set_conditions cs)) h
  end.

(** The assignments to [profile.Status] of the switch and of the last step; the
    controllers differ in the messages of the two conditions. *)
Definition update_status {E : Type} {arr : ArrayCell cell E} {fields : StatusFields E}
    (complete_message rolling_message : string)
    (profile : loc) (generation : Z) (selected : list string) (hash : string)
    (rolloutComplete : bool) (now : Time) : Mem unit :=
  let! _ :=
    (if rolloutComplete then
       let! _ := assign profile (set_teardown hash) in
       set_condition profile (MkCondition "Ready" "True" generation 0 "RolloutComplete" complete_message) now
     else
       set_condition profile (MkCondition "Ready" "True" generation 0 "RollingOut" rolling_message) now) in
  assign profile (set_observed hash (wrap32 (Z.of_nat (length selected)))).

(** [originalStatus := profile.Status.DeepCopy()], then the update: the snapshot. *)
Definition sysctl_snapshot_and_update (profile : loc) (generation : Z) (selected : list string) (hash : string)
    (rolloutComplete : bool) (now : Time) : Mem (pointer m_SysctlProfileStatus) := fun h =>
  match deref h profile with
  | None => (PNil, h)
  | Some x =>
      (let! originalStatus := new_copy (m_sp_Status x) in
       let! _ := update_status (E := m_SysctlProfile)
                   "all selected nodes applied; applier DaemonSet torn down" "applier DaemonSet active"
                   profile generation selected hash rolloutComplete now in
       mem_ret originalStatus) h
  end.

Definition script_snapshot_and_update (profile : loc) (generation : Z) (selected : list string) (hash : string)
    (rolloutComplete : bool) (now : Time) : Mem (pointer m_ScriptProfileStatus) := fun h =>
  match deref h profile with
  | None => (PNil, h)
  | Some x =>
      (let! originalStatus := new_copy (m_scp_Status x) in
       let! _ := update_status (E := m_ScriptProfile)
                   "all selected nodes ran the scripts; runner DaemonSet torn down" "runner DaemonSet active"
                   profile generation selected hash rolloutComplete now in
       mem_ret originalStatus) h
  end.

End InPlace.

(** ** Lemmas *)

Section Lemmas.

Context {libt : LibTypes} {libc : LibCopies} {libl : LibCopyLaws} {lib : K8sLib}
  {inp : InPlaceConditions} {inpl : InPlaceLaws}.

Abbreviation heap := (gmap positive cell).

(** What the update leaves alone: every cell but the profile's and the array of
    its conditions. *)
Definition kept (profile : loc) (s : slice m_Condition) (h h' : heap) : Prop :=
  forall l c, h !! l = Some c -> l <> profile -> (forall offset len, s <> SArr l offset len) -> h' !! l = Some c.

Lemma slice_cell {E} {arr : ArrayCell cell E} (h : heap) l offset len (elems : list E) :
  slice_elems h (SArr l offset len) = Some elems -> exists c, h !! l = Some c /\ is_Some (of_cell c : option (list E)).
Proof.
  cbn [slice_elems]. unfold array_at. destruct (h !! l) as [c|]; [|done].
  intros H. exists c. split; [done|]. by destruct (of_cell c).
Qed.

Lemma read_slice_cell {E T} {arr : ArrayCell cell E} {deep : Deep cell E T} (h : heap) l offset len vs :
  read_slice h (SArr l offset len) = Some vs -> exists c, h !! l = Some c /\ is_Some (of_cell c : option (list E)).
Proof.
  unfold read_slice. destruct (slice_elems h _) as [elems|] eqn:El; [|done]. intros _. by eapply slice_cell.
Qed.

(** A slice of structs without pointers depends on the one cell. *)
Lemma read_slice_frame {E T} {arr : ArrayCell cell E} {deep : Deep cell E T} (h h' : heap) (s : slice E) vs :
  (forall h h' (x : E), read h x = read h' x) ->
  read_slice h s = Some vs ->
  (forall l c, h !! l = Some c -> is_Some (of_cell c : option (list E)) -> h' !! l = Some c) ->
  read_slice h' s = Some vs.
Proof.
  intros Hflat Hr Hk. destruct s as [|l offset len]; [done|].
  destruct (read_slice_cell _ _ _ _ _ Hr) as (c & Hl & Hc). pose proof (Hk _ _ Hl Hc) as Hl'.
  unfold read_slice in *. cbn [slice_elems] in *. unfold array_at in *. rewrite Hl in Hr. rewrite Hl'.
  destruct (of_cell c) as [a|]; [|done]. destruct (_ <=? _)%nat; [|done].
  rewrite mapM_Some in *. revert Hr. apply Forall2_impl. intros x v. by rewrite (Hflat h h').
Qed.

Lemma read_pointer_frame {E T} {arr : ArrayCell cell E} {deep : Deep cell E T} (h h' : heap) (p : pointer E) v :
  (forall h h' (x : E), read h x = read h' x) ->
  read_pointer h p = Some v ->
  (forall l c, h !! l = Some c -> is_Some (of_cell c : option (list E)) -> h' !! l = Some c) ->
  read_pointer h' p = Some v.
Proof.
  intros Hflat Hr Hk. destruct p as [|l]; [done|]. simpl in *. unfold deref, array_at in *.
  destruct (h !! l) as [c|] eqn:Hl; [|done]. destruct (of_cell c) as [a|] eqn:Ec; [|done].
  rewrite (Hk _ _ Hl) by by rewrite Ec. rewrite Ec. destruct a as [|x [|]]; [done| |done].
  by rewrite (Hflat h' h).
Qed.

(** The cells that a copy made before the update are kept. *)
Lemma kept_new (h h1 h2 : heap) profile (s : slice m_Condition) cs :
  is_Some (h !! profile) -> read_slice h s = Some cs -> kept profile s h1 h2 -> h1 ∖ h ⊆ h2.
Proof.
  intros Hp Hr Hk. apply map_subseteq_spec. intros l c [Hl Hn]%lookup_difference_Some. apply Hk; [done|..].
  - intros ->. rewrite Hn in Hp. by destruct Hp.
  - intros offset len ->. destruct (read_slice_cell _ _ _ _ _ Hr) as (c' & Hl' & _). by rewrite Hn in Hl'.
Qed.

Section Update.

Context {E : Type} {arr : ArrayCell cell E} {fields : StatusFields E}.
Hypothesis other_cell : forall a : list E, (of_cell (to_cell a) : option (list m_Condition)) = None.

Lemma assign_spec (h : heap) l (x : E) (f : E -> E) :
  h !! l = Some (to_cell [x]) -> assign l f h = (tt, <[l := to_cell [f x]]> h).
Proof. intros H. unfold assign, deref, store_elem, array_at. by rewrite H, of_to_cell. Qed.

(** The profile's cell is not an array of conditions. *)
Lemma not_conditions (h : heap) profile (x : E) offset len cs :
  h !! profile = Some (to_cell [x]) -> read_slice h (SArr profile offset len : slice m_Condition) <> Some cs.
Proof.
  intros Hp Hr. destruct (read_slice_cell _ _ _ _ _ Hr) as (c & Hl & Hc). rewrite Hp in Hl. injection Hl as <-.
  rewrite other_cell in Hc. by destruct Hc.
Qed.

Lemma read_conditions_assign (h : heap) profile (x y : E) (s : slice m_Condition) cs :
  h !! profile = Some (to_cell [x]) -> read_slice h s = Some cs ->
  read_slice (<[profile := to_cell [y]]> h) s = Some cs.
Proof.
  intros Hp Hr. eapply read_slice_frame; [apply Condition_no_pointers|exact Hr|].
  intros l c Hl Hc. rewrite lookup_insert_ne; [done|]. intros <-. rewrite Hp in Hl. injection Hl as <-.
  rewrite other_cell in Hc. by destruct Hc.
Qed.

Lemma kept_assign (h : heap) profile s c : kept profile s h (<[profile := c]> h).
Proof. intros l c' Hl Hn _. by rewrite lookup_insert_ne. Qed.

Lemma set_condition_spec (h h' : heap) profile (x : E) c now cs :
  h !! profile = Some (to_cell [x]) -> read_slice h (m_conditions x) = Some cs ->
  set_condition profile c now h = (tt, h') ->
  exists s, h' !! profile = Some (to_cell [set_conditions s x]) /\
    read_slice h' s = Some (SetStatusCondition cs c now) /\ kept profile (m_conditions x) h h'.
Proof.
  intros Hp Hr H. unfold set_condition, deref, array_at in H. rewrite Hp, of_to_cell in H. unfold mem_bind in H.
  destruct (m_SetStatusCondition _ _ _ _) as [s h1] eqn:Es.
  destruct (m_SetStatusCondition_law _ _ _ _ _ _ _ Hr Es) as [Hs Hun].
  assert (Hp1 : h1 !! profile = Some (to_cell [x])).
  { apply Hun; [done|]. intros offset len Heq. rewrite Heq in Hr. by eapply not_conditions. }
  rewrite (assign_spec _ _ _ _ Hp1) in H. injection H as <-. exists s. split_and!.
  - apply lookup_insert_eq.
  - by eapply read_conditions_assign.
  - intros l c' Hl Hn Ho. rewrite lookup_insert_ne by done. by apply Hun.
Qed.

Lemma update_status_spec cm rm (h h' : heap) profile generation selected hash complete now (x : E) cs :
  (forall hash x, m_conditions (set_teardown hash x) = m_conditions x) ->
  h !! profile = Some (to_cell [x]) -> read_slice h (m_conditions x) = Some cs ->
  update_status (E := E) cm rm profile generation selected hash complete now h = (tt, h') ->
  let c := if complete then MkCondition "Ready" "True" generation 0 "RolloutComplete" cm
           else MkCondition "Ready" "True" generation 0 "RollingOut" rm in
  exists s, h' !! profile = Some (to_cell [set_observed hash (wrap32 (Z.of_nat (length selected)))
      (set_conditions s (if complete then set_teardown hash x else x))]) /\
    read_slice h' s = Some (SetStatusCondition cs c now) /\ kept profile (m_conditions x) h h'.
Proof.
  intros Htear Hp Hr H c. unfold update_status, mem_bind in H.
  destruct complete; [rewrite (assign_spec _ _ _ _ Hp) in H; set (h0 := <[_ := _]> h) in H|set (h0 := h) in H];
    (destruct (set_condition _ _ _ _) as [[] h1] eqn:E1).
  - apply set_condition_spec with (x := set_teardown hash x) (cs := cs) in E1 as (s & Hp1 & Hs & Hk);
      [|apply lookup_insert_eq|rewrite Htear; by eapply read_conditions_assign].
    rewrite (assign_spec _ _ _ _ Hp1) in H. injection H as <-. exists s. split_and!.
    + apply lookup_insert_eq.
    + by eapply read_conditions_assign.
    + intros l c' Hl Hn Ho. rewrite lookup_insert_ne by done. rewrite Htear in Hk. apply Hk; [|done..].
      unfold h0. by rewrite lookup_insert_ne.
  - apply set_condition_spec with (x := x) (cs := cs) in E1 as (s & Hp1 & Hs & Hk); [|done..].
    rewrite (assign_spec _ _ _ _ Hp1) in H. injection H as <-. exists s. split_and!.
    + apply lookup_insert_eq.
    + by eapply read_conditions_assign.
    + intros l c' Hl Hn Ho. rewrite lookup_insert_ne by done. by apply Hk.
Qed.

(** What the update keeps of the cells of another type. *)
Lemma kept_typed {F} {arrF : ArrayCell cell F} (h h' : heap) profile (x : E) (s : slice m_Condition) cs :
  (of_cell (to_cell [x]) : option (list F)) = None ->
  (forall c, is_Some (of_cell c : option (list F)) -> (of_cell c : option (list m_Condition)) = None) ->
  h !! profile = Some (to_cell [x]) -> read_slice h s = Some cs -> kept profile s h h' ->
  forall l c, h !! l = Some c -> is_Some (of_cell c : option (list F)) -> h' !! l = Some c.
Proof.
  intros Hx Hf Hp Hr Hk l c Hl Hc. apply Hk; [done|..].
  - intros ->. rewrite Hp in Hl. injection Hl as <-. rewrite Hx in Hc. by destruct Hc.
  - intros offset len ->. destruct (read_slice_cell _ _ _ _ _ Hr) as (c' & Hl' & Hc'). rewrite Hl in Hl'.
    injection Hl' as <-. rewrite (Hf _ Hc) in Hc'. by destruct Hc'.
Qed.

End Update.

End Lemmas.

(** ** Theorems *)

Section Theorems.

Context {libt : LibTypes} {libc : LibCopies} {libl : LibCopyLaws} {lib : K8sLib}
  {inp : InPlaceConditions} {inpl : InPlaceLaws}.

(** C16. The snapshot a reconcile of a SysctlProfile compares with. After
    [profile.Status.DeepCopy()] and the assignments to [profile.Status], the
    conditions changed in place, the copy reads as the status the profile had,
    and [profile.Status] as [next_status]; metadata and spec are the ones before. *)
Theorem status_snapshot profile x h tm (p : SysctlProfile) selected hash complete now orig h' :
  h !! profile = Some (CSysctlProfile [x]) -> read h x = Some (tm, p) ->
  sysctl_snapshot_and_update profile (om_Generation (sp_Meta p)) selected hash complete now h = (orig, h') ->
  read_pointer h' orig = Some (Some (sp_Status p)) /\
  exists x', h' !! profile = Some (CSysctlProfile [x']) /\
    read h' (m_sp_Status x') = Some (next_status p selected hash complete now) /\
    m_sp_Meta x' = m_sp_Meta x /\ m_sp_Spec x' = m_sp_Spec x.
Proof.
  intros Hp Hr H. apply bind_Some in Hr as (meta & Hmeta & Hr). apply bind_Some in Hr as (spec & Hspec & Hr).
  apply bind_Some in Hr as (status & Hstatus & [= <- <-]). cbn [sp_Status sp_Meta] in *.
  unfold sysctl_snapshot_and_update, deref, array_at in H. rewrite Hp in H. cbn [of_cell SysctlProfile_cell] in H.
  unfold mem_bind in H. destruct (new_copy _ h) as [o h1] eqn:Ec.
  destruct (new_copy_law _ _ _ _ _ Hstatus Ec) as [Hs Hnew].
  destruct (update_status _ _ _ _ _ _ _ _ _) as [[] h2] eqn:Eu. injection H as <- <-.
  pose proof Hstatus as Hread.
  apply bind_Some in Hread as (t & Ht & Hread). apply bind_Some in Hread as (statuses & Hst & Hread).
  apply bind_Some in Hread as (cs & Hcs & [= <-]).
  assert (Hp1 : h1 !! profile = Some (to_cell [x])) by by eapply lookup_weaken.
  pose proof (read_slice_mono _ _ _ _ Hs Hcs) as Hcs1.
  eapply update_status_spec in Eu as (s & Hp2 & Hcs2 & Hk); [|done|done|exact Hp1|exact Hcs1].
  assert (Ht2 : read_pointer h2 (m_st_LastRolloutTime (m_sp_Status x)) = Some t).
  { eapply read_pointer_frame; [done|by eapply read_pointer_mono|].
    eapply (kept_typed (E := m_SysctlProfile)); [done|by intros []; destruct 1|exact Hp1|exact Hcs1|exact Hk]. }
  assert (Hst2 : read_slice h2 (m_st_NodeStatuses (m_sp_Status x)) = Some statuses).
  { eapply read_slice_frame; [done|by eapply read_slice_mono|].
    eapply (kept_typed (E := m_SysctlProfile)); [done|by intros []; destruct 1|exact Hp1|exact Hcs1|exact Hk]. }
  split; [eapply read_pointer_mono; [|exact Hnew]; eapply kept_new; [by eexists|exact Hcs|exact Hk]|].
  eexists. split_and!; [exact Hp2| |by destruct complete..].
  cbn [read deep_SysctlProfileStatus]. unfold read_SysctlProfileStatus.
  destruct complete; simpl; by rewrite Ht2, Hst2, Hcs2.
Qed.

(** The snapshot a reconcile of a ScriptProfile compares with, likewise. *)
Theorem script_status_snapshot profile x h tm (p : ScriptProfile) selected hash complete now orig h' :
  h !! profile = Some (CScriptProfile [x]) -> read h x = Some (tm, p) ->
  script_snapshot_and_update profile (om_Generation (scp_Meta p)) selected hash complete now h = (orig, h') ->
  read_pointer h' orig = Some (Some (scp_Status p)) /\
  exists x', h' !! profile = Some (CScriptProfile [x']) /\
    read h' (m_scp_Status x') = Some (script_next_status p selected hash complete now) /\
    m_scp_Meta x' = m_scp_Meta x /\ m_scp_Spec x' = m_scp_Spec x.
Proof.
  intros Hp Hr H. apply bind_Some in Hr as (meta & Hmeta & Hr). apply bind_Some in Hr as (spec & Hspec & Hr).
  apply bind_Some in Hr as (status & Hstatus & [= <- <-]). cbn [scp_Status scp_Meta] in *.
  unfold script_snapshot_and_update, deref, array_at in H. rewrite Hp in H. cbn [of_cell ScriptProfile_cell] in H.
  unfold mem_bind in H. destruct (new_copy _ h) as [o h1] eqn:Ec.
  destruct (new_copy_law _ _ _ _ _ Hstatus Ec) as [Hs Hnew].
  destruct (update_status _ _ _ _ _ _ _ _ _) as [[] h2] eqn:Eu. injection H as <- <-.
  pose proof Hstatus as Hread. apply bind_Some in Hread as (statuses & Hst & Hread).
  apply bind_Some in Hread as (cs & Hcs & [= <-]).
  assert (Hp1 : h1 !! profile = Some (to_cell [x])) by by eapply lookup_weaken.
  pose proof (read_slice_mono _ _ _ _ Hs Hcs) as Hcs1.
  eapply update_status_spec in Eu as (s & Hp2 & Hcs2 & Hk); [|done|done|exact Hp1|exact Hcs1].
  assert (Hst2 : read_slice h2 (m_sst_NodeStatuses (m_scp_Status x)) = Some statuses).
  { eapply read_slice_frame; [done|by eapply read_slice_mono|].
    eapply (kept_typed (E := m_ScriptProfile)); [done|by intros []; destruct 1|exact Hp1|exact Hcs1|exact Hk]. }
  split; [eapply read_pointer_mono; [|exact Hnew]; eapply kept_new; [by eexists|exact Hcs|exact Hk]|].
  eexists. split_and!; [exact Hp2| |by destruct complete..].
  cbn [read deep_ScriptProfileStatus]. unfold read_ScriptProfileStatus.
  destruct complete; simpl; by rewrite Hst2, Hcs2.
Qed.

End Theorems.
