(* ===== verification/ReportServer.v ===== *)
(** * The report API ([internal/server/server.go], [internal/metrics/metrics.go]).

    [handleReport] as a program: the request's checks, the decoding of the
    payload, the update of the profile's status with retries on conflict, and
    the counter. The response is its status code. Logging is left out. *)
From Stdlib Require Import Ascii.
From S2P Require Import Prelude GoStrings GoJson JsonText Api Samples K8s ApiServer Rollout.

(** ** The payload *)

Record StatusReport := MkStatusReport {
  sr_Profile : string;
  sr_Namespace : string;
  sr_Kind : string;
  sr_Node : string;
  sr_Pod : string;
  sr_Hash : string;
  sr_Success : bool;
  sr_Applied : list string;
  sr_Failed : list string;
  sr_Message : string
}.

Definition zero_report : StatusReport := MkStatusReport "" "" "" "" "" "" false [] [] "".

Definition report_fields : list string :=
  ["profile"; "namespace"; "kind"; "node"; "pod"; "hash"; "success"; "applied"; "failed"; "message"].

(** A decoder goes on after a value of the wrong type and returns the error in
    the end: the flag says that nothing has been wrong. *)
Definition decode_string (v : json) (old : string) : string * bool :=
  match v with JString s => (s, true) | JNull => (old, true) | _ => (old, false) end.

Definition decode_bool (v : json) (old : bool) : bool * bool :=
  match v with JBool b => (b, true) | JNull => (old, true) | _ => (old, false) end.

(** A slice that the decoder fills: its elements, and those that a longer array of
    an earlier key has left behind them in the same memory. *)
Record Slice := MkSlice { shown : list string; behind : list string }.

(** An array is decoded over the elements that are there, so that a null one leaves
    what was at its place, and the zero value where nothing was; an empty array and
    null make a new slice. *)
Fixpoint decode_elems (l : list json) (there : list string) : list string :=
  match l with
  | [] => []
  | e :: l => fst (decode_string e (hd "" there)) :: decode_elems l (tl there)
  end.

Definition decode_strings (v : json) (old : Slice) : Slice * bool :=
  match v with
  | JArray [] => (MkSlice [] [], true)
  | JArray l =>
      let there := shown old ++ behind old in
      (MkSlice (decode_elems l there) (drop (length l) there), forallb (fun e => snd (decode_string e "")) l)
  | JNull => (MkSlice [] [], true)
  | _ => (old, false)
  end.

(** The report being filled, and the memory behind its two slices. *)
Record Decoder := MkDecoder { into : StatusReport; behind_Applied : list string; behind_Failed : list string }.

Definition new_decoder : Decoder := MkDecoder zero_report [] [].

(** One key of the object; [DisallowUnknownFields] makes an unknown one an
    error. *)
Definition decode_field (acc : Decoder * bool) (kv : string * json) : Decoder * bool :=
  let '(MkDecoder (MkStatusReport profile namespace kind node pod hash success applied failed message) ba bf, ok) :=
    acc in
  let '(key, v) := kv in
  let str old (k : string -> StatusReport) :=
    let '(s, ok') := decode_string v old in (MkDecoder (k s) ba bf, ok && ok') in
  match find_field report_fields key with
  | None => (fst acc, false)
  | Some f =>
      if String.eqb f "profile" then
        str profile (fun x => MkStatusReport x namespace kind node pod hash success applied failed message)
      else if String.eqb f "namespace" then
        str namespace (fun x => MkStatusReport profile x kind node pod hash success applied failed message)
      else if String.eqb f "kind" then
        str kind (fun x => MkStatusReport profile namespace x node pod hash success applied failed message)
      else if String.eqb f "node" then
        str node (fun x => MkStatusReport profile namespace kind x pod hash success applied failed message)
      else if String.eqb f "pod" then
        str pod (fun x => MkStatusReport profile namespace kind node x hash success applied failed message)
      else if String.eqb f "hash" then
        str hash (fun x => MkStatusReport profile namespace kind node pod x success applied failed message)
      else if String.eqb f "success" then
        let '(b, ok') := decode_bool v success in
        (MkDecoder (MkStatusReport profile namespace kind node pod hash b applied failed message) ba bf, ok && ok')
      else if String.eqb f "applied" then
        let '(MkSlice l b, ok') := decode_strings v (MkSlice applied ba) in
        (MkDecoder (MkStatusReport profile namespace kind node pod hash success l failed message) b bf, ok && ok')
      else if String.eqb f "failed" then
        let '(MkSlice l b, ok') := decode_strings v (MkSlice failed bf) in
        (MkDecoder (MkStatusReport profile namespace kind node pod hash success applied l message) ba b, ok && ok')
      else
        str message (fun x => MkStatusReport profile namespace kind node pod hash success applied failed x)
  end.

(** [dec.Decode(&report)]; a top-level null decodes to the zero value. *)
Definition Decode (v : json) : option StatusReport :=
  match v with
  | JObject fields =>
      let '(d, ok) := fold_left decode_field fields (new_decoder, true) in
      if ok then Some (into d) else None
  | JNull => Some zero_report
  | _ => None
  end.

(** ** The status update *)

Definition kindScriptProfile : string := "ScriptProfile".

(** The entry of the reporting node after the report. *)
Definition updated_entry (report : StatusReport) (phase : NodePhase) (now : Time) (ns : NodeStatus) :
    NodeStatus :=
  MkNodeStatus (ns_NodeName ns) phase
    (if sr_Success report then sr_Hash report else ns_AppliedHash ns)
    (if sr_Success report then 0 else inc32 (ns_FailCount ns))
    (sr_Message report) now.

(** The entry of a node that had none. *)
Definition new_entry (report : StatusReport) (phase : NodePhase) (now : Time) : NodeStatus :=
  MkNodeStatus (sr_Node report) phase
    (if sr_Success report then sr_Hash report else "")
    (if sr_Success report then 0 else 1)
    (sr_Message report) now.

(** The loop: the first entry of the node is updated, or one is appended. *)
Fixpoint upsert (report : StatusReport) (phase : NodePhase) (now : Time) (l : list NodeStatus) :
    list NodeStatus :=
  match l with
  | [] => [new_entry report phase now]
  | ns :: l' =>
      if negb (String.eqb (ns_NodeName ns) (sr_Node report)) then ns :: upsert report phase now l'
      else updated_entry report phase now ns :: l'
  end.

Definition upsertNodeStatus (profile : SysctlProfile) (report : StatusReport) (phase : NodePhase)
    (now : Time) : SysctlProfile :=
  let status := sp_Status profile in
  let status := if negb (sr_Success report) then st_set_ErroredPods (inc32 (st_ErroredPods status)) status
                else status in
  sp_set_Status (st_set_NodeStatuses (upsert report phase now (st_NodeStatuses status)) status) profile.

(** The two counters of the loop over the statuses, [int32]s. *)
Definition count_phases (l : list NodeStatus) : Z * Z :=
  fold_left (fun '(applied, failed) ns =>
      if String.eqb (ns_Phase ns) NodePhaseApplied then (inc32 applied, failed)
      else if String.eqb (ns_Phase ns) NodePhaseFailed then (applied, inc32 failed)
      else (applied, failed)) l (0, 0).

Definition recomputeCounts (profile : SysctlProfile) : SysctlProfile :=
  let '(applied, failed) := count_phases (st_NodeStatuses (sp_Status profile)) in
  sp_set_Status (st_set_Counts applied failed (sp_Status profile)) profile.

(** The variants for ScriptProfiles, which have no [ErroredPods]. *)
Definition upsertScriptNodeStatus (profile : ScriptProfile) (report : StatusReport) (phase : NodePhase)
    (now : Time) : ScriptProfile :=
  scp_set_Status
    (sst_set_NodeStatuses (upsert report phase now (sst_NodeStatuses (scp_Status profile))) (scp_Status profile))
    profile.

Definition recomputeScriptCounts (profile : ScriptProfile) : ScriptProfile :=
  let '(applied, failed) := count_phases (sst_NodeStatuses (scp_Status profile)) in
  scp_set_Status (sst_set_Counts applied failed (scp_Status profile)) profile.

(** [metrics.IncErrored] *)
Definition IncErrored (profile namespace node : string) : prog unit :=
  do_call (CounterInc profile namespace node).

(** ** The handler *)

(** A request: the method and the bytes of the body. *)
Record Request := MkRequest { rq_Method : string; rq_Body : string }.

(** The argument of [MaxBytesReader]: 1<<20. *)
Definition maxReportBytes : Z := 1048576.

(** The decoder on the limited body: the first document in it, as a report. *)
Definition DecodeBody (body : string) : option StatusReport :=
  match parse_first (limit_bytes maxReportBytes body) with Some v => Decode v | None => None end.

Definition StatusOK : Z := 200.
Definition StatusBadRequest : Z := 400.
Definition StatusMethodNotAllowed : Z := 405.
Definition StatusInternalServerError : Z := 500.

Definition report_phase (report : StatusReport) : NodePhase :=
  if negb (sr_Success report) then NodePhaseFailed else NodePhaseApplied.

Definition report_key (report : StatusReport) : NamespacedName :=
  MkKey (sr_Namespace report) (sr_Profile report).

Section ReportServer.

Context {lib : K8sLib}.

(** The functions retried on conflict. *)
Definition record_attempt (report : StatusReport) : prog (option error) :=
  let* r := do_call (GetSysctlProfile (report_key report)) in
  match r with
  | inl err => Ret (Some err)
  | inr profile =>
      let* now := do_call Now in
      do_call (StatusUpdateSysctlProfile
        (recomputeCounts (upsertNodeStatus profile report (report_phase report) now)))
  end.

Definition script_record_attempt (report : StatusReport) : prog (option error) :=
  let* r := do_call (GetScriptProfile (report_key report)) in
  match r with
  | inl err => Ret (Some err)
  | inr profile =>
      let* now := do_call Now in
      do_call (StatusUpdateScriptProfile
        (recomputeScriptCounts (upsertScriptNodeStatus profile report (report_phase report) now)))
  end.

Definition applyScriptReport (report : StatusReport) : prog (option error) :=
  RetryOnConflict (script_record_attempt report).

Definition applyReport (report : StatusReport) : prog (option error) :=
  if String.eqb (sr_Kind report) kindScriptProfile then applyScriptReport report
  else RetryOnConflict (record_attempt report).

Definition handleReport (r : Request) : prog Z :=
  if negb (String.eqb (rq_Method r) "POST") then Ret StatusMethodNotAllowed
  else
    match DecodeBody (rq_Body r) with
    | None => Ret StatusBadRequest
    | Some report =>
        if String.eqb (sr_Profile report) "" || String.eqb (sr_Namespace report) ""
           || String.eqb (sr_Node report) ""
        then Ret StatusBadRequest
        else
          let* err := applyReport report in
          match err with
          | Some e =>
              match IgnoreNotFound (Some e) with
              | None => Ret StatusOK
              | Some _ => Ret StatusInternalServerError
              end
          | None =>
              let* _ := (if negb (sr_Success report)
                         then IncErrored (sr_Profile report) (sr_Namespace report) (sr_Node report)
                         else Ret tt) in
              Ret StatusOK
          end
    end.

End ReportServer.

(** ** Lemmas: the per-node statuses *)

(** The entry of a node. *)
Definition entry_of (node : string) (l : list NodeStatus) : option NodeStatus :=
  List.find (fun ns => String.eqb (ns_NodeName ns) node) l.

Lemma upsert_entry (report : StatusReport) (phase : NodePhase) (now : Time) (l : list NodeStatus)
    (node : string) :
  entry_of node (upsert report phase now l) =
    if String.eqb node (sr_Node report) then
      Some (match entry_of node l with
            | Some ns => updated_entry report phase now ns
            | None => new_entry report phase now
            end)
    else entry_of node l.
Proof.
  unfold entry_of. induction l as [|ns l IH]; simpl.
  - rewrite (String.eqb_sym (sr_Node report)). by destruct (String.eqb_spec node (sr_Node report)) as [->|].
  - destruct (String.eqb_spec (ns_NodeName ns) (sr_Node report)) as [E|E]; simpl.
    + rewrite E, (String.eqb_sym (sr_Node report)).
      by destruct (String.eqb node (sr_Node report)).
    + rewrite IH. destruct (String.eqb_spec (ns_NodeName ns) node) as [Hn|Hn]; [|done].
      rewrite <- Hn. apply String.eqb_neq in E. by rewrite E.
Qed.

Lemma upsert_names (report : StatusReport) (phase : NodePhase) (now : Time) (l : list NodeStatus) :
  map ns_NodeName (upsert report phase now l) =
    if existsb (fun ns => String.eqb (ns_NodeName ns) (sr_Node report)) l then map ns_NodeName l
    else map ns_NodeName l ++ [sr_Node report].
Proof.
  induction l as [|ns l IH]; simpl; [done|].
  destruct (String.eqb (ns_NodeName ns) (sr_Node report)); simpl; [done|]. rewrite IH.
  by destruct (existsb _ l).
Qed.

Lemma upsert_NoDup (report : StatusReport) (phase : NodePhase) (now : Time) (l : list NodeStatus) :
  List.NoDup (map ns_NodeName l) -> List.NoDup (map ns_NodeName (upsert report phase now l)).
Proof.
  intros H. rewrite upsert_names. destruct (existsb _ l) eqn:E; [done|].
  apply List.NoDup_app; [done|by constructor; [intros []|constructor]|].
  intros x Hx [<-|[]]. apply in_map_iff in Hx as (ns & Hn & Hin).
  apply not_true_iff_false in E. apply E, existsb_exists. exists ns. by rewrite Hn, String.eqb_refl.
Qed.

Lemma upsert_other (report : StatusReport) (phase : NodePhase) (now : Time) (l : list NodeStatus)
    (node hash : string) :
  node <> sr_Node report -> applied_at (upsert report phase now l) node hash <-> applied_at l node hash.
Proof.
  intros Hne. unfold applied_at. induction l as [|ns l IH]; simpl.
  - split; [|by intros (? & [] & _)]. intros (x & [<-|[]] & Hn & _). done.
  - destruct (String.eqb_spec (ns_NodeName ns) (sr_Node report)) as [E|E]; simpl.
    + split; intros (x & [<-|Hx] & Hn & H); try (exists x; by split; [right|]); simpl in Hn; congruence.
    + split; intros (x & [<-|Hx] & H); try (exists ns; by split; [left|]);
        (destruct IH as [IH1 IH2]; [..]);
        [destruct IH1 as (y & Hy & H'); [by exists x|]|destruct IH2 as (y & Hy & H'); [by exists x|]];
        exists y; (split; [by right|done]).
Qed.

Lemma upsert_success (report : StatusReport) (now : Time) (l : list NodeStatus) :
  sr_Success report = true ->
  applied_at (upsert report (report_phase report) now l) (sr_Node report) (sr_Hash report).
Proof.
  intros Hs. unfold report_phase. rewrite Hs. unfold applied_at. induction l as [|ns l IH]; simpl.
  - eexists. split; [by left|]. unfold new_entry. by rewrite Hs.
  - destruct (String.eqb_spec (ns_NodeName ns) (sr_Node report)) as [E|E]; simpl.
    + eexists. split; [by left|]. unfold updated_entry. by rewrite Hs.
    + destruct IH as (y & Hy & H). exists y. split; [by right|done].
Qed.

(** The counters. *)
Definition in_phase (phase : NodePhase) (l : list NodeStatus) : nat :=
  length (List.filter (fun ns => String.eqb (ns_Phase ns) phase) l).

Lemma in_phase_sum (l : list NodeStatus) :
  (in_phase NodePhaseApplied l + in_phase NodePhaseFailed l <= length l)%nat.
Proof.
  unfold in_phase. induction l as [|ns l IH]; simpl; [lia|].
  destruct (String.eqb_spec (ns_Phase ns) NodePhaseApplied) as [->|]; simpl; [lia|].
  destruct (String.eqb (ns_Phase ns) NodePhaseFailed); simpl; lia.
Qed.

Lemma count_phases_from (l : list NodeStatus) (a f : Z) :
  0 <= a -> 0 <= f -> a + f + Z.of_nat (length l) < 2^31 ->
  fold_left (fun '(applied, failed) ns =>
      if String.eqb (ns_Phase ns) NodePhaseApplied then (inc32 applied, failed)
      else if String.eqb (ns_Phase ns) NodePhaseFailed then (applied, inc32 failed)
      else (applied, failed)) l (a, f) =
  (a + Z.of_nat (in_phase NodePhaseApplied l), f + Z.of_nat (in_phase NodePhaseFailed l)).
Proof.
  unfold in_phase. revert a f. induction l as [|ns l IH]; intros a f Ha Hf Hl; cbn [fold_left length List.filter] in *.
  - f_equal; simpl; lia.
  - destruct (String.eqb_spec (ns_Phase ns) NodePhaseApplied) as [E|E].
    + rewrite E. change (String.eqb NodePhaseApplied NodePhaseFailed) with false. cbn [length].
      rewrite inc32_small by (unfold int32_range; lia). rewrite IH by lia. f_equal; lia.
    + destruct (String.eqb (ns_Phase ns) NodePhaseFailed); cbn [length].
      * rewrite inc32_small by (unfold int32_range; lia). rewrite IH by lia. f_equal; lia.
      * rewrite IH by lia. done.
Qed.

(** ** Properties: the statuses *)

(** C24. A report touches its own node and no other: afterwards the node's entry
    carries the report's phase, message and time, a success also its hash and a
    fail count of zero, a failure the old hash and one more failure (on 32
    bits); the entries of the other nodes are what they were, no node has two
    entries if none had, and the profile's error counter counts failures. *)
Theorem upsertNodeStatus_spec (p : SysctlProfile) (report : StatusReport) (now : Time) :
  let p' := upsertNodeStatus p report (report_phase report) now in
  let l := st_NodeStatuses (sp_Status p) in
  let l' := st_NodeStatuses (sp_Status p') in
  entry_of (sr_Node report) l' = Some (
    let old := entry_of (sr_Node report) l in
    let hash := match old with Some ns => ns_AppliedHash ns | None => "" end in
    let fails := match old with Some ns => ns_FailCount ns | None => 0 end in
    if sr_Success report
    then MkNodeStatus (sr_Node report) NodePhaseApplied (sr_Hash report) 0 (sr_Message report) now
    else MkNodeStatus (sr_Node report) NodePhaseFailed hash (inc32 fails) (sr_Message report) now) /\
  (forall node, node <> sr_Node report -> entry_of node l' = entry_of node l) /\
  (List.NoDup (map ns_NodeName l) -> List.NoDup (map ns_NodeName l')) /\
  st_ErroredPods (sp_Status p') =
    (if sr_Success report then st_ErroredPods (sp_Status p) else inc32 (st_ErroredPods (sp_Status p))) /\
  sp_Meta p' = sp_Meta p /\ sp_Spec p' = sp_Spec p.
Proof.
  intros p' l l'.
  assert (Hl : l' = upsert report (report_phase report) now l)
    by (unfold l', l, p', upsertNodeStatus; by destruct (sr_Success report)).
  rewrite Hl. split; [|split; [|split; [|split; [|done]]]].
  - rewrite upsert_entry, String.eqb_refl. unfold updated_entry, new_entry, report_phase.
    destruct (entry_of (sr_Node report) l) as [ns|] eqn:E; [|by destruct (sr_Success report)].
    apply find_some in E as [_ E%String.eqb_eq]. rewrite E. by destruct (sr_Success report).
  - intros node Hn%String.eqb_neq. by rewrite upsert_entry, Hn.
  - apply upsert_NoDup.
  - unfold p', upsertNodeStatus. by destruct (sr_Success report).
Qed.

(** C36. The aggregate counters are exact: below 2^31 entries, [appliedNodes] and
    [failedNodes] are the numbers of entries in the two phases, so that together
    they never exceed the number of entries; nothing else changes. *)
Theorem recomputeCounts_exact (p : SysctlProfile) :
  let l := st_NodeStatuses (sp_Status p) in
  Z.of_nat (length l) < 2^31 ->
  let st := sp_Status (recomputeCounts p) in
  st = st_set_Counts (Z.of_nat (in_phase NodePhaseApplied l)) (Z.of_nat (in_phase NodePhaseFailed l))
         (sp_Status p) /\
  st_AppliedNodes st + st_FailedNodes st <= Z.of_nat (length l).
Proof.
  intros l Hl st.
  assert (E : count_phases l = (Z.of_nat (in_phase NodePhaseApplied l), Z.of_nat (in_phase NodePhaseFailed l)))
    by (unfold count_phases; rewrite count_phases_from; [f_equal|..]; lia).
  assert (Es : st = st_set_Counts (Z.of_nat (in_phase NodePhaseApplied l))
                      (Z.of_nat (in_phase NodePhaseFailed l)) (sp_Status p))
    by (unfold st, recomputeCounts; fold l; by rewrite E).
  split; [done|]. rewrite Es. simpl. pose proof (in_phase_sum l). lia.
Qed.

Definition two_reports : SysctlProfile := sp_set_Status (st_set_NodeStatuses
  [MkNodeStatus "a" NodePhaseApplied "h" 0 "" 1; MkNodeStatus "b" NodePhaseFailed "" 2 "" 1]
  empty_status) small_profile.

Lemma recomputeCounts_exact_witness :
  st_AppliedNodes (sp_Status (recomputeCounts two_reports)) = 1.
Proof.
  destruct (recomputeCounts_exact two_reports) as [H _]; [vm_compute; reflexivity|].
  rewrite H. reflexivity.
Defined.
