(* ===== verification/ReportDecode.v ===== *)
(** * What the report API accepts.

    The strict decoder goes through the keys of the body's object one by one; here is
    what it comes to, in terms of the object as a whole: every key must stand for a
    field and its value fit it, and a field has the last value that is not null. *)
From Stdlib Require Import Ascii.
From S2P Require Import Prelude GoStrings GoJson JsonText Api K8s ReportServer.

(** ** The reference *)

(** A field of an object, by the name of the struct's field it stands for. *)
Definition named (f : string) (kv : string * json) : bool :=
  match find_field report_fields (fst kv) with Some g => String.eqb g f | None => false end.

(** The values a field may be given. *)
Definition is_string (v : json) : bool := match v with JString _ | JNull => true | _ => false end.
Definition fits (f : string) (v : json) : bool :=
  match v with
  | JNull => true
  | JBool _ => String.eqb f "success"
  | JArray l => (String.eqb f "applied" || String.eqb f "failed") && forallb is_string l
  | JString _ => negb (existsb (String.eqb f) ["success"; "applied"; "failed"])
  | _ => false
  end.

Definition field_ok (kv : string * json) : bool :=
  match find_field report_fields (fst kv) with Some f => fits f (snd kv) | None => false end.

(** The value of a field: the last that it is given. *)
Definition last_string (f : string) (fields : list (string * json)) (old : string) : string :=
  fold_left (fun old kv => if named f kv then match snd kv with JString s => s | _ => old end else old) fields old.
Definition last_bool (f : string) (fields : list (string * json)) (old : bool) : bool :=
  fold_left (fun old kv => if named f kv then match snd kv with JBool b => b | _ => old end else old) fields old.

(** A list is decoded over the one before it: a null element shows what was there. *)
Fixpoint over (l : list json) (there : list string) : list string :=
  match l with
  | [] => []
  | JString s :: l => s :: over l (tl there)
  | _ :: l => hd "" there :: over l (tl there)
  end.
Definition last_slice (f : string) (fields : list (string * json)) (old : Slice) : Slice :=
  fold_left (fun old kv => if named f kv then match snd kv with
      | JArray [] | JNull => MkSlice [] []
      | JArray l => let there := shown old ++ behind old in MkSlice (over l there) (drop (length l) there)
      | _ => old
      end else old) fields old.
Definition last_strings (f : string) (fields : list (string * json)) : list string :=
  shown (last_slice f fields (MkSlice [] [])).

(** What an object describes, on top of a decoder's state. *)
Definition described (fields : list (string * json)) (d : Decoder) : Decoder :=
  let r := into d in
  let applied := last_slice "applied" fields (MkSlice (sr_Applied r) (behind_Applied d)) in
  let failed := last_slice "failed" fields (MkSlice (sr_Failed r) (behind_Failed d)) in
  MkDecoder
    (MkStatusReport (last_string "profile" fields (sr_Profile r)) (last_string "namespace" fields (sr_Namespace r))
      (last_string "kind" fields (sr_Kind r)) (last_string "node" fields (sr_Node r))
      (last_string "pod" fields (sr_Pod r)) (last_string "hash" fields (sr_Hash r))
      (last_bool "success" fields (sr_Success r)) (shown applied) (shown failed)
      (last_string "message" fields (sr_Message r)))
    (behind applied) (behind failed).

(** A body that is answered with more than a 400: the first document in the limited
    body is an object, all its fields fit, and it names profile, namespace and node. *)
Definition acceptable (body : string) : bool :=
  match parse_first (limit_bytes maxReportBytes body) with
  | Some (JObject fields) =>
      forallb field_ok fields &&
      forallb (fun f => negb (String.eqb (last_string f fields "") "")) ["profile"; "namespace"; "node"]
  | _ => false
  end.

(** ** Lemmas *)

Lemma find_field_in (names : list string) (key f : string) : find_field names key = Some f -> In f names.
Proof.
  unfold find_field. destruct (existsb _ _) eqn:E.
  - intros [= <-]. apply existsb_exists in E as (x & Hx & ->%String.eqb_eq). done.
  - intros H. by apply find_some in H as [? _].
Qed.

Lemma decode_elems_over (l : list json) (there : list string) : decode_elems l there = over l there.
Proof. revert there. induction l as [|e l IH]; intros there; [done|]. simpl. rewrite IH. by destruct e. Qed.

Lemma decode_strings_step (v : json) (old : Slice) :
  decode_strings v old =
    (match v with
     | JArray [] | JNull => MkSlice [] []
     | JArray l => let there := shown old ++ behind old in MkSlice (over l there) (drop (length l) there)
     | _ => old
     end, match v with JNull => true | JArray l => forallb is_string l | _ => false end).
Proof.
  destruct v as [| | | |l|]; try done. destruct l as [|e l]; [done|]. unfold decode_strings.
  rewrite decode_elems_over. f_equal. generalize (e :: l). clear.
  intros l. induction l as [|e l IH]; [done|]. simpl. rewrite IH. by destruct e.
Qed.

(** One key: the field it stands for, and no other. *)
Lemma decode_field_step (d : Decoder) (ok : bool) (kv : string * json) :
  decode_field (d, ok) kv = (described [kv] d, ok && field_ok kv).
Proof.
  destruct kv as [key v]. unfold described, last_string, last_bool, last_slice, decode_field, field_ok.
  cbn [fold_left fst snd]. unfold named. cbn [fst].
  destruct d as [[profile namespace kind node pod hash success applied failed message] ba bf].
  destruct (find_field report_fields key) as [f|] eqn:E; [|by rewrite andb_false_r].
  apply find_field_in in E. rewrite !decode_strings_step.
  repeat (destruct E as [<-|E]; [by destruct v as [| | | |[|]|]; simpl; rewrite ?andb_false_r, ?andb_true_r|]).
  destruct E.
Qed.

Lemma decode_fields (fields : list (string * json)) (d : Decoder) (ok : bool) :
  fold_left decode_field fields (d, ok) = (described fields d, ok && forallb field_ok fields).
Proof.
  revert d ok. induction fields as [|kv fields IH]; intros d ok.
  - simpl. rewrite andb_true_r. by destruct d as [[] ? ?].
  - cbn [fold_left forallb]. rewrite decode_field_step, IH, andb_assoc. f_equal.
    unfold described, last_string, last_bool, last_slice. cbn [fold_left into behind_Applied behind_Failed].
    cbn [sr_Profile sr_Namespace sr_Kind sr_Node sr_Pod sr_Hash sr_Success sr_Applied sr_Failed sr_Message].
    assert (Hs : forall s : Slice, MkSlice (shown s) (behind s) = s) by (by intros []). by rewrite !Hs.
Qed.

Lemma Decode_object (fields : list (string * json)) :
  Decode (JObject fields) = if forallb field_ok fields then Some (into (described fields new_decoder)) else None.
Proof. unfold Decode. by rewrite decode_fields. Qed.

(** A body is acceptable when it decodes to a report that is complete. *)
Lemma acceptable_decoded (body : string) :
  acceptable body = match DecodeBody body with
    | Some r => negb (String.eqb (sr_Profile r) "" || String.eqb (sr_Namespace r) "" || String.eqb (sr_Node r) "")
    | None => false
    end.
Proof.
  unfold acceptable, DecodeBody. destruct (parse_first _) as [v|]; [|done].
  destruct v; try done. rewrite Decode_object. destruct (forallb field_ok _); [|done]. simpl.
  by rewrite !negb_orb, andb_true_r, andb_assoc.
Qed.

(** ** Properties *)

(** C27. What the strict decoder does, in terms of the whole object: it accepts an
    object exactly if every key stands for a field of the report (up to case, as
    encoding/json folds it) and every value is null or of the field's type; a field
    that is given more than once has the last value that is not null, a field that is
    not given the zero value. Lists are decoded one over the other: null and the empty
    array clear them, a null element shows the element that was there before. *)
Theorem Decode_spec (fields : list (string * json)) :
  Decode (JObject fields) =
    if forallb field_ok fields
    then Some (MkStatusReport (last_string "profile" fields "") (last_string "namespace" fields "")
      (last_string "kind" fields "") (last_string "node" fields "") (last_string "pod" fields "")
      (last_string "hash" fields "") (last_bool "success" fields false) (last_strings "applied" fields)
      (last_strings "failed" fields) (last_string "message" fields ""))
    else None.
Proof. apply Decode_object. Qed.

(** A key that only folds to a field's name, an unknown one, a value of the wrong type
    after a good one, and a repeated key. *)
Example decode_folds : Decode (JObject [("PROFILE", JString "p"); ("profile", JNull)]) =
  Some (MkStatusReport "p" "" "" "" "" "" false [] [] "").
Proof. reflexivity. Qed.
Example decode_unknown : Decode (JObject [("profile", JString "p"); ("uid", JNull)]) = None.
Proof. reflexivity. Qed.
Example decode_shows_again : Decode (JObject [("applied", JArray [JString "a"; JString "b"]);
    ("applied", JArray [JString "c"]); ("applied", JArray [JNull; JNull])]) =
  Some (MkStatusReport "" "" "" "" "" "" false ["c"; "b"] [] "").
Proof. reflexivity. Qed.
Example decode_wrong_type : Decode (JObject [("success", JString "true")]) = None.
Proof. reflexivity. Qed.
