(* ===== verification/Metrics.v ===== *)
(** * The operator's metric ([internal/metrics/metrics.go]).

    The counter of errored pods: its name and labels, its registration, and the
    series that an increment changes. In the handlers [IncErrored] is a call; here
    is what the calls of a run add up to. *)
From S2P Require Import Prelude GoStrings K8s ReportServer.

(** [prometheus.NewCounterVec]: options and label names. *)
Record CounterVec := MkCounterVec { cv_Name : string; cv_Help : string; cv_Labels : list string }.

Definition metric_labelProfile : string := "profile".
Definition labelNamespace : string := "namespace".
Definition labelNode : string := "node".

Definition ErroredPodsTotal : CounterVec :=
  MkCounterVec "sysctl_operator_errored_pods_total"
    "Total number of sysctl applier pods that reported an apply failure."
    [metric_labelProfile; labelNamespace; labelNode].

(** [Registry.MustRegister]: panics when the name is taken. *)
Definition MustRegister (registry : list CounterVec) (c : CounterVec) : option (list CounterVec) :=
  if existsb (fun d => String.eqb (cv_Name d) (cv_Name c)) registry then None else Some (registry ++ [c]).

Definition metrics_init (registry : list CounterVec) : option (list CounterVec) :=
  MustRegister registry ErroredPodsTotal.

(** The series of a vector, by their label values; one that was never incremented
    stands at 0. *)
Abbreviation Series := (gmap (list string) Z) (only parsing).

Definition value (m : Series) (labels : list string) : Z := default 0 (m !! labels).

(** [WithLabelValues(...)]: panics unless there is one value per label. *)
Definition WithLabelValues (c : CounterVec) (values : list string) : option (list string) :=
  if (length values =? length (cv_Labels c))%nat then Some values else None.

(** [Inc()] *)
Definition Inc (labels : list string) (m : Series) : Series := <[labels := value m labels + 1]> m.

(** [ErroredPodsTotal.WithLabelValues(profile, namespace, node).Inc()] *)
Definition IncErrored_effect (profile namespace node : string) (m : Series) : option Series :=
  match WithLabelValues ErroredPodsTotal [profile; namespace; node] with
  | Some labels => Some (Inc labels m)
  | None => None
  end.

(** The effect of a handler's events. *)
Fixpoint counted (t : list event) (m : Series) : option Series :=
  match t with
  | [] => Some m
  | ev :: rest =>
      match ev_call ev with
      | CounterInc profile namespace node =>
          match IncErrored_effect profile namespace node m with Some m' => counted rest m' | None => None end
      | _ => counted rest m
      end
  end.

Definition increments (labels : list string) (ev : event) : bool :=
  match ev_call ev with CounterInc p ns n => bool_decide (labels = [p; ns; n]) | _ => false end.

Lemma value_Inc (labels l : list string) (m : Series) :
  value (Inc labels m) l = if decide (l = labels) then value m l + 1 else value m l.
Proof.
  unfold value, Inc. destruct (decide (l = labels)) as [->|Hne].
  - by rewrite lookup_insert_eq.
  - by rewrite lookup_insert_ne.
Qed.

(** The metric is exact: the events of any run are counted without a panic, each
    series by the number of increments with its profile, namespace and node. *)
Theorem counted_exact (t : list event) (m : Series) :
  exists m', counted t m = Some m' /\
    forall labels, value m' labels = value m labels + Z.of_nat (length (List.filter (increments labels) t)).
Proof.
  revert m. induction t as [|ev t IH]; intros m; [exists m; split; [done|intros; simpl; lia]|].
  destruct ev as [c r]. cbn [counted ev_call List.filter].
  destruct c as [| | | | | | | | | | | | | | | |p ns n]; try (destruct (IH m) as (m' & E & H); exists m'; by split).
  destruct (IH (Inc [p; ns; n] m)) as (m' & E & H). exists m'. split; [exact E|]. intros labels. rewrite H.
  rewrite value_Inc. cbn [increments ev_call].
  destruct (decide (labels = [p; ns; n])) as [->|Hne].
  - rewrite bool_decide_eq_true_2 by done. cbn [length]. lia.
  - by rewrite bool_decide_eq_false_2 by done.
Qed.

(** The registration does not panic unless the name is taken. *)
Lemma metrics_registered (registry : list CounterVec) :
  ~ In "sysctl_operator_errored_pods_total" (map cv_Name registry) ->
  exists registry', metrics_init registry = Some registry' /\ In ErroredPodsTotal registry'.
Proof.
  intros H. unfold metrics_init, MustRegister. destruct (existsb _ registry) eqn:E.
  - exfalso. apply existsb_exists in E as (c & Hc & E%String.eqb_eq). apply H. simpl in E. rewrite <- E.
    by apply in_map.
  - eexists. split; [done|]. apply in_app_iff. right. by left.
Qed.
