(* ===== verification/ReportHttp.v ===== *)
(** * The HTTP server of the report API ([internal/server/server.go]: [Start],
    [NeedLeaderElection]).

    The routes as programs over the cluster, and the life of the server as a step
    relation: the goroutine that waits for the manager's context, the listener, the
    connections being served, and what [Start] returns. *)
From Stdlib Require Import Ascii.
From S2P Require Import Prelude GoStrings GoPath GoJson JsonText GoHttp Api Render K8s Rollout WorkerHost WorkerMain.
From S2P Require Import ReportServer.

(** ** The routes *)

Definition NeedLeaderElection : bool := false.

(** The two handlers [Start] registers. *)
Inductive Route := Healthz | Reports.

Definition report_mux : Mux Route := [("/healthz", Healthz); ("/api/v1/reports", Reports)].

Section ReportHttp.

Context {lib : K8sLib}.

Definition serve_route (h : Route) (rq : HttpReq) : prog Response :=
  match h with
  | Healthz => Ret (Code StatusOK)
  | Reports =>
      let* code := handleReport (MkRequest (hr_Method rq) (hr_Body rq)) in Ret (Code code)
  end.

(** A request, through the mux. *)
Definition ServeHTTP (rq : HttpReq) : prog Response :=
  match mux_route report_mux (hr_Method rq) (hr_Path rq) with
  | inl resp => Ret resp
  | inr h => serve_route h rq
  end.

(** Where a client's request goes, and how it arrives. *)
Definition delivered (r : HttpRequest) : option (string * string * HttpReq) :=
  match http_target (http_URL r) with
  | Some (host, port, path) => Some (host, port, MkHttpReq (http_Method r) path (http_Body r))
  | None => None
  end.

(** ** The life of the server *)

(** What [ListenAndServe] returns: never nil. *)
Inductive ServeError := ErrServerClosed | ServeFailed (text : string).

(** The end of [Start]: the error, if it is another than [ErrServerClosed]. *)
Definition start_result (err : ServeError) : option string :=
  match err with ErrServerClosed => None | ServeFailed text => Some text end.

(** The goroutine of [Start]: before the context is done, within [Shutdown], after. *)
Inductive Goroutine := Waiting | ShuttingDown | Finished.

(** [Start] itself: before it listens, while it accepts connections, after the
    listener was closed, and returned. *)
Inductive Phase := Starting | Listening | Closed | Started (result : option string).

Record Server := MkServer {
  sv_cancelled : bool;
  sv_goroutine : Goroutine;
  sv_phase : Phase;
  sv_active : list (prog Response)
}.

Inductive server_step : Server -> Server -> Prop :=
(** [ListenAndServe] opens the listener, or fails to, or finds the server shut down *)
| server_listens c a :
    server_step (MkServer c Waiting Starting a) (MkServer c Waiting Listening a)
| server_no_listener c g a text :
    server_step (MkServer c g Starting a) (MkServer c g (Started (start_result (ServeFailed text))) a)
| server_already_shut c g a :
    g <> Waiting -> server_step (MkServer c g Starting a) (MkServer c g Closed a)
(** a connection, its handler's calls, its response *)
| server_accepts c g a rq :
    server_step (MkServer c g Listening a) (MkServer c g Listening (ServeHTTP rq :: a))
| server_handler c g ph a1 call k r a2 :
    server_step (MkServer c g ph (a1 ++ Vis call k :: a2)) (MkServer c g ph (a1 ++ k r :: a2))
| server_responds c g ph a1 resp a2 :
    server_step (MkServer c g ph (a1 ++ Ret resp :: a2)) (MkServer c g ph (a1 ++ a2))
| server_accept_fails c g a text :
    server_step (MkServer c g Listening a) (MkServer c g (Started (start_result (ServeFailed text))) a)
(** the manager stops; the goroutine calls [Shutdown], which closes the listener *)
| server_cancelled g ph a : server_step (MkServer false g ph a) (MkServer true g ph a)
| server_shutdown ph a :
    server_step (MkServer true Waiting ph a)
      (MkServer true ShuttingDown (match ph with Listening => Closed | _ => ph end) a)
(** [ListenAndServe] returns when the listener is closed *)
| server_closed c g a :
    server_step (MkServer c g Closed a) (MkServer c g (Started (start_result ErrServerClosed)) a)
(** [Shutdown] returns when no connection is active, or after ten seconds *)
| server_drained c ph : server_step (MkServer c ShuttingDown ph []) (MkServer c Finished ph [])
| server_timeout c ph a : server_step (MkServer c ShuttingDown ph a) (MkServer c Finished ph a).

Definition server_start : Server := MkServer false Waiting Starting [].

Inductive server_reachable : Server -> Prop :=
| server_reach_start : server_reachable server_start
| server_reach_step s s' : server_reachable s -> server_step s s' -> server_reachable s'.

(** ** Lemmas *)

Lemma reportURL_target :
  http_target reportURL = Some ("sysctl-operator-report.sysctl-operator-system", "9090", "/api/v1/reports").
Proof. vm_compute. reflexivity. Qed.

Lemma scriptReportURL_target :
  http_target scriptReportURL = Some ("sysctl-operator-report.sysctl-operator-system", "9090", "/api/v1/reports").
Proof. vm_compute. reflexivity. Qed.

(** The listener is open only before the shutdown; it is closed, and [Start] has
    returned nil, only after it. *)
Record server_inv (s : Server) : Prop := {
  inv_cancelled : sv_goroutine s <> Waiting -> sv_cancelled s = true;
  inv_open : sv_phase s = Listening -> sv_goroutine s = Waiting;
  inv_closed : sv_phase s = Closed \/ sv_phase s = Started None -> sv_goroutine s <> Waiting
}.

Lemma server_step_inv s s' : server_inv s -> server_step s s' -> server_inv s'.
Proof.
  intros [Hc Ho Hx] H.
  destruct H as [| | | | | | | |ph a| | |]; split; simpl in *; try (destruct ph); intuition congruence.
Qed.

Lemma server_reachable_inv s : server_reachable s -> server_inv s.
Proof. induction 1 as [|s s' _ IH H]; [split; simpl; intuition congruence|]. by eapply server_step_inv. Qed.

(** ** Properties *)

(** C30. The address the pods are given is served: a report that a worker sends to
    the URL the controllers put into the pods, of either kind, arrives at port 9090
    and is answered by [handleReport], with its method and its body. *)
Theorem reports_are_routed (url : string) (rep : Report) :
  url = reportURL \/ url = scriptReportURL ->
  exists host rq, delivered (report_request (NewReporter url) rep) = Some (host, "9090", rq) /\
    ServeHTTP rq = bind (handleReport (MkRequest "POST" (Marshal rep))) (fun code => Ret (Code code)).
Proof.
  intros [-> | ->]; eexists _, (MkHttpReq "POST" "/api/v1/reports" (Marshal rep)); (split; [|reflexivity]);
    unfold delivered; cbn [report_request http_URL reporter_URL NewReporter];
    by rewrite ?reportURL_target, ?scriptReportURL_target.
Qed.

(** [Start] returns nil only after the manager's context was cancelled and
    [Shutdown] was called, and no connection is accepted from then on. *)
Theorem start_returns_nil_after_cancel (s : Server) :
  server_reachable s -> sv_phase s = Started None ->
  sv_cancelled s = true /\ sv_goroutine s <> Waiting /\
  forall s' , server_step s s' -> (length (sv_active s') <= length (sv_active s))%nat.
Proof.
  intros [Hc _ Hx]%server_reachable_inv Hp. specialize (Hx (or_intror Hp)). split; [by apply Hc|].
  split; [done|]. intros s' H. destruct H; simpl in *; try done; rewrite ?length_app; simpl; lia.
Qed.

(** [Start] does not wait for the shutdown it asked for: it may have returned
    nil, so that the manager goes on to exit, while [Shutdown] is waiting for any
    request that is still being handled. *)
Theorem start_returns_before_drained (rq : HttpReq) :
  server_reachable (MkServer true ShuttingDown (Started None) [ServeHTTP rq]).
Proof.
  eapply server_reach_step; [|apply server_closed].
  eapply server_reach_step; [|apply (server_shutdown Listening)].
  eapply server_reach_step; [|apply server_cancelled].
  eapply server_reach_step; [|apply server_accepts].
  eapply server_reach_step; [|apply server_listens].
  apply server_reach_start.
Qed.

End ReportHttp.
