(* ===== verification/ReportRefine.v ===== *)
(** * The answers of the report API, what it counts, and the contract between the
    worker and the report API. *)
From Stdlib Require Import Permutation.
From S2P Require Import Prelude GoStrings GoTrim GoHash GoJson JsonText Api Samples Render K8s ApiServer Rollout ReportServer ReportDecode WorkerMain.
From S2P Require Import SysctlController ScriptController.

(** ** The payload *)

(** The report the server sees when a worker sends [rep]. [json.Marshal] writes every
    byte of a string that is not part of valid UTF-8 as U+FFFD ([to_valid]), so this is
    the report itself only if its strings are valid ([received_valid]). *)
Definition received (rep : Report) : StatusReport :=
  MkStatusReport (to_valid (rep_Profile rep)) (to_valid (rep_Namespace rep)) (to_valid (rep_Kind rep))
    (to_valid (rep_Node rep)) (to_valid (rep_Pod rep)) (to_valid (rep_Hash rep)) (rep_Success rep)
    (map to_valid (rep_Applied rep)) (map to_valid (rep_Failed rep)) (to_valid (rep_Message rep)).

(** The fields of a report, as the server's type has them. *)
Definition same_fields (rep : Report) : StatusReport :=
  MkStatusReport (rep_Profile rep) (rep_Namespace rep) (rep_Kind rep) (rep_Node rep) (rep_Pod rep)
    (rep_Hash rep) (rep_Success rep) (rep_Applied rep) (rep_Failed rep) (rep_Message rep).

(** Every string of a report. *)
Definition report_strings (rep : Report) : list string :=
  [rep_Profile rep; rep_Namespace rep; rep_Kind rep; rep_Node rep; rep_Pod rep; rep_Hash rep; rep_Message rep] ++
  rep_Applied rep ++ rep_Failed rep.

Lemma map_to_valid (l : list string) : Forall (fun s => valid_utf8 s = true) l -> map to_valid l = l.
Proof. induction 1 as [|s l Hs _ IH]; [done|]. cbn [map]. by rewrite IH, to_valid_id. Qed.

Lemma received_valid (rep : Report) :
  Forall (fun s => valid_utf8 s = true) (report_strings rep) -> received rep = same_fields rep.
Proof.
  unfold report_strings. intros [H [Ha Hf]%Forall_app]%Forall_app. apply map_to_valid in H, Ha, Hf.
  cbn [map] in H. unfold received. rewrite Ha, Hf. by injection H as -> -> -> -> -> -> ->.
Qed.

(** What is ASCII is valid. *)
Lemma hex_valid (s : string) : all_hex s = true -> valid_utf8 s = true.
Proof.
  induction s as [|a s IH]; [done|]. cbn [all_hex]. intros [Ha Hs]%andb_true_iff.
  assert (E : ascii7 a = true) by (clear -Ha; destruct a as [[] [] [] [] [] [] [] []]; vm_compute in *; congruence).
  cbn [valid_utf8]. rewrite E. by apply IH.
Qed.

Lemma decode_strings_map (l : list string) :
  decode_strings (valid_json (JArray (map JString l))) (MkSlice [] []) = (MkSlice (map to_valid l) [], true).
Proof.
  assert (E : forall l there, decode_elems (map valid_json (map JString l)) there = map to_valid l)
    by (clear; induction l as [|x l IH]; intros there; [done|]; simpl; by rewrite IH).
  destruct l as [|x l]; [done|]. change (valid_json (JArray ?l)) with (JArray (map valid_json l)).
  unfold decode_strings. rewrite E. cbn [map shown behind app]. rewrite drop_nil. f_equal.
  cbn [forallb]. by induction l.
Qed.

(** The fields of a report, as a decoder sees them. *)
Lemma valid_string_field name x : to_valid name = name ->
  map valid_field (string_field name x) = [(name, JString (to_valid x))].
Proof. intros E. unfold string_field, valid_field. cbn [map fst snd valid_json]. by rewrite E. Qed.

Lemma valid_omitempty name x : to_valid name = name ->
  map valid_field (string_omitempty name x) = [] /\ x = "" \/
  map valid_field (string_omitempty name x) = [(name, JString (to_valid x))].
Proof.
  unfold string_omitempty. destruct (String.eqb_spec x ""); [by left|right]. by apply valid_string_field.
Qed.

Lemma valid_strings_omitempty name l : to_valid name = name ->
  map valid_field (strings_omitempty name l) = [] /\ l = [] \/
  exists v, map valid_field (strings_omitempty name l) = [(name, v)] /\
    decode_strings v (MkSlice [] []) = (MkSlice (map to_valid l) [], true).
Proof.
  intros En. destruct l as [|x l]; [by left|right]. exists (valid_json (JArray (map JString (x :: l)))).
  split; [|apply decode_strings_map]. unfold valid_field. cbn [strings_omitempty map fst snd]. by rewrite En.
Qed.

Lemma decode_report_json (rep : Report) : Decode (valid_json (report_json rep)) = Some (received rep).
Proof.
  destruct rep as [profile namespace kind node pod hash success applied failed message].
  unfold report_json, received. cbn [rep_Profile rep_Namespace rep_Kind rep_Node rep_Pod rep_Hash rep_Success
    rep_Applied rep_Failed rep_Message].
  change (valid_json (JObject ?l)) with (JObject (map valid_field l)).
  rewrite !map_app, !valid_string_field by reflexivity.
  change (map valid_field [("success", JBool success)]) with [("success", JBool success)].
  destruct (valid_omitempty "kind" kind eq_refl) as [[-> ->]| ->], (valid_omitempty "pod" pod eq_refl) as [[-> ->]| ->],
    (valid_omitempty "hash" hash eq_refl) as [[-> ->]| ->], (valid_omitempty "message" message eq_refl) as [[-> ->]| ->],
    (valid_strings_omitempty "applied" applied eq_refl) as [[-> ->]|(va & -> & Ha)],
    (valid_strings_omitempty "failed" failed eq_refl) as [[-> ->]|(vf & -> & Hf)];
    cbn -[decode_strings to_valid map]; rewrite ?Ha; cbn -[decode_strings to_valid map]; rewrite ?Hf;
    reflexivity.
Qed.

(** A report is an object whose arrays hold strings. *)
Lemma report_json_plain (rep : Report) :
  exists l, report_json rep = JObject l /\ plain_json 2 (JObject l) = true.
Proof.
  eexists. split; [done|]. cbn [plain_json]. rewrite !forallb_app.
  assert (Hs : forall name x, forallb (fun kv => plain_json 1 (snd kv)) (string_omitempty name x) = true)
    by (intros; unfold string_omitempty; by destruct (String.eqb _ _)).
  assert (Hl : forall name l, forallb (fun kv => plain_json 1 (snd kv)) (strings_omitempty name l) = true).
  { intros name [|x l]; [done|]. cbn. rewrite andb_true_r. by induction l. }
  by rewrite !Hs, !Hl.
Qed.

Lemma parse_Marshal (rep : Report) (rest : string) :
  parse_first (Marshal rep +:+ rest) = Some (valid_json (report_json rep)).
Proof.
  destruct (report_json_plain rep) as (l & E & Hp). unfold Marshal. rewrite E. by apply (parse_encode _ _ 2).
Qed.

Lemma decode_Marshal (rep : Report) :
  DecodeBody (Marshal rep) =
    if Z.of_nat (String.length (Marshal rep)) <=? maxReportBytes then Some (received rep) else None.
Proof.
  unfold DecodeBody. destruct (Z.leb_spec (Z.of_nat (String.length (Marshal rep))) maxReportBytes) as [H|H].
  - rewrite limit_bytes_all by done. pose proof (parse_Marshal rep "") as E. rewrite sapp_nil_r in E.
    rewrite E. apply decode_report_json.
  - destruct (limit_bytes_prefix maxReportBytes (Marshal rep)) as (c & rest & E); [done|].
    destruct (report_json_plain rep) as (l & El & Hp). unfold Marshal in E at 1. rewrite El in E.
    by rewrite (truncated_object l 2 _ _ _ Hp ltac:(done) E).
Qed.

Lemma decoded_Marshal (rep : Report) r : DecodeBody (Marshal rep) = Some r -> r = received rep.
Proof. rewrite decode_Marshal. destruct (_ <=? _); [by intros [= <-]|done]. Qed.

(** C26. The two ends of the report API agree on bytes. The strict decoder of the
    server accepts what a worker sends exactly if it is within the limit of 1 MiB, and
    reads back every field, also the ones [omitempty] leaves out, with the bytes of its
    strings that are not valid UTF-8 replaced by U+FFFD, as [json.Marshal] does; so
    a report whose strings are all valid UTF-8 comes back with exactly its fields. *)
Theorem worker_server_roundtrip (rep : Report) :
  DecodeBody (Marshal rep) =
    (if Z.of_nat (String.length (Marshal rep)) <=? maxReportBytes then Some (received rep) else None) /\
  (Forall (fun s => valid_utf8 s = true) (report_strings rep) ->
   Z.of_nat (String.length (Marshal rep)) <= maxReportBytes ->
   DecodeBody (Marshal rep) = Some (same_fields rep)).
Proof.
  split; [apply decode_Marshal|]. intros Hv Hl%Z.leb_le. by rewrite decode_Marshal, Hl, received_valid.
Qed.

Lemma worker_server_roundtrip_witness :
  let rep := MkReport "p" "n" "" "node-a" "" "" false ["a"] ["b: error"] "applied 1 ok, 1 failed, 0 drifted" in
  DecodeBody (Marshal rep) = Some (same_fields rep).
Proof.
  intros rep. apply (proj2 (worker_server_roundtrip rep)).
  - repeat constructor.
  - vm_compute. discriminate.
Defined.

(** ** One report, call by call *)

(** The report a request carries, if the decoder accepts the body. *)
Definition payload (r : Request) : option StatusReport := DecodeBody (rq_Body r).

(** A required field is missing. *)
Definition incomplete (r : StatusReport) : bool :=
  String.eqb (sr_Profile r) "" || String.eqb (sr_Namespace r) "" || String.eqb (sr_Node r) "".

Definition is_inc (ev : event) : bool :=
  match ev_call ev with CounterInc _ _ _ => true | _ => false end.

(** A status write that the server accepted. *)
Definition status_written (ev : event) : Prop :=
  match ev_call ev with
  | StatusUpdateSysctlProfile _ | StatusUpdateScriptProfile _ => write_error ev = None
  | _ => False
  end.

Section Handler.

Context {lib : K8sLib} {laws : K8sLibLaws} {W : Type} (step : W -> event -> W -> Prop).

(** What a request comes to. *)
Lemma exec_handleReport rq w t w' code :
  exec step (handleReport rq) w t w' code ->
  if negb (String.eqb (rq_Method rq) "POST") then code = StatusMethodNotAllowed /\ t = [] /\ w' = w
  else match payload rq with
  | None => code = StatusBadRequest /\ t = [] /\ w' = w
  | Some r =>
      if incomplete r then code = StatusBadRequest /\ t = [] /\ w' = w
      else exists t1 w1 e, exec step (applyReport r) w t1 w1 e /\
        match e with
        | Some err => t = t1 /\ w' = w1 /\
            code = (if IsNotFound err then StatusOK else StatusInternalServerError)
        | None => code = StatusOK /\
            if sr_Success r then t = t1 /\ w' = w1
            else t = t1 ++ [Ev (CounterInc (sr_Profile r) (sr_Namespace r) (sr_Node r)) tt] /\
                 step w1 (Ev (CounterInc (sr_Profile r) (sr_Namespace r) (sr_Node r)) tt) w'
        end
  end.
Proof.
  unfold handleReport, payload. destruct (negb _); [by intros (-> & -> & ->)|].
  destruct (DecodeBody (rq_Body rq)) as [r|];
    [|by intros (-> & -> & ->)].
  fold (incomplete r). destruct (incomplete r); [by intros (-> & -> & ->)|].
  intros (t1 & w1 & e & t2 & -> & H1 & H2)%exec_bind. exists t1, w1, e. split; [done|].
  destruct e as [err|].
  - rewrite IgnoreNotFound_law in H2. destruct (IsNotFound err); destruct H2 as (-> & -> & ->);
      by rewrite app_nil_r.
  - destruct (sr_Success r); cbn [negb] in H2.
    + destruct H2 as (-> & -> & ->). by rewrite app_nil_r.
    + destruct H2 as ([] & w2 & t3 & -> & S & -> & -> & ->). done.
Qed.

(** A report that was answered 200 was within the limit. *)
Lemma accepted_Marshal (rep : Report) w t w' :
  exec step (handleReport (MkRequest "POST" (Marshal rep))) w t w' StatusOK ->
  payload (MkRequest "POST" (Marshal rep)) = Some (received rep).
Proof.
  intros H%exec_handleReport. change (negb (String.eqb (rq_Method _) "POST")) with false in H. cbn iota in H.
  destruct (payload _) as [r|] eqn:Hp; [|by destruct H].
  unfold payload in Hp. by rewrite (decoded_Marshal _ _ Hp).
Qed.

(** An attempt that succeeds ends with the status written, and never counts. *)
Lemma record_attempt_trace r w t w' e :
  exec step (record_attempt r) w t w' e ->
  Forall (fun ev => is_inc ev = false) t /\
  (e = None -> exists t0 ev, t = t0 ++ [ev] /\ status_written ev).
Proof.
  intros (x & w1 & t1 & -> & S1 & H). destruct x as [err|p].
  - destruct H as (-> & -> & ->). split; [by repeat constructor|done].
  - destruct H as (now & w2 & t2 & -> & S2 & x & w3 & t3 & -> & S3 & -> & -> & ->).
    split; [by repeat constructor|]. intros ->.
    eexists [_; _], _. split; [reflexivity|]. done.
Qed.

Lemma script_record_attempt_trace r w t w' e :
  exec step (script_record_attempt r) w t w' e ->
  Forall (fun ev => is_inc ev = false) t /\
  (e = None -> exists t0 ev, t = t0 ++ [ev] /\ status_written ev).
Proof.
  intros (x & w1 & t1 & -> & S1 & H). destruct x as [err|p].
  - destruct H as (-> & -> & ->). split; [by repeat constructor|done].
  - destruct H as (now & w2 & t2 & -> & S2 & x & w3 & t3 & -> & S3 & -> & -> & ->).
    split; [by repeat constructor|]. intros ->.
    eexists [_; _], _. split; [reflexivity|]. done.
Qed.

Lemma attempts_trace (fn : prog (option error)) w t w' e :
  (forall w t w' e, exec step fn w t w' e ->
    Forall (fun ev => is_inc ev = false) t /\
    (e = None -> exists t0 ev, t = t0 ++ [ev] /\ status_written ev)) ->
  attempts step fn w t w' e ->
  Forall (fun ev => is_inc ev = false) t /\
  (e = None -> exists t0 ev, t = t0 ++ [ev] /\ status_written ev).
Proof.
  intros Hfn. induction 1 as [w t w' e H|w t1 w1 e t2 w' r H _ _ [IH1 IH2]]; [by eapply Hfn|].
  apply Hfn in H as [H1 _]. split; [by apply Forall_app|].
  intros He. destruct (IH2 He) as (t0 & ev & -> & Hev). exists (t1 ++ t0), ev. by rewrite app_assoc.
Qed.

(** An attempt that fails does not end with a written status. *)
Lemma attempts_end (fn : prog (option error)) w t w' e :
  (forall w t w' e t0 ev, exec step fn w t w' (Some e) -> t = t0 ++ [ev] -> ~ status_written ev) ->
  (forall w t w' e, exec step fn w t w' e -> t <> []) ->
  attempts step fn w t w' (Some e) -> forall t0 ev, t = t0 ++ [ev] -> ~ status_written ev.
Proof.
  intros Hfn Hne H. remember (Some e) as r eqn:Er. revert Er.
  induction H as [w t w' r H|w t1 w1 e1 t2 w' r H _ H2 IH]; intros -> t0 ev Ht.
  - by eapply Hfn.
  - assert (Ht2 : t2 <> []) by (destruct H2 as [? ? ? ? H2|? ? ? ? ? ? ? H2 _ _]; apply Hne in H2;
      [done|by intros [? _]%app_eq_nil]).
    destruct (exists_last Ht2) as (t3 & ev3 & ->). rewrite app_assoc in Ht.
    apply app_inj_tail in Ht as [_ <-]. by eapply (IH eq_refl).
Qed.

Lemma applyReport_end r w t w' e :
  exec step (applyReport r) w t w' (Some e) -> forall t0 ev, t = t0 ++ [ev] -> ~ status_written ev.
Proof.
  assert (One : forall (c : call) (x : resp c) t0 ev, [Ev c x] = t0 ++ [ev] -> ev = Ev c x).
  { intros c x t0 ev H. by apply (app_inj_tail []) in H as [_ <-]. }
  unfold applyReport, applyScriptReport.
  destruct (String.eqb _ _); intros H%RetryOnConflict_law; (eapply attempts_end; [| |exact H]).
  2,4: by intros ? ? ? ? (? & ? & ? & -> & _).
  all: intros v t0 v' e0 t1 ev (x & w1 & t2 & -> & S1 & E) Ht; destruct x as [err|p].
  1,3: destruct E as (-> & _); apply One in Ht as ->; by intros [].
  all: destruct E as (now & w2 & t3 & -> & S2 & x & w3 & t4 & -> & S3 & -> & -> & <-).
  all: apply (app_inj_tail [_; _]) in Ht as [_ <-]; by intros [=].
Qed.

Lemma applyReport_trace r w t w' e :
  exec step (applyReport r) w t w' e ->
  Forall (fun ev => is_inc ev = false) t /\
  (e = None -> exists t0 ev, t = t0 ++ [ev] /\ status_written ev).
Proof.
  unfold applyReport, applyScriptReport. destruct (String.eqb _ _); intros H%RetryOnConflict_law.
  - eapply attempts_trace, H. apply script_record_attempt_trace.
  - eapply attempts_trace, H. apply record_attempt_trace.
Qed.

Lemma no_inc_filter (t : list event) :
  Forall (fun ev => is_inc ev = false) t -> List.filter is_inc t = [].
Proof. induction 1 as [|ev t H _ IH]; simpl; [done|]. by rewrite H. Qed.

End Handler.

(** C35. The response tells what happened: 405 exactly for another method; 400 exactly
    for a POST whose body is not acceptable, that is unless the first document in its
    first MiB is an object, all its keys stand for fields of the report, all its values
    fit them, and it names a profile, a namespace and a node; in both cases no call
    was made; every other request is answered 200 or 500. *)
Theorem handleReport_codes `{laws : K8sLibLaws} {W : Type} (step : W -> event -> W -> Prop)
    (rq : Request) (w w' : W) (t : list event) (code : Z) :
  exec step (handleReport rq) w t w' code ->
  let good := acceptable (rq_Body rq) in
  (code = StatusMethodNotAllowed <-> rq_Method rq <> "POST") /\
  (code = StatusBadRequest <-> rq_Method rq = "POST" /\ good = false) /\
  (code = StatusOK \/ code = StatusInternalServerError <-> rq_Method rq = "POST" /\ good = true) /\
  (code = StatusMethodNotAllowed \/ code = StatusBadRequest -> t = [] /\ w' = w).
Proof.
  intros E%exec_handleReport good. unfold good. rewrite acceptable_decoded.
  set (ok := match payload rq with Some r => negb (incomplete r) | None => false end).
  change (match DecodeBody (rq_Body rq) with Some _ => _ | None => false end) with ok.
  destruct (String.eqb_spec (rq_Method rq) "POST") as [Hm|Hm]; cbn [negb] in E.
  2:{ destruct E as (-> & -> & ->). split_and!; try done; split; try done; try (by intros [? _]);
      intros [? _] || intros [?|?]; done. }
  assert (Hb : code = StatusBadRequest /\ t = [] /\ w' = w /\ ok = false \/
    (code = StatusOK \/ code = StatusInternalServerError) /\ ok = true).
  { unfold ok. destruct (payload rq) as [r|]; [|left; by destruct E as (-> & -> & ->)].
    destruct (incomplete r); [left; by destruct E as (-> & -> & ->)|right].
    destruct E as (t1 & w1 & [err|] & _ & E); [destruct E as (_ & _ & ->)|destruct E as [-> _]];
      (split; [|done]); [destruct (IsNotFound err)|]; auto. }
  destruct Hb as [(-> & -> & -> & Hb)|[Hc Hb]]; rewrite Hb.
  - split_and!; try done; split; try done; try (by intros [? ?]); intros [?|?]; done.
  - destruct Hc as [->| ->]; split_and!; try (by split; [|intros [? ?]]); try (split; auto; done);
      try (by intros [?|?]); split; try done; intros [? ?]; done.
Qed.

(** C14. A failure is counted once, however often the update was retried: the
    counter is incremented at most once in a request, with the report's labels,
    as the last call and right after the status write that succeeded; and it is
    incremented if the report is a failure and the last status write succeeded. So a
    failing report that is not recorded, because its profile does not exist (answered
    with 200) or because of an error, is not counted. *)
Theorem failures_counted_once `{laws : K8sLibLaws} {W : Type} (step : W -> event -> W -> Prop)
    (rq : Request) (w w' : W) (t : list event) (code : Z) (r : StatusReport) :
  exec step (handleReport rq) w t w' code -> payload rq = Some r ->
  (List.filter is_inc t = [] \/
   exists t0 ev, sr_Success r = false /\ status_written ev /\ List.filter is_inc t0 = [] /\
     t = t0 ++ [ev; Ev (CounterInc (sr_Profile r) (sr_Namespace r) (sr_Node r)) tt] /\ code = StatusOK) /\
  (sr_Success r = false -> forall t0 ev, t = t0 ++ [ev] -> ~ status_written ev).
Proof.
  intros E%exec_handleReport Hp. rewrite Hp in E.
  assert (Hnil : t = [] -> forall t0 ev, t = t0 ++ [ev] -> ~ status_written ev).
  { intros -> t0 ev Ht. by destruct t0. }
  destruct (negb _); [destruct E as (_ & -> & _); split; [by left|intros _; by apply Hnil]|]. cbv beta iota in E.
  destruct (incomplete r); [destruct E as (_ & -> & _); split; [by left|intros _; by apply Hnil]|].
  destruct E as (t1 & w1 & e & E1 & E2). pose proof E1 as E3.
  apply applyReport_trace in E1 as [H1 Hlast]. apply no_inc_filter in H1 as F1.
  destruct e as [err|].
  - destruct E2 as (-> & _ & _). split; [by left|]. intros _ t0 ev Ht.
    by eapply (applyReport_end _ _ _ _ _ _ E3).
  - destruct E2 as [-> E2]. destruct (sr_Success r) eqn:Es.
    + destruct E2 as [-> _]. split; [by left|done].
    + destruct E2 as [-> _]. destruct (Hlast eq_refl) as (t0 & ev & -> & Hev). split.
      * right. exists t0, ev. rewrite <- app_assoc. split_and!; try done.
        rewrite filter_app in F1. by apply app_eq_nil in F1 as [? _].
      * intros _ t2 ev2 Ht. apply app_inj_tail in Ht as [_ <-]. by intros [].
Qed.

(** ** One report, on the cluster *)

(** The profile with the report recorded at a time. *)
Definition recorded (p : SysctlProfile) (r : StatusReport) (now : Time) : SysctlProfile :=
  recomputeCounts (upsertNodeStatus p r (report_phase r) now).

Definition script_recorded (p : ScriptProfile) (r : StatusReport) (now : Time) : ScriptProfile :=
  recomputeScriptCounts (upsertScriptNodeStatus p r (report_phase r) now).

Lemma recorded_meta p r now : sp_Meta (recorded p r now) = sp_Meta p.
Proof. unfold recorded, recomputeCounts. by destruct (count_phases _). Qed.

Lemma recorded_spec p r now : sp_Spec (recorded p r now) = sp_Spec p.
Proof. unfold recorded, recomputeCounts. by destruct (count_phases _). Qed.

Lemma recorded_statuses p r now :
  st_NodeStatuses (sp_Status (recorded p r now)) = upsert r (report_phase r) now (st_NodeStatuses (sp_Status p)).
Proof.
  unfold recorded, recomputeCounts. destruct (count_phases _) as [a f]. simpl.
  unfold upsertNodeStatus. by destruct (sr_Success r).
Qed.

Lemma recorded_counts p r now :
  let status := sp_Status (recorded p r now) in
  (st_AppliedNodes status, st_FailedNodes status) = count_phases (st_NodeStatuses status).
Proof.
  cbn zeta. rewrite recorded_statuses. unfold recorded, recomputeCounts.
  assert (E : st_NodeStatuses (sp_Status (upsertNodeStatus p r (report_phase r) now)) =
    upsert r (report_phase r) now (st_NodeStatuses (sp_Status p))).
  { by unfold upsertNodeStatus; destruct (sr_Success r). }
  rewrite E. by destruct (count_phases _).
Qed.

Lemma script_recorded_meta p r now : scp_Meta (script_recorded p r now) = scp_Meta p.
Proof. unfold script_recorded, recomputeScriptCounts. by destruct (count_phases _). Qed.

Lemma script_recorded_spec p r now : scp_Spec (script_recorded p r now) = scp_Spec p.
Proof. unfold script_recorded, recomputeScriptCounts. by destruct (count_phases _). Qed.

Lemma script_recorded_statuses p r now :
  sst_NodeStatuses (scp_Status (script_recorded p r now)) =
    upsert r (report_phase r) now (sst_NodeStatuses (scp_Status p)).
Proof. unfold script_recorded, recomputeScriptCounts. by destruct (count_phases _). Qed.

Lemma script_recorded_counts p r now :
  let status := scp_Status (script_recorded p r now) in
  (sst_AppliedNodes status, sst_FailedNodes status) = count_phases (sst_NodeStatuses status).
Proof.
  cbn zeta. rewrite script_recorded_statuses. unfold script_recorded, recomputeScriptCounts.
  change (sst_NodeStatuses (scp_Status (upsertScriptNodeStatus p r (report_phase r) now)))
    with (upsert r (report_phase r) now (sst_NodeStatuses (scp_Status p))).
  by destruct (count_phases _).
Qed.
