(* ===== verification/Profile.v ===== *)
(** * The two kinds of profiles as one.

    SysctlProfiles and ScriptProfiles have the same life: a finalizer, a ConfigMap
    and a DaemonSet, a gate on the statuses of the selected nodes, reports. The code
    writes it twice. Here an object of either kind is a [profile]; [ProfileKind] is
    the interface through which the controllers and the report API handle a kind,
    with an instance per kind; and the handlers of both kinds are shown to be one
    program over this interface, so that what is proved of it holds of both. *)
From S2P Require Import Prelude GoStrings Api Render K8s Rollout SysctlController ScriptController ReportServer ReportRefine.

(** ** An object of either kind *)

Inductive kind := KSysctl | KScript.

#[export] Instance kind_eq : EqDecision kind.
Proof. solve_decision. Defined.

#[export] Instance kind_countable : Countable kind.
Proof.
  apply (inj_countable' (fun k => match k with KSysctl => true | KScript => false end)
    (fun b => if b : bool then KSysctl else KScript)).
  by intros [].
Defined.

Inductive profile :=
| PSysctl (p : SysctlProfile)
| PScript (p : ScriptProfile).

Definition pr_kind (p : profile) : kind := match p with PSysctl _ => KSysctl | PScript _ => KScript end.
Definition pr_meta (p : profile) : ObjectMeta := match p with PSysctl p => sp_Meta p | PScript p => scp_Meta p end.

Definition pr_spec (p : profile) : SysctlProfileSpec + ScriptProfileSpec :=
  match p with PSysctl p => inl (sp_Spec p) | PScript p => inr (scp_Spec p) end.
Definition pr_status (p : profile) : SysctlProfileStatus + ScriptProfileStatus :=
  match p with PSysctl p => inl (sp_Status p) | PScript p => inr (scp_Status p) end.

(** The statuses of the nodes, and the counters over them. *)
Definition status_nodes (s : SysctlProfileStatus + ScriptProfileStatus) : list NodeStatus :=
  match s with inl s => st_NodeStatuses s | inr s => sst_NodeStatuses s end.
Definition status_counts (s : SysctlProfileStatus + ScriptProfileStatus) : Z * Z :=
  match s with
  | inl s => (st_AppliedNodes s, st_FailedNodes s)
  | inr s => (sst_AppliedNodes s, sst_FailedNodes s)
  end.
Definition statuses (p : profile) : list NodeStatus := status_nodes (pr_status p).
Definition counts (p : profile) : Z * Z := status_counts (pr_status p).

Definition pr_selector (p : profile) : LabelSelector :=
  match p with PSysctl p => spec_NodeSelector (sp_Spec p) | PScript p => sspec_NodeSelector (scp_Spec p) end.

(** The rendered config, its hash, and the key of the ConfigMap and the DaemonSet. *)
Definition pr_content (p : profile) : string :=
  match p with PSysctl p => renderSysctlConf p | PScript p => renderScripts p end.
Definition pr_hash (p : profile) : string := hashContent (pr_content p).
Definition pr_owned (p : profile) : NamespacedName :=
  match p with
  | PSysctl p => MkKey (sp_Namespace p) (resourceName p)
  | PScript p => MkKey (scp_Namespace p) (scriptResourceName p)
  end.

(** An object's key: its kind, namespace and name. *)
Abbreviation ObjKey := (kind * NamespacedName)%type (only parsing).
Definition pr_key (p : profile) : ObjKey := (pr_kind p, meta_key (pr_meta p)).

(** The gate of its controller. *)
Definition pr_gate (p : profile) (selected : list string) : bool :=
  match p with
  | PSysctl q => allNodesApplied q selected (pr_hash p)
  | PScript q => scriptAllNodesApplied q selected (pr_hash p)
  end.

Definition deleting (p : profile) : Prop := IsZero (om_DeletionTimestamp (pr_meta p)) = false.
Definition finalizers (p : profile) : list string := om_Finalizers (pr_meta p).

(** A profile that its controller has taken on, and that resources may be created for. *)
Definition live (p : profile) : Prop := ~ deleting p /\ In finalizer (finalizers p).

(** The object a report is about. *)
Definition report_target (r : StatusReport) : ObjKey :=
  (if String.eqb (sr_Kind r) kindScriptProfile then KScript else KSysctl, report_key r).

(** ** Lemmas *)

Lemma pr_gate_eq (p : profile) (selected : list string) : pr_gate p selected = gate (statuses p) (pr_hash p) selected.
Proof. by destruct p. Qed.

Lemma pr_gate_iff (p : profile) (selected : list string) :
  pr_gate p selected = true <->
  selected <> [] /\ forall n, In n selected -> applied_at (statuses p) n (pr_hash p).
Proof. destruct p; apply gate_iff. Qed.

Lemma live_zero (p : profile) : live p -> IsZero (om_DeletionTimestamp (pr_meta p)) = true.
Proof. unfold live, deleting. intros [H _]. by destruct (IsZero _). Qed.

Lemma same_spec_kind (p q : profile) : pr_spec p = pr_spec q -> pr_kind p = pr_kind q.
Proof. by destruct p, q. Qed.

Lemma same_spec_selector (p q : profile) : pr_spec p = pr_spec q -> pr_selector p = pr_selector q.
Proof. destruct p, q; try done; intros [= E]; cbn; by rewrite E. Qed.

Lemma same_spec_hash (p q : profile) : pr_spec p = pr_spec q -> pr_hash p = pr_hash q.
Proof.
  destruct p, q; try done; intros [= E]; unfold pr_hash, pr_content, renderSysctlConf, renderScripts; by rewrite E.
Qed.

Lemma sapp_inj_length (s t u v : string) :
  String.length u = String.length v -> s +:+ u = t +:+ v -> s = t /\ u = v.
Proof.
  intros Hl. revert t. induction s as [|a s IH]; intros [|b t] E.
  - by split.
  - apply (f_equal String.length) in E. rewrite !length_sapp in E. simpl in E. lia.
  - apply (f_equal String.length) in E. rewrite !length_sapp in E. simpl in E. lia.
  - rewrite !sapp_cons in E. injection E as -> [-> ->]%IH. done.
Qed.

(** The name of an owned object tells whose it is. *)
Lemma pr_owned_inj (p q : profile) : pr_owned p = pr_owned q -> pr_key p = pr_key q.
Proof.
  unfold pr_key, meta_key. destruct p as [p|p], q as [q|q]; cbn [pr_owned pr_kind pr_meta];
    unfold resourceName, scriptResourceName; intros [= -> [En Ek]%sapp_inj_length]; try done; by rewrite En.
Qed.

(** ** The interface *)

(** What a controller and the report API do with profiles of a kind. *)
Class ProfileKind (P : Type) := {
  tag : P -> profile;
  get_profile : NamespacedName -> prog (error + P);
  update : P -> prog (option error);
  update_status : P -> prog (option error);
  with_finalizers : list string -> P -> P;
  put_config : P -> prog (error + OperationResult);
  put_schedule : P -> prog (option error);
  selected_nodes : P -> prog (error + list string);
  roll_out : P -> prog (option error);
  tear_down : P -> prog (option error);
  observation : P -> list string -> bool -> Time -> P;
  unchanged : P -> P -> bool;
  clean_up : P -> prog (option error);
  record : P -> StatusReport -> Time -> P
}.

#[export] Instance SysctlKind {lib : K8sLib} (image : string) : ProfileKind SysctlProfile := {
  tag := PSysctl;
  get_profile k := do_call (GetSysctlProfile k);
  update p := do_call (UpdateSysctlProfile p);
  update_status p := do_call (StatusUpdateSysctlProfile p);
  with_finalizers fs p := sp_set_Meta (set_Finalizers fs (sp_Meta p)) p;
  put_config p := do_call (CreateOrUpdateConfigMap (MkKey (sp_Namespace p) (resourceName p))
                             (mutate_ConfigMap p (renderSysctlConf p) (labelsFor p)));
  put_schedule p := reconcile_CronJob image p (hashContent (renderSysctlConf p)) (labelsFor p);
  selected_nodes := selectedNodeNames;
  roll_out p := ensureDaemonSet image p (resourceName p) (hashContent (renderSysctlConf p)) (labelsFor p);
  tear_down := deleteDaemonSet;
  observation p selected complete now :=
    sp_set_Status (next_status p selected (hashContent (renderSysctlConf p)) complete now) p;
  unchanged p q := SysctlStatusDeepEqual (sp_Status p) (sp_Status q);
  clean_up := cleanup;
  record := recorded
}.

#[export] Instance ScriptKind {lib : K8sLib} (image : string) : ProfileKind ScriptProfile := {
  tag := PScript;
  get_profile k := do_call (GetScriptProfile k);
  update p := do_call (UpdateScriptProfile p);
  update_status p := do_call (StatusUpdateScriptProfile p);
  with_finalizers fs p := scp_set_Meta (set_Finalizers fs (scp_Meta p)) p;
  put_config p := do_call (CreateOrUpdateConfigMap (MkKey (scp_Namespace p) (scriptResourceName p))
                             (mutate_ScriptConfigMap p (renderScripts p) (scriptLabelsFor p)));
  put_schedule p := Ret None;
  selected_nodes := scriptSelectedNodeNames;
  roll_out p := ensureScriptDaemonSet image p (scriptResourceName p) (hashContent (renderScripts p)) (scriptLabelsFor p);
  tear_down := deleteScriptDaemonSet;
  observation p selected complete now :=
    scp_set_Status (script_next_status p selected (hashContent (renderScripts p)) complete now) p;
  unchanged p q := ScriptStatusDeepEqual (scp_Status p) (scp_Status q);
  clean_up := cleanupScript;
  record := script_recorded
}.

(** ** The handlers of a kind *)

Section Generic.

Context {lib : K8sLib} {P : Type} {ops : ProfileKind P}.

Definition kind_finish (p : P) (selected : list string) : prog (option error) :=
  let complete := pr_gate (tag p) selected in
  let* err := (if complete then tear_down p else roll_out p) in
  on_ok err Some (
  let* now := do_call Now in
  let q := observation p selected complete now in
  if negb (unchanged p q) then update_status q else Ret None).

Definition kind_reconcile_live (p : P) : prog (option error) :=
  let* r := put_config p in
  match r with
  | inl err => Ret (Some err)
  | inr _ =>
      let* err := put_schedule p in
      on_ok err Some (
      let* sel := selected_nodes p in
      match sel with inl err => Ret (Some err) | inr selected => kind_finish p selected end)
  end.

Definition kind_Reconcile (req : NamespacedName) : prog (option error) :=
  let* r := get_profile req in
  match r with
  | inl err => Ret (IgnoreNotFound (Some err))
  | inr p =>
      if negb (IsZero (om_DeletionTimestamp (pr_meta (tag p)))) then
        if ContainsFinalizer (finalizers (tag p)) finalizer then
          let* err := clean_up p in
          on_ok err Some (update (with_finalizers (RemoveFinalizer (finalizers (tag p)) finalizer) p))
        else Ret None
      else if negb (ContainsFinalizer (finalizers (tag p)) finalizer) then
        update (with_finalizers (AddFinalizer (finalizers (tag p)) finalizer) p)
      else kind_reconcile_live p
  end.

Definition kind_record_attempt (report : StatusReport) : prog (option error) :=
  let* r := get_profile (report_key report) in
  match r with
  | inl err => Ret (Some err)
  | inr p =>
      let* now := do_call Now in
      update_status (record p report now)
  end.

End Generic.

(** The code's handlers are these programs, at their kind. *)
Section Same.

Context {lib : K8sLib} (image : string).

Lemma Reconcile_kind k : Reconcile image k = kind_Reconcile (ops := SysctlKind image) k.
Proof. reflexivity. Qed.

Lemma script_Reconcile_kind k : script_Reconcile image k = kind_Reconcile (ops := ScriptKind image) k.
Proof. reflexivity. Qed.

Lemma record_attempt_kind r : record_attempt r = kind_record_attempt (ops := SysctlKind image) r.
Proof. reflexivity. Qed.

Lemma script_record_attempt_kind r : script_record_attempt r = kind_record_attempt (ops := ScriptKind image) r.
Proof. reflexivity. Qed.

End Same.
