(* ===== verification/KindRefine.v ===== *)
(** * A reconcile of a profile of either kind, on the store.

    What the parts of a reconcile do to the cluster is stated by the interface
    [KindStoreLaws]; from it, once for both kinds: what a reconcile that succeeds does
    to a live profile, that the next one has nothing to write, what it does to a
    profile that is being deleted, and that only a failing call makes it fail. *)
From Stdlib Require Import Permutation.
From S2P Require Import Prelude GoStrings Api Render K8s ApiServer Rollout ReportServer Profile.

(** Writes of a profile, of either kind: what a watch on profiles would see. *)
Definition writes_profile (c : call) : Prop :=
  match c with
  | UpdateSysctlProfile _ | StatusUpdateSysctlProfile _
  | UpdateScriptProfile _ | StatusUpdateScriptProfile _ => True
  | _ => False
  end.

Definition quiet (c : call) : Prop := ~ writes_profile c.

(** ** The interface *)

(** Where a kind is stored, and what its profiles ask for: the ConfigMap, the
    DaemonSet while the rollout lasts, and what is to become of the CronJobs, while
    the profile lives and when it goes. *)
Class KindStore (P : Type) := {
  objects : Cluster -> gmap NamespacedName P;
  with_objects : (gmap NamespacedName P -> gmap NamespacedName P) -> Cluster -> Cluster;
  wanted_config : P -> ConfigMap -> Prop;
  wanted_pods : P -> DaemonSet -> Prop;
  scheduled : P -> (gmap NamespacedName CronJob -> gmap NamespacedName CronJob) -> Prop;
  unscheduled : P -> gmap NamespacedName CronJob -> gmap NamespacedName CronJob
}.

(** The key of a profile among those of its kind. *)
Definition own_key {P : Type} {ops : ProfileKind P} (p : P) : NamespacedName := meta_key (pr_meta (tag p)).

(** The selected nodes of a cluster, in some order. *)
Definition lists (sel : Selector) (c : Cluster) (nodes : list Node) : Prop :=
  Permutation nodes (List.filter (fun n => sel (default ∅ (node_Labels n))) (cl_Nodes c)).

(** [new] is [old] with this status: its version may differ. *)
Definition status_set {P : Type} {ops : ProfileKind P} (old : P) (status : P) (new : P) : Prop :=
  stored_status_meta (pr_meta (tag old)) (pr_meta (tag new)) /\
  pr_spec (tag new) = pr_spec (tag old) /\ pr_status (tag new) = pr_status (tag status).

Class KindStoreLaws (P : Type) {lib : K8sLib} {ops : ProfileKind P} {store : KindStore P}
    {W : Type} {server : ApiServer W} : Prop := {
  (** the kind's part of the store is a part of its own *)
  objects_with f c : objects (with_objects f c) = f (objects c);
  objects_ConfigMaps f c : objects (with_ConfigMaps f c) = objects c;
  objects_DaemonSets f c : objects (with_DaemonSets f c) = objects c;
  objects_CronJobs f c : objects (with_CronJobs f c) = objects c;
  with_objects_nodes f c : cl_Nodes (with_objects f c) = cl_Nodes c;
  with_objects_same k p c : objects c !! k = Some p -> with_objects (<[k := p]>) c = c;
  (** the parts that write no profile *)
  get_profile_quiet k : calls_ok quiet (get_profile k);
  put_config_quiet p : calls_ok quiet (put_config p);
  put_schedule_quiet p : calls_ok quiet (put_schedule p);
  selected_nodes_quiet p : calls_ok quiet (selected_nodes p);
  roll_out_quiet p : calls_ok quiet (roll_out p);
  tear_down_quiet p : calls_ok quiet (tear_down p);
  (** what they do *)
  get_profile_view k w t w' x : exec api_step (get_profile k) w t w' x ->
    api_view w' = api_view w /\
    match x with
    | inr p => objects (api_view w) !! k = Some p /\ own_key p = k
    | inl e => IsNotFound e = true -> objects (api_view w) !! k = None
    end;
  put_config_view p w t w' op : exec api_step (put_config p) w t w' (inr op) ->
    exists cm, wanted_config p cm /\ api_view w' = with_ConfigMaps (<[pr_owned (tag p) := cm]>) (api_view w);
  put_schedule_view p w t w' : exec api_step (put_schedule p) w t w' None ->
    exists f, scheduled p f /\ api_view w' = with_CronJobs f (api_view w);
  selected_nodes_view p w t w' names : exec api_step (selected_nodes p) w t w' (inr names) ->
    exists sel nodes, LabelSelectorAsSelector (pr_selector (tag p)) = inr sel /\
      lists sel (api_view w) nodes /\ names = map node_Name nodes /\ api_view w' = api_view w;
  roll_out_view p w t w' : exec api_step (roll_out p) w t w' None ->
    exists ds, wanted_pods p ds /\ api_view w' = with_DaemonSets (<[pr_owned (tag p) := ds]>) (api_view w);
  tear_down_view p w t w' : exec api_step (tear_down p) w t w' None ->
    api_view w' = with_DaemonSets (delete (pr_owned (tag p))) (api_view w);
  clean_up_view p w t w' : exec api_step (clean_up p) w t w' None ->
    api_view w' = with_ConfigMaps (delete (pr_owned (tag p)))
      (with_CronJobs (unscheduled p) (with_DaemonSets (delete (pr_owned (tag p))) (api_view w)));
  update_view p old w t w' : exec api_step (update p) w t w' None ->
    objects (api_view w) !! own_key p = Some old ->
    exists new, stored_meta (pr_meta (tag p)) (pr_meta (tag new)) /\
      pr_spec (tag new) = pr_spec (tag p) /\ pr_status (tag new) = pr_status (tag old) /\
      api_view w' = with_objects (fun ps =>
        if negb (IsZero (om_DeletionTimestamp (pr_meta (tag p)))) && bool_decide (finalizers (tag p) = [])
        then delete (own_key p) ps else <[own_key p := new]> ps) (api_view w);
  update_status_view p old w t w' : exec api_step (update_status p) w t w' None ->
    objects (api_view w) !! own_key p = Some old ->
    exists new, status_set old p new /\ api_view w' = with_objects (<[own_key p := new]>) (api_view w);
  update_status_rejected p w t w' e : exec api_step (update_status p) w t w' (Some e) ->
    (IsNotFound e = true -> objects (api_view w) !! own_key p = None) /\
    (IsConflict e = true -> api_view w' = api_view w);
  (** the values *)
  with_finalizers_view fs p :
    pr_meta (tag (with_finalizers fs p)) = set_Finalizers fs (pr_meta (tag p)) /\
    pr_spec (tag (with_finalizers fs p)) = pr_spec (tag p);
  observation_view p selected complete now :
    let q := observation p selected complete now in
    pr_meta (tag q) = pr_meta (tag p) /\ pr_spec (tag q) = pr_spec (tag p) /\ statuses (tag q) = statuses (tag p);
  record_view p r now :
    pr_meta (tag (record p r now)) = pr_meta (tag p) /\ pr_spec (tag (record p r now)) = pr_spec (tag p);
  unchanged_view p q : unchanged p q = true <-> pr_status (tag p) = pr_status (tag q);
  observation_again p p' selected selected' complete now now' :
    length selected' = length selected -> om_Generation (pr_meta (tag p')) = om_Generation (pr_meta (tag p)) ->
    pr_spec (tag p') = pr_spec (tag p) ->
    pr_status (tag p') = pr_status (tag (observation p selected complete now)) ->
    pr_status (tag (observation p' selected' complete now')) = pr_status (tag p')
}.

(** The calls of a kind's parts succeed together with the parts. *)
Class KindSucceeds (P : Type) {lib : K8sLib} {ops : ProfileKind P} : Prop := {
  put_config_succeeds p : succeeds (fun r => exists op, r = inr op) (put_config p);
  put_schedule_succeeds p : succeeds (fun r => r = None) (put_schedule p);
  selected_nodes_succeeds p sel : LabelSelectorAsSelector (pr_selector (tag p)) = inr sel ->
    succeeds (fun r => exists names, r = inr names) (selected_nodes p);
  roll_out_succeeds p : succeeds (fun r => r = None) (roll_out p);
  tear_down_succeeds p : succeeds (fun r => r = None) (tear_down p);
  clean_up_succeeds p : succeeds (fun r => r = None) (clean_up p);
  update_succeeds p : succeeds (fun r => r = None) (update p);
  update_status_succeeds p : succeeds (fun r => r = None) (update_status p)
}.

(** The calls of a part, one by one. *)
Ltac quiet_calls :=
  cbn [get_profile put_config put_schedule selected_nodes roll_out tear_down SysctlKind ScriptKind];
  each_call; try done; try (by intros []).

(** ** The reconcile of a kind *)

Section Views.

Context {P : Type} {lib : K8sLib} {laws : K8sLibLaws} {ops : ProfileKind P} {store : KindStore P}.
Context {W : Type} {server : ApiServer W} {slaws : ApiServerLaws W} {klaws : KindStoreLaws P}.

Lemma quiet_trace {A : Type} (m : prog A) (w w' : W) t a :
  calls_ok quiet m -> exec api_step m w t w' a -> Forall (fun ev => quiet (ev_call ev)) t.
Proof. intros Hm H. by eapply (exec_calls _ quiet). Qed.

(** A reconcile that succeeds on a profile that exists has read it, and goes on with
    it. *)
Lemma kind_reads k (p : P) (w w' : W) t :
  exec api_step (kind_Reconcile k) w t w' None -> objects (api_view w) !! k = Some p ->
  own_key p = k /\ exists t1 w1 t2, t = t1 ++ t2 /\ Forall (fun ev => quiet (ev_call ev)) t1 /\
    api_view w1 = api_view w /\
    exec api_step (
      if negb (IsZero (om_DeletionTimestamp (pr_meta (tag p)))) then
        if ContainsFinalizer (finalizers (tag p)) finalizer then
          let* err := clean_up p in
          on_ok err Some (update (with_finalizers (RemoveFinalizer (finalizers (tag p)) finalizer) p))
        else Ret None
      else if negb (ContainsFinalizer (finalizers (tag p)) finalizer) then
        update (with_finalizers (AddFinalizer (finalizers (tag p)) finalizer) p)
      else kind_reconcile_live p) w1 t2 w' None.
Proof.
  intros (t1 & w1 & x & t2 & -> & H1 & H2)%exec_bind Hp.
  pose proof (quiet_trace _ _ _ _ _ (get_profile_quiet k) H1) as Hq.
  apply get_profile_view in H1 as [V Hx]. destruct x as [e|q].
  - exfalso. destruct H2 as (_ & _ & E). symmetry in E.
    apply IgnoreNotFound_gone in E as [?|(e' & [= <-] & En)]; [done|]. apply Hx in En. congruence.
  - destruct Hx as [Hq' Hk]. rewrite Hp in Hq'. injection Hq' as <-. split; [done|].
    by exists t1, w1, t2.
Qed.

(** The rollout and the status of a live profile. *)
Lemma kind_finish_view (p : P) nodes (w w' : W) t :
  exec api_step (kind_finish p (map node_Name nodes)) w t w' None ->
  objects (api_view w) !! own_key p = Some p ->
  let complete := pr_gate (tag p) (map node_Name nodes) in
  exists now ds p',
    (complete = false -> wanted_pods p ds) /\
    status_set p (observation p (map node_Name nodes) complete now) p' /\
    (pr_status (tag p') = pr_status (tag p) -> p' = p /\ Forall (fun ev => quiet (ev_call ev)) t) /\
    api_view w' = with_objects (<[own_key p := p']>) (with_DaemonSets (fun m =>
      if complete then delete (pr_owned (tag p)) m else <[pr_owned (tag p) := ds]> m) (api_view w)).
Proof.
  intros (t1 & w1 & err & t2 & -> & H1 & H2)%exec_bind Hp complete.
  apply exec_on_ok in H2 as [-> (now & w2 & t3 & -> & S2 & H2)]; [|done]. apply read_law in S2 as V2; [|done].
  set (q := observation p (map node_Name nodes) complete now) in *. fold complete in H1, H2.
  assert (Hroll : exists ds, (complete = false -> wanted_pods p ds) /\
    Forall (fun ev => quiet (ev_call ev)) t1 /\
    api_view w1 = with_DaemonSets (fun m =>
      if complete then delete (pr_owned (tag p)) m else <[pr_owned (tag p) := ds]> m) (api_view w)).
  { destruct complete.
    - exists (new_DaemonSet (MkKey "" "")). split; [done|].
      split; [by eapply quiet_trace; [apply tear_down_quiet|]|]. by eapply tear_down_view.
    - apply roll_out_view in H1 as H1'. destruct H1' as (ds & Hds & V). exists ds. split; [done|].
      split; [by eapply quiet_trace; [apply roll_out_quiet|]|done]. }
  destruct Hroll as (ds & Hds & Hq1 & V1).
  assert (Hp2 : objects (api_view w2) !! own_key p = Some p) by (by rewrite V2, V1, objects_DaemonSets).
  destruct (observation_view p (map node_Name nodes) complete now) as (Hm & Hs & _). fold q in Hm, Hs.
  cbn [bind] in H2. cbv zeta in H2. fold q in H2. destruct (unchanged p q) eqn:E; cbn [negb] in H2.
  - apply unchanged_view in E. destruct H2 as (-> & -> & _). exists now, ds, p.
    split; [done|]. split; [|split].
    + split; [|done]. exists (om_ResourceVersion (pr_meta (tag p))). by destruct (pr_meta (tag p)).
    + intros _. split; [done|]. apply Forall_app. split; [done|]. by constructor; [intros []|].
    + rewrite <- V1, <- V2. symmetry. by apply with_objects_same.
  - assert (Hk : own_key q = own_key p) by (unfold own_key; by rewrite Hm). rewrite <- Hk in Hp2.
    apply (update_status_view q p) in H2 as (new & Hset & V); [|done]. exists now, ds, new.
    split; [done|]. split; [done|]. split; [|by rewrite V, V2, V1, Hk].
    intros Heq. exfalso. destruct Hset as (_ & _ & Hst). rewrite Hst in Heq. symmetry in Heq.
    apply unchanged_view in Heq. congruence.
Qed.

(** A reconcile of a live profile, step by step on the cluster. *)
Lemma kind_live_view (p : P) (w w' : W) t :
  exec api_step (kind_reconcile_live p) w t w' None ->
  objects (api_view w) !! own_key p = Some p ->
  let key := pr_owned (tag p) in
  exists sel nodes now cm f ds p',
    let complete := pr_gate (tag p) (map node_Name nodes) in
    LabelSelectorAsSelector (pr_selector (tag p)) = inr sel /\ lists sel (api_view w) nodes /\
    wanted_config p cm /\ scheduled p f /\ (complete = false -> wanted_pods p ds) /\
    status_set p (observation p (map node_Name nodes) complete now) p' /\
    (pr_status (tag p') = pr_status (tag p) -> p' = p /\ Forall (fun ev => quiet (ev_call ev)) t) /\
    api_view w' = with_objects (<[own_key p := p']>) (with_DaemonSets (fun m =>
        if complete then delete key m else <[key := ds]> m)
      (with_CronJobs f (with_ConfigMaps (<[key := cm]>) (api_view w)))).
Proof.
  intros (t1 & w1 & x & t2 & -> & H1 & H2)%exec_bind Hp key.
  destruct x as [e|op]; [by destruct H2 as (_ & _ & ?)|].
  pose proof (quiet_trace _ _ _ _ _ (put_config_quiet p) H1) as Q1.
  apply put_config_view in H1 as (cm & Hcm & V1).
  apply exec_bind in H2 as (t3 & w2 & err & t4 & -> & H3 & H4). apply exec_on_ok in H4 as [-> H4]; [|done].
  pose proof (quiet_trace _ _ _ _ _ (put_schedule_quiet p) H3) as Q3.
  apply put_schedule_view in H3 as (f & Hf & V3).
  apply exec_bind in H4 as (t5 & w3 & names & t6 & -> & H5 & H6).
  destruct names as [e|names]; [by destruct H6 as (_ & _ & ?)|].
  pose proof (quiet_trace _ _ _ _ _ (selected_nodes_quiet p) H5) as Q5.
  apply selected_nodes_view in H5 as (sel & nodes & Hsel & Hnodes & -> & V5).
  assert (V : api_view w3 = with_CronJobs f (with_ConfigMaps (<[key := cm]>) (api_view w)))
    by (by rewrite V5, V3, V1).
  apply kind_finish_view in H6 as (now & ds & p' & Hds & Hset & Hsame & V6);
    [|by rewrite V, objects_CronJobs, objects_ConfigMaps].
  exists sel, nodes, now, cm, f, ds, p'. split; [done|]. split; [by rewrite V3, V1 in Hnodes|].
  split; [done|]. split; [done|]. split; [done|]. split; [done|]. split; [|by rewrite V6, V].
  intros [? Q6]%Hsame. split; [done|]. by repeat (apply Forall_app; split).
Qed.

Lemma kind_reconcile_view k (p : P) (w w' : W) t :
  exec api_step (kind_Reconcile k) w t w' None -> objects (api_view w) !! k = Some p ->
  IsZero (om_DeletionTimestamp (pr_meta (tag p))) = true -> In finalizer (finalizers (tag p)) ->
  let key := pr_owned (tag p) in
  exists sel nodes now cm f ds p',
    let complete := pr_gate (tag p) (map node_Name nodes) in
    LabelSelectorAsSelector (pr_selector (tag p)) = inr sel /\ lists sel (api_view w) nodes /\
    wanted_config p cm /\ scheduled p f /\ (complete = false -> wanted_pods p ds) /\
    status_set p (observation p (map node_Name nodes) complete now) p' /\
    (pr_status (tag p') = pr_status (tag p) -> p' = p /\ Forall (fun ev => quiet (ev_call ev)) t) /\
    api_view w' = with_objects (<[k := p']>) (with_DaemonSets (fun m =>
        if complete then delete key m else <[key := ds]> m)
      (with_CronJobs f (with_ConfigMaps (<[key := cm]>) (api_view w)))).
Proof.
  intros H Hp EZ EF key. apply (kind_reads k p) in H as (Hk & t1 & w1 & t2 & -> & Q1 & V1 & H); [|done].
  apply ContainsFinalizer_law in EF. rewrite EZ, EF in H. cbn [negb] in H. rewrite <- Hk in Hp |- *.
  rewrite <- V1 in Hp |- *. apply kind_live_view in H as (sel & nodes & now & cm & f & ds & p' & H); [|done].
  exists sel, nodes, now, cm, f, ds, p'. destruct H as (H1 & H2 & H3 & H4 & H5 & H6 & Hsame & V).
  split_and!; try done. intros [? Q2]%Hsame. split; [done|]. by apply Forall_app.
Qed.

(** The gate of a profile does not change with its observation. *)
Lemma gate_again (p p' : P) nodes nodes' now :
  let complete := pr_gate (tag p) (map node_Name nodes) in
  Permutation nodes nodes' -> pr_spec (tag p') = pr_spec (tag p) ->
  pr_status (tag p') = pr_status (tag (observation p (map node_Name nodes) complete now)) ->
  pr_gate (tag p') (map node_Name nodes') = complete.
Proof.
  intros complete Hperm Hs Hst.
  assert (Hl : statuses (tag p') = statuses (tag p)).
  { unfold statuses at 1. rewrite Hst. apply observation_view. }
  unfold complete. by rewrite !pr_gate_eq, Hl, (same_spec_hash (tag p') (tag p)), Hperm by done.
Qed.

(** Right after a reconcile of a live profile, another one writes no profile. *)
Lemma kind_quiesces k (p : P) (w w1 w2 : W) t t' :
  exec api_step (kind_Reconcile k) w t w1 None -> objects (api_view w) !! k = Some p ->
  IsZero (om_DeletionTimestamp (pr_meta (tag p))) = true -> In finalizer (finalizers (tag p)) ->
  exec api_step (kind_Reconcile k) w1 t' w2 None ->
  Forall (fun ev => quiet (ev_call ev)) t' /\
  exists p' key cm f ds (complete : bool), objects (api_view w1) !! k = Some p' /\
    api_view w2 = with_objects (<[k := p']>) (with_DaemonSets (fun m =>
        if complete then delete key m else <[key := ds]> m)
      (with_CronJobs f (with_ConfigMaps (<[key := cm]>) (api_view w1)))).
Proof.
  intros H Hp EZ EF H2.
  apply (kind_reconcile_view k p) in H as (sel & nodes & now & cm & f & ds & p' & Hsel & Hnodes & _ & _ & _ &
    ([v Hm] & Hs & Hst) & _ & V); [|done..].
  assert (Hp' : objects (api_view w1) !! k = Some p') by (rewrite V, objects_with; apply lookup_insert_eq).
  unfold finalizers in EF. eapply (kind_reconcile_view k p') in H2 as (sel2 & nodes2 & now2 & cm2 & f2 & ds2 & p2 &
    Hsel2 & Hnodes2 & _ & _ & _ & (_ & _ & Hst2) & Hsame & V2); [|done|by rewrite Hm|by unfold finalizers; rewrite Hm].
  rewrite (same_spec_selector (tag p') (tag p)), Hsel in Hsel2 by done. injection Hsel2 as <-.
  assert (Hperm : Permutation nodes nodes2).
  { unfold lists in *. rewrite V, with_objects_nodes in Hnodes2. by rewrite Hnodes, Hnodes2. }
  assert (Heq : pr_status (tag p2) = pr_status (tag p')).
  { rewrite Hst2. rewrite (gate_again p p' nodes nodes2 now) by done.
    apply (observation_again p p' (map node_Name nodes) _ _ now); [|by rewrite Hm|done..].
    by rewrite !length_map, (Permutation_length Hperm). }
  destruct (Hsame Heq) as [-> Hq]. split; [done|].
  by exists p', (pr_owned (tag p')), cm2, f2, ds2, (pr_gate (tag p') (map node_Name nodes2)).
Qed.

(** A profile that is being deleted. *)
Lemma kind_deletion_view k (p : P) (w w' : W) t :
  exec api_step (kind_Reconcile k) w t w' None -> objects (api_view w) !! k = Some p ->
  IsZero (om_DeletionTimestamp (pr_meta (tag p))) = false -> In finalizer (finalizers (tag p)) ->
  let key := pr_owned (tag p) in
  let fs := RemoveFinalizer (finalizers (tag p)) finalizer in
  exists new, stored_meta (set_Finalizers fs (pr_meta (tag p))) (pr_meta (tag new)) /\
    pr_spec (tag new) = pr_spec (tag p) /\ pr_status (tag new) = pr_status (tag p) /\
    api_view w' = with_objects (fun ps => if bool_decide (fs = []) then delete k ps else <[k := new]> ps)
      (with_ConfigMaps (delete key) (with_CronJobs (unscheduled p) (with_DaemonSets (delete key) (api_view w)))).
Proof.
  intros H Hp EZ EF key fs. apply (kind_reads k p) in H as (Hk & t1 & w1 & t2 & -> & _ & V1 & H); [|done].
  apply ContainsFinalizer_law in EF. rewrite EZ, EF in H. cbn [negb] in H.
  apply exec_bind in H as (t3 & w2 & err & t4 & -> & H3 & H4). apply exec_on_ok in H4 as [-> H4]; [|done].
  apply clean_up_view in H3 as V3. fold fs in H4. destruct (with_finalizers_view fs p) as [Em Es].
  assert (Ek : own_key (with_finalizers fs p) = k) by (unfold own_key; by rewrite Em).
  apply (update_view _ p) in H4 as (new & Hm & Hs & Hst & V);
    [|by rewrite Ek, V3, objects_ConfigMaps, objects_CronJobs, objects_DaemonSets, V1].
  exists new. rewrite Em in Hm. rewrite Es in Hs. split; [done|]. split; [done|]. split; [done|].
  unfold finalizers in V. rewrite Em, Ek in V. cbn [set_Finalizers om_DeletionTimestamp om_Finalizers] in V.
  rewrite EZ in V. by rewrite V, V3, V1.
Qed.

(** One attempt to record a report on a profile that exists: recorded, or failed and
    not because it does not exist; a conflict has changed nothing. *)
Definition report_put (r : StatusReport) (p : P) (before after : Cluster) : Prop :=
  exists now new, status_set p (record p r now) new /\ after = with_objects (<[report_key r := new]>) before.

Lemma kind_record_view r (p : P) (w w' : W) t e :
  exec api_step (kind_record_attempt r) w t w' e -> objects (api_view w) !! report_key r = Some p ->
  match e with
  | None => report_put r p (api_view w) (api_view w')
  | Some err => IsNotFound err = false /\ (IsConflict err = true -> api_view w' = api_view w)
  end.
Proof.
  intros (t1 & w1 & x & t2 & -> & H1 & H2)%exec_bind Hp. apply get_profile_view in H1 as [V1 Hx].
  destruct x as [err|q].
  - destruct H2 as (-> & -> & ->). split; [|done]. destruct (IsNotFound err) eqn:E; [|done].
    by rewrite Hx in Hp.
  - destruct Hx as [Hq Hk]. rewrite Hp in Hq. injection Hq as <-.
    destruct H2 as (now & w2 & t3 & -> & S2 & H3). apply read_law in S2 as V2; [|done]. cbn [bind] in H3.
    destruct (record_view p r now) as [Hm Hs].
    assert (Hk2 : own_key (record p r now) = report_key r) by (unfold own_key; by rewrite Hm).
    assert (V : api_view w2 = api_view w) by congruence. destruct e as [err|].
    + apply update_status_rejected in H3 as [Hn Hc]. split; [|by intros E; rewrite (Hc E)].
      destruct (IsNotFound err); [|done]. rewrite Hk2, V, Hp in Hn. by specialize (Hn eq_refl).
    + apply (update_status_view _ p) in H3 as (new & Hset & V3); [|by rewrite Hk2, V].
      exists now, new. split; [done|]. by rewrite V3, V, Hk2.
Qed.

(** All the attempts, of which those that end in a conflict have changed nothing. *)
Lemma kind_attempts_view r (p : P) (w w' : W) t e :
  attempts api_step (kind_record_attempt r) w t w' e -> objects (api_view w) !! report_key r = Some p ->
  match e with None => report_put r p (api_view w) (api_view w') | Some err => IsNotFound err = false end.
Proof.
  induction 1 as [w t w' e H|w t1 w1 e t2 w' e' H Hc _ IH]; intros Hp; apply (kind_record_view r p) in H; try done.
  - destruct e; [by destruct H|done].
  - destruct H as [_ V]. rewrite (V Hc) in IH. by apply IH.
Qed.

End Views.

(** Nothing but a failing call makes the reconcile of a kind fail. *)
Section Success.

Context {P : Type} {lib : K8sLib} {laws : K8sLibLaws} {ops : ProfileKind P} {ksucc : KindSucceeds P}.

Lemma kind_live_succeeds (p : P) sel :
  LabelSelectorAsSelector (pr_selector (tag p)) = inr sel ->
  succeeds (fun r => r = None) (kind_reconcile_live p).
Proof.
  intros Hsel. eapply succeeds_bind; [apply put_config_succeeds|]. intros ? [op ->].
  eapply succeeds_bind; [apply put_schedule_succeeds|]. intros ? ->. cbn [on_ok].
  eapply succeeds_bind; [by eapply selected_nodes_succeeds|]. intros ? [names ->].
  eapply (succeeds_bind _ (fun r => r = None)).
  { destruct (pr_gate _ _); [apply tear_down_succeeds|apply roll_out_succeeds]. }
  intros ? -> now _. cbn [bind]. destruct (negb _); [apply update_status_succeeds|done].
Qed.

(** After the profile has been read. *)
Lemma kind_handled_succeeds (p : P) sel :
  LabelSelectorAsSelector (pr_selector (tag p)) = inr sel ->
  succeeds (fun r => r = None) (
    if negb (IsZero (om_DeletionTimestamp (pr_meta (tag p)))) then
      if ContainsFinalizer (finalizers (tag p)) finalizer then
        let* err := clean_up p in
        on_ok err Some (update (with_finalizers (RemoveFinalizer (finalizers (tag p)) finalizer) p))
      else Ret None
    else if negb (ContainsFinalizer (finalizers (tag p)) finalizer) then
      update (with_finalizers (AddFinalizer (finalizers (tag p)) finalizer) p)
    else kind_reconcile_live p).
Proof.
  intros Hsel. destruct (IsZero _), (ContainsFinalizer _ _); cbn [negb].
  - by eapply kind_live_succeeds.
  - apply update_succeeds.
  - eapply succeeds_bind; [apply clean_up_succeeds|]. intros ? ->. apply update_succeeds.
  - done.
Qed.

End Success.
