(* ===== verification/SysctlRefine.v ===== *)
(** * What a reconcile of a SysctlProfile does to the cluster.

    The specification [Reconciled] states, object by object, the cluster a
    successful reconcile leaves behind; [Reconcile] is proved to implement it
    against any server that behaves like a store ([ApiServerLaws]), through the
    interface of [KindRefine], whose laws SysctlProfiles are shown to keep. *)
From Stdlib Require Import Permutation.
From S2P Require Import Prelude GoStrings Api Render K8s ApiServer Rollout SysctlController ReportRefine Profile KindRefine.

(** ** Specification *)

(** The profile controls the object, which has the common labels. *)
Definition owned_by (p : SysctlProfile) (m : ObjectMeta) : Prop :=
  In (controller_ref "SysctlProfile" (sp_Meta p)) (om_OwnerReferences m) /\ om_Labels m = labelsFor p.

(** A pod that runs the worker, privileged and in the host's namespaces, on
    nodes with the selector's match labels, told which config it is to find in
    the named ConfigMap. *)
Record worker_pod (image : string) (p : SysctlProfile) (hash configmap : string) (pod : PodSpec) :
    Prop := {
  wp_nodes : pod_NodeSelector pod = ls_MatchLabels (spec_NodeSelector (sp_Spec p));
  wp_tolerations : pod_Tolerations pod = spec_Tolerations (sp_Spec p);
  wp_host : pod_HostNetwork pod = true /\ pod_HostPID pod = true /\ pod_HostIPC pod = true;
  wp_container : exists c, pod_Containers pod = [c] /\ ctr_Image c = workerImage image /\
    ctr_SecurityContext c = privilegedSecurityContext /\
    env_lookup "PROFILE" c = Some (Literal (sp_Name p)) /\
    env_lookup "NAMESPACE" c = Some (Literal (sp_Namespace p)) /\
    env_lookup "CONFIG_HASH" c = Some (Literal hash) /\
    env_lookup "REPORT_URL" c = Some (Literal reportURL) /\
    env_lookup "NODE_NAME" c = Some (FieldRef "spec.nodeName") /\
    exists v m, In v (pod_Volumes pod) /\ In m (ctr_VolumeMounts c) /\ vm_Name m = vol_Name v /\
      vol_Source v = FromConfigMap configmap /\ vm_MountPath m = configMountPath
}.

Definition desired_ConfigMap (p : SysctlProfile) (cm : ConfigMap) : Prop :=
  owned_by p (cm_Meta cm) /\ cm_Data cm = {[configFileName := renderSysctlConf p]}.

Definition desired_DaemonSet (image : string) (p : SysctlProfile) (ds : DaemonSet) : Prop :=
  let hash := hashContent (renderSysctlConf p) in
  owned_by p (ds_Meta ds) /\
  ds_Selector ds = Some (MkLabelSelector {[labelProfile := sp_Name p]} []) /\
  tpl_Labels (ds_Template ds) = labelsFor p /\
  tpl_Annotations (ds_Template ds) !! configHashAnn = Some hash /\
  worker_pod image p hash (resourceName p) (tpl_Spec (ds_Template ds)).

Definition desired_CronJob (image : string) (p : SysctlProfile) (cj : CronJob) : Prop :=
  owned_by p (cj_Meta cj) /\ cj_Schedule cj = DriftCheck (spec_Schedule (sp_Spec p)) /\
  cj_ConcurrencyPolicy cj = "Forbid" /\
  worker_pod image p (hashContent (renderSysctlConf p)) (cronJobName p) (tpl_Spec (cj_Template cj)).

(** Every selected node, and at least one, has applied the current config. *)
Definition rollout_complete (p : SysctlProfile) (sel : Selector) (c : Cluster) : Prop :=
  (exists n, selects sel c n) /\
  forall n, selects sel c n ->
    applied_at (st_NodeStatuses (sp_Status p)) (node_Name n) (hashContent (renderSysctlConf p)).

(** What becomes of the profile itself: only its status may change, and in it
    the hashes, the node count and the conditions. *)
Definition observed (p p' : SysctlProfile) (torn_down : bool) (selected : nat) : Prop :=
  let hash := hashContent (renderSysctlConf p) in
  stored_status_meta (sp_Meta p) (sp_Meta p') /\ sp_Spec p' = sp_Spec p /\
  exists cs, sp_Status p' =
    st_set_Conditions cs (st_set_Observed hash (wrap32 (Z.of_nat selected))
      (if torn_down then st_set_Teardown hash (sp_Status p) else sp_Status p)) /\
  exists cond, In cond cs /\ cond_Type cond = "Ready" /\ cond_Status cond = "True" /\
    cond_ObservedGeneration cond = om_Generation (sp_Meta p) /\
    cond_Reason cond = (if torn_down then "RolloutComplete" else "RollingOut").

(** The whole: the cluster before and after. *)
Definition Reconciled `{K8sLib} (image : string) (p : SysctlProfile) (before after : Cluster) : Prop :=
  let key := MkKey (sp_Namespace p) (resourceName p) in
  let cron := MkKey (sp_Namespace p) (cronJobName p) in
  exists sel cm cj ds p' (torn_down : bool),
  LabelSelectorAsSelector (spec_NodeSelector (sp_Spec p)) = inr sel /\
  desired_ConfigMap p cm /\
  (DriftCheck (spec_Schedule (sp_Spec p)) <> "" -> desired_CronJob image p cj) /\
  (torn_down = false -> desired_DaemonSet image p ds) /\
  observed p p' torn_down
    (length (List.filter (fun n => sel (default ∅ (node_Labels n))) (cl_Nodes before))) /\
  (torn_down = true <-> rollout_complete p sel before) /\
  after = MkCluster
    (<[meta_key (sp_Meta p) := p']> (cl_SysctlProfiles before))
    (cl_ScriptProfiles before)
    (<[key := cm]> (cl_ConfigMaps before))
    (if torn_down then delete key (cl_DaemonSets before) else <[key := ds]> (cl_DaemonSets before))
    (if String.eqb (DriftCheck (spec_Schedule (sp_Spec p))) ""
     then delete cron (cl_CronJobs before) else <[cron := cj]> (cl_CronJobs before))
    (cl_Nodes before).

(** Writes of a profile: what a watch on profiles would see. *)
Definition profile_write (c : call) : Prop :=
  match c with
  | UpdateSysctlProfile _ | StatusUpdateSysctlProfile _ => True
  | _ => False
  end.

(** ** Lemmas *)

Section Refine.

Context {lib : K8sLib} {laws : K8sLibLaws} {W : Type} {server : ApiServer W} {slaws : ApiServerLaws W}.
Variable image : string.

Lemma stored_owner p labels m m' kept :
  SetControllerReference "SysctlProfile" (sp_Meta p) (set_Labels labels m) = inr m' ->
  stored_meta m' kept ->
  In (controller_ref "SysctlProfile" (sp_Meta p)) (om_OwnerReferences kept) /\ om_Labels kept = labels.
Proof.
  intros (refs & -> & Hin)%SetControllerReference_law (_ & _ & Hl & _ & _ & Ho).
  by rewrite Hl, Ho.
Qed.

Lemma put_desired_ConfigMap p cm sent kept :
  mutate_ConfigMap p (renderSysctlConf p) (labelsFor p) cm = inr sent ->
  stored_ConfigMap sent kept -> desired_ConfigMap p kept.
Proof.
  unfold mutate_ConfigMap. destruct (SetControllerReference _ _ _) as [|m] eqn:E; [done|].
  intros [= <-] [Hm Hd]. split; [by eapply stored_owner|done].
Qed.

(** The pods of the DaemonSet and of the CronJob, as the server keeps them. *)
Lemma stored_worker_pod p hash name container policy kept :
  stored_pod (MkPodSpec (ls_MatchLabels (spec_NodeSelector (sp_Spec p))) (spec_Tolerations (sp_Spec p))
      true true true "ClusterFirstWithHostNet" policy (worker_volumes name)
      [MkContainer container (workerImage image) imagePullPolicy privilegedSecurityContext
         [MkVolumeMount configVolumeName configMountPath true] (worker_env p hash)]) kept ->
  worker_pod image p hash name kept.
Proof.
  intros (policy' & _ & ->). constructor; try done. eexists. split; [done|]. simpl.
  split_and!; try reflexivity. do 2 eexists. split_and!; [by left|by left|done..].
Qed.

Lemma put_desired_DaemonSet p ds sent kept :
  mutate_DaemonSet image p (resourceName p) (hashContent (renderSysctlConf p)) (labelsFor p) ds = inr sent ->
  stored_DaemonSet sent kept -> desired_DaemonSet image p kept.
Proof.
  unfold mutate_DaemonSet. destruct (SetControllerReference _ _ _) as [|m] eqn:E; [done|].
  intros [= <-] (Hm & Hs & Hl & Ha & Hp). unfold desired_DaemonSet.
  rewrite Hs, Hl, Ha. split; [by eapply stored_owner|].
  split_and!; try done; [apply lookup_insert_eq|eapply stored_worker_pod, Hp].
Qed.

Lemma put_desired_CronJob p cj sent kept :
  mutate_CronJob image p (cronJobName p) (hashContent (renderSysctlConf p)) (labelsFor p) cj = inr sent ->
  stored_CronJob sent kept -> desired_CronJob image p kept.
Proof.
  unfold mutate_CronJob. destruct (SetControllerReference _ _ _) as [|m] eqn:E; [done|].
  intros [= <-] (Hm & Hs & Hc & _ & _ & _ & _ & Hp). unfold desired_CronJob.
  rewrite Hs, Hc. split; [by eapply stored_owner|].
  split_and!; try done. eapply stored_worker_pod, Hp.
Qed.

Lemma next_status_observed p selected complete now m :
  stored_status_meta (sp_Meta p) m ->
  observed p (MkSysctlProfile m (sp_Spec p)
    (next_status p selected (hashContent (renderSysctlConf p)) complete now)) complete (length selected).
Proof.
  intros Hm. split; [done|]. split; [done|]. unfold next_status.
  destruct complete; (eexists; split; [reflexivity|]).
  - destruct (SetStatusCondition_law (st_Conditions (sp_Status p)) (ready_condition p "RolloutComplete"
      "all selected nodes applied; applier DaemonSet torn down") now) as [t Ht].
    eexists. by split; [exact Ht|].
  - destruct (SetStatusCondition_law (st_Conditions (sp_Status p)) (ready_condition p "RollingOut"
      "applier DaemonSet active") now) as [t Ht].
    eexists. by split; [exact Ht|].
Qed.

(** The step of the CronJob, and the rollout, on the cluster. *)
Lemma reconcile_CronJob_view p w t w' :
  exec api_step (reconcile_CronJob image p (hashContent (renderSysctlConf p)) (labelsFor p)) w t w' None ->
  exists cj, (DriftCheck (spec_Schedule (sp_Spec p)) <> "" -> desired_CronJob image p cj) /\
    api_view w' = with_CronJobs (fun m =>
      let cron := MkKey (sp_Namespace p) (cronJobName p) in
      if String.eqb (DriftCheck (spec_Schedule (sp_Spec p))) "" then delete cron m else <[cron := cj]> m)
      (api_view w).
Proof.
  intros H%exec_reconcile_CronJob. destruct (String.eqb_spec (DriftCheck (spec_Schedule (sp_Spec p))) "").
  - apply exec_ensureNoCronJob in H as (x & _ & S & Hg).
    exists (new_CronJob (MkKey "" "")). split; [done|]. eapply delete_CronJob_law; [exact S|by apply Hg].
  - apply exec_ensureCronJob in H as (x & _ & S & Hx). destruct (Hx eq_refl) as [op ->].
    apply put_CronJob_law in S as (sent & kept & Hm & Hk & Hv).
    exists kept. split; [|done]. intros _. by eapply put_desired_CronJob.
Qed.

(** ** The kind's part of the interface *)

#[export] Instance SysctlStore : KindStore SysctlProfile := {
  objects := cl_SysctlProfiles;
  with_objects := with_SysctlProfiles;
  wanted_config := desired_ConfigMap;
  wanted_pods := desired_DaemonSet image;
  scheduled p f := exists cj, (DriftCheck (spec_Schedule (sp_Spec p)) <> "" -> desired_CronJob image p cj) /\
    f = fun m => let cron := MkKey (sp_Namespace p) (cronJobName p) in
      if String.eqb (DriftCheck (spec_Schedule (sp_Spec p))) "" then delete cron m else <[cron := cj]> m;
  unscheduled p := delete (MkKey (sp_Namespace p) (cronJobName p))
}.

#[export] Instance SysctlStore_laws : KindStoreLaws SysctlProfile (ops := SysctlKind image).
Proof.
  split.
  1-5: reflexivity.
  - intros k p c Hp. destruct c. unfold with_objects, SysctlStore, with_SysctlProfiles. simpl in *.
    by rewrite insert_id.
  - intros k. by quiet_calls.
  - intros p. by quiet_calls.
  - intros p. cbn [put_schedule SysctlKind]. unfold reconcile_CronJob, ensureCronJob, ensureNoCronJob. by quiet_calls.
  - intros p. cbn [selected_nodes SysctlKind]. unfold selectedNodeNames. by quiet_calls.
  - intros p. cbn [roll_out SysctlKind]. unfold ensureDaemonSet. by quiet_calls.
  - intros p. cbn [tear_down SysctlKind]. unfold deleteDaemonSet. by quiet_calls.
  - intros k w t w' x (r & w1 & t1 & -> & S & -> & -> & ->). split; [by apply read_law in S|].
    destruct r as [e|p]; [by intros Hn; apply get_sysctl_missing in S|]. by apply get_sysctl_law in S.
  - intros p w t w' op (r & w1 & t1 & -> & S & -> & -> & <-).
    apply put_ConfigMap_law in S as (sent & cm & Hmut & Hcm & V). exists cm.
    split; [by eapply put_desired_ConfigMap|done].
  - intros p w t w' (cj & Hcj & V)%reconcile_CronJob_view. eexists. split; [by exists cj|done].
  - intros p w t w' names (sel & nodes & Hsel & -> & S & ->)%exec_selectedNodeNames.
    exists sel, nodes. split; [done|]. split; [by eapply list_nodes_law|]. split; [done|]. by apply read_law in S.
  - intros p w t w' (x & _ & S & Hx)%exec_ensureDaemonSet. destruct (Hx eq_refl) as [op ->].
    apply put_DaemonSet_law in S as (sent & kept & Hm & Hk & Hv). exists kept.
    split; [by eapply put_desired_DaemonSet|done].
  - intros p w t w' (x & _ & S & Hg)%exec_deleteDaemonSet. eapply delete_DaemonSet_law; [exact S|by apply Hg].
  - intros p w t w' (r1 & r2 & r3 & v1 & v2 & -> & G1 & G2 & G3 & S2 & S3 & S4)%exec_cleanup; [|done].
    apply delete_DaemonSet_law in S2; [|exact G1]. apply delete_CronJob_law in S3; [|exact G2].
    apply delete_ConfigMap_law in S4; [|exact G3]. by rewrite S4, S3, S2.
  - intros p old w t w' (r & w1 & t1 & -> & S & -> & -> & <-) Hold.
    apply update_sysctl_law in S as (old' & m & Hold' & Hm & V). pose proof (eq_trans (eq_sym Hold) Hold') as [= <-].
    by eexists (MkSysctlProfile m _ _).
  - intros p old w t w' (r & w1 & t1 & -> & S & -> & -> & <-) Hold.
    apply status_sysctl_law in S as (old' & m & Hold' & Hm & V). pose proof (eq_trans (eq_sym Hold) Hold') as [= <-].
    by eexists (MkSysctlProfile m _ _).
  - intros p w t w' e (r & w1 & t1 & -> & S & -> & -> & <-). split; intros E.
    + by apply status_sysctl_missing in S.
    + apply rejected_law in S; [done|by right].
  - done.
  - intros p selected complete now. split; [done|]. split; [done|]. by destruct complete.
  - intros p r now. split; [apply recorded_meta|]. cbn. by rewrite recorded_spec.
  - intros p q. cbn. rewrite SysctlStatusDeepEqual_law. split; [by intros ->|by intros [= ->]].
  - intros p p' selected selected' complete now now' Hlen Hgen [= Hs] [= Hst]. cbn in Hgen, Hst |- *. f_equal.
    assert (Hh : renderSysctlConf p' = renderSysctlConf p) by (unfold renderSysctlConf; by rewrite Hs).
    rewrite Hh. unfold next_status at 1. rewrite Hlen. unfold ready_condition. rewrite Hgen, Hst.
    unfold next_status, ready_condition. destruct complete; cbn; by rewrite SetStatusCondition_again.
Qed.

(** A profile that a reconcile read is stored. *)
Lemma reconcile_read k p w t w' r :
  exec api_step (Reconcile image k) w (Ev (GetSysctlProfile k) (inr p) :: t) w' r ->
  cl_SysctlProfiles (api_view w) !! k = Some p /\ meta_key (sp_Meta p) = k.
Proof.
  intros (x & w1 & t1 & Et & S & _)%exec_Reconcile. apply cons_eq_inv in Et as [Ex _].
  apply (f_equal got_sysctl) in Ex. cbn in Ex. subst x. by apply get_sysctl_law in S.
Qed.

(** A reconcile of a live profile, step by step on the cluster. *)
Lemma reconcile_live_view k p w t w' :
  exec api_step (Reconcile image k) w t w' None -> cl_SysctlProfiles (api_view w) !! k = Some p ->
  IsZero (om_DeletionTimestamp (sp_Meta p)) = true -> In finalizer (om_Finalizers (sp_Meta p)) ->
  let key := MkKey (sp_Namespace p) (resourceName p) in
  let cron := MkKey (sp_Namespace p) (cronJobName p) in
  let hash := hashContent (renderSysctlConf p) in
  exists sel nodes now cm cj ds p',
    let complete := allNodesApplied p (map node_Name nodes) hash in
    LabelSelectorAsSelector (spec_NodeSelector (sp_Spec p)) = inr sel /\ lists sel (api_view w) nodes /\
    desired_ConfigMap p cm /\
    (DriftCheck (spec_Schedule (sp_Spec p)) <> "" -> desired_CronJob image p cj) /\
    (complete = false -> desired_DaemonSet image p ds) /\
    observed p p' complete (length nodes) /\
    sp_Status p' = next_status p (map node_Name nodes) hash complete now /\
    api_view w' = MkCluster
      (<[k := p']> (cl_SysctlProfiles (api_view w)))
      (cl_ScriptProfiles (api_view w))
      (<[key := cm]> (cl_ConfigMaps (api_view w)))
      (if complete then delete key (cl_DaemonSets (api_view w))
       else <[key := ds]> (cl_DaemonSets (api_view w)))
      (if String.eqb (DriftCheck (spec_Schedule (sp_Spec p))) ""
       then delete cron (cl_CronJobs (api_view w)) else <[cron := cj]> (cl_CronJobs (api_view w)))
      (cl_Nodes (api_view w)).
Proof.
  intros H Hp EZ EF key cron hash. rewrite Reconcile_kind in H.
  apply (kind_reconcile_view (ops := SysctlKind image) k p) in H
    as (sel & nodes & now & cm & f & ds & p' & Hsel & Hnodes & Hcm & (cj & Hcj & ->) & Hds & (Hm & Hs & Hst) & _ & V);
    [|done..].
  injection Hs as Hs. injection Hst as Hst. exists sel, nodes, now, cm, cj, ds, p'.
  do 5 (split; [done|]). split; [|done]. cbn in Hm, Hs, Hst.
  pose proof (next_status_observed p (map node_Name nodes) (allNodesApplied p (map node_Name nodes) hash) now
    (sp_Meta p') Hm) as Hobs. rewrite length_map in Hobs. destruct p' as [m' s' st']. cbn in Hs, Hst, Hobs.
  by rewrite Hs, Hst.
Qed.

(** C1. Refinement: a reconcile of a live profile that succeeds leaves exactly
    the cluster the specification describes: the rendered config in the
    ConfigMap, the drift-check CronJob present if and only if it is scheduled,
    the applier DaemonSet gone if and only if every selected node (and at least
    one) has applied the current config and otherwise present and pointing at
    that config, the status observed; and every other object as it was. *)
Theorem reconcile_refines k p w t w' :
  exec api_step (Reconcile image k) w (Ev (GetSysctlProfile k) (inr p) :: t) w' None ->
  IsZero (om_DeletionTimestamp (sp_Meta p)) = true -> In finalizer (om_Finalizers (sp_Meta p)) ->
  Reconciled image p (api_view w) (api_view w').
Proof.
  intros H EZ EF. pose proof (reconcile_read _ _ _ _ _ _ H) as [Hp Hk].
  apply (reconcile_live_view k p) in H as (sel & nodes & now & cm & cj & ds & p' & Hsel & Hnodes & Hcm & Hcj &
    Hds & Hobs & _ & V); [|done..]. rewrite <- Hk in V.
  apply Permutation_length in Hnodes as Hl. rewrite Hl in Hobs.
  exists sel, cm, cj, ds, p', (allNodesApplied p (map node_Name nodes) (hashContent (renderSysctlConf p))).
  split; [done|]. split; [done|]. split; [done|]. split; [done|]. split; [done|]. split; [|done].
  by apply gate_selected.
Qed.

(** No hot loop: right after a successful reconcile of a live profile,
    another one that succeeds writes neither the profile nor its status, so it
    does not trigger itself; the profiles in the cluster stay as they are. *)
Theorem reconcile_quiesces k p w t w1 t' w2 :
  exec api_step (Reconcile image k) w (Ev (GetSysctlProfile k) (inr p) :: t) w1 None ->
  IsZero (om_DeletionTimestamp (sp_Meta p)) = true -> In finalizer (om_Finalizers (sp_Meta p)) ->
  exec api_step (Reconcile image k) w1 t' w2 None ->
  Forall (fun ev => ~ profile_write (ev_call ev)) t' /\
  cl_SysctlProfiles (api_view w2) = cl_SysctlProfiles (api_view w1).
Proof.
  intros H EZ EF H2. pose proof (reconcile_read _ _ _ _ _ _ H) as [Hp _]. rewrite Reconcile_kind in H, H2.
  destruct (kind_quiesces (ops := SysctlKind image) (store := SysctlStore) k p _ _ _ _ _ H Hp EZ EF H2)
    as (Hq & p' & key & cm & f & ds & complete & Hp' & V). split.
  - eapply Forall_impl; [|exact Hq]. intros ev Hev Hw. apply Hev. by destruct (ev_call ev).
  - rewrite V. cbn. by apply insert_id.
Qed.

(** Clean deletion: a reconcile of a profile that is being deleted and
    still has the finalizer, when it succeeds, leaves none of the profile's
    objects and removes the profile itself unless another finalizer holds it,
    and changes nothing else. *)
Theorem deletion_cleans k p w t w' :
  exec api_step (Reconcile image k) w (Ev (GetSysctlProfile k) (inr p) :: t) w' None ->
  IsZero (om_DeletionTimestamp (sp_Meta p)) = false -> In finalizer (om_Finalizers (sp_Meta p)) ->
  let key := MkKey (sp_Namespace p) (resourceName p) in
  let fs := RemoveFinalizer (om_Finalizers (sp_Meta p)) finalizer in
  exists m, stored_meta (set_Finalizers fs (sp_Meta p)) m /\
  api_view w' = MkCluster
    (if bool_decide (fs = []) then delete k (cl_SysctlProfiles (api_view w))
     else <[k := sp_set_Meta m p]> (cl_SysctlProfiles (api_view w)))
    (cl_ScriptProfiles (api_view w))
    (delete key (cl_ConfigMaps (api_view w)))
    (delete key (cl_DaemonSets (api_view w)))
    (delete (MkKey (sp_Namespace p) (cronJobName p)) (cl_CronJobs (api_view w)))
    (cl_Nodes (api_view w)).
Proof.
  intros H EZ EF key fs. pose proof (reconcile_read _ _ _ _ _ _ H) as [Hp _]. rewrite Reconcile_kind in H.
  apply (kind_deletion_view (ops := SysctlKind image) k p) in H as (new & Hm & Hs & Hst & V); [|done..].
  exists (sp_Meta new). split; [done|]. injection Hs as Hs. injection Hst as Hst. rewrite V. cbn.
  destruct new as [m' s' st'], p as [m sp st]. cbn in *. by subst.
Qed.

End Refine.

Section Success.

Context {lib : K8sLib} {laws : K8sLibLaws}.
Variable image : string.

#[export] Instance Sysctl_succeeds : KindSucceeds SysctlProfile (ops := SysctlKind image).
Proof.
  split; cbn [put_config put_schedule selected_nodes roll_out tear_down clean_up update update_status SysctlKind].
  - by intros p r Hr.
  - intros p. unfold reconcile_CronJob. destruct (negb _); intros r Hr; cbn [bind]; [by destruct Hr as [op ->]|].
    by apply gone_ignored.
  - intros p sel Hsel. unfold selectedNodeNames. cbn in Hsel. rewrite Hsel. intros r [ns ->]. by eexists.
  - by intros p r [op ->].
  - intros p r Hr. by apply gone_ignored.
  - intros p r1 H1. cbn [bind]. rewrite (gone_ignored r1 H1).
    intros r2 H2. cbn [bind]. rewrite (gone_ignored r2 H2).
    intros r3 H3. cbn [bind]. by rewrite (gone_ignored r3 H3).
  - by intros p r Hr.
  - by intros p r Hr.
Qed.

End Success.

(** C34. Nothing but a failing call makes a reconcile fail: if every call it
    made succeeded and the profile's selector is valid, the result is nil. *)
Theorem reconcile_succeeds `{laws : K8sLibLaws} {W : Type} (step : W -> event -> W -> Prop) image k p w t w' r :
  exec step (Reconcile image k) w (Ev (GetSysctlProfile k) (inr p) :: t) w' r ->
  Forall succeeded t ->
  (exists sel, LabelSelectorAsSelector (spec_NodeSelector (sp_Spec p)) = inr sel) -> r = None.
Proof.
  intros E Ht [sel Hsel]. rewrite Reconcile_kind in E. destruct E as (x & w1 & t1 & Et & _ & E).
  apply cons_eq_inv in Et as [Ex <-]. apply (f_equal got_sysctl) in Ex. cbn in Ex. subst x.
  eapply (exec_succeeds step (fun r => r = None)); [|exact E|exact Ht].
  exact (kind_handled_succeeds (ops := SysctlKind image) p sel Hsel).
Qed.
