(* ===== verification/ScriptRefine.v ===== *)
(** * What a reconcile of a ScriptProfile does to the cluster.

    The specification [script_Reconciled] states, object by object, the cluster a
    successful reconcile leaves behind; [script_Reconcile] is proved to implement it
    against any server that behaves like a store ([ApiServerLaws]), through the
    interface of [KindRefine], whose laws ScriptProfiles are shown to keep. *)
From Stdlib Require Import Permutation.
From S2P Require Import Prelude GoStrings Api Render K8s ApiServer Rollout SysctlController ScriptController ReportRefine Profile KindRefine.

(** ** Specification *)

(** The profile controls the object, which has the common labels. *)
Definition script_owned_by (p : ScriptProfile) (m : ObjectMeta) : Prop :=
  In (controller_ref "ScriptProfile" (scp_Meta p)) (om_OwnerReferences m) /\ om_Labels m = scriptLabelsFor p.

(** A pod that runs the worker in script mode, privileged and in the host's namespaces, on
    nodes with the selector's match labels, told which config it is to find in
    the named ConfigMap. *)
Record runner_pod (image : string) (p : ScriptProfile) (hash configmap : string) (pod : PodSpec) :
    Prop := {
  rp_nodes : pod_NodeSelector pod = ls_MatchLabels (sspec_NodeSelector (scp_Spec p));
  rp_tolerations : pod_Tolerations pod = sspec_Tolerations (scp_Spec p);
  rp_host : pod_HostNetwork pod = true /\ pod_HostPID pod = true /\ pod_HostIPC pod = true;
  rp_container : exists c, pod_Containers pod = [c] /\ ctr_Image c = script_workerImage image /\
    ctr_SecurityContext c = privilegedSecurityContext /\
    env_lookup "MODE" c = Some (Literal "script") /\
    env_lookup "CONFIG_PATH" c = Some (Literal (scriptConfigMountPath +:+ "/" +:+ scriptConfigFileName)) /\
    env_lookup "PROFILE" c = Some (Literal (scp_Name p)) /\
    env_lookup "NAMESPACE" c = Some (Literal (scp_Namespace p)) /\
    env_lookup "CONFIG_HASH" c = Some (Literal hash) /\
    env_lookup "REPORT_URL" c = Some (Literal scriptReportURL) /\
    env_lookup "NODE_NAME" c = Some (FieldRef "spec.nodeName") /\
    exists v m, In v (pod_Volumes pod) /\ In m (ctr_VolumeMounts c) /\ vm_Name m = vol_Name v /\
      vol_Source v = FromConfigMap configmap /\ vm_MountPath m = scriptConfigMountPath
}.

Definition script_desired_ConfigMap (p : ScriptProfile) (cm : ConfigMap) : Prop :=
  script_owned_by p (cm_Meta cm) /\ cm_Data cm = {[scriptConfigFileName := renderScripts p]}.

Definition script_desired_DaemonSet (image : string) (p : ScriptProfile) (ds : DaemonSet) : Prop :=
  let hash := hashContent (renderScripts p) in
  script_owned_by p (ds_Meta ds) /\
  ds_Selector ds = Some (MkLabelSelector {[labelScriptProfile := scp_Name p]} []) /\
  tpl_Labels (ds_Template ds) = scriptLabelsFor p /\
  tpl_Annotations (ds_Template ds) !! configHashAnn = Some hash /\
  runner_pod image p hash (scriptResourceName p) (tpl_Spec (ds_Template ds)).

(** Every selected node, and at least one, has applied the current config. *)
Definition script_rollout_complete (p : ScriptProfile) (sel : Selector) (c : Cluster) : Prop :=
  (exists n, selects sel c n) /\
  forall n, selects sel c n ->
    applied_at (sst_NodeStatuses (scp_Status p)) (node_Name n) (hashContent (renderScripts p)).

(** What becomes of the profile itself: only its status may change, and in it
    the hashes, the node count and the conditions. *)
Definition script_observed (p p' : ScriptProfile) (torn_down : bool) (selected : nat) : Prop :=
  let hash := hashContent (renderScripts p) in
  stored_status_meta (scp_Meta p) (scp_Meta p') /\ scp_Spec p' = scp_Spec p /\
  exists cs, scp_Status p' =
    sst_set_Conditions cs (sst_set_Observed hash (wrap32 (Z.of_nat selected))
      (if torn_down then sst_set_Teardown hash (scp_Status p) else scp_Status p)) /\
  exists cond, In cond cs /\ cond_Type cond = "Ready" /\ cond_Status cond = "True" /\
    cond_ObservedGeneration cond = om_Generation (scp_Meta p) /\
    cond_Reason cond = (if torn_down then "RolloutComplete" else "RollingOut").

(** The whole: the cluster before and after. *)
Definition script_Reconciled `{K8sLib} (image : string) (p : ScriptProfile) (before after : Cluster) : Prop :=
  let key := MkKey (scp_Namespace p) (scriptResourceName p) in
  exists sel cm ds p' (torn_down : bool),
  LabelSelectorAsSelector (sspec_NodeSelector (scp_Spec p)) = inr sel /\
  script_desired_ConfigMap p cm /\
  (torn_down = false -> script_desired_DaemonSet image p ds) /\
  script_observed p p' torn_down
    (length (List.filter (fun n => sel (default ∅ (node_Labels n))) (cl_Nodes before))) /\
  (torn_down = true <-> script_rollout_complete p sel before) /\
  after = MkCluster
    (cl_SysctlProfiles before)
    (<[meta_key (scp_Meta p) := p']> (cl_ScriptProfiles before))
    (<[key := cm]> (cl_ConfigMaps before))
    (if torn_down then delete key (cl_DaemonSets before) else <[key := ds]> (cl_DaemonSets before))
    (cl_CronJobs before)
    (cl_Nodes before).

(** Writes of a profile: what a watch on profiles would see. *)
Definition script_profile_write (c : call) : Prop :=
  match c with
  | UpdateScriptProfile _ | StatusUpdateScriptProfile _ => True
  | _ => False
  end.

(** ** Lemmas *)

Section Refine.

Context {lib : K8sLib} {laws : K8sLibLaws} {W : Type} {server : ApiServer W} {slaws : ApiServerLaws W}.
Variable image : string.

Lemma script_stored_owner p labels m m' kept :
  SetControllerReference "ScriptProfile" (scp_Meta p) (set_Labels labels m) = inr m' ->
  stored_meta m' kept ->
  In (controller_ref "ScriptProfile" (scp_Meta p)) (om_OwnerReferences kept) /\ om_Labels kept = labels.
Proof.
  intros (refs & -> & Hin)%SetControllerReference_law (_ & _ & Hl & _ & _ & Ho).
  by rewrite Hl, Ho.
Qed.

Lemma script_put_desired_ConfigMap p cm sent kept :
  mutate_ScriptConfigMap p (renderScripts p) (scriptLabelsFor p) cm = inr sent ->
  stored_ConfigMap sent kept -> script_desired_ConfigMap p kept.
Proof.
  unfold mutate_ScriptConfigMap. destruct (SetControllerReference _ _ _) as [|m] eqn:E; [done|].
  intros [= <-] [Hm Hd]. split; [by eapply script_stored_owner|done].
Qed.

(** The pods of the DaemonSet, as the server keeps them. *)
Lemma stored_runner_pod p hash name container policy kept :
  stored_pod (MkPodSpec (ls_MatchLabels (sspec_NodeSelector (scp_Spec p))) (sspec_Tolerations (scp_Spec p))
      true true true "ClusterFirstWithHostNet" policy (runner_volumes name)
      [MkContainer container (script_workerImage image) imagePullPolicy privilegedSecurityContext
         runner_mounts (runner_env p hash)]) kept ->
  runner_pod image p hash name kept.
Proof.
  intros (policy' & _ & ->). constructor; try done. eexists. split; [done|]. simpl.
  split_and!; try reflexivity. do 2 eexists. split_and!; [by left|by left|done..].
Qed.

Lemma script_put_desired_DaemonSet p ds sent kept :
  mutate_ScriptDaemonSet image p (scriptResourceName p) (hashContent (renderScripts p)) (scriptLabelsFor p) ds = inr sent ->
  stored_DaemonSet sent kept -> script_desired_DaemonSet image p kept.
Proof.
  unfold mutate_ScriptDaemonSet. destruct (SetControllerReference _ _ _) as [|m] eqn:E; [done|].
  intros [= <-] (Hm & Hs & Hl & Ha & Hp). unfold script_desired_DaemonSet.
  rewrite Hs, Hl, Ha. split; [by eapply script_stored_owner|].
  split_and!; try done; [apply lookup_insert_eq|eapply stored_runner_pod, Hp].
Qed.

Lemma script_next_status_observed p selected complete now m :
  stored_status_meta (scp_Meta p) m ->
  script_observed p (MkScriptProfile m (scp_Spec p)
    (script_next_status p selected (hashContent (renderScripts p)) complete now)) complete (length selected).
Proof.
  intros Hm. split; [done|]. split; [done|]. unfold script_next_status.
  destruct complete; (eexists; split; [reflexivity|]).
  - destruct (SetStatusCondition_law (sst_Conditions (scp_Status p)) (script_ready_condition p "RolloutComplete"
      "all selected nodes ran the scripts; runner DaemonSet torn down") now) as [t Ht].
    eexists. by split; [exact Ht|].
  - destruct (SetStatusCondition_law (sst_Conditions (scp_Status p)) (script_ready_condition p "RollingOut"
      "runner DaemonSet active") now) as [t Ht].
    eexists. by split; [exact Ht|].
Qed.

(** ** The kind's part of the interface *)

#[export] Instance ScriptStore : KindStore ScriptProfile := {
  objects := cl_ScriptProfiles;
  with_objects := with_ScriptProfiles;
  wanted_config := script_desired_ConfigMap;
  wanted_pods := script_desired_DaemonSet image;
  scheduled _ f := f = fun m => m;
  unscheduled _ m := m
}.

#[export] Instance ScriptStore_laws : KindStoreLaws ScriptProfile (ops := ScriptKind image).
Proof.
  split.
  1-5: reflexivity.
  - intros k p c Hp. destruct c. unfold with_objects, ScriptStore, with_ScriptProfiles. simpl in *.
    by rewrite insert_id.
  - intros k. by quiet_calls.
  - intros p. by quiet_calls.
  - intros p. by quiet_calls.
  - intros p. cbn [selected_nodes ScriptKind]. unfold scriptSelectedNodeNames. by quiet_calls.
  - intros p. cbn [roll_out ScriptKind]. unfold ensureScriptDaemonSet. by quiet_calls.
  - intros p. cbn [tear_down ScriptKind]. unfold deleteScriptDaemonSet. by quiet_calls.
  - intros k w t w' x (r & w1 & t1 & -> & S & -> & -> & ->). split; [by apply read_law in S|].
    destruct r as [e|p]; [by intros Hn; apply get_script_missing in S|]. by apply get_script_law in S.
  - intros p w t w' op (r & w1 & t1 & -> & S & -> & -> & <-).
    apply put_ConfigMap_law in S as (sent & cm & Hmut & Hcm & V). exists cm.
    split; [by eapply script_put_desired_ConfigMap|done].
  - intros p w t w' (-> & -> & _). exists (fun m => m). split; [done|]. by destruct (api_view w).
  - intros p w t w' names (sel & nodes & Hsel & -> & S & ->)%exec_scriptSelectedNodeNames.
    exists sel, nodes. split; [done|]. split; [by eapply list_nodes_law|]. split; [done|]. by apply read_law in S.
  - intros p w t w' (x & _ & S & Hx)%exec_ensureScriptDaemonSet. destruct (Hx eq_refl) as [op ->].
    apply put_DaemonSet_law in S as (sent & kept & Hm & Hk & Hv). exists kept.
    split; [by eapply script_put_desired_DaemonSet|done].
  - intros p w t w' (x & _ & S & Hg)%exec_deleteScriptDaemonSet. eapply delete_DaemonSet_law; [exact S|by apply Hg].
  - intros p w t w' (r1 & r2 & v1 & -> & G1 & G2 & S2 & S3)%exec_script_cleanup; [|done].
    apply delete_DaemonSet_law in S2; [|exact G1]. apply delete_ConfigMap_law in S3; [|exact G2].
    by rewrite S3, S2.
  - intros p old w t w' (r & w1 & t1 & -> & S & -> & -> & <-) Hold.
    apply update_script_law in S as (old' & m & Hold' & Hm & V). pose proof (eq_trans (eq_sym Hold) Hold') as [= <-].
    by eexists (MkScriptProfile m _ _).
  - intros p old w t w' (r & w1 & t1 & -> & S & -> & -> & <-) Hold.
    apply status_script_law in S as (old' & m & Hold' & Hm & V). pose proof (eq_trans (eq_sym Hold) Hold') as [= <-].
    by eexists (MkScriptProfile m _ _).
  - intros p w t w' e (r & w1 & t1 & -> & S & -> & -> & <-). split; intros E.
    + by apply status_script_missing in S.
    + apply rejected_script_law in S; [done|by right].
  - done.
  - intros p selected complete now. split; [done|]. split; [done|]. by destruct complete.
  - intros p r now. split; [apply script_recorded_meta|]. cbn. by rewrite script_recorded_spec.
  - intros p q. cbn. rewrite ScriptStatusDeepEqual_law. split; [by intros ->|by intros [= ->]].
  - intros p p' selected selected' complete now now' Hlen Hgen [= Hs] [= Hst]. cbn in Hgen, Hst |- *. f_equal.
    assert (Hh : renderScripts p' = renderScripts p) by (unfold renderScripts; by rewrite Hs).
    rewrite Hh. unfold script_next_status at 1. rewrite Hlen. unfold script_ready_condition. rewrite Hgen, Hst.
    unfold script_next_status, script_ready_condition. destruct complete; cbn; by rewrite SetStatusCondition_again.
Qed.

(** A profile that a reconcile read is stored. *)
Lemma script_reconcile_read k p w t w' r :
  exec api_step (script_Reconcile image k) w (Ev (GetScriptProfile k) (inr p) :: t) w' r ->
  cl_ScriptProfiles (api_view w) !! k = Some p /\ meta_key (scp_Meta p) = k.
Proof.
  intros (x & w1 & t1 & Et & S & _)%exec_script_Reconcile. apply cons_eq_inv in Et as [Ex _].
  apply (f_equal got_script) in Ex. cbn in Ex. subst x. by apply get_script_law in S.
Qed.

(** A reconcile of a live profile, step by step on the cluster. *)
Lemma script_reconcile_live_view k p w t w' :
  exec api_step (script_Reconcile image k) w t w' None -> cl_ScriptProfiles (api_view w) !! k = Some p ->
  IsZero (om_DeletionTimestamp (scp_Meta p)) = true -> In finalizer (om_Finalizers (scp_Meta p)) ->
  let key := MkKey (scp_Namespace p) (scriptResourceName p) in
  let hash := hashContent (renderScripts p) in
  exists sel nodes now cm ds p',
    let complete := scriptAllNodesApplied p (map node_Name nodes) hash in
    LabelSelectorAsSelector (sspec_NodeSelector (scp_Spec p)) = inr sel /\ lists sel (api_view w) nodes /\
    script_desired_ConfigMap p cm /\
    (complete = false -> script_desired_DaemonSet image p ds) /\
    script_observed p p' complete (length nodes) /\
    scp_Status p' = script_next_status p (map node_Name nodes) hash complete now /\
    api_view w' = MkCluster
      (cl_SysctlProfiles (api_view w))
      (<[k := p']> (cl_ScriptProfiles (api_view w)))
      (<[key := cm]> (cl_ConfigMaps (api_view w)))
      (if complete then delete key (cl_DaemonSets (api_view w))
       else <[key := ds]> (cl_DaemonSets (api_view w)))
      (cl_CronJobs (api_view w))
      (cl_Nodes (api_view w)).
Proof.
  intros H Hp EZ EF key hash. rewrite script_Reconcile_kind in H.
  apply (kind_reconcile_view (ops := ScriptKind image) k p) in H
    as (sel & nodes & now & cm & f & ds & p' & Hsel & Hnodes & Hcm & -> & Hds & (Hm & Hs & Hst) & _ & V);
    [|done..].
  injection Hs as Hs. injection Hst as Hst. exists sel, nodes, now, cm, ds, p'.
  do 4 (split; [done|]). split; [|done]. cbn in Hm, Hs, Hst.
  pose proof (script_next_status_observed p (map node_Name nodes) (scriptAllNodesApplied p (map node_Name nodes) hash)
    now (scp_Meta p') Hm) as Hobs. rewrite length_map in Hobs. destruct p' as [m' s' st']. cbn in Hs, Hst, Hobs.
  by rewrite Hs, Hst.
Qed.

(** C28. Refinement: a reconcile of a live ScriptProfile that succeeds leaves exactly
    the cluster the specification describes: the rendered scripts in the
    ConfigMap, the runner DaemonSet gone if and only if every selected node (and at least
    one) has run the current scripts and otherwise present and pointing at
    them, the status observed; and every other object as it was. *)
Theorem script_reconcile_refines k p w t w' :
  exec api_step (script_Reconcile image k) w (Ev (GetScriptProfile k) (inr p) :: t) w' None ->
  IsZero (om_DeletionTimestamp (scp_Meta p)) = true -> In finalizer (om_Finalizers (scp_Meta p)) ->
  script_Reconciled image p (api_view w) (api_view w').
Proof.
  intros H EZ EF. pose proof (script_reconcile_read _ _ _ _ _ _ H) as [Hp Hk].
  apply (script_reconcile_live_view k p) in H as (sel & nodes & now & cm & ds & p' & Hsel & Hnodes & Hcm &
    Hds & Hobs & _ & V); [|done..]. rewrite <- Hk in V.
  apply Permutation_length in Hnodes as Hl. rewrite Hl in Hobs.
  exists sel, cm, ds, p', (scriptAllNodesApplied p (map node_Name nodes) (hashContent (renderScripts p))).
  split; [done|]. split; [done|]. split; [done|]. split; [done|]. split; [|done].
  by apply gate_selected.
Qed.

(** No hot loop: right after a successful reconcile of a live ScriptProfile,
    another one that succeeds writes neither the profile nor its status, so it
    does not trigger itself; the profiles in the cluster stay as they are. *)
Theorem script_reconcile_quiesces k p w t w1 t' w2 :
  exec api_step (script_Reconcile image k) w (Ev (GetScriptProfile k) (inr p) :: t) w1 None ->
  IsZero (om_DeletionTimestamp (scp_Meta p)) = true -> In finalizer (om_Finalizers (scp_Meta p)) ->
  exec api_step (script_Reconcile image k) w1 t' w2 None ->
  Forall (fun ev => ~ script_profile_write (ev_call ev)) t' /\
  cl_ScriptProfiles (api_view w2) = cl_ScriptProfiles (api_view w1).
Proof.
  intros H EZ EF H2. pose proof (script_reconcile_read _ _ _ _ _ _ H) as [Hp _].
  rewrite script_Reconcile_kind in H, H2.
  destruct (kind_quiesces (ops := ScriptKind image) (store := ScriptStore) k p _ _ _ _ _ H Hp EZ EF H2)
    as (Hq & p' & key & cm & f & ds & complete & Hp' & V). split.
  - eapply Forall_impl; [|exact Hq]. intros ev Hev Hw. apply Hev. by destruct (ev_call ev).
  - rewrite V. cbn. by apply insert_id.
Qed.

(** Clean deletion: a reconcile of a ScriptProfile that is being deleted and
    still has the finalizer, when it succeeds, leaves none of the profile's
    objects and removes the profile itself unless another finalizer holds it,
    and changes nothing else. *)
Theorem script_deletion_cleans k p w t w' :
  exec api_step (script_Reconcile image k) w (Ev (GetScriptProfile k) (inr p) :: t) w' None ->
  IsZero (om_DeletionTimestamp (scp_Meta p)) = false -> In finalizer (om_Finalizers (scp_Meta p)) ->
  let key := MkKey (scp_Namespace p) (scriptResourceName p) in
  let fs := RemoveFinalizer (om_Finalizers (scp_Meta p)) finalizer in
  exists m, stored_meta (set_Finalizers fs (scp_Meta p)) m /\
  api_view w' = MkCluster
    (cl_SysctlProfiles (api_view w))
    (if bool_decide (fs = []) then delete k (cl_ScriptProfiles (api_view w))
     else <[k := scp_set_Meta m p]> (cl_ScriptProfiles (api_view w)))
    (delete key (cl_ConfigMaps (api_view w)))
    (delete key (cl_DaemonSets (api_view w)))
    (cl_CronJobs (api_view w))
    (cl_Nodes (api_view w)).
Proof.
  intros H EZ EF key fs. pose proof (script_reconcile_read _ _ _ _ _ _ H) as [Hp _].
  rewrite script_Reconcile_kind in H.
  apply (kind_deletion_view (ops := ScriptKind image) k p) in H as (new & Hm & Hs & Hst & V); [|done..].
  exists (scp_Meta new). split; [done|]. injection Hs as Hs. injection Hst as Hst. rewrite V. cbn.
  destruct new as [m' s' st'], p as [m sp st]. cbn in *. by subst.
Qed.

End Refine.

Section Success.

Context {lib : K8sLib} {laws : K8sLibLaws}.
Variable image : string.

#[export] Instance Script_succeeds : KindSucceeds ScriptProfile (ops := ScriptKind image).
Proof.
  split; cbn [put_config put_schedule selected_nodes roll_out tear_down clean_up update update_status ScriptKind].
  - by intros p r Hr.
  - done.
  - intros p sel Hsel. unfold scriptSelectedNodeNames. cbn in Hsel. rewrite Hsel. intros r [ns ->]. by eexists.
  - by intros p r [op ->].
  - intros p r Hr. by apply gone_ignored.
  - intros p r1 H1. cbn [bind]. rewrite (gone_ignored r1 H1).
    intros r2 H2. cbn [bind]. by rewrite (gone_ignored r2 H2).
  - by intros p r Hr.
  - by intros p r Hr.
Qed.

End Success.

(** Nothing but a failing call makes a reconcile of a ScriptProfile fail: if every call it
    made succeeded and the profile's selector is valid, the result is nil. *)
Theorem script_reconcile_succeeds `{laws : K8sLibLaws} {W : Type} (step : W -> event -> W -> Prop) image k p w t w' r :
  exec step (script_Reconcile image k) w (Ev (GetScriptProfile k) (inr p) :: t) w' r ->
  Forall succeeded t ->
  (exists sel, LabelSelectorAsSelector (sspec_NodeSelector (scp_Spec p)) = inr sel) -> r = None.
Proof.
  intros E Ht [sel Hsel]. rewrite script_Reconcile_kind in E. destruct E as (x & w1 & t1 & Et & _ & E).
  apply cons_eq_inv in Et as [Ex <-]. apply (f_equal got_script) in Ex. cbn in Ex. subst x.
  eapply (exec_succeeds step (fun r => r = None)); [|exact E|exact Ht].
  exact (kind_handled_succeeds (ops := ScriptKind image) p sel Hsel).
Qed.
