(* ===== verification/BothKinds.v ===== *)
(** * Both kinds on the store.

    What [SysctlRefine] and [ScriptRefine] show of each kind, stated of a [profile]
    of either: what a reconcile does to it and to its DaemonSet, that the next one has
    nothing to write, and what remains when it is deleted. *)
From Stdlib Require Import Setoid Morphisms.
From S2P Require Import Prelude GoStrings Api Render K8s ApiServer Rollout SysctlController ScriptController.
From S2P Require Import Profile KindRefine SysctlRefine ScriptRefine.

(** What is stored at a key, and the controller of a kind. *)
Definition stored (c : Cluster) (key : ObjKey) : option profile :=
  match key with
  | (KSysctl, k) => PSysctl <$> cl_SysctlProfiles c !! k
  | (KScript, k) => PScript <$> cl_ScriptProfiles c !! k
  end.

Definition reconcile_key {lib : K8sLib} (image : string) (key : ObjKey) : prog (option error) :=
  match key with
  | (KSysctl, k) => Reconcile image k
  | (KScript, k) => script_Reconcile image k
  end.

(** The DaemonSet that is to be there while the rollout of a profile lasts, and the
    hash that is recorded when it has ended. *)
Definition desired_pods (image : string) (p : profile) (ds : DaemonSet) : Prop :=
  match p with
  | PSysctl p => desired_DaemonSet image p ds
  | PScript p => script_desired_DaemonSet image p ds
  end.

Definition teardown_hash (p : profile) : string :=
  match pr_status p with inl s => st_TeardownHash s | inr s => sst_TeardownHash s end.

(** The same profile; its status, and its version, may differ. *)
Definition same_profile (p q : profile) : Prop :=
  stored_status_meta (pr_meta p) (pr_meta q) /\ pr_spec q = pr_spec p.

#[export] Instance same_profile_equiv : Equivalence same_profile.
Proof.
  split.
  - intros p. split; [|done]. exists (om_ResourceVersion (pr_meta p)). by destruct (pr_meta p).
  - intros p q [[v H1] H2]. split; [|done]. exists (om_ResourceVersion (pr_meta p)). rewrite H1. by destruct (pr_meta p).
  - intros p q r [[v H1] H2] [[v' H3] H4]. split; [|by rewrite H4]. exists v'. by rewrite H3, H1.
Qed.

(** What a profile is called, whether it lives, and what it asks for are the same for
    the same profile. *)
#[export] Instance pr_key_proper : Proper (same_profile ==> eq) pr_key.
Proof. intros p q [[v Hm] Hs]. unfold pr_key. by rewrite (same_spec_kind _ _ Hs), Hm. Qed.

#[export] Instance live_proper : Proper (same_profile ==> iff) live.
Proof. intros p q [[v Hm] _]. unfold live, deleting, finalizers. by rewrite Hm. Qed.

#[export] Instance pr_selector_proper : Proper (same_profile ==> eq) pr_selector.
Proof. intros p q [_ Hs]. by apply same_spec_selector. Qed.

#[export] Instance pr_hash_proper : Proper (same_profile ==> eq) pr_hash.
Proof. intros p q [_ Hs]. by apply same_spec_hash. Qed.

#[export] Instance pr_owned_proper : Proper (same_profile ==> eq) pr_owned.
Proof.
  intros [[m s st]|[m s st]] [[m' s' st']|[m' s' st']] [[v Hm] Hs]; cbn in Hm, Hs; try discriminate Hs;
    by rewrite Hm.
Qed.

Lemma desired_same image p q ds : same_profile p q -> desired_pods image q ds -> desired_pods image p ds.
Proof.
  destruct p as [[m s st]|[m s st]], q as [[m' s' st']|[m' s' st']]; intros [[v Hm] Hs];
    cbn in Hm, Hs; try discriminate Hs; injection Hs as ->; rewrite Hm; intros (H1 & H2 & H3 & H4 & [N T Hh C]);
    (do 4 (split; [done|])); split; first [exact N|exact T|exact Hh|exact C].
Qed.

#[export] Instance desired_pods_proper image : Proper (same_profile ==> eq ==> iff) (desired_pods image).
Proof. intros p q Hs ds ? <-. split; apply desired_same; [by symmetry|done]. Qed.

(** The cluster with a profile put at its key, or taken away. *)
Definition set_stored (key : ObjKey) (x : option profile) (c : Cluster) : Cluster :=
  match key, x with
  | (KSysctl, k), Some (PSysctl p) => with_SysctlProfiles (<[k := p]>) c
  | (KScript, k), Some (PScript p) => with_ScriptProfiles (<[k := p]>) c
  | (KSysctl, k), None => with_SysctlProfiles (delete k) c
  | (KScript, k), None => with_ScriptProfiles (delete k) c
  | _, _ => c
  end.

(** The CronJobs without that of the profile. *)
Definition without_drift_check (p : profile) (m : gmap NamespacedName CronJob) : gmap NamespacedName CronJob :=
  match p with PSysctl q => delete (MkKey (sp_Namespace q) (cronJobName q)) m | PScript _ => m end.

Section BothKinds.

Context {lib : K8sLib} {laws : K8sLibLaws} {W : Type} {server : ApiServer W} {slaws : ApiServerLaws W}.
Variable image : string.

(** What a successful reconcile of a live profile does to it and to its DaemonSet. *)
Lemma reconcile_kind (p : profile) w t w' :
  exec api_step (reconcile_key image (pr_key p)) w t w' None ->
  stored (api_view w) (pr_key p) = Some p -> live p ->
  exists p' sel ds (complete : bool),
    stored (api_view w') (pr_key p) = Some p' /\ same_profile p p' /\ statuses p' = statuses p /\
    LabelSelectorAsSelector (pr_selector p) = inr sel /\
    (complete = true <-> (exists n, selects sel (api_view w) n) /\
       forall n, selects sel (api_view w) n -> applied_at (statuses p) (node_Name n) (pr_hash p)) /\
    (complete = true -> teardown_hash p' = pr_hash p) /\
    (complete = false -> desired_pods image p ds) /\
    cl_DaemonSets (api_view w') !! pr_owned p = if complete then None else Some ds.
Proof.
  destruct p as [p|p]; cbn [reconcile_key stored pr_key pr_kind pr_meta]; intros E (q & Hp & [= <-])%fmap_Some_1 Hl;
    pose proof (live_zero _ Hl) as EZ; destruct Hl as [_ EF].
  - apply (reconcile_live_view image _ p) in E as (sel & nodes & now & cm & cj & ds & p' & Hsel & Hnodes & _ & _ &
      Hds & Hobs & _ & ->); [|done..]. destruct Hobs as (Hm & Hs & cs & Hst & _).
    exists (PSysctl p'), sel, ds, (allNodesApplied p (map node_Name nodes) (hashContent (renderSysctlConf p))).
    cbn [cl_SysctlProfiles cl_DaemonSets]. rewrite lookup_insert_eq. split; [done|].
    split; [split; [done|by cbn; rewrite Hs]|]. unfold statuses, teardown_hash. cbn [pr_status status_nodes].
    rewrite Hst. split; [by destruct (allNodesApplied _ _ _)|]. split; [done|].
    split; [by apply gate_selected|]. split; [by intros ->|]. split; [done|].
    destruct (allNodesApplied _ _ _); [apply lookup_delete_eq|apply lookup_insert_eq].
  - apply (script_reconcile_live_view image _ p) in E as (sel & nodes & now & cm & ds & p' & Hsel & Hnodes & _ &
      Hds & Hobs & _ & ->); [|done..]. destruct Hobs as (Hm & Hs & cs & Hst & _).
    exists (PScript p'), sel, ds, (scriptAllNodesApplied p (map node_Name nodes) (hashContent (renderScripts p))).
    cbn [cl_ScriptProfiles cl_DaemonSets]. rewrite lookup_insert_eq. split; [done|].
    split; [split; [done|by cbn; rewrite Hs]|]. unfold statuses, teardown_hash. cbn [pr_status status_nodes].
    rewrite Hst. split; [by destruct (scriptAllNodesApplied _ _ _)|]. split; [done|].
    split; [by apply gate_selected|]. split; [by intros ->|]. split; [done|].
    destruct (scriptAllNodesApplied _ _ _); [apply lookup_delete_eq|apply lookup_insert_eq].
Qed.

(** C7. No hot loop: right after a successful reconcile of a live profile of either
    kind, another one that succeeds writes neither the profile nor its status, so it
    does not trigger itself; all profiles in the cluster stay as they are. *)
Theorem profile_quiesces (p : profile) w t w1 t' w2 :
  exec api_step (reconcile_key image (pr_key p)) w t w1 None ->
  stored (api_view w) (pr_key p) = Some p -> live p ->
  exec api_step (reconcile_key image (pr_key p)) w1 t' w2 None ->
  Forall (fun ev => ~ writes_profile (ev_call ev)) t' /\
  forall key, stored (api_view w2) key = stored (api_view w1) key.
Proof.
  intros H Hp Hl H2. pose proof (live_zero _ Hl) as EZ. destruct Hl as [_ EF].
  destruct p as [p|p]; cbn [reconcile_key stored pr_key pr_kind pr_meta] in H, Hp, H2;
    apply fmap_Some_1 in Hp as (q & Hp & [= <-]).
  - rewrite Reconcile_kind in H, H2.
    destruct (kind_quiesces (ops := SysctlKind image) (store := SysctlStore image) _ p _ _ _ _ _ H Hp EZ EF H2)
      as (Hq & p' & key & cm & f & ds & complete & Hp' & V).
    split; [exact Hq|]. intros [[] k']; rewrite V; cbn; [|done]. by rewrite insert_id.
  - rewrite script_Reconcile_kind in H, H2.
    destruct (kind_quiesces (ops := ScriptKind image) (store := ScriptStore image) _ p _ _ _ _ _ H Hp EZ EF H2)
      as (Hq & p' & key & cm & f & ds & complete & Hp' & V).
    split; [exact Hq|]. intros [[] k']; rewrite V; cbn; [done|]. by rewrite insert_id.
Qed.

(** C6. Clean deletion: a reconcile of a profile of either kind that is being
    deleted and still has the finalizer, when it succeeds, leaves none of the
    profile's objects and removes the profile itself unless another finalizer holds
    it (then only the finalizer is gone), and changes nothing else. *)
Theorem profile_deletion_cleans (p : profile) w t w' :
  exec api_step (reconcile_key image (pr_key p)) w t w' None ->
  stored (api_view w) (pr_key p) = Some p -> deleting p -> In finalizer (finalizers p) ->
  let key := pr_owned p in
  let fs := RemoveFinalizer (finalizers p) finalizer in
  exists new, stored_meta (set_Finalizers fs (pr_meta p)) (pr_meta new) /\
    pr_spec new = pr_spec p /\ pr_status new = pr_status p /\
    api_view w' = set_stored (pr_key p) (if bool_decide (fs = []) then None else Some new)
      (with_ConfigMaps (delete key) (with_CronJobs (without_drift_check p)
        (with_DaemonSets (delete key) (api_view w)))).
Proof.
  intros H Hp EZ EF key fs.
  destruct p as [p|p]; cbn [reconcile_key stored pr_key pr_kind pr_meta] in H, Hp;
    apply fmap_Some_1 in Hp as (q & Hp & [= <-]).
  - rewrite Reconcile_kind in H.
    apply (kind_deletion_view (ops := SysctlKind image) (store := SysctlStore image) _ p) in H as (new & Hm & Hs & Hst & V); [|done..].
    exists (PSysctl new). split; [done|]. split; [done|]. split; [done|]. rewrite V. by destruct (bool_decide _).
  - rewrite script_Reconcile_kind in H.
    apply (kind_deletion_view (ops := ScriptKind image) (store := ScriptStore image) _ p) in H as (new & Hm & Hs & Hst & V); [|done..].
    exists (PScript new). split; [done|]. split; [done|]. split; [done|]. rewrite V. by destruct (bool_decide _).
Qed.

End BothKinds.
