(* ===== verification/ReportStore.v ===== *)
(** * What a report that is answered 200 does to the store.

    The recording of a report on a profile of either kind, from the attempts of
    [KindRefine] to the request that the report API has answered. *)
From S2P Require Import Prelude GoStrings Api K8s ApiServer SysctlController ScriptController ReportServer ReportRefine.
From S2P Require Import Profile KindRefine SysctlRefine ScriptRefine BothKinds.

(** The profile with a report recorded. *)
Definition pr_recorded (p : profile) (r : StatusReport) (now : Time) : profile :=
  match p with PSysctl q => PSysctl (recorded q r now) | PScript q => PScript (script_recorded q r now) end.

Lemma pr_recorded_statuses p r now : statuses (pr_recorded p r now) = upsert r (report_phase r) now (statuses p).
Proof. destruct p; [apply recorded_statuses|apply script_recorded_statuses]. Qed.

Section Store.

Context {lib : K8sLib} {laws : K8sLibLaws} {W : Type} {server : ApiServer W} {slaws : ApiServerLaws W}.

(** The profile is stored as [recorded], and nothing else has changed. *)
Definition report_stored (r : StatusReport) (p : SysctlProfile) (before after : Cluster) : Prop :=
  exists now m, stored_status_meta (sp_Meta p) m /\
    after = with_SysctlProfiles
      (<[report_key r := MkSysctlProfile m (sp_Spec p) (sp_Status (recorded p r now))]>) before.

Definition script_report_stored (r : StatusReport) (p : ScriptProfile) (before after : Cluster) : Prop :=
  exists now m, stored_status_meta (scp_Meta p) m /\
    after = with_ScriptProfiles
      (<[report_key r := MkScriptProfile m (scp_Spec p) (scp_Status (script_recorded p r now))]>) before.

(** The request of an accepted report: its effect is that of [applyReport]. *)
Lemma accepted_view rq r w t w' :
  exec api_step (handleReport rq) w t w' StatusOK -> payload rq = Some r ->
  exists t1 w1 e, exec api_step (applyReport r) w t1 w1 e /\ api_view w' = api_view w1 /\
    match e with Some err => IsNotFound err = true | None => True end.
Proof.
  intros E%exec_handleReport Hp. rewrite Hp in E.
  destruct (negb _); [by destruct E as (? & _)|]. cbv beta iota in E.
  destruct (incomplete r); [by destruct E as (? & _)|].
  destruct E as (t1 & w1 & e & E1 & E2). exists t1, w1, e. split; [done|]. destruct e as [err|].
  - destruct E2 as (_ & -> & Hc). split; [done|]. by destruct (IsNotFound err).
  - destruct E2 as [_ E2]. split; [|done]. destruct (sr_Success r); destruct E2 as [_ S]; [by subst|].
    by apply read_law in S.
Qed.

(** The attempts at a profile of either kind. *)
Lemma applyReport_view r (p : profile) w t w' e :
  exec api_step (applyReport r) w t w' e -> stored (api_view w) (report_target r) = Some p ->
  match e with
  | None => exists now new, same_profile p new /\ pr_status new = pr_status (pr_recorded p r now) /\
      api_view w' = set_stored (report_target r) (Some new) (api_view w)
  | Some err => IsNotFound err = false
  end.
Proof.
  unfold applyReport, applyScriptReport, report_target.
  destruct (String.eqb (sr_Kind r) kindScriptProfile); cbn [stored]; intros H%RetryOnConflict_law (q & Hq & ->)%fmap_Some_1.
  - rewrite (script_record_attempt_kind "") in H.
    apply (kind_attempts_view (ops := ScriptKind "") (store := ScriptStore "") r q) in H; [|done].
    destruct e as [err|]; [done|]. destruct H as (now & new & (Hm & Hs & Hst) & V).
    by exists now, (PScript new).
  - rewrite (record_attempt_kind "") in H.
    apply (kind_attempts_view (ops := SysctlKind "") (store := SysctlStore "") r q) in H; [|done].
    destruct e as [err|]; [done|]. destruct H as (now & new & (Hm & Hs & Hst) & V).
    by exists now, (PSysctl new).
Qed.

Lemma profile_stored_by_report rq r (p : profile) w t w' :
  exec api_step (handleReport rq) w t w' StatusOK -> payload rq = Some r ->
  stored (api_view w) (report_target r) = Some p ->
  exists now new, same_profile p new /\ pr_status new = pr_status (pr_recorded p r now) /\
    api_view w' = set_stored (report_target r) (Some new) (api_view w).
Proof.
  intros E Hp Hl. apply (accepted_view _ _ _ _ _ E) in Hp as (t1 & w1 & e & E1 & -> & He).
  apply (applyReport_view _ _ _ _ _ _ E1) in Hl. destruct e; [congruence|done].
Qed.

Lemma stored_by_report rq r p w t w' :
  exec api_step (handleReport rq) w t w' StatusOK -> payload rq = Some r ->
  sr_Kind r <> kindScriptProfile -> cl_SysctlProfiles (api_view w) !! report_key r = Some p ->
  report_stored r p (api_view w) (api_view w').
Proof.
  intros E Hp Hk%String.eqb_neq Hl.
  assert (Ht : report_target r = (KSysctl, report_key r)) by (unfold report_target; by rewrite Hk).
  destruct (profile_stored_by_report rq r (PSysctl p) w t w' E Hp) as (now & new & Hm & Hst & V);
    [rewrite Ht; cbn; by rewrite Hl|].
  destruct Hm as [Hm Hs]. destruct new as [[m s st]|]; [|done]. injection Hs as Hs. injection Hst as Hst.
  cbn in Hm, Hs, Hst. exists now, m. split; [done|]. rewrite V, Ht, Hs, Hst. done.
Qed.

Lemma script_stored_by_report rq r p w t w' :
  exec api_step (handleReport rq) w t w' StatusOK -> payload rq = Some r ->
  sr_Kind r = kindScriptProfile -> cl_ScriptProfiles (api_view w) !! report_key r = Some p ->
  script_report_stored r p (api_view w) (api_view w').
Proof.
  intros E Hp Hk Hl.
  assert (Ht : report_target r = (KScript, report_key r)) by (unfold report_target; by rewrite Hk).
  destruct (profile_stored_by_report rq r (PScript p) w t w' E Hp) as (now & new & Hm & Hst & V);
    [rewrite Ht; cbn; by rewrite Hl|].
  destruct Hm as [Hm Hs]. destruct new as [|[m s st]]; [done|]. injection Hs as Hs. injection Hst as Hst.
  cbn in Hm, Hs, Hst. exists now, m. split; [done|]. rewrite V, Ht, Hs, Hst. done.
Qed.

(** C15. A report that is answered 200 has been recorded: for a profile that exists,
    of the kind that the report names, the stored status is the old one with the
    report upserted and the counters recomputed, after however many conflicts; its
    spec and the rest of its metadata are the same, and no other object of the
    cluster has changed. *)
Theorem profile_report_recorded rq r (p : profile) w t w' :
  exec api_step (handleReport rq) w t w' StatusOK -> payload rq = Some r ->
  stored (api_view w) (report_target r) = Some p ->
  exists now new, same_profile p new /\ pr_status new = pr_status (pr_recorded p r now) /\
    api_view w' = set_stored (report_target r) (Some new) (api_view w).
Proof. apply profile_stored_by_report. Qed.

(** A report that is answered 200 has been recorded: for a profile that
    exists, the stored status is the old one with the report upserted and the
    counters recomputed, after however many conflicts, and no other object of
    the cluster has changed. *)
Theorem report_recorded rq r p w t w' :
  exec api_step (handleReport rq) w t w' StatusOK -> payload rq = Some r ->
  sr_Kind r <> kindScriptProfile -> cl_SysctlProfiles (api_view w) !! report_key r = Some p ->
  report_stored r p (api_view w) (api_view w').
Proof. apply stored_by_report. Qed.

(** A report of kind "ScriptProfile" that is answered 200 has been recorded on
    the ScriptProfile of that name, if it exists: the report upserted, the counters
    recomputed, and no other object of the cluster changed. *)
Theorem script_report_recorded rq r p w t w' :
  exec api_step (handleReport rq) w t w' StatusOK -> payload rq = Some r ->
  sr_Kind r = kindScriptProfile -> cl_ScriptProfiles (api_view w) !! report_key r = Some p ->
  script_report_stored r p (api_view w) (api_view w').
Proof. apply script_stored_by_report. Qed.

End Store.
