(* ===== verification/ClusterSim.v ===== *)
(** * A simulated cluster.

    A concrete instance of the helper packages ([MemLib]) and of the API server
    ([MemServer], a store in memory that checks resource versions), with the
    proofs of the laws the theorems rely on. The witnesses run the controllers
    against it. *)
From Stdlib Require Import Permutation.
From S2P Require Import Prelude GoStrings Api K8s ApiServer Rollout.

(** ** The helper packages *)

Definition requirement_holds (r : LabelSelectorRequirement) (l : gmap string string) : bool :=
  let v := l !! req_Key r in
  let in_values := match v with Some x => existsb (String.eqb x) (req_Values r) | None => false end in
  if String.eqb (req_Operator r) "In" then in_values
  else if String.eqb (req_Operator r) "NotIn" then negb in_values
  else if String.eqb (req_Operator r) "Exists" then match v with Some _ => true | None => false end
  else match v with Some _ => false | None => true end.

Definition valid_operator (op : string) : bool := existsb (String.eqb op) ["In"; "NotIn"; "Exists"; "DoesNotExist"].

Definition mem_selector (ls : LabelSelector) : error + Selector :=
  if forallb (fun r => valid_operator (req_Operator r)) (ls_MatchExpressions ls)
  then inr (fun l => bool_decide (ls_MatchLabels ls ⊆ l) &&
                     forallb (fun r => requirement_holds r l) (ls_MatchExpressions ls))
  else inl (ErrOther "not a valid label selector operator").

Definition mem_owner (kind : string) (owner obj : ObjectMeta) : error + ObjectMeta :=
  let ref := controller_ref kind owner in
  match List.find or_Controller (om_OwnerReferences obj) with
  | Some r => if decide (r = ref) then inr obj else inl (ErrOther "already owned by another controller")
  | None => inr (set_OwnerReferences (om_OwnerReferences obj ++ [ref]) obj)
  end.

Fixpoint mem_condition (cs : list Condition) (c : Condition) (now : Time) : list Condition :=
  let new_time := if cond_LastTransitionTime c =? 0 then now else cond_LastTransitionTime c in
  let with_time t := MkCondition (cond_Type c) (cond_Status c) (cond_ObservedGeneration c) t
                       (cond_Reason c) (cond_Message c) in
  match cs with
  | [] => [with_time new_time]
  | x :: l =>
      if String.eqb (cond_Type x) (cond_Type c)
      then with_time (if String.eqb (cond_Status x) (cond_Status c)
                      then cond_LastTransitionTime x else new_time) :: l
      else x :: mem_condition l c now
  end.

Fixpoint mem_retry (steps : nat) (fn : prog (option error)) : prog (option error) :=
  match steps with
  | O => fn
  | S n => let* r := fn in
           match r with
           | Some e => if IsConflict e then mem_retry n fn else Ret r
           | None => Ret r
           end
  end.

#[export] Instance MemLib : K8sLib := {|
  IgnoreNotFound e := match e with Some e => if IsNotFound e then None else Some e | None => None end;
  ContainsFinalizer fs f := existsb (String.eqb f) fs;
  AddFinalizer fs f := if existsb (String.eqb f) fs then fs else fs ++ [f];
  RemoveFinalizer fs f := List.filter (fun g => negb (String.eqb g f)) fs;
  SetControllerReference := mem_owner;
  SetStatusCondition := mem_condition;
  SysctlStatusDeepEqual a b := bool_decide (a = b);
  ScriptStatusDeepEqual a b := bool_decide (a = b);
  LabelSelectorAsSelector := mem_selector;
  RetryOnConflict := mem_retry 4
|}.

(** ** The server *)

Record MemCluster := MkMemCluster {
  mc_Cluster : Cluster;
  mc_Clock : Time;
  mc_Counter : list (string * string * string)
}.

Definition mc_with (f : Cluster -> Cluster) (w : MemCluster) : MemCluster :=
  MkMemCluster (f (mc_Cluster w)) (mc_Clock w + 1) (mc_Counter w).

(** A version after each write. *)
Definition bump (m : ObjectMeta) : ObjectMeta :=
  MkObjectMeta (om_Name m) (om_Namespace m) (om_UID m) (om_ResourceVersion m +:+ "1") (om_Generation m)
    (om_Labels m) (om_Finalizers m) (om_DeletionTimestamp m) (om_OwnerReferences m).

Definition mem_get {A : Type} (meta : A -> ObjectMeta) (m : gmap NamespacedName A) (k : NamespacedName) :
    error + A :=
  match m !! k with
  | Some p => if decide (meta_key (meta p) = k) then inr p else inl (ErrOther "corrupt")
  | None => inl (ErrNotFound (nn_Name k))
  end.

(** A write of an object the store has, at the version the store has. *)
Definition mem_write {A : Type} (meta : A -> ObjectMeta) (m : gmap NamespacedName A) (new : ObjectMeta)
    (put : A -> MemCluster) (w : MemCluster) : option error * MemCluster :=
  match m !! meta_key new with
  | None => (Some (ErrNotFound (om_Name new)), w)
  | Some old =>
      if String.eqb (om_ResourceVersion (meta old)) (om_ResourceVersion new) then (None, put old)
      else (Some (ErrConflict (om_Name new)), w)
  end.

Definition mem_put {A : Type} (obj : error + A) (existed : bool) (put : A -> MemCluster) (w : MemCluster) :
    (error + OperationResult) * MemCluster :=
  match obj with
  | inl e => (inl e, w)
  | inr o => (inr (if existed then OpUpdated else OpCreated), put o)
  end.

Definition mem_delete {A : Type} (m : gmap NamespacedName A) (k : NamespacedName) (gone : MemCluster)
    (w : MemCluster) : option error * MemCluster :=
  match m !! k with
  | Some _ => (None, gone)
  | None => (Some (ErrNotFound (nn_Name k)), w)
  end.

Definition dying (m : ObjectMeta) : bool :=
  negb (IsZero (om_DeletionTimestamp m)) && bool_decide (om_Finalizers m = []).

#[export] Instance MemServer : Server MemCluster := fun c w =>
  let cl := mc_Cluster w in
  match c as c return resp c * MemCluster with
  | GetSysctlProfile k => (mem_get sp_Meta (cl_SysctlProfiles cl) k, w)
  | GetScriptProfile k => (mem_get scp_Meta (cl_ScriptProfiles cl) k, w)
  | ListSysctlProfiles => (inr (map snd (map_to_list (cl_SysctlProfiles cl))), w)
  | ListScriptProfiles => (inr (map snd (map_to_list (cl_ScriptProfiles cl))), w)
  | ListNodes sel => (inr (List.filter (fun n => sel (default ∅ (node_Labels n))) (cl_Nodes cl)), w)
  | Now => (mc_Clock w, MkMemCluster cl (mc_Clock w + 1) (mc_Counter w))
  | CounterInc p ns n => (tt, MkMemCluster cl (mc_Clock w) (mc_Counter w ++ [(p, ns, n)]))
  | CreateOrUpdateConfigMap k mut =>
      mem_put (mut (default (new_ConfigMap k) (cl_ConfigMaps cl !! k)))
        (bool_decide (is_Some (cl_ConfigMaps cl !! k)))
        (fun o => mc_with (with_ConfigMaps (<[k := o]>)) w) w
  | CreateOrUpdateDaemonSet k mut =>
      mem_put (mut (default (new_DaemonSet k) (cl_DaemonSets cl !! k)))
        (bool_decide (is_Some (cl_DaemonSets cl !! k)))
        (fun o => mc_with (with_DaemonSets (<[k := o]>)) w) w
  | CreateOrUpdateCronJob k mut =>
      mem_put (mut (default (new_CronJob k) (cl_CronJobs cl !! k)))
        (bool_decide (is_Some (cl_CronJobs cl !! k)))
        (fun o => mc_with (with_CronJobs (<[k := o]>)) w) w
  | DeleteConfigMap k => mem_delete (cl_ConfigMaps cl) k (mc_with (with_ConfigMaps (delete k)) w) w
  | DeleteDaemonSet k => mem_delete (cl_DaemonSets cl) k (mc_with (with_DaemonSets (delete k)) w) w
  | DeleteCronJob k => mem_delete (cl_CronJobs cl) k (mc_with (with_CronJobs (delete k)) w) w
  | UpdateSysctlProfile p =>
      let k := meta_key (sp_Meta p) in
      mem_write sp_Meta (cl_SysctlProfiles cl) (sp_Meta p) (fun old =>
        mc_with (with_SysctlProfiles (fun ps => if dying (sp_Meta p) then delete k ps
          else <[k := MkSysctlProfile (bump (sp_Meta p)) (sp_Spec p) (sp_Status old)]> ps)) w) w
  | UpdateScriptProfile p =>
      let k := meta_key (scp_Meta p) in
      mem_write scp_Meta (cl_ScriptProfiles cl) (scp_Meta p) (fun old =>
        mc_with (with_ScriptProfiles (fun ps => if dying (scp_Meta p) then delete k ps
          else <[k := MkScriptProfile (bump (scp_Meta p)) (scp_Spec p) (scp_Status old)]> ps)) w) w
  | StatusUpdateSysctlProfile p =>
      let k := meta_key (sp_Meta p) in
      mem_write sp_Meta (cl_SysctlProfiles cl) (sp_Meta p) (fun old =>
        mc_with (with_SysctlProfiles
          (<[k := MkSysctlProfile (bump (sp_Meta old)) (sp_Spec old) (sp_Status p)]>)) w) w
  | StatusUpdateScriptProfile p =>
      let k := meta_key (scp_Meta p) in
      mem_write scp_Meta (cl_ScriptProfiles cl) (scp_Meta p) (fun old =>
        mc_with (with_ScriptProfiles
          (<[k := MkScriptProfile (bump (scp_Meta old)) (scp_Spec old) (scp_Status p)]>)) w) w
  end.

#[export] Instance MemApi : ApiServer MemCluster := {|
  api_step := server_step;
  api_view := mc_Cluster
|}.

(** ** The laws hold *)

Lemma mem_condition_in (cs : list Condition) (c : Condition) (now : Time) :
  exists t, In (MkCondition (cond_Type c) (cond_Status c) (cond_ObservedGeneration c) t
                  (cond_Reason c) (cond_Message c)) (mem_condition cs c now).
Proof.
  induction cs as [|x l [t IH]]; simpl; [eexists; by left|].
  destruct (String.eqb _ _); [eexists; by left|]. exists t. by right.
Qed.

Lemma mem_condition_again (cs : list Condition) (c : Condition) (now now' : Time) :
  mem_condition (mem_condition cs c now) c now' = mem_condition cs c now.
Proof.
  induction cs as [|x l IH]; simpl; [by rewrite !String.eqb_refl|].
  destruct (String.eqb (cond_Type x) (cond_Type c)) eqn:E; simpl.
  - by rewrite !String.eqb_refl.
  - by rewrite E, IH.
Qed.

Lemma mem_retry_attempts {W : Type} (step : W -> event -> W -> Prop) (fn : prog (option error)) (n : nat)
    (w w' : W) (t : list event) (r : option error) :
  exec step (mem_retry n fn) w t w' r -> attempts step fn w t w' r.
Proof.
  revert w t. induction n as [|n IH]; intros w t; simpl; [by apply attempts_last|].
  intros (t1 & w1 & x & t2 & -> & H1 & H2)%exec_bind. destruct x as [e|]; [destruct (IsConflict e) eqn:E|].
  - eapply attempts_again; eauto.
  - destruct H2 as (-> & -> & ->). rewrite app_nil_r. by apply attempts_last.
  - destruct H2 as (-> & -> & ->). rewrite app_nil_r. by apply attempts_last.
Qed.

Lemma mem_retry_steps (fn : prog (option error)) (steps n : nat) :
  requests_within n fn -> requests_within (S steps * n) (mem_retry steps fn).
Proof.
  intros Hfn. induction steps as [|steps IH]; [by rewrite Nat.mul_1_l|].
  change (S (S steps) * n)%nat with (n + S steps * n)%nat. cbn [mem_retry].
  apply requests_within_bind; [done|]. intros [e|]; [|done]. by destruct (IsConflict e).
Qed.

Lemma existsb_eqb (x : string) (l : list string) : existsb (String.eqb x) l = true <-> In x l.
Proof.
  rewrite existsb_exists. split; [intros (y & Hy & ->%String.eqb_eq); done|].
  intros H. exists x. by rewrite String.eqb_refl.
Qed.

#[export] Instance MemLib_laws : K8sLibLaws.
Proof.
  constructor; simpl.
  - done.
  - intros fs f. apply existsb_eqb.
  - intros fs f g. destruct (existsb _ fs) eqn:E; [apply existsb_eqb in E|].
    + split; [by right|]. by intros [->|?].
    + rewrite in_app_iff. simpl. split; [intros [?|[?|[]]]; auto|intros [->|?]; auto].
  - intros fs f g. rewrite filter_In, negb_true_iff, String.eqb_neq. tauto.
  - intros kind owner obj obj'. unfold mem_owner.
    destruct (List.find _ _) as [r|] eqn:E.
    + apply find_some in E as [E _]. destruct (decide _) as [->|]; [|done]. intros [= <-].
      exists (om_OwnerReferences obj). by destruct obj.
    + intros [= <-]. eexists. split; [done|]. apply in_app_iff. right. by left.
  - apply mem_condition_in.
  - apply mem_condition_again.
  - intros a b. apply bool_decide_eq_true.
  - intros a b. apply bool_decide_eq_true.
  - intros ls sel l. unfold mem_selector. destruct (forallb _ _); [|done]. intros [= <-].
    intros [H _]%andb_true_iff. by apply bool_decide_eq_true in H.
  - intros ls sel l. unfold mem_selector. destruct (forallb _ _); [|done]. intros [= <-] -> Hl. simpl.
    rewrite andb_true_r. by apply bool_decide_eq_true.
  - intros W step fn w w' t r. apply (mem_retry_attempts step fn 4).
  - intros fn n. apply (mem_retry_steps fn 4).
Qed.

Lemma mem_write_ok {A : Type} (meta : A -> ObjectMeta) m new put w w' :
  mem_write meta m new put w = (None, w') -> exists old, m !! meta_key new = Some old /\ w' = put old.
Proof.
  unfold mem_write. destruct (m !! _) as [old|] eqn:E; [|done].
  destruct (String.eqb _ _); [|done]. intros [= <-]. by exists old.
Qed.

Lemma mem_write_rejected {A : Type} (meta : A -> ObjectMeta) m new put w w' e :
  mem_write meta m new put w = (Some e, w') -> w' = w.
Proof. unfold mem_write. destruct (m !! _); [destruct (String.eqb _ _)|]; congruence. Qed.

Lemma mem_write_missing {A : Type} (meta : A -> ObjectMeta) m new put w w' e :
  IsNotFound e = true -> mem_write meta m new put w = (Some e, w') -> m !! meta_key new = None.
Proof.
  unfold mem_write. intros He. destruct (m !! _); [|done]. destruct (String.eqb _ _); [done|].
  by intros [= <- _].
Qed.

Lemma mem_put_ok {A : Type} (obj : error + A) existed put w op w' :
  mem_put obj existed put w = (inr op, w') -> exists o, obj = inr o /\ w' = put o.
Proof. unfold mem_put. destruct obj as [|o]; [done|]. intros [= _ <-]. by exists o. Qed.

Lemma mem_delete_gone {A : Type} (m : gmap NamespacedName A) k gone w r w' :
  mem_delete m k gone w = (r, w') -> w' = gone \/ w' = w /\ m !! k = None.
Proof. unfold mem_delete. destruct (m !! k); intros [= _ <-]; [by left|by right]. Qed.

Lemma mem_get_ok {A : Type} (meta : A -> ObjectMeta) m k (p : A) :
  mem_get meta m k = inr p -> m !! k = Some p /\ meta_key (meta p) = k.
Proof.
  unfold mem_get. destruct (m !! k) as [q|]; [|done]. destruct (decide _); [|done]. by intros [= <-].
Qed.

Lemma mem_get_missing {A : Type} (meta : A -> ObjectMeta) m k e :
  mem_get meta m k = inl e -> IsNotFound e = true -> m !! k = None.
Proof.
  unfold mem_get. destruct (m !! k) as [q|]; [|done]. destruct (decide _); [done|]. by intros [= <-].
Qed.

Lemma stored_DaemonSet_refl ds : stored_DaemonSet ds ds.
Proof. repeat split. destruct ds as [? ? [? ? []]]. by eexists. Qed.

Lemma stored_CronJob_refl cj : stored_CronJob cj cj.
Proof. repeat split. destruct cj as [? ? ? ? ? [? ? []]]. by eexists. Qed.

Lemma bump_stored m : stored_meta m (bump m).
Proof. by repeat split. Qed.

Lemma bump_status m : stored_status_meta m (bump m).
Proof. by eexists. Qed.

Lemma with_id {A : Type} (m : gmap NamespacedName A) k : m !! k = None -> delete k m = m.
Proof. apply delete_id. Qed.

#[export] Instance MemApi_laws : ApiServerLaws MemCluster.
Proof.
  constructor; simpl; unfold server_step; simpl.
  - intros w [c r] w' E Hr. simpl in *. destruct c; simpl in *; try done; by injection E as _ <-.
  - intros w k p w' [= H _]. by apply mem_get_ok.
  - intros w k p w' [= H _]. by apply mem_get_ok.
  - intros w k e w' [= H _]. by eapply mem_get_missing.
  - intros w k e w' [= H _]. by eapply mem_get_missing.
  - intros w sel ns w' [= <- _]. done.
  - intros w ps w' [= <- _]. done.
  - intros w ps w' [= <- _]. done.
  - intros w k mut op w' (o & Ho & ->)%mem_put_ok. exists o, o. by repeat split.
  - intros w k mut op w' (o & Ho & ->)%mem_put_ok. exists o, o. split_and!; [done|apply stored_DaemonSet_refl|done].
  - intros w k mut op w' (o & Ho & ->)%mem_put_ok. exists o, o. split_and!; [done|apply stored_CronJob_refl|done].
  - intros w k w' r [->|[-> Hk]]%mem_delete_gone _; [done|].
    destruct w as [[]]. unfold with_ConfigMaps. simpl in *. by rewrite with_id.
  - intros w k w' r [->|[-> Hk]]%mem_delete_gone _; [done|].
    destruct w as [[]]. unfold with_DaemonSets. simpl in *. by rewrite with_id.
  - intros w k w' r [->|[-> Hk]]%mem_delete_gone _; [done|].
    destruct w as [[]]. unfold with_CronJobs. simpl in *. by rewrite with_id.
  - intros w p w' (old & Hold & ->)%mem_write_ok. exists old, (bump (sp_Meta p)).
    split_and!; [done|apply bump_stored|done].
  - intros w p w' (old & Hold & ->)%mem_write_ok. exists old, (bump (scp_Meta p)).
    split_and!; [done|apply bump_stored|done].
  - intros w p w' (old & Hold & ->)%mem_write_ok. exists old, (bump (sp_Meta old)).
    split_and!; [done|apply bump_status|done].
  - intros w p w' (old & Hold & ->)%mem_write_ok. exists old, (bump (scp_Meta old)).
    split_and!; [done|apply bump_status|done].
  - intros w w' p e _ H. by apply mem_write_rejected in H as ->.
  - intros w w' p e _ H. by apply mem_write_rejected in H as ->.
  - intros w w' p e He H. by eapply mem_write_missing.
  - intros w w' p e He H. by eapply mem_write_missing.
Qed.
