(* ===== verification/ControllerSim.v ===== *)
(** * The controllers on the simulated cluster: the witnesses of their theorems. *)
From S2P Require Import Prelude GoStrings Api Samples Render K8s ApiServer Rollout SysctlController SysctlRefine ScriptController ScriptRefine ClusterSim.
From S2P Require Import Profile KindRefine BothKinds.

(** ** Two clusters *)

(** Two nodes that the samples select and one that they do not. *)
Definition sim_nodes : list Node := [
  MkNode "node-a" (Some {["sysctlstack" := "tuned"]});
  MkNode "node-b" (Some {["sysctlstack" := "tuned"; "zone" := "1"]});
  MkNode "node-c" None ].

Definition sim_applied (hash node : string) : NodeStatus := MkNodeStatus node NodePhaseApplied hash 0 "" 1.

Definition sim_meta (fs : list string) (deleted : option Time) (m : ObjectMeta) : ObjectMeta :=
  MkObjectMeta (om_Name m) (om_Namespace m) (om_UID m) (om_ResourceVersion m) (om_Generation m)
    (om_Labels m) fs deleted (om_OwnerReferences m).

(** The small profile with the finalizer, its nodes' reports, and perhaps a
    deletion time. *)
Definition sim_profile (reports : list NodeStatus) (deleted : option Time) : SysctlProfile :=
  MkSysctlProfile (sim_meta [finalizer] deleted (sp_Meta small_profile)) (sp_Spec small_profile)
    (st_set_NodeStatuses reports (sp_Status small_profile)).

Definition sim_script (reports : list NodeStatus) (deleted : option Time) : ScriptProfile :=
  MkScriptProfile (sim_meta [finalizer] deleted (scp_Meta bootstrap_profile)) (scp_Spec bootstrap_profile)
    (sst_set_NodeStatuses reports (scp_Status bootstrap_profile)).

Definition small_hash : string := hashContent (renderSysctlConf small_profile).
Definition bootstrap_hash : string := hashContent (renderScripts bootstrap_profile).

Definition sim_cluster (p : SysctlProfile) (s : ScriptProfile) : MemCluster :=
  MkMemCluster (MkCluster {[meta_key (sp_Meta p) := p]} {[meta_key (scp_Meta s) := s]} ∅ ∅ ∅ sim_nodes) 7 [].

(** One node has reported; all have. *)
Definition rolling : MemCluster :=
  sim_cluster (sim_profile [sim_applied small_hash "node-a"] None)
    (sim_script [sim_applied bootstrap_hash "node-b"] None).
Definition rolled_out : MemCluster :=
  sim_cluster (sim_profile [sim_applied small_hash "node-a"; sim_applied small_hash "node-b"] None)
    (sim_script [sim_applied bootstrap_hash "node-b"; sim_applied bootstrap_hash "node-a"] None).
Definition deleted : MemCluster :=
  sim_cluster (sim_profile [] (Some 5)) (sim_script [] (Some 5)).

Definition small_key : NamespacedName := MkKey "kube-system" "small".
Definition bootstrap_key : NamespacedName := MkKey "kube-system" "node-bootstrap".

Definition result {A : Type} (m : prog A) (w : MemCluster) : A := fst (fst (run m w)).
Definition final {A : Type} (m : prog A) (w : MemCluster) : MemCluster := snd (fst (run m w)).
Definition trace {A : Type} (m : prog A) (w : MemCluster) : list event := snd (run m w).

Lemma exec_run {A : Type} (m : prog A) (w : MemCluster) :
  exec server_step m w (trace m w) (final m w) (result m w).
Proof. apply run_exec. unfold result, final, trace. by destruct (run m w) as [[]]. Qed.

Lemma exec_result {A : Type} (m : prog A) (w : MemCluster) (a : A) :
  result m w = a -> exec server_step m w (trace m w) (final m w) a.
Proof. intros <-. apply exec_run. Qed.

(** A reconcile of a profile the store has, run to the end. *)
Lemma run_Reconcile image k p w :
  serve (GetSysctlProfile k) w = (inr p, w) -> result (Reconcile image k) w = None ->
  exec server_step (Reconcile image k) w
    (Ev (GetSysctlProfile k) (inr p) :: tail (trace (Reconcile image k) w)) (final (Reconcile image k) w) None.
Proof.
  intros Hs <-. pose proof (exec_run (Reconcile image k) w) as H.
  apply exec_Reconcile in H as E. destruct E as (x & w1 & t & Et & S & _).
  unfold server_step in S. simpl ev_call in S. rewrite Hs in S. injection S as <- _.
  rewrite Et in H |- *. exact H.
Qed.

Lemma run_script_Reconcile image k p w :
  serve (GetScriptProfile k) w = (inr p, w) -> result (script_Reconcile image k) w = None ->
  exec server_step (script_Reconcile image k) w
    (Ev (GetScriptProfile k) (inr p) :: tail (trace (script_Reconcile image k) w))
    (final (script_Reconcile image k) w) None.
Proof.
  intros Hs <-. pose proof (exec_run (script_Reconcile image k) w) as H.
  apply exec_script_Reconcile in H as E. destruct E as (x & w1 & t & Et & S & _).
  unfold server_step in S. simpl ev_call in S. rewrite Hs in S. injection S as <- _.
  rewrite Et in H |- *. exact H.
Qed.

(** While rolling out the DaemonSet is there, afterwards it is not; a deleted
    profile leaves nothing. *)
Example rolling_has_daemonset :
  result (Reconcile "" small_key) rolling = None /\
  bool_decide (is_Some (cl_DaemonSets (mc_Cluster (final (Reconcile "" small_key) rolling))
    !! MkKey "kube-system" "small-sysctl")) = true.
Proof. vm_compute. done. Qed.

(** ** Witnesses *)

Definition creating (ev : event) : bool :=
  match ev_call ev with
  | CreateOrUpdateConfigMap _ _ | CreateOrUpdateDaemonSet _ _ | CreateOrUpdateCronJob _ _ => true
  | _ => false
  end.

Definition updating (ev : event) : bool :=
  match ev_call ev with UpdateSysctlProfile _ | UpdateScriptProfile _ => true | _ => false end.

Lemma creating_creates (ev : event) : creating ev = true -> creates (ev_call ev).
Proof. destruct ev as [[] r]; done. Qed.

(** [succeeded] as a test. *)
Definition answered (ev : event) : bool :=
  let ok {A B} (r : A + B) := match r with inl _ => false | inr _ => true end in
  let nil (r : option error) := match r with None => true | Some _ => false end in
  match ev with Ev c r =>
    match c return resp c -> bool with
    | GetSysctlProfile _ => ok | GetScriptProfile _ => ok
    | ListSysctlProfiles => ok | ListScriptProfiles => ok | ListNodes _ => ok
    | CreateOrUpdateConfigMap _ _ => ok | CreateOrUpdateDaemonSet _ _ => ok
    | CreateOrUpdateCronJob _ _ => ok
    | UpdateSysctlProfile _ => nil | StatusUpdateSysctlProfile _ => nil
    | UpdateScriptProfile _ => nil | StatusUpdateScriptProfile _ => nil
    | DeleteConfigMap _ | DeleteDaemonSet _ | DeleteCronJob _ =>
        fun r => match r with None => true | Some e => IsNotFound e end
    | Now => fun _ => true
    | CounterInc _ _ _ => fun _ => true
    end r end.

Lemma all_succeeded (t : list event) : forallb answered t = true -> Forall succeeded t.
Proof.
  intros H. apply List.Forall_forall. intros [c r] Hin. rewrite forallb_forall in H.
  specialize (H _ Hin). destruct c; simpl in *; try done;
    first [by (destruct r; [|eexists]) | by destruct r |
           destruct r as [e|]; [right; by exists e|by left]].
Qed.

(** A selector with match labels only has a meaning. *)
Lemma tuned_valid : exists sel, LabelSelectorAsSelector tuned_selector = inr sel.
Proof. by eexists. Qed.

Ltac ran := first [apply run_Reconcile | apply run_script_Reconcile]; [reflexivity | vm_compute; reflexivity].

Lemma finalizer_before_resources_witness :
  exists p t', trace (Reconcile "" small_key) rolling = Ev (GetSysctlProfile small_key) (inr p) :: t' /\
    IsZero (om_DeletionTimestamp (sp_Meta p)) = true /\ In finalizer (om_Finalizers (sp_Meta p)).
Proof.
  assert (H : existsb creating (trace (Reconcile "" small_key) rolling) = true)
    by (vm_compute; reflexivity).
  apply existsb_exists in H as (ev & Hin & Hc).
  apply (finalizer_before_resources "" server_step small_key rolling _ _ _ ev (exec_run _ _) Hin).
  by apply creating_creates.
Defined.

Lemma reconcile_own_calls_witness :
  Forall (fun ev => own_call (sim_profile [sim_applied small_hash "node-a"] None) (ev_call ev))
    (tail (trace (Reconcile "" small_key) rolling)).
Proof.
  eapply (reconcile_own_calls "" server_step small_key). ran.
Defined.

Lemma deletion_order_witness :
  exists q r1 r2 r3,
    tail (trace (Reconcile "" small_key) deleted) =
      [Ev (DeleteDaemonSet (MkKey "kube-system" "small-sysctl")) r1;
       Ev (DeleteCronJob (MkKey "kube-system" "small-drift")) r2;
       Ev (DeleteConfigMap (MkKey "kube-system" "small-sysctl")) r3;
       Ev (UpdateSysctlProfile q) None] /\ gone r1 /\ gone r2 /\ gone r3.
Proof.
  assert (Hex : exec server_step (Reconcile "" small_key) deleted
    (Ev (GetSysctlProfile small_key) (inr (sim_profile [] (Some 5)))
       :: tail (trace (Reconcile "" small_key) deleted)) (final (Reconcile "" small_key) deleted) None) by ran.
  assert (H : exists q, In (Ev (UpdateSysctlProfile q) None) (tail (trace (Reconcile "" small_key) deleted))).
  { eexists. right. right. right. left. reflexivity. }
  destruct H as [q Hq].
  destruct (deletion_order "" server_step small_key _ _ _ _ _ q None Hex eq_refl Hq)
    as (r1 & r2 & r3 & Ht & G1 & G2 & G3 & _).
  exists q, r1, r2, r3. split; [exact Ht|done].
Defined.

Lemma reconcile_refines_witness :
  Reconciled "" (sim_profile [sim_applied small_hash "node-a"] None)
    (api_view rolling) (api_view (final (Reconcile "" small_key) rolling)).
Proof.
  refine (reconcile_refines (W := MemCluster) "" small_key
    (sim_profile [sim_applied small_hash "node-a"] None) rolling
    (tail (trace (Reconcile "" small_key) rolling)) (final (Reconcile "" small_key) rolling) _ _ _);
    [ran|reflexivity|by left].
Defined.

(** The cluster after the first reconcile. *)
Definition rolled_out1 : MemCluster := final (Reconcile "" small_key) rolled_out.

Lemma reconcile_quiesces_witness :
  Forall (fun ev => ~ profile_write (ev_call ev)) (trace (Reconcile "" small_key) rolled_out1) /\
  cl_SysctlProfiles (api_view (final (Reconcile "" small_key) rolled_out1)) =
  cl_SysctlProfiles (api_view rolled_out1).
Proof.
  assert (H1 : exec server_step (Reconcile "" small_key) rolled_out
    (Ev (GetSysctlProfile small_key)
       (inr (sim_profile [sim_applied small_hash "node-a"; sim_applied small_hash "node-b"] None))
     :: tail (trace (Reconcile "" small_key) rolled_out)) rolled_out1 None) by ran.
  assert (E : result (Reconcile "" small_key) rolled_out1 = None) by (vm_compute; reflexivity).
  pose proof (exec_run (Reconcile "" small_key) rolled_out1) as H2. rewrite E in H2.
  exact (reconcile_quiesces (W := MemCluster) "" small_key _ _ _ _ _ _ H1 eq_refl (or_introl eq_refl) H2).
Defined.

Lemma deletion_cleans_witness :
  exists m, stored_meta (set_Finalizers [] (sim_meta [finalizer] (Some 5) (sp_Meta small_profile))) m /\
    cl_DaemonSets (api_view (final (Reconcile "" small_key) deleted)) =
      delete (MkKey "kube-system" "small-sysctl") (cl_DaemonSets (api_view deleted)) /\
    cl_SysctlProfiles (api_view (final (Reconcile "" small_key) deleted)) =
      delete small_key (cl_SysctlProfiles (api_view deleted)).
Proof.
  assert (H : exec server_step (Reconcile "" small_key) deleted
    (Ev (GetSysctlProfile small_key) (inr (sim_profile [] (Some 5)))
     :: tail (trace (Reconcile "" small_key) deleted)) (final (Reconcile "" small_key) deleted) None) by ran.
  destruct (deletion_cleans (W := MemCluster) (server := MemApi) "" small_key _ deleted _
    (final (Reconcile "" small_key) deleted) H eq_refl (or_introl eq_refl))
    as (m & Hm & V).
  exists m. split; [exact Hm|]. rewrite V. split; reflexivity.
Defined.

Lemma reconcile_succeeds_witness :
  result (Reconcile "" small_key) rolling = None.
Proof.
  apply (reconcile_succeeds server_step "" small_key (sim_profile [sim_applied small_hash "node-a"] None)
    rolling (tail (trace (Reconcile "" small_key) rolling)) (final (Reconcile "" small_key) rolling));
    [ran| |apply tuned_valid].
  apply all_succeeded. vm_compute. reflexivity.
Defined.

(** The same for scripts. *)
Lemma script_finalizer_before_resources_witness :
  exists p t', trace (script_Reconcile "" bootstrap_key) rolling = Ev (GetScriptProfile bootstrap_key) (inr p) :: t' /\
    IsZero (om_DeletionTimestamp (scp_Meta p)) = true /\ In finalizer (om_Finalizers (scp_Meta p)).
Proof.
  assert (H : existsb creating (trace (script_Reconcile "" bootstrap_key) rolling) = true)
    by (vm_compute; reflexivity).
  apply existsb_exists in H as (ev & Hin & Hc).
  apply (script_finalizer_before_resources "" server_step bootstrap_key rolling _ _ _ ev (exec_run _ _) Hin).
  by apply creating_creates.
Defined.

Lemma script_reconcile_refines_witness :
  script_Reconciled "" (sim_script [sim_applied bootstrap_hash "node-b"] None)
    (api_view rolling) (api_view (final (script_Reconcile "" bootstrap_key) rolling)).
Proof.
  refine (script_reconcile_refines (W := MemCluster) "" bootstrap_key
    (sim_script [sim_applied bootstrap_hash "node-b"] None) rolling
    (tail (trace (script_Reconcile "" bootstrap_key) rolling)) (final (script_Reconcile "" bootstrap_key) rolling) _ _ _);
    [ran|reflexivity|by left].
Defined.

Definition script_rolled_out1 : MemCluster := final (script_Reconcile "" bootstrap_key) rolled_out.

Lemma script_reconcile_quiesces_witness :
  Forall (fun ev => ~ script_profile_write (ev_call ev)) (trace (script_Reconcile "" bootstrap_key) script_rolled_out1) /\
  cl_ScriptProfiles (api_view (final (script_Reconcile "" bootstrap_key) script_rolled_out1)) =
  cl_ScriptProfiles (api_view script_rolled_out1).
Proof.
  assert (H1 : exec server_step (script_Reconcile "" bootstrap_key) rolled_out
    (Ev (GetScriptProfile bootstrap_key)
       (inr (sim_script [sim_applied bootstrap_hash "node-b"; sim_applied bootstrap_hash "node-a"] None))
     :: tail (trace (script_Reconcile "" bootstrap_key) rolled_out)) script_rolled_out1 None) by ran.
  assert (E : result (script_Reconcile "" bootstrap_key) script_rolled_out1 = None) by (vm_compute; reflexivity).
  pose proof (exec_run (script_Reconcile "" bootstrap_key) script_rolled_out1) as H2. rewrite E in H2.
  exact (script_reconcile_quiesces (W := MemCluster) "" bootstrap_key _ _ _ _ _ _ H1 eq_refl (or_introl eq_refl) H2).
Defined.

Lemma script_deletion_cleans_witness :
  exists m, stored_meta (set_Finalizers [] (sim_meta [finalizer] (Some 5) (scp_Meta bootstrap_profile))) m /\
    cl_DaemonSets (api_view (final (script_Reconcile "" bootstrap_key) deleted)) =
      delete (MkKey "kube-system" "node-bootstrap-script") (cl_DaemonSets (api_view deleted)) /\
    cl_ScriptProfiles (api_view (final (script_Reconcile "" bootstrap_key) deleted)) =
      delete bootstrap_key (cl_ScriptProfiles (api_view deleted)).
Proof.
  assert (H : exec server_step (script_Reconcile "" bootstrap_key) deleted
    (Ev (GetScriptProfile bootstrap_key) (inr (sim_script [] (Some 5)))
     :: tail (trace (script_Reconcile "" bootstrap_key) deleted)) (final (script_Reconcile "" bootstrap_key) deleted) None) by ran.
  destruct (script_deletion_cleans (W := MemCluster) (server := MemApi) "" bootstrap_key _ deleted _
    (final (script_Reconcile "" bootstrap_key) deleted) H eq_refl (or_introl eq_refl))
    as (m & Hm & V).
  exists m. split; [exact Hm|]. rewrite V. split; reflexivity.
Defined.

(** Both kinds. *)
Definition applied_profile : SysctlProfile :=
  sim_profile [sim_applied small_hash "node-a"; sim_applied small_hash "node-b"] None.
Definition run_profile : ScriptProfile :=
  sim_script [sim_applied bootstrap_hash "node-b"; sim_applied bootstrap_hash "node-a"] None.

Lemma profile_quiesces_witness :
  Forall (fun ev => ~ writes_profile (ev_call ev)) (trace (Reconcile "" small_key) rolled_out1) /\
  Forall (fun ev => ~ writes_profile (ev_call ev)) (trace (script_Reconcile "" bootstrap_key) script_rolled_out1).
Proof.
  split.
  - refine (proj1 (profile_quiesces (W := MemCluster) "" (PSysctl applied_profile) rolled_out _ rolled_out1 _ _ _ _ _ _)).
    + apply (exec_result (Reconcile "" small_key) rolled_out). vm_compute. reflexivity.
    + reflexivity.
    + split; [intros H; discriminate H|left; reflexivity].
    + apply (exec_result (Reconcile "" small_key) rolled_out1). vm_compute. reflexivity.
  - refine (proj1 (profile_quiesces (W := MemCluster) "" (PScript run_profile) rolled_out _ script_rolled_out1 _ _ _ _ _ _)).
    + apply (exec_result (script_Reconcile "" bootstrap_key) rolled_out). vm_compute. reflexivity.
    + reflexivity.
    + split; [intros H; discriminate H|left; reflexivity].
    + apply (exec_result (script_Reconcile "" bootstrap_key) script_rolled_out1). vm_compute. reflexivity.
Defined.

Lemma profile_deletion_cleans_witness :
  (cl_CronJobs (api_view (final (Reconcile "" small_key) deleted)) =
     delete (MkKey "kube-system" "small-drift") (cl_CronJobs (api_view deleted)) /\
   stored (api_view (final (Reconcile "" small_key) deleted)) (KSysctl, small_key) = None) /\
  (cl_DaemonSets (api_view (final (script_Reconcile "" bootstrap_key) deleted)) =
     delete (MkKey "kube-system" "node-bootstrap-script") (cl_DaemonSets (api_view deleted)) /\
   stored (api_view (final (script_Reconcile "" bootstrap_key) deleted)) (KScript, bootstrap_key) = None).
Proof.
  split.
  - assert (H : exec server_step (Reconcile "" small_key) deleted (trace (Reconcile "" small_key) deleted)
      (final (Reconcile "" small_key) deleted) None) by (apply exec_result; vm_compute; reflexivity).
    destruct (profile_deletion_cleans (W := MemCluster) (server := MemApi) "" (PSysctl (sim_profile [] (Some 5)))
      deleted _ _ H eq_refl eq_refl (or_introl eq_refl)) as (new & _ & _ & _ & V).
    rewrite V. split; [reflexivity|vm_compute; reflexivity].
  - assert (H : exec server_step (script_Reconcile "" bootstrap_key) deleted (trace (script_Reconcile "" bootstrap_key) deleted)
      (final (script_Reconcile "" bootstrap_key) deleted) None) by (apply exec_result; vm_compute; reflexivity).
    destruct (profile_deletion_cleans (W := MemCluster) (server := MemApi) "" (PScript (sim_script [] (Some 5)))
      deleted _ _ H eq_refl eq_refl (or_introl eq_refl)) as (new & _ & _ & _ & V).
    rewrite V. split; [reflexivity|vm_compute; reflexivity].
Defined.
