(* ===== verification/StatusInPlace.v ===== *)
(** * The status update of the report API, in place.

    upsertNodeStatus takes the address of a profile: it changes the entry of the
    reporting node through a pointer into the slice of the statuses, or appends an
    entry to the slice, and recomputeCounts writes the counters. Here these are
    computations on the heap; the theorems say that what can be read afterwards is
    what the pure functions of [ReportServer] give, and that no memory is written
    but the profile and the array of its statuses. *)
From S2P Require Import Prelude GoStrings Api GoHeap DeepCopy K8s SysctlController ScriptController Snapshot.
From S2P Require Import ReportServer ReportRefine.

#[local] Open Scope mem_scope.

(** ** Slices that are written to *)

Section Slices.

Context {cell : Type} {E : Type} {arr : ArrayCell cell E}.

Abbreviation heap := (gmap positive cell).

(** How many elements more than needed the array has that [append] allocates for a
    slice of some length: a choice of the runtime. *)
Variable spare : nat -> nat.

Definition slice_len (s : slice E) : nat := match s with SNil => 0 | SArr _ _ len => len end.

(** [s[i]] *)
Definition elem_at (h : heap) (s : slice E) (i : nat) : option E :=
  match slice_elems h s with Some l => l !! i | None => None end.

(** An assignment to fields of [s[i]], through a pointer to it. *)
Definition set_elem (s : slice E) (i : nat) (f : E -> E) : Mem cell unit := fun h =>
  match s, elem_at h s i with
  | SArr l offset _, Some x => store_elem l (offset + i) (f x) h
  | _, _ => (tt, h)
  end.

(** [append(s, x)]: in the array while it has room behind the slice, otherwise in a
    new and larger one. *)
Definition append_elem (s : slice E) (x : E) : Mem cell (slice E) := fun h =>
  let grow l len := mem_bind (alloc (to_cell (l ++ x :: replicate (spare len) zero)))
    (fun out => mem_ret (SArr out 0 (S len))) h in
  match s with
  | SNil => grow [] 0%nat
  | SArr l offset len =>
      match array_at h l with
      | Some a =>
          if (offset + len <? length a)%nat
          then mem_bind (store_elem l (offset + len) x) (fun _ => mem_ret (SArr l offset (S len))) h
          else grow (take len (drop offset a)) len
      | None => (s, h)
      end
  end.

End Slices.

(** ** The code *)

(** The fields of a profile that a report changes. *)
Class ReportFields {libt : LibTypes} (E : Type) := {
  m_statuses : E -> slice NodeStatus;
  set_statuses : slice NodeStatus -> E -> E;
  add_errored : E -> E;
  set_applied : Z -> E -> E;
  set_failed : Z -> E -> E
}.

Section InPlace.

Context {libt : LibTypes}.
Variable spare : nat -> nat.

Abbreviation heap := (gmap positive cell).
Abbreviation Mem := (Mem cell).

#[export] Instance SysctlProfile_report : ReportFields m_SysctlProfile := {|
  m_statuses x := m_st_NodeStatuses (m_sp_Status x);
  set_statuses l := m_set_Status (fun s =>
    Mk_m_SysctlProfileStatus (m_st_ObservedHash s) (m_st_TeardownHash s) (m_st_DesiredNodes s)
      (m_st_AppliedNodes s) (m_st_FailedNodes s) (m_st_DriftedNodes s) (m_st_ErroredPods s)
      (m_st_LastRolloutTime s) l (m_st_Conditions s));
  add_errored := m_set_Status (fun s =>
    Mk_m_SysctlProfileStatus (m_st_ObservedHash s) (m_st_TeardownHash s) (m_st_DesiredNodes s)
      (m_st_AppliedNodes s) (m_st_FailedNodes s) (m_st_DriftedNodes s) (inc32 (m_st_ErroredPods s))
      (m_st_LastRolloutTime s) (m_st_NodeStatuses s) (m_st_Conditions s));
  set_applied n := m_set_Status (fun s =>
    Mk_m_SysctlProfileStatus (m_st_ObservedHash s) (m_st_TeardownHash s) (m_st_DesiredNodes s)
      n (m_st_FailedNodes s) (m_st_DriftedNodes s) (m_st_ErroredPods s)
      (m_st_LastRolloutTime s) (m_st_NodeStatuses s) (m_st_Conditions s));
  set_failed n := m_set_Status (fun s =>
    Mk_m_SysctlProfileStatus (m_st_ObservedHash s) (m_st_TeardownHash s) (m_st_DesiredNodes s)
      (m_st_AppliedNodes s) n (m_st_DriftedNodes s) (m_st_ErroredPods s)
      (m_st_LastRolloutTime s) (m_st_NodeStatuses s) (m_st_Conditions s))
|}.

(** A ScriptProfile has no counter of errors. *)
#[export] Instance ScriptProfile_report : ReportFields m_ScriptProfile := {|
  m_statuses x := m_sst_NodeStatuses (m_scp_Status x);
  set_statuses l := m_set_ScriptStatus (fun s =>
    Mk_m_ScriptProfileStatus (m_sst_ObservedHash s) (m_sst_TeardownHash s) (m_sst_DesiredNodes s)
      (m_sst_AppliedNodes s) (m_sst_FailedNodes s) l (m_sst_Conditions s));
  add_errored x := x;
  set_applied n := m_set_ScriptStatus (fun s =>
    Mk_m_ScriptProfileStatus (m_sst_ObservedHash s) (m_sst_TeardownHash s) (m_sst_DesiredNodes s)
      n (m_sst_FailedNodes s) (m_sst_NodeStatuses s) (m_sst_Conditions s));
  set_failed n := m_set_ScriptStatus (fun s =>
    Mk_m_ScriptProfileStatus (m_sst_ObservedHash s) (m_sst_TeardownHash s) (m_sst_DesiredNodes s)
      (m_sst_AppliedNodes s) n (m_sst_NodeStatuses s) (m_sst_Conditions s))
|}.

Section Kind.

Context {E : Type} {arr : ArrayCell cell E} {fields : ReportFields E}.

(** Assignments to the fields of an entry. *)
Definition put_FailCount (n : Z) (ns : NodeStatus) : NodeStatus :=
  MkNodeStatus (ns_NodeName ns) (ns_Phase ns) (ns_AppliedHash ns) n (ns_Message ns) (ns_LastTransitionTime ns).
Definition put_AppliedHash (hash : string) (ns : NodeStatus) : NodeStatus :=
  MkNodeStatus (ns_NodeName ns) (ns_Phase ns) hash (ns_FailCount ns) (ns_Message ns) (ns_LastTransitionTime ns).
Definition put_Phase (phase : NodePhase) (ns : NodeStatus) : NodeStatus :=
  MkNodeStatus (ns_NodeName ns) phase (ns_AppliedHash ns) (ns_FailCount ns) (ns_Message ns) (ns_LastTransitionTime ns).
Definition put_Message (message : string) (ns : NodeStatus) : NodeStatus :=
  MkNodeStatus (ns_NodeName ns) (ns_Phase ns) (ns_AppliedHash ns) (ns_FailCount ns) message (ns_LastTransitionTime ns).
Definition put_LastTransitionTime (now : Time) (ns : NodeStatus) : NodeStatus :=
  MkNodeStatus (ns_NodeName ns) (ns_Phase ns) (ns_AppliedHash ns) (ns_FailCount ns) (ns_Message ns) now.

(** The body of the loop, once the entry of the node is found: [ns] points to the
    element [i] of the slice. *)
Definition m_update_entry (profile : loc) (report : StatusReport) (phase : NodePhase) (now : Time)
    (s : slice NodeStatus) (i : nat) : Mem unit :=
  let! _ :=
    (if negb (sr_Success report) then
       let! _ := set_elem s i (fun ns => put_FailCount (inc32 (ns_FailCount ns)) ns) in
       assign profile add_errored
     else
       let! _ := set_elem s i (put_FailCount 0) in
       set_elem s i (put_AppliedHash (sr_Hash report))) in
  let! _ := set_elem s i (put_Phase phase) in
  let! _ := set_elem s i (put_Message (sr_Message report)) in
  set_elem s i (put_LastTransitionTime now).

(** The loop from index [i], for [n] more elements: whether it has returned. *)
Fixpoint m_upsert_loop (profile : loc) (report : StatusReport) (phase : NodePhase) (now : Time) (i n : nat) :
    Mem bool := fun h =>
  match n with
  | O => (false, h)
  | S n =>
      match deref h profile with
      | None => (true, h)
      | Some x =>
          match elem_at h (m_statuses x) i with
          | None => (true, h)
          | Some ns =>
              if negb (String.eqb (ns_NodeName ns) (sr_Node report))
              then m_upsert_loop profile report phase now (S i) n h
              else (let! _ := m_update_entry profile report phase now (m_statuses x) i in mem_ret true) h
          end
      end
  end.

(** [profile.Status.NodeStatuses = append(profile.Status.NodeStatuses, ns)] *)
Definition m_append_entry (profile : loc) (ns : NodeStatus) : Mem unit := fun h =>
  match deref h profile with
  | None => (tt, h)
  | Some x => (let! s := append_elem spare (m_statuses x) ns in assign profile (set_statuses s)) h
  end.

Definition m_upsert (profile : loc) (report : StatusReport) (phase : NodePhase) (now : Time) : Mem unit := fun h =>
  match deref h profile with
  | None => (tt, h)
  | Some x =>
      (let! returned := m_upsert_loop profile report phase now 0 (slice_len (m_statuses x)) in
       if returned : bool then mem_ret tt
       else
         let! _ := (if sr_Success report then mem_ret tt else assign profile add_errored) in
         m_append_entry profile (new_entry report phase now)) h
  end.

Definition m_recompute (profile : loc) : Mem unit := fun h =>
  match deref h profile with
  | None => (tt, h)
  | Some x =>
      let '(applied, failed) := count_phases (default [] (slice_elems h (m_statuses x))) in
      (let! _ := assign profile (set_applied applied) in assign profile (set_failed failed)) h
  end.

(** The two calls of an attempt. *)
Definition m_record (profile : loc) (report : StatusReport) (now : Time) : Mem unit :=
  let! _ := m_upsert profile report (report_phase report) now in
  m_recompute profile.

End Kind.

End InPlace.

(** ** Lemmas: slices *)

Section SliceLemmas.

Context {cell : Type} {E : Type} {arr : ArrayCell cell E}.

Abbreviation heap := (gmap positive cell).

(** A slice with its array. *)
Definition within (h : heap) (l : loc) (offset len : nat) (a : list E) : Prop :=
  h !! l = Some (to_cell a) /\ (offset + len <= length a)%nat.

Lemma within_elems h l offset len a : within h l offset len a ->
  slice_elems h (SArr l offset len) = Some (take len (drop offset a)).
Proof.
  intros [Hl Hlen]. simpl. unfold array_at. rewrite Hl, of_to_cell.
  by replace (_ <=? _)%nat with true by (symmetry; apply Nat.leb_le; lia).
Qed.

Lemma within_elem h l offset len a i : within h l offset len a -> (i < len)%nat ->
  elem_at h (SArr l offset len) i = a !! (offset + i)%nat.
Proof.
  intros Hw Hi. unfold elem_at. rewrite (within_elems _ _ _ _ _ Hw).
  by rewrite lookup_take_lt, lookup_drop.
Qed.

Lemma set_elem_spec h l offset len a i x f : within h l offset len a -> (i < len)%nat ->
  a !! (offset + i)%nat = Some x ->
  set_elem (SArr l offset len) i f h = (tt, <[l := to_cell (<[(offset + i)%nat := f x]> a)]> h) /\
  within (<[l := to_cell (<[(offset + i)%nat := f x]> a)]> h) l offset len (<[(offset + i)%nat := f x]> a).
Proof.
  intros Hw Hi Hx. unfold set_elem. rewrite (within_elem _ _ _ _ _ _ Hw Hi), Hx. destruct Hw as [Hl Hlen].
  unfold store_elem, array_at. rewrite Hl, of_to_cell. split; [done|]. split; [apply lookup_insert_eq|].
  by rewrite length_insert.
Qed.

(** What [append] gives: the elements and the new one, in cells that are new or in
    the array. *)
Lemma append_elem_spec spare (h h' : heap) (s s' : slice E) elems x :
  slice_elems h s = Some elems -> append_elem spare s x h = (s', h') ->
  slice_elems h' s' = Some (elems ++ [x]) /\
  (forall l c, h !! l = Some c -> (forall offset len, s <> SArr l offset len) -> h' !! l = Some c).
Proof.
  assert (Hgrow : forall l len, length l = len ->
    mem_bind (alloc (to_cell (l ++ x :: replicate (spare len) zero))) (fun out => mem_ret (SArr out 0 (S len))) h = (s', h') ->
    slice_elems h' s' = Some (l ++ [x]) /\ forall l0 c, h !! l0 = Some c -> h' !! l0 = Some c).
  { intros l len Hlen. unfold mem_bind, mem_ret. destruct (alloc _ h) as [out h1] eqn:Ea. intros [= <- <-].
    apply alloc_spec in Ea as [Hn ->]. split.
    - cbn [slice_elems drop]. unfold array_at. rewrite lookup_insert_eq, of_to_cell, length_app. cbn [length].
      replace (_ <=? _)%nat with true by (symmetry; apply Nat.leb_le; lia).
      rewrite drop_0, cons_middle, app_assoc, take_app_length'; [done|]. rewrite length_app. simpl. lia.
    - intros l0 c Hl. rewrite lookup_insert_ne; [done|]. intros ->. by rewrite Hn in Hl. }
  intros Hs Ha. destruct s as [|l offset len].
  - injection Hs as <-. destruct (Hgrow [] 0%nat eq_refl Ha) as [H1 H2]. split; [done|]. intros. by apply H2.
  - pose proof (slice_elems_length _ _ _ _ _ Hs) as Hlen. cbn [slice_elems append_elem] in *.
    unfold append_elem in Ha. destruct (array_at h l) as [a|] eqn:El; [|done].
    destruct (offset + len <=? length a)%nat eqn:Hle; [|done]. apply Nat.leb_le in Hle. injection Hs as Hs.
    destruct (offset + len <? length a)%nat eqn:Hlt.
    + apply Nat.ltb_lt in Hlt. unfold mem_bind, mem_ret, store_elem in Ha. rewrite El in Ha. injection Ha as <- <-.
      split.
      * cbn [slice_elems]. unfold array_at. rewrite lookup_insert_eq, of_to_cell, length_insert.
        replace (_ <=? _)%nat with true by (symmetry; apply Nat.leb_le; lia). f_equal.
        rewrite drop_insert_ge by lia. replace (offset + len - offset)%nat with len by lia.
        rewrite (take_S_r _ _ x); [|by rewrite list_lookup_insert_eq by (rewrite length_drop; lia)].
        rewrite take_insert_ge by lia. by rewrite Hs.
      * intros l0 c Hl Hne. rewrite lookup_insert_ne; [done|]. intros <-. by eapply Hne.
    + rewrite Hs in Ha. destruct (Hgrow elems len Hlen Ha) as [H1 H2]. split; [done|]. intros. by apply H2.
Qed.

End SliceLemmas.

(** ** Lemmas: the loop *)

(** The fields are fields, and a profile is not an array of entries. *)
Class ReportFieldsLaws {libt : LibTypes} (E : Type) {arr : ArrayCell cell E} {fields : ReportFields E} := {
  other_cell (a : list E) : (of_cell (to_cell a) : option (list NodeStatus)) = None;
  statuses_errored x : m_statuses (add_errored x) = m_statuses x;
  statuses_set s x : m_statuses (set_statuses s x) = s;
  statuses_same x : set_statuses (m_statuses x) x = x;
  statuses_counted n m x : m_statuses (set_failed n (set_applied m x)) = m_statuses x
}.

#[export] Instance SysctlProfile_report_laws {libt : LibTypes} : ReportFieldsLaws m_SysctlProfile.
Proof. split; try done. by intros [? ? ? []]. Qed.

#[export] Instance ScriptProfile_report_laws {libt : LibTypes} : ReportFieldsLaws m_ScriptProfile.
Proof. split; try done. by intros [? ? ? []]. Qed.

Section Update.

Context {libt : LibTypes} {E : Type} {arr : ArrayCell cell E} {fields : ReportFields E} {flaws : ReportFieldsLaws E}.

Abbreviation heap := (gmap positive cell).

(** A heap that differs from [h0] in the profile and the array of its statuses. *)
Record state (h0 h : heap) (profile : loc) (x : E) (l : loc) (offset len : nat) (a : list NodeStatus) : Prop := {
  st_profile : h !! profile = Some (to_cell [x]);
  st_array : within h l offset len a;
  st_rest : forall l0, l0 <> profile -> l0 <> l -> h !! l0 = h0 !! l0
}.

Lemma array_not_profile (h : heap) profile (x : E) l offset len (a : list NodeStatus) :
  h !! profile = Some (to_cell [x]) -> within h l offset len a -> l <> profile.
Proof.
  intros Hp [Hl _] ->. rewrite Hp in Hl. injection Hl as Hl.
  pose proof (other_cell [x]) as Hn. by rewrite Hl in Hn.
Qed.

Lemma state_set h0 h profile x l offset len a i ns f :
  state h0 h profile x l offset len a -> (i < len)%nat -> a !! (offset + i)%nat = Some ns ->
  exists h1, set_elem (SArr l offset len) i f h = (tt, h1) /\
    state h0 h1 profile x l offset len (<[(offset + i)%nat := f ns]> a).
Proof.
  intros [Hp Hw Hr] Hi Ha. pose proof (array_not_profile _ _ _ _ _ _ _ Hp Hw) as Hne.
  destruct (set_elem_spec h l offset len a i ns f Hw Hi Ha) as [E1 Hw1].
  eexists. split; [exact E1|]. split; [by rewrite lookup_insert_ne|done|].
  intros l0 H1 H2. rewrite lookup_insert_ne by done. by apply Hr.
Qed.

(** A further assignment to the same entry. *)
Lemma state_again h0 h profile x l offset len a i y f :
  state h0 h profile x l offset len (<[(offset + i)%nat := y]> a) -> (i < len)%nat -> (offset + i < length a)%nat ->
  exists h1, set_elem (SArr l offset len) i f h = (tt, h1) /\
    state h0 h1 profile x l offset len (<[(offset + i)%nat := f y]> a).
Proof.
  intros Hst Hi Hlt. destruct (state_set _ _ _ _ _ _ _ _ i y f Hst Hi) as (h1 & E1 & Hst1);
    [by apply list_lookup_insert_eq|]. exists h1. split; [done|]. by rewrite list_insert_insert_eq in Hst1.
Qed.

Lemma state_assign h0 h profile x l offset len a f :
  state h0 h profile x l offset len a ->
  exists h1, assign profile f h = (tt, h1) /\ state h0 h1 profile (f x) l offset len a.
Proof.
  intros [Hp Hw Hr]. pose proof (array_not_profile _ _ _ _ _ _ _ Hp Hw) as Hne.
  exists (<[profile := to_cell [f x]]> h). split; [by apply assign_spec|].
  split; [apply lookup_insert_eq| |].
  - destruct Hw as [Hl Hlen]. split; [by rewrite lookup_insert_ne|done].
  - intros l0 H1 H2. rewrite lookup_insert_ne by done. by apply Hr.
Qed.

(** The assignments to the entry come to [updated_entry]. *)
Lemma update_entry_spec h0 h h' profile r phase now x l offset len a i ns :
  state h0 h profile x l offset len a -> (i < len)%nat -> a !! (offset + i)%nat = Some ns ->
  m_update_entry profile r phase now (SArr l offset len) i h = (tt, h') ->
  state h0 h' profile (if sr_Success r then x else add_errored x) l offset len
    (<[(offset + i)%nat := updated_entry r phase now ns]> a).
Proof.
  intros Hst Hi Ha H. unfold m_update_entry in H. unfold mem_bind at 1 in H.
  pose proof (lookup_lt_Some _ _ _ Ha) as Hlt.
  assert (Hfirst : exists h1 ns1,
    (if negb (sr_Success r) then
       let! _ := set_elem (SArr l offset len) i (fun ns => put_FailCount (inc32 (ns_FailCount ns)) ns) in
       assign profile add_errored
     else
       let! _ := set_elem (SArr l offset len) i (put_FailCount 0) in
       set_elem (SArr l offset len) i (put_AppliedHash (sr_Hash r))) h = (tt, h1) /\
    state h0 h1 profile (if sr_Success r then x else add_errored x) l offset len (<[(offset + i)%nat := ns1]> a) /\
    ns1 = put_AppliedHash (if sr_Success r then sr_Hash r else ns_AppliedHash ns)
            (put_FailCount (if sr_Success r then 0 else inc32 (ns_FailCount ns)) ns)).
  { destruct (sr_Success r); cbn [negb]; unfold mem_bind.
    - destruct (state_set _ _ _ _ _ _ _ _ _ _ (put_FailCount 0) Hst Hi Ha) as (h1 & -> & Hst1).
      destruct (state_again _ _ _ _ _ _ _ _ _ _ (put_AppliedHash (sr_Hash r)) Hst1 Hi Hlt) as (h2 & -> & Hst2).
      by eexists h2, _.
    - destruct (state_set _ _ _ _ _ _ _ _ _ _ (fun ns => put_FailCount (inc32 (ns_FailCount ns)) ns) Hst Hi Ha)
        as (h1 & -> & Hst1).
      destruct (state_assign _ _ _ _ _ _ _ _ add_errored Hst1) as (h2 & -> & Hst2).
      eexists h2, _. split; [done|]. split; [exact Hst2|]. by destruct ns. }
  destruct Hfirst as (h1 & ns1 & E1 & Hst1 & Ens). clear Hst. rewrite E1 in H. unfold mem_bind in H.
  destruct (state_again _ _ _ _ _ _ _ _ _ _ (put_Phase phase) Hst1 Hi Hlt) as (h2 & E2 & Hst2). rewrite E2 in H.
  destruct (state_again _ _ _ _ _ _ _ _ _ _ (put_Message (sr_Message r)) Hst2 Hi Hlt) as (h3 & E3 & Hst3). rewrite E3 in H.
  destruct (state_again _ _ _ _ _ _ _ _ _ _ (put_LastTransitionTime now) Hst3 Hi Hlt) as (h4 & E4 & Hst4). rewrite E4 in H.
  injection H as <-. by rewrite Ens in Hst4.
Qed.

(** The loop from [i] on finds the first entry of the node, or changes nothing. *)
Lemma upsert_loop_spec h0 profile r phase now x l offset len a :
  forall n i h h' returned, (i + n)%nat = len ->
  m_statuses x = SArr l offset len -> state h0 h profile x l offset len a ->
  m_upsert_loop profile r phase now i n h = (returned, h') ->
  let rest := take n (drop (offset + i) a) in
  if returned
  then exists a', state h0 h' profile (if sr_Success r then x else add_errored x) l offset len a' /\
    take len (drop offset a') = take i (drop offset a) ++ upsert r phase now rest
  else h' = h /\ upsert r phase now rest = rest ++ [new_entry r phase now].
Proof.
  induction n as [|n IH]; intros i h h' returned Hlen Hs Hst H rest.
  - injection H as <- <-. by unfold rest.
  - cbn [m_upsert_loop] in H. unfold deref, array_at in H. rewrite (st_profile _ _ _ _ _ _ _ _ Hst), of_to_cell in H.
    rewrite Hs, (within_elem _ _ _ _ _ _ (st_array _ _ _ _ _ _ _ _ Hst)) in H by lia.
    pose proof (proj2 (st_array _ _ _ _ _ _ _ _ Hst)) as Hle.
    destruct (lookup_lt_is_Some_2 a (offset + i)) as [ns Hns]; [lia|]. rewrite Hns in H.
    assert (Hrest : rest = ns :: take n (drop (offset + S i) a)).
    { unfold rest. rewrite (drop_S _ _ _ Hns). cbn [take]. by replace (offset + S i)%nat with (S (offset + i)) by lia. }
    assert (Htake : take (S i) (drop offset a) = take i (drop offset a) ++ [ns])
      by (apply take_S_r; by rewrite lookup_drop).
    rewrite Hrest. cbn [upsert]. destruct (negb _) eqn:Hn.
    + specialize (IH (S i) h h' returned ltac:(lia) Hs Hst H). destruct returned.
      * destruct IH as (a' & Hst' & E'). exists a'. split; [done|]. by rewrite E', Htake, <- app_assoc.
      * destruct IH as [-> E']. split; [done|]. by rewrite E'.
    + unfold mem_bind, mem_ret in H. destruct (m_update_entry _ _ _ _ _ _ _) as [[] h1] eqn:Eu.
      injection H as <- <-. eapply update_entry_spec in Eu; [|exact Hst|lia|exact Hns].
      eexists. split; [exact Eu|]. pose proof (lookup_lt_Some _ _ _ Hns) as Hlt.
      rewrite drop_insert_ge by lia. replace (offset + i - offset)%nat with i by lia.
      rewrite take_insert_lt by lia. rewrite insert_take_drop by (rewrite length_take, length_drop; lia).
      rewrite take_take, Nat.min_l by lia. f_equal. f_equal.
      replace len with (S i + n)%nat by lia. rewrite <- take_drop_commute, drop_drop. done.
Qed.

(** A heap that keeps all but the profile and the array of its statuses. *)
Definition kept_but (profile : loc) (s : slice NodeStatus) (h h' : heap) : Prop :=
  forall l c, h !! l = Some c -> l <> profile -> (forall offset len, s <> SArr l offset len) -> h' !! l = Some c.

Definition errored (r : StatusReport) (x : E) : E := if sr_Success r then x else add_errored x.

Lemma statuses_errored_if r x : m_statuses (errored r x) = m_statuses x.
Proof. unfold errored. destruct (sr_Success r); [done|apply statuses_errored]. Qed.

Lemma errored_spec r (h : heap) profile x :
  h !! profile = Some (to_cell [x]) ->
  exists h1, (if sr_Success r then mem_ret tt else assign profile add_errored) h = (tt, h1) /\
    h1 !! profile = Some (to_cell [errored r x]) /\ forall l, l <> profile -> h1 !! l = h !! l.
Proof.
  intros Hp. unfold errored. destruct (sr_Success r); [by exists h|].
  exists (<[profile := to_cell [add_errored x]]> h). split; [by apply assign_spec|].
  split; [apply lookup_insert_eq|]. intros l Hl. by rewrite lookup_insert_ne.
Qed.

(** The elements of a slice of statuses do not depend on the profile's cell. *)
Lemma elems_frame (h h1 : heap) profile x (s : slice NodeStatus) elems :
  h !! profile = Some (to_cell [x]) -> slice_elems h s = Some elems ->
  (forall l, l <> profile -> h1 !! l = h !! l) -> slice_elems h1 s = Some elems.
Proof.
  intros Hp Hs Hrest. destruct s as [|l offset len]; [done|].
  destruct (slice_cell _ _ _ _ _ Hs) as (c & Hl & Hc). cbn [slice_elems] in *. unfold array_at in *.
  rewrite Hrest, Hl in *; [done|]. intros ->. rewrite Hp in Hl. injection Hl as <-.
  rewrite other_cell in Hc. by destruct Hc.
Qed.

Lemma m_upsert_spec spare (h h' : heap) profile r phase now x elems :
  h !! profile = Some (to_cell [x]) -> slice_elems h (m_statuses x) = Some elems ->
  m_upsert spare profile r phase now h = (tt, h') ->
  exists s, h' !! profile = Some (to_cell [set_statuses s (errored r x)]) /\
    slice_elems h' s = Some (upsert r phase now elems) /\ kept_but profile (m_statuses x) h h'.
Proof.
  intros Hp Hs H. unfold m_upsert, deref, array_at in H. rewrite Hp, of_to_cell in H.
  unfold mem_bind at 1 in H. destruct (m_upsert_loop _ _ _ _ _ _ _) as [returned h1] eqn:El.
  assert (Hloop : returned = true /\ (exists a' l offset len, m_statuses x = SArr l offset len /\
      state h h1 profile (errored r x) l offset len a' /\ take len (drop offset a') = upsert r phase now elems) \/
    returned = false /\ h1 = h /\ upsert r phase now elems = elems ++ [new_entry r phase now]).
  { destruct (m_statuses x) as [|l offset len] eqn:Es; cbn [slice_len] in El.
    - injection El as <- <-. injection Hs as <-. by right.
    - pose proof Hs as Hs'. cbn [slice_elems] in Hs. unfold array_at in Hs.
      destruct (h !! l) as [c|] eqn:Hl; [|done]. destruct c as [| | |a| | | | | | | | | | | | | | | |]; try done.
      cbn [of_cell NodeStatus_cell] in Hs. destruct (_ <=? _)%nat eqn:Hle; [|done]. apply Nat.leb_le in Hle.
      injection Hs as <-.
      apply (upsert_loop_spec h profile r phase now x l offset len a) in El; [|done|done|by split].
      rewrite Nat.add_0_r in El. destruct returned; [left|right]; (split; [done|]).
      + destruct El as (a' & Hst & Ha). exists a', l, offset, len. done.
      + destruct El as [-> Ha]. done. }
  destruct Hloop as [(-> & a' & l & offset & len & Es & [Hp1 Hw1 Hr1] & Ha)|(-> & -> & Hup)].
  - injection H as <-. exists (m_statuses x). rewrite <- (statuses_errored_if r x), statuses_same. split; [done|].
    rewrite statuses_errored_if, Es. split; [by rewrite (within_elems _ _ _ _ _ Hw1), Ha|].
    intros l0 c Hl0 H1 H2. rewrite Hr1; [done..|]. intros ->. by eapply H2.
  - destruct (errored_spec r h profile x Hp) as (h2 & E2 & Hp2 & Hr2). unfold mem_bind in H. rewrite E2 in H.
    unfold m_append_entry, deref, array_at in H. rewrite Hp2, of_to_cell, statuses_errored_if in H.
    unfold mem_bind in H. destruct (append_elem _ _ _ h2) as [s h3] eqn:Ea.
    pose proof (elems_frame _ h2 _ _ _ _ Hp Hs Hr2) as Hs2.
    destruct (append_elem_spec _ _ _ _ _ _ _ Hs2 Ea) as [Hs3 Hk3].
    assert (Hp3 : h3 !! profile = Some (to_cell [errored r x])).
    { apply Hk3; [done|]. intros offset len E'. rewrite E' in Hs2.
      destruct (slice_cell _ _ _ _ _ Hs2) as (c & Hl & Hc). rewrite Hp2 in Hl. injection Hl as <-.
      rewrite other_cell in Hc. by destruct Hc. }
    rewrite (assign_spec _ _ _ _ Hp3) in H. injection H as <-. exists s. split; [apply lookup_insert_eq|]. split.
    + rewrite Hup. eapply elems_frame; [exact Hp3|exact Hs3|]. intros l Hl. by rewrite lookup_insert_ne.
    + intros l c Hl H1 H2. rewrite lookup_insert_ne by done. apply Hk3; [by rewrite Hr2|done].
Qed.

Lemma m_record_spec spare (h h' : heap) profile r now x elems :
  h !! profile = Some (to_cell [x]) -> slice_elems h (m_statuses x) = Some elems ->
  m_record spare profile r now h = (tt, h') ->
  let l := upsert r (report_phase r) now elems in
  exists s, h' !! profile = Some (to_cell [set_failed (count_phases l).2 (set_applied (count_phases l).1
      (set_statuses s (errored r x)))]) /\
    slice_elems h' s = Some l /\ kept_but profile (m_statuses x) h h'.
Proof.
  intros Hp Hs H l. unfold m_record, mem_bind at 1 in H. destruct (m_upsert _ _ _ _ _ h) as [[] h1] eqn:Eu.
  destruct (m_upsert_spec _ _ _ _ _ _ _ _ _ Hp Hs Eu) as (s & Hp1 & Hs1 & Hk1). fold l in Hs1.
  unfold m_recompute, deref, array_at in H. rewrite Hp1, of_to_cell, statuses_set, Hs1 in H. cbn [default id] in H.
  rewrite (surjective_pairing (count_phases l)) in H. unfold mem_bind in H.
  rewrite (assign_spec _ _ _ _ Hp1) in H. set (h2 := <[_ := _]> h1) in H.
  assert (Hp2 : h2 !! profile = Some (to_cell [set_applied (count_phases l).1 (set_statuses s (errored r x))]))
    by apply lookup_insert_eq.
  rewrite (assign_spec _ _ _ _ Hp2) in H. injection H as <-. exists s. split; [apply lookup_insert_eq|]. split.
  - eapply elems_frame; [exact Hp1|exact Hs1|]. intros l0 Hl0. unfold h2. by rewrite !lookup_insert_ne.
  - intros l0 c Hl0 H1 H2. unfold h2. rewrite !lookup_insert_ne by done. by apply Hk1.
Qed.

End Update.

(** ** Theorems *)

Section Theorems.

Context {libt : LibTypes} {libc : LibCopies} {lib : K8sLib} {inp : InPlaceConditions} {inpl : InPlaceLaws}.

Abbreviation heap := (gmap positive cell).

(** A slice of entries reads as its elements. *)
Lemma read_statuses (h : heap) (s : slice NodeStatus) : read_slice h s = slice_elems h s.
Proof.
  unfold read_slice. destruct (slice_elems h s) as [l|]; [|done].
  induction l as [|ns l IH]; [done|]. cbn [mapM] in *. by rewrite IH.
Qed.

(** What a kept heap keeps of the cells of another type. *)
Lemma kept_but_typed {F} {arrF : ArrayCell cell F} {E} {arrE : ArrayCell cell E} (h h' : heap) profile (x : E)
    (s : slice NodeStatus) elems :
  (of_cell (to_cell [x]) : option (list F)) = None ->
  (forall c, is_Some (of_cell c : option (list F)) -> (of_cell c : option (list NodeStatus)) = None) ->
  h !! profile = Some (to_cell [x]) -> slice_elems h s = Some elems -> kept_but profile s h h' ->
  forall l c, h !! l = Some c -> is_Some (of_cell c : option (list F)) -> h' !! l = Some c.
Proof.
  intros Hx Hf Hp Hs Hk l c Hl Hc. apply Hk; [done|..].
  - intros ->. rewrite Hp in Hl. injection Hl as <-. rewrite Hx in Hc. by destruct Hc.
  - intros offset len ->. destruct (slice_cell _ _ _ _ _ Hs) as (c' & Hl' & Hc'). rewrite Hl in Hl'.
    injection Hl' as <-. rewrite (Hf _ Hc) in Hc'. by destruct Hc'.
Qed.

(** C17. The report API's update of a status in place. After upsertNodeStatus and
    recomputeCounts on the memory of a SysctlProfile, through pointers into the slice of
    its statuses and by [append] (whatever room the runtime leaves behind the slice),
    the profile's status reads as the pure functions say; metadata and spec are the
    ones before, and no memory has been written but the profile's and the array of its
    statuses. *)
Theorem status_in_place spare profile x h tm (p : SysctlProfile) r now h' :
  h !! profile = Some (CSysctlProfile [x]) -> read h x = Some (tm, p) ->
  m_record (E := m_SysctlProfile) spare profile r now h = (tt, h') ->
  (exists x', h' !! profile = Some (CSysctlProfile [x']) /\
    read h' (m_sp_Status x') =
      Some (sp_Status (recomputeCounts (upsertNodeStatus p r (report_phase r) now))) /\
    m_sp_Meta x' = m_sp_Meta x /\ m_sp_Spec x' = m_sp_Spec x) /\
  forall l c, h !! l = Some c -> l <> profile ->
    (forall offset len, m_st_NodeStatuses (m_sp_Status x) <> SArr l offset len) -> h' !! l = Some c.
Proof.
  intros Hp Hr H. apply bind_Some in Hr as (meta & Hmeta & Hr). apply bind_Some in Hr as (spec & Hspec & Hr).
  apply bind_Some in Hr as (status & Hstatus & [= <- <-]).
  apply bind_Some in Hstatus as (t & Ht & Hread). apply bind_Some in Hread as (elems & Hst & Hread).
  apply bind_Some in Hread as (cs & Hcs & [= <-]). rewrite read_statuses in Hst.
  destruct (m_record_spec (arr := SysctlProfile_cell) (fields := SysctlProfile_report) _ _ _ _ _ _ _ _ Hp Hst H) as (s & Hp' & Hs' & Hk).
  split; [|exact Hk]. eexists. split; [exact Hp'|].
  assert (Ht2 : read_pointer h' (m_st_LastRolloutTime (m_sp_Status x)) = Some t).
  { eapply read_pointer_frame; [done|exact Ht|].
    eapply (kept_but_typed (E := m_SysctlProfile)); [done|by intros []; destruct 1|exact Hp|exact Hst|exact Hk]. }
  assert (Hcs2 : read_slice h' (m_st_Conditions (m_sp_Status x)) = Some cs).
  { eapply read_slice_frame; [apply Condition_no_pointers|exact Hcs|].
    eapply (kept_but_typed (E := m_SysctlProfile)); [done|by intros []; destruct 1|exact Hp|exact Hst|exact Hk]. }
  split; [|by unfold errored; destruct (sr_Success r)].
  cbn [read deep_SysctlProfileStatus]. unfold read_SysctlProfileStatus, errored, recomputeCounts, upsertNodeStatus.
  destruct (sr_Success r); simpl; rewrite Ht2, read_statuses, Hs', Hcs2; simpl;
    by destruct (count_phases _).
Qed.

(** The same for ScriptProfiles. *)
Theorem script_status_in_place spare profile x h tm (p : ScriptProfile) r now h' :
  h !! profile = Some (CScriptProfile [x]) -> read h x = Some (tm, p) ->
  m_record (E := m_ScriptProfile) spare profile r now h = (tt, h') ->
  (exists x', h' !! profile = Some (CScriptProfile [x']) /\
    read h' (m_scp_Status x') =
      Some (scp_Status (recomputeScriptCounts (upsertScriptNodeStatus p r (report_phase r) now))) /\
    m_scp_Meta x' = m_scp_Meta x /\ m_scp_Spec x' = m_scp_Spec x) /\
  forall l c, h !! l = Some c -> l <> profile ->
    (forall offset len, m_sst_NodeStatuses (m_scp_Status x) <> SArr l offset len) -> h' !! l = Some c.
Proof.
  intros Hp Hr H. apply bind_Some in Hr as (meta & Hmeta & Hr). apply bind_Some in Hr as (spec & Hspec & Hr).
  apply bind_Some in Hr as (status & Hstatus & [= <- <-]).
  apply bind_Some in Hstatus as (elems & Hst & Hread).
  apply bind_Some in Hread as (cs & Hcs & [= <-]). rewrite read_statuses in Hst.
  destruct (m_record_spec (arr := ScriptProfile_cell) (fields := ScriptProfile_report) _ _ _ _ _ _ _ _ Hp Hst H) as (s & Hp' & Hs' & Hk).
  split; [|exact Hk]. eexists. split; [exact Hp'|].
  assert (Hcs2 : read_slice h' (m_sst_Conditions (m_scp_Status x)) = Some cs).
  { eapply read_slice_frame; [apply Condition_no_pointers|exact Hcs|].
    eapply (kept_but_typed (E := m_ScriptProfile)); [done|by intros []; destruct 1|exact Hp|exact Hst|exact Hk]. }
  split; [|by unfold errored; destruct (sr_Success r)].
  cbn [read deep_ScriptProfileStatus]. unfold read_ScriptProfileStatus, errored, recomputeScriptCounts, upsertScriptNodeStatus.
  destruct (sr_Success r); simpl; rewrite read_statuses, Hs', Hcs2; simpl; by destruct (count_phases _).
Qed.

End Theorems.
