(* ===== verification/SnapshotSim.v ===== *)
(** * A concrete memory of the libraries' structs: the witnesses of the theorems
    on deep copies, on the snapshot and on the report's update in place. Metadata and selectors are behind a pointer
    to a cell of the library's, tolerations and conditions are plain. *)
From S2P Require Import Prelude GoStrings Api GoHeap DeepCopy Snapshot K8s Render SysctlController ScriptController.
From S2P Require Import ClusterSim Samples ReportServer ReportRefine StatusInPlace.

Inductive LibStruct := LibMeta (m : ObjectMeta) | LibSelector (s : LabelSelector).

#[export] Instance MemTypes : LibTypes := {|
  m_ObjectMeta := option positive;
  m_ListMeta := string;
  ListMeta := string;
  m_LabelSelector := option positive;
  m_Toleration := Toleration;
  m_Condition := Condition;
  lib_cell := LibStruct;
  zero_ObjectMeta := None;
  zero_ListMeta := "";
  zero_LabelSelector := None;
  zero_Toleration := MkToleration "" "" "" "" None;
  zero_Condition := MkCondition "" "" 0 0 "" ""
|}.

(** ** The library's part *)

(** A struct behind a pointer; no pointer for its zero value. *)
Definition read_box {T : Type} (zero_value : T) (as_T : LibStruct -> option T) (h : gmap positive cell)
    (b : option positive) : option T :=
  match b with
  | None => Some zero_value
  | Some l => match h !! l with Some (CLib c) => as_T c | _ => None end
  end.

Definition copy_box (b : option positive) : Mem cell (option positive) := fun h =>
  match b with
  | None => (None, h)
  | Some l => match h !! l with Some c => mem_bind (alloc c) (fun l' => mem_ret (Some l')) h | None => (None, h) end
  end.

Lemma box_laws {T} (zero_value : T) as_T :
  @DeepLaws cell (option positive) T {| read := read_box zero_value as_T; copy_into := copy_box |}.
Proof.
  split.
  - intros h h' [l|] v Hs; [|done]. simpl. destruct (h !! l) as [c|] eqn:El; [|done].
    by rewrite (lookup_weaken _ _ _ _ El Hs).
  - intros h h' [l|] m' v; simpl; [|by intros [= <-] [= <- <-]].
    destruct (h !! l) as [c|] eqn:El; [|done]. intros Hr Hc. unfold mem_bind, mem_ret in Hc.
    destruct (alloc c h) as [l' h1] eqn:Ea. injection Hc as <- <-. apply alloc_spec in Ea as [Hn ->].
    split; [by apply insert_subseteq|]. simpl.
    by rewrite (proj2 (lookup_difference_Some _ _ _ _) (conj (lookup_insert_eq _ _ _) Hn)).
Qed.

Definition empty_meta : ObjectMeta := MkObjectMeta "" "" "" "" 0 ∅ [] None [].

#[export] Instance MemCopies : LibCopies := {|
  deep_ObjectMeta := {| read := read_box empty_meta (fun c => match c with LibMeta m => Some m | _ => None end);
                        copy_into := copy_box |};
  deep_ListMeta := {| read _ m := Some m; copy_into := mem_ret |};
  deep_LabelSelector := {| read := read_box (MkLabelSelector ∅ []) (fun c => match c with LibSelector s => Some s | _ => None end);
                           copy_into := copy_box |};
  deep_Toleration := {| read _ m := Some m; copy_into := mem_ret |};
  deep_Condition := {| read _ m := Some m; copy_into := mem_ret |}
|}.

#[export] Instance MemCopyLaws : LibCopyLaws.
Proof. constructor; first [apply box_laws|by apply flat_laws]. Qed.

(** [SetStatusCondition]: in the array when the number of elements stays, otherwise
    in a new one. *)
#[export] Instance MemConditions : InPlaceConditions := {|
  m_SetStatusCondition s c now h :=
    match slice_elems h s with
    | None => (s, h)
    | Some cs =>
        let cs' := SetStatusCondition cs c now in
        match s with
        | SArr l offset len =>
            if (length cs' =? len)%nat then
              match array_at h l with
              | Some a => (s, <[l := CCondition (take offset a ++ cs' ++ drop (offset + len) a)]> h)
              | None => (s, h)
              end
            else mem_bind (alloc (CCondition cs')) (fun l' => mem_ret (SArr l' 0 (length cs'))) h
        | SNil => mem_bind (alloc (CCondition cs')) (fun l' => mem_ret (SArr l' 0 (length cs'))) h
        end
    end
|}.

Lemma read_conditions (h : gmap positive cell) (s : slice m_Condition) :
  (read_slice h s : option (list Condition)) = slice_elems h s.
Proof.
  unfold read_slice. destruct (slice_elems h s) as [l|]; [|done].
  induction l as [|c l IH]; [done|]. simpl in *. by rewrite IH.
Qed.

Lemma new_conditions (h : gmap positive cell) (s : slice m_Condition) (cs : list Condition) s' h' :
  mem_bind (alloc (CCondition cs)) (fun l' => mem_ret (SArr l' 0 (length cs))) h = (s', h') ->
  slice_elems h' (s' : slice m_Condition) = Some cs /\ unchanged_but s h h'.
Proof.
  unfold mem_bind, mem_ret. destruct (alloc _ h) as [l' h1] eqn:Ea. intros [= <- <-].
  apply alloc_spec in Ea as [Hn ->]. split.
  - simpl. unfold array_at. rewrite lookup_insert_eq. simpl. rewrite Nat.leb_refl. by rewrite firstn_all.
  - intros l c Hl _. rewrite lookup_insert_ne; [done|]. intros ->. by rewrite Hn in Hl.
Qed.

#[export] Instance MemInPlaceLaws : InPlaceLaws.
Proof.
  split; [|done]. intros h s cs c now s' h'. rewrite !read_conditions. intros Hr Hc. cbn [m_SetStatusCondition MemConditions] in Hc.
  rewrite Hr in Hc. destruct s as [|l offset len]; [by apply new_conditions|].
  destruct (_ =? _)%nat eqn:El in Hc; [|by apply new_conditions]. apply Nat.eqb_eq in El.
  cbn [slice_elems] in Hr. destruct (array_at h l) as [a|] eqn:Ea; [|done].
  destruct (offset + len <=? length a)%nat eqn:Hle; [|done]. apply Nat.leb_le in Hle.
  injection Hc as <- <-. split.
  - cbn [slice_elems]. unfold array_at. rewrite lookup_insert_eq. cbn [of_cell Condition_cell].
    change (mem_condition cs c now) with (SetStatusCondition cs c now) in *.
    set (cs' := SetStatusCondition cs c now) in *. cbn [m_Condition MemTypes] in *.
    rewrite !length_app, length_take, length_drop.
    replace (_ <=? _)%nat with true by (symmetry; apply Nat.leb_le; lia).
    rewrite drop_app_length' by (rewrite length_take; lia). by rewrite take_app_length' by lia.
  - intros l0 c0 Hl Hn. rewrite lookup_insert_ne; [done|]. intros ->. by eapply Hn.
Qed.

(** ** A profile in memory *)

Definition old_condition : Condition := MkCondition "Ready" "True" 1 5 "RollingOut" "applier DaemonSet active".

(** The conditions fill half of their array; the sysctl selects interfaces. *)
Definition memory : gmap positive cell := {[
  1%positive := CLib (LibMeta empty_meta);
  2%positive := CLib (LibSelector tuned_selector);
  3%positive := CString ["eth"; "ens"; "lo"];
  4%positive := CInterfaceSelector [Mk_m_InterfaceSelector (SArr 3 0 2) (SArr 3 2 1)];
  5%positive := CSysctl [Mk_m_Sysctl "vm.swappiness" "10" true PNil;
                         Mk_m_Sysctl "net.ipv4.conf.{iface}.rp_filter" "1" false (PLoc 4)];
  6%positive := CNodeStatus [MkNodeStatus "node-a" "Applied" "h1" 0 "ok" 7];
  7%positive := CCondition [old_condition; zero_Condition] ]}.

Definition m_profile : m_SysctlProfile :=
  Mk_m_SysctlProfile (MkTypeMeta "SysctlProfile" "sysctl.example.com/v1alpha1") (Some 1%positive)
    (Mk_m_SysctlProfileSpec (Some 2%positive) SNil (MkRolloutSpec 0 0 0 false) (MkScheduleSpec "" "")
       (MkStrategySpec "") (SArr 5 0 2) false)
    (Mk_m_SysctlProfileStatus "h1" "" 1 1 0 0 0 PNil (SArr 6 0 1) (SArr 7 0 1)).

Definition with_profile : gmap positive cell := <[8%positive := CSysctlProfile [m_profile]]> memory.

Definition profile_value : SysctlProfile :=
  MkSysctlProfile empty_meta
    (MkSysctlProfileSpec tuned_selector [] (MkRolloutSpec 0 0 0 false) (MkScheduleSpec "" "") (MkStrategySpec "")
       [MkSysctl "vm.swappiness" "10" true None;
        MkSysctl "net.ipv4.conf.{iface}.rp_filter" "1" false (Some (MkInterfaceSelector ["eth"; "ens"] ["lo"]))] false)
    (MkSysctlProfileStatus "h1" "" 1 1 0 0 0 None [MkNodeStatus "node-a" "Applied" "h1" 0 "ok" 7] [old_condition]).

Definition m_script_profile : m_ScriptProfile :=
  Mk_m_ScriptProfile (MkTypeMeta "ScriptProfile" "sysctl.example.com/v1alpha1") (Some 1%positive)
    (Mk_m_ScriptProfileSpec (Some 2%positive) SNil SNil)
    (Mk_m_ScriptProfileStatus "h1" "" 1 1 0 (SArr 6 0 1) (SArr 7 0 1)).

Definition with_script_profile : gmap positive cell := <[8%positive := CScriptProfile [m_script_profile]]> memory.

Definition script_profile_value : ScriptProfile :=
  MkScriptProfile empty_meta (MkScriptProfileSpec tuned_selector [] [])
    (MkScriptProfileStatus "h1" "" 1 1 0 [MkNodeStatus "node-a" "Applied" "h1" 0 "ok" 7] [old_condition]).

(** ** Witnesses *)

(** The copy of the profile still reads as the profile when all cells that were
    there before hold something else. *)
Lemma DeepCopyObject_independent_witness :
  let copied := SysctlProfile_DeepCopyObject (PLoc 8) with_profile in
  read_object (const (CString ["garbage"]) <$> with_profile) (ObjSysctlProfile (PLoc 8)) = None /\
  read_object ((snd copied ∖ with_profile) ∪ (const (CString ["garbage"]) <$> with_profile)) (fst copied) =
    Some (Some (ValSysctlProfile (m_sp_Type m_profile, profile_value))).
Proof.
  intros copied. split; [vm_compute; reflexivity|].
  destruct (DeepCopyObject_independent (ObjSysctlProfile (PLoc 8)) _ with_profile (fst copied) (snd copied)
    (Some (ValSysctlProfile (m_sp_Type m_profile, profile_value))) eq_refl) as (_ & H & _).
  - vm_compute. reflexivity.
  - unfold copied. simpl. by destruct (SysctlProfile_DeepCopyObject _ _).
  - apply H. apply map_union_subseteq_l.
Defined.

(** The condition's reason changes in the array that the profile had; the snapshot
    keeps the old one. *)
Lemma status_snapshot_witness :
  let run := sysctl_snapshot_and_update 8 0 ["node-a"] "h1" true 9 with_profile in
  read_pointer (snd run) (fst run) = Some (Some (sp_Status profile_value)) /\
  (snd run) !! 7%positive = Some (CCondition
    [MkCondition "Ready" "True" 0 5 "RolloutComplete" "all selected nodes applied; applier DaemonSet torn down";
     zero_Condition]).
Proof.
  intros run. split; [|vm_compute; reflexivity].
  destruct (status_snapshot 8 m_profile with_profile (m_sp_Type m_profile) profile_value ["node-a"] "h1" true 9
    (fst run) (snd run)) as [H _]; [vm_compute; reflexivity..| |exact H].
  unfold run. simpl. by destruct (sysctl_snapshot_and_update _ _ _ _ _ _ _).
Defined.

Lemma script_status_snapshot_witness :
  let run := script_snapshot_and_update 8 0 ["node-a"; "node-b"] "h1" false 9 with_script_profile in
  read_pointer (snd run) (fst run) = Some (Some (scp_Status script_profile_value)).
Proof.
  intros run.
  destruct (script_status_snapshot 8 m_script_profile with_script_profile (m_scp_Type m_script_profile)
    script_profile_value ["node-a"; "node-b"] "h1" false 9 (fst run) (snd run)) as [H _];
    [vm_compute; reflexivity..| |exact H].
  unfold run. simpl. by destruct (script_snapshot_and_update _ _ _ _ _ _ _).
Defined.

(** A failure of the node that has an entry is written to its array; the report of
    another node goes to a new and larger array, and the old one stays as it was. *)
Definition failed_report : StatusReport := MkStatusReport "p" "n" "" "node-a" "" "h2" false [] [] "broken".
Definition other_report : StatusReport := MkStatusReport "p" "n" "" "node-b" "" "h1" true [] [] "ok".

Lemma status_in_place_witness :
  let failed := m_record (E := m_SysctlProfile) (const 1%nat) 8 failed_report 9 with_profile in
  let other := m_record (E := m_SysctlProfile) (const 1%nat) 8 other_report 9 with_profile in
  (snd failed) !! 6%positive = Some (CNodeStatus [MkNodeStatus "node-a" "Failed" "h1" 1 "broken" 9]) /\
  (snd other) !! 6%positive = Some (CNodeStatus [MkNodeStatus "node-a" "Applied" "h1" 0 "ok" 7]) /\
  exists x', (snd other) !! 8%positive = Some (CSysctlProfile [x']) /\
    read (snd other) (m_sp_Status x') =
      Some (sp_Status (recomputeCounts (upsertNodeStatus profile_value other_report NodePhaseApplied 9))).
Proof.
  intros failed other. split; [vm_compute; reflexivity|]. split; [vm_compute; reflexivity|].
  destruct (status_in_place (const 1%nat) 8 m_profile with_profile (m_sp_Type m_profile) profile_value other_report 9
    (snd other)) as [(x' & Hp & Hr & _) _]; [vm_compute; reflexivity..| |exact (ex_intro _ x' (conj Hp Hr))].
  unfold other. by destruct (m_record _ _ _ _ _) as [[] h].
Defined.

Lemma script_status_in_place_witness :
  let run := m_record (E := m_ScriptProfile) (const 0%nat) 8 other_report 9 with_script_profile in
  exists x', (snd run) !! 8%positive = Some (CScriptProfile [x']) /\
    read (snd run) (m_scp_Status x') =
      Some (scp_Status (recomputeScriptCounts (upsertScriptNodeStatus script_profile_value other_report NodePhaseApplied 9))).
Proof.
  intros run.
  destruct (script_status_in_place (const 0%nat) 8 m_script_profile with_script_profile (m_scp_Type m_script_profile)
    script_profile_value other_report 9 (snd run)) as [(x' & Hp & Hr & _) _]; [vm_compute; reflexivity..| |exact (ex_intro _ x' (conj Hp Hr))].
  unfold run. by destruct (m_record _ _ _ _ _) as [[] h].
Defined.
