(* ===== verification/Concurrent.v ===== *)
(** * The concurrent system.

    Reconciles of both kinds and report handlers run at the same time, on several
    replicas, next to users who edit profiles. Here every call is one step of the
    system: threads are the handlers' programs, the store holds the profiles of both
    kinds, and optimistic locking (a write is accepted only at the version it was
    read at) is all that orders them. The other objects are left open: calls on them
    may be answered in any way. *)
From S2P Require Import Prelude GoStrings GoJson Api Render K8s ApiServer Rollout SysctlController ScriptController.
From S2P Require Import ReportServer ReportRefine Profile.

(** ** The system *)

(** What has happened: the profiles the store has held, the requests that have
    arrived, and the node lists the server has answered, each with its selector. *)
Record Ghost := MkGhost {
  g_held : list profile;
  g_received : list Request;
  g_listed : list (Selector * list Node)
}.

Definition grows (a b : Ghost) : Prop :=
  incl (g_held a) (g_held b) /\ incl (g_received a) (g_received b) /\ incl (g_listed a) (g_listed b).

Abbreviation Store := (gmap ObjKey profile) (only parsing).

Record Sys := MkSys {
  sys_store : Store;
  sys_ghost : Ghost;
  sys_threads : list (prog unit)
}.

(** The identity of a stored value: the key and the resource version. *)
Definition version (p : profile) : ObjKey * string := (pr_key p, om_ResourceVersion (pr_meta p)).

Definition fresh (g : Ghost) (p : profile) : Prop := forall q, In q (g_held g) -> version q <> version p.

Definition hold (p : profile) (g : Ghost) : Ghost := MkGhost (p :: g_held g) (g_received g) (g_listed g).
Definition receive (rq : Request) (g : Ghost) : Ghost := MkGhost (g_held g) (rq :: g_received g) (g_listed g).
Definition listed (sel : Selector) (nodes : list Node) (g : Ghost) : Ghost :=
  MkGhost (g_held g) (g_received g) ((sel, nodes) :: g_listed g).

(** The calls on profiles, with their answers, whatever the kind. *)
Definition read_event (k : NamespacedName) (p : profile) : event :=
  match p with
  | PSysctl p => Ev (GetSysctlProfile k) (inr p)
  | PScript p => Ev (GetScriptProfile k) (inr p)
  end.
Definition update_event (q : profile) (e : option error) : event :=
  match q with PSysctl q => Ev (UpdateSysctlProfile q) e | PScript q => Ev (UpdateScriptProfile q) e end.
Definition status_event (q : profile) (e : option error) : event :=
  match q with PSysctl q => Ev (StatusUpdateSysctlProfile q) e | PScript q => Ev (StatusUpdateScriptProfile q) e end.

(** Answers that neither read nor write a profile and list no nodes: errors, and
    all answers to the other calls. *)
Definition uninformative (ev : event) : Prop :=
  match ev with Ev c r =>
    match c return resp c -> Prop with
    | GetSysctlProfile _ => fun r => match r with inl _ => True | inr _ => False end
    | GetScriptProfile _ => fun r => match r with inl _ => True | inr _ => False end
    | ListNodes _ => fun r => match r with inl _ => True | inr _ => False end
    | UpdateSysctlProfile _ | StatusUpdateSysctlProfile _
    | UpdateScriptProfile _ | StatusUpdateScriptProfile _ => fun r => r <> None
    | _ => fun _ => True
    end r end.

(** How the server may answer a call. A read may be as old as a cache likes: it
    answers any value the store has held. A write takes effect only at the stored
    version, and then gives a new one; it may be answered with an error whether or
    not it took effect. An [Update] keeps the stored status, and removes an object
    that is being deleted when it has no finalizer left; a status update keeps all but
    the status. *)
Inductive answer (store : Store) (g : Ghost) : event -> Store -> Ghost -> Prop :=
| answer_get p : In p (g_held g) -> answer store g (read_event (meta_key (pr_meta p)) p) store g
| answer_write q old new e :
    store !! pr_key q = Some old -> version old = version q ->
    stored_meta (pr_meta q) (pr_meta new) -> pr_spec new = pr_spec q -> pr_status new = pr_status old ->
    fresh g new ->
    answer store g (update_event q e) (<[pr_key q := new]> store) (hold new g)
| answer_remove q old e :
    store !! pr_key q = Some old -> version old = version q -> deleting old -> finalizers q = [] ->
    answer store g (update_event q e) (delete (pr_key q) store) g
| answer_status q old new e :
    store !! pr_key q = Some old -> version old = version q ->
    stored_status_meta (pr_meta old) (pr_meta new) -> pr_spec new = pr_spec old -> pr_status new = pr_status q ->
    fresh g new ->
    answer store g (status_event q e) (<[pr_key q := new]> store) (hold new g)
| answer_nodes sel nodes : answer store g (Ev (ListNodes sel) (inr nodes)) store (listed sel nodes g)
| answer_other ev : uninformative ev -> answer store g ev store g.

Definition thread {A : Type} (m : prog A) : prog unit := bind m (fun _ => Ret tt).

Section Steps.

Context {lib : K8sLib}.
Variable image : string.

(** A step of the operator: a handler starts, makes a call, or ends (it returns, or
    its process dies). *)
Inductive handler_step : Sys -> Sys -> Prop :=
| step_reconcile store g ts k :
    handler_step (MkSys store g ts) (MkSys store g (thread (Reconcile image k) :: ts))
| step_script_reconcile store g ts k :
    handler_step (MkSys store g ts) (MkSys store g (thread (script_Reconcile image k) :: ts))
| step_request store g ts rq :
    handler_step (MkSys store g ts) (MkSys store (receive rq g) (thread (handleReport rq) :: ts))
| step_call store g ts1 c k ts2 r store' g' :
    answer store g (Ev c r) store' g' ->
    handler_step (MkSys store g (ts1 ++ Vis c k :: ts2)) (MkSys store' g' (ts1 ++ k r :: ts2))
| step_end store g ts1 m ts2 : handler_step (MkSys store g (ts1 ++ m :: ts2)) (MkSys store g (ts1 ++ ts2)).

(** Users create profiles, change all but the status, and delete. *)
Inductive user_step : Sys -> Sys -> Prop :=
| step_user store g ts new :
    fresh g new ->
    statuses new = match store !! pr_key new with Some old => statuses old | None => [] end ->
    counts new = match store !! pr_key new with Some old => counts old | None => (0, 0) end ->
    user_step (MkSys store g ts) (MkSys (<[pr_key new := new]> store) (hold new g) ts)
| step_user_delete store g ts k : user_step (MkSys store g ts) (MkSys (delete k store) g ts).

Definition sys_step (s s' : Sys) : Prop := handler_step s s' \/ user_step s s'.

Definition start : Sys := MkSys ∅ (MkGhost [] [] []) [].

Inductive reachable : Sys -> Prop :=
| reach_start : reachable start
| reach_step s s' : reachable s -> sys_step s s' -> reachable s'.

End Steps.

(** ** What a thread may send *)

Section Promises.

Context {lib : K8sLib}.

(** A profile's DaemonSet may go: the profile is deleted, or the gate opened on a
    list of its selected nodes. *)
Definition may_tear_down (g : Ghost) (p : profile) : Prop :=
  deleting p \/
  exists sel nodes, LabelSelectorAsSelector (pr_selector p) = inr sel /\
    In (sel, nodes) (g_listed g) /\ pr_gate p (map node_Name nodes) = true.

(** An [Update] sends a profile as it was read, but for the finalizer: there when it
    is not being deleted, gone when it is. *)
Definition refinalized (p q : profile) : Prop :=
  pr_spec q = pr_spec p /\ pr_meta q = set_Finalizers (finalizers q) (pr_meta p) /\
  (~ deleting p /\ (forall f, In f (finalizers q) <-> f = finalizer \/ In f (finalizers p)) \/
   deleting p /\ (forall f, In f (finalizers q) <-> f <> finalizer /\ In f (finalizers p))).

(** A status update sends a profile as it was read, with the statuses and counters
    that were read, or with one received report recorded, and counted. *)
Definition restated (g : Ghost) (p q : profile) : Prop :=
  pr_spec q = pr_spec p /\ pr_meta q = pr_meta p /\
  (statuses q = statuses p /\ counts q = counts p \/
   exists rq r now, In rq (g_received g) /\ payload rq = Some r /\ report_target r = pr_key p /\
     statuses q = upsert r (report_phase r) now (statuses p) /\ counts q = count_phases (statuses q)).

Definition sends_ok (g : Ghost) (c : call) : Prop :=
  match c with
  | UpdateSysctlProfile q => exists p, In p (g_held g) /\ refinalized p (PSysctl q)
  | UpdateScriptProfile q => exists p, In p (g_held g) /\ refinalized p (PScript q)
  | StatusUpdateSysctlProfile q => exists p, In p (g_held g) /\ restated g p (PSysctl q)
  | StatusUpdateScriptProfile q => exists p, In p (g_held g) /\ restated g p (PScript q)
  | CreateOrUpdateConfigMap k _ | CreateOrUpdateDaemonSet k _ =>
      exists p, In p (g_held g) /\ live p /\ k = pr_owned p
  | CreateOrUpdateCronJob k _ =>
      exists p, In (PSysctl p) (g_held g) /\ live (PSysctl p) /\ k = MkKey (sp_Namespace p) (cronJobName p)
  | DeleteDaemonSet k => exists p, In p (g_held g) /\ k = pr_owned p /\ may_tear_down g p
  | _ => True
  end.

Definition all_ok (g : Ghost) (t : list event) : Prop := Forall (fun ev => sends_ok g (ev_call ev)) t.

(** What a thread may assume of an answer. *)
Definition got_ok (g : Ghost) (ev : event) : Prop :=
  match ev with Ev c r =>
    match c return resp c -> Prop with
    | GetSysctlProfile k => fun r =>
        match r with inr p => In (PSysctl p) (g_held g) /\ meta_key (sp_Meta p) = k | inl _ => True end
    | GetScriptProfile k => fun r =>
        match r with inr p => In (PScript p) (g_held g) /\ meta_key (scp_Meta p) = k | inl _ => True end
    | ListNodes sel => fun r => match r with inr nodes => In (sel, nodes) (g_listed g) | inl _ => True end
    | _ => fun _ => True
    end r end.

(** The world as a thread sees it: the history grows, and reads return history. *)
Definition ghost_step (g : Ghost) (ev : event) (g' : Ghost) : Prop := grows g g' /\ got_ok g' ev.

(** A thread is safe when every call it may ever make is one it may send. *)
Definition safe (g : Ghost) (m : prog unit) : Prop :=
  forall t g' a, exec ghost_step m g t g' a -> all_ok g' t.

(** ** Lemmas: growing histories *)

Lemma grows_refl g : grows g g.
Proof. repeat split; apply incl_refl. Qed.

Lemma grows_trans g1 g2 g3 : grows g1 g2 -> grows g2 g3 -> grows g1 g3.
Proof. intros (? & ? & ?) (? & ? & ?). split_and!; by eapply incl_tran. Qed.

Lemma grows_hold p g : grows g (hold p g).
Proof. split_and!; [by apply incl_tl, incl_refl|apply incl_refl..]. Qed.

Lemma grows_receive rq g : grows g (receive rq g).
Proof. split_and!; [apply incl_refl|by apply incl_tl, incl_refl|apply incl_refl]. Qed.

Lemma grows_listed sel nodes g : grows g (listed sel nodes g).
Proof. split_and!; [apply incl_refl..|by apply incl_tl, incl_refl]. Qed.

Lemma grows_held g g' p : grows g g' -> In p (g_held g) -> In p (g_held g').
Proof. intros [H _]. apply H. Qed.

Lemma may_tear_down_grows g g' p : grows g g' -> may_tear_down g p -> may_tear_down g' p.
Proof.
  intros (_ & _ & Hl) [H|(sel & nodes & Hs & Hin & H)]; [by left|right].
  exists sel, nodes. split; [done|]. split; [by apply Hl|done].
Qed.

Lemma restated_grows g g' p q : grows g g' -> restated g p q -> restated g' p q.
Proof.
  intros (_ & Hr & _) (Hs & Hm & H). split; [done|]. split; [done|].
  destruct H as [H|(rq & r & now & Hin & H)]; [by left|right]. exists rq, r, now. split; [by apply Hr|done].
Qed.

Lemma sends_ok_grows g g' c : grows g g' -> sends_ok g c -> sends_ok g' c.
Proof.
  intros Hg. destruct c; simpl; try done; intros (p' & Hp & H); exists p';
    (split; [by apply (grows_held g)|]); try done.
  - by apply (restated_grows g).
  - by apply (restated_grows g).
  - destruct H as [-> H]. split; [done|]. by apply (may_tear_down_grows g).
Qed.

Lemma all_ok_grows g g' t : grows g g' -> all_ok g t -> all_ok g' t.
Proof. intros Hg H. eapply Forall_impl; [|exact H]. intros ev. by apply sends_ok_grows. Qed.

Lemma exec_grows {A : Type} (m : prog A) g t g' a : exec ghost_step m g t g' a -> grows g g'.
Proof.
  revert g t. induction m as [b|c k IH]; intros g t H; simpl in H.
  - destruct H as (_ & -> & _). apply grows_refl.
  - destruct H as (r & g1 & t' & _ & [Hg _] & H). eapply grows_trans; [exact Hg|]. by eapply IH.
Qed.

(** Some answer is always possible, without anything happening. *)
Lemma answer_exists g c : exists r, got_ok g (Ev c r).
Proof.
  pose (e := ErrOther "").
  destruct c; first [by exists (inl e) | by exists None | by exists 0 | by exists tt].
Qed.

Lemma exec_idle {A : Type} (m : prog A) g : exists t a, exec ghost_step m g t g a.
Proof.
  induction m as [b|c k IH]; [by exists [], b|]. destruct (answer_exists g c) as [r Hr].
  destruct (IH r) as (t & a & H). exists (Ev c r :: t), a. exists r, g, t. split; [done|].
  split; [|done]. split; [apply grows_refl|done].
Qed.

(** ** Lemmas: safe threads *)

Lemma safe_grows g g1 m : grows g g1 -> safe g m -> safe g1 m.
Proof.
  intros Hg Hs t g' a H. destruct m as [b|c k]; simpl in H.
  - destruct H as (-> & _). constructor.
  - destruct H as (r & g2 & t' & -> & [Hg2 Hr] & H). eapply (Hs _ _ a). exists r, g2, t'.
    split; [done|]. split; [|done]. split; [by eapply grows_trans|done].
Qed.

Lemma safe_call g c k : safe g (Vis c k) -> sends_ok g c.
Proof.
  intros Hs. destruct (exec_idle (Vis c k) g) as (t & a & H). pose proof H as (r & g1 & t' & -> & _).
  specialize (Hs _ _ _ H). by inversion_clear Hs.
Qed.

Lemma safe_next g g1 c k r : safe g (Vis c k) -> grows g g1 -> got_ok g1 (Ev c r) -> safe g1 (k r).
Proof.
  intros Hs Hg Hr t g' a H. specialize (Hs (Ev c r :: t) g' a).
  assert (E : exec ghost_step (Vis c k) g (Ev c r :: t) g' a) by (exists r, g1, t; done).
  specialize (Hs E). by inversion_clear Hs.
Qed.

Lemma safe_thread {A : Type} (m : prog A) g :
  (forall t g' a, exec ghost_step m g t g' a -> all_ok g' t) -> safe g (thread m).
Proof.
  intros Hm t g' [] H. apply exec_bind in H as (t1 & g1 & a & t2 & -> & H & -> & -> & _).
  rewrite app_nil_r. by eapply Hm.
Qed.

(** Running one program after another. *)
Lemma sends_bind {A B : Type} (m : prog A) (f : A -> prog B) g t g' b :
  exec ghost_step (bind m f) g t g' b ->
  (forall t1 g1 a, exec ghost_step m g t1 g1 a -> all_ok g1 t1 /\
     forall t2 g2, exec ghost_step (f a) g1 t2 g2 b -> all_ok g2 t2) ->
  all_ok g' t.
Proof.
  intros (t1 & g1 & a & t2 & -> & H1 & H2)%exec_bind H. destruct (H _ _ _ H1) as [S1 S2].
  apply Forall_app. split; [|by apply S2]. eapply all_ok_grows; [by eapply exec_grows|done].
Qed.

Lemma sends_on_ok {A : Type} (err : option error) (ret : error -> A) (m : prog A) g t g' a :
  exec ghost_step (on_ok err ret m) g t g' a ->
  (err = None -> exec ghost_step m g t g' a -> all_ok g' t) -> all_ok g' t.
Proof. destruct err as [e|]; simpl; [|by auto]. intros (-> & _) _. constructor. Qed.

End Promises.
