(* ===== verification/HandlerSends.v ===== *)
(** * What the handlers send.

    Every handler keeps to [sends_ok], whatever it is answered. The proof is done
    once, for the programs of [Profile] over a kind of profiles that keeps the laws
    [ProfileKindLaws]; the two kinds satisfy them. *)
From S2P Require Import Prelude GoStrings GoJson Api Render K8s ApiServer Rollout SysctlController ScriptController.
From S2P Require Import ReportServer ReportRefine Profile Concurrent.

(** ** The laws of a kind *)

(** The calls of a reconcile of [p] once it is known to be live or to go: it sends
    back the statuses it read, creates only the objects [p] owns, and deletes its
    DaemonSet only if [torn]. *)
Definition allowed (p : profile) (created torn : Prop) (c : call) : Prop :=
  match c with
  | UpdateSysctlProfile _ | UpdateScriptProfile _ => False
  | StatusUpdateSysctlProfile q =>
      pr_spec (PSysctl q) = pr_spec p /\ sp_Meta q = pr_meta p /\
      statuses (PSysctl q) = statuses p /\ counts (PSysctl q) = counts p
  | StatusUpdateScriptProfile q =>
      pr_spec (PScript q) = pr_spec p /\ scp_Meta q = pr_meta p /\
      statuses (PScript q) = statuses p /\ counts (PScript q) = counts p
  | CreateOrUpdateConfigMap k _ | CreateOrUpdateDaemonSet k _ => created /\ k = pr_owned p
  | CreateOrUpdateCronJob k _ =>
      created /\ exists q, p = PSysctl q /\ k = MkKey (sp_Namespace q) (cronJobName q)
  | DeleteDaemonSet k => k = pr_owned p /\ torn
  | _ => True
  end.

Class ProfileKindLaws {lib : K8sLib} (P : Type) `{ProfileKind P} := {
  get_profile_law k g t g' x : exec ghost_step (get_profile k) g t g' x ->
    all_ok g' t /\
    match x with inr p => In (tag p) (g_held g') /\ meta_key (pr_meta (tag p)) = k | inl _ => True end;
  update_law p q g t g' e : In (tag p) (g_held g) -> refinalized (tag p) (tag q) ->
    exec ghost_step (update q) g t g' e -> all_ok g' t;
  update_status_law p q g t g' e : In (tag p) (g_held g) -> restated g (tag p) (tag q) ->
    exec ghost_step (update_status q) g t g' e -> all_ok g' t;
  with_finalizers_law fs p :
    pr_spec (tag (with_finalizers fs p)) = pr_spec (tag p) /\
    pr_meta (tag (with_finalizers fs p)) = set_Finalizers fs (pr_meta (tag p));
  put_config_law p : calls_ok (allowed (tag p) True False) (put_config p);
  put_schedule_law p : calls_ok (allowed (tag p) True False) (put_schedule p);
  roll_out_law p : calls_ok (allowed (tag p) True False) (roll_out p);
  tear_down_law p : calls_ok (allowed (tag p) False True) (tear_down p);
  clean_up_law p : calls_ok (allowed (tag p) False True) (clean_up p);
  selected_nodes_law p g t g' x : exec ghost_step (selected_nodes p) g t g' x ->
    all_ok g' t /\
    match x with
    | inr selected => exists sel nodes, LabelSelectorAsSelector (pr_selector (tag p)) = inr sel /\
        In (sel, nodes) (g_listed g') /\ selected = map node_Name nodes
    | inl _ => True
    end;
  observation_law p selected complete now :
    let q := observation p selected complete now in
    pr_spec (tag q) = pr_spec (tag p) /\ pr_meta (tag q) = pr_meta (tag p) /\
    statuses (tag q) = statuses (tag p) /\ counts (tag q) = counts (tag p);
  record_law p r now :
    let q := record p r now in
    pr_spec (tag q) = pr_spec (tag p) /\ pr_meta (tag q) = pr_meta (tag p) /\
    statuses (tag q) = upsert r (report_phase r) now (statuses (tag p)) /\
    counts (tag q) = count_phases (statuses (tag q))
}.

(** ** The handlers of a kind that keeps the laws *)

Lemma allowed_sends {lib : K8sLib} g g' p created torn (t : list event) :
  grows g g' -> In p (g_held g) -> (created -> live p) -> (torn -> may_tear_down g' p) ->
  Forall (fun ev => allowed p created torn (ev_call ev)) t -> all_ok g' t.
Proof.
  intros Hg Hp Hc Ht H. apply (grows_held _ _ _ Hg) in Hp. eapply Forall_impl; [|exact H].
  intros [c r]. simpl. destruct c; simpl; try done.
  - intros (Hs & Hm & Hst). exists p. split; [done|]. split; [done|]. split; [done|by left].
  - intros (Hs & Hm & Hst). exists p. split; [done|]. split; [done|]. split; [done|by left].
  - intros [H1 ->]. exists p. split; [done|]. split; [by apply Hc|done].
  - intros [H1 ->]. exists p. split; [done|]. split; [by apply Hc|done].
  - intros (H1 & q & -> & ->). exists q. split; [done|]. split; [by apply Hc|done].
  - intros [-> H1]. exists p. split; [done|]. split; [done|by apply Ht].
Qed.

Section Generic.

Context {lib : K8sLib} {laws : K8sLibLaws} {P : Type} {ops : ProfileKind P} {klaws : ProfileKindLaws P}.

(** A part of a reconcile that is allowed. *)
Lemma part_sends {A : Type} (m : prog A) p created torn g t g' a :
  calls_ok (allowed (tag p) created torn) m -> In (tag p) (g_held g) ->
  (created -> live (tag p)) -> (torn -> may_tear_down g (tag p)) ->
  exec ghost_step m g t g' a -> all_ok g' t.
Proof.
  intros Hm Hp Hc Ht H. apply exec_grows in H as Hg.
  eapply allowed_sends; [exact Hg|exact Hp|exact Hc| |by eapply exec_calls].
  intros E. eapply may_tear_down_grows; [exact Hg|]. by apply Ht.
Qed.

Lemma kind_finish_sends p sel nodes g t g' a :
  In (tag p) (g_held g) -> live (tag p) ->
  LabelSelectorAsSelector (pr_selector (tag p)) = inr sel -> In (sel, nodes) (g_listed g) ->
  exec ghost_step (kind_finish p (map node_Name nodes)) g t g' a -> all_ok g' t.
Proof.
  intros Hp Hl Hsel Hnodes H. eapply sends_bind; [exact H|]. intros t1 g1 err H1.
  apply exec_grows in H1 as G1. split.
  - destruct (pr_gate _ _) eqn:Hgate.
    + eapply (part_sends _ p); [apply tear_down_law|done|done| |exact H1]. intros _. right. by exists sel, nodes.
    + by eapply (part_sends _ p); [apply roll_out_law|..].
  - intros t2 g2 H2. eapply sends_on_ok; [exact H2|]. intros _ (now & g3 & t3 & -> & [G3 _] & H3).
    cbn [bind do_call] in H3. constructor; [done|].
    destruct (negb _); [|destruct H3 as (-> & _); constructor].
    eapply update_status_law; [|split; [|split; [|left; split]]|exact H3]; try apply observation_law.
    by apply (grows_held g1), (grows_held g).
Qed.

Lemma kind_live_sends p g t g' a :
  In (tag p) (g_held g) -> live (tag p) -> exec ghost_step (kind_reconcile_live p) g t g' a -> all_ok g' t.
Proof.
  intros Hp Hl H. eapply sends_bind; [exact H|]. intros t1 g1 x H1. apply exec_grows in H1 as G1.
  split; [by eapply (part_sends _ p); [apply put_config_law|..]|].
  intros t2 g2 H2. destruct x as [e|op]; [destruct H2 as (-> & _); constructor|].
  eapply sends_bind; [exact H2|]. intros t3 g3 err H3. apply exec_grows in H3 as G3.
  apply (grows_held _ _ _ G1) in Hp.
  split; [by eapply (part_sends _ p); [apply put_schedule_law|..]|]. apply (grows_held _ _ _ G3) in Hp.
  intros t4 g4 H4. eapply sends_on_ok; [exact H4|]. clear H4. intros _ H4.
  eapply sends_bind; [exact H4|]. intros t5 g5 names H5. apply exec_grows in H5 as G5.
  apply selected_nodes_law in H5 as [S5 Hn]. split; [done|]. intros t6 g6 H6.
  destruct names as [e|names]; [destruct H6 as (-> & _); constructor|].
  destruct Hn as (sel & nodes & Hsel & Hin & ->).
  eapply kind_finish_sends; [|done|exact Hsel|exact Hin|exact H6]. by apply (grows_held g3).
Qed.

Lemma with_finalizers_refinalized p fs :
  (~ deleting (tag p) /\ (forall f, In f fs <-> f = finalizer \/ In f (finalizers (tag p))) \/
   deleting (tag p) /\ (forall f, In f fs <-> f <> finalizer /\ In f (finalizers (tag p)))) ->
  refinalized (tag p) (tag (with_finalizers fs p)).
Proof.
  intros H. destruct (with_finalizers_law fs p) as [Hs Hm].
  assert (E : finalizers (tag (with_finalizers fs p)) = fs) by (unfold finalizers; by rewrite Hm).
  split; [done|]. by rewrite E.
Qed.

Lemma kind_Reconcile_sends k g t g' a :
  exec ghost_step (kind_Reconcile k) g t g' a -> all_ok g' t.
Proof.
  intros H. eapply sends_bind; [exact H|]. intros t1 g1 x H1. apply get_profile_law in H1 as [S1 Hx].
  split; [done|]. intros t2 g2 H2. destruct x as [e|p]; [destruct H2 as (-> & _); constructor|].
  destruct Hx as [Hp _]. destruct (IsZero _) eqn:Hz, (ContainsFinalizer _ _) eqn:Hf; cbn [negb] in H2.
  - eapply kind_live_sends; [exact Hp| |exact H2]. split; [unfold deleting; by rewrite Hz|].
    by apply ContainsFinalizer_law.
  - eapply update_law; [exact Hp|apply with_finalizers_refinalized|exact H2].
    left. split; [unfold deleting; by rewrite Hz|]. apply AddFinalizer_law.
  - eapply sends_bind; [exact H2|]. intros t3 g3 err H3. split.
    + eapply (part_sends _ p); [apply clean_up_law|done|done| |exact H3]. intros _. by left.
    + intros t4 g4 H4. eapply sends_on_ok; [exact H4|]. intros _ H5.
      eapply update_law; [|apply with_finalizers_refinalized|exact H5].
      * eapply grows_held; [by eapply exec_grows|done].
      * right. split; [done|]. apply RemoveFinalizer_law.
  - destruct H2 as (-> & _). constructor.
Qed.

Lemma kind_record_sends rq r g t g' e :
  payload rq = Some r -> In rq (g_received g) ->
  (forall p : P, meta_key (pr_meta (tag p)) = report_key r -> report_target r = pr_key (tag p)) ->
  exec ghost_step (kind_record_attempt r) g t g' e -> all_ok g' t.
Proof.
  intros Hpay Hrq Hkind H. eapply sends_bind; [exact H|]. intros t1 g1 x H1. apply exec_grows in H1 as G1.
  apply get_profile_law in H1 as [S1 Hx]. split; [done|]. intros t2 g2 H2.
  destruct x as [err|p]; [destruct H2 as (-> & _); constructor|]. destruct Hx as [Hp Hk].
  destruct H2 as (now & g3 & t3 & -> & [G3 _] & H3). constructor; [done|]. cbn [bind] in H3.
  destruct (record_law p r now) as (Hs & Hm & Hst & Hc).
  eapply update_status_law; [by eapply grows_held| |exact H3].
  split; [done|]. split; [done|]. right. exists rq, r, now. split_and!; try done; [|by apply Hkind].
  apply G3, G1, Hrq.
Qed.

End Generic.

(** ** The two kinds *)

Section Kinds.

Context {lib : K8sLib} {laws : K8sLibLaws}.
Variable image : string.

(** A program that makes one call, and ends. *)
Lemma one_call {A : Type} c (f : resp c -> A) g t g' a :
  exec ghost_step (Vis c (fun r => Ret (f r))) g t g' a -> sends_ok g' c -> all_ok g' t.
Proof. intros (r & g1 & t' & -> & _ & -> & -> & _) H. by repeat constructor. Qed.

#[export] Instance SysctlKind_laws : ProfileKindLaws SysctlProfile (H := SysctlKind image).
Proof.
  split.
  - intros k g t g' x (r & g1 & t1 & -> & [_ Hr] & -> & -> & ->). split; [by repeat constructor|]. by destruct r.
  - intros p q g t g' e Hp Hq H. eapply one_call; [exact H|]. exists (PSysctl p).
    split; [by eapply grows_held; [eapply exec_grows|]|done].
  - intros p q g t g' e Hp Hq H. eapply one_call; [exact H|]. exists (PSysctl p).
    split; [by eapply grows_held; [eapply exec_grows|]|]. eapply restated_grows; [by eapply exec_grows|done].
  - done.
  - intros p. by each_call.
  - intros p. cbn [put_schedule SysctlKind]. unfold reconcile_CronJob, ensureCronJob, ensureNoCronJob.
    each_call; try done. split; [done|]. by exists p.
  - intros p. cbn [roll_out SysctlKind]. unfold ensureDaemonSet. by each_call.
  - intros p. cbn [tear_down SysctlKind]. unfold deleteDaemonSet. by each_call.
  - intros p. cbn [clean_up SysctlKind]. unfold cleanup. by each_call.
  - intros p g t g' x. cbn [selected_nodes SysctlKind]. unfold selectedNodeNames. cbn [tag pr_selector].
    destruct (LabelSelectorAsSelector _) as [e|sel] eqn:Hsel.
    + intros (-> & -> & ->). by split; [constructor|].
    + intros (r & g1 & t1 & -> & [_ Hr] & H). destruct r as [e|nodes]; destruct H as (-> & -> & ->);
        (split; [by repeat constructor|]); [done|]. by exists sel, nodes.
  - intros p selected complete now. unfold statuses, counts. cbn. by destruct complete.
  - intros p r now. split_and!; [|apply recorded_meta|apply recorded_statuses|apply recorded_counts].
    cbn. f_equal. unfold recorded, recomputeCounts. by destruct (count_phases _).
Qed.

#[export] Instance ScriptKind_laws : ProfileKindLaws ScriptProfile (H := ScriptKind image).
Proof.
  split.
  - intros k g t g' x (r & g1 & t1 & -> & [_ Hr] & -> & -> & ->). split; [by repeat constructor|]. by destruct r.
  - intros p q g t g' e Hp Hq H. eapply one_call; [exact H|]. exists (PScript p).
    split; [by eapply grows_held; [eapply exec_grows|]|done].
  - intros p q g t g' e Hp Hq H. eapply one_call; [exact H|]. exists (PScript p).
    split; [by eapply grows_held; [eapply exec_grows|]|]. eapply restated_grows; [by eapply exec_grows|done].
  - done.
  - intros p. by each_call.
  - intros p. by each_call.
  - intros p. cbn [roll_out ScriptKind]. unfold ensureScriptDaemonSet. by each_call.
  - intros p. cbn [tear_down ScriptKind]. unfold deleteScriptDaemonSet. by each_call.
  - intros p. cbn [clean_up ScriptKind]. unfold cleanupScript. by each_call.
  - intros p g t g' x. cbn [selected_nodes ScriptKind]. unfold scriptSelectedNodeNames. cbn [tag pr_selector].
    destruct (LabelSelectorAsSelector _) as [e|sel] eqn:Hsel.
    + intros (-> & -> & ->). by split; [constructor|].
    + intros (r & g1 & t1 & -> & [_ Hr] & H). destruct r as [e|nodes]; destruct H as (-> & -> & ->);
        (split; [by repeat constructor|]); [done|]. by exists sel, nodes.
  - intros p selected complete now. unfold statuses, counts. cbn. by destruct complete.
  - intros p r now.
    split_and!; [|apply script_recorded_meta|apply script_recorded_statuses|apply script_recorded_counts].
    cbn. f_equal. unfold script_recorded, recomputeScriptCounts. by destruct (count_phases _).
Qed.

Lemma reconcile_sends k g t g' a : exec ghost_step (Reconcile image k) g t g' a -> all_ok g' t.
Proof. rewrite Reconcile_kind. apply kind_Reconcile_sends. Qed.

Lemma script_reconcile_sends k g t g' a : exec ghost_step (script_Reconcile image k) g t g' a -> all_ok g' t.
Proof. rewrite script_Reconcile_kind. apply kind_Reconcile_sends. Qed.

(** ** The report handler *)

Lemma attempts_sends (fn : prog (option error)) (Q : Ghost -> Prop) g t g' e :
  (forall g g', Q g -> grows g g' -> Q g') ->
  (forall g t g' e, Q g -> exec ghost_step fn g t g' e -> all_ok g' t) ->
  Q g -> attempts ghost_step fn g t g' e -> grows g g' /\ all_ok g' t.
Proof.
  intros HQ Hfn Hg H. induction H as [g t g' r H|g t1 g1 e t2 g' r H _ _ IH].
  - split; [by eapply exec_grows|by eapply Hfn].
  - apply exec_grows in H as G1. destruct (IH (HQ _ _ Hg G1)) as [G2 H2].
    split; [by eapply grows_trans|]. apply Forall_app. split; [|done].
    eapply all_ok_grows; [exact G2|]. by eapply Hfn.
Qed.

Lemma apply_sends rq r g t g' e :
  payload rq = Some r -> In rq (g_received g) -> exec ghost_step (applyReport r) g t g' e -> all_ok g' t.
Proof.
  intros Hpay Hrq. unfold applyReport, applyScriptReport.
  assert (Hmono : forall g g', In rq (g_received g) -> grows g g' -> In rq (g_received g'))
    by (intros ? ? Hin (_ & Hr & _); by apply Hr).
  destruct (String.eqb _ _) eqn:Hkind; intros H%RetryOnConflict_law;
    apply (attempts_sends _ _ _ _ _ _ Hmono) in H as [_ H]; try done; intros g1 t1 g1' e1 Hin.
  - rewrite (script_record_attempt_kind image). eapply kind_record_sends; [done..|].
    intros p Hk. unfold report_target. by rewrite Hkind, <- Hk.
  - rewrite (record_attempt_kind image). eapply kind_record_sends; [done..|].
    intros p Hk. unfold report_target. by rewrite Hkind, <- Hk.
Qed.

Lemma handle_sends rq g t g' a :
  In rq (g_received g) -> exec ghost_step (handleReport rq) g t g' a -> all_ok g' t.
Proof.
  intros Hrq H%exec_handleReport. destruct (negb _); [destruct H as (_ & -> & _); constructor|].
  destruct (payload rq) as [r|] eqn:Hp; [|destruct H as (_ & -> & _); constructor].
  destruct (incomplete r); [destruct H as (_ & -> & _); constructor|].
  destruct H as (t1 & g1 & e & H1 & H2). eapply apply_sends in H1 as S1; [|done..].
  destruct e as [err|].
  - by destruct H2 as (-> & -> & _).
  - destruct H2 as [_ H2]. destruct (sr_Success r); [by destruct H2 as [-> ->]|].
    destruct H2 as [-> [Hg _]]. apply Forall_app. split; [by eapply all_ok_grows|]. by repeat constructor.
Qed.

End Kinds.
