(* ===== verification/System.v ===== *)
(** * The parts together.

    The pods the controllers describe run the worker, the worker's report is what
    the report API records, and the recorded reports are what the next reconcile
    goes by. *)
From Stdlib Require Import Permutation.
From S2P Require Import Prelude GoStrings GoHash GoJson Api Samples Render WorkerConfig WorkerHost WorkerApply WorkerMain.
From S2P Require Import WorkerScript K8s ApiServer Rollout SysctlController SysctlRefine ScriptController ReportServer ReportRefine ReportStore.

(** ** From the pod to the worker *)

(** The environment of a container on a node: literal values, and the node's
    name where the downward API is asked for it. *)
Definition pod_env (node : string) (c : Container) (key : string) : string :=
  match env_lookup key c with
  | Some (Literal v) => v
  | Some (FieldRef path) => if String.eqb path "spec.nodeName" then node else ""
  | None => ""
  end.

(** The containers of the DaemonSet and of the CronJob of a profile, for the
    current config. *)
Definition applier (image : string) (p : SysctlProfile) : Container :=
  MkContainer "applier" (workerImage image) imagePullPolicy privilegedSecurityContext
    [MkVolumeMount configVolumeName configMountPath true]
    (worker_env p (hashContent (renderSysctlConf p))).

Definition drift_checker (image : string) (p : SysctlProfile) : Container :=
  MkContainer "drift-checker" (workerImage image) imagePullPolicy privilegedSecurityContext
    [MkVolumeMount configVolumeName configMountPath true]
    (worker_env p (hashContent (renderSysctlConf p))).

(** The container of a ScriptProfile's DaemonSet. *)
Definition runner (image : string) (p : ScriptProfile) : Container :=
  MkContainer "runner" (script_workerImage image) imagePullPolicy privilegedSecurityContext
    runner_mounts (runner_env p (hashContent (renderScripts p))).

(** Where the kubelet puts the ConfigMap's file in these containers. *)
Definition mounted_file : string := configMountPath +:+ "/" +:+ configFileName.
Definition mounted_scripts : string := scriptConfigMountPath +:+ "/" +:+ scriptConfigFileName.

Lemma mutated_containers `{lib : K8sLib} image p ds ds' cj cj' :
  let hash := hashContent (renderSysctlConf p) in
  (mutate_DaemonSet image p (resourceName p) hash (labelsFor p) ds = inr ds' ->
   pod_Containers (tpl_Spec (ds_Template ds')) = [applier image p]) /\
  (mutate_CronJob image p (cronJobName p) hash (labelsFor p) cj = inr cj' ->
   pod_Containers (tpl_Spec (cj_Template cj')) = [drift_checker image p]).
Proof.
  intros hash. unfold mutate_DaemonSet, mutate_CronJob.
  split; destruct (SetControllerReference _ _ _) as [|m]; try done; by intros [= <-].
Qed.

Lemma mutated_runner `{lib : K8sLib} image p ds ds' :
  mutate_ScriptDaemonSet image p (scriptResourceName p) (hashContent (renderScripts p)) (scriptLabelsFor p) ds
    = inr ds' ->
  pod_Containers (tpl_Spec (ds_Template ds')) = [runner image p].
Proof.
  unfold mutate_ScriptDaemonSet. destruct (SetControllerReference _ _ _) as [|m]; [done|]. by intros [= <-].
Qed.

(** The report a runner pod of [p] on [node] sends after the run [res]. *)
Definition runner_report (p : ScriptProfile) (node : string) (res : Result) : Report :=
  MkReport (scp_Name p) (scp_Namespace p) kindScriptProfile node "" (hashContent (renderScripts p)) (OK res)
    (res_Applied res) (res_Failed res) (summarize "ran" res).

(** The report an applier pod of [p] on [node] sends after the run [res]. *)
Definition applier_report (p : SysctlProfile) (node : string) (res : Result) : Report :=
  MkReport (sp_Name p) (sp_Namespace p) "" node "" (hashContent (renderSysctlConf p)) (OK res)
    (res_Applied res) (res_Failed res) (summarize "applied" res).

Section Pods.

Context {H : Type} {host : Host H} {client : HttpClient H}.

(** C10. What an applier pod does: with the ConfigMap mounted that the controller
    rendered, the worker in the DaemonSet's container verifies the hash, applies
    the profile's entries to /proc/sys, and sends one report, to the report API,
    that names the profile, the node and the config's hash and tells whether all
    entries were applied; then it waits to be stopped. *)
Theorem applier_pod_protocol (image : string) (p : SysctlProfile) (node : string) (h : H)
    (Hmount : host_ReadFile h mounted_file = inr (renderSysctlConf p)) :
  let env := pod_env node (applier image p) in
  let '(res, h') := Apply env h "/proc/sys" (cfg_Entries (Parse (renderSysctlConf p))) in
  main env no_flags h = (AwaitSignal, fst (Send h' (NewReporter reportURL) (applier_report p node res))).
Proof.
  intros env. destruct (Apply env h _ _) as [res h'] eqn:E.
  unfold main. change (default (getenv env "MODE" modeApply) (flag_mode no_flags)) with modeApply.
  change (default _ (flag_config no_flags)) with mounted_file.
  change (default _ (flag_proc_root no_flags)) with "/proc/sys".
  unfold run_mode, Load. rewrite Hmount. change (env "CONFIG_HASH") with (hashContent (renderSysctlConf p)).
  cbn [String.eqb modeApply orb Ascii.eqb Bool.eqb Parse cfg_Hash cfg_Entries].
  change (HashBytes (renderSysctlConf p)) with (hashContent (renderSysctlConf p)).
  rewrite verifyHash_ok. cbn [Parse cfg_Entries] in E. rewrite E. reflexivity.
Qed.

(** C31. What a runner pod does: with the ConfigMap mounted that the controller
    rendered, the worker in the container of a ScriptProfile's DaemonSet verifies
    the hash, runs the scripts, and sends one report of kind "ScriptProfile" that
    names the profile, the node and the hash; then it waits to be stopped. *)
Theorem runner_pod_protocol (image : string) (p : ScriptProfile) (node : string) (h : H)
    (Hmount : host_ReadFile h mounted_scripts = inr (renderScripts p)) :
  let env := pod_env node (runner image p) in
  let '(res, h') := RunScripts h (scfg_Scripts (ParseScripts (renderScripts p))) in
  main env no_flags h = (AwaitSignal, fst (Send h' (NewReporter scriptReportURL) (runner_report p node res))).
Proof.
  intros env. destruct (RunScripts h _) as [res h'] eqn:E.
  unfold main. change (default (getenv env "MODE" modeApply) (flag_mode no_flags)) with modeScript.
  change (default _ (flag_config no_flags)) with mounted_scripts.
  change (default _ (flag_proc_root no_flags)) with "/proc/sys".
  unfold run_mode, LoadScripts. rewrite Hmount.
  change (env "CONFIG_HASH") with (hashContent (renderScripts p)).
  cbn [String.eqb modeApply modeCheck modeScript orb Ascii.eqb Bool.eqb ParseScripts scfg_Hash scfg_Scripts].
  change (HashBytes (renderScripts p)) with (hashContent (renderScripts p)).
  rewrite verifyHash_ok. cbn [ParseScripts scfg_Scripts] in E. rewrite E. reflexivity.
Qed.

(** The drift checker does not check: in the environment of the CronJob's
    container the worker runs in apply mode, because MODE is not set; it never
    returns, so that its Job never completes. *)
Theorem drift_checker_never_returns (image : string) (p : SysctlProfile) (node : string) (h : H) :
  getenv (pod_env node (drift_checker image p)) "MODE" modeApply = modeApply /\
  fst (main (pod_env node (drift_checker image p)) no_flags h) <> Returned.
Proof.
  split; [done|]. set (env := pod_env node (drift_checker image p)). unfold main.
  change (default (getenv env "MODE" modeApply) (flag_mode no_flags)) with modeApply.
  destruct (run_mode _ _ _ _ _ _) as [reason|[rep h']]; done.
Qed.

End Pods.

(** ** From the report to the reconcile *)

Section Protocol.

Context {lib : K8sLib} {laws : K8sLibLaws} {W : Type} {server : ApiServer W} {slaws : ApiServerLaws W}.
Variable image : string.

(** The last report ends the rollout: when every selected node but perhaps
    one is known to have applied the current config and that one reports
    success, the next reconcile tears the DaemonSet down and records the hash. *)
Theorem last_report_tears_down k (p : SysctlProfile) (sel : Selector) (r : StatusReport) rq w t w1 t' w2 :
  cl_SysctlProfiles (api_view w) !! k = Some p -> meta_key (sp_Meta p) = k ->
  IsZero (om_DeletionTimestamp (sp_Meta p)) = true -> In finalizer (om_Finalizers (sp_Meta p)) ->
  LabelSelectorAsSelector (spec_NodeSelector (sp_Spec p)) = inr sel ->
  payload rq = Some r -> report_key r = k -> sr_Kind r <> kindScriptProfile ->
  sr_Success r = true -> sr_Hash r = hashContent (renderSysctlConf p) ->
  (exists n, selects sel (api_view w) n) ->
  (forall n, selects sel (api_view w) n -> node_Name n <> sr_Node r ->
    applied_at (st_NodeStatuses (sp_Status p)) (node_Name n) (hashContent (renderSysctlConf p))) ->
  exec api_step (handleReport rq) w t w1 StatusOK ->
  exec api_step (Reconcile image k) w1 t' w2 None ->
  cl_DaemonSets (api_view w2) !! MkKey (sp_Namespace p) (resourceName p) = None /\
  exists p2, cl_SysctlProfiles (api_view w2) !! k = Some p2 /\
    st_TeardownHash (sp_Status p2) = hashContent (renderSysctlConf p).
Proof.
  intros Hp Hkey EZ EF Hsel Hr Hk Hkind Hs Hh Hsome Hall E1 E2.
  apply (stored_by_report _ _ p _ _ _ E1) in Hr as (now & m & (v & Hm) & V); [|done|by rewrite Hk].
  rewrite Hk in V.
  set (p1 := MkSysctlProfile m (sp_Spec p) (sp_Status (recorded p r now))) in *.
  assert (Hl1 : cl_SysctlProfiles (api_view w1) !! k = Some p1) by (rewrite V; apply lookup_insert_eq).
  apply (reconcile_live_view image k p1) in E2 as (sel1 & nodes & now1 & cm & cj & ds & p2 & Hsel1 & Hnodes & _ & _ &
    _ & Hobs & _ & V2); [|done|by simpl; rewrite Hm|by simpl; rewrite Hm].
  simpl in Hsel1. rewrite Hsel in Hsel1. injection Hsel1 as <-.
  assert (Hc : allNodesApplied p1 (map node_Name nodes) (hashContent (renderSysctlConf p1)) = true).
  { eapply gate_selected; [exact Hnodes|]. rewrite V. simpl. split; [exact Hsome|].
    intros n Hn. rewrite recorded_statuses. change (renderSysctlConf p1) with (renderSysctlConf p).
    destruct (decide (node_Name n = sr_Node r)) as [->|Hne].
    - rewrite <- Hh. by apply upsert_success.
    - apply upsert_other; [done|]. by apply Hall. }
  rewrite Hc in V2, Hobs. rewrite V2. cbn [cl_DaemonSets cl_SysctlProfiles].
  assert (Hmm : MkKey (sp_Namespace p1) (resourceName p1) = MkKey (sp_Namespace p) (resourceName p))
    by (unfold resourceName; simpl; by rewrite Hm).
  rewrite Hmm, lookup_delete_eq. split; [done|]. exists p2.
  rewrite lookup_insert_eq. split; [done|].
  destruct Hobs as (_ & _ & cs & -> & _). done.
Qed.

(** A node that joins gets the config: in a cluster in which some selected
    node is not known to have applied the current config (however the rollout
    stood before it joined), a reconcile leaves the DaemonSet there, for the
    current config. *)
Theorem joined_node_rolls_out k (p : SysctlProfile) (sel : Selector) (n : Node) w t w' :
  cl_SysctlProfiles (api_view w) !! k = Some p ->
  IsZero (om_DeletionTimestamp (sp_Meta p)) = true -> In finalizer (om_Finalizers (sp_Meta p)) ->
  LabelSelectorAsSelector (spec_NodeSelector (sp_Spec p)) = inr sel ->
  selects sel (api_view w) n ->
  ~ applied_at (st_NodeStatuses (sp_Status p)) (node_Name n) (hashContent (renderSysctlConf p)) ->
  exec api_step (Reconcile image k) w t w' None ->
  exists ds, cl_DaemonSets (api_view w') !! MkKey (sp_Namespace p) (resourceName p) = Some ds /\
    desired_DaemonSet image p ds.
Proof.
  intros Hp EZ EF Hsel Hn Hna E.
  apply (reconcile_live_view image k p) in E as (sel1 & nodes & now1 & cm & cj & ds & p2 & Hsel1 & Hnodes & _ & _ &
    Hds & _ & _ & V2); [|done..].
  rewrite Hsel in Hsel1. injection Hsel1 as <-.
  destruct (allNodesApplied _ _ _) eqn:Hc in Hds, V2.
  - exfalso. eapply gate_selected in Hc; [|exact Hnodes]. destruct Hc as [_ Hc]. by apply Hna, Hc.
  - exists ds. split; [|by apply Hds]. rewrite V2. simpl. apply lookup_insert_eq.
Qed.

(** C40. The drift checker has no config: the CronJob's pods mount a ConfigMap by
    the CronJob's own name, which no reconcile creates; if the cluster has none
    of that name, a reconcile of a profile with a drift-check schedule leaves a
    CronJob whose config volume names a ConfigMap that is not there. *)
Theorem drift_checker_config_missing k (p : SysctlProfile) w t w' :
  cl_SysctlProfiles (api_view w) !! k = Some p ->
  IsZero (om_DeletionTimestamp (sp_Meta p)) = true -> In finalizer (om_Finalizers (sp_Meta p)) ->
  DriftCheck (spec_Schedule (sp_Spec p)) <> "" ->
  cl_ConfigMaps (api_view w) !! MkKey (sp_Namespace p) (cronJobName p) = None ->
  exec api_step (Reconcile image k) w t w' None ->
  exists cj v, cl_CronJobs (api_view w') !! MkKey (sp_Namespace p) (cronJobName p) = Some cj /\
    In v (pod_Volumes (tpl_Spec (cj_Template cj))) /\ vol_Source v = FromConfigMap (cronJobName p) /\
    cl_ConfigMaps (api_view w') !! MkKey (sp_Namespace p) (cronJobName p) = None.
Proof.
  intros Hp EZ EF Hd Hnone E.
  apply (reconcile_live_view image k p) in E as (sel1 & nodes & now1 & cm & cj & ds & p2 & _ & _ & _ & Hcj &
    _ & _ & _ & V2); [|done..].
  destruct (Hcj Hd) as (_ & _ & _ & []). destruct wp_container as (c & _ & _ & _ & _ & _ & _ & _ & _ & v & m &
    Hv & _ & _ & Hsrc & _).
  exists cj, v. rewrite V2. simpl. apply String.eqb_neq in Hd. rewrite Hd.
  split; [apply lookup_insert_eq|]. split; [done|]. split; [done|].
  rewrite lookup_insert_ne; [done|]. intros [=Heq]. by apply resource_not_cron in Heq.
Qed.

End Protocol.
