(* ===== verification/Convergence.v ===== *)
(** * From the reports to the end of a rollout.

    A pod's success report reaches the status. Then histories: a profile from some
    moment on, while reports for it arrive, it is reconciled, and anything else happens
    that leaves the profile and its statuses alone; and what its next reconcile does,
    as a function of the reports. *)
From S2P Require Import Prelude GoStrings GoHash GoJson Api Render WorkerConfig WorkerScript WorkerHost WorkerApply WorkerMain.
From S2P Require Import K8s ApiServer Rollout SysctlController SysctlRefine ScriptController ScriptRefine.
From S2P Require Import ReportServer ReportRefine Profile BothKinds ReportStore System.

(** The last report of a node, the reports being given newest first. *)
Definition last_report_of (node : string) (reports : list StatusReport) : option StatusReport :=
  List.find (fun r => String.eqb (sr_Node r) node) reports.

(** What the reports say, on top of the statuses there were. *)
Definition says_applied (l : list NodeStatus) (reports : list StatusReport) (node hash : string) : Prop :=
  match last_report_of node reports with
  | Some r => sr_Success r = true /\ sr_Hash r = hash
  | None => applied_at l node hash
  end.

(** ** Lemmas: one more report *)

Lemma applied_at_entry (l : list NodeStatus) (node hash : string) :
  List.NoDup (map ns_NodeName l) ->
  applied_at l node hash <->
  exists ns, entry_of node l = Some ns /\ ns_Phase ns = NodePhaseApplied /\ ns_AppliedHash ns = hash.
Proof.
  unfold applied_at, entry_of. induction l as [|x l IH]; intros Hd; simpl.
  - split; [by intros (? & [] & _)|by intros (? & ? & _)].
  - inversion_clear Hd as [|? ? Hx Hl]. destruct (String.eqb_spec (ns_NodeName x) node) as [E|E].
    + split; [|intros (ns & [= <-] & H); exists x; by split; [left|]].
      intros (ns & [<-|Hin] & Hn & H); [by exists x|].
      exfalso. apply Hx. rewrite E, <- Hn. by apply in_map.
    + rewrite <- IH by done. split; intros (ns & Hin & H); exists ns; [|by split; [right|]].
      destruct Hin as [<-|Hin]; [|done]. by destruct H.
Qed.

Lemma upsert_same (r : StatusReport) (now : Time) (l : list NodeStatus) (hash : string) :
  List.NoDup (map ns_NodeName l) ->
  applied_at (upsert r (report_phase r) now l) (sr_Node r) hash <-> sr_Success r = true /\ sr_Hash r = hash.
Proof.
  intros Hd. rewrite applied_at_entry by by apply upsert_NoDup.
  rewrite upsert_entry, String.eqb_refl. unfold updated_entry, new_entry, report_phase.
  destruct (sr_Success r); split.
  - intros (ns & [= <-] & _ & Hh). split; [done|]. by destruct (entry_of _ l).
  - intros [_ <-]. eexists. split; [done|]. by destruct (entry_of _ l).
  - intros (ns & [= <-] & Hp & _). by destruct (entry_of _ l).
  - by intros [].
Qed.

Lemma says_applied_report (l l' : list NodeStatus) reports r now node hash :
  List.NoDup (map ns_NodeName l') ->
  (applied_at l' node hash <-> says_applied l reports node hash) ->
  applied_at (upsert r (report_phase r) now l') node hash <-> says_applied l (r :: reports) node hash.
Proof.
  intros Hd IH. unfold says_applied, last_report_of. simpl.
  destruct (String.eqb_spec (sr_Node r) node) as [<-|Hne]; [by apply upsert_same|].
  rewrite upsert_other by done. exact IH.
Qed.

(** ** Lemmas: either kind *)

Section Kinds.

Context {lib : K8sLib} {laws : K8sLibLaws} {W : Type} {server : ApiServer W} {slaws : ApiServerLaws W}.
Variable image : string.

(** A report that is answered 200 is recorded on its target, if that is stored. *)
Lemma report_kind rq r (p : profile) w t w' :
  exec api_step (handleReport rq) w t w' StatusOK -> payload rq = Some r ->
  stored (api_view w) (report_target r) = Some p ->
  exists p' now, stored (api_view w') (report_target r) = Some p' /\ same_profile p p' /\
    statuses p' = upsert r (report_phase r) now (statuses p).
Proof.
  intros E Hr Hp. destruct (profile_stored_by_report rq r p w t w' E Hr Hp) as (now & new & Hsame & Hst & V).
  exists new, now. rewrite V. split; [|split; [done|]].
  - unfold report_target in *. destruct (String.eqb _ _), p, new as [new|new]; cbn [set_stored stored] in *;
      try (by destruct Hsame); try (by apply fmap_Some_1 in Hp as (? & _ & ?)); cbn; by rewrite lookup_insert_eq.
  - unfold statuses at 1. rewrite Hst. apply pr_recorded_statuses.
Qed.

(** ** From the pod to the status *)

(** The report a pod of [p] on [node] sends after the run [res]. *)
Definition pod_report (p : profile) (node : string) (res : Result) : Report :=
  match p with PSysctl q => applier_report q node res | PScript q => runner_report q node res end.

(** The strings of a profile and a node that JSON carries unchanged. *)
Definition wire_safe (p : profile) (node : string) : Prop :=
  valid_utf8 (om_Name (pr_meta p)) = true /\ valid_utf8 (om_Namespace (pr_meta p)) = true /\ valid_utf8 node = true.

Lemma received_pod_report (p : profile) (node : string) (res : Result) :
  wire_safe p node ->
  let r := received (pod_report p node res) in
  sr_Node r = node /\ sr_Hash r = pr_hash p /\ sr_Success r = OK res /\ report_target r = pr_key p.
Proof.
  intros (H1 & H2 & H3) r.
  assert (Hn : sr_Node r = to_valid node) by (by destruct p).
  assert (Hh : sr_Hash r = to_valid (pr_hash p)) by (by destruct p).
  assert (Ht : report_target r =
    (pr_kind p, MkKey (to_valid (om_Namespace (pr_meta p))) (to_valid (om_Name (pr_meta p))))) by (by destruct p).
  rewrite Hn, Hh, Ht, !to_valid_id by (try done; apply hex_valid, hashContent_hex). by destruct p.
Qed.

(** C8. From the node to the status: when the report of an applier or runner pod
    whose entries or scripts have all succeeded is answered 200, the stored profile
    says that this node has applied the current config, says of every other node what
    it said before, and has the same spec. *)
Theorem success_reaches_status (p : profile) (node : string) (res : Result) w t w' :
  exec api_step (handleReport (MkRequest "POST" (Marshal (pod_report p node res)))) w t w' StatusOK ->
  OK res = true -> wire_safe p node ->
  stored (api_view w) (pr_key p) = Some p ->
  exists p', stored (api_view w') (pr_key p) = Some p' /\ same_profile p p' /\
    applied_at (statuses p') node (pr_hash p) /\
    (forall n h, n <> node -> applied_at (statuses p') n h <-> applied_at (statuses p) n h).
Proof.
  intros E Hok Hwire Hp.
  assert (Hr : payload (MkRequest "POST" (Marshal (pod_report p node res))) = Some (received (pod_report p node res)))
    by (by apply accepted_Marshal in E).
  destruct (received_pod_report p node res Hwire) as (Hn & Hh & Hs & Ht). rewrite Hok in Hs.
  revert Hr Hn Hh Hs Ht. generalize (received (pod_report p node res)). intros r Hr Hn Hh Hs Ht.
  rewrite <- Ht in Hp |- *. rewrite <- Hn, <- Hh.
  destruct (report_kind _ _ p _ _ _ E Hr Hp) as (p' & now & Hp' & Hsame & Hl).
  exists p'. split; [done|]. split; [done|]. rewrite Hl. split.
  - by apply upsert_success.
  - intros n h Hne. by apply upsert_other.
Qed.

(** ** Rollouts *)

(** A history of the profile [p]: the reports recorded for it, newest first, and the
    world now. *)
Inductive rollout_of (p : profile) : list StatusReport -> W -> Prop :=
| rollout_begins w : stored (api_view w) (pr_key p) = Some p -> rollout_of p [] w
| rollout_reports reports w rq r t w' :
    rollout_of p reports w ->
    payload rq = Some r -> report_target r = pr_key p ->
    exec api_step (handleReport rq) w t w' StatusOK ->
    rollout_of p (r :: reports) w'
| rollout_reconciles reports w t w' :
    rollout_of p reports w -> exec api_step (reconcile_key image (pr_key p)) w t w' None ->
    rollout_of p reports w'
| rollout_elsewhere reports w w' :
    rollout_of p reports w ->
    (forall q, stored (api_view w) (pr_key p) = Some q ->
      exists q', stored (api_view w') (pr_key p) = Some q' /\ same_profile q q' /\ statuses q' = statuses q) ->
    rollout_of p reports w'.

(** What is stored then: the same profile, whose statuses are told by the reports. *)
Definition told_by (p : profile) (reports : list StatusReport) (q : profile) : Prop :=
  same_profile p q /\ List.NoDup (map ns_NodeName (statuses q)) /\
  forall node hash, applied_at (statuses q) node hash <-> says_applied (statuses p) reports node hash.

Lemma told_by_report p reports q r now q' :
  told_by p reports q -> same_profile q q' -> statuses q' = upsert r (report_phase r) now (statuses q) ->
  told_by p (r :: reports) q'.
Proof.
  intros (Hsame & Hd & Hl) Hq E. split; [by transitivity q|]. rewrite E. split.
  - by apply upsert_NoDup.
  - intros node hash. by apply says_applied_report.
Qed.

Lemma told_by_same p reports q q' :
  told_by p reports q -> same_profile q q' -> statuses q' = statuses q -> told_by p reports q'.
Proof.
  intros (Hsame & Hd & Hl) Hq E. split; [by transitivity q|]. by rewrite E.
Qed.

Lemma rollout_state p reports w :
  rollout_of p reports w -> live p -> List.NoDup (map ns_NodeName (statuses p)) ->
  exists q, stored (api_view w) (pr_key p) = Some q /\ told_by p reports q.
Proof.
  intros H Hlive Hd.
  induction H as [w Hp|reports w rq r t w' _ IH Hr Hk E|reports w t w' _ IH E|reports w w' _ IH Hkeep].
  - exists p. split; [done|]. split; [reflexivity|done].
  - destruct IH as (q & Hq & Htold). rewrite <- Hk in Hq |- *.
    destruct (report_kind rq r q w t w' E Hr Hq) as (q' & now & Hq' & Hs & Hl).
    exists q'. split; [done|]. by eapply told_by_report.
  - destruct IH as (q & Hq & Htold). pose proof (proj1 Htold) as Hsame. rewrite Hsame in E, Hq, Hlive.
    apply reconcile_kind in E as (q' & sel & ds & complete & Hq' & Hs & Hl & _); [|done..].
    rewrite <- Hsame in Hq'. exists q'. split; [done|]. by apply (told_by_same p reports q).
  - destruct IH as (q & Hq & Htold). destruct (Hkeep q Hq) as (q' & Hq' & Hs & Hl).
    exists q'. split; [done|]. by apply (told_by_same p reports q).
Qed.

(** ** Properties *)

(** C2. A rollout ends as the reports say: however reports for a profile of either
    kind, its reconciles and anything that leaves it alone have followed one another,
    the next reconcile goes by the last report of each node (and by the status the
    node had at the start when it sent none). If the last report of every selected
    node, at least one, is a success with the hash of the current config, the
    DaemonSet is torn down and the hash recorded; otherwise the DaemonSet is there,
    for the current config. *)
Theorem rollout_converges (p : profile) (sel : Selector) reports w t w'
    (Hroll : rollout_of p reports w) (Hlive : live p)
    (Hsel : LabelSelectorAsSelector (pr_selector p) = inr sel)
    (Hnames : List.NoDup (map ns_NodeName (statuses p)))
    (Hrec : exec api_step (reconcile_key image (pr_key p)) w t w' None) :
  let complete := (exists n, selects sel (api_view w) n) /\
    forall n, selects sel (api_view w) n -> says_applied (statuses p) reports (node_Name n) (pr_hash p) in
  (complete -> cl_DaemonSets (api_view w') !! pr_owned p = None /\
    exists p', stored (api_view w') (pr_key p) = Some p' /\ teardown_hash p' = pr_hash p) /\
  (~ complete -> exists ds, cl_DaemonSets (api_view w') !! pr_owned p = Some ds /\ desired_pods image p ds).
Proof.
  intros complete. destruct (rollout_state p reports w) as (q & Hq & Hsame & Hd & Htold); [done..|].
  rewrite Hsame in Hq, Hrec, Hlive.
  apply reconcile_kind in Hrec as (q' & sel' & ds & torn & Hq' & _ & _ & Hsel' & Hgate & Hhash & Hds & V); [|done..].
  assert (Eh : pr_hash q = pr_hash p) by (by rewrite Hsame). rewrite Eh in Hgate, Hhash.
  rewrite <- Hsame in Hq', Hsel', Hds, V. rewrite Hsel in Hsel'. injection Hsel' as <-.
  assert (Hc : torn = true <-> complete) by (rewrite Hgate; unfold complete; by setoid_rewrite Htold).
  rewrite V. split; intros H.
  - apply Hc in H. rewrite H in *. split; [reflexivity|]. exists q'. by split; [|apply Hhash].
  - destruct torn; [by exfalso; apply H, Hc|]. exists ds. split; [reflexivity|]. by apply Hds.
Qed.

End Kinds.
