(* ===== verification/NodeEvents.v ===== *)
(** * Node events ([internal/controller/node_predicate.go], and the two
    [profilesForNode]): which changes of a node wake which profiles. *)
From S2P Require Import Prelude GoStrings Api K8s Rollout SysctlController ScriptController Samples ClusterSim.

(** ** Definitions *)

(** An event of the watch; an object that is not a node is [None]. *)
Inductive NodeEvent :=
| CreateEvent (obj : option Node)
| UpdateEvent (old new : option Node)
| DeleteEvent (obj : option Node)
| GenericEvent (obj : option Node).

(** [reflect.DeepEqual] tells a nil map from an empty one. *)
Definition nodeLabelChanged (e : NodeEvent) : bool :=
  match e with
  | CreateEvent _ => true
  | UpdateEvent (Some oldNode) (Some newNode) =>
      negb (bool_decide (node_Labels oldNode = node_Labels newNode))
  | UpdateEvent _ _ => false
  | DeleteEvent _ => false
  | GenericEvent _ => false
  end.

Section NodeEvents.

Context {lib : K8sLib}.

(** The selector is valid and matches the node's labels. *)
Definition matches (ls : LabelSelector) (n : Node) : bool :=
  match LabelSelectorAsSelector ls with
  | inl _ => false
  | inr sel => sel (default ∅ (node_Labels n))
  end.

(** ** Lemmas *)

Lemma requests_filter {A : Type} (meta : A -> ObjectMeta) (ls : A -> LabelSelector) (n : Node)
    (items : list A) (acc : list NamespacedName) :
  fold_left (fun reqs p =>
      match LabelSelectorAsSelector (ls p) with
      | inl _ => reqs
      | inr sel => if sel (default ∅ (node_Labels n)) then reqs ++ [meta_key (meta p)] else reqs
      end) items acc =
  acc ++ map (fun p => meta_key (meta p)) (List.filter (fun p => matches (ls p) n) items).
Proof.
  revert acc. induction items as [|p items IH]; intros acc; simpl; [by rewrite app_nil_r|].
  rewrite IH. unfold matches at 2. destruct (LabelSelectorAsSelector (ls p)) as [e|sel]; [done|].
  destruct (sel _); [|done]. simpl. by rewrite <- app_assoc.
Qed.

Lemma exec_profilesForNode {W : Type} (step : W -> event -> W -> Prop) n items w t w' reqs :
  exec step (profilesForNode n) w (Ev ListSysctlProfiles (inr items) :: t) w' reqs ->
  t = [] /\ reqs = map (fun p => meta_key (sp_Meta p))
                 (List.filter (fun p => matches (spec_NodeSelector (sp_Spec p)) n) items).
Proof.
  intros (x & w1 & t1 & Et & _ & E). apply cons_eq_inv in Et as [Ex <-].
  apply (f_equal (fun ev => match ev with Ev c r =>
    match c return resp c -> error + list SysctlProfile with
    | ListSysctlProfiles => fun r => r | _ => fun _ => inl (ErrOther "") end r end)) in Ex.
  cbn in Ex. subst x. destruct E as (-> & _ & ->). split; [done|].
  by rewrite (requests_filter sp_Meta (fun p => spec_NodeSelector (sp_Spec p))).
Qed.

Lemma exec_script_profilesForNode {W : Type} (step : W -> event -> W -> Prop) n items w t w' reqs :
  exec step (script_profilesForNode n) w (Ev ListScriptProfiles (inr items) :: t) w' reqs ->
  t = [] /\ reqs = map (fun p => meta_key (scp_Meta p))
                 (List.filter (fun p => matches (sspec_NodeSelector (scp_Spec p)) n) items).
Proof.
  intros (x & w1 & t1 & Et & _ & E). apply cons_eq_inv in Et as [Ex <-].
  apply (f_equal (fun ev => match ev with Ev c r =>
    match c return resp c -> error + list ScriptProfile with
    | ListScriptProfiles => fun r => r | _ => fun _ => inl (ErrOther "") end r end)) in Ex.
  cbn in Ex. subst x. destruct E as (-> & _ & ->). split; [done|].
  by rewrite (requests_filter scp_Meta (fun p => sspec_NodeSelector (scp_Spec p))).
Qed.

(** A [List] that fails gives no requests. *)
Lemma exec_profilesForNode_error {W : Type} (step : W -> event -> W -> Prop) n err w t w' reqs :
  exec step (profilesForNode n) w (Ev ListSysctlProfiles (inl err) :: t) w' reqs -> reqs = [].
Proof.
  intros (x & w1 & t1 & Et & _ & E). apply cons_eq_inv in Et as [Ex _].
  apply (f_equal (fun ev => match ev with Ev c r =>
    match c return resp c -> error + list SysctlProfile with
    | ListSysctlProfiles => fun r => r | _ => fun _ => inl (ErrOther "") end r end)) in Ex.
  cbn in Ex. subst x. by destruct E as (_ & _ & ->).
Qed.

Lemma exec_script_profilesForNode_error {W : Type} (step : W -> event -> W -> Prop) n err w t w' reqs :
  exec step (script_profilesForNode n) w (Ev ListScriptProfiles (inl err) :: t) w' reqs -> reqs = [].
Proof.
  intros (x & w1 & t1 & Et & _ & E). apply cons_eq_inv in Et as [Ex _].
  apply (f_equal (fun ev => match ev with Ev c r =>
    match c return resp c -> error + list ScriptProfile with
    | ListScriptProfiles => fun r => r | _ => fun _ => inl (ErrOther "") end r end)) in Ex.
  cbn in Ex. subst x. by destruct E as (_ & _ & ->).
Qed.

Lemma matches_labels ls (n m : Node) : node_Labels n = node_Labels m -> matches ls n = matches ls m.
Proof. unfold matches. by intros ->. Qed.

Lemma selection_changes_labels ls (old new : Node) :
  matches ls old <> matches ls new -> nodeLabelChanged (UpdateEvent (Some old) (Some new)) = true.
Proof. intros Hne. apply negb_true_iff, bool_decide_eq_false. intros E. by apply Hne, matches_labels. Qed.

(** The profile is in the requests of the node that it selects. *)
Lemma requested_once_selected {A : Type} (key : A -> NamespacedName) (ls : A -> LabelSelector) (p : A)
    (old new : Node) (items1 items2 : list A) :
  matches (ls p) old <> matches (ls p) new -> In p items1 -> In p items2 ->
  In (key p) (map key (List.filter (fun p => matches (ls p) old) items1) ++
              map key (List.filter (fun p => matches (ls p) new) items2)).
Proof.
  intros Hne H1 H2. apply in_app_iff. rewrite !in_map_iff.
  destruct (matches (ls p) old) eqn:E1; [left|right; destruct (matches (ls p) new) eqn:E2; [|done]];
    exists p; (split; [done|]); by apply filter_In.
Qed.

(** ** Properties *)

(** C37. No relevant node event is missed, as long as the profiles can be listed: when
    an update of a node changes whether a profile selects it, for a profile of either
    kind, the predicate lets the event through; and if the [List] of both of the map
    function's runs, for the old and for the new node, succeeds and its answer holds
    the profile, the requests include the profile. If a [List] fails, that run gives
    no request at all, and nothing repeats it: the event is lost. *)
Theorem label_change_noticed {W : Type} (step : W -> event -> W -> Prop) (old new : Node) :
  (forall (p : SysctlProfile) items1 w0 w1 t1 reqs1 items2 w2 t2 reqs2,
     matches (spec_NodeSelector (sp_Spec p)) old <> matches (spec_NodeSelector (sp_Spec p)) new ->
     In p items1 -> In p items2 ->
     exec step (profilesForNode old) w0 (Ev ListSysctlProfiles (inr items1) :: t1) w1 reqs1 ->
     exec step (profilesForNode new) w1 (Ev ListSysctlProfiles (inr items2) :: t2) w2 reqs2 ->
     nodeLabelChanged (UpdateEvent (Some old) (Some new)) = true /\
     In (meta_key (sp_Meta p)) (reqs1 ++ reqs2)) /\
  (forall (p : ScriptProfile) items1 w0 w1 t1 reqs1 items2 w2 t2 reqs2,
     matches (sspec_NodeSelector (scp_Spec p)) old <> matches (sspec_NodeSelector (scp_Spec p)) new ->
     In p items1 -> In p items2 ->
     exec step (script_profilesForNode old) w0 (Ev ListScriptProfiles (inr items1) :: t1) w1 reqs1 ->
     exec step (script_profilesForNode new) w1 (Ev ListScriptProfiles (inr items2) :: t2) w2 reqs2 ->
     nodeLabelChanged (UpdateEvent (Some old) (Some new)) = true /\
     In (meta_key (scp_Meta p)) (reqs1 ++ reqs2)) /\
  (forall n err w t w' reqs,
     exec step (profilesForNode n) w (Ev ListSysctlProfiles (inl err) :: t) w' reqs \/
     exec step (script_profilesForNode n) w (Ev ListScriptProfiles (inl err) :: t) w' reqs ->
     reqs = []).
Proof.
  split_and!.
  - intros p items1 w0 w1 t1 reqs1 items2 w2 t2 reqs2 Hne H1 H2 [_ ->]%exec_profilesForNode [_ ->]%exec_profilesForNode.
    split; [by eapply selection_changes_labels|].
    by apply (requested_once_selected (fun p => meta_key (sp_Meta p)) (fun p => spec_NodeSelector (sp_Spec p))).
  - intros p items1 w0 w1 t1 reqs1 items2 w2 t2 reqs2 Hne H1 H2
      [_ ->]%exec_script_profilesForNode [_ ->]%exec_script_profilesForNode.
    split; [by eapply selection_changes_labels|].
    by apply (requested_once_selected (fun p => meta_key (scp_Meta p)) (fun p => sspec_NodeSelector (scp_Spec p))).
  - intros n err w t w' reqs [H|H]; [by eapply exec_profilesForNode_error|by eapply exec_script_profilesForNode_error].
Qed.

End NodeEvents.
