(* ===== verification/Termination.v ===== *)
(** * The handlers end.

    However the API server answers, each handler returns after a bounded number of
    requests to it. *)
From S2P Require Import Prelude GoStrings Api K8s Rollout SysctlController ScriptController ReportServer.

(** In a world of steps, [m] always comes to an end, and sends at most [n]
    requests. *)
Definition ends_within {W A : Type} (step : W -> event -> W -> Prop) (n : nat) (m : prog A) : Prop :=
  (forall w, exists t w' a, exec step m w t w' a) /\
  (forall w t w' a, exec step m w t w' a -> (list_sum (map (fun ev => api_requests (ev_call ev)) t) <= n)%nat).

Lemma exec_requests {W A : Type} (step : W -> event -> W -> Prop) (m : prog A) n w t w' a :
  requests_within n m -> exec step m w t w' a ->
  (list_sum (map (fun ev => api_requests (ev_call ev)) t) <= n)%nat.
Proof.
  revert n w t. induction m as [b|c k IH]; intros n w t; simpl.
  - intros _ (-> & _). simpl. lia.
  - intros [Hc Hk] (r & w1 & t' & -> & _ & H). eapply IH in H; [|apply Hk]. simpl. lia.
Qed.

Lemma ends {W A : Type} (step : W -> event -> W -> Prop) (n : nat) (m : prog A) :
  (forall w c, exists r w', step w (Ev c r) w') -> requests_within n m -> ends_within step n m.
Proof.
  intros Htotal Hm. split; [intros w; by apply exec_total|]. intros w t w' a. by apply exec_requests.
Qed.

(** Walks through a program that makes its calls one by one. *)
Ltac each_request :=
  repeat (cbn [requests_within bind do_call on_ok api_requests Nat.sub];
    match goal with
    | |- _ /\ _ => split
    | |- (_ <= _)%nat => lia
    | |- forall _, _ => intro
    | |- True => exact I
    | |- requests_within _ (on_ok ?x _ _) => destruct x
    | |- requests_within _ (if ?x then _ else _) => destruct x
    | |- requests_within _ (match ?x with _ => _ end) => destruct x
    | |- requests_within _ (bind (on_ok ?x _ _) _) => destruct x
    | |- requests_within _ (bind (if ?x then _ else _) _) => destruct x
    | |- requests_within _ (bind (match ?x with _ => _ end) _) => destruct x
    end).

Section Handlers.

Context {lib : K8sLib} {laws : K8sLibLaws}.
Variable image : string.

Lemma Reconcile_requests k : requests_within 9 (Reconcile image k).
Proof.
  unfold Reconcile, reconcile_live, reconcile_CronJob, ensureCronJob, ensureNoCronJob, selectedNodeNames,
    finish, deleteDaemonSet, ensureDaemonSet, cleanup. each_request.
Qed.

Lemma script_Reconcile_requests k : requests_within 7 (script_Reconcile image k).
Proof.
  unfold script_Reconcile, script_reconcile_live, scriptSelectedNodeNames, script_finish, deleteScriptDaemonSet,
    ensureScriptDaemonSet, cleanupScript. each_request.
Qed.

Lemma handleReport_requests rq : requests_within 10 (handleReport rq).
Proof.
  unfold handleReport. destruct (negb _); [done|]. destruct (DecodeBody _) as [r|]; [|done].
  destruct (_ || _); [done|]. apply (requests_within_bind _ _ 10 0).
  - unfold applyReport, applyScriptReport.
    destruct (String.eqb _ _); apply (RetryOnConflict_steps _ 2);
      unfold script_record_attempt, record_attempt; each_request.
  - intros [e|]; [by destruct (IgnoreNotFound _)|]. unfold IncErrored. destruct (negb _); each_request.
Qed.

(** C18. Every handler ends. Whatever the API server answers, as long as it answers,
    a reconcile returns after at most nine requests (seven for a ScriptProfile), the
    report handler after at most ten (five attempts of two requests), and the map
    functions of the node watches after one. *)
Theorem handlers_end {W : Type} (step : W -> event -> W -> Prop) :
  (forall w c, exists r w', step w (Ev c r) w') ->
  (forall k, ends_within step 9 (Reconcile image k)) /\
  (forall k, ends_within step 7 (script_Reconcile image k)) /\
  (forall rq, ends_within step 10 (handleReport rq)) /\
  (forall n, ends_within step 1 (profilesForNode n)) /\
  (forall n, ends_within step 1 (script_profilesForNode n)).
Proof.
  intros Htotal. split_and!; intros x; apply ends; try done.
  - apply Reconcile_requests.
  - apply script_Reconcile_requests.
  - apply handleReport_requests.
  - unfold profilesForNode. each_request.
  - unfold script_profilesForNode. each_request.
Qed.

End Handlers.
