(* ===== verification/Manager.v ===== *)
(** * The operator's main program ([cmd/main.go]) and what it registers
    ([SetupWithManager] of the two controllers, and their permissions).

    [main] as a function of the environment, the command line and the answers of
    the manager: the calls it makes to set the manager up, in order, and the exit
    code. The manager and the logger are libraries; flags that libraries define
    are a parameter. *)
From Stdlib Require Import Ascii.
From S2P Require Import Prelude GoStrings GoFlag GoHttp Api Render K8s Rollout SysctlController ScriptController NodeEvents ReportServer ReportRefine.

(** ** The controllers' registration *)

Inductive ObjectKind := KindSysctlProfile | KindScriptProfile | KindConfigMap | KindDaemonSet | KindCronJob | KindNode.

#[export] Instance ObjectKind_eq : EqDecision ObjectKind.
Proof. solve_decision. Defined.

(** What the builder is told: the kind that is reconciled, the owned kinds whose
    events lead to their owner, the watch with its predicate and its map function,
    the name, the reconciler. *)
Record Registration := MkRegistration {
  reg_For : ObjectKind;
  reg_Owns : list ObjectKind;
  reg_Watches : ObjectKind;
  reg_Predicate : NodeEvent -> bool;
  reg_Map : Node -> prog (list NamespacedName);
  reg_Named : string;
  reg_Reconcile : NamespacedName -> prog (option error)
}.

Section Registrations.

Context {lib : K8sLib}.

(** The reconcilers, by their [WorkerImage]. *)
Definition SetupWithManager (WorkerImage : string) : Registration :=
  MkRegistration KindSysctlProfile [KindConfigMap; KindDaemonSet; KindCronJob]
    KindNode nodeLabelChanged profilesForNode "sysctlprofile" (Reconcile WorkerImage).

Definition script_SetupWithManager (WorkerImage : string) : Registration :=
  MkRegistration KindScriptProfile [KindConfigMap; KindDaemonSet]
    KindNode nodeLabelChanged script_profilesForNode "scriptprofile" (script_Reconcile WorkerImage).

End Registrations.

(** ** The options of the manager *)

(** [tls.Config], as far as the options change it. *)
Record TLSConfig := MkTLSConfig { NextProtos : list string }.

Definition disableHTTP2 (c : TLSConfig) : TLSConfig := MkTLSConfig ["http/1.1"].

Record Certificate := MkCertificate { CertDir : string; CertName : string; KeyName : string }.

Record WebhookOptions := MkWebhookOptions { wh_TLSOpts : list (TLSConfig -> TLSConfig); wh_Cert : Certificate }.

(** [FilterProvider]: [WithAuthenticationAndAuthorization] or nil. *)
Record MetricsOptions := MkMetricsOptions {
  ms_BindAddress : string;
  ms_SecureServing : bool;
  ms_TLSOpts : list (TLSConfig -> TLSConfig);
  ms_AuthFilter : bool;
  ms_Cert : Certificate
}.

Record ManagerOptions := MkManagerOptions {
  mo_Metrics : MetricsOptions;
  mo_Webhook : WebhookOptions;
  mo_HealthProbeBindAddress : string;
  mo_LeaderElection : bool;
  mo_LeaderElectionID : string
}.

(** ** The command line *)

Definition main_flags : list (string * FlagDef) := [
  ("metrics-bind-address", string_flag);
  ("health-probe-bind-address", string_flag);
  ("report-bind-address", string_flag);
  ("worker-image", string_flag);
  ("leader-elect", bool_flag);
  ("metrics-secure", bool_flag);
  ("webhook-cert-path", string_flag);
  ("webhook-cert-name", string_flag);
  ("webhook-cert-key", string_flag);
  ("metrics-cert-path", string_flag);
  ("metrics-cert-name", string_flag);
  ("metrics-cert-key", string_flag);
  ("enable-http2", bool_flag) ].

(** A flag of the program, or one that a library has defined. *)
Definition lookup_flag (library : string -> option FlagDef) (name : string) : option FlagDef :=
  match List.find (fun f => String.eqb (fst f) name) main_flags with
  | Some (_, f) => Some f
  | None => library name
  end.

Definition workerImageDefault (env : string -> string) : string :=
  if negb (String.eqb (env "WORKER_IMAGE") "") then env "WORKER_IMAGE" else DefaultWorkerImage.

(** The TLS options both servers share. *)
Definition tlsOpts (sets : list (string * string)) : list (TLSConfig -> TLSConfig) :=
  if negb (bool_value sets "enable-http2" false) then [disableHTTP2] else [].

(** A certificate watcher is configured when a path is given. *)
Definition certificate (sets : list (string * string)) (path name key : string) : Certificate :=
  let dir := flag_value sets path "" in
  if negb (String.eqb dir "")
  then MkCertificate dir (flag_value sets name "tls.crt") (flag_value sets key "tls.key")
  else MkCertificate "" "" "".

Definition webhookServerOptions (sets : list (string * string)) : WebhookOptions :=
  MkWebhookOptions (tlsOpts sets) (certificate sets "webhook-cert-path" "webhook-cert-name" "webhook-cert-key").

Definition metricsServerOptions (sets : list (string * string)) : MetricsOptions :=
  let secureMetrics := bool_value sets "metrics-secure" true in
  MkMetricsOptions (flag_value sets "metrics-bind-address" "0") secureMetrics (tlsOpts sets)
    (if secureMetrics then true else false)
    (certificate sets "metrics-cert-path" "metrics-cert-name" "metrics-cert-key").

Definition manager_options (sets : list (string * string)) : ManagerOptions :=
  MkManagerOptions (metricsServerOptions sets) (webhookServerOptions sets)
    (flag_value sets "health-probe-bind-address" ":8081") (bool_value sets "leader-elect" false)
    "70b7ef3e.k8s.io".

(** ** The main program *)

(** The calls that set the manager up; each may fail, and the last one runs the
    operator until it is told to stop. *)
Inductive SetupCall :=
| GetConfigOrDie
| NewManager (options : ManagerOptions)
| AddController (r : Registration)
| AddReportServer (addr : string)
| AddHealthzCheck (name : string)
| AddReadyzCheck (name : string)
| StartManager.

Section Main.

Context {lib : K8sLib}.

(** [fails c]: the call returns an error, or, for the config, exits by itself. *)
Variable fails : SetupCall -> bool.

(** The calls one after the other, up to the first that fails. *)
Fixpoint attempt (calls : list SetupCall) : list SetupCall * bool :=
  match calls with
  | [] => ([], true)
  | c :: rest => if fails c then ([c], false) else let '(made, ok) := attempt rest in (c :: made, ok)
  end.

Definition workerImage_flag (env : string -> string) (sets : list (string * string)) : string :=
  flag_value sets "worker-image" (workerImageDefault env).

Definition setup_calls (env : string -> string) (sets : list (string * string)) : list SetupCall := [
  GetConfigOrDie;
  NewManager (manager_options sets);
  AddController (SetupWithManager (workerImage_flag env sets));
  AddController (script_SetupWithManager (workerImage_flag env sets));
  AddReportServer (flag_value sets "report-bind-address" ":9090");
  AddHealthzCheck "healthz";
  AddReadyzCheck "readyz";
  StartManager ].

(** The calls made and the exit code. *)
Definition main (library : string -> option FlagDef) (env : string -> string) (args : list string) :
    list SetupCall * Z :=
  match parse (lookup_flag library) args with
  | HelpRequested => ([], 0)
  | FlagError => ([], 2)
  | Parsed sets =>
      let '(made, ok) := attempt (setup_calls env sets) in
      (made, if ok then 0 else 1)
  end.

End Main.

(** ** Permissions *)

(** A rule of the RBAC markers: group, resource, verbs. *)
Definition Rule : Type := string * string * list string.

Definition all_verbs : list string := ["get"; "list"; "watch"; "create"; "update"; "patch"; "delete"].
Definition read_verbs : list string := ["get"; "list"; "watch"].

(** The markers above the two [Reconcile]s. *)
Definition sysctl_rules : list Rule := [
  ("sysctl.k8s.io", "sysctlprofiles", all_verbs);
  ("sysctl.k8s.io", "sysctlprofiles/status", ["get"; "update"; "patch"]);
  ("sysctl.k8s.io", "sysctlprofiles/finalizers", ["update"]);
  ("apps", "daemonsets", all_verbs);
  ("batch", "cronjobs", all_verbs);
  ("", "configmaps", all_verbs);
  ("", "nodes", read_verbs) ].

Definition script_rules : list Rule := [
  ("sysctl.k8s.io", "scriptprofiles", all_verbs);
  ("sysctl.k8s.io", "scriptprofiles/status", ["get"; "update"; "patch"]);
  ("sysctl.k8s.io", "scriptprofiles/finalizers", ["update"]);
  ("apps", "daemonsets", all_verbs);
  ("", "configmaps", all_verbs);
  ("", "nodes", read_verbs) ].

(** What the API server asks for a call of a client that reads through a cache:
    group, resource and verbs. *)
Definition needs (c : call) : option Rule :=
  let group := "sysctl.k8s.io" in
  match c with
  | GetSysctlProfile _ | ListSysctlProfiles => Some (group, "sysctlprofiles", read_verbs)
  | UpdateSysctlProfile _ => Some (group, "sysctlprofiles", ["update"])
  | StatusUpdateSysctlProfile _ => Some (group, "sysctlprofiles/status", ["update"])
  | GetScriptProfile _ | ListScriptProfiles => Some (group, "scriptprofiles", read_verbs)
  | UpdateScriptProfile _ => Some (group, "scriptprofiles", ["update"])
  | StatusUpdateScriptProfile _ => Some (group, "scriptprofiles/status", ["update"])
  | CreateOrUpdateConfigMap _ _ => Some ("", "configmaps", read_verbs ++ ["create"; "update"])
  | CreateOrUpdateDaemonSet _ _ => Some ("apps", "daemonsets", read_verbs ++ ["create"; "update"])
  | CreateOrUpdateCronJob _ _ => Some ("batch", "cronjobs", read_verbs ++ ["create"; "update"])
  | DeleteConfigMap _ => Some ("", "configmaps", ["delete"])
  | DeleteDaemonSet _ => Some ("apps", "daemonsets", ["delete"])
  | DeleteCronJob _ => Some ("batch", "cronjobs", ["delete"])
  | ListNodes _ => Some ("", "nodes", read_verbs)
  | Now | CounterInc _ _ _ => None
  end.

(** The rules give every verb on the resource. *)
Definition granted (rules : list Rule) (need : Rule) : bool :=
  let '(g, r, verbs) := need in
  forallb (fun v => existsb (fun rule => let '(g', r', vs) := rule in
    String.eqb g g' && String.eqb r r' && existsb (String.eqb v) vs) rules) verbs.

Definition permitted (rules : list Rule) (c : call) : Prop :=
  match needs c with None => True | Some need => granted rules need = true end.

(** The kind of object a call creates or deletes for its profile. *)
Definition owned_kind (c : call) : option ObjectKind :=
  match c with
  | CreateOrUpdateConfigMap _ _ | DeleteConfigMap _ => Some KindConfigMap
  | CreateOrUpdateDaemonSet _ _ | DeleteDaemonSet _ => Some KindDaemonSet
  | CreateOrUpdateCronJob _ _ | DeleteCronJob _ => Some KindCronJob
  | _ => None
  end.

(** ** Lemmas *)

Lemma attempt_all fails calls made : attempt fails calls = (made, true) ->
  made = calls /\ Forall (fun c => fails c = false) calls.
Proof.
  revert made. induction calls as [|c calls IH]; intros made; simpl; [by intros [= <-]|].
  destruct (fails c) eqn:Ec; [done|]. destruct (attempt fails calls) as [m ok] eqn:Ea.
  intros [= <- ->]. destruct (IH m eq_refl) as [-> H]. split; [done|]. by constructor.
Qed.

(** A call is made only after all before it succeeded. *)
Lemma attempt_last fails calls c made ok : attempt fails (calls ++ [c]) = (made, ok) ->
  (made = calls ++ [c] /\ Forall (fun c => fails c = false) calls /\ ok = negb (fails c)) \/
  (incl made calls /\ ok = false).
Proof.
  revert made. induction calls as [|b calls IH]; intros made; simpl.
  - destruct (fails c) eqn:Ec; intros [= <- <-]; left; by repeat split.
  - destruct (fails b) eqn:Eb; [intros [= <- <-]; right; split; [|done]; by intros x [->|[]]; left|].
    destruct (attempt fails (calls ++ [c])) as [m ok'] eqn:Ea. intros [= <- <-].
    destruct (IH m eq_refl) as [(-> & H & ->)|[H ->]]; [left|right].
    + split; [done|]. split; [by constructor|done].
    + split; [|done]. intros x [->|Hx]; [by left|right; by apply H].
Qed.

(** The calls are made in order, up to the first that fails. *)
Lemma attempt_spec fails calls made ok : attempt fails calls = (made, ok) ->
  (exists rest, calls = made ++ rest) /\
  (ok = true /\ made = calls /\ Forall (fun c => fails c = false) calls \/
   ok = false /\ exists before c, made = before ++ [c] /\ Forall (fun c => fails c = false) before /\
     fails c = true).
Proof.
  revert made ok. induction calls as [|c calls IH]; intros made ok; simpl.
  - intros [= <- <-]. split; [by exists []|]. by left.
  - destruct (fails c) eqn:Ec.
    + intros [= <- <-]. split; [by exists calls|]. right. split; [done|]. by exists [], c.
    + destruct (attempt fails calls) as [m ok'] eqn:Ea. intros [= <- <-].
      destruct (IH m ok' eq_refl) as [[rest ->] [(-> & E & H)|(-> & before & d & -> & H & Hd)]].
      * split; [by exists rest|]. left. rewrite <- E. split_and!; [done..|]. constructor; [done|]. by rewrite <- E in H.
      * split; [by exists rest|]. right. split; [done|]. exists (c :: before), d. split_and!; try done. by constructor.
Qed.

Lemma granted_more rules rules' need : granted rules need = true -> granted (rules ++ rules') need = true.
Proof.
  destruct need as [[g r] verbs]. simpl. rewrite !forallb_forall. intros H v Hv.
  rewrite existsb_app. apply orb_true_iff. left. by apply H.
Qed.

Lemma permitted_by (rules : list Rule) c :
  (match needs c with Some need => granted rules need | None => true end) = true -> permitted rules c.
Proof. unfold permitted. by destruct (needs c). Qed.

(** Walks through a program whose calls are permitted each. *)
Ltac all_permitted := each_call; try exact I; try (apply permitted_by; vm_compute; reflexivity).

(** ** Properties *)

Section ManagerProperties.

Context {lib : K8sLib} {laws : K8sLibLaws}.

(** What a TLS server offers, given the options. *)
Definition offered (opts : list (TLSConfig -> TLSConfig)) (c : TLSConfig) : list string :=
  NextProtos (fold_left (fun c f => f c) opts c).

(** C33. The operator starts complete, or not at all. With flags that parse, [main] makes
    these eight calls, in this order, and stops at the first that fails, with exit code
    1: the config of the cluster; the manager, with the probes, the leader election and
    the metrics as the flags say, and HTTP/1.1 only unless --enable-http2; the
    controller of SysctlProfiles, which owns the ConfigMap, the DaemonSet and the
    CronJob, and that of ScriptProfiles, each with its [Reconcile] for the worker image
    of the flag or the environment and with the watch on nodes; the report server on its
    address; the two probes; and the start. The exit code is 0 only if all succeeded. A
    wrong command line ends with 2 and a request for help with 0, before any call. *)
Theorem manager_starts_complete fails library env args made code :
  main fails library env args = (made, code) ->
  match parse (lookup_flag library) args with
  | HelpRequested => made = [] /\ code = 0
  | FlagError => made = [] /\ code = 2
  | Parsed sets =>
      let image := flag_value sets "worker-image"
        (if String.eqb (env "WORKER_IMAGE") "" then DefaultWorkerImage else env "WORKER_IMAGE") in
      exists options,
        mo_HealthProbeBindAddress options = flag_value sets "health-probe-bind-address" ":8081" /\
        mo_LeaderElection options = bool_value sets "leader-elect" false /\
        ms_BindAddress (mo_Metrics options) = flag_value sets "metrics-bind-address" "0" /\
        ms_SecureServing (mo_Metrics options) = bool_value sets "metrics-secure" true /\
        ms_AuthFilter (mo_Metrics options) = bool_value sets "metrics-secure" true /\
        (forall c, offered (ms_TLSOpts (mo_Metrics options)) c =
                     (if bool_value sets "enable-http2" false then NextProtos c else ["http/1.1"]) /\
                   offered (wh_TLSOpts (mo_Webhook options)) c =
                     (if bool_value sets "enable-http2" false then NextProtos c else ["http/1.1"])) /\
        let whole := [
          GetConfigOrDie;
          NewManager options;
          AddController {|
            reg_For := KindSysctlProfile;
            reg_Owns := [KindConfigMap; KindDaemonSet; KindCronJob];
            reg_Watches := KindNode; reg_Predicate := nodeLabelChanged; reg_Map := profilesForNode;
            reg_Named := "sysctlprofile"; reg_Reconcile := Reconcile image |};
          AddController {|
            reg_For := KindScriptProfile;
            reg_Owns := [KindConfigMap; KindDaemonSet];
            reg_Watches := KindNode; reg_Predicate := nodeLabelChanged; reg_Map := script_profilesForNode;
            reg_Named := "scriptprofile"; reg_Reconcile := script_Reconcile image |};
          AddReportServer (flag_value sets "report-bind-address" ":9090");
          AddHealthzCheck "healthz";
          AddReadyzCheck "readyz";
          StartManager ] in
        (exists rest, whole = made ++ rest) /\
        (code = 0 /\ made = whole /\ Forall (fun c => fails c = false) whole \/
         code = 1 /\ exists before c, made = before ++ [c] /\
           Forall (fun c => fails c = false) before /\ fails c = true)
  end.
Proof.
  unfold main. destruct (parse _ args) as [sets| |]; [|by intros [= <- <-]..].
  destruct (attempt fails (setup_calls env sets)) as [m ok] eqn:Ha. intros [= <- <-].
  apply attempt_spec in Ha. exists (manager_options sets). do 3 (split; [done|]). split; [done|]. split.
  { by cbn; destruct (bool_value sets "metrics-secure" true). }
  split. { intros c. cbn. unfold tlsOpts. by destruct (bool_value sets "enable-http2" false). }
  assert (E : workerImage_flag env sets = flag_value sets "worker-image"
    (if String.eqb (env "WORKER_IMAGE") "" then DefaultWorkerImage else env "WORKER_IMAGE")).
  { unfold workerImage_flag, workerImageDefault. by destruct (String.eqb (env "WORKER_IMAGE") ""). }
  cbn zeta. rewrite <- E. destruct Ha as [Hp Hc]. split; [exact Hp|].
  destruct Hc as [(-> & Hm & Hf)|(-> & H)]; [left|right]; by split_and!.
Qed.

(** The options of a manager that is created are those of the command line. *)
Lemma main_options fails library env args made code o :
  main fails library env args = (made, code) -> In (NewManager o) made ->
  exists sets, parse (lookup_flag library) args = Parsed sets /\ o = manager_options sets.
Proof.
  unfold main. destruct (parse _ args) as [sets| |]; [|by intros [= <- <-]..].
  destruct (attempt _ _) as [m ok] eqn:Ha. intros [= <- <-] Hin. exists sets. split; [done|].
  pose proof (attempt_last fails (removelast (setup_calls env sets)) StartManager m ok Ha) as [(-> & _)|[H _]];
    [|apply H in Hin]; simpl in Hin; intuition congruence.
Qed.

(** The servers are hardened by default: without [--enable-http2] both TLS
    servers offer HTTP/1.1 only, whatever their config was; the metrics are behind
    authentication exactly when they are served securely, which without
    [--metrics-secure] they are. *)
Theorem servers_hardened fails library env args made code o sets :
  main fails library env args = (made, code) -> In (NewManager o) made ->
  parse (lookup_flag library) args = Parsed sets ->
  (~ In "enable-http2" (map fst sets) -> forall c,
     offered (ms_TLSOpts (mo_Metrics o)) c = ["http/1.1"] /\
     offered (wh_TLSOpts (mo_Webhook o)) c = ["http/1.1"]) /\
  ms_AuthFilter (mo_Metrics o) = ms_SecureServing (mo_Metrics o) /\
  (~ In "metrics-secure" (map fst sets) -> ms_AuthFilter (mo_Metrics o) = true).
Proof.
  intros Hm Hin Hp. destruct (main_options _ _ _ _ _ _ _ Hm Hin) as (sets' & Hp' & ->).
  rewrite Hp in Hp'. injection Hp' as <-. cbn [manager_options mo_Metrics mo_Webhook ms_TLSOpts
    wh_TLSOpts metricsServerOptions webhookServerOptions ms_AuthFilter ms_SecureServing]. split_and!.
  - intros H c. unfold tlsOpts. by rewrite (bool_value_default _ _ _ H).
  - by destruct (bool_value _ _ _).
  - intros H. by rewrite (bool_value_default _ _ _ H).
Qed.

(** Which image the pods get: that of [--worker-image] given last; without the
    flag that of $WORKER_IMAGE; and the built-in one where that is empty. Both
    controllers get the same. *)
Theorem worker_image_chain env sets :
  let image := workerImage_flag env sets in
  script_workerImage image = workerImage image /\ workerImage image <> "" /\
  (~ In "worker-image" (map fst sets) ->
     workerImage image = if String.eqb (env "WORKER_IMAGE") "" then DefaultWorkerImage else env "WORKER_IMAGE") /\
  (forall before after v, sets = before ++ ("worker-image", v) :: after -> ~ In "worker-image" (map fst after) ->
     workerImage image = if String.eqb v "" then DefaultWorkerImage else v).
Proof.
  intros image. split_and!; [done|..].
  - unfold workerImage. by destruct (String.eqb_spec image "").
  - intros H. unfold image, workerImage_flag. rewrite (flag_value_default _ _ _ H).
    unfold workerImageDefault, workerImage. by destruct (String.eqb (env _) "") eqn:E; cbn [negb]; rewrite ?E.
  - intros before after v -> H. unfold image, workerImage_flag, flag_value. rewrite fold_left_app. cbn [fold_left fst snd].
    change (String.eqb "worker-image" "worker-image") with true. cbn iota.
    change (fold_left _ after v) with (flag_value after "worker-image" v). rewrite (flag_value_default _ _ _ H).
    unfold workerImage. by destruct (String.eqb v "").
Qed.

(** The default endpoint fits: without [--report-bind-address] the report
    server listens on the port that the pods' URL names. *)
Theorem default_endpoint fails library env args made code addr sets :
  main fails library env args = (made, code) -> In (AddReportServer addr) made ->
  parse (lookup_flag library) args = Parsed sets -> ~ In "report-bind-address" (map fst sets) ->
  exists host path, http_target reportURL = Some (host, listen_port addr, path).
Proof.
  unfold main. intros Hm Hin Hp Hno. rewrite Hp in Hm.
  destruct (attempt _ _) as [m ok] eqn:Ha. injection Hm as <- <-.
  assert (addr = ":9090") as ->.
  { rewrite <- (flag_value_default _ _ ":9090" Hno).
    pose proof (attempt_last fails (removelast (setup_calls env sets)) StartManager m ok Ha) as [(-> & _)|[H _]];
      [|apply H in Hin]; simpl in Hin; intuition congruence. }
  eexists _, _. vm_compute. reflexivity.
Qed.

(** ** What the controllers may do *)

(** The rules of the operator's role. *)
Definition operator_rules : list Rule := sysctl_rules ++ script_rules.

Lemma attempts_calls {W : Type} (step : W -> event -> W -> Prop) (P : call -> Prop) fn w t w' e :
  calls_ok P fn -> attempts step fn w t w' e -> Forall (fun ev => P (ev_call ev)) t.
Proof.
  intros Hfn H. induction H as [w t w' r H|w t1 w1 e t2 w' r H _ _ IH]; [by eapply exec_calls|].
  apply Forall_app. split; [by eapply exec_calls|done].
Qed.

Lemma report_permitted {W : Type} (step : W -> event -> W -> Prop) rq w t w' code :
  exec step (handleReport rq) w t w' code -> Forall (fun ev => permitted operator_rules (ev_call ev)) t.
Proof.
  intros H%exec_handleReport. destruct (negb _); [destruct H as (_ & -> & _); constructor|].
  destruct (payload rq) as [r|]; [|destruct H as (_ & -> & _); constructor].
  destruct (incomplete r); [destruct H as (_ & -> & _); constructor|].
  destruct H as (t1 & w1 & e & H1 & H2).
  assert (S1 : Forall (fun ev => permitted operator_rules (ev_call ev)) t1).
  { unfold applyReport, applyScriptReport in H1.
    destruct (String.eqb _ _); apply RetryOnConflict_law in H1; eapply attempts_calls; try exact H1;
      unfold script_record_attempt, record_attempt; all_permitted. }
  destruct e as [err|]; [by destruct H2 as (-> & _)|]. destruct H2 as [_ H2].
  destruct (sr_Success r); [by destruct H2 as [-> _]|]. destruct H2 as [-> _].
  apply Forall_app. split; [done|]. by repeat constructor.
Qed.

(** C32. The permissions suffice: the markers above a controller's [Reconcile] grant
    every verb that its calls and the map function of its watch need, with a client
    that reads through a cache, and together those that the report API needs. *)
Theorem permissions_suffice (WorkerImage : string) k node :
  calls_ok (permitted sysctl_rules) (reg_Reconcile (SetupWithManager WorkerImage) k) /\
  calls_ok (permitted sysctl_rules) (reg_Map (SetupWithManager WorkerImage) node) /\
  calls_ok (permitted script_rules) (reg_Reconcile (script_SetupWithManager WorkerImage) k) /\
  calls_ok (permitted script_rules) (reg_Map (script_SetupWithManager WorkerImage) node) /\
  (forall W (step : W -> event -> W -> Prop) rq w t w' code, exec step (handleReport rq) w t w' code ->
     Forall (fun ev => permitted operator_rules (ev_call ev)) t).
Proof.
  cbn [reg_Reconcile reg_Map SetupWithManager script_SetupWithManager]. split_and!.
  - unfold Reconcile, cleanup, reconcile_live, reconcile_CronJob, ensureCronJob, ensureNoCronJob,
      selectedNodeNames, finish, ensureDaemonSet, deleteDaemonSet. all_permitted.
  - unfold profilesForNode. all_permitted.
  - unfold script_Reconcile, cleanupScript, script_reconcile_live, scriptSelectedNodeNames, script_finish,
      ensureScriptDaemonSet, deleteScriptDaemonSet. all_permitted.
  - unfold script_profilesForNode. all_permitted.
  - intros. by eapply report_permitted.
Qed.

(** Every kind of object a controller creates or deletes is one whose events
    wake it: it is among the owned kinds of its registration. *)
Theorem owned_kinds_watched (WorkerImage : string) k :
  let watched r c := match owned_kind c with Some kind => In kind (reg_Owns r) | None => True end in
  let r := SetupWithManager WorkerImage in
  let r' := script_SetupWithManager WorkerImage in
  calls_ok (watched r) (reg_Reconcile r k) /\ calls_ok (watched r') (reg_Reconcile r' k).
Proof.
  intros watched r r'. unfold r, r'. cbn [reg_Reconcile SetupWithManager script_SetupWithManager].
  assert (Hw : forall reg c, existsb (fun kind => bool_decide (owned_kind c = Some kind)) (reg_Owns reg)
      || negb (bool_decide (is_Some (owned_kind c))) = true -> watched reg c).
  { intros reg c. unfold watched. destruct (owned_kind c) as [kind|]; [|done]. simpl. rewrite orb_false_r.
    intros (kd & Hin & E%bool_decide_eq_true)%existsb_exists. by injection E as ->. }
  split.
  - unfold Reconcile, cleanup, reconcile_live, reconcile_CronJob, ensureCronJob, ensureNoCronJob,
      selectedNodeNames, finish, ensureDaemonSet, deleteDaemonSet.
    each_call; try exact I; by apply Hw.
  - unfold script_Reconcile, cleanupScript, script_reconcile_live, scriptSelectedNodeNames, script_finish,
      ensureScriptDaemonSet, deleteScriptDaemonSet.
    each_call; try exact I; by apply Hw.
Qed.

End ManagerProperties.
