(* ===== verification/Scheme.v ===== *)
(** * The scheme: group and version registration
    ([api/v1alpha1/groupversion_info.go], the [init]s of the types, and that of
    [cmd/main.go]).

    A scheme as the list of the types it knows. The package's [SchemeBuilder] is a
    variable that the [init]s append to; [AddToScheme] is a method value that holds
    the variable's address, so it runs what is registered when it is called, not
    what was when it was bound. *)
From S2P Require Import Prelude GoStrings Manager.

Record GroupVersion := MkGroupVersion { gv_Group : string; gv_Version : string }.
Record GroupVersionKind := MkGVK { gvk_GV : GroupVersion; gvk_Kind : string }.

Definition Scheme : Type := list GroupVersionKind.

(** [runtime.SchemeBuilder]: functions that add to a scheme; none of the
    package's returns an error. *)
Definition SchemeBuilder : Type := list (Scheme -> Scheme).

Definition AddKnownTypes (gv : GroupVersion) (kinds : list string) (s : Scheme) : Scheme :=
  s ++ map (MkGVK gv) kinds.

Definition SchemeGroupVersion : GroupVersion := MkGroupVersion "sysctl.k8s.io" "v1alpha1".

Section Registration.

(** [metav1.AddToGroupVersion] and [clientgoscheme.AddToScheme]. *)
Variable AddToGroupVersion : GroupVersion -> Scheme -> Scheme.
Variable clientgo_AddToScheme : Scheme -> Scheme.

(** The variable when the package's variables have been initialised. *)
Definition NewSchemeBuilder : SchemeBuilder := [AddToGroupVersion SchemeGroupVersion].

(** The [init] functions of the two files of types. *)
Definition init_ScriptProfile (b : SchemeBuilder) : SchemeBuilder :=
  b ++ [AddKnownTypes SchemeGroupVersion ["ScriptProfile"; "ScriptProfileList"]].
Definition init_SysctlProfile (b : SchemeBuilder) : SchemeBuilder :=
  b ++ [AddKnownTypes SchemeGroupVersion ["SysctlProfile"; "SysctlProfileList"]].

(** [SchemeBuilder.AddToScheme]: every registered function, in order. *)
Definition AddToScheme (b : SchemeBuilder) (s : Scheme) : Scheme := fold_left (fun s f => f s) b s.

(** The package is initialised before [main]'s [init], its files in the order of
    their names; then [main] fills its new scheme. *)
Definition main_init : Scheme :=
  let builder := init_SysctlProfile (init_ScriptProfile NewSchemeBuilder) in
  AddToScheme builder (clientgo_AddToScheme []).

End Registration.

(** The type of a kind of object, and that of its lists. *)
Definition kind_gv (k : ObjectKind) : GroupVersion :=
  match k with
  | KindSysctlProfile | KindScriptProfile => SchemeGroupVersion
  | KindConfigMap | KindNode => MkGroupVersion "" "v1"
  | KindDaemonSet => MkGroupVersion "apps" "v1"
  | KindCronJob => MkGroupVersion "batch" "v1"
  end.

Definition kind_name (k : ObjectKind) : string :=
  match k with
  | KindSysctlProfile => "SysctlProfile"
  | KindScriptProfile => "ScriptProfile"
  | KindConfigMap => "ConfigMap"
  | KindDaemonSet => "DaemonSet"
  | KindCronJob => "CronJob"
  | KindNode => "Node"
  end.

Definition known (s : Scheme) (k : ObjectKind) : Prop :=
  In (MkGVK (kind_gv k) (kind_name k)) s /\ In (MkGVK (kind_gv k) (kind_name k +:+ "List")) s.

(** The libraries' part: [AddToGroupVersion] only adds, and the scheme of
    client-go has the built-in kinds. *)
Class SchemeLaws (AddToGroupVersion : GroupVersion -> Scheme -> Scheme) (clientgo_AddToScheme : Scheme -> Scheme) := {
  AddToGroupVersion_adds gv s : incl s (AddToGroupVersion gv s);
  clientgo_known s k : k <> KindSysctlProfile -> k <> KindScriptProfile -> known (clientgo_AddToScheme s) k
}.

Section SchemeProperties.

Context {addgv : GroupVersion -> Scheme -> Scheme} {clientgo : Scheme -> Scheme}
  {laws : SchemeLaws addgv clientgo}.

(** The client knows what it is used for: after [main]'s [init] the scheme has every
    kind that the controllers reconcile, own or watch, and its lists, which the
    caches of the manager read. *)
Theorem kinds_registered (k : ObjectKind) : known (main_init addgv clientgo) k.
Proof.
  assert (Hadd : forall gv kinds s, incl s (AddKnownTypes gv kinds s)) by (intros gv kinds s; apply incl_appl, incl_refl).
  assert (Hall : incl (clientgo []) (main_init addgv clientgo)).
  { unfold main_init. simpl. eapply incl_tran; [|apply Hadd]. eapply incl_tran; [|apply Hadd].
    apply AddToGroupVersion_adds. }
  destruct (decide (k = KindSysctlProfile)) as [->|H1]; [|destruct (decide (k = KindScriptProfile)) as [->|H2]].
  - split; apply in_app_iff; right; simpl; tauto.
  - split; apply in_app_iff; left; apply in_app_iff; right; simpl; tauto.
  - destruct (clientgo_known [] k H1 H2). split; by apply Hall.
Qed.

End SchemeProperties.

(** Libraries that add what they must, and nothing else. *)
Definition client_kinds : list ObjectKind := [KindConfigMap; KindNode; KindDaemonSet; KindCronJob].

Definition client_scheme (s : Scheme) : Scheme :=
  s ++ flat_map (fun k => [MkGVK (kind_gv k) (kind_name k); MkGVK (kind_gv k) (kind_name k +:+ "List")]) client_kinds.

#[export] Instance client_laws : SchemeLaws (fun _ s => s) client_scheme.
Proof.
  split; [intros gv s; apply incl_refl|]. intros s [] H1 H2; try done;
    (split; apply in_app_iff; right; simpl; tauto).
Qed.
