(* ===== verification/ManagerSim.v ===== *)
(** * The operator with the arguments of its manifest: the witnesses of the
    theorems on the main program and on the HTTP server. *)
From S2P Require Import Prelude GoStrings GoFlag GoHttp GoJson JsonText Api Render K8s Rollout SysctlController ScriptController.
From S2P Require Import WorkerMain ReportServer ReportHttp Manager ClusterSim.

(** The arguments of config/manager/manager.yaml, no library flags, an environment
    without variables, a manager whose calls succeed. *)
Definition manifest_args : list string := ["--leader-elect"; "--health-probe-bind-address=:8081"].
Definition manifest_sets : list (string * string) :=
  [("leader-elect", "true"); ("health-probe-bind-address", ":8081")].
Definition no_library : string -> option FlagDef := fun _ => None.
Definition empty_env : string -> string := fun _ => "".
Definition all_well : SetupCall -> bool := fun _ => false.

Lemma manifest_parsed : parse (lookup_flag no_library) manifest_args = Parsed manifest_sets.
Proof. vm_compute. reflexivity. Qed.

Lemma all_well_attempt (calls : list SetupCall) : attempt all_well calls = (calls, true).
Proof. induction calls as [|c calls IH]; [done|]. cbn [attempt all_well]. by rewrite IH. Qed.

Lemma manifest_main :
  main all_well no_library empty_env manifest_args = (setup_calls empty_env manifest_sets, 0).
Proof. unfold main. by rewrite manifest_parsed, all_well_attempt. Qed.

Lemma created_manager : In (NewManager (manager_options manifest_sets)) (setup_calls empty_env manifest_sets).
Proof. right. by left. Qed.

Lemma report_server_added : In (AddReportServer ":9090") (setup_calls empty_env manifest_sets).
Proof. do 4 right. by left. Qed.

(** ** Witnesses *)

(** A manager that cannot bind the address of the report server. *)
Definition port_taken (c : SetupCall) : bool := match c with AddReportServer _ => true | _ => false end.

Lemma port_taken_main :
  main port_taken no_library empty_env manifest_args = (firstn 5 (setup_calls empty_env manifest_sets), 1).
Proof. unfold main. by rewrite manifest_parsed. Qed.

Lemma manager_starts_complete_witness :
  (exists options r1 r2, setup_calls empty_env manifest_sets =
     [GetConfigOrDie; NewManager options; AddController r1; AddController r2; AddReportServer ":9090";
      AddHealthzCheck "healthz"; AddReadyzCheck "readyz"; StartManager] /\ mo_LeaderElection options = true) /\
  exists before, firstn 5 (setup_calls empty_env manifest_sets) = before ++ [AddReportServer ":9090"].
Proof.
  split.
  - pose proof (manager_starts_complete all_well no_library empty_env manifest_args _ _ manifest_main) as H.
    rewrite manifest_parsed in H. destruct H as (options & _ & Hl & _ & _ & _ & _ & _ & [(_ & E & _)|[E _]]).
    + exists options. eexists _, _. split; [exact E|exact Hl].
    + discriminate E.
  - pose proof (manager_starts_complete port_taken no_library empty_env manifest_args _ _ port_taken_main) as H.
    rewrite manifest_parsed in H. destruct H as (options & _ & _ & _ & _ & _ & _ & _ & [(E & _)|(_ & before & c & E & _)]).
    + discriminate E.
    + destruct (app_inj_tail (firstn 4 (setup_calls empty_env manifest_sets)) before (AddReportServer ":9090") c E)
        as [_ <-].
      exists before. exact E.
Defined.

Lemma servers_hardened_witness :
  offered (ms_TLSOpts (mo_Metrics (manager_options manifest_sets))) (MkTLSConfig ["h2"; "http/1.1"]) = ["http/1.1"] /\
  ms_AuthFilter (mo_Metrics (manager_options manifest_sets)) = true.
Proof.
  destruct (servers_hardened all_well no_library empty_env manifest_args _ _ _ manifest_sets manifest_main
    created_manager manifest_parsed) as (H1 & _ & H3).
  split; [apply H1|apply H3]; simpl; intros [H|[H|[]]]; discriminate H.
Defined.

Lemma default_endpoint_witness :
  exists host path, http_target reportURL = Some (host, listen_port ":9090", path).
Proof.
  refine (default_endpoint all_well no_library empty_env manifest_args _ _ ":9090" manifest_sets manifest_main
    report_server_added manifest_parsed _).
  simpl. intros [H|[H|[]]]; discriminate H.
Defined.

Lemma reports_are_routed_witness :
  exists host rq, delivered (report_request (NewReporter reportURL) (MkReport "p" "n" "" "a" "" "" true [] [] "")) =
      Some (host, "9090", rq).
Proof.
  destruct (reports_are_routed reportURL (MkReport "p" "n" "" "a" "" "" true [] [] "") (or_introl eq_refl))
    as (host & rq & H & _).
  exists host, rq. exact H.
Defined.

Lemma start_returns_nil_after_cancel_witness :
  sv_cancelled (MkServer true ShuttingDown (Started None) [ServeHTTP (MkHttpReq "GET" "/healthz" "")]) = true.
Proof.
  refine (proj1 (start_returns_nil_after_cancel
    (MkServer true ShuttingDown (Started None) [ServeHTTP (MkHttpReq "GET" "/healthz" "")]) _ eq_refl)).
  eapply server_reach_step; [|apply server_closed].
  eapply server_reach_step; [|apply (server_shutdown Listening)].
  eapply server_reach_step; [|apply server_cancelled].
  eapply server_reach_step; [|apply server_accepts].
  eapply server_reach_step; [|apply server_listens].
  apply server_reach_start.
Defined.
