(* ===== verification/SystemSim.v ===== *)
(** * Reports, pods and node events on the simulated cluster: the witnesses of
    their theorems. *)
From S2P Require Import Manager.
From S2P Require Import Prelude GoStrings JsonText GoJson Api Samples Render WorkerConfig WorkerHost WorkerApply WorkerSim WorkerMain.
From S2P Require Import K8s ApiServer Rollout SysctlController SysctlRefine ScriptController ScriptRefine ClusterSim ControllerSim.
From S2P Require Import ReportServer ReportRefine Profile BothKinds ReportStore System Convergence NodeEvents Termination.

(** ** Requests *)

Definition one_result (ok : bool) : Result :=
  if ok then MkResult ["net.core.somaxconn"] [] [] else MkResult [] ["net.core.somaxconn"] [].

Definition report_of (node : string) (ok : bool) : Report := applier_report (sim_profile [] None) node (one_result ok).

Definition post (rep : Report) : Request := MkRequest "POST" (Marshal rep).

Definition script_report : Report :=
  MkReport "node-bootstrap" "kube-system" "ScriptProfile" "node-a" "" bootstrap_hash true ["disable-thp"] [] "ran 1 ok, 0 failed, 0 drifted".

(** The profile with the report of one node, as in [rolling]. *)
Definition half_applied : SysctlProfile := sim_profile [sim_applied small_hash "node-a"] None.

Definition tuned (l : gmap string string) : bool :=
  bool_decide ({["sysctlstack" := "tuned"]} ⊆ l) && forallb (fun r => requirement_holds r l) [].

Definition within_limit (rep : Report) : bool := Z.of_nat (String.length (Marshal rep)) <=? maxReportBytes.

Lemma payload_post (rep : Report) : within_limit rep = true -> payload (post rep) = Some (received rep).
Proof.
  intros H. transitivity (if within_limit rep then Some (received rep) else None); [|by rewrite H].
  exact (decode_Marshal rep).
Qed.

Lemma node_b_within (ok : bool) : within_limit (report_of "node-b" ok) = true.
Proof. destruct ok; vm_compute; reflexivity. Qed.

Lemma script_within : within_limit script_report = true.
Proof. vm_compute. reflexivity. Qed.

Lemma last_within : within_limit (applier_report half_applied "node-b" (one_result true)) = true.
Proof. vm_compute. reflexivity. Qed.

(** ** Witnesses *)

(** A GET; a report without a node; and one with a field the server does not know. *)
Definition no_node : Request := MkRequest "POST" (encode (JObject
  [("profile", JString "small"); ("namespace", JString "kube-system"); ("success", JBool true)])).
Definition unknown_field : Request := MkRequest "POST" (encode (JObject
  [("profile", JString "small"); ("namespace", JString "kube-system"); ("node", JString "node-a");
   ("sucess", JBool true)])).

Lemma handleReport_codes_witness :
  (result (handleReport (MkRequest "GET" "")) rolling = 405 /\
   trace (handleReport (MkRequest "GET" "")) rolling = []) /\
  Forall (fun rq => result (handleReport rq) rolling = 400 /\ final (handleReport rq) rolling = rolling)
    [no_node; unknown_field].
Proof.
  split.
  - destruct (handleReport_codes server_step (MkRequest "GET" "") rolling _ _ _ (exec_run _ _))
      as (H405 & _ & _ & Hnone).
    assert (E : result (handleReport (MkRequest "GET" "")) rolling = StatusMethodNotAllowed)
      by (apply H405; discriminate).
    split; [exact E|]. apply Hnone. left. exact E.
  - apply List.Forall_forall. intros rq Hrq.
    destruct (handleReport_codes server_step rq rolling _ _ _ (exec_run _ _)) as (_ & H400 & _ & Hnone).
    assert (E : result (handleReport rq) rolling = StatusBadRequest).
    { apply H400. destruct Hrq as [<-|[<-|[]]]; (split; [reflexivity|vm_compute; reflexivity]). }
    split; [exact E|]. apply Hnone. right. exact E.
Defined.

Lemma failures_counted_once_witness :
  exists t0 ev, status_written ev /\ List.filter is_inc t0 = [] /\
    trace (handleReport (post (report_of "node-b" false))) rolling =
      t0 ++ [ev; Ev (CounterInc "small" "kube-system" "node-b") tt].
Proof.
  destruct (failures_counted_once server_step (post (report_of "node-b" false)) rolling _ _ _
    (received (report_of "node-b" false)) (exec_run _ _) (payload_post _ (node_b_within false))) as [[H|H] _].
  - exfalso. apply (f_equal (@length event)) in H. vm_compute in H. discriminate H.
  - destruct H as (t0 & ev & _ & Hev & Hf & Ht & _). exists t0, ev. split; [exact Hev|]. split; [exact Hf|exact Ht].
Defined.

Lemma report_recorded_witness :
  report_stored (received (report_of "node-b" true)) half_applied (api_view rolling)
    (api_view (final (handleReport (post (report_of "node-b" true))) rolling)).
Proof.
  assert (E : exec server_step (handleReport (post (report_of "node-b" true))) rolling
    (trace (handleReport (post (report_of "node-b" true))) rolling)
    (final (handleReport (post (report_of "node-b" true))) rolling) StatusOK)
    by (apply exec_result; vm_compute; reflexivity).
  refine (report_recorded (W := MemCluster) (server := MemApi) (post (report_of "node-b" true))
    _ half_applied rolling _ _ E (payload_post _ (node_b_within true)) _ _).
  - vm_compute. discriminate.
  - vm_compute. reflexivity.
Defined.

Lemma script_report_recorded_witness :
  script_report_stored (received script_report) (sim_script [sim_applied bootstrap_hash "node-b"] None)
    (api_view rolling) (api_view (final (handleReport (post script_report)) rolling)).
Proof.
  assert (E : exec server_step (handleReport (post script_report)) rolling
    (trace (handleReport (post script_report)) rolling)
    (final (handleReport (post script_report)) rolling) StatusOK)
    by (apply exec_result; vm_compute; reflexivity).
  refine (script_report_recorded (W := MemCluster) (server := MemApi) (post script_report)
    _ (sim_script [sim_applied bootstrap_hash "node-b"] None) rolling _ _ E (payload_post _ script_within) _ _).
  - reflexivity.
  - vm_compute. reflexivity.
Defined.

Lemma applier_pod_protocol_witness :
  let host := MemHost "/proc/sys" in
  exists res h', main (pod_env "node-a" (applier "" small_profile)) no_flags mounted_node =
    (AwaitSignal, fst (Send h' (NewReporter reportURL) (applier_report small_profile "node-a" res))).
Proof.
  intros host.
  pose proof (applier_pod_protocol "" small_profile "node-a" mounted_node) as H.
  specialize (H ltac:(vm_compute; reflexivity)). cbv zeta in H.
  destruct (Apply _ _ _ _) as [res h']. exists res, h'. exact H.
Defined.

(** The report of the node that is missing, and what follows. *)
Definition last_report : Request := post (applier_report half_applied "node-b" (one_result true)).
Definition after_report : MemCluster := final (handleReport last_report) rolling.

Lemma last_report_accepted :
  exec server_step (handleReport last_report) rolling (trace (handleReport last_report) rolling)
    after_report StatusOK.
Proof. refine (exec_result (handleReport last_report) rolling StatusOK _). vm_compute. reflexivity. Qed.

Lemma tuned_selects (w : MemCluster) n :
  selects tuned (api_view w) n -> cl_Nodes (api_view w) = sim_nodes ->
  node_Name n = "node-a" \/ node_Name n = "node-b".
Proof.
  intros [Hin Ht] E. rewrite E in Hin. destruct Hin as [<-|[<-|[<-|[]]]]; [by left|by right|].
  vm_compute in Ht. discriminate Ht.
Qed.

Lemma half_applied_node_a : applied_at (st_NodeStatuses (sp_Status half_applied)) "node-a"
  (hashContent (renderSysctlConf half_applied)).
Proof. exists (sim_applied small_hash "node-a"). split; [by left|done]. Qed.

Lemma last_report_tears_down_witness :
  cl_DaemonSets (api_view (final (Reconcile "" small_key) after_report)) !! MkKey "kube-system" "small-sysctl" = None.
Proof.
  assert (E : exec server_step (Reconcile "" small_key) after_report (trace (Reconcile "" small_key) after_report)
    (final (Reconcile "" small_key) after_report) None) by (apply exec_result; vm_compute; reflexivity).
  refine (proj1 (last_report_tears_down (W := MemCluster) (server := MemApi) "" small_key half_applied tuned
    (received (applier_report half_applied "node-b" (one_result true))) last_report rolling _ after_report _ _
    _ _ _ _ _ _ _ _ _ _ _ _ last_report_accepted E)).
  - reflexivity.
  - reflexivity.
  - reflexivity.
  - left. reflexivity.
  - reflexivity.
  - exact (payload_post _ last_within).
  - vm_compute. reflexivity.
  - vm_compute. discriminate.
  - reflexivity.
  - vm_compute. reflexivity.
  - exists (MkNode "node-a" (Some {["sysctlstack" := "tuned"]})). split; [by left|]. vm_compute. reflexivity.
  - intros n Hn Hne. destruct (tuned_selects rolling n Hn eq_refl) as [->|Hb].
    + apply half_applied_node_a.
    + exfalso. apply Hne. rewrite Hb. vm_compute. reflexivity.
Defined.

(** Node-b fails first, and the profile is reconciled; then it succeeds. *)
Definition first_report : Request := post (applier_report half_applied "node-b" (one_result false)).
Definition failed_world : MemCluster := final (handleReport first_report) rolling.
Definition waiting_world : MemCluster := final (Reconcile "" small_key) failed_world.
Definition told_world : MemCluster := final (handleReport last_report) waiting_world.

Lemma first_within : within_limit (applier_report half_applied "node-b" (one_result false)) = true.
Proof. vm_compute. reflexivity. Qed.

Lemma half_applied_names : List.NoDup (map ns_NodeName (st_NodeStatuses (sp_Status half_applied))).
Proof. constructor; [intros []|constructor]. Qed.

Lemma half_applied_live : live (PSysctl half_applied).
Proof. split; [intros H; discriminate H|left; reflexivity]. Qed.

Lemma failed_rollout :
  rollout_of (server := MemApi) "" (PSysctl half_applied)
    [received (applier_report half_applied "node-b" (one_result false))] failed_world.
Proof.
  apply (rollout_reports (server := MemApi) "" (PSysctl half_applied) [] rolling first_report _
    (trace (handleReport first_report) rolling)).
  - apply rollout_begins. reflexivity.
  - exact (payload_post _ first_within).
  - vm_compute. reflexivity.
  - refine (exec_result (handleReport first_report) rolling StatusOK _). vm_compute. reflexivity.
Qed.

Lemma failed_reconciles :
  exec server_step (Reconcile "" small_key) failed_world (trace (Reconcile "" small_key) failed_world) waiting_world None.
Proof. refine (exec_result (Reconcile "" small_key) failed_world None _). vm_compute. reflexivity. Qed.

Lemma told_rollout :
  rollout_of (server := MemApi) "" (PSysctl half_applied)
    [received (applier_report half_applied "node-b" (one_result true));
     received (applier_report half_applied "node-b" (one_result false))] told_world.
Proof.
  apply (rollout_reports (server := MemApi) "" (PSysctl half_applied) _ waiting_world last_report _
    (trace (handleReport last_report) waiting_world)).
  - exact (rollout_reconciles (server := MemApi) "" (PSysctl half_applied) _ _ _ _ failed_rollout failed_reconciles).
  - exact (payload_post _ last_within).
  - vm_compute. reflexivity.
  - refine (exec_result (handleReport last_report) waiting_world StatusOK _). vm_compute. reflexivity.
Qed.

(** The script's node-a reports, when node-b had run it before the history began. *)
Definition half_run : profile := PScript (sim_script [sim_applied bootstrap_hash "node-b"] None).
Definition ran_world : MemCluster := final (handleReport (post script_report)) rolling.

Lemma script_report_sent : script_report = pod_report half_run "node-a" (MkResult ["disable-thp"] [] []).
Proof. vm_compute. reflexivity. Qed.

Lemma script_report_accepted :
  exec server_step (handleReport (post script_report)) rolling (trace (handleReport (post script_report)) rolling)
    ran_world StatusOK.
Proof. refine (exec_result (handleReport (post script_report)) rolling StatusOK _). vm_compute. reflexivity. Qed.

Lemma script_pod_accepted :
  exec server_step (handleReport (MkRequest "POST" (Marshal (pod_report half_run "node-a"
    (MkResult ["disable-thp"] [] []))))) rolling (trace (handleReport (post script_report)) rolling) ran_world StatusOK.
Proof. rewrite <- script_report_sent. exact script_report_accepted. Qed.

Lemma half_run_live : live half_run.
Proof. split; [intros H; discriminate H|left; reflexivity]. Qed.

Lemma ran_rollout : rollout_of (server := MemApi) "" half_run [received script_report] ran_world.
Proof.
  apply (rollout_reports (server := MemApi) "" half_run [] rolling (post script_report) _
    (trace (handleReport (post script_report)) rolling)).
  - apply rollout_begins. reflexivity.
  - exact (payload_post _ script_within).
  - reflexivity.
  - exact script_report_accepted.
Qed.

Lemma success_reaches_status_witness :
  (exists p', stored (api_view after_report) (pr_key (PSysctl half_applied)) = Some p' /\
     applied_at (statuses p') "node-b" (pr_hash (PSysctl half_applied))) /\
  exists p', stored (api_view ran_world) (pr_key half_run) = Some p' /\
    applied_at (statuses p') "node-a" (pr_hash half_run).
Proof.
  split.
  - destruct (success_reaches_status (W := MemCluster) (server := MemApi) (PSysctl half_applied) "node-b"
      (one_result true) rolling _ after_report last_report_accepted) as (p' & Hp & _ & Ha & _).
    + reflexivity.
    + repeat split.
    + reflexivity.
    + exists p'. split; [exact Hp|exact Ha].
  - destruct (success_reaches_status (W := MemCluster) (server := MemApi) half_run "node-a"
      (MkResult ["disable-thp"] [] []) rolling _ ran_world script_pod_accepted) as (p' & Hp & _ & Ha & _).
    + reflexivity.
    + repeat split.
    + reflexivity.
    + exists p'. split; [exact Hp|exact Ha].
Defined.

Lemma profile_report_recorded_witness :
  (exists now new, pr_status new =
     pr_status (pr_recorded (PSysctl half_applied) (received (report_of "node-b" true)) now) /\
   api_view (final (handleReport (post (report_of "node-b" true))) rolling) =
     set_stored (KSysctl, small_key) (Some new) (api_view rolling)) /\
  exists now new, pr_status new = pr_status (pr_recorded half_run (received script_report) now) /\
   api_view ran_world = set_stored (KScript, bootstrap_key) (Some new) (api_view rolling).
Proof.
  split.
  - assert (E : exec server_step (handleReport (post (report_of "node-b" true))) rolling
      (trace (handleReport (post (report_of "node-b" true))) rolling)
      (final (handleReport (post (report_of "node-b" true))) rolling) StatusOK)
      by (apply exec_result; vm_compute; reflexivity).
    destruct (profile_report_recorded (W := MemCluster) (server := MemApi) _ _ (PSysctl half_applied) rolling _ _ E
      (payload_post _ (node_b_within true)) ltac:(vm_compute; reflexivity)) as (now & new & _ & Hst & V).
    exists now, new. split; [exact Hst|exact V].
  - destruct (profile_report_recorded (W := MemCluster) (server := MemApi) _ _ half_run rolling _ _ script_report_accepted
      (payload_post _ script_within) ltac:(vm_compute; reflexivity)) as (now & new & _ & Hst & V).
    exists now, new. split; [exact Hst|exact V].
Defined.

Lemma rollout_converges_witness :
  (exists ds, cl_DaemonSets (api_view waiting_world) !! MkKey "kube-system" "small-sysctl" = Some ds /\
     desired_DaemonSet "" half_applied ds) /\
  cl_DaemonSets (api_view (final (Reconcile "" small_key) told_world)) !! MkKey "kube-system" "small-sysctl" = None /\
  cl_DaemonSets (api_view (final (script_Reconcile "" bootstrap_key) ran_world)) !!
    MkKey "kube-system" "node-bootstrap-script" = None.
Proof.
  assert (E : exec server_step (Reconcile "" small_key) told_world (trace (Reconcile "" small_key) told_world)
    (final (Reconcile "" small_key) told_world) None) by (apply exec_result; vm_compute; reflexivity).
  assert (E3 : exec server_step (script_Reconcile "" bootstrap_key) ran_world
    (trace (script_Reconcile "" bootstrap_key) ran_world)
    (final (script_Reconcile "" bootstrap_key) ran_world) None) by (apply exec_result; vm_compute; reflexivity).
  assert (Hn3 : cl_Nodes (api_view ran_world) = sim_nodes) by (vm_compute; reflexivity).
  assert (Hn1 : cl_Nodes (api_view failed_world) = sim_nodes) by (vm_compute; reflexivity).
  assert (Hn2 : cl_Nodes (api_view told_world) = sim_nodes) by (vm_compute; reflexivity).
  split; [|split].
  - refine (proj2 (rollout_converges (W := MemCluster) (server := MemApi) "" (PSysctl half_applied) tuned
      _ _ _ _ failed_rollout half_applied_live eq_refl half_applied_names failed_reconciles) _).
    intros [_ Hall]. destruct (Hall (MkNode "node-b" (Some {["sysctlstack" := "tuned"; "zone" := "1"]}))) as [H _].
    + split; [rewrite Hn1; right; left; reflexivity|vm_compute; reflexivity].
    + discriminate H.
  - refine (proj1 (proj1 (rollout_converges (W := MemCluster) (server := MemApi) "" (PSysctl half_applied) tuned
      _ _ _ _ told_rollout half_applied_live eq_refl half_applied_names E) _)).
    split.
    + exists (MkNode "node-a" (Some {["sysctlstack" := "tuned"]})).
      split; [rewrite Hn2; left; reflexivity|vm_compute; reflexivity].
    + intros n Hn. destruct (tuned_selects told_world n Hn Hn2) as [->| ->]; [apply half_applied_node_a|].
      split; [reflexivity|vm_compute; reflexivity].
  - refine (proj1 (proj1 (rollout_converges (W := MemCluster) (server := MemApi) "" half_run tuned
      _ _ _ _ ran_rollout half_run_live eq_refl _ E3) _)).
    + constructor; [intros []|constructor].
    + split.
      * exists (MkNode "node-a" (Some {["sysctlstack" := "tuned"]})).
        split; [rewrite Hn3; left; reflexivity|vm_compute; reflexivity].
      * intros n Hn. destruct (tuned_selects ran_world n Hn Hn3) as [->| ->].
        -- split; [reflexivity|vm_compute; reflexivity].
        -- exists (sim_applied bootstrap_hash "node-b"). split; [left; reflexivity|]. split; [reflexivity|]. split; reflexivity.
Defined.

(** [small] has been rolled out on node-a and node-b; a third node joins. *)
Definition node_d : Node := MkNode "node-d" (Some {["sysctlstack" := "tuned"]}).

Definition joined : MemCluster :=
  let c := mc_Cluster rolled_out1 in
  MkMemCluster (MkCluster (cl_SysctlProfiles c) (cl_ScriptProfiles c) (cl_ConfigMaps c) (cl_DaemonSets c)
    (cl_CronJobs c) (cl_Nodes c ++ [node_d])) (mc_Clock rolled_out1) (mc_Counter rolled_out1).

Definition rolled_out_profile : SysctlProfile :=
  default small_profile (cl_SysctlProfiles (mc_Cluster joined) !! small_key).

Lemma joined_node_rolls_out_witness :
  exists ds, cl_DaemonSets (api_view (final (Reconcile "" small_key) joined)) !!
      MkKey "kube-system" "small-sysctl" = Some ds /\ desired_DaemonSet "" rolled_out_profile ds.
Proof.
  assert (E : exec server_step (Reconcile "" small_key) joined (trace (Reconcile "" small_key) joined)
    (final (Reconcile "" small_key) joined) None) by (apply exec_result; vm_compute; reflexivity).
  assert (Hn : map ns_NodeName (st_NodeStatuses (sp_Status rolled_out_profile)) = ["node-a"; "node-b"])
    by (vm_compute; reflexivity).
  assert (Hf : existsb (String.eqb finalizer) (om_Finalizers (sp_Meta rolled_out_profile)) = true)
    by (vm_compute; reflexivity).
  assert (Hnodes : cl_Nodes (api_view joined) = sim_nodes ++ [node_d]) by (vm_compute; reflexivity).
  assert (Hspec : sp_Spec rolled_out_profile = sp_Spec small_profile) by (vm_compute; reflexivity).
  assert (Hl : cl_SysctlProfiles (mc_Cluster joined) !! small_key = Some rolled_out_profile).
  { assert (Hs : is_Some (cl_SysctlProfiles (mc_Cluster joined) !! small_key))
      by (apply (bool_decide_unpack _); vm_compute; exact I).
    destruct Hs as [q Hq]. unfold rolled_out_profile. rewrite Hq. reflexivity. }
  refine (joined_node_rolls_out (W := MemCluster) (server := MemApi) "" small_key rolled_out_profile tuned node_d
    joined _ _ Hl _ _ _ _ _ E).
  - vm_compute. reflexivity.
  - exact (proj1 (existsb_eqb finalizer (om_Finalizers (sp_Meta rolled_out_profile))) Hf).
  - rewrite Hspec. reflexivity.
  - split; [|vm_compute; reflexivity]. rewrite Hnodes. right. right. right. left. reflexivity.
  - intros (ns & Hin & Hname & _). apply (in_map ns_NodeName) in Hin. rewrite Hn, Hname in Hin.
    destruct Hin as [Hin|[Hin|[]]]; discriminate Hin.
Defined.

Lemma drift_checker_config_missing_witness :
  exists cj v, cl_CronJobs (api_view (final (Reconcile "" small_key) rolling)) !!
      MkKey "kube-system" "small-drift" = Some cj /\
    In v (pod_Volumes (tpl_Spec (cj_Template cj))) /\ vol_Source v = FromConfigMap "small-drift" /\
    cl_ConfigMaps (api_view (final (Reconcile "" small_key) rolling)) !! MkKey "kube-system" "small-drift" = None.
Proof.
  assert (E : exec server_step (Reconcile "" small_key) rolling (trace (Reconcile "" small_key) rolling)
    (final (Reconcile "" small_key) rolling) None) by (apply exec_result; vm_compute; reflexivity).
  refine (drift_checker_config_missing (W := MemCluster) (server := MemApi) "" small_key half_applied rolling
    _ _ _ _ _ _ _ E).
  - reflexivity.
  - reflexivity.
  - left. reflexivity.
  - discriminate.
  - reflexivity.
Defined.

Definition relabelled : Node := MkNode "node-c" (Some {["sysctlstack" := "tuned"]}).

Lemma label_change_noticed_witness :
  (nodeLabelChanged (UpdateEvent (Some (MkNode "node-c" None)) (Some relabelled)) = true /\
   In (meta_key (sp_Meta half_applied))
     (result (profilesForNode (MkNode "node-c" None)) rolling ++ result (profilesForNode relabelled) rolling)) /\
  In (meta_key (scp_Meta bootstrap_profile)) ([] ++ [meta_key (scp_Meta bootstrap_profile)]).
Proof.
  split.
  - refine (proj1 (label_change_noticed server_step (MkNode "node-c" None) relabelled) half_applied
      [half_applied] rolling rolling [] _ [half_applied] rolling [] _ _ _ _ _ _).
    + vm_compute. discriminate.
    + left. reflexivity.
    + left. reflexivity.
    + apply (exec_run (profilesForNode (MkNode "node-c" None)) rolling).
    + apply (exec_run (profilesForNode relabelled) rolling).
  - refine (proj2 (proj1 (proj2 (label_change_noticed (fun (_ : unit) _ _ => True) (MkNode "node-c" None) relabelled))
      bootstrap_profile [bootstrap_profile] tt tt [] [] [bootstrap_profile] tt [] _ _ _ _ _ _)).
    + vm_compute. discriminate.
    + left. reflexivity.
    + left. reflexivity.
    + exists (inr [bootstrap_profile]), tt, []. split; [reflexivity|]. split; [exact I|].
      split; [reflexivity|]. split; [reflexivity|]. vm_compute. reflexivity.
    + exists (inr [bootstrap_profile]), tt, []. split; [reflexivity|]. split; [exact I|].
      split; [reflexivity|]. split; [reflexivity|]. vm_compute. reflexivity.
Defined.

(** A node that mounts the bootstrap profile's scripts. *)
Definition scripts_node : Mem := MkMem {[mounted_scripts := renderScripts bootstrap_profile]} ∅ [].

Lemma runner_pod_protocol_witness :
  let host := MemHost "/proc/sys" in
  exists res h', main (pod_env "node-a" (runner "" bootstrap_profile)) no_flags scripts_node =
    (AwaitSignal, fst (Send h' (NewReporter scriptReportURL) (runner_report bootstrap_profile "node-a" res))).
Proof.
  intros host.
  pose proof (runner_pod_protocol "" bootstrap_profile "node-a" scripts_node) as H.
  specialize (H ltac:(vm_compute; reflexivity)). cbv zeta in H.
  destruct (RunScripts _ _) as [res h']. exists res, h'. exact H.
Defined.

(** The example server always answers; this reconcile sends all nine. *)
Lemma handlers_end_witness :
  ends_within server_step 9 (Reconcile "" small_key) /\
  list_sum (map (fun ev => api_requests (ev_call ev)) (trace (Reconcile "" small_key) rolling)) = 9%nat.
Proof.
  split; [|vm_compute; reflexivity].
  apply (handlers_end "" (W := MemCluster) server_step). intros w c. exists (fst (serve c w)), (snd (serve c w)).
  apply surjective_pairing.
Defined.

(** The deployed role is allowed what a reconcile and the handling of a failure
    report did. *)
Lemma permissions_suffice_witness :
  Forall (fun ev => permitted sysctl_rules (ev_call ev)) (trace (Reconcile "" small_key) rolling) /\
  Forall (fun ev => permitted operator_rules (ev_call ev))
    (trace (handleReport (post (report_of "node-b" false))) rolling).
Proof.
  destruct (permissions_suffice "" small_key (MkNode "node-b" None)) as (H & _ & _ & _ & Hr). split.
  - eapply exec_calls; [exact H|]. apply exec_run.
  - eapply Hr. apply exec_run.
Defined.
