(* ===== verification/Interleaving.v ===== *)
(** * Concurrent handlers.

    The invariant of the system of [Concurrent], and what it gives: how profiles of
    either kind change while handlers, users and failures interleave. *)
From S2P Require Import Prelude GoStrings GoJson Api Render K8s ApiServer Rollout SysctlController ScriptController.
From S2P Require Import ReportServer ReportRefine Profile Concurrent HandlerSends.

(** ** The invariant *)

(** The store holds what it is known to hold, at its key; a version identifies a
    value; and the threads keep to what they may send. *)
Record invariant {lib : K8sLib} (s : Sys) : Prop := {
  inv_held : forall k p, sys_store s !! k = Some p -> In p (g_held (sys_ghost s)) /\ pr_key p = k;
  inv_versions : forall p q, In p (g_held (sys_ghost s)) -> In q (g_held (sys_ghost s)) ->
    version p = version q -> p = q;
  inv_threads : Forall (safe (sys_ghost s)) (sys_threads s)
}.

Section Invariant.

Context {lib : K8sLib} {laws : K8sLibLaws}.
Variable image : string.

(** ** Lemmas: answers *)

Lemma stored_meta_key (a b : ObjectMeta) : stored_meta a b -> meta_key b = meta_key a.
Proof. intros (Hn & Hs & _). unfold meta_key. by rewrite Hn, Hs. Qed.

(** A write leaves an object of the same key. *)
Lemma written_key q new : stored_meta (pr_meta q) (pr_meta new) -> pr_spec new = pr_spec q -> pr_key new = pr_key q.
Proof.
  intros Hm Hs. unfold pr_key. by rewrite (same_spec_kind _ _ Hs), (stored_meta_key _ _ Hm).
Qed.

Lemma status_key old new :
  stored_status_meta (pr_meta old) (pr_meta new) -> pr_spec new = pr_spec old -> pr_key new = pr_key old.
Proof.
  intros Hm Hs. unfold pr_key. by rewrite (same_spec_kind _ _ Hs), (stored_status_meta_key _ _ Hm).
Qed.

Lemma hold_versions g new :
  fresh g new -> (forall p q, In p (g_held g) -> In q (g_held g) -> version p = version q -> p = q) ->
  forall p q, In p (g_held (hold new g)) -> In q (g_held (hold new g)) -> version p = version q -> p = q.
Proof.
  intros Hf Hver p q [<-|Hp] [<-|Hq] Hv; [done| | |by apply Hver].
  - by destruct (Hf q Hq).
  - by destruct (Hf p Hp).
Qed.

Lemma hold_store (store : Store) g k new :
  pr_key new = k -> (forall k p, store !! k = Some p -> In p (g_held g) /\ pr_key p = k) ->
  forall k' p, <[k := new]> store !! k' = Some p -> In p (g_held (hold new g)) /\ pr_key p = k'.
Proof.
  intros Hk Hstore k' p Hl. apply lookup_insert_Some in Hl as [[<- <-]|[_ Hl]]; [by split; [left|]|].
  apply Hstore in Hl as [Hl ?]. by split; [right|].
Qed.

Lemma delete_store (store : Store) g k :
  (forall k p, store !! k = Some p -> In p (g_held g) /\ pr_key p = k) ->
  forall k' p, delete k store !! k' = Some p -> In p (g_held g) /\ pr_key p = k'.
Proof. intros Hstore k' p Hl. apply lookup_delete_Some in Hl as [_ Hl]. by apply Hstore. Qed.

Lemma uninformative_ok g ev : uninformative ev -> got_ok g ev.
Proof. destruct ev as [[] r]; try done; by destruct r. Qed.

(** What an answer does to the store and the history. *)
Lemma answer_keeps store g ev store' g' :
  answer store g ev store' g' ->
  (forall k p, store !! k = Some p -> In p (g_held g) /\ pr_key p = k) ->
  (forall p q, In p (g_held g) -> In q (g_held g) -> version p = version q -> p = q) ->
  grows g g' /\ got_ok g' ev /\
  (forall k p, store' !! k = Some p -> In p (g_held g') /\ pr_key p = k) /\
  (forall p q, In p (g_held g') -> In q (g_held g') -> version p = version q -> p = q).
Proof.
  intros H Hstore Hver.
  destruct H as [p Hp|q old new e Hl Hv Hm Hs Hst Hf|q old e Hl Hv Hd Hfs|q old new e Hl Hv Hm Hs Hst Hf|sel nodes|ev Hun].
  - split; [apply grows_refl|]. split; [by destruct p|done].
  - split; [apply grows_hold|]. split; [by destruct q|]. split; [|by apply hold_versions].
    apply hold_store; [by apply written_key|done].
  - split; [apply grows_refl|]. split; [by destruct q|]. split; [by apply delete_store|done].
  - split; [apply grows_hold|]. split; [by destruct q|]. split; [|by apply hold_versions].
    apply hold_store; [|done]. apply Hstore in Hl as [_ Hk]. rewrite <- Hk. by apply status_key.
  - split; [apply grows_listed|]. split; [by left|done].
  - split; [apply grows_refl|]. split; [by apply uninformative_ok|done].
Qed.

(** ** Lemmas: steps *)

Lemma handler_invariant s s' : invariant s -> handler_step image s s' -> invariant s'.
Proof.
  intros [Hstore Hver Hthreads] H.
  destruct H as [store g ts k|store g ts k|store g ts rq|store g ts1 c k ts2 r store' g' Hans|store g ts1 m ts2];
    simpl in *.
  - split; simpl; [done..|]. constructor; [|done]. apply safe_thread, reconcile_sends.
  - split; simpl; [done..|]. constructor; [|done]. apply safe_thread, script_reconcile_sends.
  - split; simpl; [done..|]. constructor.
    + apply safe_thread. intros t g' a. apply handle_sends; [exact image|by left].
    + eapply Forall_impl; [|exact Hthreads]. intros m. apply safe_grows, grows_receive.
  - apply Forall_app in Hthreads as [H1 H2]. inversion_clear H2 as [|? ? Hc H3].
    destruct (answer_keeps _ _ _ _ _ Hans Hstore Hver) as (Hg & Hgot & Hs & Hv).
    split; simpl; [done..|]. apply Forall_app. split; [|constructor].
    + eapply Forall_impl; [|exact H1]. intros m. by apply safe_grows.
    + by eapply safe_next.
    + eapply Forall_impl; [|exact H3]. intros m. by apply safe_grows.
  - apply Forall_app in Hthreads as [H1 H2]. inversion_clear H2.
    split; simpl; [done..|]. by apply Forall_app.
Qed.

Lemma user_invariant s s' : invariant s -> user_step s s' -> invariant s'.
Proof.
  intros [Hstore Hver Hthreads] H. destruct H as [store g ts new Hf _ _|store g ts k]; simpl in *.
  - split; simpl; [by apply hold_store|by apply hold_versions|].
    eapply Forall_impl; [|exact Hthreads]. intros m. apply safe_grows, grows_hold.
  - split; simpl; [by apply delete_store|done..].
Qed.

Lemma reachable_invariant s : reachable image s -> invariant s.
Proof.
  induction 1 as [|s s' _ IH [H|H]]; [|by eapply handler_invariant|by eapply user_invariant].
  split; simpl; [|done|constructor]. intros k p Hl. by rewrite lookup_empty in Hl.
Qed.

(** A thread's next call is one it may send. *)
Lemma next_sends s c k : reachable image s -> In (Vis c k) (sys_threads s) -> sends_ok (sys_ghost s) c.
Proof.
  intros Hr Hin. apply reachable_invariant in Hr as [_ _ Ht]. rewrite List.Forall_forall in Ht.
  by apply safe_call with (k := k), Ht.
Qed.

(** A write that takes effect was read from what it replaces. *)
Lemma read_stored s p q old :
  invariant s -> In p (g_held (sys_ghost s)) -> version p = version q ->
  sys_store s !! pr_key q = Some old -> version old = version q -> p = old.
Proof.
  intros [Hstore Hver _] Hp Hv Hl Ho. apply Hstore in Hl as [Hl _]. apply Hver; [done..|]. by rewrite Ho.
Qed.

Lemma restated_version g p q : restated g p q -> version p = version q.
Proof. intros (Hs & Hm & _). unfold version, pr_key. by rewrite (same_spec_kind _ _ Hs), Hm. Qed.

Lemma refinalized_version p q : refinalized p q -> version p = version q.
Proof.
  intros (Hs & Hm & _). unfold version, pr_key. rewrite (same_spec_kind _ _ Hs), Hm. by destruct (pr_meta p).
Qed.

(** What a call by a safe thread does to the stored objects. *)
Inductive change (g : Ghost) (old : profile) : option profile -> Prop :=
| change_none : change g old (Some old)
| change_update q new :
    refinalized old q -> stored_meta (pr_meta q) (pr_meta new) -> pr_spec new = pr_spec q ->
    pr_status new = pr_status old -> change g old (Some new)
| change_remove : deleting old -> change g old None
| change_status q new :
    restated g old q -> stored_status_meta (pr_meta old) (pr_meta new) -> pr_spec new = pr_spec old ->
    pr_status new = pr_status q -> change g old (Some new).

Lemma call_change s ev store' g' k old :
  invariant s -> sends_ok (sys_ghost s) (ev_call ev) -> answer (sys_store s) (sys_ghost s) ev store' g' ->
  sys_store s !! k = Some old -> change (sys_ghost s) old (store' !! k).
Proof.
  intros Hinv Hsend Hans Hk.
  destruct Hans as [p Hp|q old' new e Hl Hv Hm Hs Hst Hf|q old' e Hl Hv Hd Hfs|q old' new e Hl Hv Hm Hs Hst Hf
                   |sel nodes|ev Hun]; try (rewrite Hk; constructor).
  - destruct (decide (pr_key q = k)) as [<-|Hne]; [|rewrite lookup_insert_ne, Hk by done; constructor].
    rewrite lookup_insert_eq. rewrite Hl in Hk. injection Hk as ->.
    assert (exists p, In p (g_held (sys_ghost s)) /\ refinalized p q) as (p & Hp & Hr) by by destruct q.
    assert (p = old) as -> by (eapply (read_stored s p q); try done; by apply refinalized_version).
    by eapply change_update.
  - destruct (decide (pr_key q = k)) as [<-|Hne]; [|rewrite lookup_delete_ne, Hk by done; constructor].
    rewrite lookup_delete_eq. rewrite Hl in Hk. injection Hk as ->. by constructor.
  - destruct (decide (pr_key q = k)) as [<-|Hne]; [|rewrite lookup_insert_ne, Hk by done; constructor].
    rewrite lookup_insert_eq. rewrite Hl in Hk. injection Hk as ->.
    assert (exists p, In p (g_held (sys_ghost s)) /\ restated (sys_ghost s) p q) as (p & Hp & Hr) by by destruct q.
    assert (p = old) as -> by (eapply (read_stored s p q); try done; by eapply restated_version).
    by eapply change_status.
Qed.

(** What a step of the operator does to a stored object. *)
Lemma handler_change s s' k old :
  reachable image s -> handler_step image s s' -> sys_store s !! k = Some old ->
  change (sys_ghost s) old (sys_store s' !! k).
Proof.
  intros Hr H Hk. pose proof (reachable_invariant _ Hr) as Hinv.
  destruct H as [store g ts k0|store g ts k0|store g ts rq|store g ts1 c k0 ts2 r store' g' Hans|store g ts1 m ts2];
    try (simpl in *; rewrite Hk; constructor).
  eapply (call_change (MkSys store g _) (Ev c r)); [exact Hinv| |exact Hans|exact Hk].
  eapply next_sends; [exact Hr|]. apply in_or_app. right. by left.
Qed.

(** A step of the operator stores no object where there was none, and holds no value
    that is not a change of one stored. *)
Lemma handler_held s s' p :
  handler_step image s s' -> In p (g_held (sys_ghost s')) ->
  In p (g_held (sys_ghost s)) \/ exists k old, sys_store s !! k = Some old /\ sys_store s' !! k = Some p.
Proof.
  intros H Hp. destruct H as [| | |store g ts1 c k0 ts2 r store' g' Hans|]; try by left. simpl in *.
  destruct Hans; try by left.
  - destruct Hp as [<-|Hp]; [right|by left]. exists (pr_key q), old. by rewrite lookup_insert_eq.
  - destruct Hp as [<-|Hp]; [right|by left]. exists (pr_key q), old. by rewrite lookup_insert_eq.
Qed.

(** A property of statuses and their counters that holds of none and that recording
    a received report keeps, holds of all that the store ever holds. *)
Lemma reachable_statuses (Q : list Request -> ObjKey -> list NodeStatus -> Z * Z -> Prop) s :
  (forall rs k, Q rs k [] (0, 0)) ->
  (forall rs rs' k l c, incl rs rs' -> Q rs k l c -> Q rs' k l c) ->
  (forall rs k l c rq r now, In rq rs -> payload rq = Some r -> report_target r = k -> Q rs k l c ->
    let l' := upsert r (report_phase r) now l in Q rs k l' (count_phases l')) ->
  reachable image s ->
  forall p, In p (g_held (sys_ghost s)) ->
  Q (g_received (sys_ghost s)) (pr_key p) (statuses p) (counts p).
Proof.
  intros Hnil Hmono Hup Hr. induction Hr as [|s s' Hr IH H]; [done|].
  pose proof (reachable_invariant _ Hr) as Hinv. destruct H as [H|H].
  - intros p Hp.
    assert (Hg : incl (g_received (sys_ghost s)) (g_received (sys_ghost s'))).
    { destruct H as [| | |store g ts1 c k0 ts2 r store' g' Hans|]; simpl; try apply incl_refl.
      - by apply incl_tl, incl_refl.
      - destruct Hans; apply incl_refl. }
    eapply Hmono; [exact Hg|].
    destruct (handler_held _ _ _ H Hp) as [Hp'|(k & old & Hk & Hk')]; [by apply IH|].
    pose proof (handler_change _ _ _ _ Hr H Hk) as Hc. rewrite Hk' in Hc.
    apply (inv_held _ Hinv) in Hk as [Hold <-]. specialize (IH old Hold).
    inversion Hc as [E|q new Hre Hm Hs Hst E| |q new Hre Hm Hs Hst E]; subst; [done| |].
    + unfold statuses, counts. rewrite Hst. rewrite (written_key _ _ Hm Hs).
      apply refinalized_version, (f_equal fst) in Hre. simpl in Hre. by rewrite <- Hre.
    + unfold statuses at 1, counts at 1. rewrite Hst, (status_key _ _ Hm Hs). fold (statuses q) (counts q).
      destruct Hre as (_ & _ & [[-> ->]|(rq & r & now & Hin & Hpay & Hk2 & -> & Hcount)]); [done|].
      rewrite Hcount. by eapply Hup.
  - destruct H as [store g ts new Hf Hst Hct|store g ts k]; simpl in *; [|done].
    intros p [<-|Hp]; [|by apply IH]. rewrite Hst, Hct.
    destruct (store !! _) as [old|] eqn:El; [|apply Hnil].
    apply (inv_held _ Hinv) in El as [El Hk]. simpl in El. rewrite <- Hk. by apply IH.
Qed.

End Invariant.

(** ** Properties *)

Lemma upsert_applied (r : StatusReport) (now : Time) (l : list NodeStatus) (node hash : string) :
  applied_at (upsert r (report_phase r) now l) node hash ->
  applied_at l node hash \/ (sr_Success r = true /\ sr_Node r = node /\ sr_Hash r = hash).
Proof.
  unfold applied_at, report_phase. induction l as [|ns l IH]; simpl.
  - intros (x & [<-|[]] & Hn & Hp & Hh). right. unfold new_entry in *. simpl in *.
    by destruct (sr_Success r).
  - destruct (String.eqb_spec (ns_NodeName ns) (sr_Node r)) as [E|E]; simpl.
    + intros (x & [<-|Hx] & Hn & Hp & Hh).
      * right. unfold updated_entry in *. simpl in *. rewrite E in Hn. by destruct (sr_Success r).
      * left. exists x. by split; [right|].
    + intros (x & [<-|Hx] & H).
      * left. exists ns. by split; [left|].
      * destruct IH as [(y & Hy & H')|H']; [by exists x| |by right].
        left. exists y. by split; [right|].
Qed.

(** A success report of the node for this profile and the hash of its config has
    arrived. *)
Definition reported (s : Sys) (p : profile) (node : string) : Prop :=
  exists rq r, In rq (g_received (sys_ghost s)) /\ payload rq = Some r /\ sr_Success r = true /\
    sr_Node r = node /\ sr_Hash r = pr_hash p /\ report_target r = pr_key p.

(** The gate opens on reports only: if it opens for a profile the store has held,
    every selected node's success report for this hash and profile has arrived. *)
Lemma gate_reports {lib : K8sLib} {laws : K8sLibLaws} (image : string) (s : Sys) (p : profile)
    (selected : list string) (node : string) :
  reachable image s -> In p (g_held (sys_ghost s)) -> pr_gate p selected = true ->
  In node selected -> reported s p node.
Proof.
  intros Hr Hp [_ Hgate]%pr_gate_iff Hnode.
  refine (reachable_statuses image (fun rs k l _ => forall n h, applied_at l n h ->
    exists rq r, In rq rs /\ payload rq = Some r /\ sr_Success r = true /\ sr_Node r = n /\
      sr_Hash r = h /\ report_target r = k) s _ _ _ Hr p Hp node (pr_hash p) (Hgate _ Hnode)).
  - by intros rs k n h (x & [] & _).
  - intros rs rs' k l c Hi H n h Ha. destruct (H n h Ha) as (rq & r & Hin & Hrest).
    exists rq, r. split; [by apply Hi|done].
  - intros rs k l c rq r now Hin Hpay Hk H l' n h [Ha|(H1 & H2 & H3)]%upsert_applied; [by apply H|].
    by exists rq, r.
Qed.

(** Why a DaemonSet may go: its profile is deleted, or rolled out. *)
Definition rolled_out {lib : K8sLib} (s : Sys) (p : profile) : Prop :=
  exists sel nodes, LabelSelectorAsSelector (pr_selector p) = inr sel /\
    In (sel, nodes) (g_listed (sys_ghost s)) /\ nodes <> [] /\
    forall n, In n nodes -> reported s p (node_Name n).

Lemma teardown_gate {lib : K8sLib} {laws : K8sLibLaws} (image : string) (s : Sys)
    (key : NamespacedName) (k : option error -> prog unit) :
  reachable image s -> In (Vis (DeleteDaemonSet key) k) (sys_threads s) ->
  exists p, In p (g_held (sys_ghost s)) /\ key = pr_owned p /\ (deleting p \/ rolled_out s p).
Proof.
  intros Hr Hin.
  destruct (next_sends image s _ _ Hr Hin) as (p & Hp & -> & [Hd|(sel & nodes & Hsel & Hlist & Hgate)]);
    exists p; split; [done|split; [done|by left]|done|split; [done|right]].
  exists sel, nodes. split; [done|]. split; [done|]. split.
  - apply pr_gate_iff in Hgate as [Hne _]. by intros ->.
  - intros n Hn. eapply gate_reports; try done. by apply in_map.
Qed.

(** C4. No early teardown: however reconciles of both kinds, report handlers, users,
    stale reads and failures interleave, a reconcile is about to delete a DaemonSet
    only if it is that of a profile the store has held and either that profile is
    being deleted, or the server has listed the nodes its selector selects, at least
    one, and from each of them a success report for this profile and the hash of this
    very config has arrived. The name of the DaemonSet says which profile that is. *)
Theorem teardown_needs_reports {lib : K8sLib} {laws : K8sLibLaws} (image : string) (s : Sys)
    (key : NamespacedName) (k : option error -> prog unit) :
  reachable image s -> In (Vis (DeleteDaemonSet key) k) (sys_threads s) ->
  exists p, In p (g_held (sys_ghost s)) /\ key = pr_owned p /\
    (forall q, pr_owned q = key -> pr_key q = pr_key p) /\
    (deleting p \/
     exists sel nodes, LabelSelectorAsSelector (pr_selector p) = inr sel /\
       In (sel, nodes) (g_listed (sys_ghost s)) /\ nodes <> [] /\
       forall n, In n nodes -> exists rq r,
         In rq (g_received (sys_ghost s)) /\ payload rq = Some r /\ sr_Success r = true /\
         sr_Node r = node_Name n /\ sr_Hash r = pr_hash p /\ report_target r = pr_key p).
Proof.
  intros Hr Hin. destruct (teardown_gate image s key k Hr Hin) as (p & Hp & -> & Hcase).
  exists p. split; [done|]. split; [done|]. split; [intros q; apply pr_owned_inj|done].
Qed.

(** C19. Nothing is created without the finalizer: however the handlers interleave, a
    handler is about to create or update a ConfigMap, a DaemonSet or a CronJob only
    for a profile that the store has held with the finalizer and without a deletion
    time, and only under a name that this profile owns. *)
Theorem creations_need_finalizer {lib : K8sLib} {laws : K8sLibLaws} (image : string) (s : Sys)
    (c : call) (k : resp c -> prog unit) :
  reachable image s -> In (Vis c k) (sys_threads s) -> creates c ->
  exists p, In p (g_held (sys_ghost s)) /\
    IsZero (om_DeletionTimestamp (pr_meta p)) = true /\ In finalizer (om_Finalizers (pr_meta p)) /\
    match c with
    | CreateOrUpdateConfigMap key _ | CreateOrUpdateDaemonSet key _ => key = pr_owned p
    | CreateOrUpdateCronJob key _ =>
        exists q, p = PSysctl q /\ key = MkKey (sp_Namespace q) (cronJobName q)
    | _ => True
    end.
Proof.
  intros Hr Hin Hc. pose proof (next_sends image s _ _ Hr Hin) as H.
  destruct c; try done; simpl in H; destruct H as (p & Hp & [Hd Hf] & ->); unfold deleting in Hd;
    [exists p|exists p|exists (PSysctl p)]; destruct (IsZero _); try done; split_and!; try done; by exists p.
Qed.

(** C13. The operator keeps to its own fields: a step of a handler leaves the spec of
    a stored profile, its labels, its owners and its deletion time as the user has
    them; it adds the finalizer only while the profile is not being deleted, takes
    away only this finalizer and only from a profile that is being deleted; and a
    profile goes by it only when it is being deleted. *)
Theorem handlers_keep_user_fields {lib : K8sLib} {laws : K8sLibLaws} (image : string) (s s' : Sys)
    (k : kind * NamespacedName) (p : profile) :
  reachable image s -> handler_step image s s' -> sys_store s !! k = Some p ->
  match sys_store s' !! k with
  | None => deleting p
  | Some p' =>
      pr_spec p' = pr_spec p /\ om_Labels (pr_meta p') = om_Labels (pr_meta p) /\
      om_OwnerReferences (pr_meta p') = om_OwnerReferences (pr_meta p) /\
      om_DeletionTimestamp (pr_meta p') = om_DeletionTimestamp (pr_meta p) /\
      (finalizers p' = finalizers p \/
       ~ deleting p /\ (forall f, In f (finalizers p') <-> f = finalizer \/ In f (finalizers p)) \/
       deleting p /\ (forall f, In f (finalizers p') <-> f <> finalizer /\ In f (finalizers p)))
  end.
Proof.
  intros Hr H Hk. destruct (handler_change image _ _ _ _ Hr H Hk) as [|q new (Hs & Hm & Hf) Hst Hsp _|Hd|q new _ Hst Hsp _].
  - split_and!; try done. by left.
  - destruct Hst as (_ & _ & Hl & Hfs & Hdt & Ho). unfold finalizers at 1 3 5. rewrite Hfs.
    fold (finalizers q). rewrite Hl, Ho, Hdt, Hsp, Hm. split_and!; try done. by right.
  - done.
  - destruct Hst as (v & Hst). unfold finalizers at 1. rewrite Hst. split_and!; try done. by left.
Qed.

(** One entry per node: in every reachable state no stored profile has two
    entries for the same node (the API declares the list a map by node name). *)
Lemma statuses_unique {lib : K8sLib} {laws : K8sLibLaws} (image : string) (s : Sys) (p : profile) :
  reachable image s -> In p (g_held (sys_ghost s)) -> List.NoDup (map ns_NodeName (statuses p)).
Proof.
  intros Hr Hp. eapply (reachable_statuses image (fun _ _ l _ => List.NoDup (map ns_NodeName l)) s); try done.
  - intros. constructor.
  - intros. by apply upsert_NoDup.
Qed.

(** The entries that reports leave. *)
Definition entry_well_formed (ns : NodeStatus) : Prop :=
  (ns_Phase ns = NodePhaseApplied /\ ns_FailCount ns = 0 \/ ns_Phase ns = NodePhaseFailed) /\
  int32_range (ns_FailCount ns).

Lemma upsert_well_formed (r : StatusReport) (now : Time) (l : list NodeStatus) :
  Forall entry_well_formed l -> Forall entry_well_formed (upsert r (report_phase r) now l).
Proof.
  intros H. induction H as [|ns l Hns Hl IH]; simpl.
  - constructor; [|constructor]. unfold entry_well_formed, new_entry, report_phase, int32_range.
    destruct (sr_Success r); simpl; (split; [tauto|lia]).
  - destruct (negb _); constructor; try done.
    unfold entry_well_formed, updated_entry, report_phase. destruct (sr_Success r); simpl; split; try tauto.
    + unfold int32_range. lia.
    + apply inc32_range.
Qed.

Lemma in_phase_all (l : list NodeStatus) :
  Forall entry_well_formed l ->
  (in_phase NodePhaseApplied l + in_phase NodePhaseFailed l)%nat = length l.
Proof.
  intros H. unfold in_phase. induction H as [|ns l [[[Hp _]|Hp] _] _ IH]; [done|..];
    simpl; rewrite Hp; simpl; lia.
Qed.

(** C12. The type of a stored status. In every reachable state, however the handlers
    interleave, the status of a stored profile of either kind has one entry per node
    (the API declares the list a map by node name); an entry is Applied with no
    failures or Failed, its fail count an int32; and the two counters count the
    entries of the two phases, so that below 2^31 entries they add up to the number
    of nodes that have reported. *)
Theorem statuses_well_formed {lib : K8sLib} {laws : K8sLibLaws} (image : string) (s : Sys)
    (k : kind * NamespacedName) (p : profile) :
  reachable image s -> sys_store s !! k = Some p ->
  List.NoDup (map ns_NodeName (statuses p)) /\ Forall entry_well_formed (statuses p) /\
  counts p = count_phases (statuses p) /\
  (Z.of_nat (length (statuses p)) < 2^31 ->
   fst (counts p) = Z.of_nat (in_phase NodePhaseApplied (statuses p)) /\
   fst (counts p) + snd (counts p) = Z.of_nat (length (statuses p))).
Proof.
  intros Hr Hl. pose proof (reachable_invariant image _ Hr) as Hinv. apply (inv_held _ Hinv) in Hl as [Hl _].
  split; [by eapply statuses_unique|].
  assert (H : Forall entry_well_formed (statuses p) /\ counts p = count_phases (statuses p)).
  { eapply (reachable_statuses image (fun _ _ l c => Forall entry_well_formed l /\ c = count_phases l) s);
      try done.
    intros rs k' l c rq r now _ _ _ [Hw _]. split; [by apply upsert_well_formed|done]. }
  destruct H as [Hw Hc]. split_and!; [done..|]. intros Hlen. rewrite Hc.
  unfold count_phases. rewrite count_phases_from by lia. cbn [fst snd].
  pose proof (in_phase_all _ Hw). lia.
Qed.

(** The entry of a node with a report recorded on top. *)
Definition recorded_entry (r : StatusReport) (now : Time) (old : option NodeStatus) : NodeStatus :=
  match old with
  | Some ns => updated_entry r (report_phase r) now ns
  | None => new_entry r (report_phase r) now
  end.

Lemma change_entry g old p' node :
  change g old (Some p') ->
  entry_of node (statuses p') = entry_of node (statuses old) \/
  exists rq r now, In rq (g_received g) /\ payload rq = Some r /\ report_target r = pr_key old /\
    sr_Node r = node /\
    entry_of node (statuses p') = Some (recorded_entry r now (entry_of node (statuses old))).
Proof.
  intros Hc. inversion Hc as [E|q new Hre Hm Hs Hst E| |q new Hre Hm Hs Hst E]; subst; [by left| |].
  - left. unfold statuses. by rewrite Hst.
  - unfold statuses at 1 3. rewrite Hst. fold (statuses q).
    destruct Hre as (_ & _ & [[-> _]|(rq & r & now & Hin & Hpay & Hkey & -> & _)]); [by left|].
    destruct (decide (node = sr_Node r)) as [->|Hne].
    + right. exists rq, r, now. split_and!; try done. by rewrite upsert_entry, String.eqb_refl.
    + left. rewrite upsert_entry. apply String.eqb_neq in Hne. by rewrite Hne.
Qed.

(** C11. No lost update: in one step of the system the entry of a node in a stored
    profile of either kind stays as it is, unless the step records a received report
    of this very node, on top of the entry that was stored; a reconcile that read an
    older status never takes a report back. *)
Theorem no_lost_updates {lib : K8sLib} {laws : K8sLibLaws} (image : string) (s s' : Sys)
    (k : kind * NamespacedName) (p p' : profile) (node : string) :
  reachable image s -> sys_step image s s' ->
  sys_store s !! k = Some p -> sys_store s' !! k = Some p' ->
  entry_of node (statuses p') = entry_of node (statuses p) \/
  exists rq r now, In rq (g_received (sys_ghost s)) /\ payload rq = Some r /\ report_target r = k /\
    sr_Node r = node /\
    entry_of node (statuses p') = Some (match entry_of node (statuses p) with
      | Some ns => updated_entry r (report_phase r) now ns
      | None => new_entry r (report_phase r) now
      end).
Proof.
  intros Hr [H|H] Hp Hp'.
  - apply (handler_change image _ _ _ _ Hr H) in Hp as Hc. rewrite Hp' in Hc.
    apply (inv_held _ (reachable_invariant image _ Hr)) in Hp as [_ <-]. exact (change_entry _ _ _ node Hc).
  - left. destruct H as [store g ts new Hf Hst Hct|store g ts k0]; simpl in *.
    + apply lookup_insert_Some in Hp' as [[<- <-]|[_ Hp']]; [by rewrite Hp in Hst; rewrite Hst|].
      by rewrite Hp in Hp'; injection Hp' as <-.
    + apply lookup_delete_Some in Hp' as [_ Hp']. by rewrite Hp in Hp'; injection Hp' as <-.
Qed.
