(* ===== verification/EndToEnd.v ===== *)
(** * From the nodes to the teardown.

    The concurrent system of [Concurrent], when the reports that arrive are those of
    the operator's pods: runs of the worker on nodes, in the containers of DaemonSets
    that the controllers wrote for some version of a profile, on whatever the kubelet
    had mounted at the time. *)
From S2P Require Import Prelude GoStrings GoHash GoJson Api Render WorkerConfig WorkerScript WorkerHost WorkerApply WorkerMain.
From S2P Require Import K8s ApiServer Rollout SysctlController ScriptController ReportServer ReportRefine Profile System.
From S2P Require Import Concurrent HandlerSends Interleaving.

Section EndToEnd.

Context {H : Type} {host : Host H} {client : HttpClient H}.

(** A run of the worker in a pod of a version of a profile: the file it found
    mounted, the node's state before and after, the report. *)
Record Run := MkRun {
  run_image : string;
  run_profile : profile;
  run_node : string;
  run_mounted : string;
  run_before : H;
  run_after : H;
  run_rep : Report
}.

(** What the pod of a kind is given: the container, the file and the mode. *)
Definition run_container (r : Run) : Container :=
  match run_profile r with PSysctl p => applier (run_image r) p | PScript p => runner (run_image r) p end.
Definition run_env (r : Run) : string -> string := pod_env (run_node r) (run_container r).
Definition run_file (r : Run) : string :=
  match run_profile r with PSysctl _ => mounted_file | PScript _ => mounted_scripts end.
Definition mode_of (r : Run) : string :=
  match run_profile r with PSysctl _ => modeApply | PScript _ => modeScript end.

Definition pod_run (r : Run) : Prop :=
  host_ReadFile (run_before r) (run_file r) = inr (run_mounted r) /\
  run_mode (run_env r) (run_before r) (mode_of r) (run_file r) "/proc/sys" (base_report (run_env r)) =
    inr (run_rep r, run_after r).

(** What the run sends to the report API. *)
Definition run_request (r : Run) : Request :=
  MkRequest (http_Method (report_request (NewReporter reportURL) (run_rep r)))
    (http_Body (report_request (NewReporter reportURL) (run_rep r))).

(** A profile that its rendering keeps. *)
Definition plain_profile (p : profile) : Prop :=
  match p with
  | PSysctl p => Forall (fun x => canonical x = true) (spec_Sysctls (sp_Spec p))
  | PScript p => Forall (fun x => script_safe x = true) (sspec_Scripts (scp_Spec p))
  end.

(** The run has done what the profile asks for, from its first state to its last: for
    the sysctls in order, one "sysctl -w key=value" for every key that a name expands
    to, and none has ended with an error; every script, in order, and none has failed. *)
Definition carried_out (r : Run) (p : profile) : Prop :=
  match p with
  | PSysctl p =>
      exists log, applies "sysctl" "/proc/sys" (run_before r) (wanted_entries p) log (run_after r) /\
        Forall (fun w => wr_Error w = None) log
  | PScript p =>
      let scripts := map script_entry (sspec_Scripts (scp_Spec p)) in
      run_after r = fold_left (fun h s => fst (exec_script h s)) scripts (run_before r) /\
      Forall (fun e => e = None) (script_errors (run_before r) scripts)
  end.

(** ** Lemmas *)

(** A run of [pod_run] is what [main] does in such a pod. *)
Lemma pod_run_main (r : Run) : pod_run r ->
  main (run_env r) no_flags (run_before r) =
    (AwaitSignal, fst (Send (run_after r) (NewReporter reportURL) (run_rep r))).
Proof.
  intros [_ Hr]. unfold main.
  assert (Hm : default (getenv (run_env r) "MODE" modeApply) (flag_mode no_flags) = mode_of r)
    by (unfold run_env, run_container, mode_of; by destruct (run_profile r)).
  assert (Hf : default (getenv (run_env r) "CONFIG_PATH" "/etc/sysctl.d/99-sysctl-operator.conf")
                 (flag_config no_flags) = run_file r)
    by (unfold run_env, run_container, run_file; by destruct (run_profile r)).
  assert (Hu : run_env r "REPORT_URL" = reportURL)
    by (unfold run_env, run_container; by destruct (run_profile r)).
  assert (Hp : default (getenv (run_env r) "PROC_ROOT" "/proc/sys") (flag_proc_root no_flags) = "/proc/sys")
    by (unfold run_env, run_container; by destruct (run_profile r)).
  rewrite Hm, Hf, Hu, Hp, Hr.
  by replace (String.eqb (mode_of r) modeApply || String.eqb (mode_of r) modeScript) with true
    by (unfold mode_of; by destruct (run_profile r)).
Qed.

(** The report of a run that passed its hash check: it names the node, the hash of
    the mounted file, which is the one the container was given, and the kind. *)
Lemma pod_run_report (r : Run) : pod_run r ->
  rep_Hash (run_rep r) = HashBytes (run_mounted r) /\ rep_Node (run_rep r) = run_node r /\
  HashBytes (run_mounted r) = pr_hash (run_profile r) /\
  (rep_Kind (run_rep r) = match run_profile r with PSysctl _ => "" | PScript _ => kindScriptProfile end).
Proof.
  intros [Hf Hr]. unfold run_mode, Load, LoadScripts in Hr. rewrite Hf in Hr.
  assert (He : run_env r "CONFIG_HASH" = pr_hash (run_profile r))
    by (unfold run_env, run_container; by destruct (run_profile r)).
  assert (Hn : run_env r "NODE_NAME" = run_node r)
    by (unfold run_env, run_container; by destruct (run_profile r)).
  assert (Hv : verifyHash (HashBytes (run_mounted r)) (pr_hash (run_profile r)) = None ->
    HashBytes (run_mounted r) = pr_hash (run_profile r)).
  { intros Hv. destruct (decide (HashBytes (run_mounted r) = pr_hash (run_profile r))) as [E|E]; [done|].
    rewrite verifyHash_mismatch in Hv; [done|apply hashContent_not_empty|done]. }
  rewrite He in Hr. unfold mode_of in Hr. destruct (run_profile r) as [p|p] eqn:Hp;
    cbn [String.eqb modeApply modeCheck modeScript orb Ascii.eqb Bool.eqb cfg_Hash scfg_Hash Parse ParseScripts] in Hr;
    destruct (verifyHash _ _) eqn:Hmis in Hr; try done; specialize (Hv Hmis).
  - destruct (Apply _ _ _ _) as [res h']. injection Hr as <- _. by rewrite <- Hn.
  - destruct (RunScripts _ _) as [res h']. injection Hr as <- _. by rewrite <- Hn.
Qed.

Lemma run_payload (r : Run) rep : payload (run_request r) = Some rep -> rep = received (run_rep r).
Proof. apply decoded_Marshal. Qed.

(** A success report of a run on the config of [p] is true. *)
Lemma pod_run_carried_out (r : Run) (p : profile) :
  pod_run r -> run_mounted r = pr_content p -> pr_kind (run_profile r) = pr_kind p ->
  plain_profile p -> rep_Success (run_rep r) = true -> carried_out r p.
Proof.
  intros Hrun Hm Hkind Hplain Hok. destruct (pod_run_report r Hrun) as (_ & _ & Hh & _).
  destruct Hrun as [Hf Hr]. rewrite Hm in Hh.
  assert (He : run_env r "CONFIG_HASH" = pr_hash (run_profile r))
    by (unfold run_env, run_container; by destruct (run_profile r)).
  unfold mode_of in *. rewrite Hm in Hf.
  destruct (run_profile r) as [rp|rp] eqn:Hp, p as [p|p]; try done; cbn [pr_content plain_profile] in *.
  - destruct (run_mode_applied (run_env r) (run_before r) (run_after r) "/proc/sys" (run_file r) p
      (base_report (run_env r)) (run_rep r)) as (_ & _ & log & Ha & _ & _ & Hlog); try done.
    exists log. split; [|by apply Hlog].
    replace (sysctlBinary (run_env r)) with "sysctl" in Ha; [done|].
    unfold sysctlBinary, run_env, run_container. by rewrite Hp.
  - unfold run_mode, LoadScripts in Hr. rewrite Hf, He in Hr.
    cbn [String.eqb modeApply modeCheck modeScript orb Ascii.eqb Bool.eqb scfg_Hash ParseScripts] in Hr.
    rewrite Hh, verifyHash_ok in Hr.
    pose proof (run_scripts_from (run_before r) (scfg_Scripts (ParseScripts (renderScripts p))) empty_result)
      as (Hs & _ & _ & Hall).
    rewrite parse_scripts_entries in Hs, Hall, Hr by done. fold (RunScripts (run_before r)) in Hs, Hall.
    unfold RunScripts in Hr. destruct (fold_left _ _ _) as [res h'].
    pose proof (f_equal (fun x => match x with inr y => rep_Success (fst y) | inl _ => false end) Hr) as E1.
    pose proof (f_equal (fun x => match x with inr y => snd y | inl _ => h' end) Hr) as E2.
    cbn in E1, E2. rewrite Hok in E1. split; [by rewrite <- E2|]. by apply Hall.
Qed.

(** ** Properties *)

(** C3. The teardown is true to the runs. Suppose that
    - every success report that arrives is one that a run of a pod of the operator
      sends ([Hhonest]: nobody else posts success reports), on a node whose name
      is valid UTF-8, as Kubernetes requires,
    - no other file that one of these runs had mounted has the hash of the config of a
      profile the handlers have read ([Hcollision]),
    - the rendering keeps these profiles ([plain_profile]: names and values of sysctls
      without surrounding blanks or line ends, names without [=] that do not begin a
      comment; names and interpreters of scripts without white space, contents without
      the lines that delimit a script).
    Then, however handlers of both kinds, users, failures, stale reads and stale
    mounts interleave, a reconcile is about to delete a DaemonSet only if its profile is
    being deleted, or the nodes its selector selects, at least one, were listed, and on
    each of them a run has ended on the config of this very profile and has carried it
    out: "sysctl -w key=value" has been run for every key of its sysctls, in order, and
    none has ended with an error, or every script has been run, in order, and none has
    failed. What these commands do to the node is not assumed, and not claimed. *)
Theorem teardown_is_true {lib : K8sLib} {klaws : K8sLibLaws} (image : string) (s : Sys) (runs : list Run)
    (key : NamespacedName) (k : option error -> prog unit)
    (Hreach : reachable image s)
    (Hruns : forall r, In r runs -> pod_run r /\ valid_utf8 (run_node r) = true)
    (Hhonest : forall rq rep, In rq (g_received (sys_ghost s)) -> payload rq = Some rep ->
       sr_Success rep = true -> exists r, In r runs /\ rq = run_request r)
    (Hplain : forall p, In p (g_held (sys_ghost s)) -> plain_profile p)
    (Hcollision : forall p r, In p (g_held (sys_ghost s)) -> In r runs ->
       HashBytes (run_mounted r) = pr_hash p -> run_mounted r = pr_content p)
    (Hdelete : In (Vis (DeleteDaemonSet key) k) (sys_threads s)) :
  exists p, In p (g_held (sys_ghost s)) /\ key = pr_owned p /\
    (deleting p \/
     exists sel nodes, LabelSelectorAsSelector (pr_selector p) = inr sel /\
       In (sel, nodes) (g_listed (sys_ghost s)) /\ nodes <> [] /\
       forall n, In n nodes -> exists r, In r runs /\ run_node r = node_Name n /\
         run_mounted r = pr_content p /\ carried_out r p).
Proof.
  destruct (teardown_gate image s key k Hreach Hdelete) as (p & Hp & -> & [Hd|Hcase]);
    exists p; (split; [done|]); (split; [done|]); [by left|right].
  destruct Hcase as (sel & nodes & Hsel & Hlist & Hne & Hrep). exists sel, nodes. split_and!; [done..|].
  intros n Hn. destruct (Hrep n Hn) as (rq & rep & Hin & Hpay & Hok & Hnode & Hhash & Htarget).
  destruct (Hhonest rq rep Hin Hpay Hok) as (r & Hr & ->). destruct (Hruns r Hr) as (Hrun & Hutf).
  apply run_payload in Hpay as ->. destruct (pod_run_report r Hrun) as (Ehash & Enode & Emnt & Ekind).
  exists r. split; [done|]. unfold report_target in Htarget. cbn [received sr_Node sr_Hash sr_Success sr_Kind] in *.
  rewrite Ehash, Emnt in Hhash. rewrite Enode, to_valid_id in Hnode by done. split; [done|].
  rewrite to_valid_id in Hhash by apply hex_valid, hashContent_hex.
  assert (Hm : run_mounted r = pr_content p) by (apply Hcollision; [done..|by rewrite Emnt]).
  split; [done|]. eapply pod_run_carried_out; try done; [|by apply Hplain].
  apply (f_equal fst) in Htarget. cbn [fst pr_key] in Htarget. rewrite <- Htarget, Ekind.
  by destruct (run_profile r).
Qed.

End EndToEnd.
