(* ===== verification/InterleavingSim.v ===== *)
(** * A run of the concurrent system: the witnesses of its theorems.

    A server that is a function gives some of the answers the system allows, and
    advances a thread; the states it passes through are reachable. *)
From S2P Require Import Prelude GoStrings GoJson Api Samples Render WorkerMain K8s ApiServer Rollout SysctlController ScriptController.
From S2P Require Import WorkerConfig WorkerHost WorkerApply WorkerSim ReportServer ReportRefine ClusterSim ControllerSim System SystemSim.
From S2P Require Import Profile Concurrent HandlerSends Interleaving EndToEnd.

(** ** A server *)

Definition Hist : Type := Store * Ghost.

Definition is_fresh (g : Ghost) (p : profile) : bool :=
  forallb (fun q => negb (bool_decide (version q = version p))) (g_held g).

(** What the server makes of the stored object when [q] is sent. *)
Definition updated (q old : profile) : profile :=
  match q, old with
  | PSysctl q, PSysctl old => PSysctl (MkSysctlProfile (bump (sp_Meta q)) (sp_Spec q) (sp_Status old))
  | PScript q, PScript old => PScript (MkScriptProfile (bump (scp_Meta q)) (scp_Spec q) (scp_Status old))
  | _, _ => old
  end.

Definition status_updated (q old : profile) : profile :=
  match q, old with
  | PSysctl q, PSysctl old => PSysctl (MkSysctlProfile (bump (sp_Meta old)) (sp_Spec old) (sp_Status q))
  | PScript q, PScript old => PScript (MkScriptProfile (bump (scp_Meta old)) (scp_Spec old) (scp_Status q))
  | _, _ => old
  end.

(** A write: accepted at the stored version, if the version after it is new. *)
Definition hist_write (make : profile -> profile -> profile) (q : profile) (w : Hist) : option error * Hist :=
  let rejected := (Some (ErrConflict (om_Name (pr_meta q))), w) in
  match w.1 !! pr_key q with
  | None => rejected
  | Some old =>
      let new := make q old in
      if bool_decide (version old = version q) && is_fresh w.2 new
      then (None, (<[pr_key q := new]> w.1, hold new w.2))
      else rejected
  end.

(** Its nodes, of which one is selected. *)
Definition hist_nodes : list Node := [
  MkNode "node-b" (Some {["sysctlstack" := "tuned"; "zone" := "1"]});
  MkNode "node-c" None ].

#[export] Instance HistServer : Server Hist := fun c w =>
  let err := ErrOther "not served" in
  match c as c return resp c * Hist with
  | GetSysctlProfile k =>
      (match w.1 !! (KSysctl, k) with Some (PSysctl p) => inr p | _ => inl (ErrNotFound (nn_Name k)) end, w)
  | GetScriptProfile k =>
      (match w.1 !! (KScript, k) with Some (PScript p) => inr p | _ => inl (ErrNotFound (nn_Name k)) end, w)
  | UpdateSysctlProfile q => hist_write updated (PSysctl q) w
  | UpdateScriptProfile q => hist_write updated (PScript q) w
  | StatusUpdateSysctlProfile q => hist_write status_updated (PSysctl q) w
  | StatusUpdateScriptProfile q => hist_write status_updated (PScript q) w
  | DeleteConfigMap _ | DeleteDaemonSet _ | DeleteCronJob _ => (Some err, w)
  | ListNodes sel =>
      let nodes := List.filter (fun n => sel (default ∅ (node_Labels n))) hist_nodes in
      (inr nodes, (w.1, listed sel nodes w.2))
  | ListSysctlProfiles | ListScriptProfiles => (inl err, w)
  | CreateOrUpdateConfigMap _ _ | CreateOrUpdateDaemonSet _ _ | CreateOrUpdateCronJob _ _ => (inr OpUpdated, w)
  | Now => (11, w)
  | CounterInc _ _ _ => (tt, w)
  end.

Lemma is_fresh_ok g p : is_fresh g p = true -> fresh g p.
Proof.
  unfold is_fresh. rewrite forallb_forall. intros H q Hq E. specialize (H q Hq).
  by rewrite bool_decide_eq_true_2 in H.
Qed.

Lemma updated_stored q old : pr_kind q = pr_kind old ->
  stored_meta (pr_meta q) (pr_meta (updated q old)) /\ pr_spec (updated q old) = pr_spec q /\
  pr_status (updated q old) = pr_status old.
Proof. destruct q, old; try done; intros _; (split; [apply bump_stored|done]). Qed.

Lemma status_updated_stored q old : pr_kind q = pr_kind old ->
  stored_status_meta (pr_meta old) (pr_meta (status_updated q old)) /\
  pr_spec (status_updated q old) = pr_spec old /\ pr_status (status_updated q old) = pr_status q.
Proof. destruct q, old; try done; intros _; (split; [apply bump_status|done]). Qed.

Definition keyed (w : Hist) : Prop := forall k p, w.1 !! k = Some p -> In p (g_held w.2) /\ pr_key p = k.

Lemma serve_update q (w : Hist) : keyed w ->
  let x := hist_write updated q w in answer w.1 w.2 (update_event q x.1) x.2.1 x.2.2.
Proof.
  intros Hw. unfold hist_write. destruct (w.1 !! pr_key q) as [old|] eqn:E; [|by apply answer_other; destruct q].
  destruct (bool_decide _ && _) eqn:H; [|by apply answer_other; destruct q].
  apply andb_true_iff in H as [Hv%bool_decide_eq_true Hf%is_fresh_ok].
  destruct (updated_stored q old) as (Hm & Hs & Hst); [|by eapply answer_write].
  apply Hw in E as [_ E]. by apply (f_equal fst) in E.
Qed.

Lemma serve_status q (w : Hist) : keyed w ->
  let x := hist_write status_updated q w in answer w.1 w.2 (status_event q x.1) x.2.1 x.2.2.
Proof.
  intros Hw. unfold hist_write. destruct (w.1 !! pr_key q) as [old|] eqn:E; [|by apply answer_other; destruct q].
  destruct (bool_decide _ && _) eqn:H; [|by apply answer_other; destruct q].
  apply andb_true_iff in H as [Hv%bool_decide_eq_true Hf%is_fresh_ok].
  destruct (status_updated_stored q old) as (Hm & Hs & Hst); [|by eapply answer_status].
  apply Hw in E as [_ E]. by apply (f_equal fst) in E.
Qed.

Lemma serve_answer c (w : Hist) : keyed w -> answer w.1 w.2 (Ev c (serve c w).1) (serve c w).2.1 (serve c w).2.2.
Proof.
  intros Hw. destruct c; try (by apply answer_other).
  - unfold serve, HistServer. destruct (w.1 !! _) as [[p|p]|] eqn:E; try (by apply answer_other).
    apply Hw in E as [E Hk]. injection Hk as <-. exact (answer_get _ _ (PSysctl p) E).
  - exact (serve_update (PSysctl p) w Hw).
  - exact (serve_status (PSysctl p) w Hw).
  - unfold serve, HistServer. destruct (w.1 !! _) as [[p|p]|] eqn:E; try (by apply answer_other).
    apply Hw in E as [E Hk]. injection Hk as <-. exact (answer_get _ _ (PScript p) E).
  - exact (serve_update (PScript p) w Hw).
  - exact (serve_status (PScript p) w Hw).
  - apply answer_nodes.
Qed.

(** ** Advancing a thread *)

Fixpoint advance {A : Type} (n : nat) (m : prog A) (w : Hist) : prog A * Hist :=
  match n, m with
  | S n, Vis c k => let '(r, w1) := serve c w in advance n (k r) w1
  | _, _ => (m, w)
  end.

Definition sys_of (x : prog unit * Hist) : Sys := MkSys x.2.1 x.2.2 [x.1].

Lemma step_serve image c k (w : Hist) :
  reachable image (sys_of (Vis c k, w)) ->
  handler_step image (sys_of (Vis c k, w)) (sys_of (k (serve c w).1, (serve c w).2)).
Proof.
  intros H%reachable_invariant. apply (step_call image w.1 w.2 [] c k []), serve_answer.
  exact (inv_held _ H).
Qed.

Lemma advance_reachable image n : forall (m : prog unit) (w : Hist),
  reachable image (sys_of (m, w)) -> reachable image (sys_of (advance n m w)).
Proof.
  induction n as [|n IH]; intros m w H; [by destruct m|]. destruct m as [a|c k]; [done|].
  pose proof (reach_step _ _ _ H (or_introl (step_serve image c k w H))) as H1. simpl.
  destruct (serve c w) as [r w1]. by apply IH.
Qed.

Definition calling (m : prog unit) : bool := match m with Ret _ => false | Vis _ _ => true end.

Lemma advance_step image n : forall (m : prog unit) (w : Hist),
  reachable image (sys_of (m, w)) -> calling (advance n m w).1 = true ->
  handler_step image (sys_of (advance n m w)) (sys_of (advance (S n) m w)).
Proof.
  induction n as [|n IH]; intros [a|c k] w Hr H; try done.
  - pose proof (step_serve image c k w Hr) as H1. simpl. by destruct (serve c w) as [r w1].
  - pose proof (reach_step _ _ _ Hr (or_introl (step_serve image c k w Hr))) as H1.
    simpl in *. destruct (serve c w) as [r w1]. by apply IH.
Qed.

(** The next call of a thread. *)
Definition next_call (m : prog unit) : option call := match m with Ret _ => None | Vis c _ => Some c end.

Lemma next_call_eq m c : next_call m = Some c -> exists k, m = Vis c k.
Proof. destruct m as [a|c' k]; [done|]. intros [= ->]. by exists k. Qed.

(** A user creates a profile in an empty store. *)
Definition holding (p : profile) : Hist := (<[pr_key p := p]> ∅, hold p (MkGhost [] [] [])).

Lemma holding_reachable image (p : profile) ts :
  statuses p = [] -> counts p = (0, 0) -> ts = [] -> reachable image (MkSys (holding p).1 (holding p).2 ts).
Proof.
  intros Hs Hc ->. eapply reach_step; [apply reach_start|]. right.
  apply (step_user ∅ (MkGhost [] [] []) [] p); [by intros q []|by rewrite lookup_empty..].
Qed.

(** ** A scenario

    A user creates a profile, the report of a run arrives and is recorded, and a
    reconcile of the profile goes on from there. *)
Section Scenario.

Variable p : profile.
Variable rq : Request.
Variable m : prog (option error).

Definition received_hist : Hist := ((holding p).1, receive rq (holding p).2).
Definition handler : prog unit := thread (handleReport rq).

(** The handler has read the profile and the clock: it is about to write. *)
Definition before_write : prog unit * Hist := advance 2 handler received_hist.
Definition after_write : prog unit * Hist := advance 3 handler received_hist.

(** The profile after the write. *)
Definition written : profile := default p (after_write.2.1 !! pr_key p).

(** The handler has ended, and the reconcile has made some calls. *)
Definition reconciling (n : nat) : prog unit * Hist := advance n (thread m) after_write.2.

Hypothesis new_statuses : statuses p = [].
Hypothesis new_counts : counts p = (0, 0).
Hypothesis starts : forall store g ts, handler_step "" (MkSys store g ts) (MkSys store g (thread m :: ts)).

Lemma received_reachable : reachable "" (sys_of (handler, received_hist)).
Proof.
  eapply reach_step; [exact (holding_reachable "" p [] new_statuses new_counts eq_refl)|]. left.
  exact (step_request "" (holding p).1 (holding p).2 [] rq).
Qed.

Lemma before_write_reachable : reachable "" (sys_of before_write).
Proof. apply advance_reachable, received_reachable. Qed.

Lemma after_write_reachable : reachable "" (sys_of after_write).
Proof. apply advance_reachable, received_reachable. Qed.

Lemma write_step : calling before_write.1 = true -> handler_step "" (sys_of before_write) (sys_of after_write).
Proof. apply advance_step, received_reachable. Qed.

Lemma reconciling_reachable n : reachable "" (sys_of (reconciling n)).
Proof.
  apply advance_reachable. pose proof after_write_reachable as H. destruct after_write as [m' w].
  eapply reach_step; [eapply reach_step; [exact H|]|].
  - left. apply (step_end "" w.1 w.2 [] m' []).
  - left. apply starts.
Qed.

End Scenario.

(** ** A SysctlProfile *)

Definition created : SysctlProfile := sim_profile [] None.

(** An applier pod of the small profile runs on node-b. *)
#[export] Instance node_host : Host Mem := MemHost "/proc/sys".

(** The run of the pod of [p] on a node that has [data] mounted. *)
Definition outcome_or {A B : Type} (d : B) (x : A + B) : B := match x with inr out => out | inl _ => d end.

Lemma outcome_or_inr {A B : Type} (d : B) (x : A + B) :
  (match x with inr _ => true | inl _ => false end) = true -> x = inr (outcome_or d x).
Proof. by destruct x. Qed.

Definition idle_run (p : profile) (data : string) (h : Mem) : Run :=
  MkRun "" p "node-b" data h h (base_report no_env).

Definition mode_outcome (r : Run) : FatalReason + Report * Mem :=
  run_mode (run_env r) (run_before r) (mode_of r) (run_file r) "/proc/sys" (base_report (run_env r)).

Definition ran (r : Run) : Run :=
  let out := outcome_or (run_rep r, run_before r) (mode_outcome r) in
  MkRun (run_image r) (run_profile r) (run_node r) (run_mounted r) (run_before r) (snd out) (fst out).

Lemma ran_ok (r : Run) :
  host_ReadFile (run_before r) (run_file r) = inr (run_mounted r) ->
  (match mode_outcome r with inr _ => true | inl _ => false end) = true -> pod_run (ran r).
Proof.
  intros Hf Hok. split; [exact Hf|]. change (mode_outcome r = inr (run_rep (ran r), run_after (ran r))).
  rewrite (outcome_or_inr (run_rep r, run_before r) _ Hok) at 1. unfold ran. cbn [run_rep run_after].
  by rewrite <- surjective_pairing.
Qed.

Definition node_b_run : Run := ran (idle_run (PSysctl created) (renderSysctlConf created) mounted_node).

Lemma node_b_ran : pod_run node_b_run.
Proof. apply ran_ok; vm_compute; reflexivity. Qed.

Definition node_b_report : Request := Eval vm_compute in run_request node_b_run.

Lemma node_b_sent : node_b_report = run_request node_b_run.
Proof. vm_compute. reflexivity. Qed.

Abbreviation sysctl_state n := (sys_of (reconciling (PSysctl created) node_b_report (Reconcile "" small_key) n)).

Lemma sysctl_state_reachable n : reachable "" (sysctl_state n).
Proof. apply reconciling_reachable; [reflexivity..|]. intros. apply step_reconcile. Qed.

(** ** A ScriptProfile *)

Definition created_script : ScriptProfile := sim_script [] None.

Definition script_node : Mem := MkMem {[mounted_scripts := renderScripts created_script]} ∅ [].

Definition script_run : Run := ran (idle_run (PScript created_script) (renderScripts created_script) script_node).

Lemma script_ran : pod_run script_run.
Proof. apply ran_ok; vm_compute; reflexivity. Qed.

Definition script_report : Request := Eval vm_compute in run_request script_run.

Lemma script_sent : script_report = run_request script_run.
Proof. vm_compute. reflexivity. Qed.

Abbreviation script_state n :=
  (sys_of (reconciling (PScript created_script) script_report (script_Reconcile "" bootstrap_key) n)).

Lemma script_state_reachable n : reachable "" (script_state n).
Proof. apply reconciling_reachable; [reflexivity..|]. intros. apply step_script_reconcile. Qed.

(** ** Facts of the two runs, by evaluation *)

Definition applier_key : NamespacedName := MkKey "kube-system" "small-sysctl".
Definition runner_key : NamespacedName := MkKey "kube-system" "node-bootstrap-script".

Lemma next_in m w c : next_call m = Some c -> exists k, In (Vis c k) (sys_threads (sys_of (m, w))).
Proof. intros [k ->]%next_call_eq. exists k. by left. Qed.

Lemma sysctl_facts :
  next_call (reconciling (PSysctl created) node_b_report (Reconcile "" small_key) 4).1 =
    Some (DeleteDaemonSet applier_key) /\
  g_received (sys_ghost (sysctl_state 4)) = [node_b_report] /\
  map (fun p => IsZero (om_DeletionTimestamp (pr_meta p))) (g_held (sys_ghost (sysctl_state 4))) = [true; true] /\
  map pr_spec (g_held (sys_ghost (sysctl_state 4))) = [pr_spec (PSysctl created); pr_spec (PSysctl created)].
Proof. split; [|split; [|split]]; vm_compute; reflexivity. Qed.

Lemma script_facts :
  next_call (reconciling (PScript created_script) script_report (script_Reconcile "" bootstrap_key) 3).1 =
    Some (DeleteDaemonSet runner_key) /\
  g_received (sys_ghost (script_state 3)) = [script_report] /\
  map (fun p => IsZero (om_DeletionTimestamp (pr_meta p))) (g_held (sys_ghost (script_state 3))) = [true; true] /\
  map pr_spec (g_held (sys_ghost (script_state 3))) = [pr_spec (PScript created_script); pr_spec (PScript created_script)].
Proof. split; [|split; [|split]]; vm_compute; reflexivity. Qed.

(** A held profile of a list without deletion times is not being deleted. *)
Lemma none_deleting (l : list profile) n p :
  map (fun p => IsZero (om_DeletionTimestamp (pr_meta p))) l = repeat true n -> In p l -> ~ deleting p.
Proof.
  intros E Hp%(in_map (fun p => IsZero (om_DeletionTimestamp (pr_meta p)))). rewrite E in Hp.
  apply repeat_spec in Hp. unfold deleting. by rewrite Hp.
Qed.

(** ** Witnesses *)

Lemma teardown_needs_reports_witness :
  exists p, In p (g_held (sys_ghost (sysctl_state 4))) /\
    exists nodes, nodes <> [] /\ forall n, In n nodes ->
      exists r, payload node_b_report = Some r /\ sr_Success r = true /\
        sr_Node r = node_Name n /\ sr_Hash r = pr_hash p.
Proof.
  destruct sysctl_facts as (E & Hrec & Hlive & _).
  destruct (next_in _ (reconciling (PSysctl created) node_b_report (Reconcile "" small_key) 4).2 _ E) as [k Hin].
  rewrite <- surjective_pairing in Hin.
  destruct (teardown_needs_reports "" (sysctl_state 4) applier_key k (sysctl_state_reachable 4) Hin)
    as (p & Hp & _ & _ & Hcase).
  exists p. split; [exact Hp|]. destruct Hcase as [Hd|(sel & nodes & _ & _ & Hne & H)].
  - exfalso. exact (none_deleting _ 2 p Hlive Hp Hd).
  - exists nodes. split; [exact Hne|]. intros n Hn.
    destruct (H n Hn) as (rq & r & Hrq & Hpay & Hs & Hnode & Hh & _).
    rewrite Hrec in Hrq. destruct Hrq as [<-|[]].
    exact (ex_intro _ r (conj Hpay (conj Hs (conj Hnode Hh)))).
Defined.

(** The reconcile has read the profile: it is about to put the ConfigMap. *)
Lemma creations_need_finalizer_witness :
  exists p, In p (g_held (sys_ghost (sysctl_state 1))) /\ In finalizer (om_Finalizers (pr_meta p)) /\
    pr_owned p = applier_key.
Proof.
  destruct (next_call (reconciling (PSysctl created) node_b_report (Reconcile "" small_key) 1).1) as [c|] eqn:E;
    [|vm_compute in E; discriminate E].
  assert (Hc : match c with CreateOrUpdateConfigMap key _ => key = applier_key | _ => False end).
  { apply (f_equal (fun o => match o with Some (CreateOrUpdateConfigMap key _) => Some key | _ => None end)) in E.
    vm_compute in E. destruct c; try discriminate E. injection E as <-. reflexivity. }
  destruct (next_in _ (reconciling (PSysctl created) node_b_report (Reconcile "" small_key) 1).2 _ E) as [k Hin].
  rewrite <- surjective_pairing in Hin.
  destruct c; try destruct Hc.
  destruct (creations_need_finalizer "" (sysctl_state 1) _ k (sysctl_state_reachable 1) Hin I)
    as (p & Hp & _ & Hf & Hk).
  exists p. split; [exact Hp|]. split; [exact Hf|]. symmetry. exact Hk.
Defined.

Abbreviation writing := (before_write (PSysctl created) node_b_report).
Abbreviation wrote := (after_write (PSysctl created) node_b_report).
Abbreviation stored := (written (PSysctl created) node_b_report).

Lemma writing_reachable : reachable "" (sys_of writing).
Proof. by apply before_write_reachable. Qed.

Lemma writing_stored : writing.2.1 !! (KSysctl, small_key) = Some (PSysctl created).
Proof. vm_compute. reflexivity. Qed.

Lemma wrote_stored : wrote.2.1 !! (KSysctl, small_key) = Some stored.
Proof. vm_compute. reflexivity. Qed.

Lemma writing_step : handler_step "" (sys_of writing) (sys_of wrote).
Proof. apply write_step; [reflexivity..|]. vm_compute. reflexivity. Qed.

Lemma handlers_keep_user_fields_witness :
  pr_spec stored = inl (sp_Spec created) /\ om_DeletionTimestamp (pr_meta stored) = None.
Proof.
  pose proof (handlers_keep_user_fields "" (sys_of writing) (sys_of wrote) (KSysctl, small_key) (PSysctl created)
    writing_reachable writing_step writing_stored) as H.
  change (sys_store (sys_of wrote)) with wrote.2.1 in H. rewrite wrote_stored in H.
  destruct H as (Hs & _ & _ & Hd & _). split; [exact Hs|exact Hd].
Defined.

Lemma no_lost_updates_witness :
  exists rq r now, In rq [node_b_report] /\ payload rq = Some r /\ report_target r = (KSysctl, small_key) /\
    sr_Node r = "node-b" /\
    entry_of "node-b" (statuses stored) = Some (new_entry r (report_phase r) now).
Proof.
  destruct (no_lost_updates "" (sys_of writing) (sys_of wrote) (KSysctl, small_key) (PSysctl created) stored "node-b"
    writing_reachable (or_introl writing_step) writing_stored wrote_stored) as [H|H].
  - exfalso. vm_compute in H. discriminate H.
  - exact H.
Defined.

(** After the write node-b has an entry, and the counters count it. *)
Lemma statuses_well_formed_witness : fst (counts stored) + snd (counts stored) = 1.
Proof.
  destruct (statuses_well_formed "" (sys_of wrote) (KSysctl, small_key) stored
    (after_write_reachable (PSysctl created) node_b_report eq_refl eq_refl) wrote_stored) as (_ & _ & _ & H).
  destruct H as [_ H]; [vm_compute; reflexivity|]. rewrite H. vm_compute. reflexivity.
Defined.

Lemma held_spec (l : list profile) spec n p : map pr_spec l = repeat spec n -> In p l -> pr_spec p = spec.
Proof. intros E Hp%(in_map pr_spec). rewrite E in Hp. by apply repeat_spec in Hp. Qed.

Lemma plain_spec p q : pr_spec p = pr_spec q -> plain_profile q -> plain_profile p.
Proof. by destruct p as [p|p], q as [q|q]; try done; intros [= E]; unfold plain_profile; rewrite E. Qed.

Lemma content_spec p q : pr_spec p = pr_spec q -> pr_content p = pr_content q.
Proof.
  destruct p as [p|p], q as [q|q]; try done; intros [= E]; unfold pr_content, renderSysctlConf, renderScripts;
    by rewrite E.
Qed.

(** The deletions that are about to be sent are justified by the runs on node-b. *)
Lemma teardown_is_true_witness :
  (exists p, In p (g_held (sys_ghost (script_state 3))) /\
    exists nodes, nodes <> [] /\ forall n, In n nodes ->
      run_node script_run = node_Name n /\ carried_out script_run p) /\
  (exists p, In p (g_held (sys_ghost (sysctl_state 4))) /\
    exists nodes, nodes <> [] /\ forall n, In n nodes ->
      run_node node_b_run = node_Name n /\ carried_out node_b_run p).
Proof.
  split.
  - destruct script_facts as (E & Hrec & Hlive & Hspec).
    destruct (next_in _ (reconciling (PScript created_script) script_report (script_Reconcile "" bootstrap_key) 3).2 _ E)
      as [k Hin]. rewrite <- surjective_pairing in Hin.
    destruct (teardown_is_true "" (script_state 3) [script_run] runner_key k
      (script_state_reachable 3)) as (p & Hp & _ & Hcase).
    + intros r [<-|[]]. split; [exact script_ran|reflexivity].
    + intros rq rep Hrq _ _. rewrite Hrec in Hrq. destruct Hrq as [<-|[]]. exists script_run.
      split; [by left|exact script_sent].
    + intros p Hp. apply (plain_spec p (PScript created_script)); [exact (held_spec _ _ 2 p Hspec Hp)|repeat constructor].
    + intros p r Hp [<-|[]] _. symmetry. exact (content_spec p (PScript created_script) (held_spec _ _ 2 p Hspec Hp)).
    + exact Hin.
    + exists p. split; [exact Hp|]. destruct Hcase as [Hd|(sel & nodes & _ & _ & Hne & H)];
        [exfalso; exact (none_deleting _ 2 p Hlive Hp Hd)|].
      exists nodes. split; [exact Hne|]. intros n Hn. destruct (H n Hn) as (r & [<-|[]] & Hnode & _ & Hv). by split.
  - destruct sysctl_facts as (E & Hrec & Hlive & Hspec).
    destruct (next_in _ (reconciling (PSysctl created) node_b_report (Reconcile "" small_key) 4).2 _ E) as [k Hin].
    rewrite <- surjective_pairing in Hin.
    destruct (teardown_is_true "" (sysctl_state 4) [node_b_run] applier_key k
      (sysctl_state_reachable 4)) as (p & Hp & _ & Hcase).
    + intros r [<-|[]]. split; [exact node_b_ran|reflexivity].
    + intros rq rep Hrq _ _. rewrite Hrec in Hrq. destruct Hrq as [<-|[]]. exists node_b_run.
      split; [by left|exact node_b_sent].
    + intros p Hp. apply (plain_spec p (PSysctl created)); [exact (held_spec _ _ 2 p Hspec Hp)|repeat constructor].
    + intros p r Hp [<-|[]] _. symmetry. exact (content_spec p (PSysctl created) (held_spec _ _ 2 p Hspec Hp)).
    + exact Hin.
    + exists p. split; [exact Hp|]. destruct Hcase as [Hd|(sel & nodes & _ & _ & Hne & H)];
        [exfalso; exact (none_deleting _ 2 p Hlive Hp Hd)|].
      exists nodes. split; [exact Hne|]. intros n Hn. destruct (H n Hn) as (r & [<-|[]] & Hnode & _ & Hv). by split.
Defined.
